(* ===== verification/_CoqProject ===== *)
-Q . S2P
Prelude.v
GoLib.v
BudgetVocab.v
BudgetTypes.v
BudgetLadder.v
BudgetPolicy.v
BudgetObservation.v
BudgetPage.v
BudgetPageCodec.v
BudgetPageReader.v
BudgetPageAccept.v
BudgetPageCarry.v
BudgetPageWriter.v
BudgetSeqlock.v
BudgetAnnotation.v
GoStrings.v
GoNumbers.v
BudgetPageText.v
Sentinels.v
Artifact.v
GoRunes.v
NetIP.v
Interconnect.v
InterconnectAnnotation.v
NetService.v
NetMesh.v
QuarantineText.v
QuarantineRegistry.v
TestResults.v
TestStream.v
Storage.v
Runtime.v
DeepCopy.v
DeepCopyTypes.v
Capability.v
RuntimeContract.v
RuntimeServe.v
CrdSchema.v
CrdManifests.v
ApiJSON.v
ApiFits.v
CrdAdmit.v
ApiDecode.v
CrdPolicy.v
CrdNodeBudget.v
CrdNet.v
CrdUpdate.v
ApiNames.v
ApiScheme.v
WireJSON.v
JSONText.v
BudgetWire.v
BudgetText.v
InterconnectText.v
CrdMLX.v
