(* ===== verification/Prelude.v ===== *)
(** * k3sm.io/apis: a verification of the API contracts

    ** The program

    k3sm.io/apis is the Go module in which the k3sm components agree on their
    contracts.  It holds API types with their defaults, validation and deep
    copies, and the code of the formats several programs read and write: the
    budget page a node agent shares with local readers, the annotations a node
    and a controller exchange, artifact paths and allow-sets, link addresses,
    mesh peers, storage directories, runtime handlers, the CRD manifests that put
    the types on an API server, and the gate that judges a test run.  Its parts meet in a few places: an observation that passes the
    budget validation becomes the snapshot the page encoder writes and the
    report the annotation carries; a policy is validated, clamped by the
    compiled floors and selected for a node; interconnect addresses and mesh
    endpoints use the same link-address derivation; the manifests state for the
    API server, in schemas and CEL rules, what the types and the validators
    state in Go; the gate feeds the events
    of a stream through a collector to the verdict, which reads the quarantine
    registry.

    ** How the code is modelled

    A Go function is a Rocq function of the same name (a method [T.M] is
    [T_M]), a struct a record with its fields in order, an error a value of
    [error] with the sentinels it wraps, a fallible function one with result
    [check] or [res].  A slice is a list, a map a [gmap], a set kept in a map a
    [gset]; a nil slice or pointer that the code tells apart from an empty one
    is an [option].  A loop is [each], [each_seen] or a [Fixpoint] of its own;
    int64 and uint64 are [Z] with the wrap-around written out; memory is a list
    of bytes.  State is passed explicitly, and the memory of the deep copies is
    a heap with aliasing.

    ** The files

    - Prelude, GoLib, GoStrings, GoNumbers, GoRunes, Sentinels, NetIP: errors,
      loops, words and buffers; the functions of Go's standard library the code
      calls (strings, strconv, utf8, regexp by derivatives, sort, netip),
      modelled and, where theorems need it, characterised.
    - WireJSON, JSONText: encoding/json: the trees of Go values and what a tree
      assigns to a type, and the text syntax, its writer with its escapes and
      its reader with strings, numbers and nesting.
    - BudgetVocab, BudgetTypes, BudgetLadder, BudgetPolicy, BudgetObservation:
      src/budget/v1alpha1 vocab.go, nodebudget.go, nodebudgetpolicy.go,
      validate.go and floors.go.
    - BudgetPage, BudgetPageCodec, BudgetPageReader, BudgetPageAccept,
      BudgetPageCarry: page.go, page_codes.go, page_errors.go: the layout table,
      the encoder, the reader the repository's tests use, the link from
      validation to encoding, and the snapshots a page can carry.
      BudgetPageText: the text of the layout descriptor.
    - BudgetPageWriter, BudgetSeqlock: PageWriter's Resume and Publish as lists
      of 8-byte stores, and a step relation over writers, stores, crashes and
      takeovers.
    - BudgetAnnotation: annotationpayload.go, annotations.go.  BudgetWire,
      BudgetText: its payloads as Go values and as JSON text.
    - Artifact: src/artifact/v1 path.go, allowset.go, mediatypes.go.
    - Interconnect, InterconnectAnnotation: src/net/v1alpha1 linkip.go,
      interconnectaddr.go, interconnect.go, interconnectannotation.go,
      interconnectledger.go.  InterconnectText: the payloads and the ledger file
      as JSON text.
    - NetService, NetMesh: src/net/v1 service.go, dns.go, mesh.go.
    - QuarantineText, QuarantineRegistry, TestResults, TestStream:
      src/hack/lib/testresults.go: text helpers, registry, verdict, collector
      and exit status.
    - Storage: src/storage/v1/storage.go.  Runtime: src/runtime/v1 handler.go,
      labels.go, wasm.go.  Capability: src/k3smtest capability.go, skip.go.
      RuntimeContract, RuntimeServe: src/k3smtest/runtimecontract, the cases and
      the in-memory server they run against.
    - DeepCopy, DeepCopyTypes: a heap of cells and tables, and every
      DeepCopyInto, DeepCopy and DeepCopyObject of src/net, src/updates,
      src/mlx, src/helm and src/budget.
    - CrdSchema, CrdManifests: the language of the manifests (structural
      schemas, defaults, CEL rules, patterns) with what an API server does with
      an object ([admission]: prune, fill defaults, validate, transition rules
      included), and the nine manifests of src/config/crd in it.
    - ApiJSON, ApiDecode: the JSON names, options and types of the fields of
      every API type, and encoding/json over them.  ApiFits: the manifests
      against these types.
    - CrdAdmit, CrdPolicy, CrdNodeBudget, CrdNet, CrdUpdate, CrdMLX: the
      manifests against the validators, the writes of an Update, and the models
      the MLXModel manifest admits.
    - ApiNames: the published labels, annotations, phases and conditions.
      ApiScheme: scheme registration (register.go and its like) and
      src/config/crd/embed.go.

    ** What the theorems show

    - The page.  The layout is sound and only grows at its end; the encoder
      puts every field in its place and succeeds exactly on the snapshots whose
      names, counts, words and numbers the page has room and codes for, which
      includes every validated observation; what it writes decodes to what was
      published.  On a page that starts zeroed or with this ABI major, in every
      interleaving of stores, crashes and takeovers a reader that sees one even
      sequence number twice has read one publication (on the page of another
      major, whose sequence number [Resume] neither continues nor clears,
      [stale_seq_mixes] shows a mixed read), every header between two stores is valid, and no crash
      wedges the page: the next writer recovers it in at most 280 stores.  The
      notification word moves exactly when it must.  A reader of the documented
      descriptor format finds every field of an encoded page, and a later minor
      only appends to the descriptor.
    - Validation.  Each validator accepts exactly the values described by a
      declarative predicate, and its errors wrap the documented sentinel;
      floors clamp, are idempotent and keep a valid policy valid; selection
      returns the matching policy of highest priority, the lesser name on a tie.
    - Annotations.  The strict decoder accepts exactly the bounded texts of the
      current schema without repeated or inexact keys; the token walk reports
      the repeated key that the recursive reading of the tree does.  Over the JSON text itself [Parse]
      returns what [Encode] wrote, for the budget and the interconnect payloads
      and the ledger file; an interconnect reader ignores unknown members and
      tells another schema apart whatever its fields; a policy the API server
      admitted and [SelectPolicy] picked reaches the node as it was written, or is
      refused when its text exceeds the bound.
    - Paths, addresses, storage, DNS, mesh, handlers: accepted sets never
      collide or nest under case folding, derived addresses are distinct and in
      range, claims never share or leave their directory, options cannot inject
      a line, handler lookup fails closed.
    - The gate.  It always returns a status, 2 exactly on unusable flags; a green exit means no failure was
      seen, and an excused failure met every condition of its registry entry.
    - Deep copies.  A copy stands for the same value in new memory and neither
      side sees later writes to the other.
    - The manifests.  Each describes the objects of its Go type, which survive
      the server up to what JSON cannot tell apart; the policy manifest admits exactly what [Validate] accepts and
      [ApplyFloors] leaves alone; valid statuses, peers and interconnects are
      admitted, stored as written or with the defaults the code computes; the
      model manifest admits exactly the models its rules describe; over
      any sequence of writes an Update keeps its version and its cancel; enums
      and limits are the published constants; registration serves each manifest
      by its Go types and leaves the rest of a scheme as it was.
    - The contract suite accepts every runtime that keeps the contract, served
      by [ServeRuntime] in every interleaving with its goroutine, leaves no pod
      behind and no server running.

    ** Interfaces

    [OpenEnum], [Laddered], [EncodingJSON], [Payload], [AnnotationJSON],
    [LedgerJSON], [External], [Accounts], [Runtime], [GRPC] and [Scheme] are
    classes that state what one part promises another; the clients' theorems
    are proved against them.  The JSON classes have instances over the text of
    JSONText ([go_json], [report_payload], [desired_payload], [report_json],
    [desired_json], [ledger_json]).

    ** Fuel and bounds

    Two functions take fuel.  The loop of shellSplit has one unit more than the
    runes of its input, each turn consuming a rune, which [shell_loop_total]
    proves enough; the reader of JSON text has one more than twice the runes of
    its text, and [fuel_enough] proves that more fuel reads the same.  Every
    other loop is structural.  The seqlock theorem bounds a read by 2^62
    steps, so that the 64-bit sequence number cannot wrap all the way round
    within it.

    ** Parameters

    The text of a time and its reading, with the documented round trip; the
    copies of Kubernetes types (ObjectMeta, ListMeta, Time, Condition, Quantity;
    class [External]); the decoding of one test event, over any choice of which
    the gate's theorems hold; the clock and files of the gate's run; the runtime
    behind the contract suite's client and gRPC between the two (classes
    [Runtime] and [GRPC]); the server's date-time format, apimachinery's scheme
    and the text of an embedded file.  Each theorem with such a parameter has a
    witness with a concrete one.

    ** Not modelled

    The generated protobuf and gRPC code apart from the few accessors used, the
    descriptions, printer columns and short names of the manifests (they carry
    no behaviour of the repository), the metadata an API server keeps beside an
    object, the shim's version constant, the wording of printed lines beyond
    format and arguments, and what encoding/json does with a repeated key in a
    lenient reading, where it merges the members (the strict decoder refuses
    such texts, the theorems on the lenient one are about others). *)
From Stdlib Require Export Ascii String ZArith Lia Sorted Permutation.
From stdpp Require Export base tactics list strings gmap pretty.
#[global] Open Scope string_scope.
#[global] Open Scope list_scope.
#[global] Open Scope Z_scope.

(** ** Errors

    A Go [error] is a sentinel made by [errors.New] and bound to a package
    variable, or a value made by [fmt.Errorf], whose format may wrap one or two
    other errors with the %w verb.  [errors_is] is [errors.Is]: a walk of the
    wrapped errors for a sentinel. *)
Inductive fmtarg :=
| ArgS (s : string)
| ArgZ (z : Z)
| ArgB (b : bool)
| ArgL (l : list string).

Inductive error :=
| ErrNew (name : string)
| Errorf (fmt : string) (args : list fmtarg)
| ErrorfW (fmt : string) (args : list fmtarg) (e : error)
| ErrorfWW (fmt : string) (args : list fmtarg) (e1 e2 : error).

Fixpoint errors_is (e : error) (target : string) : bool :=
  match e with
  | ErrNew n => String.eqb n target
  | Errorf _ _ => false
  | ErrorfW _ _ e' => errors_is e' target
  | ErrorfWW _ _ e1 e2 => errors_is e1 target || errors_is e2 target
  end.

(** The result of a function that returns only an [error]: [None] is nil. *)
Abbreviation check := (option error).

(** The result of a function that returns a value and an [error]. *)
Inductive res (A : Type) :=
| Ok (a : A)
| Err (e : error).
Arguments Ok {A} _.
Arguments Err {A} _.

Definition res_bind {A B} (r : res A) (k : A -> res B) : res B :=
  match r with Ok a => k a | Err e => Err e end.

Definition is_ok {A} (r : res A) : bool := match r with Ok _ => true | Err _ => false end.
Definition ok_or {A} (d : A) (r : res A) : A := match r with Ok a => a | Err _ => d end.
Lemma ok_or_spec {A} (d : A) (r : res A) : is_ok r = true -> r = Ok (ok_or d r).
Proof. by destruct r. Qed.

(** [if cond { return e }]; [if err := c; err != nil { return err }]. *)
Definition failif (b : bool) (e : error) : check := if b then Some e else None.
Definition andthen (c k : check) : check := match c with None => k | Some e => Some e end.
(** [if err := c; err != nil { return f(err) }]. *)
Definition wrapc (f : error -> error) (c : check) : check := f <$> c.
(** [if err := c; err != nil { return _, err }; k]. *)
Definition checked {A} (c : check) (k : res A) : res A :=
  match c with None => k | Some e => Err e end.

Declare Scope go_scope.
Delimit Scope go_scope with go.
#[global] Open Scope go_scope.
Notation "c ;? k" := (andthen c k) (at level 85, right associativity) : go_scope.
Notation "'let?' x := r 'in' k" := (res_bind r (fun x => k))
  (at level 10, x name, r at level 100, k at level 200) : go_scope.
Notation "c ;! k" := (checked c k) (at level 86, right associativity) : go_scope.

(** ** Loops

    [each i f l] runs a loop body over a slice, stopping at the first error;
    the body sees the index.  [each_seen] is the same loop with a [seen] set
    that the body reads and to which the key of each passed element is added. *)
Section Loops.
Context {A : Type}.

Fixpoint each (i : Z) (f : Z -> A -> check) (l : list A) : check :=
  match l with
  | [] => None
  | x :: l' => f i x ;? each (i + 1) f l'
  end.

Context {K : Type} `{Countable K}.

Fixpoint each_seen (i : Z) (seen : gset K) (f : Z -> gset K -> A -> check)
    (key : A -> K) (l : list A) : check :=
  match l with
  | [] => None
  | x :: l' => f i seen x ;? each_seen (i + 1) ({[key x]} ∪ seen) f key l'
  end.
End Loops.

Definition len {A} (l : list A) : Z := Z.of_nat (length l).
Definition slen (s : string) : Z := Z.of_nat (String.length s).

Lemma andthen_None c k : (c ;? k) = None <-> c = None /\ k = None.
Proof. destruct c; naive_solver. Qed.
Lemma andthen_Some c k e : (c ;? k) = Some e <-> c = Some e \/ c = None /\ k = Some e.
Proof. destruct c; naive_solver. Qed.
Lemma failif_None b e : failif b e = None <-> b = false.
Proof. destruct b; naive_solver. Qed.
Lemma wrapc_None f c : wrapc f c = None <-> c = None.
Proof. destruct c; naive_solver. Qed.
Lemma checked_Ok {A} c (k : res A) a : (c ;! k) = Ok a <-> c = None /\ k = Ok a.
Proof. destruct c; naive_solver. Qed.
Lemma res_bind_Ok {A B} (r : res A) (k : A -> res B) b :
  res_bind r k = Ok b <-> exists a, r = Ok a /\ k a = Ok b.
Proof. destruct r; naive_solver. Qed.

Lemma failif_Some b e e' : failif b e = Some e' <-> b = true /\ e = e'.
Proof. destruct b; naive_solver. Qed.
Lemma wrapc_Some f c e : wrapc f c = Some e <-> exists e', c = Some e' /\ f e' = e.
Proof. destruct c; naive_solver. Qed.
Lemma checked_Err {A} c (k : res A) e : (c ;! k) = Err e <-> c = Some e \/ c = None /\ k = Err e.
Proof. destruct c; naive_solver. Qed.
Lemma res_bind_Err {A B} (r : res A) (k : A -> res B) e :
  res_bind r k = Err e <-> r = Err e \/ exists a, r = Ok a /\ k a = Err e.
Proof. destruct r; naive_solver. Qed.

Lemma each_None {A} (f : Z -> A -> check) (P : A -> Prop) l i :
  (forall j x, f j x = None <-> P x) -> each i f l = None <-> Forall P l.
Proof.
  intros Hf. revert i. induction l as [|x l IH]; intros i; simpl.
  - split; constructor.
  - rewrite andthen_None, Forall_cons, Hf, IH. done.
Qed.

Lemma each_None_weak {A} (f : Z -> A -> check) l i :
  (forall j x, x ∈ l -> f j x = None) -> each i f l = None.
Proof.
  revert i. induction l as [|x l IH]; intros i Hf; [done|]. simpl. apply andthen_None. split.
  - apply Hf. left.
  - apply IH. intros j y Hy. apply Hf. by right.
Qed.

Lemma each_seen_None {A K} `{Countable K} (f : Z -> gset K -> A -> check)
    (key : A -> K) (P : A -> Prop) l i seen :
  (forall j sn x, f j sn x = None <-> P x /\ key x ∉ sn) ->
  each_seen i seen f key l = None <->
    Forall P l /\ NoDup (key <$> l) /\ (forall x, x ∈ l -> key x ∉ seen).
Proof.
  intros Hf. revert i seen. induction l as [|x l IH]; intros i seen; simpl.
  - split; [intros _|done]. repeat split; try constructor. set_solver.
  - rewrite andthen_None, Forall_cons, NoDup_cons, Hf, IH. split.
    + intros [[HP Hx] (HF & HN & Hs)]. repeat split; try done.
      * intros [y [Hy Hyl]]%list_elem_of_fmap. apply (Hs y Hyl). set_solver.
      * set_solver.
    + intros [[HP HF] [[Hx HN] Hs]]. repeat split; try done.
      * apply Hs. left.
      * intros y Hy Hin. apply elem_of_union in Hin as [Hin|Hin].
        -- apply elem_of_singleton in Hin. apply Hx. rewrite <- Hin.
           apply list_elem_of_fmap. by exists y.
        -- apply (Hs y); [by right|done].
Qed.

Lemma each_seen_None_empty {A K} `{Countable K} (f : Z -> gset K -> A -> check)
    (key : A -> K) (P : A -> Prop) l i :
  (forall j sn x, f j sn x = None <-> P x /\ key x ∉ sn) ->
  each_seen i ∅ f key l = None <-> Forall P l /\ NoDup (key <$> l).
Proof. intros Hf. rewrite (each_seen_None f key P) by done. set_solver. Qed.

Lemma forallb_Forall {A} (P : A -> bool) l : forallb P l = true <-> Forall (fun x => P x = true) l.
Proof. rewrite forallb_forall, Forall_forall. by setoid_rewrite list_elem_of_In. Qed.

Create Rewrite HintDb checks.
#[export] Hint Rewrite andthen_None failif_None wrapc_None @checked_Ok : checks.

(** ** Integers of a machine width

    An [int64] is a [Z] with [in_i64]; the conversions between [int64] and
    [uint64] wrap. *)
Definition in_i64 (z : Z) : Prop := - 2 ^ 63 <= z < 2 ^ 63.
Definition in_i32 (z : Z) : Prop := - 2 ^ 31 <= z < 2 ^ 31.
Definition u64 (z : Z) : Z := z mod 2 ^ 64.
Definition i64_of_u64 (w : Z) : Z := if w <? 2 ^ 63 then w else w - 2 ^ 64.
Definition i32_of (z : Z) : Z := (z + 2 ^ 31) mod 2 ^ 32 - 2 ^ 31.
Definition MaxInt64 : Z := 2 ^ 63 - 1.
Definition MinInt64 : Z := - 2 ^ 63.

Lemma u64_range z : 0 <= u64 z < 2 ^ 64.
Proof. apply Z.mod_pos_bound. lia. Qed.
Lemma u64_small z : 0 <= z < 2 ^ 64 -> u64 z = z.
Proof. apply Z.mod_small. Qed.
Lemma i64_u64 z : in_i64 z -> i64_of_u64 (u64 z) = z.
Proof.
  unfold in_i64, i64_of_u64, u64. intros Hz.
  destruct (Z_lt_ge_dec z 0).
  - rewrite <- (Z.mod_add z 1), Z.mod_small by lia. case (Z.ltb_spec); lia.
  - rewrite Z.mod_small by lia. case (Z.ltb_spec); lia.
Qed.
Lemma i32_of_id z : in_i32 z -> i32_of z = z.
Proof. unfold in_i32, i32_of. intros Hz. rewrite Z.mod_small; lia. Qed.

(** ** Bytes, little-endian words and buffers *)
Abbreviation byte := ascii.
Definition byte_of_Z (z : Z) : byte := ascii_of_N (Z.to_N (z mod 256)).
Definition Z_of_byte (b : byte) : Z := Z.of_N (N_of_ascii b).
Definition zero_byte : byte := byte_of_Z 0.

Lemma Z_of_byte_of_Z z : Z_of_byte (byte_of_Z z) = z mod 256.
Proof.
  unfold Z_of_byte, byte_of_Z. pose proof (Z.mod_pos_bound z 256 eq_refl).
  rewrite N_ascii_embedding by lia. lia.
Qed.
Lemma Z_of_byte_range b : 0 <= Z_of_byte b < 256.
Proof. unfold Z_of_byte. pose proof (N_ascii_bounded b). lia. Qed.
Lemma byte_of_Z_of_byte b : byte_of_Z (Z_of_byte b) = b.
Proof.
  pose proof (Z_of_byte_range b) as Hb. unfold byte_of_Z. rewrite Z.mod_small by lia.
  unfold Z_of_byte. rewrite N2Z.id. apply ascii_N_embedding.
Qed.

(** [binary.LittleEndian.PutUint16/32/64] write the low [n] bytes of a word;
    [Uint16/32/64] read them back. *)
Fixpoint le_bytes (n : nat) (w : Z) : list byte :=
  match n with
  | O => []
  | S n' => byte_of_Z w :: le_bytes n' (w / 256)
  end.
Fixpoint le_word (bs : list byte) : Z :=
  match bs with
  | [] => 0
  | b :: bs' => Z_of_byte b + 256 * le_word bs'
  end.

Lemma length_le_bytes n w : length (le_bytes n w) = n.
Proof. revert w. induction n; intros w; simpl; congruence. Qed.
Lemma le_word_bytes n w : le_word (le_bytes n w) = w mod 256 ^ Z.of_nat n.
Proof.
  revert w. induction n as [|n IH]; intros w; cbn [le_bytes le_word].
  - by rewrite Z.mod_1_r.
  - rewrite IH, Z_of_byte_of_Z, Nat2Z.inj_succ, Z.pow_succ_r by lia.
    rewrite Z.rem_mul_r by lia. lia.
Qed.
Lemma le_bytes_word bs : le_bytes (length bs) (le_word bs) = bs.
Proof.
  induction bs as [|b bs IH]; [done|]. cbn [le_word length le_bytes].
  pose proof (Z_of_byte_range b) as Hb.
  rewrite (Z.mul_comm 256), Z.div_add, (Z.div_small (Z_of_byte b)) by lia.
  rewrite Z.add_0_l, IH. f_equal.
  rewrite <- (byte_of_Z_of_byte b) at 2. unfold byte_of_Z. do 2 f_equal.
  rewrite Z.mod_add by lia. done.
Qed.
Lemma le_word_range bs : 0 <= le_word bs < 256 ^ Z.of_nat (length bs).
Proof. rewrite <- (le_bytes_word bs), le_word_bytes, length_le_bytes. apply Z.mod_pos_bound. lia. Qed.

(** A buffer is a list of bytes; [blit off bs m] overwrites [bs] at [off], and
    [slice off n m] reads [n] bytes there.  A [blit] past the end of the
    buffer, which panics in Go, leaves it unchanged. *)
Definition blit (off : nat) (bs m : list byte) : list byte :=
  if (off + length bs <=? length m)%nat
  then take off m ++ bs ++ drop (off + length bs) m else m.
Definition slice (off n : nat) (m : list byte) : list byte := take n (drop off m).

Lemma length_blit off bs m : length (blit off bs m) = length m.
Proof.
  unfold blit. case (Nat.leb_spec); [|done]. intros.
  rewrite !length_app, length_take, length_drop. lia.
Qed.
Lemma lookup_blit_in off bs m i :
  (off + length bs <= length m)%nat -> (off <= i < off + length bs)%nat ->
  blit off bs m !! i = bs !! (i - off)%nat.
Proof.
  intros Hm Hi. unfold blit. rewrite (proj2 (Nat.leb_le _ _)) by done.
  rewrite lookup_app_r by (rewrite length_take; lia).
  rewrite lookup_app_l by (rewrite length_take; lia).
  f_equal. rewrite length_take. lia.
Qed.
Lemma lookup_blit_out off bs m i :
  (i < off \/ off + length bs <= i)%nat -> blit off bs m !! i = m !! i.
Proof.
  intros Hi. unfold blit. case (Nat.leb_spec); [|done]. intros Hm. destruct Hi.
  - rewrite lookup_app_l by (rewrite length_take; lia). by rewrite lookup_take_lt.
  - rewrite lookup_app_r by (rewrite length_take; lia).
    rewrite lookup_app_r by (rewrite length_take; lia).
    rewrite lookup_drop, length_take. f_equal. lia.
Qed.
Lemma slice_ext off n m m' :
  (forall i, (off <= i < off + n)%nat -> m !! i = m' !! i) ->
  slice off n m = slice off n m'.
Proof.
  intros Hm. unfold slice. apply list_eq. intros j.
  destruct (decide (j < n)%nat).
  - rewrite !lookup_take_lt, !lookup_drop by done. apply Hm. lia.
  - rewrite !lookup_take_ge by lia. done.
Qed.
Lemma slice_blit_eq off bs m :
  (off + length bs <= length m)%nat -> slice off (length bs) (blit off bs m) = bs.
Proof.
  intros Hm. apply list_eq. intros j. unfold slice. destruct (decide (j < length bs)%nat).
  - rewrite lookup_take_lt, lookup_drop, lookup_blit_in by lia. f_equal. lia.
  - rewrite lookup_take_ge by lia. symmetry. apply lookup_ge_None. lia.
Qed.
Lemma slice_blit_ne off bs m off' n :
  (off' + n <= off \/ off + length bs <= off')%nat ->
  slice off' n (blit off bs m) = slice off' n m.
Proof. intros Ho. apply slice_ext. intros i Hi. apply lookup_blit_out. lia. Qed.
Lemma length_slice off n m : (off + n <= length m)%nat -> length (slice off n m) = n.
Proof. intros. unfold slice. rewrite length_take, length_drop. lia. Qed.

(** [atomic.LoadUint64] and [atomic.StoreUint64] on the 8-byte word at [off]. *)
Definition load64 (off : nat) (m : list byte) : Z := le_word (slice off 8 m).
Definition store64 (off : nat) (w : Z) (m : list byte) : list byte := blit off (le_bytes 8 w) m.

Lemma length_store64 off w m : length (store64 off w m) = length m.
Proof. apply length_blit. Qed.
Lemma load_store64_eq off w m :
  (off + 8 <= length m)%nat -> load64 off (store64 off w m) = u64 w.
Proof.
  intros Hm. unfold load64, store64.
  pose proof (slice_blit_eq off (le_bytes 8 w) m) as Hs. rewrite length_le_bytes in Hs.
  rewrite Hs, le_word_bytes by done. done.
Qed.
Lemma load_store64_ne off off' w m :
  (off' + 8 <= off \/ off + 8 <= off')%nat -> load64 off' (store64 off w m) = load64 off' m.
Proof. intros Ho. unfold load64, store64. rewrite slice_blit_ne; [done|]. by rewrite length_le_bytes. Qed.

(** ** Strings as byte sequences *)
Definition bytes_of (s : string) : list byte := list_ascii_of_string s.
Definition string_of (bs : list byte) : string := string_of_list_ascii bs.

Lemma string_of_bytes_of s : string_of (bytes_of s) = s.
Proof. apply string_of_list_ascii_of_string. Qed.
Lemma bytes_of_string_of bs : bytes_of (string_of bs) = bs.
Proof. apply list_ascii_of_string_of_list_ascii. Qed.
Lemma length_bytes_of s : length (bytes_of s) = String.length s.
Proof. induction s; simpl; congruence. Qed.

(** ** Tactics *)

(** Reflect boolean comparisons of hypotheses and goal into propositions. *)
Ltac reflect_bools :=
  repeat match goal with
  | H : context [andb _ _ = true] |- _ => rewrite andb_true_iff in H
  | H : context [orb _ _ = false] |- _ => rewrite orb_false_iff in H
  | H : context [negb _ = true] |- _ => rewrite negb_true_iff in H
  | H : context [negb _ = false] |- _ => rewrite negb_false_iff in H
  end.
