(* ===== verification/GoLib.v ===== *)
(** * The parts of Go's standard library the code calls

    Byte-string functions of package strings, on Go strings (byte sequences),
    and a matcher for the anchored regular expressions the code compiles:
    derivatives of a regular expression, proved equivalent to the usual
    inductive semantics. *)
From S2P Require Import Prelude.

(** ** Package strings *)
Fixpoint HasPrefix (s pre : string) : bool :=
  match pre, s with
  | "", _ => true
  | String a pre', String b s' => Ascii.eqb a b && HasPrefix s' pre'
  | _, "" => false
  end.

Definition HasSuffix (s suf : string) : bool :=
  (String.length suf <=? String.length s)%nat &&
  String.eqb (String.substring (String.length s - String.length suf) (String.length suf) s) suf.

Definition is_upper (c : ascii) : bool := let n := Z_of_byte c in (65 <=? n) && (n <=? 90).
Definition is_lower (c : ascii) : bool := let n := Z_of_byte c in (97 <=? n) && (n <=? 122).
Definition is_digit (c : ascii) : bool := let n := Z_of_byte c in (48 <=? n) && (n <=? 57).

(** [strings.ToLower] on a string of ASCII bytes. *)
Definition lower_byte (c : ascii) : ascii :=
  if is_upper c then byte_of_Z (Z_of_byte c + 32) else c.
Fixpoint ToLower (s : string) : string :=
  match s with
  | "" => ""
  | String c s' => String (lower_byte c) (ToLower s')
  end.

(** [strings.Split] by a one-byte separator: always at least one piece. *)
Fixpoint Split (s : string) (sep : ascii) : list string :=
  match s with
  | "" => [""]
  | String c s' =>
      if Ascii.eqb c sep then "" :: Split s' sep
      else match Split s' sep with
           | [] => [String c ""]
           | p :: ps => String c p :: ps
           end
  end.

(** [strings.Count] of a one-byte separator. *)
Fixpoint Count (s : string) (sep : ascii) : Z :=
  match s with
  | "" => 0
  | String c s' => (if Ascii.eqb c sep then 1 else 0) + Count s' sep
  end.

(** [strings.Join] by a one-byte separator. *)
Fixpoint Join (ps : list string) (sep : ascii) : string :=
  match ps with
  | [] => ""
  | [p] => p
  | p :: ps' => p +:+ String sep (Join ps' sep)
  end.

Fixpoint sforall (P : ascii -> bool) (s : string) : bool :=
  match s with "" => true | String c s' => P c && sforall P s' end.

(** ** Regular expressions *)
Module Regexp.
Inductive re :=
| Empty                       (* matches nothing *)
| Eps
| Class (P : ascii -> bool)   (* a bracket expression *)
| Seq (r1 r2 : re)
| Alt (r1 r2 : re)
| Star (r : re).

Definition Opt (r : re) : re := Alt r Eps.

Fixpoint nullable (r : re) : bool :=
  match r with
  | Empty => false
  | Eps => true
  | Class _ => false
  | Seq r1 r2 => nullable r1 && nullable r2
  | Alt r1 r2 => nullable r1 || nullable r2
  | Star _ => true
  end.

Fixpoint deriv (c : ascii) (r : re) : re :=
  match r with
  | Empty => Empty
  | Eps => Empty
  | Class P => if P c then Eps else Empty
  | Seq r1 r2 =>
      if nullable r1 then Alt (Seq (deriv c r1) r2) (deriv c r2) else Seq (deriv c r1) r2
  | Alt r1 r2 => Alt (deriv c r1) (deriv c r2)
  | Star r => Seq (deriv c r) (Star r)
  end.

(** [MatchString] of the pattern [^r$]. *)
Fixpoint MatchString (r : re) (s : string) : bool :=
  match s with
  | "" => nullable r
  | String c s' => MatchString (deriv c r) s'
  end.

(** The language of an expression. *)
Inductive lang : re -> list ascii -> Prop :=
| lang_eps : lang Eps []
| lang_class P c : P c = true -> lang (Class P) [c]
| lang_seq r1 r2 s1 s2 : lang r1 s1 -> lang r2 s2 -> lang (Seq r1 r2) (s1 ++ s2)
| lang_alt_l r1 r2 s : lang r1 s -> lang (Alt r1 r2) s
| lang_alt_r r1 r2 s : lang r2 s -> lang (Alt r1 r2) s
| lang_star_nil r : lang (Star r) []
| lang_star_app r s1 s2 : lang r s1 -> lang (Star r) s2 -> lang (Star r) (s1 ++ s2).
Create HintDb lang.
#[export] Hint Constructors lang : lang.

Lemma nullable_lang r : nullable r = true <-> lang r [].
Proof.
  induction r as [| | |r1 IH1 r2 IH2|r1 IH1 r2 IH2|r IH]; simpl; split; intros H;
    try discriminate; try (by inversion H); auto with lang.
  - apply andb_true_iff in H as [H1 H2].
    apply (lang_seq _ _ [] []); [by apply IH1|by apply IH2].
  - inversion H as [| |? ? s1 s2 Hs1 Hs2 Ha Hb| | | |]; subst. apply app_eq_nil in Hb as [-> ->].
    apply andb_true_iff. split; [by apply IH1|by apply IH2].
  - apply orb_true_iff in H as [H|H]; [apply lang_alt_l, IH1|apply lang_alt_r, IH2]; done.
  - apply orb_true_iff. inversion H; subst; [left; by apply IH1|right; by apply IH2].
Qed.

Lemma star_cons r c s : lang (Star r) (c :: s) ->
  exists s1 s2, s = s1 ++ s2 /\ lang r (c :: s1) /\ lang (Star r) s2.
Proof.
  intros H. remember (Star r) as sr eqn:Er. remember (c :: s) as cs eqn:Ec.
  revert r c s Er Ec. induction H as [| | | | | |r0 s1 s2 H1 IH1 H2 IH2]; intros; try discriminate.
  simplify_eq. destruct s1 as [|c1 s1]; simpl in Ec; simplify_eq; eauto 6.
Qed.

Lemma deriv_lang c r s : lang (deriv c r) s <-> lang r (c :: s).
Proof.
  revert s. induction r as [| |P|r1 IH1 r2 IH2|r1 IH1 r2 IH2|r IH]; intros s; simpl.
  - split; inversion 1.
  - split; inversion 1.
  - split; intros H.
    + destruct (P c) eqn:E; inversion H; subst. by constructor.
    + inversion H as [|? ? E| | | | |]; subst. rewrite E. constructor.
  - assert (Hs : lang (Seq (deriv c r1) r2) s -> lang (Seq r1 r2) (c :: s)).
    { inversion 1 as [| |? ? t1 t2 H1 H2| | | |]; subst.
      apply (lang_seq _ _ (c :: t1)); [by apply IH1|done]. }
    assert (Hn : lang (Seq r1 r2) (c :: s) ->
      lang (Seq (deriv c r1) r2) s \/ nullable r1 = true /\ lang (deriv c r2) s).
    { inversion 1 as [| |? ? t1 t2 H1 H2 Ha Hb| | | |]; subst.
      destruct t1 as [|c1 t1]; simpl in Hb; simplify_eq.
      - right. split; [by apply nullable_lang|by apply IH2].
      - left. constructor; [by apply IH1|done]. }
    destruct (nullable r1) eqn:En; split; intros H; auto.
    + inversion H; subst; [auto|]. apply (lang_seq _ _ []); [by apply nullable_lang|by apply IH2].
    + destruct (Hn H) as [?|[_ ?]]; auto with lang.
    + destruct (Hn H) as [?|[? _]]; [done|discriminate].
  - split; inversion 1; subst; (by apply lang_alt_l, IH1) || (by apply lang_alt_r, IH2).
  - split; intros H.
    + inversion H as [| |? ? t1 t2 H1 H2 Ha Hb| | | |]; subst.
      apply (lang_star_app _ (c :: t1)); [by apply IH|done].
    + apply star_cons in H as (s1 & s2 & -> & H1 & H2). constructor; [by apply IH|done].
Qed.

Lemma MatchString_lang r s : MatchString r s = true <-> lang r (bytes_of s).
Proof.
  revert r. induction s as [|c s IH]; intros r; simpl.
  - apply nullable_lang.
  - rewrite IH. apply deriv_lang.
Qed.

(** The two RFC 1123 name grammars, as the code writes them:
  [[a-z0-9]([-a-z0-9]*[a-z0-9])?] and that label followed by
  [(\.label)*]. *)
Definition alnum (c : ascii) : bool := is_lower c || is_digit c.
Definition alnum_dash (c : ascii) : bool := Ascii.eqb c "-" || alnum c.
Definition dot (c : ascii) : bool := Ascii.eqb c ".".
Definition dns_label : re :=
  Seq (Class alnum) (Opt (Seq (Star (Class alnum_dash)) (Class alnum))).
Definition dns_subdomain : re := Seq dns_label (Star (Seq (Class dot) dns_label)).
End Regexp.

(** ** Package sort

    [sort.SliceStable] by a [less] function: the stable sort, as insertion
    sort.  For a [less] whose negation is transitive and total, the result is
    an ordered permutation of the input that keeps the order of equal
    elements. *)
Section SliceStable.
Context {A : Type} (less : A -> A -> bool).

Fixpoint insert_stable (x : A) (l : list A) : list A :=
  match l with
  | [] => [x]
  | y :: l' => if less y x then y :: insert_stable x l' else x :: y :: l'
  end.
Definition SliceStable (l : list A) : list A := foldr insert_stable [] l.

Lemma insert_stable_perm x l : insert_stable x l ≡ₚ x :: l.
Proof.
  induction l as [|y l IH]; simpl; [done|]. destruct (less y x); [|done].
  rewrite IH. apply Permutation_swap.
Qed.
Lemma SliceStable_perm l : SliceStable l ≡ₚ l.
Proof. induction l as [|x l IH]; simpl; [done|]. by rewrite insert_stable_perm, IH. Qed.

(** [a] may come before [b]: [b] is not less than [a]. *)
Definition before (a b : A) : Prop := less b a = false.
Context (Htrans : forall a b c, before a b -> before b c -> before a c).
Context (Hasym : forall a b, less a b = true -> before a b).

Lemma insert_stable_sorted x l :
  StronglySorted before l -> StronglySorted before (insert_stable x l).
Proof.
  induction 1 as [|y l Hl IH Hy]; simpl; [repeat constructor|].
  destruct (less y x) eqn:E.
  - constructor; [done|]. apply Forall_forall. intros z Hz.
    rewrite insert_stable_perm in Hz. apply elem_of_cons in Hz as [->|Hz].
    + by apply Hasym.
    + rewrite Forall_forall in Hy. by apply Hy.
  - constructor; [by constructor|]. constructor; [done|].
    eapply Forall_impl; [done|]. intros z Hz. by apply (Htrans _ y).
Qed.
Lemma SliceStable_sorted l : StronglySorted before (SliceStable l).
Proof. induction l as [|x l IH]; simpl; [constructor|]. by apply insert_stable_sorted. Qed.

(** Two ordered lists with the same elements are equal when [before] is
    antisymmetric on them. *)
Lemma sorted_perm_eq l1 l2 :
  (forall a b, a ∈ l1 -> b ∈ l1 -> before a b -> before b a -> a = b) ->
  StronglySorted before l1 -> StronglySorted before l2 -> l1 ≡ₚ l2 -> l1 = l2.
Proof.
  intros Hanti Hs1. revert l2 Hanti. induction Hs1 as [|a l1 Hl1 IH Ha]; intros l2 Hanti Hs2 Hp.
  - by apply Permutation_nil_l in Hp.
  - destruct Hs2 as [|b l2 Hl2 Hb]; [by apply Permutation_nil_r in Hp|].
    assert (a = b) as <-.
    { assert (b ∈ a :: l1) as Hbin by (rewrite Hp; left).
      assert (a ∈ b :: l2) as Hain by (rewrite <- Hp; left).
      rewrite Forall_forall in Ha, Hb.
      apply elem_of_cons in Hbin as [->|Hbin]; [done|].
      apply elem_of_cons in Hain as [->|Hain]; [done|].
      apply Hanti; [left|by right|by apply Ha|by apply Hb]. }
    f_equal. apply IH; [|done|by apply (Permutation_cons_inv (a := a))].
    intros x y Hx Hy. apply Hanti; by right.
Qed.
End SliceStable.

(** Byte-wise string order. *)
Lemma string_leb_trans a b c : String.leb a b = true -> String.leb b c = true -> String.leb a c = true.
Proof.
  intros H1 H2. pose proof (transitivity (R := String.le) (x := a) (y := b) (z := c)) as Ht.
  unfold String.le in Ht. rewrite !Is_true_true in Ht. auto.
Qed.
Lemma string_ltb_leb a b : String.ltb a b = negb (String.leb b a).
Proof. unfold String.ltb, String.leb. rewrite (String.compare_antisym b a). by destruct (String.compare a b). Qed.
