(* ===== verification/BudgetVocab.v ===== *)
(** * The shared vocabulary of the node budget (src/budget/v1alpha1/vocab.go)

    Every enum of the contract is a Go string type, so a value is any string;
    the [Valid] functions say which values this release knows.  The file holds
    the enum constants, the signal table with its page codes, units and
    directions, the closed condition-reason sets and the decoder of the open
    (producer-vocabulary) enums. *)
From S2P Require Import Prelude GoLib.

(** [oneOf v want...]. *)
Definition oneOf (v : string) (want : list string) : bool := bool_decide (v ∈ want).

(** ** Units *)
Definition SignalUnit := string.
Definition UnitBytes : string := "bytes".
Definition UnitPermille : string := "permille".
Definition UnitCount : string := "count".
Definition SignalUnit_Valid (u : string) : bool := oneOf u [UnitBytes; UnitPermille; UnitCount].

(** ** Signals *)
Definition SignalID := string.
Definition SignalMemoryAvailable : string := "memory.available".
Definition SignalMemoryCompressor : string := "memory.compressor".
Definition SignalMemorySwap : string := "memory.swap".
Definition SignalSwapfsAvailable : string := "swapfs.available".
Definition SignalNodefsAvailable : string := "nodefs.available".
Definition SignalImagefsAvailable : string := "imagefs.available".
Definition SignalPIDAvailable : string := "pid.available".

Definition signalCodes : list string :=
  [SignalMemoryAvailable; SignalMemoryCompressor; SignalMemorySwap; SignalSwapfsAvailable;
   SignalNodefsAvailable; SignalImagefsAvailable; SignalPIDAvailable].

Definition Signals : list string := signalCodes.

(** The loop shared by [PageCode] and [pageCode]: the 1-based index of [v]. *)
Fixpoint code_from (i : Z) (table : list string) (v : string) : option Z :=
  match table with
  | [] => None
  | w :: table' => if String.eqb w v then Some i else code_from (i + 1) table' v
  end.

Lemma code_from_lookup table v i c :
  code_from i table v = Some c -> i <= c < i + len table /\ table !! Z.to_nat (c - i) = Some v.
Proof.
  revert i. induction table as [|x table IH]; intros i; [done|]. simpl. unfold len in *. simpl length.
  destruct (String.eqb_spec x v) as [->|Hx].
  - intros [= <-]. split; [lia|]. by rewrite Z.sub_diag.
  - intros H. destruct (IH _ H) as [Hr Hl]. split; [lia|].
    replace (Z.to_nat (c - i)) with (S (Z.to_nat (c - (i + 1)))) by lia. done.
Qed.

Definition SignalID_PageCode (s : string) : Z := default 0 (code_from 1 signalCodes s).
Definition SignalID_Valid (s : string) : bool := negb (SignalID_PageCode s =? 0).

Definition SignalForPageCode (c : Z) : string * bool :=
  if (c =? 0) || (len signalCodes <? c) then ("", false)
  else (default "" (signalCodes !! Z.to_nat (c - 1)), true).

Definition IsDescending (s : string) : bool := HasSuffix s ".available".

Definition SignalID_Unit (s : string) : string :=
  if String.eqb s SignalMemoryCompressor then UnitPermille
  else if String.eqb s SignalPIDAvailable then UnitCount
  else if oneOf s [SignalMemoryAvailable; SignalMemorySwap; SignalSwapfsAvailable;
                   SignalNodefsAvailable; SignalImagefsAvailable] then UnitBytes
  else "".

(** ** Levels, bands, platforms, writers *)
Definition Level := string.
Definition LevelOK : string := "ok".
Definition LevelWarn : string := "warn".
Definition LevelCritical : string := "critical".
Definition LevelEvicting : string := "evicting".
Definition Level_Valid (l : string) : bool := oneOf l [LevelOK; LevelWarn; LevelCritical; LevelEvicting].

Definition Band := string.
Definition BandCritical : string := "critical".
Definition BandStandard : string := "standard".
Definition BandBatch : string := "batch".
Definition Bands : list string := [BandCritical; BandStandard; BandBatch].
Definition Band_Valid (b : string) : bool := oneOf b [BandCritical; BandStandard; BandBatch].

Definition Platform := string.
Definition PlatformDarwin : string := "darwin".
Definition PlatformLinux : string := "linux".
Definition Platform_Valid (p : string) : bool := oneOf p [PlatformDarwin; PlatformLinux].

Definition WriterShape := string.
Definition WriterAnnotationRelay : string := "annotation-relay".
Definition WriterOwnNode : string := "own-node".
Definition WriterShape_Valid (w : string) : bool := oneOf w [WriterAnnotationRelay; WriterOwnNode].

(** ** Trends and limiting resources *)
Definition Trend := string.
Definition TrendFalling : string := "falling".
Definition TrendSteady : string := "steady".
Definition TrendRising : string := "rising".
Definition TrendUnknown : string := "unknown".
Definition Trend_Valid (t : string) : bool := oneOf t [TrendFalling; TrendSteady; TrendRising; TrendUnknown].

Definition LimitingResource := string.
Definition ResourceMemory : string := "memory".
Definition ResourceSwapfs : string := "swapfs".
Definition ResourceNodefs : string := "nodefs".
Definition ResourceImagefs : string := "imagefs".
Definition ResourcePID : string := "pid".
Definition ResourceCPU : string := "cpu".
Definition ResourceUnknown : string := "unknown".
Definition LimitingResource_Valid (r : string) : bool :=
  oneOf r [ResourceMemory; ResourceSwapfs; ResourceNodefs; ResourceImagefs; ResourcePID; ResourceCPU; ResourceUnknown].

(** ** Kill modes and their reasons *)
Definition KillModeName := string.
Definition KillModeAuto : string := "auto".
Definition KillModeOn : string := "on".
Definition KillModeOff : string := "off".
Definition KillModeName_Valid (m : string) : bool := oneOf m [KillModeAuto; KillModeOn; KillModeOff].

Definition KillModeReason := string.
Definition KillReasonColdStart : string := "cold-start".
Definition KillReasonObserving : string := "observing".
Definition KillReasonArmed : string := "armed".
Definition KillReasonPolicyOff : string := "policy-off".
Definition KillReasonDisarmFile : string := "disarm-file".
Definition KillReasonUnknown : string := "unknown".
Definition KillModeReason_Valid (r : string) : bool :=
  oneOf r [KillReasonColdStart; KillReasonObserving; KillReasonArmed; KillReasonPolicyOff; KillReasonDisarmFile; KillReasonUnknown].

Definition WouldKillReason := string.
Definition WouldKillHeldPressure : string := "held-pressure".
Definition WouldKillMemoryFloor : string := "memory-floor".
Definition WouldKillUnknown : string := "unknown".
Definition WouldKillReason_Valid (r : string) : bool :=
  oneOf r [WouldKillHeldPressure; WouldKillMemoryFloor; WouldKillUnknown].

(** ** Policy outcomes and clamped fields *)
Definition PolicyOutcome := string.
Definition PolicyApplied : string := "applied".
Definition PolicyRejected : string := "rejected".
Definition PolicyClamped : string := "clamped".
Definition PolicyOutcome_Valid (o : string) : bool := oneOf o [PolicyApplied; PolicyRejected; PolicyClamped].

Definition PolicyField := string.
Definition FieldTier1GraceSeconds : string := "tier1GraceSeconds".
Definition FieldTier1HeldSeconds : string := "tier1HeldSeconds".
Definition FieldTier1MaxDeliveriesPerHour : string := "tier1MaxDeliveriesPerHour".
Definition FieldTier1CooloffSeconds : string := "tier1CooloffSeconds".
Definition FieldReservesCPUSystemReserveMilli : string := "reserves.cpuSystemReserveMilli".
Definition FieldReservesMemSystemReserveBytes : string := "reserves.memSystemReserveBytes".
Definition FieldReservesMemEvictionReserveBytes : string := "reserves.memEvictionReserveBytes".
Definition PolicyFields : list string :=
  [FieldTier1GraceSeconds; FieldTier1HeldSeconds; FieldTier1MaxDeliveriesPerHour; FieldTier1CooloffSeconds;
   FieldReservesCPUSystemReserveMilli; FieldReservesMemSystemReserveBytes; FieldReservesMemEvictionReserveBytes].
Definition PolicyField_Valid (f : string) : bool := oneOf f PolicyFields.

(** ** Windowed counters *)
Definition CounterWindow := string.
Definition Window1h : string := "1h".
Definition Window24h : string := "24h".
Definition CounterWindow_Valid (w : string) : bool := oneOf w [Window1h; Window24h].

Definition CounterReason := string.
Definition CounterEviction : string := "eviction".
Definition CounterOOMKill : string := "oom-kill".
Definition CounterKernelKill : string := "kernel-kill".
Definition CounterRestart : string := "restart".
Definition CounterMemHigh : string := "mem-high".
Definition CounterTier1Refused : string := "tier1-refused".
Definition CounterUnknown : string := "unknown".
Definition CounterReason_Valid (r : string) : bool :=
  oneOf r [CounterEviction; CounterOOMKill; CounterKernelKill; CounterRestart; CounterMemHigh; CounterTier1Refused; CounterUnknown].

(** ** Conditions and their closed reason sets *)
Definition ConditionReporting : string := "Reporting".
Definition ConditionPolicyRejected : string := "PolicyRejected".
Definition ConditionPolicyClamped : string := "PolicyClamped".
Definition ConditionPolicyConflict : string := "PolicyConflict".

Definition ReasonNodeReporting : string := "NodeReporting".
Definition ReasonNodeNotReporting : string := "NodeNotReporting".
Definition ReasonAnnotationMalformed : string := "AnnotationMalformed".
Definition ReasonSchemaUnsupported : string := "SchemaUnsupported".
Definition ReasonAnnotationTooLarge : string := "AnnotationTooLarge".
Definition ReasonPolicyInvalid : string := "PolicyInvalid".
Definition ReasonMergedLadderInverted : string := "MergedLadderInverted".
Definition ReasonPolicyAccepted : string := "PolicyAccepted".
Definition ReasonFieldsClamped : string := "FieldsClamped".
Definition ReasonNoFieldsClamped : string := "NoFieldsClamped".
Definition ReasonMultiplePolicies : string := "MultiplePolicies".
Definition ReasonSinglePolicy : string := "SinglePolicy".

(** The switch on [conditionType + "/" + status]; nil is [None]. *)
Definition ConditionReasons (conditionType status : string) : option (list string) :=
  let k := (conditionType +:+ "/" +:+ status) in
  if String.eqb k (ConditionReporting +:+ "/True") then Some [ReasonNodeReporting]
  else if String.eqb k (ConditionReporting +:+ "/False") then
    Some [ReasonNodeNotReporting; ReasonAnnotationMalformed; ReasonSchemaUnsupported; ReasonAnnotationTooLarge]
  else if String.eqb k (ConditionPolicyRejected +:+ "/True") then Some [ReasonPolicyInvalid; ReasonMergedLadderInverted]
  else if String.eqb k (ConditionPolicyRejected +:+ "/False") then Some [ReasonPolicyAccepted]
  else if String.eqb k (ConditionPolicyClamped +:+ "/True") then Some [ReasonFieldsClamped]
  else if String.eqb k (ConditionPolicyClamped +:+ "/False") then Some [ReasonNoFieldsClamped]
  else if String.eqb k (ConditionPolicyConflict +:+ "/True") then Some [ReasonMultiplePolicies]
  else if String.eqb k (ConditionPolicyConflict +:+ "/False") then Some [ReasonSinglePolicy]
  else None.

(** ** Open enums

    [decodeOpenEnum] is generic over a string type with a [Valid] method: the
    interface is a class, with an instance per producer-vocabulary enum.  Its
    input is the outcome of [json.Unmarshal] into a Go string. *)
Class OpenEnum := {
  oe_valid : string -> bool;
  oe_unknown : string;
  oe_unknown_valid : oe_valid oe_unknown = true;
  oe_unknown_nonempty : oe_unknown <> "";
}.

Definition decodeOpenEnum (E : OpenEnum) (unmarshalled : res string) : res string :=
  let? s := unmarshalled in
  Ok (if negb (String.eqb s "") && negb (oe_valid s) then oe_unknown else s).

#[export] Instance Trend_UnmarshalJSON : OpenEnum | 10 :=
  { oe_valid := Trend_Valid; oe_unknown := TrendUnknown; oe_unknown_valid := eq_refl;
    oe_unknown_nonempty := ltac:(discriminate) }.
#[export] Instance LimitingResource_UnmarshalJSON : OpenEnum | 10 :=
  { oe_valid := LimitingResource_Valid; oe_unknown := ResourceUnknown; oe_unknown_valid := eq_refl;
    oe_unknown_nonempty := ltac:(discriminate) }.
#[export] Instance KillModeReason_UnmarshalJSON : OpenEnum | 10 :=
  { oe_valid := KillModeReason_Valid; oe_unknown := KillReasonUnknown; oe_unknown_valid := eq_refl;
    oe_unknown_nonempty := ltac:(discriminate) }.
#[export] Instance WouldKillReason_UnmarshalJSON : OpenEnum | 10 :=
  { oe_valid := WouldKillReason_Valid; oe_unknown := WouldKillUnknown; oe_unknown_valid := eq_refl;
    oe_unknown_nonempty := ltac:(discriminate) }.
#[export] Instance CounterReason_UnmarshalJSON : OpenEnum | 10 :=
  { oe_valid := CounterReason_Valid; oe_unknown := CounterUnknown; oe_unknown_valid := eq_refl;
    oe_unknown_nonempty := ltac:(discriminate) }.

(** ** Theorems *)
Lemma signal_cases s : SignalID_Valid s = true <-> s ∈ Signals.
Proof.
  unfold SignalID_Valid, SignalID_PageCode, Signals. split.
  - destruct (code_from 1 signalCodes s) as [c|] eqn:E; [|done]. intros _. apply code_from_lookup in E as [_ E].
    by eapply list_elem_of_lookup_2.
  - unfold signalCodes. rewrite !elem_of_cons. intros H. repeat destruct H as [->|H]; [reflexivity..|]. set_solver.
Qed.

(** The signal codes of the page ABI: exactly the listed signals are valid,
    code and signal determine each other, every other code is refused, and a
    signal has a unit exactly when it is valid. *)
Theorem signal_codes_bijective (s : string) (c : Z) (Hc : 0 <= c) :
  (SignalID_Valid s = true <-> s ∈ Signals) /\
  (SignalForPageCode c = (s, true) <-> SignalID_PageCode s = c /\ c <> 0) /\
  ((SignalForPageCode c).2 = true <-> 1 <= c <= len signalCodes) /\
  (SignalID_Unit s <> "" <-> SignalID_Valid s = true).
Proof.
  split; [apply signal_cases|]. split; [|split].
  - split.
    + unfold SignalForPageCode. change (len signalCodes) with 7.
      destruct (Z.eqb_spec c 0); [done|]. destruct (Z.ltb_spec 7 c); [done|]. cbn [orb]. intros [= <-].
      assert (c = 1 \/ c = 2 \/ c = 3 \/ c = 4 \/ c = 5 \/ c = 6 \/ c = 7) as [->|[->|[->|[->|[->|[->| ->]]]]]] by lia; done.
    + unfold SignalID_PageCode. destruct (code_from 1 signalCodes s) as [k|] eqn:E; cbn [from_option id]; [|intros [<- ?]; done].
      intros [<- Hk]. apply code_from_lookup in E as [Hr Hl]. unfold SignalForPageCode. change (len signalCodes) with 7 in *.
      rewrite (proj2 (Z.eqb_neq k 0) Hk), (proj2 (Z.ltb_ge 7 k)) by lia. cbn [orb]. by rewrite Hl.
  - unfold SignalForPageCode. change (len signalCodes) with 7.
    destruct (Z.eqb_spec c 0), (Z.ltb_spec 7 c); cbn [orb snd]; split; intros; (done || lia).
  - rewrite signal_cases. split.
    + intros Hu. destruct (decide (s ∈ Signals)) as [|Hs]; [done|]. exfalso. apply Hu. unfold SignalID_Unit.
      unfold Signals, signalCodes in Hs. rewrite !not_elem_of_cons in Hs. destruct Hs as (?&?&?&?&?&?&?&_).
      rewrite !(proj2 (String.eqb_neq _ _)) by done. unfold oneOf. rewrite bool_decide_false; [done|]. set_solver.
    + unfold Signals, signalCodes. rewrite !elem_of_cons. intros H. repeat destruct H as [->|H]; [discriminate..|]. set_solver.
Qed.
Lemma signal_codes_bijective_witness : SignalForPageCode 3 = (SignalMemorySwap, true).
Proof. apply (signal_codes_bijective SignalMemorySwap 3 ltac:(discriminate)). split; [reflexivity|discriminate]. Defined.

(** An open enum never decodes to a word outside its vocabulary: the result
    is empty, or valid; a known word decodes to itself and an unknown one to
    the enum's unknown value. *)
Theorem open_enum_closed (E : OpenEnum) (w v : string) (Hd : decodeOpenEnum E (Ok w) = Ok v) :
  (v = "" \/ oe_valid v = true) /\ (w = "" \/ oe_valid w = true -> v = w) /\
  (w <> "" -> oe_valid w = false -> v = oe_unknown).
Proof.
  injection Hd as <-. destruct (String.eqb_spec w "") as [->|Hw]; cbn [negb andb]; [naive_solver|].
  destruct (oe_valid w) eqn:Hv; cbn [negb]; [naive_solver|]. pose proof oe_unknown_valid. naive_solver.
Qed.
Lemma open_enum_closed_witness : Trend_Valid TrendUnknown = true.
Proof.
  destruct (open_enum_closed Trend_UnmarshalJSON "sideways" TrendUnknown eq_refl) as [[H|H] _]; [discriminate H|exact H].
Defined.
