(* ===== verification/BudgetTypes.v ===== *)
(** * The data of the node budget contract
    (src/budget/v1alpha1/nodebudget.go, nodebudgetpolicy.go: the struct types)

    A pointer field is an [option], a string enum a [string], an [int64] or
    [int32] a [Z].  Where the code tells a nil slice from an empty one the
    field is a [gslice]; elsewhere a slice is a [list]. *)
From S2P Require Import Prelude BudgetVocab.

(** A slice that may be nil. *)
Abbreviation gslice A := (option (list A)).
Definition elems {A} (s : gslice A) : list A := default [] s.

(** [metav1.Time], a wrapped [time.Time]: the instant as Unix seconds and
    nanoseconds, and the location ([None] is the nil location, UTC). *)
Record Time := mkTime { t_unix : Z; t_nsec : Z; t_loc : option string }.
#[global] Instance Time_eq_dec : EqDecision Time.
Proof. solve_decision. Defined.

(** 1 January of year 1, in Unix seconds: the instant of the zero [time.Time]. *)
Definition zero_unix : Z := -62135596800.
Definition zero_Time : Time := mkTime zero_unix 0 None.
Definition Time_IsZero (t : Time) : bool := (t_unix t =? zero_unix) && (t_nsec t =? 0).
(** [metav1.NewTime(time.Unix(v, 0).UTC())]. *)
Definition unixTime (v : Z) : Time := mkTime v 0 None.

Record BudgetCapacity := mkCapacity {
  cap_CPUCapacityMilli : option Z;
  cap_CPUSystemReserveMilli : option Z;
  cap_MemCapacityBytes : option Z;
  cap_MemSystemReserveBytes : option Z;
  cap_MemEvictionReserveBytes : option Z;
  cap_MemAllocatableBytes : option Z;
  cap_SwapTotalBytes : option Z;
  cap_SwapUsedBytes : option Z;
  cap_CPUPerformanceCores : option Z;
  cap_CPUEfficiencyCores : option Z;
  cap_GPUPresent : option bool;
  cap_GPUCount : option Z;
}.

Record BudgetSignal := mkSignal {
  sig_ID : SignalID;
  sig_Unit : SignalUnit;
  sig_Value : option Z;
  sig_WarnThreshold : option Z;
  sig_AdmitStopThreshold : option Z;
  sig_CriticalThreshold : option Z;
  sig_EvictSoftThreshold : option Z;
  sig_EvictHardThreshold : option Z;
  sig_WarnRelease : option Z;
  sig_AdmitStopRelease : option Z;
  sig_CriticalRelease : option Z;
  sig_EvictSoftRelease : option Z;
  sig_EvictHardRelease : option Z;
  sig_GraceSeconds : option Z;
  sig_MinReclaimBytes : option Z;
  sig_WindowSeconds : option Z;
  sig_EtaToNextRungSeconds : option Z;
  sig_Trend : Trend;
  sig_LimitingResource : LimitingResource;
  sig_SharedWith : SignalID;
}.

(** The ladder fields: both a signal record and a policy threshold entry have
    five rungs and five releases, in ladder order. *)
Class Laddered (T : Type) := {
  rungs : T -> list (option Z);
  releases : T -> list (option Z);
  ladder_len x : length (rungs x) = 5%nat /\ length (releases x) = 5%nat;
}.

Definition BudgetSignal_rungs (s : BudgetSignal) : list (option Z) :=
  [sig_WarnThreshold s; sig_AdmitStopThreshold s; sig_CriticalThreshold s; sig_EvictSoftThreshold s; sig_EvictHardThreshold s].
Definition BudgetSignal_releases (s : BudgetSignal) : list (option Z) :=
  [sig_WarnRelease s; sig_AdmitStopRelease s; sig_CriticalRelease s; sig_EvictSoftRelease s; sig_EvictHardRelease s].
#[global] Instance BudgetSignal_Laddered : Laddered BudgetSignal :=
  { rungs := BudgetSignal_rungs; releases := BudgetSignal_releases; ladder_len _ := conj eq_refl eq_refl }.

Record BudgetRecommendation := mkRecommendation {
  rec_SafeAdditionalBytes : option Z;
  rec_Basis : SignalID;
}.

Record KillMode := mkKillMode {
  km_Mode : KillModeName;
  km_Armed : bool;
  km_ArmingEpisodes : Z;   (* int32 *)
  km_Reason : KillModeReason;
}.

Record WouldKill := mkWouldKill {
  wk_Band : Band;
  wk_Reason : WouldKillReason;
  wk_At : Time;
}.

Record WindowCount := mkWindowCount {
  wc_Window : CounterWindow;
  wc_Reason : CounterReason;
  wc_Count : Z;
}.

Record BandCounters := mkBandCounters {
  bc_Band : Band;
  bc_EvictionsTotal : Z;
  bc_OOMKillsTotal : Z;
  bc_KernelKillsTotal : Z;
  bc_RestartsTotal : Z;
  bc_MemHighEventsTotal : Z;
  bc_Tier1RefusedTotal : Z;
  bc_Windows : list WindowCount;
}.

Record PolicyRef := mkPolicyRef {
  ref_Name : string;
  ref_ResourceVersion : string;
}.

Record AppliedPolicy := mkAppliedPolicy {
  ap_Ref : PolicyRef;
  ap_Outcome : PolicyOutcome;
  ap_ClampedFields : list PolicyField;
}.

Record BudgetWriter := mkBudgetWriter {
  bw_Shape : WriterShape;
  bw_NodeNameExtra : bool;
}.

Record DarwinCompressor := mkCompressor {
  dc_BytesUsed : option Z;
  dc_BytesStored : option Z;
  dc_SegmentLimitBytes : option Z;
}.

Record DarwinSignals := mkDarwin {
  ds_VMPressureLevel : option Z;
  ds_MemorystatusLevelPermille : option Z;
  ds_Compressor : option DarwinCompressor;
  ds_SwapinsTotal : option Z;
  ds_SwapoutsTotal : option Z;
}.

Record PSILine := mkPSILine {
  psi_Avg10Permille : option Z;
  psi_Avg60Permille : option Z;
  psi_TotalUs : option Z;
}.

Record PSIResource := mkPSIResource {
  psi_Some : option PSILine;
  psi_Full : option PSILine;
}.

Record LinuxPSI := mkLinuxPSI {
  psi_CPU : option PSIResource;
  psi_Memory : option PSIResource;
  psi_IO : option PSIResource;
}.

Record LinuxMemoryEvents := mkMemoryEvents {
  ev_High : option Z;
  ev_Max : option Z;
  ev_OOM : option Z;
  ev_OOMKill : option Z;
}.

Record LinuxSignals := mkLinux {
  ls_PSI : option LinuxPSI;
  ls_MemoryEvents : option LinuxMemoryEvents;
}.

Record NodeBudgetObservation := mkObservation {
  obs_ObservedAt : Time;
  obs_ProducerGeneration : Z;
  obs_Platform : Platform;
  obs_Level : Level;
  obs_Admit : bool;
  obs_AdmitReasonSignal : SignalID;
  obs_EvictDeadline : option Time;
  obs_Capacity : BudgetCapacity;
  obs_Signals : gslice BudgetSignal;
  obs_Recommendation : BudgetRecommendation;
  obs_KillMode : KillMode;
  obs_WouldKill : option WouldKill;
  obs_Counters : gslice BandCounters;
  obs_Policy : option AppliedPolicy;
  obs_InForce : option PolicyRef;
  obs_Darwin : option DarwinSignals;
  obs_Linux : option LinuxSignals;
}.

(** The fields of a [metav1.Condition] the code reads. *)
Record Condition := mkCondition {
  cond_Type : string;
  cond_Status : string;
  cond_Reason : string;
}.

Record NodeBudgetStatus := mkStatus {
  st_Observation : NodeBudgetObservation;
  st_Writer : option BudgetWriter;
  st_Conditions : list Condition;
}.

Record SignalThresholds := mkThresholds {
  thr_Signal : SignalID;
  thr_WarnThreshold : option Z;
  thr_AdmitStopThreshold : option Z;
  thr_CriticalThreshold : option Z;
  thr_EvictSoftThreshold : option Z;
  thr_EvictHardThreshold : option Z;
  thr_WarnRelease : option Z;
  thr_AdmitStopRelease : option Z;
  thr_CriticalRelease : option Z;
  thr_EvictSoftRelease : option Z;
  thr_EvictHardRelease : option Z;
  thr_GraceSeconds : option Z;
  thr_MinReclaimBytes : option Z;
  thr_DwellSeconds : option Z;
  thr_WindowSeconds : option Z;
}.

Definition SignalThresholds_rungs (t : SignalThresholds) : list (option Z) :=
  [thr_WarnThreshold t; thr_AdmitStopThreshold t; thr_CriticalThreshold t; thr_EvictSoftThreshold t; thr_EvictHardThreshold t].
Definition SignalThresholds_releases (t : SignalThresholds) : list (option Z) :=
  [thr_WarnRelease t; thr_AdmitStopRelease t; thr_CriticalRelease t; thr_EvictSoftRelease t; thr_EvictHardRelease t].
#[global] Instance SignalThresholds_Laddered : Laddered SignalThresholds :=
  { rungs := SignalThresholds_rungs; releases := SignalThresholds_releases; ladder_len _ := conj eq_refl eq_refl }.

Record BudgetReserves := mkReserves {
  rsv_CPUSystemReserveMilli : option Z;
  rsv_MemSystemReserveBytes : option Z;
  rsv_MemEvictionReserveBytes : option Z;
}.

Record BudgetHistory := mkHistory {
  hist_MemoryHalfLifeSeconds : option Z;
  hist_CPUHalfLifeSeconds : option Z;
  hist_MarginPermille : option Z;
}.

Record NodeBudgetPolicySpec := mkPolicySpec {
  ps_NodeSelector : gmap string string;
  ps_Priority : Z;   (* int32 *)
  ps_Thresholds : list SignalThresholds;
  ps_Reserves : option BudgetReserves;
  ps_History : option BudgetHistory;
  ps_Mode : KillModeName;
  ps_Tier1GraceSeconds : option Z;
  ps_Tier1HeldSeconds : option Z;
  ps_Tier1MaxDeliveriesPerHour : option Z;
  ps_Tier1CooloffSeconds : option Z;
  ps_PSIHeldPermille : option Z;
}.

(** A policy object: its name (of the object metadata) and its spec. *)
Record NodeBudgetPolicy := mkPolicy {
  pol_Name : string;
  pol_Spec : NodeBudgetPolicySpec;
}.

(** ** Decidable equality, for the comparisons with a zero struct *)
#[global] Instance SignalID_eq_dec : EqDecision SignalID.
Proof. unfold SignalID; apply _. Defined.
#[global] Instance KillMode_eq_dec : EqDecision KillMode.
Proof. unfold KillModeName, KillModeReason; solve_decision. Defined.
#[global] Instance BudgetCapacity_eq_dec : EqDecision BudgetCapacity.
Proof. solve_decision. Defined.
#[global] Instance BudgetRecommendation_eq_dec : EqDecision BudgetRecommendation.
Proof. solve_decision. Defined.
#[global] Instance PSILine_eq_dec : EqDecision PSILine.
Proof. solve_decision. Defined.
#[global] Instance PSIResource_eq_dec : EqDecision PSIResource.
Proof. solve_decision. Defined.
#[global] Instance LinuxPSI_eq_dec : EqDecision LinuxPSI.
Proof. solve_decision. Defined.
#[global] Instance LinuxMemoryEvents_eq_dec : EqDecision LinuxMemoryEvents.
Proof. solve_decision. Defined.
#[global] Instance LinuxSignals_eq_dec : EqDecision LinuxSignals.
Proof. solve_decision. Defined.
#[global] Instance DarwinCompressor_eq_dec : EqDecision DarwinCompressor.
Proof. solve_decision. Defined.

Definition zero_KillMode : KillMode := mkKillMode "" false 0 "".
Definition zero_Capacity : BudgetCapacity := mkCapacity None None None None None None None None None None None None.
Definition zero_Recommendation : BudgetRecommendation := mkRecommendation None "".
