(* ===== verification/BudgetLadder.v ===== *)
(** * Field checks and the threshold ladder
    (src/budget/v1alpha1/validate.go, checkLadder of nodebudgetpolicy.go)

    The ladder rules are shared by the two clients of [Laddered]: signal
    records of an observation and threshold entries of a policy.  [ladder_ok]
    is what a well-formed ladder is; [checkLadder_ok] says the loops of
    [checkLadder] decide it. *)
From S2P Require Import Prelude GoLib BudgetVocab BudgetTypes.

(** ** Field checks *)
Definition dns1123SubdomainRE : Regexp.re := Regexp.dns_subdomain.
Definition isObjectName (s : string) : bool :=
  (slen s <=? 253) && Regexp.MatchString dns1123SubdomainRE s.

Definition printable_byte (c : ascii) : bool := negb ((Z_of_byte c <? 0x20) || (0x7e <? Z_of_byte c)).
Definition isPrintableASCII (s : string) (max : Z) : bool :=
  if String.eqb s "" || (max <? slen s) then false else sforall printable_byte s.

Definition nonNegative (name : string) (v : option Z) : check :=
  match v with
  | Some z => failif (z <? 0) (Errorf "%s %d is negative" [ArgS name; ArgZ z])
  | None => None
  end.

Definition permille (name : string) (v : option Z) : check :=
  match v with
  | Some z => failif ((z <? 0) || (1000 <? z)) (Errorf "%s %d is not 0..1000 permille" [ArgS name; ArgZ z])
  | None => None
  end.

(** [for _, f := range []struct{name; v}{...} { nonNegative(f.name, f.v) }]. *)
Definition nonNegatives (fs : list (string * option Z)) : check :=
  each 0 (fun _ f => nonNegative f.1 f.2) fs.

(** ** checkLadder *)
Definition rungNames : list string :=
  ["warnThreshold"; "admitStopThreshold"; "criticalThreshold"; "evictSoftThreshold"; "evictHardThreshold"].
Definition releaseNames : list string :=
  ["warnRelease"; "admitStopRelease"; "criticalRelease"; "evictSoftRelease"; "evictHardRelease"].
Definition name_at (names : list string) (i : Z) : string := default "" (names !! Z.to_nat i).

(** The body of the pairwise loop, for rungs [a] at [i] and [b] at [j]. *)
Definition check_pair (desc : bool) (i j : Z) (a b : option Z) : check :=
  match a, b with
  | Some x, Some y =>
      failif (desc && (x <=? y)) (Errorf "%s %d must be above %s %d on a falling signal"
        [ArgS (name_at rungNames i); ArgZ x; ArgS (name_at rungNames j); ArgZ y]) ;?
      failif (negb desc && (y <=? x)) (Errorf "%s %d must be below %s %d on a rising signal"
        [ArgS (name_at rungNames i); ArgZ x; ArgS (name_at rungNames j); ArgZ y])
  | _, _ => None
  end.
Fixpoint check_pairs (desc : bool) (i : Z) (l : list (option Z)) : check :=
  match l with
  | [] => None
  | a :: l' => each (i + 1) (fun j b => check_pair desc i j a b) l' ;? check_pairs desc (i + 1) l'
  end.

(** The body of the release loop at rung [i]. *)
Definition check_release (desc : bool) (i : Z) (rr : option Z * option Z) : check :=
  match rr with
  | (Some r, Some rel) =>
      failif (desc && (rel <=? r)) (Errorf "%s %d must be above %s %d on a falling signal"
        [ArgS (name_at releaseNames i); ArgZ rel; ArgS (name_at rungNames i); ArgZ r]) ;?
      failif (negb desc && (r <=? rel)) (Errorf "%s %d must be below %s %d on a rising signal"
        [ArgS (name_at releaseNames i); ArgZ rel; ArgS (name_at rungNames i); ArgZ r])
  | _ => None
  end.

Definition checkLadder (sg : SignalID) (rungs releases : list (option Z)) : check :=
  let desc := IsDescending sg in
  each 0 (fun i rr => nonNegative (name_at rungNames i) rr.1 ;?
                      nonNegative (name_at releaseNames i) rr.2) (zip rungs releases) ;?
  check_pairs desc 0 rungs ;?
  each 0 (check_release desc) (zip rungs releases) ;?
  failif (String.eqb sg SignalMemorySwap && bool_decide (is_Some (rungs !! 3%nat ≫= id)))
    (Errorf "memory.swap has no evictSoftThreshold rung" []).

(** ** What the checks decide *)
Definition nonneg (v : option Z) : Prop := forall z, v = Some z -> 0 <= z.
Definition in_permille (v : option Z) : Prop := forall z, v = Some z -> 0 <= z <= 1000.

Lemma nonNegative_None name v : nonNegative name v = None <-> nonneg v.
Proof.
  unfold nonneg. destruct v as [z|]; simpl; [|naive_solver].
  rewrite failif_None, Z.ltb_ge. naive_solver.
Qed.
Lemma permille_None name v : permille name v = None <-> in_permille v.
Proof.
  unfold in_permille. destruct v as [z|]; simpl; [|naive_solver].
  rewrite failif_None, orb_false_iff, !Z.ltb_ge. naive_solver.
Qed.
Lemma nonNegatives_pre_None pre fs :
  each 0 (fun _ f => nonNegative (pre +:+ f.1) f.2) fs = None <-> Forall nonneg (snd <$> fs).
Proof.
  rewrite (each_None _ (fun f => nonneg f.2)) by (intros; apply nonNegative_None).
  by rewrite Forall_fmap.
Qed.
Lemma nonNegatives_None fs : nonNegatives fs = None <-> Forall nonneg (snd <$> fs).
Proof. apply (nonNegatives_pre_None ""). Qed.
#[export] Hint Rewrite nonNegative_None permille_None nonNegatives_None nonNegatives_pre_None : checks.

(** [calmer sg x y]: for signal [sg], the value [x] means less pressure than [y]. *)
Definition calmer (sg : SignalID) (x y : Z) : Prop := if IsDescending sg then y < x else x < y.

Record ladder_ok (sg : SignalID) (rungs releases : list (option Z)) : Prop := {
  lad_rungs_nonneg : Forall nonneg rungs;
  lad_releases_nonneg : Forall nonneg releases;
  lad_ordered i j a b : (i < j)%nat -> rungs !! i = Some (Some a) -> rungs !! j = Some (Some b) ->
    calmer sg a b;
  lad_release i r rel : rungs !! i = Some (Some r) -> releases !! i = Some (Some rel) ->
    calmer sg rel r;
  lad_swap : sg = SignalMemorySwap -> rungs !! 3%nat <> None -> rungs !! 3%nat = Some None;
}.

Lemma check_pair_None sg i j a b :
  check_pair (IsDescending sg) i j a b = None <->
  (forall x y, a = Some x -> b = Some y -> calmer sg x y).
Proof.
  unfold check_pair, calmer. destruct a as [x|], b as [y|]; try naive_solver.
  rewrite andthen_None, !failif_None.
  destruct (IsDescending sg); simpl; rewrite ?Z.leb_gt; naive_solver.
Qed.

Lemma check_pairs_None sg i l :
  check_pairs (IsDescending sg) i l = None <->
  (forall p q a b, (p < q)%nat -> l !! p = Some (Some a) -> l !! q = Some (Some b) -> calmer sg a b).
Proof.
  revert i. induction l as [|o l IH]; intros i; cbn [check_pairs]; [naive_solver|].
  rewrite andthen_None, IH.
  rewrite (each_None _ (fun b => forall x y, o = Some x -> b = Some y -> calmer sg x y));
    [|intros; apply check_pair_None].
  rewrite Forall_lookup. split.
  - intros [Ho Hl] [|p] [|q] a b Hpq Ha Hb; try lia; simpl in *; simplify_eq.
    + by apply (Ho q (Some b)).
    + apply (Hl p q); auto with lia.
  - intros Hall. split.
    + intros q b Hq x y -> ->. by apply (Hall 0%nat (S q)); auto with lia.
    + intros p q a b Hpq. apply (Hall (S p) (S q)). lia.
Qed.

Lemma check_release_None sg i r rel :
  check_release (IsDescending sg) i (r, rel) = None <->
  (forall x y, r = Some x -> rel = Some y -> calmer sg y x).
Proof.
  unfold check_release, calmer. destruct r as [x|], rel as [y|]; try naive_solver.
  rewrite andthen_None, !failif_None.
  destruct (IsDescending sg); simpl; rewrite ?Z.leb_gt; naive_solver.
Qed.

Lemma Forall_zip_iff {A B} (P : A -> Prop) (Q : B -> Prop) l k :
  length l = length k -> Forall (fun p => P p.1 /\ Q p.2) (zip l k) <-> Forall P l /\ Forall Q k.
Proof.
  revert k. induction l as [|a l IH]; intros [|b k] Hl; simplify_eq/=.
  - split; [split; constructor|constructor].
  - rewrite !Forall_cons, IH by done. naive_solver.
Qed.

Lemma checkLadder_ok sg rungs releases :
  length rungs = length releases ->
  checkLadder sg rungs releases = None <-> ladder_ok sg rungs releases.
Proof.
  intros Hlen. unfold checkLadder. rewrite !andthen_None, check_pairs_None, failif_None.
  rewrite (each_None _ (fun p => nonneg p.1 /\ nonneg p.2));
    [|intros; by rewrite andthen_None, !nonNegative_None].
  rewrite (each_None _ (fun p => forall x y, p.1 = Some x -> p.2 = Some y -> calmer sg y x));
    [|intros ? []; apply check_release_None].
  rewrite (Forall_zip_iff nonneg nonneg) by done.
  rewrite andb_false_iff, bool_decide_eq_false, String.eqb_neq.
  split.
  - intros ([H1 H2] & H3 & H4 & H5). split; try done.
    + intros i r rel Hr Hrel. rewrite Forall_lookup in H4.
      apply (H4 i (Some r, Some rel)); [|done|done]. rewrite lookup_zip_with, Hr. simpl. by rewrite Hrel.
    + intros -> Hd. destruct H5 as [?|Hn]; [done|].
      destruct (rungs !! 3%nat) as [[z|]|] eqn:E; try done. exfalso. apply Hn. by exists z.
  - intros [H1 H2 H3 H4 H5]. repeat split; try done.
    + rewrite Forall_lookup. intros i [r rel] Hi x y ? ?. simplify_eq/=.
      apply lookup_zip_with_Some in Hi as (r' & rel' & Heq & Hr & Hrel). simplify_eq. by eapply H4.
    + destruct (decide (sg = SignalMemorySwap)) as [Hs|Hs]; [right|by left].
      specialize (H5 Hs). destruct (rungs !! 3%nat) as [[z|]|]; simpl; [|by intros []..].
      by specialize (H5 ltac:(done)).
Qed.

(** The set rungs of a well-formed ladder are in strict order of pressure. *)
Lemma ladder_sorted sg rungs releases :
  ladder_ok sg rungs releases -> StronglySorted (calmer sg) (omap id rungs).
Proof.
  intros [_ _ Ho _ _]. clear releases. revert Ho.
  induction rungs as [|[a|] l IH]; intros Ho; simpl.
  - constructor.
  - constructor.
    + apply IH. intros i j x y ? ? ?. apply (Ho (S i) (S j)); auto with lia.
    + apply Forall_forall. intros b Hb. apply list_elem_of_omap in Hb as (o & Hin & Ho').
      destruct o as [z|]; simplify_eq/=. apply list_elem_of_lookup in Hin as [q Hq].
      apply (Ho 0%nat (S q)); auto with lia.
  - apply IH. intros i j x y ? ? ?. apply (Ho (S i) (S j)); auto with lia.
Qed.
