(* ===== verification/BudgetPolicy.v ===== *)
(** * NodeBudgetPolicy: validation, floors and selection
    (src/budget/v1alpha1/nodebudgetpolicy.go, floors.go)

    [policy_ok] is what a usable spec is; [validate] decides it.  [ApplyFloors]
    clamps the tier-1 timers to the compiled floors and [SelectPolicy] picks
    the policy of a node. *)
From S2P Require Import Prelude GoLib BudgetVocab BudgetTypes BudgetLadder.

Definition MaxPolicyThresholds : Z := 8.
Definition MaxPolicyNodeSelectorLabels : Z := 32.
Definition ErrInvalidNodeBudgetPolicy : string := "budgetv1alpha1: invalid node budget policy".

(** ** The compiled floors and defaults *)
Definition MinTier1GraceSeconds : Z := 10.
Definition MinTier1HeldSeconds : Z := 10.
Definition DefaultTier1HeldSeconds : Z := 30.
Definition MaxTier1DeliveriesPerHour : Z := 6.
Definition MinTier1DeliveriesPerHour : Z := 1.
Definition MinTier1CooloffSeconds : Z := 300.
Definition DefaultTier1CooloffSeconds : Z := 1800.
Definition ArmingEpisodesRequired : Z := 3.
Definition DefaultMemoryHalfLifeSeconds : Z := 172800.
Definition DefaultCPUHalfLifeSeconds : Z := 43200.
Definition DefaultMarginPermille : Z := 150.

(** ** Validate *)
Definition thresholds_wrap (i : Z) (t : SignalThresholds) (e : error) : error :=
  ErrorfW "thresholds[%d] %s: %w" [ArgZ i; ArgS (thr_Signal t)] e.

(** The body of the loop over the threshold entries. *)
Definition validate_threshold (i : Z) (seen : gset string) (t : SignalThresholds) : check :=
  failif (negb (SignalID_Valid (thr_Signal t)))
    (Errorf "thresholds[%d]: signal %q is not a known signal" [ArgZ i; ArgS (thr_Signal t)]) ;?
  failif (bool_decide (thr_Signal t ∈ seen))
    (Errorf "thresholds[%d]: %s is repeated" [ArgZ i; ArgS (thr_Signal t)]) ;?
  wrapc (thresholds_wrap i t) (checkLadder (thr_Signal t) (rungs t) (releases t)) ;?
  wrapc (thresholds_wrap i t)
    (nonNegatives [("graceSeconds", thr_GraceSeconds t); ("dwellSeconds", thr_DwellSeconds t);
                   ("windowSeconds", thr_WindowSeconds t)]) ;?
  wrapc (thresholds_wrap i t) (nonNegative "minReclaimBytes" (thr_MinReclaimBytes t)).

Definition validate_reserves (r : BudgetReserves) : check :=
  nonNegatives [("reserves.cpuSystemReserveMilli", rsv_CPUSystemReserveMilli r);
                ("reserves.memSystemReserveBytes", rsv_MemSystemReserveBytes r);
                ("reserves.memEvictionReserveBytes", rsv_MemEvictionReserveBytes r)].

Definition at_least_1 (name : string) (v : option Z) : check :=
  match v with
  | Some z => failif (z <? 1) (Errorf "%s %d is below 1" [ArgS name; ArgZ z])
  | None => None
  end.
Definition validate_history (h : BudgetHistory) : check :=
  at_least_1 "history.memoryHalfLifeSeconds" (hist_MemoryHalfLifeSeconds h) ;?
  at_least_1 "history.cpuHalfLifeSeconds" (hist_CPUHalfLifeSeconds h) ;?
  permille "history.marginPermille" (hist_MarginPermille h).

Definition validate_deliveries (v : option Z) : check :=
  match v with
  | Some z => failif (z <? MinTier1DeliveriesPerHour)
      (Errorf "tier1MaxDeliveriesPerHour %d is below %d; set mode off to stop tier 1"
        [ArgZ z; ArgZ MinTier1DeliveriesPerHour])
  | None => None
  end.

(** [if r := s.Reserves; r != nil { ... }]. *)
Definition if_set {A} (f : A -> check) (v : option A) : check :=
  match v with Some a => f a | None => None end.

Definition NodeBudgetPolicySpec_validate (s : NodeBudgetPolicySpec) : check :=
  failif (MaxPolicyNodeSelectorLabels <? Z.of_nat (size (ps_NodeSelector s)))
    (Errorf "nodeSelector has %d labels, at most %d"
      [ArgZ (Z.of_nat (size (ps_NodeSelector s))); ArgZ MaxPolicyNodeSelectorLabels]) ;?
  failif (MaxPolicyThresholds <? len (ps_Thresholds s))
    (Errorf "%d thresholds, at most %d" [ArgZ (len (ps_Thresholds s)); ArgZ MaxPolicyThresholds]) ;?
  each_seen 0 ∅ validate_threshold thr_Signal (ps_Thresholds s) ;?
  if_set validate_reserves (ps_Reserves s) ;?
  if_set validate_history (ps_History s) ;?
  failif (negb (String.eqb (ps_Mode s) "") && negb (KillModeName_Valid (ps_Mode s)))
    (Errorf "mode %q is not a known mode" [ArgS (ps_Mode s)]) ;?
  validate_deliveries (ps_Tier1MaxDeliveriesPerHour s) ;?
  permille "psiHeldPermille" (ps_PSIHeldPermille s).

Definition NodeBudgetPolicySpec_Validate (s : NodeBudgetPolicySpec) : check :=
  wrapc (ErrorfWW "%w: %w" [] (ErrNew ErrInvalidNodeBudgetPolicy)) (NodeBudgetPolicySpec_validate s).

(** ** ApplyFloors *)

(** The closure [raise]: the new value and the names it appends to [clamped]. *)
Definition raise (name : PolicyField) (p : option Z) (floor : Z) : option Z * list PolicyField :=
  match p with
  | Some z => if z <? floor then (Some floor, [name]) else (p, [])
  | None => (p, [])
  end.
Definition lower_cap (p : option Z) : option Z * list PolicyField :=
  match p with
  | Some z => if MaxTier1DeliveriesPerHour <? z
              then (Some MaxTier1DeliveriesPerHour, [FieldTier1MaxDeliveriesPerHour]) else (p, [])
  | None => (p, [])
  end.

Definition ApplyFloors (s : NodeBudgetPolicySpec) : NodeBudgetPolicySpec * list PolicyField :=
  let '(grace, c1) := raise FieldTier1GraceSeconds (ps_Tier1GraceSeconds s) MinTier1GraceSeconds in
  let '(held, c2) := raise FieldTier1HeldSeconds (ps_Tier1HeldSeconds s) MinTier1HeldSeconds in
  let '(cap, c3) := lower_cap (ps_Tier1MaxDeliveriesPerHour s) in
  let '(cool, c4) := raise FieldTier1CooloffSeconds (ps_Tier1CooloffSeconds s) MinTier1CooloffSeconds in
  (mkPolicySpec (ps_NodeSelector s) (ps_Priority s) (ps_Thresholds s) (ps_Reserves s) (ps_History s)
     (ps_Mode s) grace held cap cool (ps_PSIHeldPermille s),
   c1 ++ c2 ++ c3 ++ c4).

(** ** Selects and SelectPolicy *)
Definition NodeBudgetPolicySpec_Selects (s : NodeBudgetPolicySpec) (nodeLabels : gmap string string) : bool :=
  forallb (fun kv => bool_decide (nodeLabels !! kv.1 = Some kv.2)) (map_to_list (ps_NodeSelector s)).

(** The less function of the sort. *)
Definition policy_less (p q : NodeBudgetPolicy) : bool :=
  if negb (ps_Priority (pol_Spec p) =? ps_Priority (pol_Spec q))
  then ps_Priority (pol_Spec q) <? ps_Priority (pol_Spec p)
  else String.ltb (pol_Name p) (pol_Name q).

Definition selecting (policies : list NodeBudgetPolicy) (nodeLabels : gmap string string) : list NodeBudgetPolicy :=
  List.filter (fun p => NodeBudgetPolicySpec_Selects (pol_Spec p) nodeLabels) policies.

Definition SelectPolicy (policies : list NodeBudgetPolicy) (nodeLabels : gmap string string)
    : option NodeBudgetPolicy * list string :=
  match SliceStable policy_less (selecting policies nodeLabels) with
  | [] => (None, [])
  | w :: losers => (Some w, pol_Name <$> losers)
  end.

(** ** What Validate decides *)
Record threshold_ok (t : SignalThresholds) : Prop := {
  thr_known : SignalID_Valid (thr_Signal t) = true;
  thr_ladder : ladder_ok (thr_Signal t) (rungs t) (releases t);
  thr_timers : Forall nonneg [thr_GraceSeconds t; thr_DwellSeconds t; thr_WindowSeconds t; thr_MinReclaimBytes t];
}.
Definition at_least (n : Z) (v : option Z) : Prop := forall z, v = Some z -> n <= z.
Definition at_most (n : Z) (v : option Z) : Prop := forall z, v = Some z -> z <= n.

Record policy_ok (s : NodeBudgetPolicySpec) : Prop := {
  pok_selector : Z.of_nat (size (ps_NodeSelector s)) <= MaxPolicyNodeSelectorLabels;
  pok_count : len (ps_Thresholds s) <= MaxPolicyThresholds;
  pok_thresholds : Forall threshold_ok (ps_Thresholds s);
  pok_once : NoDup (thr_Signal <$> ps_Thresholds s);
  pok_reserves r : ps_Reserves s = Some r ->
    Forall nonneg [rsv_CPUSystemReserveMilli r; rsv_MemSystemReserveBytes r; rsv_MemEvictionReserveBytes r];
  pok_history h : ps_History s = Some h ->
    at_least 1 (hist_MemoryHalfLifeSeconds h) /\ at_least 1 (hist_CPUHalfLifeSeconds h) /\
    in_permille (hist_MarginPermille h);
  pok_mode : ps_Mode s = "" \/ KillModeName_Valid (ps_Mode s) = true;
  pok_cap : at_least MinTier1DeliveriesPerHour (ps_Tier1MaxDeliveriesPerHour s);
  pok_psi : in_permille (ps_PSIHeldPermille s);
}.

Lemma validate_threshold_None i seen t :
  validate_threshold i seen t = None <-> threshold_ok t /\ thr_Signal t ∉ seen.
Proof.
  unfold validate_threshold. autorewrite with checks.
  rewrite negb_false_iff, bool_decide_eq_false, checkLadder_ok by done. simpl.
  rewrite !Forall_cons. split.
  - intros (H1 & H2 & H3 & (H4 & H5 & H6 & _) & H7). split; [|done].
    split; [done..|]. repeat (constructor; [done|]). constructor.
  - intros [[H1 H2 H3] H4]. rewrite !Forall_cons in H3. naive_solver.
Qed.
Lemma if_set_None {A} (f : A -> check) (P : A -> Prop) v :
  (forall a, f a = None <-> P a) -> if_set f v = None <-> (forall a, v = Some a -> P a).
Proof. intros Hf. destruct v; simpl; rewrite ?Hf; naive_solver. Qed.
Lemma at_least_1_None name v : at_least_1 name v = None <-> at_least 1 v.
Proof.
  unfold at_least_1, at_least. destruct v; simpl; [|naive_solver].
  rewrite failif_None, Z.ltb_ge. naive_solver.
Qed.
Lemma validate_deliveries_None v :
  validate_deliveries v = None <-> at_least MinTier1DeliveriesPerHour v.
Proof.
  unfold validate_deliveries, at_least. destruct v; simpl; [|naive_solver].
  rewrite failif_None, Z.ltb_ge. naive_solver.
Qed.
#[export] Hint Rewrite at_least_1_None validate_deliveries_None : checks.

(** [NodeBudgetPolicySpec.Validate] accepts exactly the usable specs. *)
Lemma policy_validate_iff s : NodeBudgetPolicySpec_Validate s = None <-> policy_ok s.
Proof.
  unfold NodeBudgetPolicySpec_Validate, NodeBudgetPolicySpec_validate. autorewrite with checks.
  rewrite (each_seen_None_empty _ _ threshold_ok) by apply validate_threshold_None.
  rewrite (if_set_None _ (fun r => Forall nonneg
    [rsv_CPUSystemReserveMilli r; rsv_MemSystemReserveBytes r; rsv_MemEvictionReserveBytes r]));
    [|intros; unfold validate_reserves; by rewrite nonNegatives_None].
  rewrite (if_set_None _ (fun h => at_least 1 (hist_MemoryHalfLifeSeconds h) /\
    at_least 1 (hist_CPUHalfLifeSeconds h) /\ in_permille (hist_MarginPermille h)));
    [|intros; unfold validate_history; by autorewrite with checks].
  rewrite !Z.ltb_ge, andb_false_iff, !negb_false_iff, String.eqb_eq.
  split.
  - intros (? & ? & [? ?] & ? & ? & ? & ? & ?). by split.
  - intros []. naive_solver.
Qed.

(** ** The order of policies *)
(** The documented precedence: the higher priority first, on a tie the lexically
    smaller name. *)
Definition precedes (p q : NodeBudgetPolicy) : Prop :=
  ps_Priority (pol_Spec q) < ps_Priority (pol_Spec p) \/
  ps_Priority (pol_Spec p) = ps_Priority (pol_Spec q) /\ String.leb (pol_Name p) (pol_Name q) = true.
Lemma policy_before_iff p q : before policy_less p q <-> precedes p q.
Proof.
  unfold before, policy_less, precedes.
  destruct (Z.eqb_spec (ps_Priority (pol_Spec q)) (ps_Priority (pol_Spec p))) as [E|E]; simpl.
  - rewrite string_ltb_leb, negb_false_iff. split; [by right|]. intros [?|[_ ?]]; [lia|done].
  - rewrite Z.ltb_ge. split; [intros; left; lia|]. intros [?|[? _]]; lia.
Qed.
Lemma policy_before_trans p q r :
  before policy_less p q -> before policy_less q r -> before policy_less p r.
Proof.
  rewrite !policy_before_iff. unfold precedes. intros [?|[? H1]] [?|[? H2]]; try (left; lia).
  right. split; [lia|]. by eapply string_leb_trans.
Qed.
Lemma policy_less_before p q : policy_less p q = true -> before policy_less p q.
Proof.
  intros H. rewrite policy_before_iff. unfold policy_less in H.
  destruct (Z.eqb_spec (ps_Priority (pol_Spec p)) (ps_Priority (pol_Spec q))) as [E|E]; simpl in H.
  - right. split; [done|]. rewrite string_ltb_leb, negb_true_iff in H.
    destruct (String.leb_total (pol_Name p) (pol_Name q)); congruence.
  - left. by apply Z.ltb_lt.
Qed.
Lemma sorted_policies l : StronglySorted (before policy_less) (SliceStable policy_less l).
Proof. apply SliceStable_sorted; eauto using policy_before_trans, policy_less_before. Qed.
Lemma sorted_precedence l : StronglySorted precedes (SliceStable policy_less l).
Proof.
  induction (sorted_policies l) as [|p ps _ IH HF]; constructor; [done|].
  eapply Forall_impl; [exact HF|]. intros q. apply policy_before_iff.
Qed.

Lemma elem_of_selecting p ps labels :
  p ∈ selecting ps labels <-> p ∈ ps /\ NodeBudgetPolicySpec_Selects (pol_Spec p) labels = true.
Proof. unfold selecting. rewrite !list_elem_of_In. apply filter_In. Qed.

Lemma Selects_iff s labels :
  NodeBudgetPolicySpec_Selects s labels = true <-> ps_NodeSelector s ⊆ labels.
Proof.
  unfold NodeBudgetPolicySpec_Selects. rewrite forallb_forall, map_subseteq_spec. split.
  - intros H k v Hk. specialize (H (k, v)). rewrite bool_decide_eq_true in H. apply H.
    by apply list_elem_of_In, elem_of_map_to_list.
  - intros H [k v] Hk. rewrite bool_decide_eq_true. apply H.
    by apply elem_of_map_to_list, list_elem_of_In.
Qed.

Lemma selecting_filter ps labels : selecting ps labels = filter (fun p => ps_NodeSelector (pol_Spec p) ⊆ labels) ps.
Proof.
  induction ps as [|p ps IH]; [done|]. rewrite filter_cons, <- IH. unfold selecting. cbn [List.filter].
  pose proof (Selects_iff (pol_Spec p) labels). destruct (NodeBudgetPolicySpec_Selects _ _); case_decide; naive_solver.
Qed.
Lemma selecting_perm ps1 ps2 labels : ps1 ≡ₚ ps2 -> selecting ps1 labels ≡ₚ selecting ps2 labels.
Proof.
  unfold selecting. induction 1 as [|p l1 l2 _ IH|p q l|l1 l2 l3 _ IH1 _ IH2]; simpl; try done.
  - case_match; [by constructor|done].
  - repeat case_match; done || constructor.
  - by etransitivity.
Qed.

Lemma policies_named_apart (l : list NodeBudgetPolicy) p q :
  NoDup (pol_Name <$> l) -> p ∈ l -> q ∈ l -> pol_Name p = pol_Name q -> p = q.
Proof.
  intros Hn [i Hi]%list_elem_of_lookup [j Hj]%list_elem_of_lookup Heq.
  assert (i = j) as <-; [|by simplify_eq].
  eapply (NoDup_lookup _ i j (pol_Name p) Hn); rewrite list_lookup_fmap.
  - by rewrite Hi.
  - by rewrite Hj, Heq.
Qed.

(** ** The floors *)
Definition clamped_name (name : PolicyField) (old new : option Z) : list PolicyField :=
  if bool_decide (new = old) then [] else [name].

Lemma raise_spec name p floor :
  raise name p floor = (Z.max floor <$> p, clamped_name name p (Z.max floor <$> p)).
Proof.
  unfold raise, clamped_name. destruct p as [z|]; simpl; [|done].
  destruct (Z.ltb_spec z floor); simpl.
  - rewrite bool_decide_false by (intros [=]; lia). do 2 f_equal. lia.
  - rewrite bool_decide_true by (f_equal; lia). do 2 f_equal. lia.
Qed.
Lemma lower_cap_spec p :
  lower_cap p = (Z.min MaxTier1DeliveriesPerHour <$> p,
    clamped_name FieldTier1MaxDeliveriesPerHour p (Z.min MaxTier1DeliveriesPerHour <$> p)).
Proof.
  unfold lower_cap, clamped_name, MaxTier1DeliveriesPerHour.
  destruct p as [z|]; simpl; [|done].
  destruct (Z.ltb_spec 6 z); simpl.
  - rewrite bool_decide_false by (intros [=]; lia). do 2 f_equal. lia.
  - rewrite bool_decide_true by (f_equal; lia). do 2 f_equal. lia.
Qed.

(** [ApplyFloors] without its lets. *)
Lemma ApplyFloors_eq s :
  ApplyFloors s =
  let grace := Z.max MinTier1GraceSeconds <$> ps_Tier1GraceSeconds s in
  let held := Z.max MinTier1HeldSeconds <$> ps_Tier1HeldSeconds s in
  let cap := Z.min MaxTier1DeliveriesPerHour <$> ps_Tier1MaxDeliveriesPerHour s in
  let cool := Z.max MinTier1CooloffSeconds <$> ps_Tier1CooloffSeconds s in
  (mkPolicySpec (ps_NodeSelector s) (ps_Priority s) (ps_Thresholds s) (ps_Reserves s) (ps_History s)
     (ps_Mode s) grace held cap cool (ps_PSIHeldPermille s),
   clamped_name FieldTier1GraceSeconds (ps_Tier1GraceSeconds s) grace ++
   clamped_name FieldTier1HeldSeconds (ps_Tier1HeldSeconds s) held ++
   clamped_name FieldTier1MaxDeliveriesPerHour (ps_Tier1MaxDeliveriesPerHour s) cap ++
   clamped_name FieldTier1CooloffSeconds (ps_Tier1CooloffSeconds s) cool).
Proof. unfold ApplyFloors. by rewrite !raise_spec, lower_cap_spec. Qed.

Lemma fmap_at_least n v : at_least n (Z.max n <$> v).
Proof. intros z. destruct v; simpl; intros [=]. lia. Qed.
Lemma fmap_at_most n v : at_most n (Z.min n <$> v).
Proof. intros z. destruct v; simpl; intros [=]. lia. Qed.
Lemma fmap_max_idem n (v : option Z) : Z.max n <$> (Z.max n <$> v) = Z.max n <$> v.
Proof. destruct v; simpl; [|done]. f_equal. lia. Qed.
Lemma fmap_min_idem n (v : option Z) : Z.min n <$> (Z.min n <$> v) = Z.min n <$> v.
Proof. destruct v; simpl; [|done]. f_equal. lia. Qed.
Lemma clamped_name_refl name v : clamped_name name v v = [].
Proof. unfold clamped_name. by rewrite bool_decide_true. Qed.

(** ** Theorems *)

(** [NodeBudgetPolicySpec.Validate] accepts exactly the usable specs (every
    threshold entry a known signal, listed once, with its ladder in order and
    no negative timer; the reserves, half-lives, permilles, mode and hourly
    cap within their bounds), and every error it returns wraps
    ErrInvalidNodeBudgetPolicy. *)
Theorem policy_Validate_spec (s : NodeBudgetPolicySpec) :
  (NodeBudgetPolicySpec_Validate s = None <-> policy_ok s) /\
  (policy_ok s \/ exists e, NodeBudgetPolicySpec_Validate s = Some e /\
     errors_is e ErrInvalidNodeBudgetPolicy = true).
Proof.
  split; [apply policy_validate_iff|].
  destruct (NodeBudgetPolicySpec_Validate s) as [e|] eqn:E.
  - right. exists e. split; [done|]. unfold NodeBudgetPolicySpec_Validate in E.
    destruct (NodeBudgetPolicySpec_validate s); simpl in E; [|done]. by injection E as <-.
  - left. by apply policy_validate_iff.
Qed.

(** C20: [ApplyFloors] raises every set tier-1 timer to its floor and lowers
    the hourly cap, leaves unset fields unset and everything else as it was,
    and reports exactly the fields it changed, in the fixed order; applying it
    again changes and reports nothing. *)
Theorem ApplyFloors_spec (s : NodeBudgetPolicySpec) :
  let '(out, clamped) := ApplyFloors s in
  at_least MinTier1GraceSeconds (ps_Tier1GraceSeconds out) /\
  at_least MinTier1HeldSeconds (ps_Tier1HeldSeconds out) /\
  at_most MaxTier1DeliveriesPerHour (ps_Tier1MaxDeliveriesPerHour out) /\
  at_least MinTier1CooloffSeconds (ps_Tier1CooloffSeconds out) /\
  out = mkPolicySpec (ps_NodeSelector s) (ps_Priority s) (ps_Thresholds s) (ps_Reserves s)
    (ps_History s) (ps_Mode s) (Z.max MinTier1GraceSeconds <$> ps_Tier1GraceSeconds s)
    (Z.max MinTier1HeldSeconds <$> ps_Tier1HeldSeconds s)
    (Z.min MaxTier1DeliveriesPerHour <$> ps_Tier1MaxDeliveriesPerHour s)
    (Z.max MinTier1CooloffSeconds <$> ps_Tier1CooloffSeconds s) (ps_PSIHeldPermille s) /\
  clamped =
    clamped_name FieldTier1GraceSeconds (ps_Tier1GraceSeconds s) (ps_Tier1GraceSeconds out) ++
    clamped_name FieldTier1HeldSeconds (ps_Tier1HeldSeconds s) (ps_Tier1HeldSeconds out) ++
    clamped_name FieldTier1MaxDeliveriesPerHour (ps_Tier1MaxDeliveriesPerHour s) (ps_Tier1MaxDeliveriesPerHour out) ++
    clamped_name FieldTier1CooloffSeconds (ps_Tier1CooloffSeconds s) (ps_Tier1CooloffSeconds out) /\
  (clamped = [] <-> out = s) /\
  ApplyFloors out = (out, []).
Proof.
  rewrite ApplyFloors_eq. cbv zeta. repeat split; cbn [ps_Tier1GraceSeconds ps_Tier1HeldSeconds
    ps_Tier1MaxDeliveriesPerHour ps_Tier1CooloffSeconds].
  - apply fmap_at_least.
  - apply fmap_at_least.
  - apply fmap_at_most.
  - apply fmap_at_least.
  - unfold clamped_name. repeat case_bool_decide; try discriminate. intros _.
    destruct s; simpl in *. congruence.
  - intros E. unfold clamped_name. destruct s; simpl in *. injection E as E1 E2 E3 E4.
    rewrite !bool_decide_true by done. done.
  - rewrite ApplyFloors_eq. cbn -[Z.max Z.min]. rewrite !fmap_max_idem, fmap_min_idem, !clamped_name_refl. done.
Qed.

(** A spec that passes validation still passes it after the floors are
    applied. *)
Theorem ApplyFloors_keeps_valid (s : NodeBudgetPolicySpec) (H : NodeBudgetPolicySpec_Validate s = None) :
  NodeBudgetPolicySpec_Validate (ApplyFloors s).1 = None.
Proof.
  rewrite policy_validate_iff in *. rewrite ApplyFloors_eq. destruct H as [? ? ? ? ? ? ? Hcap ?].
  split; try done. intros z. unfold at_least in Hcap. simpl.
  destruct (ps_Tier1MaxDeliveriesPerHour s) as [c|]; simpl; [|done]. intros [= <-].
  specialize (Hcap c eq_refl). unfold MinTier1DeliveriesPerHour, MaxTier1DeliveriesPerHour in *. lia.
Qed.

(** C24: [SelectPolicy] returns no policy exactly when none selects the node;
    otherwise the winner and the other policies whose selector the node's labels
    contain are these policies sorted by the documented precedence (the higher
    priority first, on a tie the lexically smaller name): the winner is the
    first and the second result lists the names of the others in that order. *)
Theorem SelectPolicy_spec (ps : list NodeBudgetPolicy) (labels : gmap string string) :
  match SelectPolicy ps labels with
  | (None, losers) => losers = [] /\ (forall p, p ∈ ps -> ~ ps_NodeSelector (pol_Spec p) ⊆ labels)
  | (Some w, losers) =>
      w ∈ ps /\ ps_NodeSelector (pol_Spec w) ⊆ labels /\
      exists rest, losers = pol_Name <$> rest /\
        w :: rest ≡ₚ filter (fun p => ps_NodeSelector (pol_Spec p) ⊆ labels) ps /\
        StronglySorted precedes (w :: rest)
  end.
Proof.
  unfold SelectPolicy. pose proof (SliceStable_perm policy_less (selecting ps labels)) as Hp.
  pose proof (sorted_precedence (selecting ps labels)) as Hs. rewrite selecting_filter in Hp at 2.
  destruct (SliceStable policy_less (selecting ps labels)) as [|w rest].
  - split; [done|]. intros p Hin Hsel. apply Permutation_nil_l in Hp.
    assert (p ∈ filter (fun p => ps_NodeSelector (pol_Spec p) ⊆ labels) ps) as Hps by (by apply list_elem_of_filter).
    rewrite <- Hp in Hps. by apply elem_of_nil in Hps.
  - assert (w ∈ filter (fun p => ps_NodeSelector (pol_Spec p) ⊆ labels) ps) as Hw by (rewrite <- Hp; left).
    apply list_elem_of_filter in Hw as [? ?]. eauto 6.
Qed.

(** With distinct policy names, the choice does not depend on the order in
    which the policies are listed. *)
Theorem SelectPolicy_order_independent (ps1 ps2 : list NodeBudgetPolicy) (labels : gmap string string)
    (Hn : NoDup (pol_Name <$> ps1)) (Hp : ps1 ≡ₚ ps2) :
  SelectPolicy ps1 labels = SelectPolicy ps2 labels.
Proof.
  unfold SelectPolicy.
  assert (SliceStable policy_less (selecting ps1 labels) = SliceStable policy_less (selecting ps2 labels)) as ->;
    [|done].
  apply (sorted_perm_eq policy_less); [|apply sorted_policies..|].
  - intros p q Hpi Hqi Hpq Hqp. rewrite SliceStable_perm, elem_of_selecting in Hpi, Hqi.
    apply (policies_named_apart ps1); [done|naive_solver..|].
    rewrite policy_before_iff in Hpq, Hqp.
    destruct Hpq as [?|[? H1]], Hqp as [?|[? H2]]; try lia. by apply String.leb_antisym.
  - rewrite !SliceStable_perm. by apply selecting_perm.
Qed.

(** Two policies of one priority, and a timer below its floor. *)
Definition sample_spec (grace : Z) : NodeBudgetPolicySpec :=
  mkPolicySpec ∅ 1 [] None None KillModeAuto (Some grace) None (Some 9) None None.
Lemma ApplyFloors_keeps_valid_witness :
  NodeBudgetPolicySpec_Validate (sample_spec 3) = None /\
  NodeBudgetPolicySpec_Validate (ApplyFloors (sample_spec 3)).1 = None.
Proof.
  assert (H : NodeBudgetPolicySpec_Validate (sample_spec 3) = None) by (vm_compute; reflexivity).
  split; [exact H|exact (ApplyFloors_keeps_valid (sample_spec 3) H)].
Defined.
Lemma SelectPolicy_order_independent_witness :
  SelectPolicy [mkPolicy "b" (sample_spec 3); mkPolicy "a" (sample_spec 5)] ∅ =
  SelectPolicy [mkPolicy "a" (sample_spec 5); mkPolicy "b" (sample_spec 3)] ∅.
Proof.
  apply SelectPolicy_order_independent; [apply (bool_decide_unpack _); vm_compute; exact I|constructor].
Defined.
