(* ===== verification/BudgetObservation.v ===== *)
(** * NodeBudget: validation of the observation and of the status
    (src/budget/v1alpha1/nodebudget.go)

    One definition per validate method, in the order of its checks.
    [observation_ok] is the well-formedness the node and the relay rely on;
    [observation_validate_iff] says the method decides it. *)
From S2P Require Import Prelude GoLib BudgetVocab BudgetTypes BudgetLadder BudgetPolicy.

Definition MaxBudgetSignals : Z := 8.
Definition MaxBudgetConditions : Z := 8.
Definition MaxClampedFields : Z := 8.
Definition MaxPolicyResourceVersionBytes : Z := 64.
Definition MaxWindowCounts : Z := 12.
Definition ErrInvalidNodeBudget : string := "budgetv1alpha1: invalid node budget".

Definition BudgetCapacity_validate (c : BudgetCapacity) : check :=
  each 0 (fun _ f => nonNegative ("capacity." +:+ f.1) f.2)
    [("cpuCapacityMilli", cap_CPUCapacityMilli c);
     ("cpuSystemReserveMilli", cap_CPUSystemReserveMilli c);
     ("memCapacityBytes", cap_MemCapacityBytes c);
     ("memSystemReserveBytes", cap_MemSystemReserveBytes c);
     ("memEvictionReserveBytes", cap_MemEvictionReserveBytes c);
     ("memAllocatableBytes", cap_MemAllocatableBytes c);
     ("swapTotalBytes", cap_SwapTotalBytes c);
     ("swapUsedBytes", cap_SwapUsedBytes c);
     ("cpuPerformanceCores", cap_CPUPerformanceCores c);
     ("cpuEfficiencyCores", cap_CPUEfficiencyCores c);
     ("gpuCount", cap_GPUCount c)] ;?
  match cap_GPUPresent c, cap_GPUCount c with
  | Some present, Some count =>
      failif (negb (Bool.eqb present (0 <? count)))
        (Errorf "capacity.gpuCount %d disagrees with capacity.gpuPresent %t" [ArgZ count; ArgB present])
  | _, _ => None
  end.

Definition BudgetSignal_validate (s : BudgetSignal) : check :=
  failif (negb (SignalID_Valid (sig_ID s))) (Errorf "id %q is not a known signal" [ArgS (sig_ID s)]) ;?
  failif (negb (String.eqb (sig_Unit s) (SignalID_Unit (sig_ID s))))
    (Errorf "%s: unit %q, want %q" [ArgS (sig_ID s); ArgS (sig_Unit s); ArgS (SignalID_Unit (sig_ID s))]) ;?
  wrapc (ErrorfW "%s: %w" [ArgS (sig_ID s)])
    (nonNegatives [("value", sig_Value s); ("graceSeconds", sig_GraceSeconds s);
                   ("minReclaimBytes", sig_MinReclaimBytes s); ("windowSeconds", sig_WindowSeconds s);
                   ("etaToNextRungSeconds", sig_EtaToNextRungSeconds s)]) ;?
  wrapc (ErrorfW "%s: %w" [ArgS (sig_ID s)]) (checkLadder (sig_ID s) (rungs s) (releases s)) ;?
  failif (negb (String.eqb (sig_Trend s) "") && negb (Trend_Valid (sig_Trend s)))
    (Errorf "%s: trend %q is not a known trend" [ArgS (sig_ID s); ArgS (sig_Trend s)]) ;?
  failif (negb (String.eqb (sig_LimitingResource s) "") && negb (LimitingResource_Valid (sig_LimitingResource s)))
    (Errorf "%s: limitingResource %q is not a known resource" [ArgS (sig_ID s); ArgS (sig_LimitingResource s)]) ;?
  failif (negb (String.eqb (sig_SharedWith s) "") &&
          (negb (SignalID_Valid (sig_SharedWith s)) || String.eqb (sig_SharedWith s) (sig_ID s)))
    (Errorf "%s: sharedWith %q is not another known signal" [ArgS (sig_ID s); ArgS (sig_SharedWith s)]).

Definition KillMode_validate (k : KillMode) : check :=
  if bool_decide (k = zero_KillMode) then None else
  failif (negb (KillModeName_Valid (km_Mode k))) (Errorf "killMode.mode %q is not a known mode" [ArgS (km_Mode k)]) ;?
  failif (km_ArmingEpisodes k <? 0) (Errorf "killMode.armingEpisodes %d is negative" [ArgZ (km_ArmingEpisodes k)]) ;?
  failif (negb (String.eqb (km_Reason k) "") && negb (KillModeReason_Valid (km_Reason k)))
    (Errorf "killMode.reason %q is not a known reason" [ArgS (km_Reason k)]).

(** The body of the loop over the windowed counts of one band. *)
Definition validate_window (band : Band) (i : Z) (seen : gset (string * string)) (w : WindowCount) : check :=
  failif (negb (CounterWindow_Valid (wc_Window w)) || negb (CounterReason_Valid (wc_Reason w)))
    (Errorf "%s windows[%d]: unknown window %q or reason %q" [ArgS band; ArgZ i; ArgS (wc_Window w); ArgS (wc_Reason w)]) ;?
  failif (wc_Count w <? 0) (Errorf "%s windows[%d]: count %d is negative" [ArgS band; ArgZ i; ArgZ (wc_Count w)]) ;?
  failif (bool_decide ((wc_Window w, wc_Reason w) ∈ seen))
    (Errorf "%s windows[%d]: %s %s is repeated" [ArgS band; ArgZ i; ArgS (wc_Window w); ArgS (wc_Reason w)]).
Definition window_key (w : WindowCount) : string * string := (wc_Window w, wc_Reason w).

Definition BandCounters_totals (c : BandCounters) : list (string * Z) :=
  [("evictionsTotal", bc_EvictionsTotal c); ("oomKillsTotal", bc_OOMKillsTotal c);
   ("kernelKillsTotal", bc_KernelKillsTotal c); ("restartsTotal", bc_RestartsTotal c);
   ("memHighEventsTotal", bc_MemHighEventsTotal c); ("tier1RefusedTotal", bc_Tier1RefusedTotal c)].

Definition BandCounters_validate (c : BandCounters) : check :=
  failif (negb (Band_Valid (bc_Band c))) (Errorf "band %q is not a known band" [ArgS (bc_Band c)]) ;?
  each 0 (fun _ f => failif (f.2 <? 0) (Errorf "%s %s %d is negative" [ArgS (bc_Band c); ArgS f.1; ArgZ f.2]))
    (BandCounters_totals c) ;?
  failif (MaxWindowCounts <? len (bc_Windows c))
    (Errorf "%s: %d windowed counts, at most %d" [ArgS (bc_Band c); ArgZ (len (bc_Windows c)); ArgZ MaxWindowCounts]) ;?
  each_seen 0 ∅ (validate_window (bc_Band c)) window_key (bc_Windows c).

Definition AppliedPolicy_validate (p : AppliedPolicy) : check :=
  failif (negb (isObjectName (ref_Name (ap_Ref p)))) (Errorf "name %q is not an object name" [ArgS (ref_Name (ap_Ref p))]) ;?
  failif (negb (String.eqb (ref_ResourceVersion (ap_Ref p)) "") &&
          negb (isPrintableASCII (ref_ResourceVersion (ap_Ref p)) MaxPolicyResourceVersionBytes))
    (Errorf "resourceVersion is not 1..%d printable ASCII bytes" [ArgZ MaxPolicyResourceVersionBytes]) ;?
  failif (negb (PolicyOutcome_Valid (ap_Outcome p))) (Errorf "outcome %q is not a known outcome" [ArgS (ap_Outcome p)]) ;?
  failif (MaxClampedFields <? len (ap_ClampedFields p))
    (Errorf "%d clampedFields, at most %d" [ArgZ (len (ap_ClampedFields p)); ArgZ MaxClampedFields]) ;?
  each_seen 0 ∅ (fun i (seen : gset string) f =>
      failif (negb (PolicyField_Valid f)) (Errorf "clampedFields[%d] %q is not a known policy field" [ArgZ i; ArgS f]) ;?
      failif (bool_decide (f ∈ seen)) (Errorf "clampedFields[%d] %q is repeated" [ArgZ i; ArgS f]))
    (fun f => f : string) (ap_ClampedFields p).

Definition DarwinSignals_validate (d : DarwinSignals) : check :=
  let vals := [("vmPressureLevel", ds_VMPressureLevel d);
               ("memorystatusLevelPermille", ds_MemorystatusLevelPermille d);
               ("swapinsTotal", ds_SwapinsTotal d); ("swapoutsTotal", ds_SwapoutsTotal d)] in
  let vals := match ds_Compressor d with
              | Some c => vals ++ [("compressor.bytesUsed", dc_BytesUsed c);
                                   ("compressor.bytesStored", dc_BytesStored c);
                                   ("compressor.segmentLimitBytes", dc_SegmentLimitBytes c)]
              | None => vals
              end in
  nonNegatives vals ;?
  permille "memorystatusLevelPermille" (ds_MemorystatusLevelPermille d).

Definition validate_psi_line (path : string) (l : PSILine) : check :=
  permille (path +:+ ".avg10Permille") (psi_Avg10Permille l) ;?
  permille (path +:+ ".avg60Permille") (psi_Avg60Permille l) ;?
  nonNegative (path +:+ ".totalUs") (psi_TotalUs l).
Definition validate_psi_resource (name : string) (r : PSIResource) : check :=
  if_set (validate_psi_line ("psi." +:+ name +:+ ".some")) (psi_Some r) ;?
  if_set (validate_psi_line ("psi." +:+ name +:+ ".full")) (psi_Full r).
Definition validate_psi (p : LinuxPSI) : check :=
  if_set (validate_psi_resource "cpu") (psi_CPU p) ;?
  if_set (validate_psi_resource "memory") (psi_Memory p) ;?
  if_set (validate_psi_resource "io") (psi_IO p).
Definition validate_memory_events (e : LinuxMemoryEvents) : check :=
  each 0 (fun _ f => nonNegative ("memoryEvents." +:+ f.1) f.2)
    [("high", ev_High e); ("max", ev_Max e); ("oom", ev_OOM e); ("oomKill", ev_OOMKill e)].
Definition LinuxSignals_validate (l : LinuxSignals) : check :=
  if_set validate_psi (ls_PSI l) ;? if_set validate_memory_events (ls_MemoryEvents l).

(** The sections of [NodeBudgetObservation.validate], in order. *)
Definition validate_identity (o : NodeBudgetObservation) : check :=
  failif (Time_IsZero (obs_ObservedAt o)) (Errorf "observedAt is not set" []) ;?
  failif (obs_ProducerGeneration o <? 0) (Errorf "producerGeneration %d is negative" [ArgZ (obs_ProducerGeneration o)]) ;?
  failif (negb (Platform_Valid (obs_Platform o))) (Errorf "platform %q is not a known platform" [ArgS (obs_Platform o)]) ;?
  failif (Bool.eqb (bool_decide (is_Some (obs_Darwin o))) (bool_decide (is_Some (obs_Linux o))))
    (Errorf "exactly one of darwin and linux must be set" []) ;?
  failif (negb (Bool.eqb (String.eqb (obs_Platform o) PlatformDarwin) (bool_decide (is_Some (obs_Darwin o)))))
    (Errorf "platform %q does not match the platform block set" [ArgS (obs_Platform o)]) ;?
  failif (negb (Level_Valid (obs_Level o))) (Errorf "level %q is not a known level" [ArgS (obs_Level o)]) ;?
  (if negb (String.eqb (obs_AdmitReasonSignal o) "") then
     failif (negb (SignalID_Valid (obs_AdmitReasonSignal o)))
       (Errorf "admitReasonSignal %q is not a known signal" [ArgS (obs_AdmitReasonSignal o)]) ;?
     failif (obs_Admit o) (Errorf "admitReasonSignal is set while admit is true" [])
   else None) ;?
  failif (match obs_EvictDeadline o with Some t => Time_IsZero t | None => false end)
    (Errorf "evictDeadline is set but zero" []).

Definition validate_signals (o : NodeBudgetObservation) : check :=
  failif (MaxBudgetSignals <? len (elems (obs_Signals o)))
    (Errorf "%d signals, at most %d" [ArgZ (len (elems (obs_Signals o))); ArgZ MaxBudgetSignals]) ;?
  each_seen 0 ∅ (fun i (seen : gset string) s =>
      wrapc (ErrorfW "signals[%d]: %w" [ArgZ i]) (BudgetSignal_validate s) ;?
      failif (bool_decide (sig_ID s ∈ seen)) (Errorf "signals[%d]: %s is repeated" [ArgZ i; ArgS (sig_ID s)]))
    (fun s => sig_ID s : string) (elems (obs_Signals o)).

Definition validate_would_kill (w : WouldKill) : check :=
  failif (negb (Band_Valid (wk_Band w))) (Errorf "wouldKill.band %q is not a known band" [ArgS (wk_Band w)]) ;?
  failif (negb (WouldKillReason_Valid (wk_Reason w))) (Errorf "wouldKill.reason %q is not a known reason" [ArgS (wk_Reason w)]) ;?
  failif (Time_IsZero (wk_At w)) (Errorf "wouldKill.at is not set" []).

Definition validate_counters (o : NodeBudgetObservation) : check :=
  failif (len Bands <? len (elems (obs_Counters o)))
    (Errorf "%d counter entries, at most %d" [ArgZ (len (elems (obs_Counters o))); ArgZ (len Bands)]) ;?
  each_seen 0 ∅ (fun i (bands : gset string) c =>
      wrapc (ErrorfW "counters[%d]: %w" [ArgZ i]) (BandCounters_validate c) ;?
      failif (bool_decide (bc_Band c ∈ bands)) (Errorf "counters[%d]: band %s is repeated" [ArgZ i; ArgS (bc_Band c)]))
    (fun c => bc_Band c : string) (elems (obs_Counters o)).

Definition validate_in_force (r : PolicyRef) : check :=
  failif (negb (isObjectName (ref_Name r))) (Errorf "inForce.name %q is not an object name" [ArgS (ref_Name r)]) ;?
  failif (negb (String.eqb (ref_ResourceVersion r) "") &&
          negb (isPrintableASCII (ref_ResourceVersion r) MaxPolicyResourceVersionBytes))
    (Errorf "inForce.resourceVersion is not 1..%d printable ASCII bytes" [ArgZ MaxPolicyResourceVersionBytes]).

Definition validate_policy_in_force (o : NodeBudgetObservation) : check :=
  match obs_Policy o with
  | Some p =>
      if negb (String.eqb (ap_Outcome p) PolicyRejected) then
        failif (match obs_InForce o with
                | None => true
                | Some r => negb (String.eqb (ref_Name r) (ref_Name (ap_Ref p))) ||
                            negb (String.eqb (ref_ResourceVersion r) (ref_ResourceVersion (ap_Ref p)))
                end)
          (Errorf "policy %s was %s, so inForce must name the same name and resourceVersion"
            [ArgS (ref_Name (ap_Ref p)); ArgS (ap_Outcome p)])
      else None
  | None => None
  end.

Definition NodeBudgetObservation_validate (o : NodeBudgetObservation) : check :=
  validate_identity o ;?
  BudgetCapacity_validate (obs_Capacity o) ;?
  validate_signals o ;?
  nonNegative "recommendation.safeAdditionalBytes" (rec_SafeAdditionalBytes (obs_Recommendation o)) ;?
  failif (negb (String.eqb (rec_Basis (obs_Recommendation o)) "") && negb (SignalID_Valid (rec_Basis (obs_Recommendation o))))
    (Errorf "recommendation.basis %q is not a known signal" [ArgS (rec_Basis (obs_Recommendation o))]) ;?
  KillMode_validate (obs_KillMode o) ;?
  if_set validate_would_kill (obs_WouldKill o) ;?
  validate_counters o ;?
  if_set (fun p => wrapc (ErrorfW "policy: %w" []) (AppliedPolicy_validate p)) (obs_Policy o) ;?
  if_set validate_in_force (obs_InForce o) ;?
  validate_policy_in_force o ;?
  if_set (fun d => wrapc (ErrorfW "darwin: %w" []) (DarwinSignals_validate d)) (obs_Darwin o) ;?
  if_set (fun l => wrapc (ErrorfW "linux: %w" []) (LinuxSignals_validate l)) (obs_Linux o).

Definition NodeBudgetObservation_Validate (o : NodeBudgetObservation) : check :=
  wrapc (ErrorfWW "%w: %w" [] (ErrNew ErrInvalidNodeBudget)) (NodeBudgetObservation_validate o).

(** ** The status *)

(** [reflect.ValueOf(o).IsZero()]: every field is its zero value; an empty
    slice that is not nil is not zero. *)
Definition Observation_IsZero (o : NodeBudgetObservation) : bool :=
  bool_decide (obs_ObservedAt o = zero_Time) && (obs_ProducerGeneration o =? 0) &&
  String.eqb (obs_Platform o) "" && String.eqb (obs_Level o) "" && negb (obs_Admit o) &&
  String.eqb (obs_AdmitReasonSignal o) "" && bool_decide (obs_EvictDeadline o = None) &&
  bool_decide (obs_Capacity o = zero_Capacity) &&
  match obs_Signals o with None => true | Some _ => false end &&
  bool_decide (obs_Recommendation o = zero_Recommendation) &&
  bool_decide (obs_KillMode o = zero_KillMode) &&
  match obs_WouldKill o with None => true | Some _ => false end &&
  match obs_Counters o with None => true | Some _ => false end &&
  match obs_Policy o with None => true | Some _ => false end &&
  match obs_InForce o with None => true | Some _ => false end &&
  match obs_Darwin o with None => true | Some _ => false end &&
  match obs_Linux o with None => true | Some _ => false end.

(** The body of the loop over the conditions. *)
Definition validate_condition (i : Z) (c : Condition) : check :=
  if negb (oneOf (cond_Type c) [ConditionReporting; ConditionPolicyRejected; ConditionPolicyClamped; ConditionPolicyConflict])
  then None else
  match ConditionReasons (cond_Type c) (cond_Status c) with
  | None =>
      Some (ErrorfW "%w: conditions[%d] %s has status %q, want True or False (Unknown is not used)"
        [ArgZ i; ArgS (cond_Type c); ArgS (cond_Status c)] (ErrNew ErrInvalidNodeBudget))
  | Some reasons =>
      failif (negb (oneOf (cond_Reason c) reasons))
        (ErrorfW "%w: conditions[%d] %s=%s reason %q, want one of %v"
          [ArgZ i; ArgS (cond_Type c); ArgS (cond_Status c); ArgS (cond_Reason c); ArgL reasons]
          (ErrNew ErrInvalidNodeBudget))
  end.

Definition NodeBudgetStatus_Validate (s : NodeBudgetStatus) : check :=
  if_set (fun w => failif (negb (WriterShape_Valid (bw_Shape w)))
      (ErrorfW "%w: writer.shape %q is not a known writer shape" [ArgS (bw_Shape w)] (ErrNew ErrInvalidNodeBudget)))
    (st_Writer s) ;?
  failif (MaxBudgetConditions <? len (st_Conditions s))
    (ErrorfW "%w: %d conditions, at most %d" [ArgZ (len (st_Conditions s)); ArgZ MaxBudgetConditions]
      (ErrNew ErrInvalidNodeBudget)) ;?
  each 0 validate_condition (st_Conditions s) ;?
  if Observation_IsZero (st_Observation s) then None
  else NodeBudgetObservation_Validate (st_Observation s).

(** ** Well-formed observations *)
Definition unset_or (valid : string -> bool) (v : string) : Prop := v = "" \/ valid v = true.

Record capacity_ok (c : BudgetCapacity) : Prop := {
  cok_nonneg : Forall nonneg
    [cap_CPUCapacityMilli c; cap_CPUSystemReserveMilli c; cap_MemCapacityBytes c; cap_MemSystemReserveBytes c;
     cap_MemEvictionReserveBytes c; cap_MemAllocatableBytes c; cap_SwapTotalBytes c; cap_SwapUsedBytes c;
     cap_CPUPerformanceCores c; cap_CPUEfficiencyCores c; cap_GPUCount c];
  cok_gpu present count : cap_GPUPresent c = Some present -> cap_GPUCount c = Some count ->
    (present = true <-> 0 < count);
}.

Record signal_ok (s : BudgetSignal) : Prop := {
  sok_known : SignalID_Valid (sig_ID s) = true;
  sok_unit : sig_Unit s = SignalID_Unit (sig_ID s);
  sok_nonneg : Forall nonneg [sig_Value s; sig_GraceSeconds s; sig_MinReclaimBytes s; sig_WindowSeconds s; sig_EtaToNextRungSeconds s];
  sok_ladder : ladder_ok (sig_ID s) (rungs s) (releases s);
  sok_trend : unset_or Trend_Valid (sig_Trend s);
  sok_resource : unset_or LimitingResource_Valid (sig_LimitingResource s);
  sok_shared : sig_SharedWith s = "" \/ SignalID_Valid (sig_SharedWith s) = true /\ sig_SharedWith s <> sig_ID s;
}.

Record window_ok (w : WindowCount) : Prop := {
  wok_window : CounterWindow_Valid (wc_Window w) = true;
  wok_reason : CounterReason_Valid (wc_Reason w) = true;
  wok_count : 0 <= wc_Count w;
}.

Record counters_ok (c : BandCounters) : Prop := {
  bok_band : Band_Valid (bc_Band c) = true;
  bok_totals : Forall (fun f => 0 <= f.2) (BandCounters_totals c);
  bok_size : len (bc_Windows c) <= MaxWindowCounts;
  bok_windows : Forall window_ok (bc_Windows c);
  bok_once : NoDup (window_key <$> bc_Windows c);
}.

Definition resource_version_ok (v : string) : Prop :=
  v = "" \/ isPrintableASCII v MaxPolicyResourceVersionBytes = true.
Definition ref_ok (r : PolicyRef) : Prop :=
  isObjectName (ref_Name r) = true /\ resource_version_ok (ref_ResourceVersion r).

Record applied_ok (p : AppliedPolicy) : Prop := {
  aok_ref : ref_ok (ap_Ref p);
  aok_outcome : PolicyOutcome_Valid (ap_Outcome p) = true;
  aok_size : len (ap_ClampedFields p) <= MaxClampedFields;
  aok_fields : Forall (fun f => PolicyField_Valid f = true) (ap_ClampedFields p);
  aok_once : NoDup (ap_ClampedFields p);
}.

Record killmode_ok (k : KillMode) : Prop := {
  kok_mode : KillModeName_Valid (km_Mode k) = true;
  kok_episodes : 0 <= km_ArmingEpisodes k;
  kok_reason : unset_or KillModeReason_Valid (km_Reason k);
}.

Definition psi_line_ok (l : PSILine) : Prop :=
  in_permille (psi_Avg10Permille l) /\ in_permille (psi_Avg60Permille l) /\ nonneg (psi_TotalUs l).
Definition psi_resource_ok (r : PSIResource) : Prop :=
  (forall l, psi_Some r = Some l -> psi_line_ok l) /\ (forall l, psi_Full r = Some l -> psi_line_ok l).
Definition psi_ok (p : LinuxPSI) : Prop :=
  (forall r, psi_CPU p = Some r -> psi_resource_ok r) /\
  (forall r, psi_Memory p = Some r -> psi_resource_ok r) /\
  (forall r, psi_IO p = Some r -> psi_resource_ok r).
Definition events_ok (e : LinuxMemoryEvents) : Prop :=
  Forall nonneg [ev_High e; ev_Max e; ev_OOM e; ev_OOMKill e].
Definition linux_ok (l : LinuxSignals) : Prop :=
  (forall p, ls_PSI l = Some p -> psi_ok p) /\ (forall e, ls_MemoryEvents l = Some e -> events_ok e).
Definition compressor_ok (c : DarwinCompressor) : Prop :=
  Forall nonneg [dc_BytesUsed c; dc_BytesStored c; dc_SegmentLimitBytes c].
Definition darwin_ok (d : DarwinSignals) : Prop :=
  Forall nonneg [ds_VMPressureLevel d; ds_SwapinsTotal d; ds_SwapoutsTotal d] /\
  in_permille (ds_MemorystatusLevelPermille d) /\
  (forall c, ds_Compressor d = Some c -> compressor_ok c).

Definition would_kill_ok (w : WouldKill) : Prop :=
  Band_Valid (wk_Band w) = true /\ WouldKillReason_Valid (wk_Reason w) = true /\ Time_IsZero (wk_At w) = false.

(** The platform names exactly the platform block that is set. *)
Definition platform_ok (o : NodeBudgetObservation) : Prop :=
  obs_Platform o = PlatformDarwin /\ is_Some (obs_Darwin o) /\ obs_Linux o = None \/
  obs_Platform o = PlatformLinux /\ is_Some (obs_Linux o) /\ obs_Darwin o = None.

(** A policy the node did not reject is the one in force. *)
Definition in_force_ok (o : NodeBudgetObservation) : Prop :=
  forall p, obs_Policy o = Some p -> ap_Outcome p <> PolicyRejected -> obs_InForce o = Some (ap_Ref p).

Record observation_ok (o : NodeBudgetObservation) : Prop := {
  ook_at : Time_IsZero (obs_ObservedAt o) = false;
  ook_generation : 0 <= obs_ProducerGeneration o;
  ook_platform : platform_ok o;
  ook_level : Level_Valid (obs_Level o) = true;
  ook_admit : obs_AdmitReasonSignal o = "" \/ SignalID_Valid (obs_AdmitReasonSignal o) = true /\ obs_Admit o = false;
  ook_deadline t : obs_EvictDeadline o = Some t -> Time_IsZero t = false;
  ook_capacity : capacity_ok (obs_Capacity o);
  ook_size : len (elems (obs_Signals o)) <= MaxBudgetSignals;
  ook_signals : Forall signal_ok (elems (obs_Signals o));
  ook_once : NoDup (sig_ID <$> elems (obs_Signals o));
  ook_safe : nonneg (rec_SafeAdditionalBytes (obs_Recommendation o));
  ook_basis : unset_or SignalID_Valid (rec_Basis (obs_Recommendation o));
  ook_killmode : obs_KillMode o = zero_KillMode \/ killmode_ok (obs_KillMode o);
  ook_wouldkill w : obs_WouldKill o = Some w -> would_kill_ok w;
  ook_bands : len (elems (obs_Counters o)) <= 3;
  ook_counters : Forall counters_ok (elems (obs_Counters o));
  ook_band_once : NoDup (bc_Band <$> elems (obs_Counters o));
  ook_policy p : obs_Policy o = Some p -> applied_ok p;
  ook_inforce r : obs_InForce o = Some r -> ref_ok r;
  ook_agree : in_force_ok o;
  ook_darwin d : obs_Darwin o = Some d -> darwin_ok d;
  ook_linux l : obs_Linux o = Some l -> linux_ok l;
}.

(** ** Each check decides its part *)
Lemma unset_or_check (valid : string -> bool) (v : string) :
  negb (String.eqb v "") && negb (valid v) = false <-> unset_or valid v.
Proof. unfold unset_or. rewrite andb_false_iff, !negb_false_iff, String.eqb_eq. done. Qed.

Lemma capacity_check c : BudgetCapacity_validate c = None <-> capacity_ok c.
Proof.
  unfold BudgetCapacity_validate. rewrite andthen_None.
  rewrite nonNegatives_pre_None. simpl.
  assert (Hg : match cap_GPUPresent c, cap_GPUCount c with
    | Some present, Some count => failif (negb (Bool.eqb present (0 <? count)))
        (Errorf "capacity.gpuCount %d disagrees with capacity.gpuPresent %t" [ArgZ count; ArgB present])
    | _, _ => None end = None <-> forall present count, cap_GPUPresent c = Some present ->
      cap_GPUCount c = Some count -> (present = true <-> 0 < count)).
  { destruct (cap_GPUPresent c) as [p|], (cap_GPUCount c) as [n|]; try naive_solver.
    rewrite failif_None, negb_false_iff, eqb_true_iff.
    split; [intros -> ? ? [= <-] [= <-]; apply Z.ltb_lt|].
    intros H. specialize (H p n eq_refl eq_refl). rewrite <- Z.ltb_lt in H.
    destruct p, (0 <? n); naive_solver. }
  rewrite Hg. split; [intros []; by split|by intros []].
Qed.

Lemma signal_check s : BudgetSignal_validate s = None <-> signal_ok s.
Proof.
  unfold BudgetSignal_validate. autorewrite with checks.
  rewrite !unset_or_check, checkLadder_ok, !negb_false_iff, String.eqb_eq by done. simpl.
  rewrite andb_false_iff, orb_false_iff, !negb_false_iff, !String.eqb_eq, String.eqb_neq.
  split; [intros (? & ? & ? & ? & ? & ? & ?); by split|intros []; naive_solver].
Qed.

Lemma killmode_check k : KillMode_validate k = None <-> k = zero_KillMode \/ killmode_ok k.
Proof.
  unfold KillMode_validate. case_bool_decide as E; [naive_solver|]. autorewrite with checks.
  rewrite unset_or_check, negb_false_iff, Z.ltb_ge.
  split; [intros (? & ? & ?); right; by split|]. intros [?|[]]; naive_solver.
Qed.

Lemma window_check band i seen w :
  validate_window band i seen w = None <-> window_ok w /\ window_key w ∉ seen.
Proof.
  unfold validate_window. autorewrite with checks.
  rewrite orb_false_iff, !negb_false_iff, Z.ltb_ge, bool_decide_eq_false.
  split; [intros ([? ?] & ? & ?); by repeat split|]. intros [[] ?]; naive_solver.
Qed.

Lemma counters_check c : BandCounters_validate c = None <-> counters_ok c.
Proof.
  unfold BandCounters_validate. autorewrite with checks.
  rewrite (each_seen_None_empty _ _ window_ok) by (intros; apply window_check).
  rewrite (each_None _ (fun f : string * Z => 0 <= f.2)) by (intros; rewrite failif_None; apply Z.ltb_ge).
  rewrite negb_false_iff, Z.ltb_ge.
  split; [intros (? & ? & ? & ? & ?); by split|]. intros []; naive_solver.
Qed.

Lemma applied_check p : AppliedPolicy_validate p = None <-> applied_ok p.
Proof.
  unfold AppliedPolicy_validate. autorewrite with checks.
  rewrite (each_seen_None_empty _ _ (fun f => PolicyField_Valid f = true));
    [|intros; autorewrite with checks; by rewrite negb_false_iff, bool_decide_eq_false].
  rewrite (unset_or_check (fun v => isPrintableASCII v MaxPolicyResourceVersionBytes)), !negb_false_iff, Z.ltb_ge.
  rewrite list_fmap_id.
  split; [intros (? & ? & ? & ? & ? & ?); by repeat split|]. intros [[] ? ? ? ?]; naive_solver.
Qed.

Lemma if_set_wrap_None {A} (g : error -> error) (f : A -> check) (P : A -> Prop) v :
  (forall a, f a = None <-> P a) ->
  if_set (fun a => wrapc g (f a)) v = None <-> (forall a, v = Some a -> P a).
Proof. intros Hf. apply if_set_None. intros a. by rewrite wrapc_None. Qed.

Lemma psi_line_check path l : validate_psi_line path l = None <-> psi_line_ok l.
Proof. unfold validate_psi_line. by autorewrite with checks. Qed.
Lemma psi_resource_check name r : validate_psi_resource name r = None <-> psi_resource_ok r.
Proof.
  unfold validate_psi_resource. rewrite andthen_None.
  by rewrite !(if_set_None _ psi_line_ok) by (intros; apply psi_line_check).
Qed.
Lemma linux_check l : LinuxSignals_validate l = None <-> linux_ok l.
Proof.
  unfold LinuxSignals_validate. rewrite andthen_None.
  rewrite (if_set_None _ psi_ok), (if_set_None _ events_ok); [done|..].
  - intros e. unfold validate_memory_events. by rewrite nonNegatives_pre_None.
  - intros p. unfold validate_psi. rewrite !andthen_None.
    by rewrite !(if_set_None _ psi_resource_ok) by (intros; apply psi_resource_check).
Qed.

Lemma in_permille_nonneg v : in_permille v -> nonneg v.
Proof. intros H z Hz. specialize (H z Hz). lia. Qed.

Lemma darwin_check d : DarwinSignals_validate d = None <-> darwin_ok d.
Proof.
  unfold DarwinSignals_validate, darwin_ok, compressor_ok. autorewrite with checks.
  pose proof (in_permille_nonneg (ds_MemorystatusLevelPermille d)).
  destruct (ds_Compressor d) as [c|]; simpl; rewrite !Forall_cons.
  - split; [intros ((? & ? & ? & ? & ? & ? & ? & _) & ?)|].
    + split_and!; try done. intros ? [= <-]. rewrite !Forall_cons.
      by split_and!.
    + intros ((? & ? & ? & _) & ? & Hc). specialize (Hc c eq_refl). rewrite !Forall_cons in Hc.
      naive_solver.
  - naive_solver.
Qed.

Lemma would_kill_check w : validate_would_kill w = None <-> would_kill_ok w.
Proof. unfold validate_would_kill. autorewrite with checks. by rewrite !negb_false_iff. Qed.
Lemma in_force_check r : validate_in_force r = None <-> ref_ok r.
Proof.
  unfold validate_in_force. autorewrite with checks.
  by rewrite (unset_or_check (fun v => isPrintableASCII v MaxPolicyResourceVersionBytes)), negb_false_iff.
Qed.
Lemma policy_in_force_check o : validate_policy_in_force o = None <-> in_force_ok o.
Proof.
  unfold validate_policy_in_force, in_force_ok. destruct (obs_Policy o) as [p|]; [|naive_solver].
  destruct (String.eqb_spec (ap_Outcome p) PolicyRejected) as [E|E]; simpl; [naive_solver|].
  rewrite failif_None. destruct (obs_InForce o) as [[n v]|]; [|naive_solver].
  rewrite orb_false_iff, !negb_false_iff, !String.eqb_eq. destruct p as [[n' v'] ? ?]; simpl in *.
  split; [intros [-> ->] q Hq _; by simplify_eq/=|]. intros H. by injection (H _ eq_refl E) as -> ->.
Qed.

Lemma Platform_Valid_iff p : Platform_Valid p = true <-> p = PlatformDarwin \/ p = PlatformLinux.
Proof. unfold Platform_Valid, oneOf. rewrite bool_decide_eq_true. set_solver. Qed.

Lemma platform_check o :
  Platform_Valid (obs_Platform o) = true /\
  Bool.eqb (bool_decide (is_Some (obs_Darwin o))) (bool_decide (is_Some (obs_Linux o))) = false /\
  Bool.eqb (String.eqb (obs_Platform o) PlatformDarwin) (bool_decide (is_Some (obs_Darwin o))) = true <->
  platform_ok o.
Proof.
  unfold platform_ok. rewrite Platform_Valid_iff, eqb_true_iff, eqb_false_iff.
  assert (PlatformDarwin <> PlatformLinux) by done.
  destruct (String.eqb_spec (obs_Platform o) PlatformDarwin);
    destruct (obs_Darwin o) as [d|], (obs_Linux o) as [l|]; simpl;
    rewrite ?(bool_decide_true (is_Some (Some _))) by (by eexists);
    rewrite ?(bool_decide_false (is_Some None)) by (by intros []);
    intuition (done || eauto || congruence).
Qed.

Lemma identity_check o :
  validate_identity o = None <->
  Time_IsZero (obs_ObservedAt o) = false /\ 0 <= obs_ProducerGeneration o /\ platform_ok o /\
  Level_Valid (obs_Level o) = true /\
  (obs_AdmitReasonSignal o = "" \/ SignalID_Valid (obs_AdmitReasonSignal o) = true /\ obs_Admit o = false) /\
  (forall t, obs_EvictDeadline o = Some t -> Time_IsZero t = false).
Proof.
  unfold validate_identity. autorewrite with checks. rewrite <- platform_check, !negb_false_iff, Z.ltb_ge.
  assert (Ha : (if negb (String.eqb (obs_AdmitReasonSignal o) "") then
     failif (negb (SignalID_Valid (obs_AdmitReasonSignal o)))
       (Errorf "admitReasonSignal %q is not a known signal" [ArgS (obs_AdmitReasonSignal o)]) ;?
     failif (obs_Admit o) (Errorf "admitReasonSignal is set while admit is true" [])
   else None) = None <->
   (obs_AdmitReasonSignal o = "" \/ SignalID_Valid (obs_AdmitReasonSignal o) = true /\ obs_Admit o = false)).
  { destruct (String.eqb_spec (obs_AdmitReasonSignal o) ""); simpl; [naive_solver|].
    autorewrite with checks. rewrite negb_false_iff. naive_solver. }
  rewrite Ha. destruct (obs_EvictDeadline o); naive_solver.
Qed.

Lemma signals_check o :
  validate_signals o = None <->
  len (elems (obs_Signals o)) <= MaxBudgetSignals /\ Forall signal_ok (elems (obs_Signals o)) /\
  NoDup (sig_ID <$> elems (obs_Signals o)).
Proof.
  unfold validate_signals. autorewrite with checks.
  rewrite (each_seen_None_empty _ _ signal_ok), Z.ltb_ge; [done|].
  intros. autorewrite with checks. by rewrite signal_check, bool_decide_eq_false.
Qed.

Lemma band_counters_check o :
  validate_counters o = None <->
  len (elems (obs_Counters o)) <= 3 /\ Forall counters_ok (elems (obs_Counters o)) /\
  NoDup (bc_Band <$> elems (obs_Counters o)).
Proof.
  unfold validate_counters. autorewrite with checks.
  rewrite (each_seen_None_empty _ _ counters_ok), Z.ltb_ge; [done|].
  intros. autorewrite with checks. by rewrite counters_check, bool_decide_eq_false.
Qed.

Lemma observation_validate_iff o : NodeBudgetObservation_Validate o = None <-> observation_ok o.
Proof.
  unfold NodeBudgetObservation_Validate, NodeBudgetObservation_validate. autorewrite with checks.
  rewrite identity_check, capacity_check, signals_check, killmode_check, band_counters_check,
    policy_in_force_check, (unset_or_check SignalID_Valid), (if_set_None _ would_kill_ok),
    (if_set_wrap_None _ _ applied_ok), (if_set_None _ ref_ok), (if_set_wrap_None _ _ darwin_ok),
    (if_set_wrap_None _ _ linux_ok)
    by eauto using would_kill_check, applied_check, in_force_check, darwin_check, linux_check.
  split.
  - intros ((? & ? & ? & ? & ? & ?) & ? & (? & ? & ?) & ? & ? & ? & ? & (? & ? & ?) & ? & ? & ? & ? & ?).
    by split.
  - intros []. by split_and!.
Qed.

(** ** Theorems *)
Definition known_condition (t : string) : Prop :=
  t ∈ [ConditionReporting; ConditionPolicyRejected; ConditionPolicyClamped; ConditionPolicyConflict].
Definition condition_ok (c : Condition) : Prop :=
  known_condition (cond_Type c) ->
  exists reasons, ConditionReasons (cond_Type c) (cond_Status c) = Some reasons /\ cond_Reason c ∈ reasons.

Lemma condition_check i c : validate_condition i c = None <-> condition_ok c.
Proof.
  unfold validate_condition, condition_ok, known_condition, oneOf.
  case_bool_decide as E; simpl; [|naive_solver].
  destruct (ConditionReasons (cond_Type c) (cond_Status c)) as [rs|].
  - rewrite failif_None, negb_false_iff, bool_decide_eq_true. naive_solver.
  - split; [done|]. intros H. by destruct (H E) as (? & ? & ?).
Qed.

(** A well-formed sample: a darwin node under memory pressure. *)
Definition sample_signal : BudgetSignal :=
  mkSignal SignalMemoryAvailable UnitBytes (Some 350)
    (Some 500) (Some 400) (Some 300) None (Some 100) (Some 550) None (Some 450) None (Some 200)
    (Some 30) None None None TrendFalling ResourceMemory "".
Definition sample_observation : NodeBudgetObservation :=
  mkObservation (unixTime 1700000000) 3 PlatformDarwin LevelWarn false SignalMemoryAvailable None
    (mkCapacity (Some 8000) None (Some 1000) None None None None None None None (Some true) (Some 1))
    (Some [sample_signal]) (mkRecommendation (Some 0) SignalMemoryAvailable)
    (mkKillMode KillModeAuto false 1 KillReasonObserving) None
    (Some [mkBandCounters BandBatch 1 0 0 2 0 0 [mkWindowCount Window1h CounterEviction 1]])
    (Some (mkAppliedPolicy (mkPolicyRef "default" "42") PolicyApplied [])) (Some (mkPolicyRef "default" "42"))
    (Some (mkDarwin (Some 2) (Some 700) None None None)) None.

(** C22: [NodeBudgetObservation.Validate] accepts exactly the well-formed
    observations (the platform block the platform names, known enums, signals
    and bands listed once, ladders in order, nothing negative, the bounds, and
    a non-rejected policy in force), and its errors wrap ErrInvalidNodeBudget. *)
Theorem observation_Validate_spec (o : NodeBudgetObservation) :
  (NodeBudgetObservation_Validate o = None <-> observation_ok o) /\
  (observation_ok o \/ exists e, NodeBudgetObservation_Validate o = Some e /\ errors_is e ErrInvalidNodeBudget = true).
Proof.
  split; [apply observation_validate_iff|].
  destruct (NodeBudgetObservation_Validate o) as [e|] eqn:E.
  - right. exists e. split; [done|]. unfold NodeBudgetObservation_Validate in E.
    destruct (NodeBudgetObservation_validate o); simpl in E; [|done]. by injection E as <-.
  - left. by apply observation_validate_iff.
Qed.

(** In every accepted observation each signal's set rungs are in strict
    order of rising pressure and each set release lies strictly on the calm
    side of its rung. *)
Theorem accepted_ladders (o : NodeBudgetObservation) (s : BudgetSignal)
    (Hv : NodeBudgetObservation_Validate o = None) (Hs : s ∈ elems (obs_Signals o)) :
  StronglySorted (calmer (sig_ID s)) (omap id (rungs s)) /\
  (forall i r rel, rungs s !! i = Some (Some r) -> releases s !! i = Some (Some rel) -> calmer (sig_ID s) rel r).
Proof.
  apply observation_validate_iff in Hv. pose proof (ook_signals o Hv) as Hf.
  rewrite Forall_forall in Hf. destruct (Hf s Hs) as [_ _ _ Hl _ _ _].
  split; [by eapply ladder_sorted|]. intros i r rel. by apply (lad_release _ _ _ Hl).
Qed.
Lemma accepted_ladders_witness :
  NodeBudgetObservation_Validate sample_observation = None /\
  StronglySorted (calmer SignalMemoryAvailable) [500; 400; 300; 100].
Proof.
  split; [by vm_compute|].
  apply (accepted_ladders sample_observation sample_signal); [by vm_compute|]. left.
Defined.

(** A status is accepted exactly when its writer shape is known, it has at
    most eight conditions, every condition of a known type has status True or
    False with a reason of the closed set, and the observation is either
    absent (all fields zero) or well-formed. *)
Theorem status_Validate_spec (s : NodeBudgetStatus) :
  NodeBudgetStatus_Validate s = None <->
  (forall w, st_Writer s = Some w -> WriterShape_Valid (bw_Shape w) = true) /\
  len (st_Conditions s) <= MaxBudgetConditions /\ Forall condition_ok (st_Conditions s) /\
  (Observation_IsZero (st_Observation s) = true \/ observation_ok (st_Observation s)).
Proof.
  unfold NodeBudgetStatus_Validate. autorewrite with checks.
  rewrite (if_set_None _ (fun w => WriterShape_Valid (bw_Shape w) = true)), Z.ltb_ge,
    (each_None _ condition_ok).
  - destruct (Observation_IsZero (st_Observation s)); rewrite ?observation_validate_iff; naive_solver.
  - intros. apply condition_check.
  - intros. by rewrite failif_None, negb_false_iff.
Qed.
