(* ===== verification/BudgetPage.v ===== *)
(** * The budget page: layout table and encoder
    (src/budget/v1alpha1/page.go, page_codes.go)

    The page is a 4096-byte little-endian file.  Its layout is one ordered
    table of fields; offsets, descriptor, byte budget and encoder derive from
    it.  A getter returns the word a snapshot puts in a field and whether the
    field can carry it. *)
From S2P Require Import Prelude GoLib BudgetVocab BudgetTypes BudgetObservation.

Definition PageABIMajor : Z := 1.
Definition PageABIMinor : Z := 1.
Definition PageSize : Z := 4096.
Definition PageBodyLimit : Z := 3072.
Definition PageMagic : string := "K3SMBDGT".
Definition PageSeqOffset : Z := 64.
Definition PageNotifyEpochOffset : Z := 128.
Definition PageHeaderSize : Z := 192.
Definition PageAbsent : Z := MinInt64.
Definition MaxPageSignals : Z := MaxBudgetSignals.
Definition MaxPageCounters : Z := 3.
Definition MaxPageNodeNameBytes : Z := 253.
Definition PageNodeNameBytes : Z := 256.

Definition ErrInvalidPageSnapshot : string := "budgetv1alpha1: invalid page snapshot".
Definition ErrPageNodeNameTooLong : string := "budgetv1alpha1: page node name longer than 253 bytes".
Definition ErrPageBuffer : string := "budgetv1alpha1: unusable page buffer".
Definition ErrPageWriterNotResumed : string := "budgetv1alpha1: page writer not resumed".

(** ** Snapshots *)
Record PageBandCounters := mkPageCounters {
  pc_Band : Band;
  pc_EvictionsTotal : Z;
  pc_OOMKillsTotal : Z;
  pc_KernelKillsTotal : Z;
  pc_RestartsTotal : Z;
  pc_MemHighEventsTotal : Z;
  pc_Tier1RefusedTotal : Z;
}.

Record PageSnapshot := mkSnapshot {
  ss_Generation : Z;
  ss_WriterPeriodSeconds : Z;
  ss_NodeName : string;
  ss_ObservedAt : Time;
  ss_Platform : Platform;
  ss_Capacity : BudgetCapacity;
  ss_Level : Level;
  ss_Darwin : option DarwinSignals;
  ss_Linux : option LinuxSignals;
  ss_Signals : list BudgetSignal;
  ss_Admit : bool;
  ss_AdmitReasonSignal : SignalID;
  ss_EvictDeadline : option Time;
  ss_KillMode : KillMode;
  ss_Recommendation : BudgetRecommendation;
  ss_Counters : list PageBandCounters;
}.

Definition NewPageSnapshot (nodeName : string) (writerPeriodSeconds : Z) (o : NodeBudgetObservation) : PageSnapshot :=
  mkSnapshot (obs_ProducerGeneration o) writerPeriodSeconds nodeName (obs_ObservedAt o) (obs_Platform o)
    (obs_Capacity o) (obs_Level o) (obs_Darwin o) (obs_Linux o) (elems (obs_Signals o)) (obs_Admit o)
    (obs_AdmitReasonSignal o) (obs_EvictDeadline o) (obs_KillMode o) (obs_Recommendation o)
    ((fun c => mkPageCounters (bc_Band c) (bc_EvictionsTotal c) (bc_OOMKillsTotal c) (bc_KernelKillsTotal c)
        (bc_RestartsTotal c) (bc_MemHighEventsTotal c) (bc_Tier1RefusedTotal c)) <$> elems (obs_Counters o)).

(** ** Enum codes (page_codes.go) *)
Definition pageUnitCodes : list string := [UnitBytes; UnitPermille; UnitCount].
Definition pageLevelCodes : list string := [LevelOK; LevelWarn; LevelCritical; LevelEvicting].
Definition pageBandCodes : list string := [BandCritical; BandStandard; BandBatch].
Definition pagePlatformCodes : list string := [PlatformDarwin; PlatformLinux].
Definition pageKillModeCodes : list string := [KillModeAuto; KillModeOn; KillModeOff].
Definition pageTrendCodes : list string := [TrendFalling; TrendSteady; TrendRising].
Definition pageLimitingResourceCodes : list string :=
  [ResourceMemory; ResourceSwapfs; ResourceNodefs; ResourceImagefs; ResourcePID; ResourceCPU].
Definition pageKillModeReasonCodes : list string :=
  [KillReasonColdStart; KillReasonObserving; KillReasonArmed; KillReasonPolicyOff; KillReasonDisarmFile].

Definition pageCode (table : list string) (v unknown : string) : Z * bool :=
  if String.eqb v "" || (negb (String.eqb unknown "") && String.eqb v unknown) then (0, true)
  else match code_from 1 table v with
       | Some c => (c, true)
       | None => (0, false)
       end.

Definition PageCodeTables : list (string * list string) :=
  [("signal", signalCodes); ("unit", pageUnitCodes); ("level", pageLevelCodes); ("band", pageBandCodes);
   ("platform", pagePlatformCodes); ("killMode", pageKillModeCodes); ("trend", pageTrendCodes);
   ("limitingResource", pageLimitingResourceCodes); ("killModeReason", pageKillModeReasonCodes)].

(** ** The layout table *)
Inductive pageKind := kindBytes | kindU16 | kindU32 | kindU64 | kindI64.
Definition pageKind_String (k : pageKind) : string :=
  match k with kindBytes => "bytes" | kindU16 => "u16" | kindU32 => "u32" | kindU64 => "u64" | kindI64 => "i64" end.

Definition pageGetter := PageSnapshot -> Z * bool.

Record pageField := mkField {
  pf_name : string;
  pf_offset : Z;
  pf_kind : pageKind;
  pf_size : Z;
  pf_align : Z;
  pf_enum : string;
  pf_absent : bool;
  pf_status : string;
  pf_get : option pageGetter;
}.

(** The alignment of a field, its own or the natural one of its kind. *)
Definition field_align (f : pageField) : Z :=
  if pf_align f =? 0 then match pf_kind f with kindU16 => 2 | kindU32 => 4 | _ => 8 end else pf_align f.
Definition align_up (off a : Z) : Z := (off + a - 1) / a * a.
Definition set_offset (f : pageField) (off : Z) : pageField :=
  mkField (pf_name f) off (pf_kind f) (pf_size f) (pf_align f) (pf_enum f) (pf_absent f) (pf_status f) (pf_get f).

(** The loop of [buildPageLayout] from the running offset [off]. *)
Fixpoint layout_from (off : Z) (specs : list pageField) : list pageField * Z :=
  match specs with
  | [] => ([], off)
  | f :: specs' =>
      let o := align_up off (field_align f) in
      let '(fs, e) := layout_from (o + pf_size f) specs' in
      (set_offset f o :: fs, e)
  end.
Definition buildPageLayout (specs : list pageField) : list pageField * Z := layout_from 0 specs.

Definition constGet (v : Z) : option pageGetter := Some (fun _ => (v, true)).
Definition pageAbsentWord : Z := 2 ^ 63.
Definition i64Word (p : option Z) : Z * bool :=
  match p with
  | None => (pageAbsentWord, true)
  | Some z => (u64 z, negb (z =? PageAbsent))
  end.
Definition boolWord (b : bool) : Z * bool := (if b then 1 else 0, true).

(** The closures [add], [i64], [opt] and [code] of [pageFieldSpecs]. *)
Definition field (name : string) (kind : pageKind) (size align : Z) (enum : string) (absent : bool)
    (status : string) (get : option pageGetter) : pageField :=
  mkField name 0 kind (if size =? 0 then 8 else size) align enum absent status get.
Definition i64_field (name status : string) (absent : bool) (get : pageGetter) : pageField :=
  field name kindI64 0 0 "" absent status (Some get).
Definition opt_field (name status : string) (get : PageSnapshot -> option Z) : pageField :=
  i64_field name status true (fun s => i64Word (get s)).
Definition code_field (name status enum : string) (get : pageGetter) : pageField :=
  field name kindU64 0 0 enum false status (Some get).

Definition specs_header : list pageField :=
  [field "magic" kindBytes (slen PageMagic) 0 "" false "" None;
   field "abiMajor" kindU16 2 0 "" false "" (constGet PageABIMajor);
   field "abiMinor" kindU16 2 0 "" false "" (constGet PageABIMinor);
   field "headerSize" kindU32 4 0 "" false "" (constGet PageHeaderSize);
   field "bodySize" kindU32 4 0 "" false "" None;
   field "seq" kindU64 0 64 "" false "" (constGet 0);
   field "notifyEpoch" kindU64 0 64 "" false "" (constGet 0)].

Definition specs_identity : list pageField :=
  [field "generation" kindI64 0 64 "" false "status.producerGeneration" (Some (fun s => (u64 (ss_Generation s), true)));
   i64_field "writerPeriodSeconds" "" false (fun s => (u64 (ss_WriterPeriodSeconds s), true));
   i64_field "observedAt" "status.observedAt" false
     (fun s => (u64 (t_unix (ss_ObservedAt s)), negb (Time_IsZero (ss_ObservedAt s))));
   code_field "platform" "status.platform" "platform" (fun s => pageCode pagePlatformCodes (ss_Platform s) "");
   field "nodeNameLen" kindU64 0 0 "" false "metadata.name" (Some (fun s => (u64 (slen (ss_NodeName s)), true)));
   field "nodeName" kindBytes PageNodeNameBytes 0 "" false "metadata.name" None].

Definition specs_capacity : list pageField :=
  (fun c : string * (BudgetCapacity -> option Z) =>
     opt_field ("capacity." +:+ c.1) ("status.capacity." +:+ c.1) (fun s => c.2 (ss_Capacity s))) <$>
  [("cpuCapacityMilli", cap_CPUCapacityMilli); ("cpuSystemReserveMilli", cap_CPUSystemReserveMilli);
   ("memCapacityBytes", cap_MemCapacityBytes); ("memSystemReserveBytes", cap_MemSystemReserveBytes);
   ("memEvictionReserveBytes", cap_MemEvictionReserveBytes); ("memAllocatableBytes", cap_MemAllocatableBytes);
   ("swapTotalBytes", cap_SwapTotalBytes); ("swapUsedBytes", cap_SwapUsedBytes)].

(** [darwin(get)] and [compressor(get)]: nil through a nil block. *)
Definition darwin_get (get : DarwinSignals -> option Z) (s : PageSnapshot) : option Z := ss_Darwin s ≫= get.
Definition compressor_get (get : DarwinCompressor -> option Z) : PageSnapshot -> option Z :=
  darwin_get (fun d => ds_Compressor d ≫= get).

Definition specs_darwin : list pageField :=
  code_field "level" "status.level" "level" (fun s => pageCode pageLevelCodes (ss_Level s) "") ::
  ((fun c : string * (PageSnapshot -> option Z) => opt_field c.1 ("status." +:+ c.1) c.2) <$>
   [("darwin.vmPressureLevel", darwin_get ds_VMPressureLevel);
    ("darwin.memorystatusLevelPermille", darwin_get ds_MemorystatusLevelPermille);
    ("darwin.compressor.bytesUsed", compressor_get dc_BytesUsed);
    ("darwin.compressor.bytesStored", compressor_get dc_BytesStored);
    ("darwin.compressor.segmentLimitBytes", compressor_get dc_SegmentLimitBytes);
    ("darwin.swapinsTotal", darwin_get ds_SwapinsTotal);
    ("darwin.swapoutsTotal", darwin_get ds_SwapoutsTotal)]).

Definition psi_get (r : LinuxPSI -> option PSIResource) (l : PSIResource -> option PSILine)
    (v : PSILine -> option Z) (s : PageSnapshot) : option Z :=
  ss_Linux s ≫= fun x => ls_PSI x ≫= fun p => r p ≫= fun res => l res ≫= v.
Definition specs_psi : list pageField :=
  r ← [("cpu", psi_CPU); ("memory", psi_Memory); ("io", psi_IO)];
  l ← [("some", psi_Some); ("full", psi_Full)];
  v ← [("avg10Permille", psi_Avg10Permille); ("avg60Permille", psi_Avg60Permille); ("totalUs", psi_TotalUs)];
  let path := "linux.psi." +:+ r.1 +:+ "." +:+ l.1 +:+ "." +:+ v.1 in
  [opt_field path ("status." +:+ path) (psi_get r.2 l.2 v.2)].

Definition events_get (get : LinuxMemoryEvents -> option Z) (s : PageSnapshot) : option Z :=
  ss_Linux s ≫= fun x => ls_MemoryEvents x ≫= get.
Definition specs_events : list pageField :=
  (fun e : string * (LinuxMemoryEvents -> option Z) =>
     let path := "linux.memoryEvents." +:+ e.1 in opt_field path ("status." +:+ path) (events_get e.2)) <$>
  [("high", ev_High); ("max", ev_Max); ("oom", ev_OOM); ("oomKill", ev_OOMKill)].

(** The fields of signal slot [i]: an empty slot holds zero words. *)
Definition slot_prefix (kind : string) (i : nat) : string := kind +:+ "[" +:+ pretty i +:+ "].".
Definition slot_code (i : nat) (name enum : string) (get : BudgetSignal -> Z * bool) : pageField :=
  code_field (slot_prefix "signals" i +:+ name) ("status.signals[]." +:+ name) enum
    (fun s => match ss_Signals s !! i with Some g => get g | None => (0, true) end).
Definition slot_i64 (i : nat) (name : string) (get : BudgetSignal -> option Z) : pageField :=
  i64_field (slot_prefix "signals" i +:+ name) ("status.signals[]." +:+ name) true
    (fun s => match ss_Signals s !! i with Some g => i64Word (get g) | None => (0, true) end).

(** A signal reference: the code of a known signal, 0 for the empty one. *)
Definition signal_ref_code (v : SignalID) : Z * bool :=
  (SignalID_PageCode v, String.eqb v "" || negb (SignalID_PageCode v =? 0)).
Definition unit_code (g : BudgetSignal) : Z * bool :=
  let '(c, ok) := pageCode pageUnitCodes (sig_Unit g) "" in
  (c, ok && negb (c =? 0) && String.eqb (sig_Unit g) (SignalID_Unit (sig_ID g))).

Definition specs_signal (i : nat) : list pageField :=
  [slot_code i "id" "signal" (fun g => (SignalID_PageCode (sig_ID g), negb (SignalID_PageCode (sig_ID g) =? 0)));
   slot_code i "unit" "unit" unit_code;
   slot_i64 i "value" sig_Value;
   slot_i64 i "warnThreshold" sig_WarnThreshold;
   slot_i64 i "admitStopThreshold" sig_AdmitStopThreshold;
   slot_i64 i "criticalThreshold" sig_CriticalThreshold;
   slot_i64 i "evictSoftThreshold" sig_EvictSoftThreshold;
   slot_i64 i "evictHardThreshold" sig_EvictHardThreshold;
   slot_i64 i "warnRelease" sig_WarnRelease;
   slot_i64 i "admitStopRelease" sig_AdmitStopRelease;
   slot_i64 i "criticalRelease" sig_CriticalRelease;
   slot_i64 i "evictSoftRelease" sig_EvictSoftRelease;
   slot_i64 i "evictHardRelease" sig_EvictHardRelease;
   slot_i64 i "graceSeconds" sig_GraceSeconds;
   slot_i64 i "minReclaimBytes" sig_MinReclaimBytes;
   slot_i64 i "windowSeconds" sig_WindowSeconds;
   slot_i64 i "etaToNextRungSeconds" sig_EtaToNextRungSeconds;
   slot_code i "trend" "trend" (fun g => pageCode pageTrendCodes (sig_Trend g) TrendUnknown);
   slot_code i "limitingResource" "limitingResource"
     (fun g => pageCode pageLimitingResourceCodes (sig_LimitingResource g) ResourceUnknown);
   slot_code i "sharedWith" "signal" (fun g => signal_ref_code (sig_SharedWith g))].

Definition specs_action : list pageField :=
  [field "admit" kindU64 0 0 "bool" false "status.admit" (Some (fun s => boolWord (ss_Admit s)));
   code_field "admitReasonSignal" "status.admitReasonSignal" "signal" (fun s => signal_ref_code (ss_AdmitReasonSignal s));
   i64_field "evictDeadline" "status.evictDeadline" true
     (fun s => match ss_EvictDeadline s with
               | None => (pageAbsentWord, true)
               | Some t => (u64 (t_unix t), negb (Time_IsZero t))
               end);
   code_field "killMode.mode" "status.killMode.mode" "killMode" (fun s => pageCode pageKillModeCodes (km_Mode (ss_KillMode s)) "");
   field "killMode.armed" kindU64 0 0 "bool" false "status.killMode.armed" (Some (fun s => boolWord (km_Armed (ss_KillMode s))));
   i64_field "killMode.armingEpisodes" "status.killMode.armingEpisodes" false
     (fun s => (u64 (km_ArmingEpisodes (ss_KillMode s)), 0 <=? km_ArmingEpisodes (ss_KillMode s)));
   code_field "killMode.reason" "status.killMode.reason" "killModeReason"
     (fun s => pageCode pageKillModeReasonCodes (km_Reason (ss_KillMode s)) KillReasonUnknown)].

Definition specs_recommendation : list pageField :=
  [opt_field "recommendation.safeAdditionalBytes" "status.recommendation.safeAdditionalBytes"
     (fun s => rec_SafeAdditionalBytes (ss_Recommendation s));
   code_field "recommendation.basis" "status.recommendation.basis" "signal"
     (fun s => signal_ref_code (rec_Basis (ss_Recommendation s)))].

Definition specs_counter (i : nat) : list pageField :=
  code_field (slot_prefix "counters" i +:+ "band") "status.counters[].band" "band"
    (fun s => match ss_Counters s !! i with
              | Some c => let '(code, ok) := pageCode pageBandCodes (pc_Band c) "" in (code, ok && negb (code =? 0))
              | None => (0, true)
              end) ::
  ((fun t : string * (PageBandCounters -> Z) =>
      i64_field (slot_prefix "counters" i +:+ t.1) ("status.counters[]." +:+ t.1) false
        (fun s => match ss_Counters s !! i with
                  | Some c => (u64 (t.2 c), 0 <=? t.2 c)
                  | None => (0, true)
                  end)) <$>
   [("evictionsTotal", pc_EvictionsTotal); ("oomKillsTotal", pc_OOMKillsTotal);
    ("kernelKillsTotal", pc_KernelKillsTotal); ("restartsTotal", pc_RestartsTotal);
    ("memHighEventsTotal", pc_MemHighEventsTotal); ("tier1RefusedTotal", pc_Tier1RefusedTotal)]).

Definition specs_minor1 : list pageField :=
  [opt_field "capacity.cpuPerformanceCores" "status.capacity.cpuPerformanceCores" (fun s => cap_CPUPerformanceCores (ss_Capacity s));
   opt_field "capacity.cpuEfficiencyCores" "status.capacity.cpuEfficiencyCores" (fun s => cap_CPUEfficiencyCores (ss_Capacity s));
   field "capacity.gpuPresent" kindI64 0 0 "bool" true "status.capacity.gpuPresent"
     (Some (fun s => match cap_GPUPresent (ss_Capacity s) with
                     | None => (pageAbsentWord, true)
                     | Some b => boolWord b
                     end));
   opt_field "capacity.gpuCount" "status.capacity.gpuCount" (fun s => cap_GPUCount (ss_Capacity s))].

(** The fields of minor 0, which minor 1 extends. *)
Definition specs_minor0 : list pageField :=
  specs_header ++ specs_identity ++ specs_capacity ++ specs_darwin ++ specs_psi ++ specs_events ++
  (seq 0 (Z.to_nat MaxPageSignals) ≫= specs_signal) ++ specs_action ++ specs_recommendation ++
  (seq 0 (Z.to_nat MaxPageCounters) ≫= specs_counter).
Definition pageFieldSpecs : list pageField := specs_minor0 ++ specs_minor1.

Definition pageLayout : list pageField := (buildPageLayout pageFieldSpecs).1.
Definition pageBodyEnd : Z := (buildPageLayout pageFieldSpecs).2.
Definition pageBodySize : Z := pageBodyEnd - PageHeaderSize.

Definition find_field (name : string) : option pageField :=
  List.find (fun f => String.eqb (pf_name f) name) pageLayout.
(** A miss panics in the code: the table is static. *)
Definition pageOffset (name : string) : Z :=
  match find_field name with Some f => pf_offset f | None => -1 end.

(** ** The descriptor *)
Definition nl : string := String (byte_of_Z 10) "".
Definition layout_line (f : pageField) : string :=
  pretty (pf_offset f) +:+ " " +:+ pretty (pf_size f) +:+ " " +:+ pageKind_String (pf_kind f) +:+ " " +:+
  (if pf_absent f then "absent" else "-") +:+ " " +:+ (if String.eqb (pf_enum f) "" then "-" else pf_enum f) +:+
  " " +:+ pf_name f +:+ nl.
(** The field lines of [PageLayout], below its constant header. *)
Definition PageLayout_lines (fs : list pageField) : list string := layout_line <$> fs.

(** ** EncodePage *)
Definition checkPageSnapshot (s : PageSnapshot) : check :=
  let invalid fmt args := ErrorfW fmt args (ErrNew ErrInvalidPageSnapshot) in
  failif (MaxPageNodeNameBytes <? slen (ss_NodeName s))
    (ErrorfWW "%w: %w (%d bytes)" [ArgZ (slen (ss_NodeName s))] (ErrNew ErrInvalidPageSnapshot) (ErrNew ErrPageNodeNameTooLong)) ;?
  failif (String.eqb (ss_NodeName s) "") (invalid "%w: the node name is empty" []) ;?
  failif (ss_WriterPeriodSeconds s <=? 0) (invalid "%w: writer period %d s, want at least 1" [ArgZ (ss_WriterPeriodSeconds s)]) ;?
  failif (negb (Platform_Valid (ss_Platform s))) (invalid "%w: platform %q is not a known platform" [ArgS (ss_Platform s)]) ;?
  failif (negb (Level_Valid (ss_Level s))) (invalid "%w: level %q is not a known level" [ArgS (ss_Level s)]) ;?
  failif (MaxPageSignals <? len (ss_Signals s)) (invalid "%w: %d signals, at most %d" [ArgZ (len (ss_Signals s)); ArgZ MaxPageSignals]) ;?
  failif (MaxPageCounters <? len (ss_Counters s)) (invalid "%w: %d counter entries, at most %d" [ArgZ (len (ss_Counters s)); ArgZ MaxPageCounters]) ;?
  failif (String.eqb (ss_Platform s) PlatformDarwin && bool_decide (~ is_Some (ss_Darwin s)))
    (invalid "%w: a darwin page needs the darwin block" []) ;?
  failif (String.eqb (ss_Platform s) PlatformLinux &&
          (bool_decide (~ is_Some (ss_Linux s)) || bool_decide (is_Some (ss_Darwin s))))
    (invalid "%w: a linux page needs the linux block and no darwin block" []).

(** What the encoder writes for one field: the three cases of its switch on
    the name, then the getter's word at the field's width.  A nil getter of any
    other field would panic. *)
Definition field_bytes (s : PageSnapshot) (f : pageField) : res (list byte) :=
  if String.eqb (pf_name f) "magic" then Ok (bytes_of PageMagic)
  else if String.eqb (pf_name f) "nodeName" then Ok (take (Z.to_nat (pf_size f)) (bytes_of (ss_NodeName s)))
  else if String.eqb (pf_name f) "bodySize" then Ok (le_bytes 4 pageBodySize)
  else match pf_get f with
  | None => Err (Errorf "panic: nil getter of %s" [ArgS (pf_name f)])
  | Some get =>
      let '(v, ok) := get s in
      if negb ok then
        Err (ErrorfW "%w: %s cannot carry the snapshot's value" [ArgS (pf_name f)] (ErrNew ErrInvalidPageSnapshot))
      else match pf_kind f with
           | kindU16 => Ok (le_bytes 2 v)
           | kindU32 => Ok (le_bytes 4 v)
           | _ => Ok (le_bytes 8 v)
           end
  end.
Definition put_field (s : PageSnapshot) (page : list byte) (f : pageField) : res (list byte) :=
  let? bs := field_bytes s f in Ok (blit (Z.to_nat (pf_offset f)) bs page).

Fixpoint put_fields (s : PageSnapshot) (page : list byte) (fs : list pageField) : res (list byte) :=
  match fs with
  | [] => Ok page
  | f :: fs' => let? page' := put_field s page f in put_fields s page' fs'
  end.

Definition zero_page : list byte := replicate (Z.to_nat PageSize) zero_byte.

Definition EncodePage (dst : list byte) (s : PageSnapshot) : res (list byte) :=
  failif (len dst <? PageSize)
    (ErrorfW "%w: %d bytes, want at least %d" [ArgZ (len dst); ArgZ PageSize] (ErrNew ErrPageBuffer)) ;!
  checkPageSnapshot s ;!
  let? page := put_fields s zero_page pageLayout in
  Ok (page ++ drop (Z.to_nat PageSize) dst).
