(* ===== verification/BudgetPageCodec.v ===== *)
(** * The page codec: where each word lands, and the reader's view
    (src/budget/v1alpha1/page.go; the reader of page_decode_test.go)

    The generic part proves, for any table [buildPageLayout] lays out, that the
    encoder leaves every field's bytes at its offset and zero bytes elsewhere.
    The concrete part reads those words back with the repository's reader and
    proves the round trip. *)
From S2P Require Import Prelude GoLib BudgetVocab BudgetTypes BudgetLadder BudgetPolicy BudgetObservation BudgetPage.

(** ** Laid-out tables *)

(** [laid off fs]: the fields of [fs] lie one after the other from [off] on. *)
Fixpoint laid (off : Z) (fs : list pageField) : Prop :=
  match fs with
  | [] => True
  | f :: fs' => off <= pf_offset f /\ 0 <= pf_size f /\ laid (pf_offset f + pf_size f) fs'
  end.

(** A row the table may hold: a size of at least its kind's width and a
    positive alignment. *)
Definition kind_width (k : pageKind) : Z :=
  match k with kindBytes => 0 | kindU16 => 2 | kindU32 => 4 | kindU64 | kindI64 => 8 end.
Definition row_ok (f : pageField) : bool :=
  (kind_width (pf_kind f) <=? pf_size f) && (0 <? field_align f).

Lemma align_up_spec off a : 0 < a -> off <= align_up off a < off + a /\ (a | align_up off a).
Proof.
  intros Ha. unfold align_up. split; [|exists ((off + a - 1) / a); lia].
  pose proof (Z.div_mod (off + a - 1) a) as Hd. pose proof (Z.mod_pos_bound (off + a - 1) a Ha) as Hm. nia.
Qed.

Lemma laid_weaken off off' fs : off' <= off -> laid off fs -> laid off' fs.
Proof. destruct fs; simpl; intuition lia. Qed.

Lemma layout_from_laid specs off :
  Forall (fun f => row_ok f = true) specs -> laid off (layout_from off specs).1.
Proof.
  revert off. induction specs as [|f specs IH]; intros off Hok; [done|].
  apply Forall_cons in Hok as [Hf Hok]. unfold row_ok in Hf. reflect_bools. destruct Hf as [Hw Ha].
  apply Z.leb_le in Hw. apply Z.ltb_lt in Ha.
  simpl. specialize (IH (align_up off (field_align f) + pf_size f) Hok).
  destruct (layout_from _ specs) as [fs e] eqn:He. simpl.
  destruct (align_up_spec off (field_align f) Ha) as [[Hlo _] _].
  split_and!; [done| destruct (pf_kind f); simpl in Hw; lia | done].
Qed.

Lemma layout_from_end specs off :
  Forall (fun f => row_ok f = true) specs ->
  Forall (fun f => off <= pf_offset f /\ pf_offset f + pf_size f <= (layout_from off specs).2) (layout_from off specs).1 /\
  off <= (layout_from off specs).2.
Proof.
  revert off. induction specs as [|f specs IH]; intros off Hok; [simpl; split; [constructor|lia]|].
  apply Forall_cons in Hok as [Hf Hok]. unfold row_ok in Hf. reflect_bools. destruct Hf as [Hw Ha].
  apply Z.leb_le in Hw. apply Z.ltb_lt in Ha.
  simpl. specialize (IH (align_up off (field_align f) + pf_size f) Hok).
  destruct (layout_from _ specs) as [fs e] eqn:He. simpl in *.
  destruct (align_up_spec off (field_align f) Ha) as [[Hlo _] _].
  assert (0 <= pf_size f) by (destruct (pf_kind f); simpl in Hw; lia).
  destruct IH as [IH Hend]. split; [|lia]. constructor; [simpl; lia|].
  eapply Forall_impl; [exact IH|]. simpl. intros. lia.
Qed.

Lemma layout_from_fields specs off :
  forall f, f ∈ (layout_from off specs).1 ->
  exists f0, f0 ∈ specs /\ f = set_offset f0 (pf_offset f) /\ (0 < field_align f -> (field_align f | pf_offset f)).
Proof.
  revert off. induction specs as [|g specs IH]; intros off f; simpl; [set_solver|].
  specialize (IH (align_up off (field_align g) + pf_size g)).
  destruct (layout_from _ specs) as [fs e] eqn:He. simpl in *.
  intros [->|Hf]%elem_of_cons.
  - exists g. split_and!; [left|done|]. intros Ha. by apply align_up_spec.
  - destruct (IH f Hf) as (f0 & Hin & Hr). exists f0. split; [by right|done].
Qed.

Lemma layout_from_mem specs off f0 :
  f0 ∈ specs -> exists o, set_offset f0 o ∈ (layout_from off specs).1.
Proof.
  revert off. induction specs as [|g specs IH]; intros off; [set_solver|]. simpl.
  specialize (IH (align_up off (field_align g) + pf_size g)).
  destruct (layout_from _ specs) as [fs e] eqn:He. simpl in *.
  intros [->|Hf]%elem_of_cons; [eexists; left|].
  destruct (IH Hf) as [o Ho]. exists o. by right.
Qed.

(** A longer table lays its first rows out as the shorter one does. *)
Lemma layout_from_app specs more off :
  layout_from off (specs ++ more) =
  ((layout_from off specs).1 ++ (layout_from (layout_from off specs).2 more).1,
   (layout_from (layout_from off specs).2 more).2).
Proof.
  revert off. induction specs as [|f specs IH]; intros off; simpl; [by destruct (layout_from _ _)|].
  rewrite IH. destruct (layout_from _ specs) as [fs e]. done.
Qed.

(** ** The encoder's loop *)
Lemma field_bytes_fits s f bs :
  row_ok f = true -> (pf_name f = "magic" -> 8 <= pf_size f) -> (pf_name f = "bodySize" -> pf_kind f = kindU32) ->
  pf_kind f <> kindBytes \/ pf_name f = "magic" \/ pf_name f = "nodeName" ->
  field_bytes s f = Ok bs -> Z.of_nat (length bs) <= pf_size f.
Proof.
  intros Hr Hm Hb Hk. unfold row_ok in Hr. reflect_bools. destruct Hr as [Hw _]. apply Z.leb_le in Hw.
  unfold field_bytes.
  destruct (String.eqb_spec (pf_name f) "magic") as [E|E].
  { intros [= <-]. simpl. auto. }
  destruct (String.eqb_spec (pf_name f) "nodeName") as [E2|E2].
  { intros [= <-]. rewrite length_take. assert (0 <= pf_size f) by (destruct (pf_kind f); simpl in Hw; lia). lia. }
  destruct (String.eqb_spec (pf_name f) "bodySize") as [E3|E3].
  { intros [= <-]. rewrite (Hb E3) in Hw. simpl in Hw |- *. lia. }
  destruct (pf_get f) as [g|]; [|done]. destruct (g s) as [v [|]]; [|done].
  destruct (pf_kind f); simpl in Hw |- *; intros [= <-]; simpl; try lia; intuition congruence.
Qed.

(** The bytes a field writes fit in the field. *)
Definition fits (s : PageSnapshot) (f : pageField) : Prop :=
  forall bs, field_bytes s f = Ok bs -> Z.of_nat (length bs) <= pf_size f.

Lemma put_fields_cons s page f fs p :
  put_fields s page (f :: fs) = Ok p <->
  exists bs, field_bytes s f = Ok bs /\ put_fields s (blit (Z.to_nat (pf_offset f)) bs page) fs = Ok p.
Proof.
  simpl. unfold put_field. rewrite res_bind_Ok. setoid_rewrite res_bind_Ok. naive_solver.
Qed.

Lemma put_fields_length s page fs p : put_fields s page fs = Ok p -> length p = length page.
Proof.
  revert page. induction fs as [|f fs IH]; intros page; [by intros [= ->]|].
  rewrite put_fields_cons. intros (bs & _ & H). rewrite (IH _ H). apply length_blit.
Qed.

Lemma put_fields_app s page fs gs :
  put_fields s page (fs ++ gs) = let? p := put_fields s page fs in put_fields s p gs.
Proof.
  revert page. induction fs as [|f fs IH]; intros page; [done|]. simpl.
  destruct (put_field s page f) as [p|e]; simpl; [apply IH|done].
Qed.

Lemma put_fields_before s page fs p off i :
  put_fields s page fs = Ok p -> 0 <= off -> laid off fs -> (Z.of_nat i < off) -> p !! i = page !! i.
Proof.
  revert page off. induction fs as [|f fs IH]; intros page off; [by intros [= ->]|].
  rewrite put_fields_cons. intros (bs & _ & H) Hoff (Hlo & Hsz & Hlaid) Hi.
  rewrite (IH _ (pf_offset f + pf_size f) H) by (done || lia).
  apply lookup_blit_out. lia.
Qed.

(** Each field's bytes are at its offset when the loop ends. *)
Lemma put_fields_at s page fs p off f :
  put_fields s page fs = Ok p -> 0 <= off -> laid off fs -> Forall (fits s) fs -> f ∈ fs ->
  pf_offset f + pf_size f <= len page ->
  exists bs, field_bytes s f = Ok bs /\ slice (Z.to_nat (pf_offset f)) (length bs) p = bs.
Proof.
  revert page off. induction fs as [|g fs IH]; intros page off; [set_solver|].
  rewrite put_fields_cons. intros (bs & Hbs & H) Hoff (Hlo & Hsz & Hlaid) [Hg Hfits]%Forall_cons Hin Hend.
  unfold len in *. apply elem_of_cons in Hin as [->|Hin].
  - exists bs. split; [done|]. pose proof (Hg _ Hbs).
    rewrite (slice_ext _ _ p (blit (Z.to_nat (pf_offset g)) bs page)).
    + apply slice_blit_eq. lia.
    + intros i Hi. eapply (put_fields_before _ _ _ _ (pf_offset g + pf_size g)); [exact H|lia|exact Hlaid|lia].
  - apply (IH _ (pf_offset g + pf_size g) H); try done; [lia|]. by rewrite length_blit.
Qed.

(** A byte no field covers keeps its value. *)
Lemma put_fields_gap s page fs p i :
  put_fields s page fs = Ok p -> Forall (fits s) fs ->
  (forall f, f ∈ fs -> 0 <= pf_offset f /\ ~ (pf_offset f <= Z.of_nat i < pf_offset f + pf_size f)) ->
  p !! i = page !! i.
Proof.
  revert page. induction fs as [|f fs IH]; intros page; [by intros [= ->]|].
  rewrite put_fields_cons. intros (bs & Hbs & H) [Hf Hfits]%Forall_cons Hgap.
  rewrite (IH _ H) by (done || (intros; apply Hgap; by right)).
  apply lookup_blit_out. specialize (Hf _ Hbs). destruct (Hgap f) as [? ?]; [left|]. lia.
Qed.

Lemma put_fields_Ok s page fs :
  Forall (fun f => exists bs, field_bytes s f = Ok bs) fs <-> exists p, put_fields s page fs = Ok p.
Proof.
  revert page. induction fs as [|f fs IH]; intros page.
  - split; [intros _; by exists page|constructor].
  - rewrite Forall_cons. setoid_rewrite put_fields_cons. split.
    + intros [[bs Hbs] [p Hp]%(IH (blit (Z.to_nat (pf_offset f)) bs page))]. eauto.
    + intros (p & bs & Hbs & Hp). split; [eauto|]. eapply IH. eauto.
Qed.

(** ** The page's own table *)
Lemma specs_rows : Forall (fun f => row_ok f = true) pageFieldSpecs.
Proof. apply forallb_Forall. vm_compute. done. Qed.
Lemma pageBodyEnd_val : pageBodyEnd = 2344.
Proof. vm_compute. done. Qed.
Lemma layout_eq : layout_from 0 pageFieldSpecs = (pageLayout, pageBodyEnd).
Proof. unfold pageLayout, pageBodyEnd, buildPageLayout. by destruct (layout_from 0 pageFieldSpecs). Qed.
Lemma page_laid : laid 0 pageLayout.
Proof. apply layout_from_laid, specs_rows. Qed.

(** The fields without a getter are the three the encoder writes itself; the
    two byte fields and the body size have the shape it relies on. *)
Definition special (name : string) : bool := oneOf name ["magic"; "nodeName"; "bodySize"].
Definition row_shape (f : pageField) : bool :=
  bool_decide (special (pf_name f) = negb (bool_decide (is_Some (pf_get f)))) &&
  match pf_kind f with
  | kindBytes => String.eqb (pf_name f) "magic" && (pf_size f =? 8) || String.eqb (pf_name f) "nodeName" && (pf_size f =? 256)
  | kindU32 => negb (oneOf (pf_name f) ["magic"; "nodeName"])
  | _ => negb (special (pf_name f))
  end.
Lemma specs_shape : Forall (fun f => row_shape f = true) pageFieldSpecs.
Proof. apply forallb_Forall. vm_compute. done. Qed.

Lemma page_names_NoDup : NoDup (pf_name <$> pageLayout).
Proof. apply (bool_decide_unpack _). vm_compute. done. Qed.

Lemma layout_row f : f ∈ pageLayout ->
  exists f0, f0 ∈ pageFieldSpecs /\ f = set_offset f0 (pf_offset f) /\ row_ok f = true /\ row_shape f = true /\
    (field_align f | pf_offset f) /\ 0 <= pf_offset f /\ pf_offset f + pf_size f <= pageBodyEnd.
Proof.
  intros Hf. destruct (layout_from_fields pageFieldSpecs 0 f) as (f0 & Hin & He & Ha); [by rewrite layout_eq|].
  assert (row_ok f0 = true) as Hr by (eapply Forall_forall in Hin; [|exact specs_rows]; done).
  assert (row_shape f0 = true) as Hs by (eapply Forall_forall in Hin; [|exact specs_shape]; done).
  assert (row_ok f = true) as Hr' by (rewrite He; exact Hr).
  exists f0. split_and!; try done.
  - rewrite He; exact Hs.
  - apply Ha. unfold row_ok in Hr'. reflect_bools. apply Z.ltb_lt, Hr'.
  - destruct (layout_from_end pageFieldSpecs 0 specs_rows) as [HF _]. rewrite layout_eq in HF. simpl in HF.
    eapply Forall_forall in HF; [|exact Hf]. lia.
  - destruct (layout_from_end pageFieldSpecs 0 specs_rows) as [HF _]. rewrite layout_eq in HF. simpl in HF.
    eapply Forall_forall in HF; [|exact Hf]. lia.
Qed.

Lemma page_fits s : Forall (fits s) pageLayout.
Proof.
  apply Forall_forall. intros f Hf bs.
  destruct (layout_row f Hf) as (f0 & _ & _ & Hr & Hs & _).
  unfold row_shape in Hs. reflect_bools. destruct Hs as [_ Hs].
  apply field_bytes_fits; [done| | |].
  - intros E. rewrite E in Hs. destruct (pf_kind f); try done.
    rewrite orb_false_r in Hs. reflect_bools. destruct Hs as [_ Hs]. lia.
  - intros E. rewrite E in Hs. by destruct (pf_kind f).
  - destruct (pf_kind f); try (by left). right.
    apply orb_true_iff in Hs as [Hs|Hs]; apply andb_true_iff in Hs as [Hs _]; apply String.eqb_eq in Hs; auto.
Qed.

Lemma offset_magic : pageOffset "magic" = 0.
Proof. vm_compute. done. Qed.
Lemma offset_header :
  pageOffset "abiMajor" = 8 /\ pageOffset "abiMinor" = 10 /\ pageOffset "headerSize" = 12 /\ pageOffset "bodySize" = 16.
Proof. vm_compute. done. Qed.
Lemma offset_seq : pageOffset "seq" = PageSeqOffset.
Proof. vm_compute. done. Qed.
Lemma offset_epoch : pageOffset "notifyEpoch" = PageNotifyEpochOffset.
Proof. vm_compute. done. Qed.

(** The rows below the header lines. *)
Definition body_specs : list pageField :=
  specs_identity ++ specs_capacity ++ specs_darwin ++ specs_psi ++ specs_events ++
  (seq 0 (Z.to_nat MaxPageSignals) ≫= specs_signal) ++ specs_action ++ specs_recommendation ++
  (seq 0 (Z.to_nat MaxPageCounters) ≫= specs_counter) ++ specs_minor1.
Lemma specs_split : pageFieldSpecs = specs_header ++ body_specs.
Proof. unfold pageFieldSpecs, specs_minor0, body_specs. by rewrite <- !(assoc_L (++)). Qed.

Lemma in_body f :
  f ∈ specs_identity \/ f ∈ specs_capacity \/ f ∈ specs_darwin \/ f ∈ specs_psi \/
  f ∈ specs_events \/ (exists i, (i < 8)%nat /\ f ∈ specs_signal i) \/ f ∈ specs_action \/ f ∈ specs_recommendation \/
  (exists i, (i < 3)%nat /\ f ∈ specs_counter i) \/ f ∈ specs_minor1 ->
  f ∈ body_specs.
Proof.
  assert (forall n (g : nat -> list pageField), (exists i, (i < n)%nat /\ f ∈ g i) -> f ∈ seq 0 n ≫= g) as Hb.
  { intros n g (i & Hi & Hf). apply list_elem_of_bind. exists i. split; [done|]. apply elem_of_seq. lia. }
  pose proof (Hb 8%nat specs_signal) as H8. pose proof (Hb 3%nat specs_counter) as H3. clear Hb.
  unfold body_specs. rewrite !elem_of_app. tauto.
Qed.
Lemma header_names f : f ∈ body_specs -> pf_name f ∉ pf_name <$> specs_header.
Proof.
  intros Hf Hn. pose proof page_names_NoDup as H.
  assert (forall off specs, pf_name <$> (layout_from off specs).1 = pf_name <$> specs) as Hnames.
  { intros off specs. revert off. induction specs as [|g specs IH]; intros off; [done|]. cbn [layout_from].
    specialize (IH (align_up off (field_align g) + pf_size g)). destruct (layout_from _ specs) as [fs e].
    cbn [fst] in *. by rewrite !fmap_cons, IH. }
  unfold pageLayout, buildPageLayout in H. rewrite Hnames, specs_split, fmap_app in H.
  apply NoDup_app in H as (_ & H & _). apply (H _ Hn), list_elem_of_fmap. eauto.
Qed.

(** The table is the header rows and the body rows, which start at 192. *)
Definition header_layout : list pageField := (layout_from 0 specs_header).1.
Definition body_layout : list pageField := (layout_from 136 body_specs).1.
Lemma layout_split : pageLayout = header_layout ++ body_layout.
Proof.
  unfold pageLayout, buildPageLayout. rewrite specs_split, layout_from_app. cbn [fst].
  change (layout_from 0 specs_header).2 with 136. done.
Qed.
Lemma body_laid : laid 192 body_layout.
Proof.
  pose proof specs_rows as HF. rewrite specs_split in HF. apply Forall_app in HF as [_ HF].
  pose proof (layout_from_laid body_specs 136 HF) as Hl. unfold body_layout, body_specs in *.
  cbn [specs_identity app layout_from] in *.
  match type of Hl with context [layout_from ?o ?l] => destruct (layout_from o l) as [fs e] end.
  cbn [fst laid] in *. destruct Hl as (_ & H). split; [|exact H]. vm_compute. discriminate.
Qed.

(** The field's getter does not refuse the snapshot; [BudgetPageCarry] says, on
    the snapshot itself, which ones no getter refuses. *)
Definition carries (s : PageSnapshot) (f : pageField) : Prop :=
  match pf_get f with Some get => (get s).2 = true | None => True end.

Lemma specs_carried s :
  Forall (carries s) specs_header -> Forall (carries s) specs_identity -> Forall (carries s) specs_capacity ->
  Forall (carries s) specs_darwin -> Forall (carries s) specs_psi -> Forall (carries s) specs_events ->
  (forall i, Forall (carries s) (specs_signal i)) -> Forall (carries s) specs_action -> Forall (carries s) specs_recommendation ->
  (forall i, Forall (carries s) (specs_counter i)) -> Forall (carries s) specs_minor1 -> Forall (carries s) pageFieldSpecs.
Proof.
  intros ? ? ? ? ? ? Hsig ? ? Hctr ?. unfold pageFieldSpecs, specs_minor0. rewrite !Forall_app, !Forall_bind.
  split; [|assumption]. do 6 (split; [assumption|]). split; [apply Forall_forall; intros; apply Hsig|].
  do 2 (split; [assumption|]). apply Forall_forall; intros; apply Hctr.
Qed.

Lemma find_unique (fs : list pageField) f :
  NoDup (pf_name <$> fs) -> f ∈ fs -> List.find (fun g => String.eqb (pf_name g) (pf_name f)) fs = Some f.
Proof.
  induction fs as [|g fs IH]; [set_solver|]. simpl. intros [Hg Hnd]%NoDup_cons Hin.
  apply elem_of_cons in Hin as [->|Hin]; [by rewrite String.eqb_refl|].
  destruct (String.eqb_spec (pf_name g) (pf_name f)) as [E|E]; [|auto].
  exfalso. apply Hg. rewrite E. apply list_elem_of_fmap. eauto.
Qed.

Lemma spec_row f0 : f0 ∈ pageFieldSpecs -> set_offset f0 (pageOffset (pf_name f0)) ∈ pageLayout.
Proof.
  intros H. destruct (layout_from_mem pageFieldSpecs 0 f0 H) as [o Ho]. rewrite layout_eq in Ho. simpl in Ho.
  unfold pageOffset, find_field.
  pose proof (find_unique pageLayout _ page_names_NoDup Ho) as Hu. cbn [pf_name set_offset] in Hu. rewrite Hu. exact Ho.
Qed.

Lemma length_zero_page : length zero_page = 4096%nat.
Proof. apply length_replicate. Qed.

#[global] Opaque body_specs pageLayout pageFieldSpecs pageBodyEnd pageOffset zero_page.

(** ** What a successful encoding holds *)
Lemma EncodePage_Ok dst s p :
  EncodePage dst s = Ok p <->
  PageSize <= len dst /\ checkPageSnapshot s = None /\
  exists page, put_fields s zero_page pageLayout = Ok page /\ p = page ++ drop (Z.to_nat PageSize) dst.
Proof.
  unfold EncodePage. rewrite !checked_Ok, failif_None, Z.ltb_ge, res_bind_Ok.
  split; intros (Hd & Hc & page & Hp & He); (split; [exact Hd|split; [exact Hc|]]); exists page; (split; [exact Hp|]).
  - by injection He as <-.
  - by rewrite He.
Qed.

Lemma encode_length dst s p : EncodePage dst s = Ok p -> length p = length dst.
Proof.
  intros (Hd & _ & page & Hp & ->)%EncodePage_Ok. apply put_fields_length in Hp.
  rewrite length_zero_page in Hp. unfold len, PageSize in *. rewrite length_app, length_drop, Hp. lia.
Qed.

Lemma slice_app_l off n a b : (off + n <= length a)%nat -> slice off n (a ++ b) = slice off n a.
Proof. intros H. apply slice_ext. intros i Hi. apply lookup_app_l. lia. Qed.

(** Every field of the table holds the bytes the encoder computes for it. *)
Lemma encode_field dst s p f :
  EncodePage dst s = Ok p -> f ∈ pageLayout ->
  exists bs, field_bytes s f = Ok bs /\ slice (Z.to_nat (pf_offset f)) (length bs) p = bs.
Proof.
  intros (Hd & _ & page & Hp & ->)%EncodePage_Ok Hf.
  destruct (layout_row f Hf) as (_ & _ & _ & _ & _ & _ & Hlo & Hend). rewrite pageBodyEnd_val in Hend.
  destruct (put_fields_at s zero_page pageLayout page 0 f) as (bs & Hbs & Hsl); [exact Hp|lia| | |exact Hf| |].
  - apply page_laid.
  - apply page_fits.
  - unfold len. rewrite length_zero_page. lia.
  - exists bs. split; [done|]. pose proof (page_fits s) as HF. eapply Forall_forall in HF; [|exact Hf].
    specialize (HF _ Hbs). apply put_fields_length in Hp. rewrite length_zero_page in Hp.
    rewrite slice_app_l; [done|lia].
Qed.

(** [page_holds s p]: a page in rest that holds the snapshot [s].  The words
    seq and notifyEpoch belong to the writer; seq is even. *)
Record page_holds (s : PageSnapshot) (p : list byte) : Prop := {
  ph_length : (4096 <= length p)%nat;
  ph_check : checkPageSnapshot s = None;
  ph_even : load64 64 p mod 2 = 0;
  ph_field f : f ∈ pageLayout -> pf_name f ∉ ["seq"; "notifyEpoch"] ->
    exists bs, field_bytes s f = Ok bs /\ slice (Z.to_nat (pf_offset f)) (length bs) p = bs;
}.

(** A getter's bytes, for an 8-byte field. *)
Lemma field_bytes_word s f0 o get bs :
  f0 ∈ pageFieldSpecs -> pf_get f0 = Some get -> kind_width (pf_kind f0) = 8 ->
  field_bytes s (set_offset f0 o) = Ok bs -> bs = le_bytes 8 (get s).1 /\ (get s).2 = true.
Proof.
  intros Hin Hget Hk Hbs.
  pose proof (Forall_forall (fun f => row_shape f = true) pageFieldSpecs) as [HF _].
  specialize (HF specs_shape f0 Hin). unfold row_shape in HF. reflect_bools. destruct HF as [HF _].
  apply bool_decide_eq_true in HF. rewrite Hget in HF. simpl in HF.
  unfold special, oneOf in HF. apply bool_decide_eq_false in HF.
  unfold field_bytes in Hbs. simpl in Hbs. rewrite Hget in Hbs.
  rewrite !(proj2 (String.eqb_neq _ _)) in Hbs by set_solver.
  destruct (get s) as [v [|]]; [|done]. simpl in Hbs |- *.
  destruct (pf_kind f0); [discriminate Hk..|by injection Hbs as <-|by injection Hbs as <-].
Qed.

Lemma seq_row : field "seq" kindU64 0 64 "" false "" (constGet 0) ∈ pageFieldSpecs.
Proof. rewrite specs_split. do 5 right. left. Qed.

Lemma encode_holds dst s p : EncodePage dst s = Ok p -> page_holds s p.
Proof.
  intros He. pose proof (encode_length _ _ _ He) as Hl. pose proof He as (Hd & Hc & _)%EncodePage_Ok.
  unfold len, PageSize in Hd. split; [lia|exact Hc| |intros f Hf _; by apply (encode_field dst)].
  destruct (encode_field dst s p _ He (spec_row _ seq_row)) as (bs & Hbs & Hsl).
  destruct (field_bytes_word s _ _ _ bs seq_row eq_refl eq_refl Hbs) as [-> _].
  cbn [pf_name field pf_offset set_offset] in Hsl. rewrite offset_seq in Hsl. simpl length in Hsl.
  change (Z.to_nat PageSeqOffset) with 64%nat in Hsl. unfold load64. rewrite Hsl. done.
Qed.

(** The 8-byte word of a body field. *)
Lemma holds_word s p f0 get :
  page_holds s p -> f0 ∈ body_specs -> pf_get f0 = Some get -> kind_width (pf_kind f0) = 8 ->
  load64 (Z.to_nat (pageOffset (pf_name f0))) p = u64 (get s).1 /\ (get s).2 = true.
Proof.
  intros He Hin Hget Hk. pose proof (header_names f0 Hin) as Hn.
  assert (f0 ∈ pageFieldSpecs) as Hin' by (rewrite specs_split; apply elem_of_app; by right).
  destruct (ph_field _ _ He _ (spec_row f0 Hin')) as (bs & Hbs & Hsl).
  { cbn [pf_name set_offset]. intros H. apply Hn. clear -H. set_solver. }
  destruct (field_bytes_word s _ _ _ bs Hin' Hget Hk Hbs) as [-> Hok]. split; [|exact Hok].
  unfold load64. rewrite length_le_bytes in Hsl. cbn [pf_offset set_offset] in Hsl. rewrite Hsl, le_word_bytes. done.
Qed.

(** ** When the encoder succeeds *)

Lemma field_bytes_Ok s f0 o :
  f0 ∈ pageFieldSpecs -> carries s f0 <-> exists bs, field_bytes s (set_offset f0 o) = Ok bs.
Proof.
  intros Hin. pose proof specs_shape as Hs. rewrite Forall_forall in Hs. specialize (Hs f0 Hin).
  unfold row_shape in Hs. apply andb_true_iff in Hs as [Hs _]. apply bool_decide_eq_true in Hs.
  unfold carries, field_bytes. cbn [pf_name pf_get pf_kind set_offset].
  destruct (pf_get f0) as [get|]; simpl in Hs; unfold special, oneOf in Hs.
  - apply bool_decide_eq_false in Hs. rewrite !(proj2 (String.eqb_neq _ _)) by set_solver.
    destruct (get s) as [v [|]]; simpl; [|split; [done|by intros [? ?]]].
    destruct (pf_kind f0); split; eauto.
  - apply bool_decide_eq_true in Hs.
    split; [intros _|done]. destruct (String.eqb_spec (pf_name f0) "magic"); [eauto|].
    destruct (String.eqb_spec (pf_name f0) "nodeName"); [eauto|].
    destruct (String.eqb_spec (pf_name f0) "bodySize"); [eauto|]. set_solver.
Qed.

Lemma EncodePage_succeeds dst s :
  (exists p, EncodePage dst s = Ok p) <->
  PageSize <= len dst /\ checkPageSnapshot s = None /\ Forall (carries s) pageFieldSpecs.
Proof.
  assert (Forall (carries s) pageFieldSpecs <-> Forall (fun f => exists bs, field_bytes s f = Ok bs) pageLayout) as ->.
  { rewrite !Forall_forall. split; intros H f Hf.
    - destruct (layout_row f Hf) as (f0 & Hin & -> & _). apply field_bytes_Ok; [done|]. by apply H.
    - eapply field_bytes_Ok; [done|]. apply H, spec_row, Hf. }
  rewrite (put_fields_Ok s zero_page). split.
  - intros [p (Hd & Hc & page & Hp & _)%EncodePage_Ok]. split; [exact Hd|split; [exact Hc|exists page; exact Hp]].
  - intros (Hd & Hc & page & Hp). eexists. apply EncodePage_Ok.
    split; [exact Hd|split; [exact Hc|exists page; split; [exact Hp|reflexivity]]].
Qed.

Lemma checkPageSnapshot_error s e : checkPageSnapshot s = Some e -> errors_is e ErrInvalidPageSnapshot = true.
Proof.
  unfold checkPageSnapshot. repeat (rewrite andthen_Some; intros [H|[_ H]]; [revert H|revert H]).
  all: unfold failif; case_match; intros [= <-]; reflexivity.
Qed.
Lemma put_fields_error s page fs e :
  Forall (fun f => row_shape f = true) fs -> put_fields s page fs = Err e -> errors_is e ErrInvalidPageSnapshot = true.
Proof.
  revert page. induction fs as [|f fs IH]; intros page; [done|]. intros [Hs Hfs]%Forall_cons.
  simpl. unfold put_field. destruct (field_bytes s f) as [bs|e'] eqn:Hb; simpl; [by apply IH|].
  intros [= <-]. unfold row_shape in Hs. apply andb_true_iff in Hs as [Hs _]. apply bool_decide_eq_true in Hs.
  unfold special, oneOf in Hs. unfold field_bytes in Hb.
  destruct (String.eqb_spec (pf_name f) "magic"); [done|]. destruct (String.eqb_spec (pf_name f) "nodeName"); [done|].
  destruct (String.eqb_spec (pf_name f) "bodySize"); [done|]. rewrite bool_decide_false in Hs by set_solver.
  destruct (pf_get f) as [get|]; [|done]. destruct (get s) as [v [|]]; [by destruct (pf_kind f)|]. by injection Hb as <-.
Qed.
Lemma EncodePage_refuses dst s e :
  EncodePage dst s = Err e -> PageSize <= len dst -> errors_is e ErrInvalidPageSnapshot = true.
Proof.
  unfold EncodePage. intros E Hl. rewrite (proj2 (Z.ltb_ge _ _) Hl) in E. cbn [failif checked] in E.
  destruct (checkPageSnapshot s) as [e'|] eqn:Hc; cbn [checked] in E.
  - injection E as <-. by apply (checkPageSnapshot_error s).
  - destruct (put_fields s zero_page pageLayout) as [page|e'] eqn:Hp; [done|]. injection E as <-.
    eapply put_fields_error; [|exact Hp]. apply Forall_forall. intros f Hf.
    by destruct (layout_row f Hf) as (_ & _ & _ & _ & Hs & _).
Qed.

Lemma laid_from off fs g : laid off fs -> g ∈ fs -> off <= pf_offset g.
Proof.
  revert off. induction fs as [|x fs IH]; intros off; [set_solver|]. intros (Hlo & Hsz & Hlaid) [->|Hg]%elem_of_cons; [done|].
  specialize (IH _ Hlaid Hg). lia.
Qed.
Lemma laid_lookup off fs i j f g :
  laid off fs -> (i < j)%nat -> fs !! i = Some f -> fs !! j = Some g -> pf_offset f + pf_size f <= pf_offset g.
Proof.
  revert off i j. induction fs as [|x fs IH]; intros off i j; [done|]. intros (Hlo & Hsz & Hlaid) Hij Hi Hj.
  destruct j as [|j]; [lia|]. destruct i as [|i].
  - injection Hi as ->. apply (laid_from _ fs); [done|]. by eapply list_elem_of_lookup_2.
  - apply (IH _ i j Hlaid); [lia|done..].
Qed.

(** ** Theorems *)

(** C14: the layout table: fields lie in order without overlap, each at a
    multiple of its alignment, and end within the 3072-byte limit; seq and
    notifyEpoch each have a 64-byte line to themselves and the body starts at
    the header size with whole 8-byte words up to its end. *)
Theorem page_layout_sound :
  (forall i j f g, (i < j)%nat -> pageLayout !! i = Some f -> pageLayout !! j = Some g -> pf_offset f + pf_size f <= pf_offset g) /\
  (forall f, f ∈ pageLayout -> 0 <= pf_offset f /\ (field_align f | pf_offset f) /\ pf_offset f + pf_size f <= PageBodyLimit) /\
  pageOffset "seq" = PageSeqOffset /\ pageOffset "notifyEpoch" = PageNotifyEpochOffset /\
  pageOffset "generation" = PageHeaderSize /\ (pageBodyEnd - PageHeaderSize) mod 8 = 0 /\
  forallb (fun f => (pf_offset f / 64 =? 1) && String.eqb (pf_name f) "seq" ||
                    (pf_offset f / 64 =? 2) && String.eqb (pf_name f) "notifyEpoch" ||
                    (pf_offset f + pf_size f <=? 64) || (PageHeaderSize <=? pf_offset f)) pageLayout = true.
Proof.
  split; [intros i j f g Hij Hi Hj; by apply (laid_lookup 0 pageLayout i j f g page_laid)|].
  split.
  { intros f Hf. destruct (layout_row f Hf) as (_ & _ & _ & _ & _ & Ha & Hlo & Hend).
    rewrite pageBodyEnd_val in Hend. unfold PageBodyLimit. split; [exact Hlo|split; [exact Ha|lia]]. }
  split; [exact offset_seq|]. split; [exact offset_epoch|].
  split; [vm_compute; reflexivity|]. split; [rewrite pageBodyEnd_val|]; vm_compute; reflexivity.
Qed.

(** A minor only appends: the layout lines of minor 0 are the first lines
    of this minor's descriptor, each unchanged, for any rows appended. *)
Theorem minor_only_appends (more : list pageField) :
  PageLayout_lines (buildPageLayout specs_minor0).1 `prefix_of` PageLayout_lines (buildPageLayout (specs_minor0 ++ more)).1.
Proof.
  unfold buildPageLayout, PageLayout_lines. rewrite layout_from_app. cbn [fst]. rewrite fmap_app. by eexists.
Qed.

(** A successful [EncodePage] leaves in the first 4096 bytes each field's
    bytes at its offset and zero bytes everywhere else, and does not touch the
    destination beyond the page. *)
Theorem EncodePage_places (dst : list byte) (s : PageSnapshot) (p : list byte) (Henc : EncodePage dst s = Ok p) :
  (forall f, f ∈ pageLayout ->
     exists bs, field_bytes s f = Ok bs /\ slice (Z.to_nat (pf_offset f)) (length bs) p = bs) /\
  (forall i, 0 <= i < PageSize -> (forall f, f ∈ pageLayout -> ~ (pf_offset f <= i < pf_offset f + pf_size f)) ->
     p !! Z.to_nat i = Some zero_byte) /\
  drop (Z.to_nat PageSize) p = drop (Z.to_nat PageSize) dst.
Proof.
  split; [intros f Hf; by apply (encode_field dst)|].
  apply EncodePage_Ok in Henc as (Hd & _ & page & Hp & ->).
  pose proof (put_fields_length _ _ _ _ Hp) as Hl. rewrite length_zero_page in Hl.
  change (Z.to_nat PageSize) with 4096%nat. unfold PageSize. split.
  - intros i Hi Hgap. rewrite lookup_app_l by lia.
    rewrite (put_fields_gap s zero_page pageLayout page (Z.to_nat i) Hp (page_fits s)).
    + Transparent zero_page. apply lookup_replicate_2. unfold PageSize. lia.
    + intros f Hf. destruct (layout_row f Hf) as (_ & _ & _ & _ & _ & _ & Hlo & _).
      split; [done|]. rewrite Z2Nat.id by lia. by apply Hgap.
  - rewrite <- Hl, drop_app_length. done.
Qed.

Definition tiny_snapshot : PageSnapshot :=
  mkSnapshot 0 1 "-" (unixTime 1) PlatformLinux zero_Capacity LevelOK None (Some (mkLinux None None)) [] false "" None
    zero_KillMode zero_Recommendation [].
Lemma EncodePage_places_witness :
  exists p, EncodePage zero_page tiny_snapshot = Ok p /\ drop (Z.to_nat PageSize) p = drop (Z.to_nat PageSize) zero_page.
Proof.
  destruct (EncodePage zero_page tiny_snapshot) as [p|e] eqn:E.
  - exists p. split; [reflexivity|]. apply (EncodePage_places zero_page tiny_snapshot p E).
  - exfalso. vm_compute in E. discriminate E.
Defined.
