(* ===== verification/BudgetPageReader.v ===== *)
(** * The page reader and the round trip
    (src/budget/v1alpha1/page_decode_test.go: decodePage; page_errors.go)

    [decodePage] is the repository's own reader of a static page.  It refuses
    a page whose header it does not know, a torn page, and a word outside its
    field's domain; otherwise it returns a snapshot.  The theorems relate it to
    [EncodePage]. *)
From S2P Require Import Prelude GoLib BudgetVocab BudgetTypes BudgetLadder BudgetPolicy BudgetObservation BudgetPage BudgetPageCodec.

Definition PageErrABIMismatch : string := "abiMismatch".
Definition PageErrTruncated : string := "truncated".
Definition PageErrCorrupt : string := "corrupt".
Definition PageErrTorn : string := "torn".
Definition readErr (name fmt : string) (a : list fmtarg) : error := ErrorfW fmt a (ErrNew name).

Definition codes (name : string) : list string :=
  match List.find (fun t => String.eqb t.1 name) PageCodeTables with Some t => t.2 | None => [] end.

(** The value a code word stands for: the switch of the closure [code]. *)
Definition code_value (c : Z) (table : list string) (unknown : string) : string :=
  if c =? 0 then ""
  else if c <=? len table then default "" (table !! Z.to_nat (c - 1))
  else unknown.
Definition opt_value (v : Z) : option Z := if v =? PageAbsent then None else Some v.

(** ** The word readers: the closures [word], [i64], [opt] and [code] *)
Section Words.
Context (b : list byte).

Definition read_word (name : string) : Z := load64 (Z.to_nat (pageOffset name)) b.
Definition read_i64 (name : string) : Z := i64_of_u64 (read_word name).
Definition read_opt (name : string) : option Z :=
  opt_value (read_i64 name).
Definition read_code (name : string) (table : list string) (unknown : string) : string :=
  code_value (read_word name) table unknown.
(** What [code] records in [bad]: an unknown code of a structural table. *)
Definition bad_code (name : string) (table : list string) (unknown : string) : check :=
  let c := read_word name in
  failif (negb (c =? 0) && (len table <? c) && String.eqb unknown "")
    (readErr PageErrABIMismatch "%s holds unknown code %d" [ArgS name; ArgZ c]).
Definition read_u16 (name : string) : Z := le_word (slice (Z.to_nat (pageOffset name)) 2 b).
Definition read_u32 (name : string) : Z := le_word (slice (Z.to_nat (pageOffset name)) 4 b).

(** A block is kept only when it is not the zero struct. *)
Definition keep {A} `{EqDecision A} (zero x : A) : option A := if decide (x = zero) then None else Some x.

Definition read_header : check :=
  failif (len b <? PageSeqOffset) (readErr PageErrTruncated "%d bytes, shorter than the header line" [ArgZ (len b)]) ;?
  failif (negb (bool_decide (take (length (bytes_of PageMagic)) b = bytes_of PageMagic)))
    (readErr PageErrABIMismatch "magic %q" [ArgS (string_of (take 8 b))]) ;?
  failif (negb (read_u16 "abiMajor" =? PageABIMajor)) (readErr PageErrABIMismatch "abiMajor %d" [ArgZ (read_u16 "abiMajor")]) ;?
  failif (negb (read_u32 "headerSize" =? PageHeaderSize))
    (readErr PageErrABIMismatch "headerSize %d" [ArgZ (read_u32 "headerSize")]) ;?
  (let body := read_u32 "bodySize" in
   failif (body <? pageBodySize)
     (readErr PageErrTruncated "bodySize %d below the known %d" [ArgZ body; ArgZ pageBodySize]) ;?
   failif (len b <? PageHeaderSize + body)
     (readErr PageErrTruncated "%d bytes, want at least %d" [ArgZ (len b); ArgZ (PageHeaderSize + body)])) ;?
  (let sq := load64 (Z.to_nat PageSeqOffset) b in
   failif (sq mod 2 =? 1) (readErr PageErrTorn "seq %d is odd" [ArgZ sq])).

Definition read_capacity (gpu : option bool) : BudgetCapacity :=
  mkCapacity (read_opt "capacity.cpuCapacityMilli") (read_opt "capacity.cpuSystemReserveMilli")
    (read_opt "capacity.memCapacityBytes") (read_opt "capacity.memSystemReserveBytes")
    (read_opt "capacity.memEvictionReserveBytes") (read_opt "capacity.memAllocatableBytes")
    (read_opt "capacity.swapTotalBytes") (read_opt "capacity.swapUsedBytes")
    (read_opt "capacity.cpuPerformanceCores") (read_opt "capacity.cpuEfficiencyCores")
    gpu (read_opt "capacity.gpuCount").
Definition read_gpu : res (option bool) :=
  match read_opt "capacity.gpuPresent" with
  | None => Ok None
  | Some v =>
      if (v =? 0) || (v =? 1) then Ok (Some (v =? 1))
      else Err (readErr PageErrCorrupt "capacity.gpuPresent holds %d, want 0 or 1" [ArgZ v])
  end.

Definition read_darwin : DarwinSignals :=
  let c := mkCompressor (read_opt "darwin.compressor.bytesUsed") (read_opt "darwin.compressor.bytesStored")
             (read_opt "darwin.compressor.segmentLimitBytes") in
  mkDarwin (read_opt "darwin.vmPressureLevel") (read_opt "darwin.memorystatusLevelPermille")
    (keep (mkCompressor None None None) c) (read_opt "darwin.swapinsTotal") (read_opt "darwin.swapoutsTotal").

Definition read_line (r l : string) : option PSILine :=
  let p := "linux.psi." +:+ r +:+ "." +:+ l +:+ "." in
  keep (mkPSILine None None None)
    (mkPSILine (read_opt (p +:+ "avg10Permille")) (read_opt (p +:+ "avg60Permille")) (read_opt (p +:+ "totalUs"))).
Definition read_resource (r : string) : option PSIResource :=
  keep (mkPSIResource None None) (mkPSIResource (read_line r "some") (read_line r "full")).
Definition read_linux : LinuxSignals :=
  mkLinux
    (keep (mkLinuxPSI None None None) (mkLinuxPSI (read_resource "cpu") (read_resource "memory") (read_resource "io")))
    (keep (mkMemoryEvents None None None None)
       (mkMemoryEvents (read_opt "linux.memoryEvents.high") (read_opt "linux.memoryEvents.max")
          (read_opt "linux.memoryEvents.oom") (read_opt "linux.memoryEvents.oomKill"))).

(** One iteration of the signal loop, and the codes it may find bad. *)
Definition read_signal (i : nat) : list BudgetSignal :=
  let p := slot_prefix "signals" i in
  if read_word (p +:+ "id") =? 0 then []
  else [mkSignal (read_code (p +:+ "id") (codes "signal") "") (read_code (p +:+ "unit") (codes "unit") "")
          (read_opt (p +:+ "value")) (read_opt (p +:+ "warnThreshold")) (read_opt (p +:+ "admitStopThreshold"))
          (read_opt (p +:+ "criticalThreshold")) (read_opt (p +:+ "evictSoftThreshold"))
          (read_opt (p +:+ "evictHardThreshold")) (read_opt (p +:+ "warnRelease")) (read_opt (p +:+ "admitStopRelease"))
          (read_opt (p +:+ "criticalRelease")) (read_opt (p +:+ "evictSoftRelease")) (read_opt (p +:+ "evictHardRelease"))
          (read_opt (p +:+ "graceSeconds")) (read_opt (p +:+ "minReclaimBytes")) (read_opt (p +:+ "windowSeconds"))
          (read_opt (p +:+ "etaToNextRungSeconds")) (read_code (p +:+ "trend") (codes "trend") TrendUnknown)
          (read_code (p +:+ "limitingResource") (codes "limitingResource") ResourceUnknown)
          (read_code (p +:+ "sharedWith") (codes "signal") "")].
Definition bad_signal (i : nat) : check :=
  let p := slot_prefix "signals" i in
  if read_word (p +:+ "id") =? 0 then None
  else bad_code (p +:+ "id") (codes "signal") "" ;? bad_code (p +:+ "unit") (codes "unit") "" ;?
       bad_code (p +:+ "trend") (codes "trend") TrendUnknown ;?
       bad_code (p +:+ "limitingResource") (codes "limitingResource") ResourceUnknown ;?
       bad_code (p +:+ "sharedWith") (codes "signal") "".

Definition read_counters (i : nat) : list PageBandCounters :=
  let p := slot_prefix "counters" i in
  if read_word (p +:+ "band") =? 0 then []
  else [mkPageCounters (read_code (p +:+ "band") (codes "band") "") (read_i64 (p +:+ "evictionsTotal"))
          (read_i64 (p +:+ "oomKillsTotal")) (read_i64 (p +:+ "kernelKillsTotal")) (read_i64 (p +:+ "restartsTotal"))
          (read_i64 (p +:+ "memHighEventsTotal")) (read_i64 (p +:+ "tier1RefusedTotal"))].
Definition bad_counters (i : nat) : check :=
  let p := slot_prefix "counters" i in
  if read_word (p +:+ "band") =? 0 then None else bad_code (p +:+ "band") (codes "band") "".

Definition read_kill_mode : KillMode :=
  mkKillMode (read_code "killMode.mode" (codes "killMode") "") (read_word "killMode.armed" =? 1)
    (i32_of (read_i64 "killMode.armingEpisodes")) (read_code "killMode.reason" (codes "killModeReason") KillReasonUnknown).

(** The codes in the order the reader reads them: [bad] is the first. *)
Definition read_bad : check :=
  bad_code "platform" (codes "platform") "" ;? bad_code "level" (codes "level") "" ;?
  each 0 (fun _ => bad_signal) (seq 0 (Z.to_nat MaxPageSignals)) ;?
  bad_code "admitReasonSignal" (codes "signal") "" ;? bad_code "killMode.mode" (codes "killMode") "" ;?
  bad_code "killMode.reason" (codes "killModeReason") KillReasonUnknown ;?
  bad_code "recommendation.basis" (codes "signal") "" ;?
  each 0 (fun _ => bad_counters) (seq 0 (Z.to_nat MaxPageCounters)).

Definition read_snapshot (gpu : option bool) : PageSnapshot :=
  let platform := read_code "platform" (codes "platform") "" in
  mkSnapshot (read_i64 "generation") (read_i64 "writerPeriodSeconds")
    (string_of (slice (Z.to_nat (pageOffset "nodeName")) (Z.to_nat (read_word "nodeNameLen")) b))
    (unixTime (read_i64 "observedAt")) platform (read_capacity gpu) (read_code "level" (codes "level") "")
    (if String.eqb platform PlatformDarwin then Some read_darwin else None)
    (if String.eqb platform PlatformLinux || negb (bool_decide (read_linux = mkLinux None None))
     then Some read_linux else None)
    (seq 0 (Z.to_nat MaxPageSignals) ≫= read_signal)
    (read_word "admit" =? 1) (read_code "admitReasonSignal" (codes "signal") "")
    (unixTime <$> read_opt "evictDeadline") read_kill_mode
    (mkRecommendation (read_opt "recommendation.safeAdditionalBytes") (read_code "recommendation.basis" (codes "signal") ""))
    (seq 0 (Z.to_nat MaxPageCounters) ≫= read_counters).
End Words.

(** The reader: its error is the one the code returns beside the snapshot. *)
Definition decodePage (b : list byte) : res PageSnapshot :=
  read_header b ;!
  failif (MaxPageNodeNameBytes <? read_word b "nodeNameLen")
    (readErr PageErrCorrupt "nodeNameLen %d above %d" [ArgZ (read_word b "nodeNameLen"); ArgZ MaxPageNodeNameBytes]) ;!
  let? gpu := read_gpu b in
  read_bad b ;! Ok (read_snapshot b gpu).

(** ** What the page keeps of a snapshot

    Times lose their sub-second part and their location, an "unknown" word of
    a producer vocabulary reads as unset, and a block that is present but
    empty reads as absent. *)
Definition known (unknown v : string) : string := if String.eqb v unknown then "" else v.
Definition nonzero {A} `{EqDecision A} (zero : A) (v : option A) : option A := v ≫= keep zero.

Definition view_darwin (d : DarwinSignals) : DarwinSignals :=
  mkDarwin (ds_VMPressureLevel d) (ds_MemorystatusLevelPermille d) (nonzero (mkCompressor None None None) (ds_Compressor d))
    (ds_SwapinsTotal d) (ds_SwapoutsTotal d).
Definition view_resource (r : PSIResource) : PSIResource :=
  mkPSIResource (nonzero (mkPSILine None None None) (psi_Some r)) (nonzero (mkPSILine None None None) (psi_Full r)).
Definition view_psi (p : LinuxPSI) : LinuxPSI :=
  let v r := nonzero (mkPSIResource None None) (view_resource <$> r) in
  mkLinuxPSI (v (psi_CPU p)) (v (psi_Memory p)) (v (psi_IO p)).
Definition view_linux (l : LinuxSignals) : LinuxSignals :=
  mkLinux (nonzero (mkLinuxPSI None None None) (view_psi <$> ls_PSI l))
    (nonzero (mkMemoryEvents None None None None) (ls_MemoryEvents l)).
Definition view_signal (g : BudgetSignal) : BudgetSignal :=
  mkSignal (sig_ID g) (sig_Unit g) (sig_Value g) (sig_WarnThreshold g) (sig_AdmitStopThreshold g) (sig_CriticalThreshold g)
    (sig_EvictSoftThreshold g) (sig_EvictHardThreshold g) (sig_WarnRelease g) (sig_AdmitStopRelease g) (sig_CriticalRelease g)
    (sig_EvictSoftRelease g) (sig_EvictHardRelease g) (sig_GraceSeconds g) (sig_MinReclaimBytes g) (sig_WindowSeconds g)
    (sig_EtaToNextRungSeconds g) (known TrendUnknown (sig_Trend g)) (known ResourceUnknown (sig_LimitingResource g)) (sig_SharedWith g).
Definition view_time (t : Time) : Time := unixTime (t_unix t).
Definition view_kill_mode (k : KillMode) : KillMode :=
  mkKillMode (km_Mode k) (km_Armed k) (km_ArmingEpisodes k) (known KillReasonUnknown (km_Reason k)).

Definition page_view (s : PageSnapshot) : PageSnapshot :=
  mkSnapshot (ss_Generation s) (ss_WriterPeriodSeconds s) (ss_NodeName s) (view_time (ss_ObservedAt s)) (ss_Platform s)
    (ss_Capacity s) (ss_Level s) (view_darwin <$> ss_Darwin s)
    (if String.eqb (ss_Platform s) PlatformLinux then view_linux <$> ss_Linux s
     else nonzero (mkLinux None None) (view_linux <$> ss_Linux s))
    (view_signal <$> ss_Signals s) (ss_Admit s) (ss_AdmitReasonSignal s) (view_time <$> ss_EvictDeadline s)
    (view_kill_mode (ss_KillMode s)) (ss_Recommendation s) (ss_Counters s).

(** A snapshot whose integers are at their Go width.  The evict deadline is
    also apart from the sentinel, which its field does not check. *)
Definition opt_i64 (v : option Z) : Prop := forall z, v = Some z -> in_i64 z.
Definition psi_line_of (s : PageSnapshot) (ln : PSILine) : Prop :=
  exists x p r, ss_Linux s = Some x /\ ls_PSI x = Some p /\ Some r ∈ [psi_CPU p; psi_Memory p; psi_IO p] /\
    Some ln ∈ [psi_Some r; psi_Full r].
Definition signal_ints (g : BudgetSignal) : list (option Z) :=
  [sig_Value g; sig_WarnThreshold g; sig_AdmitStopThreshold g; sig_CriticalThreshold g; sig_EvictSoftThreshold g;
   sig_EvictHardThreshold g; sig_WarnRelease g; sig_AdmitStopRelease g; sig_CriticalRelease g; sig_EvictSoftRelease g;
   sig_EvictHardRelease g; sig_GraceSeconds g; sig_MinReclaimBytes g; sig_WindowSeconds g; sig_EtaToNextRungSeconds g].
Definition capacity_ints (c : BudgetCapacity) : list (option Z) :=
  [cap_CPUCapacityMilli c; cap_CPUSystemReserveMilli c; cap_MemCapacityBytes c; cap_MemSystemReserveBytes c;
   cap_MemEvictionReserveBytes c; cap_MemAllocatableBytes c; cap_SwapTotalBytes c; cap_SwapUsedBytes c;
   cap_CPUPerformanceCores c; cap_CPUEfficiencyCores c; cap_GPUCount c].
Definition counter_ints (c : PageBandCounters) : list Z :=
  [pc_EvictionsTotal c; pc_OOMKillsTotal c; pc_KernelKillsTotal c; pc_RestartsTotal c; pc_MemHighEventsTotal c; pc_Tier1RefusedTotal c].

Record typed_snapshot (s : PageSnapshot) : Prop := {
  ts_header : Forall in_i64 [ss_Generation s; ss_WriterPeriodSeconds s; t_unix (ss_ObservedAt s)];
  ts_capacity : Forall opt_i64 (capacity_ints (ss_Capacity s));
  ts_darwin : forall d, ss_Darwin s = Some d ->
    Forall opt_i64 [ds_VMPressureLevel d; ds_MemorystatusLevelPermille d; ds_SwapinsTotal d; ds_SwapoutsTotal d] /\
    forall c, ds_Compressor d = Some c -> Forall opt_i64 [dc_BytesUsed c; dc_BytesStored c; dc_SegmentLimitBytes c];
  ts_psi : forall ln, psi_line_of s ln -> Forall opt_i64 [psi_Avg10Permille ln; psi_Avg60Permille ln; psi_TotalUs ln];
  ts_events : forall x e, ss_Linux s = Some x -> ls_MemoryEvents x = Some e -> Forall opt_i64 [ev_High e; ev_Max e; ev_OOM e; ev_OOMKill e];
  ts_signals : Forall (fun g => Forall opt_i64 (signal_ints g)) (ss_Signals s);
  ts_deadline : forall t, ss_EvictDeadline s = Some t -> in_i64 (t_unix t) /\ t_unix t <> PageAbsent;
  ts_kill_mode : in_i32 (km_ArmingEpisodes (ss_KillMode s));
  ts_recommendation : opt_i64 (rec_SafeAdditionalBytes (ss_Recommendation s));
  ts_counters : Forall (fun c => Forall in_i64 (counter_ints c)) (ss_Counters s);
}.

(** ** Reading one word back *)
Lemma opt_value_word v : opt_i64 v -> (i64Word v).2 = true -> opt_value (i64_of_u64 (u64 (i64Word v).1)) = v.
Proof.
  intros Hv. destruct v as [z|]; simpl.
  - intros Hz. apply negb_true_iff, Z.eqb_neq in Hz.
    rewrite (u64_small (u64 z)) by apply u64_range. rewrite i64_u64 by (by apply Hv).
    unfold opt_value. by rewrite (proj2 (Z.eqb_neq _ _)).
  - intros _. vm_compute. done.
Qed.

Lemma code_value_table table v unknown c :
  len table < 2 ^ 64 -> code_from 1 table v = Some c ->
  0 < u64 c <= len table /\ code_value (u64 c) table unknown = v.
Proof.
  intros Ht [Hc Hl]%code_from_lookup. rewrite (u64_small c) by lia. split; [lia|].
  unfold code_value. rewrite (proj2 (Z.eqb_neq _ _)), (proj2 (Z.leb_le _ _)) by lia. by rewrite Hl.
Qed.

(** [reads r table unknown v]: a getter's result [r], when the field can carry
    it, is a code of the table that reads back as [v]. *)
Definition reads (r : Z * bool) (table : list string) (unknown v : string) : Prop :=
  r.2 = true -> 0 <= u64 r.1 <= len table /\ code_value (u64 r.1) table unknown = v.

Lemma pageCode_read table v unknown :
  len table < 2 ^ 64 -> reads (pageCode table v unknown) table unknown (known unknown v).
Proof.
  intros Ht. unfold reads, pageCode, known.
  destruct (String.eqb_spec v "") as [->|Hv]; simpl.
  { intros _. rewrite u64_small by lia. unfold len; split; [lia|by destruct unknown]. }
  destruct (String.eqb_spec v unknown) as [->|Hu]; simpl.
  { rewrite (proj2 (String.eqb_neq _ _)) by done. simpl. intros _. rewrite u64_small by lia.
    unfold len; split; [lia|done]. }
  rewrite andb_false_r. destruct (code_from 1 table v) as [c|] eqn:Hc; [|done]. intros _. simpl.
  destruct (code_value_table table v unknown c Ht Hc) as [Hr Hval]. split; [lia|done].
Qed.

Lemma signal_ref_read v : reads (signal_ref_code v) signalCodes "" v.
Proof.
  unfold reads, signal_ref_code, SignalID_PageCode. cbn [fst snd].
  destruct (code_from 1 signalCodes v) as [c|] eqn:Hc; cbn [from_option id].
  - intros _. destruct (code_value_table signalCodes v "" c eq_refl Hc) as [Hr Hval]. split; [lia|done].
  - rewrite orb_false_r. intros ->%String.eqb_eq. vm_compute. intuition congruence.
Qed.

Lemma signal_id_read v : reads (SignalID_PageCode v, negb (SignalID_PageCode v =? 0)) signalCodes "" v.
Proof. intros Hok. apply signal_ref_read. unfold signal_ref_code. cbn [snd] in *. by rewrite Hok, orb_true_r. Qed.
Lemma signal_id_nonzero v : negb (SignalID_PageCode v =? 0) = true -> u64 (SignalID_PageCode v) <> 0.
Proof.
  unfold SignalID_PageCode. destruct (code_from 1 signalCodes v) as [c|] eqn:Hc; cbn [from_option id]; [|done].
  destruct (code_value_table signalCodes v "" c eq_refl Hc) as [Hr _]. lia.
Qed.

Lemma known_none v : known "" v = v.
Proof. unfold known. by destruct (String.eqb_spec v "") as [->|]. Qed.

Lemma unit_read g : reads (unit_code g) pageUnitCodes "" (sig_Unit g).
Proof.
  unfold reads, unit_code. pose proof (pageCode_read pageUnitCodes (sig_Unit g) "" eq_refl) as H.
  rewrite known_none in H. destruct (pageCode pageUnitCodes (sig_Unit g) "") as [c ok].
  intros Hok. apply andb_true_iff in Hok as [[-> _]%andb_true_iff _]. by apply H.
Qed.

Lemma band_read c :
  let r := let '(code, ok) := pageCode pageBandCodes (pc_Band c) "" in (code, ok && negb (code =? 0)) in
  reads r pageBandCodes "" (pc_Band c) /\ (r.2 = true -> u64 r.1 <> 0).
Proof.
  unfold pageCode, reads. cbv zeta. destruct (String.eqb_spec (pc_Band c) "") as [E|E]; [done|]. cbn [orb negb andb].
  destruct (code_from 1 pageBandCodes (pc_Band c)) as [k|] eqn:Hk; [|done]. cbn [fst snd].
  destruct (code_value_table pageBandCodes (pc_Band c) "" k eq_refl Hk) as [[Hlo Hhi] Hv].
  cbn [String.eqb negb andb fst snd]. split; intros _; [split; [lia|exact Hv]|lia].
Qed.

(** ** Reading an encoded page back *)

(** Finds a row in its group, comparing names by computation. *)
Ltac in_group := simpl; repeat first [apply list_elem_of_here | apply list_elem_of_further].
Ltac find_row :=
  apply in_body;
  first [ left; solve [in_group] | right; left; solve [in_group] | do 2 right; left; solve [in_group]
        | do 3 right; left; solve [in_group] | do 4 right; left; solve [in_group] | do 6 right; left; solve [in_group]
        | do 7 right; left; solve [in_group] | do 9 right; solve [in_group] ].

Ltac name_differs := apply (bool_decide_unpack _); vm_compute; exact I.

Section Encoded.
Context (s : PageSnapshot) (p : list byte).
Context (Henc : page_holds s p) (Hty : typed_snapshot s).

Lemma word_field name kind align enum absent status get :
  field name kind 0 align enum absent status (Some get) ∈ body_specs -> kind_width kind = 8 ->
  read_word p name = u64 (get s).1 /\ (get s).2 = true.
Proof. intros Hin Hk. by apply (holds_word s p _ get Henc Hin). Qed.

Lemma opt_read name status get :
  opt_field name status get ∈ body_specs -> opt_i64 (get s) -> read_opt p name = get s.
Proof.
  intros Hin Hv. unfold read_opt, read_i64.
  destruct (word_field _ _ _ _ _ _ _ Hin eq_refl) as [-> Hok]. by apply opt_value_word.
Qed.

Lemma code_read name status enum get table unknown v :
  code_field name status enum get ∈ body_specs -> reads (get s) table unknown v ->
  read_code p name table unknown = v /\ bad_code p name table unknown = None.
Proof.
  intros Hin Hv. unfold read_code, bad_code.
  destruct (word_field _ _ _ _ _ _ _ Hin eq_refl) as [-> Hok].
  destruct (Hv Hok) as [Hr Hval]. split; [done|].
  apply failif_None. rewrite (proj2 (Z.ltb_ge _ _)) by lia. by rewrite andb_false_r.
Qed.

(** The optional integers of each block are at their width. *)
Lemma capacity_typed v : v ∈ capacity_ints (ss_Capacity s) -> opt_i64 v.
Proof. intros Hv. eapply Forall_forall; [apply (ts_capacity _ Hty)|done]. Qed.
Lemma darwin_typed get :
  (forall d, get d ∈ [ds_VMPressureLevel d; ds_MemorystatusLevelPermille d; ds_SwapinsTotal d; ds_SwapoutsTotal d]) ->
  opt_i64 (darwin_get get s).
Proof.
  intros Hg. unfold darwin_get. destruct (ss_Darwin s) as [d|] eqn:E; simpl; [|done].
  eapply Forall_forall; [apply (proj1 (ts_darwin _ Hty d E))|apply Hg].
Qed.
Lemma compressor_typed get :
  (forall c, get c ∈ [dc_BytesUsed c; dc_BytesStored c; dc_SegmentLimitBytes c]) -> opt_i64 (compressor_get get s).
Proof.
  intros Hg. unfold compressor_get, darwin_get. destruct (ss_Darwin s) as [d|] eqn:E; simpl; [|done].
  destruct (ds_Compressor d) as [c|] eqn:E2; simpl; [|done].
  eapply Forall_forall; [apply (proj2 (ts_darwin _ Hty d E) c E2)|apply Hg].
Qed.
Lemma psi_typed r l v :
  (forall q, r q ∈ [psi_CPU q; psi_Memory q; psi_IO q]) -> (forall q, l q ∈ [psi_Some q; psi_Full q]) ->
  (forall ln, v ln ∈ [psi_Avg10Permille ln; psi_Avg60Permille ln; psi_TotalUs ln]) -> opt_i64 (psi_get r l v s).
Proof.
  intros Hr Hl Hv. unfold psi_get. destruct (ss_Linux s) as [x|] eqn:E1; simpl; [|done].
  destruct (ls_PSI x) as [q|] eqn:E2; simpl; [|done]. specialize (Hr q).
  destruct (r q) as [res|] eqn:E3; simpl; [|done]. specialize (Hl res).
  destruct (l res) as [ln|] eqn:E4; simpl; [|done].
  eapply Forall_forall; [apply (ts_psi _ Hty ln)|apply Hv]. exists x, q, res. done.
Qed.
Lemma events_typed get :
  (forall e, get e ∈ [ev_High e; ev_Max e; ev_OOM e; ev_OOMKill e]) -> opt_i64 (events_get get s).
Proof.
  intros Hg. unfold events_get. destruct (ss_Linux s) as [x|] eqn:E1; simpl; [|done].
  destruct (ls_MemoryEvents x) as [e|] eqn:E2; simpl; [|done].
  eapply Forall_forall; [apply (ts_events _ Hty x e E1 E2)|apply Hg].
Qed.

Ltac typed :=
  first [ solve [apply capacity_typed; in_group]
        | solve [apply darwin_typed; intros; in_group]
        | solve [apply compressor_typed; intros; in_group]
        | solve [apply psi_typed; intros; in_group]
        | solve [apply events_typed; intros; in_group]
        | apply (ts_recommendation _ Hty) ].
Ltac read_opts :=
  repeat match goal with
  | |- context [read_opt p ?n] =>
      let H := fresh in
      eassert (opt_field n _ _ ∈ body_specs) as H by find_row;
      rewrite (opt_read _ _ _ H) by typed; clear H; cbn [fst snd]
  end.

Lemma capacity_read : read_capacity p (cap_GPUPresent (ss_Capacity s)) = ss_Capacity s.
Proof. unfold read_capacity. read_opts. by destruct (ss_Capacity s). Qed.

Lemma darwin_read d : ss_Darwin s = Some d -> read_darwin p = view_darwin d.
Proof.
  intros E. unfold read_darwin. read_opts. unfold compressor_get, darwin_get. rewrite E. simpl.
  unfold view_darwin. f_equal. by destruct (ds_Compressor d) as [[]|].
Qed.

Lemma linux_read : read_linux p = default (mkLinux None None) (view_linux <$> ss_Linux s).
Proof.
  unfold read_linux, read_resource, read_line. read_opts. unfold psi_get, events_get.
  destruct (ss_Linux s) as [[psi ev]|]; [|done]. simpl. unfold view_linux. simpl. f_equal.
  - destruct psi as [[c m io]|]; [|done]. simpl. unfold view_psi. do 2 f_equal.
    + by destruct c as [[[[]|] [[]|]]|].
    + by destruct m as [[[[]|] [[]|]]|].
    + by destruct io as [[[[]|] [[]|]]|].
  - by destruct ev as [[]|].
Qed.

(** A signal slot: its words are those of its record, or all zero. *)
Lemma slot_word i name kind enum absent status get :
  (i < 8)%nat -> kind_width kind = 8 ->
  field (slot_prefix "signals" i +:+ name) kind 0 0 enum absent status
    (Some (fun s => match ss_Signals s !! i with Some g => get g | None => (0, true) end)) ∈ specs_signal i ->
  (forall g, ss_Signals s !! i = Some g -> read_word p (slot_prefix "signals" i +:+ name) = u64 (get g).1 /\ (get g).2 = true) /\
  (ss_Signals s !! i = None -> read_word p (slot_prefix "signals" i +:+ name) = 0).
Proof.
  intros Hi Hk Hin.
  destruct (word_field _ _ _ _ _ _ _ (in_body _ ltac:(do 5 right; left; exists i; exact (conj Hi Hin))) Hk) as [-> Hok].
  destruct (ss_Signals s !! i) as [g'|]; split; intros; simplify_eq; done.
Qed.

Lemma slot_opt_read i g name get :
  (i < 8)%nat -> ss_Signals s !! i = Some g -> slot_i64 i name get ∈ specs_signal i -> get g ∈ signal_ints g ->
  read_opt p (slot_prefix "signals" i +:+ name) = get g.
Proof.
  intros Hi Hg Hin Hget. unfold read_opt, read_i64.
  destruct (slot_word i name kindI64 _ _ _ (fun g => i64Word (get g)) Hi eq_refl Hin) as [Hw _].
  destruct (Hw g Hg) as [-> Hok]. apply opt_value_word; [|done].
  pose proof (ts_signals _ Hty) as HF. eapply Forall_lookup_1 in HF; [|exact Hg].
  eapply Forall_forall; [apply HF|done].
Qed.

Lemma slot_code_read i g name enum get table unknown v :
  (i < 8)%nat -> ss_Signals s !! i = Some g -> slot_code i name enum get ∈ specs_signal i -> reads (get g) table unknown v ->
  read_code p (slot_prefix "signals" i +:+ name) table unknown = v /\
  bad_code p (slot_prefix "signals" i +:+ name) table unknown = None.
Proof.
  intros Hi Hg Hin Hget. apply code_read with (status := "status.signals[]." +:+ name) (enum := enum)
    (get := fun s => match ss_Signals s !! i with Some g => get g | None => (0, true) end); [|by rewrite Hg].
  apply in_body. do 5 right. left. eauto.
Qed.

Ltac read_slot :=
  repeat match goal with
  | Hi : (?i < 8)%nat, Hg : ss_Signals s !! ?i = Some ?g |- context [read_opt p (slot_prefix "signals" ?i +:+ ?n)] =>
      let H := fresh in
      eassert (slot_i64 i n _ ∈ specs_signal i) as H by (solve [in_group]);
      rewrite (slot_opt_read i g n _ Hi Hg H) by (solve [in_group]); clear H
  end.

Ltac read_slot_code n table unknown fact :=
  match goal with
  | Hi : (?i < 8)%nat, Hg : ss_Signals s !! ?i = Some ?g |- _ =>
      let H := fresh in
      eassert (slot_code i n _ _ ∈ specs_signal i) as H by (solve [in_group]);
      destruct (slot_code_read i g n _ _ table unknown _ Hi Hg H fact) as [-> ->]; clear H
  end.

Lemma signal_read i g :
  (i < 8)%nat -> ss_Signals s !! i = Some g -> read_signal p i = [view_signal g] /\ bad_signal p i = None.
Proof.
  intros Hi Hg. unfold read_signal, bad_signal. read_slot.
  eassert (slot_code i "id" _ _ ∈ specs_signal i) as Hin by (solve [in_group]).
  destruct (slot_word i "id" kindU64 _ _ _ _ Hi eq_refl Hin) as [Hw _]. destruct (Hw g Hg) as [Hid Hok].
  rewrite (proj2 (Z.eqb_neq (read_word _ _) 0)) by (rewrite Hid; by apply signal_id_nonzero).
  read_slot_code "id" (codes "signal") "" (signal_id_read (sig_ID g)).
  read_slot_code "unit" (codes "unit") "" (unit_read g).
  read_slot_code "trend" (codes "trend") TrendUnknown (pageCode_read pageTrendCodes (sig_Trend g) TrendUnknown eq_refl).
  read_slot_code "limitingResource" (codes "limitingResource") ResourceUnknown
    (pageCode_read pageLimitingResourceCodes (sig_LimitingResource g) ResourceUnknown eq_refl).
  read_slot_code "sharedWith" (codes "signal") "" (signal_ref_read (sig_SharedWith g)).
  done.
Qed.

Lemma signal_empty i : (i < 8)%nat -> ss_Signals s !! i = None -> read_signal p i = [] /\ bad_signal p i = None.
Proof.
  intros Hi Hg. unfold read_signal, bad_signal.
  eassert (slot_code i "id" _ _ ∈ specs_signal i) as Hin by (solve [in_group]).
  destruct (slot_word i "id" kindU64 _ _ _ _ Hi eq_refl Hin) as [_ Hw]. by rewrite (Hw Hg).
Qed.

(** A counter slot likewise. *)
Definition slot_total (i : nat) (get : PageBandCounters -> Z * bool) : pageGetter :=
  fun s => match ss_Counters s !! i with Some c => get c | None => (0, true) end.

Lemma counter_in i f : (i < 3)%nat -> f ∈ specs_counter i -> f ∈ body_specs.
Proof. intros Hi Hf. apply in_body. do 8 right. left. eauto. Qed.

Lemma total_read i c name status get :
  (i < 3)%nat -> ss_Counters s !! i = Some c ->
  i64_field (slot_prefix "counters" i +:+ name) status false (slot_total i (fun c => (u64 (get c), 0 <=? get c))) ∈ specs_counter i ->
  get c ∈ counter_ints c -> read_i64 p (slot_prefix "counters" i +:+ name) = get c.
Proof.
  intros Hi Hc Hin Hget. unfold read_i64.
  destruct (word_field _ _ _ _ _ _ _ (counter_in i _ Hi Hin) eq_refl) as [-> Hok].
  unfold slot_total. rewrite Hc. cbn [fst]. rewrite (u64_small (u64 _)) by apply u64_range. apply i64_u64.
  pose proof (ts_counters _ Hty) as HF. eapply Forall_lookup_1 in HF; [|exact Hc].
  eapply Forall_forall; [apply HF|done].
Qed.

Ltac read_totals :=
  repeat match goal with
  | Hi : (?i < 3)%nat, Hc : ss_Counters s !! ?i = Some ?c |- context [read_i64 p (slot_prefix "counters" ?i +:+ ?n)] =>
      let H := fresh in
      eassert (i64_field (slot_prefix "counters" i +:+ n) _ false (slot_total i (fun c => (u64 (_ c), 0 <=? _ c))) ∈ specs_counter i)
        as H by (solve [in_group]);
      rewrite (total_read i c n _ _ Hi Hc H) by (solve [in_group]); clear H; cbn [fst snd]
  end.

Definition band_getter (c : PageBandCounters) : Z * bool :=
  let '(code, ok) := pageCode pageBandCodes (pc_Band c) "" in (code, ok && negb (code =? 0)).
Lemma band_row i : code_field (slot_prefix "counters" i +:+ "band") "status.counters[].band" "band" (slot_total i band_getter) ∈ specs_counter i.
Proof. apply list_elem_of_here. Qed.

Lemma counters_read i c :
  (i < 3)%nat -> ss_Counters s !! i = Some c -> read_counters p i = [c] /\ bad_counters p i = None.
Proof.
  intros Hi Hc. unfold read_counters, bad_counters. read_totals. pose proof (counter_in i _ Hi (band_row i)) as Hin.
  destruct (band_read c) as [Hrd Hnz].
  destruct (word_field _ _ _ _ _ _ _ Hin eq_refl) as [Hw Hok]. unfold slot_total in Hw, Hok. rewrite Hc in Hw, Hok.
  rewrite (proj2 (Z.eqb_neq (read_word _ _) 0)) by (rewrite Hw; by apply Hnz).
  destruct (code_read _ _ _ _ pageBandCodes "" (pc_Band c) Hin) as [Hv Hb]; [unfold slot_total; by rewrite Hc|].
  change (codes "band") with pageBandCodes. rewrite Hv, Hb. by destruct c.
Qed.

Lemma counters_empty i : (i < 3)%nat -> ss_Counters s !! i = None -> read_counters p i = [] /\ bad_counters p i = None.
Proof.
  intros Hi Hc. unfold read_counters, bad_counters.
  destruct (word_field _ _ _ _ _ _ _ (counter_in i _ Hi (band_row i)) eq_refl) as [Hw _].
  unfold slot_total in Hw. rewrite Hc in Hw. by rewrite Hw.
Qed.

(** The slots together: a loop over all slots returns the records in order. *)
Lemma slots_read {A B} (n : nat) (l : list A) (read : nat -> list B) (bad : nat -> check) (view : A -> B) :
  (length l <= n)%nat ->
  (forall i x, (i < n)%nat -> l !! i = Some x -> read i = [view x] /\ bad i = None) ->
  (forall i, (i < n)%nat -> l !! i = None -> read i = [] /\ bad i = None) ->
  (seq 0 n ≫= read) = view <$> l /\ each 0 (fun _ => bad) (seq 0 n) = None.
Proof.
  intros Hl Hsome Hnone. split.
  - assert (forall k, (k <= n)%nat -> (seq 0 k ≫= read) = view <$> take k l) as H.
    { induction k as [|k IH]; intros Hk; [done|]. rewrite seq_S, bind_app, IH by lia. simpl. rewrite app_nil_r.
      destruct (l !! k) as [x|] eqn:E.
      - destruct (Hsome k x) as [-> _]; [lia|done|]. rewrite (take_S_r _ _ _ E), fmap_app. done.
      - destruct (Hnone k) as [-> _]; [lia|done|]. rewrite app_nil_r.
        apply lookup_ge_None in E. rewrite !take_ge by lia. done. }
    rewrite H, take_ge by lia. done.
  - apply (each_None_weak (fun _ => bad)). intros _ i Hi. apply elem_of_seq in Hi.
    destruct (l !! i) as [x|] eqn:E; [eapply Hsome|apply Hnone]; (exact E || lia).
Qed.

(** The header line and the name. *)
Lemma layout_slice f0 :
  f0 ∈ pageFieldSpecs -> pf_name f0 ∉ ["seq"; "notifyEpoch"] ->
  exists bs, field_bytes s f0 = Ok bs /\ slice (Z.to_nat (pageOffset (pf_name f0))) (length bs) p = bs.
Proof. intros Hin Hn. apply (ph_field s p Henc _ (spec_row _ Hin) Hn). Qed.
Lemma header_slice f0 :
  f0 ∈ specs_header -> pf_name f0 ∉ ["seq"; "notifyEpoch"] ->
  exists bs, field_bytes s f0 = Ok bs /\ slice (Z.to_nat (pageOffset (pf_name f0))) (length bs) p = bs.
Proof. intros Hin. apply layout_slice. rewrite specs_split. apply elem_of_app. by left. Qed.

Lemma header_read : read_header p = None.
Proof.
  pose proof (ph_length _ _ Henc) as Hlen.
  assert (take 8 p = bytes_of PageMagic) as Hmagic.
  { destruct (header_slice (field "magic" kindBytes 8 0 "" false "" None)) as (bs & [= <-] & H); [in_group|name_differs|].
    cbn [pf_name field] in H. rewrite offset_magic in H. exact H. }
  assert (read_u16 p "abiMajor" = 1) as Hmaj.
  { destruct (header_slice (field "abiMajor" kindU16 2 0 "" false "" (constGet PageABIMajor))) as (bs & [= <-] & H);
      [in_group|name_differs|]. unfold read_u16. cbn [pf_name field] in H. simpl length in H. rewrite H. done. }
  assert (read_u32 p "headerSize" = 192) as Hhs.
  { destruct (header_slice (field "headerSize" kindU32 4 0 "" false "" (constGet PageHeaderSize))) as (bs & [= <-] & H);
      [in_group|name_differs|]. unfold read_u32. cbn [pf_name field] in H. simpl length in H. rewrite H. done. }
  assert (read_u32 p "bodySize" = pageBodySize) as Hbs.
  { destruct (header_slice (field "bodySize" kindU32 4 0 "" false "" None)) as (bs & [= <-] & H);
      [in_group|name_differs|]. unfold read_u32. cbn [pf_name field] in H. simpl length in H. rewrite H.
    unfold pageBodySize. rewrite pageBodyEnd_val. done. }
  unfold read_header. rewrite Hmaj, Hhs, Hbs. change (length (bytes_of PageMagic)) with 8%nat.
  rewrite Hmagic, bool_decide_true by done. change (Z.to_nat PageSeqOffset) with 64%nat. rewrite (ph_even _ _ Henc).
  rewrite !andthen_None, !failif_None. unfold len, pageBodySize. rewrite pageBodyEnd_val.
  unfold PageSeqOffset, PageHeaderSize. split_and!; first [reflexivity|clear -Hlen; apply Z.ltb_ge; lia].
Qed.

Lemma checked_snapshot : checkPageSnapshot s = None.
Proof. apply (ph_check _ _ Henc). Qed.
Lemma name_length : (1 <= String.length (ss_NodeName s) <= 253)%nat.
Proof.
  pose proof checked_snapshot as H. unfold checkPageSnapshot in H. rewrite !andthen_None, !failif_None in H.
  destruct H as (H1 & H2 & _). unfold slen, MaxPageNodeNameBytes in H1. apply String.eqb_neq in H2.
  revert H1 H2. destruct (ss_NodeName s); intros H1 H2; [done|]. cbn [String.length] in *. apply Z.ltb_ge in H1. lia.
Qed.
Lemma slots_bound : (length (ss_Signals s) <= 8)%nat /\ (length (ss_Counters s) <= 3)%nat.
Proof.
  pose proof checked_snapshot as H. unfold checkPageSnapshot in H. rewrite !andthen_None, !failif_None in H.
  destruct H as (_ & _ & _ & _ & _ & H1 & H2 & _). apply Z.ltb_ge in H1, H2. unfold len, MaxPageSignals, MaxBudgetSignals, MaxPageCounters in *. lia.
Qed.
Lemma platform_blocks :
  (ss_Platform s = PlatformDarwin /\ is_Some (ss_Darwin s)) \/
  (ss_Platform s = PlatformLinux /\ is_Some (ss_Linux s) /\ ss_Darwin s = None).
Proof.
  pose proof checked_snapshot as H. unfold checkPageSnapshot in H. rewrite !andthen_None, !failif_None in H.
  destruct H as (_ & _ & _ & Hp & _ & _ & _ & Hd & Hl). apply negb_false_iff, Platform_Valid_iff in Hp as [E|E]; rewrite E in *.
  - left. split; [done|]. destruct (ss_Darwin s); [eauto|]. by rewrite bool_decide_true in Hd.
  - right. split; [done|]. by destruct (ss_Linux s), (ss_Darwin s).
Qed.

Lemma plain_read name align status get v :
  field name kindI64 0 align "" false status (Some get) ∈ body_specs -> (get s).1 = u64 v -> in_i64 v ->
  read_i64 p name = v.
Proof.
  intros Hin Hv Hr. unfold read_i64. destruct (word_field _ _ _ _ _ _ _ Hin eq_refl) as [-> _].
  rewrite Hv, (u64_small (u64 _)) by apply u64_range. by apply i64_u64.
Qed.
Ltac read_plain n v :=
  let H := fresh in
  eassert (field n kindI64 0 _ "" false _ (Some _) ∈ body_specs) as H by find_row;
  rewrite (plain_read n _ _ _ v H eq_refl) by (eapply Forall_forall; [apply (ts_header _ Hty)|in_group]); clear H.

Lemma nodename_read :
  read_word p "nodeNameLen" = slen (ss_NodeName s) /\
  slice (Z.to_nat (pageOffset "nodeName")) (Z.to_nat (slen (ss_NodeName s))) p = bytes_of (ss_NodeName s).
Proof.
  pose proof name_length as Hn. split.
  - eassert (field "nodeNameLen" kindU64 0 0 "" false _ (Some _) ∈ body_specs) as H by find_row.
    destruct (word_field _ _ _ _ _ _ _ H eq_refl) as [-> _]. cbn [fst]. unfold slen. rewrite (u64_small (u64 _)) by apply u64_range. apply u64_small. lia.
  - destruct (layout_slice (field "nodeName" kindBytes PageNodeNameBytes 0 "" false "metadata.name" None)) as (bs & Hbs & H);
      [rewrite specs_split; apply elem_of_app; right; find_row|name_differs|].
    cbn [pf_name field] in H. change (Ok (take 256 (bytes_of (ss_NodeName s))) = Ok bs) in Hbs. injection Hbs as <-.
    rewrite take_ge in H by (rewrite length_bytes_of; lia). rewrite length_bytes_of in H.
    unfold slen. by rewrite Nat2Z.id.
Qed.

Lemma gpu_read : read_gpu p = Ok (cap_GPUPresent (ss_Capacity s)).
Proof.
  unfold read_gpu, read_opt, read_i64.
  eassert (field "capacity.gpuPresent" kindI64 0 0 "bool" true _ (Some _) ∈ body_specs) as H by find_row.
  destruct (word_field _ _ _ _ _ _ _ H eq_refl) as [-> _].
  by destruct (cap_GPUPresent (ss_Capacity s)) as [[]|].
Qed.

Lemma bool_read name status get :
  field name kindU64 0 0 "bool" false status (Some (fun s => boolWord (get s))) ∈ body_specs -> (read_word p name =? 1) = get s.
Proof. intros Hin. destruct (word_field _ _ _ _ _ _ _ Hin eq_refl) as [-> _]. by destruct (get s). Qed.

Lemma deadline_read : read_opt p "evictDeadline" = t_unix <$> ss_EvictDeadline s.
Proof.
  unfold read_opt, read_i64.
  eassert (i64_field "evictDeadline" _ true _ ∈ body_specs) as H by find_row.
  destruct (word_field _ _ _ _ _ _ _ H eq_refl) as [-> _].
  destruct (ss_EvictDeadline s) as [t|] eqn:E; [|done]. destruct (ts_deadline _ Hty t E) as [Ht Hne].
  cbn [fst]. rewrite (u64_small (u64 _)) by apply u64_range. rewrite i64_u64 by done.
  unfold opt_value. by rewrite (proj2 (Z.eqb_neq _ _)).
Qed.

Lemma kill_mode_read :
  read_kill_mode p = view_kill_mode (ss_KillMode s) /\ bad_code p "killMode.mode" (codes "killMode") "" = None /\
  bad_code p "killMode.reason" (codes "killModeReason") KillReasonUnknown = None.
Proof.
  unfold read_kill_mode.
  eassert (code_field "killMode.mode" _ _ _ ∈ body_specs) as H1 by find_row.
  destruct (code_read _ _ _ _ (codes "killMode") "" _ H1 (pageCode_read pageKillModeCodes _ _ eq_refl)) as [-> ->].
  eassert (code_field "killMode.reason" _ _ _ ∈ body_specs) as H2 by find_row.
  destruct (code_read _ _ _ _ (codes "killModeReason") KillReasonUnknown _ H2 (pageCode_read pageKillModeReasonCodes _ _ eq_refl)) as [-> ->].
  erewrite (bool_read "killMode.armed") by find_row.
  eassert (i64_field "killMode.armingEpisodes" _ false _ ∈ body_specs) as H3 by find_row.
  unfold read_i64. destruct (word_field _ _ _ _ _ _ _ H3 eq_refl) as [-> _]. cbn [fst].
  pose proof (ts_kill_mode _ Hty) as Hk. rewrite (u64_small (u64 _)) by apply u64_range.
  rewrite i64_u64 by (unfold in_i32, in_i64 in *; lia). rewrite i32_of_id by done.
  rewrite known_none. done.
Qed.

Lemma signals_read :
  (seq 0 (Z.to_nat MaxPageSignals) ≫= read_signal p) = view_signal <$> ss_Signals s /\
  each 0 (fun _ => bad_signal p) (seq 0 (Z.to_nat MaxPageSignals)) = None.
Proof. apply slots_read; [apply slots_bound| |]; auto using signal_read, signal_empty. Qed.
Lemma all_counters_read :
  (seq 0 (Z.to_nat MaxPageCounters) ≫= read_counters p) = ss_Counters s /\
  each 0 (fun _ => bad_counters p) (seq 0 (Z.to_nat MaxPageCounters)) = None.
Proof.
  rewrite <- (list_fmap_id (ss_Counters s)). apply slots_read; [apply slots_bound| |]; auto using counters_read, counters_empty.
Qed.

Lemma linux_view :
  (if String.eqb (ss_Platform s) PlatformLinux || negb (bool_decide (read_linux p = mkLinux None None))
   then Some (read_linux p) else None) = ss_Linux (page_view s).
Proof.
  rewrite linux_read. cbn [ss_Linux page_view].
  destruct platform_blocks as [[-> _]|(-> & [x ->] & _)]; [|done].
  destruct (ss_Linux s) as [x|]; [|done]. simpl. unfold keep. by repeat case_decide; case_bool_decide.
Qed.

Lemma snapshot_read : read_bad p = None /\ read_snapshot p (cap_GPUPresent (ss_Capacity s)) = page_view s.
Proof.
  unfold read_bad, read_snapshot.
  destruct kill_mode_read as (-> & -> & ->). destruct signals_read as [-> ->]. destruct all_counters_read as [-> ->].
  destruct nodename_read as [-> ->]. rewrite capacity_read, deadline_read. read_opts.
  eassert (code_field "platform" _ _ _ ∈ body_specs) as H1 by find_row.
  destruct (code_read _ _ _ _ (codes "platform") "" _ H1 (pageCode_read pagePlatformCodes _ _ eq_refl)) as [-> ->].
  eassert (code_field "level" _ _ _ ∈ body_specs) as H2 by find_row.
  destruct (code_read _ _ _ _ (codes "level") "" _ H2 (pageCode_read pageLevelCodes _ _ eq_refl)) as [-> ->].
  eassert (code_field "admitReasonSignal" _ _ _ ∈ body_specs) as H3 by find_row.
  destruct (code_read _ _ _ _ (codes "signal") "" _ H3 (signal_ref_read _)) as [-> ->].
  eassert (code_field "recommendation.basis" _ _ _ ∈ body_specs) as H4 by find_row.
  destruct (code_read _ _ _ _ (codes "signal") "" _ H4 (signal_ref_read _)) as [-> ->].
  rewrite !known_none, linux_view. split; [done|].
  read_plain "generation" (ss_Generation s). read_plain "writerPeriodSeconds" (ss_WriterPeriodSeconds s).
  read_plain "observedAt" (t_unix (ss_ObservedAt s)).
  erewrite (bool_read "admit") by find_row. rewrite string_of_bytes_of, <- option_fmap_compose. unfold page_view. f_equal.
  - destruct platform_blocks as [[-> [d Hd]]|(-> & _ & ->)]; [|done]. by rewrite (darwin_read d Hd), Hd.
  - by destruct (ss_Recommendation s).
Qed.
End Encoded.

(** ** Theorems *)

Lemma holds_decodes s p : page_holds s p -> typed_snapshot s -> decodePage p = Ok (page_view s).
Proof.
  intros Henc Hty. unfold decodePage. rewrite (header_read s p Henc). cbn [checked].
  pose proof (name_length s p Henc) as Hn. destruct (nodename_read s p Henc) as [Hlen _].
  rewrite Hlen, (proj2 (failif_None _ _)) by (apply Z.ltb_ge; unfold slen, MaxPageNodeNameBytes; lia).
  cbn [checked]. rewrite (gpu_read s p Henc). cbn [res_bind].
  destruct (snapshot_read s p Henc Hty) as [-> ->]. done.
Qed.

(** C2: a page [EncodePage] wrote reads back, through the repository's reader,
    as the snapshot it was written from, up to what the page does not carry:
    sub-second times, "unknown" producer words and empty blocks. *)
Theorem page_round_trip (dst : list byte) (s : PageSnapshot) (p : list byte)
    (Henc : EncodePage dst s = Ok p) (Hty : typed_snapshot s) :
  decodePage p = Ok (page_view s).
Proof. apply holds_decodes; [by eapply encode_holds|done]. Qed.

(** Each number of a concrete list fits its type. *)
Ltac ints Hn Hs := 
  repeat (apply Forall_cons; split; [first [unfold in_i64; simpl; lia|exact Hn|apply Hs; simpl; lia]|]); apply Forall_nil; done.

(** A small page: the snapshot of the sample observation. *)
Definition sample_snapshot : PageSnapshot := NewPageSnapshot "node-1" 5 sample_observation.
Lemma sample_typed : typed_snapshot sample_snapshot.
Proof.
  assert (forall z, - 2 ^ 63 <= z < 2 ^ 63 -> opt_i64 (Some z)) as Hs by (intros z Hz ? [= <-]; exact Hz).
  assert (opt_i64 None) as Hn by (intros ? [=]).
  split.
  - ints Hn Hs.
  - ints Hn Hs.
  - intros d [= <-]. split; [ints Hn Hs|done].
  - intros ln (x & ? & ? & Hx & _). discriminate Hx.
  - intros x e Hx. discriminate Hx.
  - apply Forall_cons. split; [ints Hn Hs|apply Forall_nil; done].
  - intros t Ht. discriminate Ht.
  - unfold in_i32. simpl. lia.
  - apply Hs. simpl. lia.
  - apply Forall_cons. split; [ints Hn Hs|apply Forall_nil; done].
Qed.
Lemma page_round_trip_witness :
  exists p, EncodePage zero_page sample_snapshot = Ok p /\ decodePage p = Ok (page_view sample_snapshot).
Proof.
  destruct (EncodePage zero_page sample_snapshot) as [p|e] eqn:E.
  - exists p. split; [reflexivity|]. apply (page_round_trip zero_page sample_snapshot p E sample_typed).
  - exfalso. vm_compute in E. discriminate E.
Defined.

(** What the reader guarantees of any snapshot it returns, from any bytes. *)
Lemma code_known b name table :
  bad_code b name table "" = None -> read_code b name table "" ∈ "" :: table.
Proof.
  unfold bad_code, read_code, code_value. rewrite failif_None. set (c := read_word b name). cbn [String.eqb].
  rewrite andb_true_r. destruct (Z.eqb_spec c 0); [intros _; left|]. cbn [negb andb]. intros Hc. apply Z.ltb_ge in Hc.
  rewrite (proj2 (Z.leb_le _ _) Hc). destruct (table !! Z.to_nat (c - 1)) as [v|] eqn:E; simpl; [|left].
  right. by eapply list_elem_of_lookup_2.
Qed.

Lemma word_range b off : 0 <= load64 off b < 2 ^ 64.
Proof.
  unfold load64. pose proof (le_word_range (slice off 8 b)) as H.
  assert (length (slice off 8 b) <= 8)%nat as Hl by (unfold slice; rewrite length_take; lia).
  destruct H as [Hlo Hhi]. split; [done|]. eapply Z.lt_le_trans; [exact Hhi|].
  change (2 ^ 64) with (256 ^ 8). apply Z.pow_le_mono_r; lia.
Qed.

Lemma slots_length {A} (n : nat) (read : nat -> list A) :
  (forall i, (length (read i) <= 1)%nat) -> (length (seq 0 n ≫= read) <= n)%nat.
Proof.
  intros Hr. assert (forall k m, (length (seq k m ≫= read) <= m)%nat) as H; [|apply H].
  intros k m. revert k. induction m as [|m IH]; intros k; [done|].
  cbn [seq]. rewrite bind_cons, length_app. specialize (Hr k). specialize (IH (S k)). lia.
Qed.

(** Whatever bytes the reader accepts, the header is one it knows and the
    seq even, the file holds the whole body, and the snapshot has a name of at
    most 253 bytes, at most 8 signals and 3 counter entries, and only known or
    unset structural words. *)
Theorem decodePage_accepts (b : list byte) (s : PageSnapshot) (Hd : decodePage b = Ok s) :
  (take 8 b = bytes_of PageMagic /\ read_u16 b "abiMajor" = PageABIMajor /\ read_u32 b "headerSize" = PageHeaderSize) /\
  pageBodyEnd <= len b /\ load64 (Z.to_nat PageSeqOffset) b mod 2 = 0 /\
  slen (ss_NodeName s) <= MaxPageNodeNameBytes /\ len (ss_Signals s) <= MaxPageSignals /\ len (ss_Counters s) <= MaxPageCounters /\
  ss_Platform s ∈ "" :: pagePlatformCodes /\ ss_Level s ∈ "" :: pageLevelCodes /\
  ss_AdmitReasonSignal s ∈ "" :: signalCodes /\ km_Mode (ss_KillMode s) ∈ "" :: pageKillModeCodes.
Proof.
  unfold decodePage in Hd. apply checked_Ok in Hd as [Hh Hd]. apply checked_Ok in Hd as [Hn Hd].
  apply res_bind_Ok in Hd as (gpu & _ & Hd). apply checked_Ok in Hd as [Hb [= <-]].
  unfold read_header in Hh. rewrite !andthen_None, !failif_None in Hh.
  destruct Hh as (Hl & Hm & Hmaj & Hhs & (Hbs & Hlen) & Hseq).
  apply negb_false_iff, bool_decide_eq_true in Hm. apply negb_false_iff, Z.eqb_eq in Hmaj, Hhs. apply Z.ltb_ge in Hbs, Hlen.
  unfold read_bad in Hb. rewrite !andthen_None in Hb. destruct Hb as (Hp & Hlv & _ & Har & Hkm & _).
  split; [split; [exact Hm|split; [exact Hmaj|exact Hhs]]|]. split; [unfold pageBodySize in Hbs; lia|].
  split. { apply Z.eqb_neq in Hseq. pose proof (Z.mod_pos_bound (load64 (Z.to_nat PageSeqOffset) b) 2). lia. }
  split. { apply failif_None, Z.ltb_ge in Hn. cbn [ss_NodeName read_snapshot]. unfold slen.
    rewrite <- length_bytes_of, bytes_of_string_of. unfold slice. rewrite length_take.
    pose proof (word_range b (Z.to_nat (pageOffset "nodeNameLen"))). unfold read_word in *. lia. }
  split. { unfold len, MaxPageSignals, MaxBudgetSignals. apply (Nat2Z.inj_le _ 8), slots_length. intros i. unfold read_signal. case_match; simpl; lia. }
  split. { unfold len, MaxPageCounters. apply (Nat2Z.inj_le _ 3), slots_length. intros i. unfold read_counters. case_match; simpl; lia. }
  split; [by apply code_known|]. split; [by apply code_known|]. split; by apply code_known.
Qed.
Definition sample_page : list byte := match EncodePage zero_page sample_snapshot with Ok p => p | Err _ => [] end.
Lemma decodePage_accepts_witness :
  exists s, decodePage sample_page = Ok s /\ load64 (Z.to_nat PageSeqOffset) sample_page mod 2 = 0.
Proof.
  destruct (decodePage sample_page) as [s|e] eqn:E.
  - exists s. split; [reflexivity|]. apply (decodePage_accepts sample_page s E).
  - exfalso. vm_compute in E. discriminate E.
Defined.

(** The evict deadline is the one optional time whose field does not check
    the sentinel: a deadline of exactly -2^63 Unix seconds is encoded without
    an error and reads back as no deadline. *)
Theorem deadline_sentinel_unchecked (dst : list byte) (s : PageSnapshot) (t : Time) (p : list byte)
    (Ht : ss_EvictDeadline s = Some t) (Hs : t_unix t = PageAbsent) (Henc : EncodePage dst s = Ok p) :
  read_opt p "evictDeadline" = None.
Proof.
  unfold read_opt, read_i64.
  eassert (i64_field "evictDeadline" _ true _ ∈ body_specs) as H by find_row.
  destruct (word_field s p (encode_holds _ _ _ Henc) _ _ _ _ _ _ _ H eq_refl) as [-> _]. rewrite Ht, Hs. vm_compute. reflexivity.
Qed.
Definition far_snapshot : PageSnapshot :=
  NewPageSnapshot "node-1" 5 (mkObservation (unixTime 1700000000) 3 PlatformDarwin LevelWarn false SignalMemoryAvailable
    (Some (unixTime PageAbsent)) zero_Capacity None zero_Recommendation zero_KillMode None None None None
    (Some (mkDarwin None None None None None)) None).
Lemma deadline_sentinel_unchecked_witness :
  exists p, EncodePage zero_page far_snapshot = Ok p /\ read_opt p "evictDeadline" = None.
Proof.
  destruct (EncodePage zero_page far_snapshot) as [p|e] eqn:E.
  - exists p. split; [reflexivity|]. apply (deadline_sentinel_unchecked zero_page far_snapshot (unixTime PageAbsent) p); [reflexivity|reflexivity|exact E].
  - exfalso. vm_compute in E. discriminate E.
Defined.
