(* ===== verification/BudgetPageAccept.v ===== *)
(** * Every accepted observation can be published
    (src/budget/v1alpha1/page.go: NewPageSnapshot, EncodePage;
    nodebudget.go: NodeBudgetObservation.Validate)

    The page writer refuses a snapshot the page cannot carry.  Here: a snapshot
    taken from an observation [Validate] accepts is never refused. *)
From S2P Require Import Prelude GoLib BudgetVocab BudgetTypes BudgetLadder BudgetPolicy BudgetObservation BudgetPage BudgetPageCodec BudgetPageReader.

Lemma nonneg_carried v : nonneg v -> (i64Word v).2 = true.
Proof.
  intros Hv. destruct v as [z|]; [|done]. simpl. specialize (Hv z eq_refl).
  apply negb_true_iff, Z.eqb_neq. unfold PageAbsent, MinInt64. lia.
Qed.
Lemma permille_nonneg v : in_permille v -> nonneg v.
Proof. intros H z Hz. specialize (H z Hz). lia. Qed.

(** A valid enum value has a code. *)
Lemma code_from_mem table v i : v ∈ table -> is_Some (code_from i table v).
Proof.
  revert i. induction table as [|w table IH]; intros i; [set_solver|]. simpl.
  destruct (String.eqb_spec w v) as [->|Hw]; [eauto|]. intros [->|Hv]%elem_of_cons; [done|auto].
Qed.
Lemma enum_carried (valid : string -> bool) (table : list string) (unknown v : string) :
  (forall w, valid w = true -> w ∈ unknown :: table) -> unset_or valid v -> (pageCode table v unknown).2 = true.
Proof.
  intros Hvalid Hv. unfold pageCode.
  destruct (String.eqb_spec v "") as [->|Hne]; [done|]. destruct Hv as [Hv|Hv]; [done|].
  destruct (String.eqb_spec v unknown) as [->|Hu]; [by rewrite (proj2 (String.eqb_neq _ _))|].
  rewrite andb_false_r. apply Hvalid, elem_of_cons in Hv as [Hv|Hv]; [done|].
  destruct (code_from_mem table v 1 Hv) as [c ->]. done.
Qed.
Ltac valid_in := let w := fresh in let H := fresh in intros w H; apply bool_decide_eq_true in H; set_solver.

Lemma signal_ref_carried v : unset_or SignalID_Valid v -> (signal_ref_code v).2 = true.
Proof. intros [->|Hv]; [done|]. unfold signal_ref_code. cbn [snd]. unfold SignalID_Valid in Hv. by rewrite Hv, orb_true_r. Qed.

Lemma unit_carried g : signal_ok g -> (unit_code g).2 = true.
Proof.
  intros [Hk Hu _ _ _ _ _]. unfold unit_code. rewrite Hu. unfold SignalID_Valid, SignalID_PageCode in Hk.
  destruct (code_from 1 signalCodes (sig_ID g)) as [c|] eqn:Hc; [|done].
  apply code_from_lookup in Hc as [_ Hl]. apply list_elem_of_lookup_2 in Hl.
  unfold signalCodes in Hl. rewrite !elem_of_cons in Hl.
  repeat destruct Hl as [->|Hl]; [vm_compute; reflexivity..|]. set_solver.
Qed.

(** The ladder fields of an accepted signal are not negative. *)
Lemma ladder_nonneg g v : signal_ok g -> v ∈ rungs g ++ releases g -> nonneg v.
Proof.
  intros Hg [Hv|Hv]%elem_of_app; destruct (sok_ladder g Hg) as [Hr Hl _ _ _];
    [rewrite Forall_forall in Hr; by apply Hr|rewrite Forall_forall in Hl; by apply Hl].
Qed.

Section Accepted.
Context (name : string) (period : Z) (o : NodeBudgetObservation) (Hok : observation_ok o).
Abbreviation s := (NewPageSnapshot name period o).

Lemma accepted_check : 1 <= slen name <= MaxPageNodeNameBytes -> 1 <= period -> checkPageSnapshot s = None.
Proof.
  intros Hname Hperiod.
  unfold checkPageSnapshot. rewrite !andthen_None, !failif_None. cbn [NewPageSnapshot ss_NodeName ss_WriterPeriodSeconds
    ss_Platform ss_Level ss_Signals ss_Counters ss_Darwin ss_Linux].
  pose proof (ook_size o Hok) as Hs. pose proof (ook_bands o Hok) as Hb. pose proof (ook_level o Hok) as ->.
  assert (Platform_Valid (obs_Platform o) = true) as ->.
  { apply Platform_Valid_iff. destruct (ook_platform o Hok) as [[? _]|[? _]]; auto. }
  split; [apply Z.ltb_ge; lia|]. split; [apply String.eqb_neq; intros E; pose proof Hname as [H _]; rewrite E in H; done|].
  split; [apply Z.leb_gt; lia|]. split; [done|]. split; [done|]. split; [by apply Z.ltb_ge|].
  split; [apply Z.ltb_ge; unfold len; rewrite length_fmap; exact Hb|].
  destruct (ook_platform o Hok) as [(-> & [d ->] & ->)|(-> & [l ->] & ->)]; done.
Qed.

Lemma capacity_carried : Forall (carries s) specs_capacity /\ Forall (carries s) specs_minor1.
Proof.
  pose proof (cok_nonneg _ (ook_capacity o Hok)) as HF. rewrite !Forall_cons in HF.
  split; repeat (constructor; [first [apply nonneg_carried; simpl; tauto|idtac]|]); try constructor.
  unfold carries. simpl. by destruct (cap_GPUPresent (obs_Capacity o)) as [[]|].
Qed.

Lemma identity_carried : Forall (carries s) specs_header /\ Forall (carries s) specs_identity.
Proof.
  split; [by repeat constructor|].
  repeat (constructor; [first [reflexivity|idtac]|]); try constructor.
  - unfold carries. simpl. by rewrite (ook_at o Hok).
  - apply (enum_carried Platform_Valid); [valid_in|]. right. apply Platform_Valid_iff.
    destruct (ook_platform o Hok) as [[? _]|[? _]]; auto.
Qed.

Lemma darwin_carried : Forall (carries s) specs_darwin.
Proof.
  assert (forall d, obs_Darwin o = Some d -> darwin_ok d) as Hd by apply (ook_darwin o Hok).
  constructor; [apply (enum_carried Level_Valid); [valid_in|right; apply (ook_level o Hok)]|].
  repeat (constructor; [apply nonneg_carried; simpl; unfold compressor_get, darwin_get; simpl;
    destruct (obs_Darwin o) as [d|]; simpl; [|done]; destruct (Hd d eq_refl) as (HF & Hp & Hc); rewrite !Forall_cons in HF;
    first [tauto | by apply permille_nonneg |
           destruct (ds_Compressor d) as [c|]; simpl; [|done]; specialize (Hc c eq_refl); unfold compressor_ok in Hc;
           rewrite !Forall_cons in Hc; tauto]|]).
  constructor.
Qed.

Lemma psi_carried (r : LinuxPSI -> option PSIResource) (l : PSIResource -> option PSILine) (v : PSILine -> option Z) :
  (forall q, r q ∈ [psi_CPU q; psi_Memory q; psi_IO q]) -> (forall q, l q ∈ [psi_Some q; psi_Full q]) ->
  (forall ln, v ln ∈ [psi_Avg10Permille ln; psi_Avg60Permille ln; psi_TotalUs ln]) -> nonneg (psi_get r l v s).
Proof.
  intros Hr Hl Hv. unfold psi_get. cbn [NewPageSnapshot ss_Linux].
  destruct (obs_Linux o) as [x|] eqn:E1; simpl; [|done]. destruct (ook_linux o Hok x E1) as [Hp _].
  destruct (ls_PSI x) as [q|]; simpl; [|done]. specialize (Hr q). destruct (Hp q eq_refl) as (H1 & H2 & H3).
  destruct (r q) as [res|]; simpl; [|done]. specialize (Hl res).
  assert (psi_resource_ok res) as [Ha Hb].
  { rewrite !elem_of_cons in Hr. destruct Hr as [Hr|[Hr|[Hr|Hr]]]; [auto..|set_solver]. }
  destruct (l res) as [ln|]; simpl; [|done].
  assert (psi_line_ok ln) as (Hx & Hy & Hz).
  { rewrite !elem_of_cons in Hl. destruct Hl as [Hl|[Hl|Hl]]; [auto..|set_solver]. }
  specialize (Hv ln). rewrite !elem_of_cons in Hv.
  destruct Hv as [->|[->|[->|Hv]]]; [by apply permille_nonneg..|done|set_solver].
Qed.
Lemma linux_carried : Forall (carries s) specs_psi /\ Forall (carries s) specs_events.
Proof.
  split; repeat (constructor; [apply nonneg_carried|]); try constructor.
  all: try (apply psi_carried; intros; set_solver).
  all: simpl; unfold events_get; cbn [NewPageSnapshot ss_Linux]; destruct (obs_Linux o) as [x|] eqn:E1; simpl; [|done];
    destruct (ook_linux o Hok x E1) as [_ He]; destruct (ls_MemoryEvents x) as [e|]; simpl; [|done];
    specialize (He e eq_refl); unfold events_ok in He; rewrite !Forall_cons in He; tauto.
Qed.

Lemma slot_carried i fname kind enum absent status get :
  (forall g, signal_ok g -> (get g).2 = true) ->
  carries s (field fname kind 0 0 enum absent status
    (Some (fun s => match ss_Signals s !! i with Some g => get g | None => (0, true) end))).
Proof.
  intros Hg. unfold carries. cbn [pf_get field NewPageSnapshot ss_Signals].
  destruct (elems (obs_Signals o) !! i) as [g|] eqn:E; [|done]. apply Hg.
  pose proof (ook_signals o Hok) as HF. by eapply Forall_lookup_1 in HF.
Qed.
Lemma signals_carried i : Forall (carries s) (specs_signal i).
Proof.
  repeat (constructor; [apply slot_carried; intros g Hg|]); try constructor.
  all: try (apply nonneg_carried, (ladder_nonneg g); [done|simpl; set_solver]).
  all: try (apply nonneg_carried; pose proof (sok_nonneg g Hg) as HF; rewrite !Forall_cons in HF; tauto).
  - apply Hg.
  - by apply unit_carried.
  - apply (enum_carried Trend_Valid); [valid_in|apply Hg].
  - apply (enum_carried LimitingResource_Valid); [valid_in|apply Hg].
  - apply signal_ref_carried. destruct (sok_shared g Hg) as [->|[? _]]; [by left|by right].
Qed.

Lemma action_carried : Forall (carries s) specs_action /\ Forall (carries s) specs_recommendation.
Proof.
  assert (unset_or KillModeName_Valid (km_Mode (obs_KillMode o)) /\ 0 <= km_ArmingEpisodes (obs_KillMode o) /\
          unset_or KillModeReason_Valid (km_Reason (obs_KillMode o))) as (Hm & He & Hr).
  { destruct (ook_killmode o Hok) as [->|[? ? ?]]; split_and!; try done; [by left..|by right]. }
  split; repeat (constructor; [first [reflexivity|idtac]|]); try constructor.
  - apply signal_ref_carried. simpl. destruct (ook_admit o Hok) as [->|[? _]]; [by left|by right].
  - unfold carries. simpl. destruct (obs_EvictDeadline o) as [t|] eqn:E; [|done]. simpl. by rewrite (ook_deadline o Hok t E).
  - by apply (enum_carried KillModeName_Valid); [valid_in|].
  - unfold carries. simpl. by apply Z.leb_le.
  - by apply (enum_carried KillModeReason_Valid); [valid_in|].
  - apply nonneg_carried, (ook_safe o Hok).
  - apply signal_ref_carried, (ook_basis o Hok).
Qed.

Lemma counters_carried i : Forall (carries s) (specs_counter i).
Proof.
  assert (forall c, ss_Counters s !! i = Some c -> Band_Valid (pc_Band c) = true /\ Forall (fun z => 0 <= z) (counter_ints c)) as Hc.
  { intros c Hc. cbn [NewPageSnapshot ss_Counters] in Hc. rewrite list_lookup_fmap in Hc.
    destruct (elems (obs_Counters o) !! i) as [b|] eqn:E; [|done]. injection Hc as <-.
    pose proof (ook_counters o Hok) as HF. eapply Forall_lookup_1 in HF; [|exact E]. destruct HF as [Hb Ht _ _ _].
    split; [done|]. unfold BandCounters_totals in Ht. rewrite !Forall_cons in Ht. simpl in Ht.
    unfold counter_ints. rewrite !Forall_cons, Forall_nil. simpl. tauto. }
  repeat (constructor; [unfold carries; cbn [pf_get code_field i64_field field];
    destruct (ss_Counters s !! i) as [c|]; [destruct (Hc c eq_refl) as [Hb Ht]|done]|]); try constructor.
  all: try (unfold counter_ints in Ht; rewrite !Forall_cons in Ht; apply Z.leb_le; simpl; tauto).
  apply bool_decide_eq_true in Hb. rewrite !elem_of_cons in Hb.
  destruct Hb as [->|[->|[->|Hb]]]; [done..|set_solver].
Qed.
End Accepted.

(** ** Theorems *)

(** C16: an observation [Validate] accepts, published under a node name of 1 to
    253 bytes and a period of at least a second, is never refused by the page
    encoder. *)
Theorem accepted_observation_encodes (dst : list byte) (name : string) (period : Z) (o : NodeBudgetObservation)
    (Hdst : PageSize <= len dst) (Hname : 1 <= slen name <= MaxPageNodeNameBytes) (Hperiod : 1 <= period)
    (Hv : NodeBudgetObservation_Validate o = None) :
  exists p, EncodePage dst (NewPageSnapshot name period o) = Ok p.
Proof.
  apply observation_validate_iff in Hv. apply EncodePage_succeeds. split; [exact Hdst|].
  split; [by apply accepted_check|].
  destruct (capacity_carried name period o Hv), (identity_carried name period o Hv),
    (linux_carried name period o Hv), (action_carried name period o Hv).
  apply specs_carried; auto using signals_carried, counters_carried, darwin_carried.
Qed.
Lemma accepted_observation_encodes_witness :
  exists p, EncodePage zero_page (NewPageSnapshot "node-1" 5 sample_observation) = Ok p.
Proof.
  apply (accepted_observation_encodes zero_page "node-1" 5 sample_observation).
  - vm_compute. discriminate.
  - vm_compute. split; discriminate.
  - vm_compute. discriminate.
  - vm_compute. reflexivity.
Defined.
