(* ===== verification/BudgetPageCarry.v ===== *)
(** * What a page can carry
    (src/budget/v1alpha1/page.go: EncodePage, checkPageSnapshot)

    The snapshots a page has room and codes for, described on the snapshot
    itself: a name and counts within the page's limits, words of the published
    vocabularies, counts that are not negative and numbers other than the
    sentinel of an absent one.  [EncodePage] accepts exactly these. *)
From S2P Require Import Prelude GoLib BudgetVocab BudgetTypes BudgetLadder BudgetPolicy BudgetObservation BudgetPage BudgetPageCodec BudgetPageReader BudgetPageAccept.

(** ** Snapshots the page can carry *)
(** A number the page can tell apart from an absent one. *)
Definition fits (v : option Z) : Prop := v <> Some (- 2 ^ 63).
(** A time that was set. *)
Definition set_time (t : Time) : Prop := Time_IsZero t = false.
Definition signal_ref (v : SignalID) : Prop := v = "" \/ v ∈ Signals.

Record signal_fits (g : BudgetSignal) : Prop := {
  sf_id : sig_ID g ∈ Signals;
  sf_unit : sig_Unit g = SignalID_Unit (sig_ID g);
  sf_values : Forall fits [sig_Value g; sig_WarnThreshold g; sig_AdmitStopThreshold g; sig_CriticalThreshold g;
    sig_EvictSoftThreshold g; sig_EvictHardThreshold g; sig_WarnRelease g; sig_AdmitStopRelease g; sig_CriticalRelease g;
    sig_EvictSoftRelease g; sig_EvictHardRelease g; sig_GraceSeconds g; sig_MinReclaimBytes g; sig_WindowSeconds g;
    sig_EtaToNextRungSeconds g];
  sf_trend : sig_Trend g ∈ [""; TrendUnknown; TrendFalling; TrendSteady; TrendRising];
  sf_resource : sig_LimitingResource g ∈ [""; ResourceUnknown; ResourceMemory; ResourceSwapfs; ResourceNodefs; ResourceImagefs;
    ResourcePID; ResourceCPU];
  sf_shared : signal_ref (sig_SharedWith g) }.
Record counters_fit (c : PageBandCounters) : Prop := {
  cf_band : pc_Band c ∈ [BandCritical; BandStandard; BandBatch];
  cf_totals : Forall (fun z => 0 <= z) [pc_EvictionsTotal c; pc_OOMKillsTotal c; pc_KernelKillsTotal c; pc_RestartsTotal c;
    pc_MemHighEventsTotal c; pc_Tier1RefusedTotal c] }.
Definition capacity_fits (c : BudgetCapacity) : Prop :=
  Forall fits [cap_CPUCapacityMilli c; cap_CPUSystemReserveMilli c; cap_MemCapacityBytes c; cap_MemSystemReserveBytes c;
    cap_MemEvictionReserveBytes c; cap_MemAllocatableBytes c; cap_SwapTotalBytes c; cap_SwapUsedBytes c;
    cap_CPUPerformanceCores c; cap_CPUEfficiencyCores c; cap_GPUCount c].
Definition darwin_fits (d : DarwinSignals) : Prop :=
  Forall fits [ds_VMPressureLevel d; ds_MemorystatusLevelPermille d; ds_SwapinsTotal d; ds_SwapoutsTotal d] /\
  (forall c, ds_Compressor d = Some c -> Forall fits [dc_BytesUsed c; dc_BytesStored c; dc_SegmentLimitBytes c]).
Definition psi_line_fits (l : PSILine) : Prop := Forall fits [psi_Avg10Permille l; psi_Avg60Permille l; psi_TotalUs l].
Definition psi_resource_fits (r : PSIResource) : Prop :=
  (forall l, psi_Some r = Some l -> psi_line_fits l) /\ (forall l, psi_Full r = Some l -> psi_line_fits l).
Definition linux_fits (x : LinuxSignals) : Prop :=
  (forall p, ls_PSI x = Some p -> forall r, Some r ∈ [psi_CPU p; psi_Memory p; psi_IO p] -> psi_resource_fits r) /\
  (forall e, ls_MemoryEvents x = Some e -> Forall fits [ev_High e; ev_Max e; ev_OOM e; ev_OOMKill e]).

Record carriable (s : PageSnapshot) : Prop := {
  cr_name : 1 <= slen (ss_NodeName s) <= 253;
  cr_period : 1 <= ss_WriterPeriodSeconds s;
  cr_observed : set_time (ss_ObservedAt s);
  cr_level : ss_Level s ∈ [LevelOK; LevelWarn; LevelCritical; LevelEvicting];
  cr_platform : ss_Platform s = PlatformDarwin /\ is_Some (ss_Darwin s) \/
    ss_Platform s = PlatformLinux /\ is_Some (ss_Linux s) /\ ss_Darwin s = None;
  cr_capacity : capacity_fits (ss_Capacity s);
  cr_darwin : forall d, ss_Darwin s = Some d -> darwin_fits d;
  cr_linux : forall x, ss_Linux s = Some x -> linux_fits x;
  cr_signals : len (ss_Signals s) <= MaxPageSignals /\ Forall signal_fits (ss_Signals s);
  cr_admit : signal_ref (ss_AdmitReasonSignal s);
  cr_deadline : forall t, ss_EvictDeadline s = Some t -> set_time t;
  cr_kill : km_Mode (ss_KillMode s) ∈ [""; KillModeAuto; KillModeOn; KillModeOff] /\ 0 <= km_ArmingEpisodes (ss_KillMode s) /\
    km_Reason (ss_KillMode s) ∈ [""; KillReasonUnknown; KillReasonColdStart; KillReasonObserving; KillReasonArmed;
      KillReasonPolicyOff; KillReasonDisarmFile];
  cr_recommendation : fits (rec_SafeAdditionalBytes (ss_Recommendation s)) /\ signal_ref (rec_Basis (ss_Recommendation s));
  cr_counters : len (ss_Counters s) <= 3 /\ Forall counters_fit (ss_Counters s) }.

(** ** Words *)
Lemma i64Word_fits v : (i64Word v).2 = true <-> fits v.
Proof.
  unfold i64Word, fits. destruct v as [z|]; cbn [snd]; [|done]. rewrite negb_true_iff, Z.eqb_neq. change PageAbsent with (- 2 ^ 63).
  split; congruence.
Qed.
Lemma pageCode_fits table v unknown : (pageCode table v unknown).2 = true <-> v ∈ "" :: unknown :: table.
Proof.
  unfold pageCode. rewrite !elem_of_cons. destruct (String.eqb_spec v "") as [->|Hv]; cbn [orb]; [naive_solver|].
  destruct (String.eqb_spec v unknown) as [->|Hu].
  - rewrite (proj2 (String.eqb_neq _ _) Hv). cbn. naive_solver.
  - rewrite andb_false_r. destruct (code_from 1 table v) as [c|] eqn:E; cbn [snd].
    + apply code_from_lookup in E as [_ E%list_elem_of_lookup_2]. tauto.
    + split; [done|]. intros [?|[?|Hin]]; [done..|]. destruct (code_from_mem table v 1 Hin) as [? ?]. congruence.
Qed.
Lemma signal_code_fits v : negb (SignalID_PageCode v =? 0) = true <-> v ∈ Signals.
Proof. apply signal_cases. Qed.
Lemma signal_ref_fits v : (signal_ref_code v).2 = true <-> signal_ref v.
Proof. unfold signal_ref_code, signal_ref. cbn [snd]. by rewrite orb_true_iff, String.eqb_eq, signal_code_fits. Qed.
Lemma unit_has_code i : i ∈ Signals -> (let '(c, ok) := pageCode pageUnitCodes (SignalID_Unit i) "" in ok && negb (c =? 0)) = true.
Proof. unfold Signals, signalCodes. rewrite !elem_of_cons, elem_of_nil. intros H. repeat destruct H as [->|H]; [reflexivity..|done]. Qed.
Lemma unit_fits g : sig_ID g ∈ Signals -> (unit_code g).2 = true <-> sig_Unit g = SignalID_Unit (sig_ID g).
Proof.
  intros Hi. unfold unit_code. pose proof (unit_has_code _ Hi) as Hu.
  split; [destruct (pageCode pageUnitCodes (sig_Unit g) ""); cbn [snd]; by intros [_ H%String.eqb_eq]%andb_true_iff|].
  intros ->. destruct (pageCode pageUnitCodes _ _) as [c ok]. cbn [snd]. by rewrite Hu, String.eqb_refl.
Qed.
Lemma band_fits v : (let '(c, ok) := pageCode pageBandCodes v "" in (c, ok && negb (c =? 0))).2 = true <->
  v ∈ [BandCritical; BandStandard; BandBatch].
Proof.
  pose proof (pageCode_fits pageBandCodes v "") as Hp. destruct (decide (v = "")) as [E|Hv].
  - rewrite E. split; [discriminate|]. rewrite !elem_of_cons, elem_of_nil. intros H. repeat destruct H as [H|H]; discriminate || done.
  - unfold pageCode in *. rewrite (proj2 (String.eqb_neq _ _) Hv) in *. cbn [orb String.eqb negb andb] in *.
    destruct (code_from 1 pageBandCodes v) as [c|] eqn:E; cbn [snd] in *.
    + apply code_from_lookup in E as [? E]. rewrite (proj2 (Z.eqb_neq c 0)) by lia. split; [intros _|done]. by apply list_elem_of_lookup_2 in E.
    + split; [done|]. intros Hin. apply Hp. by do 2 right.
Qed.

(** ** The fields, group by group *)
Section Groups.
Context (s : PageSnapshot).
Lemma carries_opt name status get : carries s (opt_field name status get) <-> fits (get s).
Proof. apply i64Word_fits. Qed.
Lemma carries_code name status enum get : carries s (code_field name status enum get) <-> (get s).2 = true.
Proof. reflexivity. Qed.
Lemma carries_i64 name status absent get : carries s (i64_field name status absent get) <-> (get s).2 = true.
Proof. reflexivity. Qed.

Lemma header_carries : Forall (carries s) specs_header.
Proof. by repeat constructor. Qed.
Lemma identity_carries : Forall (carries s) specs_identity <-> set_time (ss_ObservedAt s) /\ ss_Platform s ∈ [""; ""; PlatformDarwin; PlatformLinux].
Proof.
  unfold specs_identity. rewrite !Forall_cons, Forall_nil, !carries_i64, carries_code, pageCode_fits. cbn [snd]. unfold set_time.
  rewrite negb_true_iff. split; [tauto|]. intros [? ?]. by split_and!.
Qed.
Lemma capacity_carries : Forall (carries s) specs_capacity /\ Forall (carries s) specs_minor1 <-> capacity_fits (ss_Capacity s).
Proof.
  unfold specs_capacity, specs_minor1, capacity_fits. rewrite Forall_fmap, !Forall_cons, !Forall_nil. unfold compose. cbn [fst snd].
  rewrite !carries_opt. assert (carries s (field "capacity.gpuPresent" kindI64 0 0 "bool" true "status.capacity.gpuPresent"
    (Some (fun s => match cap_GPUPresent (ss_Capacity s) with None => (pageAbsentWord, true) | Some b => boolWord b end)))) as Hg.
  { unfold carries. cbn. by destruct (cap_GPUPresent _) as [[]|]. }
  tauto.
Qed.
Lemma some_fits {A} (o : option A) (get : A -> option Z) : fits (o ≫= get) <-> forall a, o = Some a -> fits (get a).
Proof. destruct o as [a|]; cbn; [naive_solver|]. split; [done|]. intros _. discriminate. Qed.
Lemma darwin_carries : Forall (carries s) specs_darwin <->
  ss_Level s ∈ [""; ""; LevelOK; LevelWarn; LevelCritical; LevelEvicting] /\ (forall d, ss_Darwin s = Some d -> darwin_fits d).
Proof.
  unfold specs_darwin, darwin_fits. rewrite Forall_cons, carries_code, pageCode_fits, Forall_fmap, !Forall_cons, Forall_nil. unfold compose. cbn [fst snd].
  rewrite !carries_opt. unfold compressor_get, darwin_get. rewrite !some_fits.
  destruct (ss_Darwin s) as [d|]; [|naive_solver]. split.
  - intros (Hl & H). split; [done|]. intros d' [= <-]. destruct H as (H1 & H2 & H3 & H4 & H5 & H6 & H7 & _).
    split; [repeat constructor; auto|]. intros c Hc. specialize (H3 d eq_refl). specialize (H4 d eq_refl). specialize (H5 d eq_refl).
    rewrite some_fits in H3, H4, H5. repeat constructor; auto.
  - intros [Hl H]. destruct (H d eq_refl) as [HF Hc]. rewrite !Forall_cons in HF. split; [done|].
    split_and!; try (intros d' [= <-]); try tauto; try constructor; rewrite some_fits; intros c Hcc; specialize (Hc c Hcc); rewrite !Forall_cons in Hc; tauto.
Qed.
Lemma psi_fits r l :
  fits (psi_get r l psi_Avg10Permille s) /\ fits (psi_get r l psi_Avg60Permille s) /\ fits (psi_get r l psi_TotalUs s) <->
  forall x p res ln, ss_Linux s = Some x -> ls_PSI x = Some p -> r p = Some res -> l res = Some ln -> psi_line_fits ln.
Proof.
  unfold psi_get, psi_line_fits. setoid_rewrite some_fits. setoid_rewrite some_fits. setoid_rewrite some_fits. setoid_rewrite some_fits.
  setoid_rewrite Forall_cons. setoid_rewrite Forall_cons. setoid_rewrite Forall_cons. setoid_rewrite Forall_nil. naive_solver.
Qed.
Definition psi_all (r : LinuxPSI -> option PSIResource) (l : PSIResource -> option PSILine) : Prop :=
  forall x p res ln, ss_Linux s = Some x -> ls_PSI x = Some p -> r p = Some res -> l res = Some ln -> psi_line_fits ln.
Lemma psi_carries : Forall (carries s) specs_psi <->
  forall x p r, ss_Linux s = Some x -> ls_PSI x = Some p -> Some r ∈ [psi_CPU p; psi_Memory p; psi_IO p] -> psi_resource_fits r.
Proof.
  transitivity ((psi_all psi_CPU psi_Some /\ psi_all psi_CPU psi_Full) /\ (psi_all psi_Memory psi_Some /\ psi_all psi_Memory psi_Full) /\
    (psi_all psi_IO psi_Some /\ psi_all psi_IO psi_Full)).
  - unfold psi_all. rewrite <- !psi_fits. unfold specs_psi. cbn [mbind list_bind app fst snd]. rewrite !Forall_cons, !Forall_nil, !carries_opt. tauto.
  - unfold psi_all, psi_resource_fits. split.
    + intros ([] & [] & []) x p r Hx Hp Hr. rewrite !elem_of_cons, elem_of_nil in Hr.
      split; intros l Hl; destruct Hr as [Hr|[Hr|[Hr|[]]]]; eauto.
    + intros H; split_and!; intros x p res ln Hx Hp Hr Hl; (destruct (H x p res Hx Hp) as [Hs Hf]; [rewrite Hr, !elem_of_cons; tauto|auto]).
Qed.
Lemma linux_carries : Forall (carries s) specs_psi /\ Forall (carries s) specs_events <-> (forall x, ss_Linux s = Some x -> linux_fits x).
Proof.
  rewrite psi_carries. unfold specs_events, linux_fits. rewrite Forall_fmap, !Forall_cons, !Forall_nil. unfold compose. cbn [fst snd].
  rewrite !carries_opt. unfold events_get. rewrite !some_fits. setoid_rewrite some_fits.
  setoid_rewrite Forall_cons. setoid_rewrite Forall_cons. setoid_rewrite Forall_cons. setoid_rewrite Forall_cons. setoid_rewrite Forall_nil.
  split; [intros (Hp & H1 & H2 & H3 & H4 & _) x Hx; split; [eauto|intros e He; split_and!; eauto]|].
  intros H. split; [intros x p r Hx Hp Hr; exact (proj1 (H x Hx) p Hp r Hr)|].
  split_and!; try exact I; intros x Hx e He; destruct (H x Hx) as [_ Hev]; specialize (Hev e He); tauto.
Qed.

Lemma slot_carries i name enum get : carries s (slot_code i name enum get) <-> (forall g, ss_Signals s !! i = Some g -> (get g).2 = true).
Proof. unfold slot_code. rewrite carries_code. destruct (ss_Signals s !! i); naive_solver. Qed.
Lemma slot_opt_carries i name get : carries s (slot_i64 i name get) <-> (forall g, ss_Signals s !! i = Some g -> fits (get g)).
Proof. unfold slot_i64. rewrite carries_i64. destruct (ss_Signals s !! i); [rewrite i64Word_fits|]; naive_solver. Qed.
Lemma signal_carries i : Forall (carries s) (specs_signal i) <-> (forall g, ss_Signals s !! i = Some g -> signal_fits g).
Proof.
  unfold specs_signal. rewrite !Forall_cons, Forall_nil, !slot_carries, !slot_opt_carries. cbn [snd].
  destruct (ss_Signals s !! i) as [g|]; [|naive_solver]. split.
  - intros H g' [= <-]. destruct_and! H. repeat match goal with H : forall g0, Some g = Some g0 -> _ |- _ => specialize (H g eq_refl) end.
    assert (sig_ID g ∈ Signals) as Hid by (by apply signal_code_fits).
    split; [done|by apply unit_fits|repeat (constructor; [done|]); constructor|by apply pageCode_fits|by apply pageCode_fits|by apply signal_ref_fits].
  - intros H. destruct (H g eq_refl) as [Hid Hu Hv Ht Hr Hs]. rewrite !Forall_cons in Hv.
    split_and!; try done; intros g' [= <-]; try tauto; [by apply signal_code_fits|by apply unit_fits|by apply pageCode_fits|by apply pageCode_fits|by apply signal_ref_fits].
Qed.
Lemma counter_carries i : Forall (carries s) (specs_counter i) <-> (forall c, ss_Counters s !! i = Some c -> counters_fit c).
Proof.
  unfold specs_counter. rewrite Forall_cons, carries_code, Forall_fmap, !Forall_cons, Forall_nil. unfold compose. rewrite !carries_i64. cbn [fst snd].
  destruct (ss_Counters s !! i) as [c|]; [|naive_solver]. rewrite band_fits. cbn [snd]. rewrite !Z.leb_le. split.
  - intros H c' [= <-]. destruct_and! H. split; [done|]. by repeat constructor.
  - intros H. destruct (H c eq_refl) as [Hb Ht]. rewrite !Forall_cons in Ht. tauto.
Qed.
Lemma action_carries : Forall (carries s) specs_action /\ Forall (carries s) specs_recommendation <->
  signal_ref (ss_AdmitReasonSignal s) /\ (forall t, ss_EvictDeadline s = Some t -> set_time t) /\
  (km_Mode (ss_KillMode s) ∈ "" :: "" :: pageKillModeCodes /\ 0 <= km_ArmingEpisodes (ss_KillMode s) /\
   km_Reason (ss_KillMode s) ∈ "" :: KillReasonUnknown :: pageKillModeReasonCodes) /\
  fits (rec_SafeAdditionalBytes (ss_Recommendation s)) /\ signal_ref (rec_Basis (ss_Recommendation s)).
Proof.
  unfold specs_action, specs_recommendation. rewrite !Forall_cons, !Forall_nil, carries_opt, !carries_code, !carries_i64, !signal_ref_fits, !pageCode_fits.
  cbn [snd]. rewrite Z.leb_le. unfold set_time.
  assert ((match ss_EvictDeadline s with None => (pageAbsentWord, true) | Some t => (u64 (t_unix t), negb (Time_IsZero t)) end).2 = true <->
    (forall t, ss_EvictDeadline s = Some t -> Time_IsZero t = false)) as ->.
  { destruct (ss_EvictDeadline s) as [t|]; cbn [snd]; [rewrite negb_true_iff|]; naive_solver. }
  assert (carries s (field "admit" kindU64 0 0 "bool" false "status.admit" (Some (fun s => boolWord (ss_Admit s))))) as Ha by reflexivity.
  assert (carries s (field "killMode.armed" kindU64 0 0 "bool" false "status.killMode.armed" (Some (fun s => boolWord (km_Armed (ss_KillMode s)))))) as Hk by reflexivity.
  tauto.
Qed.
End Groups.

(** ** The snapshot *)
Lemma checkPageSnapshot_iff s : checkPageSnapshot s = None <->
  1 <= slen (ss_NodeName s) <= 253 /\ 1 <= ss_WriterPeriodSeconds s /\ ss_Level s ∈ [LevelOK; LevelWarn; LevelCritical; LevelEvicting] /\
  (ss_Platform s = PlatformDarwin /\ is_Some (ss_Darwin s) \/ ss_Platform s = PlatformLinux /\ is_Some (ss_Linux s) /\ ss_Darwin s = None) /\
  len (ss_Signals s) <= MaxPageSignals /\ len (ss_Counters s) <= 3.
Proof.
  unfold checkPageSnapshot. rewrite !andthen_None, !failif_None, !negb_false_iff, !Z.ltb_ge, Z.leb_gt, String.eqb_neq.
  rewrite !andb_false_iff, orb_false_iff, !bool_decide_eq_false, !String.eqb_neq. unfold Platform_Valid, Level_Valid, oneOf. rewrite !bool_decide_eq_true.
  assert (ss_NodeName s <> "" <-> 1 <= slen (ss_NodeName s)) as ->.
  { unfold slen. destruct (ss_NodeName s); cbn [String.length]; split; done || lia. }
  assert (ss_Platform s ∈ [PlatformDarwin; PlatformLinux] <-> ss_Platform s = PlatformDarwin \/ ss_Platform s = PlatformLinux) as ->.
  { rewrite !elem_of_cons, elem_of_nil. tauto. }
  assert (forall A (o : option A), ~ ~ is_Some o <-> is_Some o) as Hdn by (intros A [a|]; split; naive_solver).
  assert (~ is_Some (ss_Darwin s) <-> ss_Darwin s = None) as -> by (destruct (ss_Darwin s); naive_solver).
  assert (is_Some (ss_Darwin s) <-> ss_Darwin s <> None) as Hs by (destruct (ss_Darwin s); naive_solver).
  rewrite !Hdn. rewrite Hs. unfold MaxPageNodeNameBytes, MaxPageCounters.
  assert (PlatformDarwin <> PlatformLinux) as Hne by done. split.
  - intros (? & ? & ? & Hp & ? & ? & ? & Hd & Hl). split_and!; try (done || lia). destruct Hp as [E|E]; rewrite E in *; naive_solver.
  - intros (? & ? & ? & Hp & ? & ?). destruct Hp as [(E & ?)|(E & ? & ?)]; rewrite E in *; split_and!; try (done || lia); naive_solver.
Qed.
Lemma slots_all {A} (P : A -> Prop) (l : list A) n : len l <= Z.of_nat n ->
  Forall P l <-> forall i, i ∈ seq 0 n -> forall a, l !! i = Some a -> P a.
Proof.
  intros Hl. rewrite Forall_lookup. split; [eauto|]. intros H i a Hi. apply (H i); [|done].
  apply lookup_lt_Some in Hi as Hlt. apply elem_of_seq. unfold len in Hl. lia.
Qed.
Lemma specs_carries s : Forall (carries s) pageFieldSpecs <->
  (Forall (carries s) specs_identity /\ (Forall (carries s) specs_capacity /\ Forall (carries s) specs_minor1)) /\
  (Forall (carries s) specs_darwin /\ (Forall (carries s) specs_psi /\ Forall (carries s) specs_events)) /\
  (forall i, i ∈ seq 0 (Z.to_nat MaxPageSignals) -> forall g, ss_Signals s !! i = Some g -> signal_fits g) /\
  (Forall (carries s) specs_action /\ Forall (carries s) specs_recommendation) /\
  (forall i, i ∈ seq 0 (Z.to_nat MaxPageCounters) -> forall c, ss_Counters s !! i = Some c -> counters_fit c).
Proof.
  with_strategy transparent [pageFieldSpecs] unfold pageFieldSpecs. unfold specs_minor0. rewrite !Forall_app, !Forall_bind.
  rewrite (Forall_forall _ (seq 0 (Z.to_nat MaxPageSignals))), (Forall_forall _ (seq 0 (Z.to_nat MaxPageCounters))).
  setoid_rewrite (signal_carries s). setoid_rewrite (counter_carries s). pose proof (header_carries s). tauto.
Qed.
Lemma carriable_iff s : checkPageSnapshot s = None /\ Forall (carries s) pageFieldSpecs <-> carriable s.
Proof.
  rewrite specs_carries, checkPageSnapshot_iff, identity_carries, capacity_carries, darwin_carries, linux_carries, action_carries.
  pose proof (slots_all signal_fits (ss_Signals s) (Z.to_nat MaxPageSignals)) as Hsg.
  pose proof (slots_all counters_fit (ss_Counters s) (Z.to_nat MaxPageCounters)) as Hct. split.
  - intros ((Hn & Hp & Hl & Hpl & Hs & Hc) & ((Ht & _) & Hcap) & ((_ & Hd) & Hx) & Hsig & (Ha & Hdl & Hk & Hr) & Hcnt).
    split; try done; [split; [done|by apply (Hsg Hs)]| |split; [done|by apply (Hct Hc)]].
    destruct Hk as [[->|Hm]%elem_of_cons Hk]; (split; [|done]); [left|exact Hm].
  - intros [Hn Hp Ht Hl Hpl Hcap Hd Hx [Hs Hsig] Ha Hdl Hk Hr [Hc Hcnt]]. split_and!; try done; try tauto.
    + destruct Hpl as [[-> _]|(-> & _)]; [by do 2 right; left|by do 3 right; left].
    + by do 2 right.
    + right. apply Hk.
Qed.

Lemma long_name_refused dst s e : PageSize <= len dst -> 253 < slen (ss_NodeName s) -> EncodePage dst s = Err e ->
  errors_is e ErrPageNodeNameTooLong = true.
Proof.
  intros Hd Hn. unfold EncodePage. rewrite (proj2 (Z.ltb_ge _ _) Hd). cbn [failif checked]. unfold checkPageSnapshot.
  rewrite (proj2 (Z.ltb_lt _ _) (Hn : MaxPageNodeNameBytes < _)). cbn [failif andthen checked]. by intros [= <-].
Qed.

(** C17: [EncodePage] writes exactly the snapshots a page can carry, into a
    buffer that can hold a page: a node name of 1 to 253 bytes, a period of at
    least a second, a level and platform of the vocabulary with the platform's
    signals, no more signals and counters than there are slots, words of the
    vocabularies, counts that are not negative and numbers other than the
    absent one's sentinel.  Otherwise it refuses with the sentinel of its case:
    a short buffer, or an invalid snapshot, too long names having their own. *)
Theorem EncodePage_total dst s :
  match EncodePage dst s with
  | Ok _ => PageSize <= len dst /\ carriable s
  | Err e => if len dst <? PageSize then errors_is e ErrPageBuffer = true
             else errors_is e ErrInvalidPageSnapshot = true /\ ~ carriable s /\
               (253 < slen (ss_NodeName s) -> errors_is e ErrPageNodeNameTooLong = true)
  end.
Proof.
  pose proof (EncodePage_succeeds dst s) as Hok. rewrite carriable_iff in Hok. destruct (EncodePage dst s) as [p|e] eqn:E.
  - apply Hok. by exists p.
  - destruct (Z.ltb_spec (len dst) PageSize) as [Hs|Hs].
    + unfold EncodePage in E. rewrite (proj2 (Z.ltb_lt _ _) Hs) in E. by injection E as <-.
    + split_and!; [by apply (EncodePage_refuses dst s)| |intros; by apply (long_name_refused dst s)].
      intros Hc. destruct (proj2 Hok (conj Hs Hc)) as [p Hp]. done.
Qed.
