(* ===== verification/BudgetPageWriter.v ===== *)
(** * The page writer and the seqlock (src/budget/v1alpha1/page.go)

    The page is shared memory: a list of bytes the writer changes by atomic
    8-byte stores and readers observe between any two of them.  [Resume] and
    [Publish] return the stores they make, in order, beside the writer's new
    state; [mem_states] lists every memory a reader may observe. *)
From S2P Require Import Prelude GoLib BudgetVocab BudgetTypes BudgetLadder BudgetPolicy BudgetObservation BudgetPage BudgetPageCodec BudgetPageReader.

(** ** The notify key *)
Record pageNotifyKey := mkNotifyKey {
  nk_level : Level;
  nk_admit : bool;
  nk_generation : Z;
  nk_ladder : list (list Z);
}.
#[global] Instance pageNotifyKey_eq_dec : EqDecision pageNotifyKey.
Proof. unfold Level; solve_decision. Defined.

Definition zero_key : pageNotifyKey := mkNotifyKey "" false 0 (replicate 8 (replicate 10 0)).

Definition ladder_row (s : PageSnapshot) (i : nat) : list Z :=
  match ss_Signals s !! i with
  | None => replicate 10 PageAbsent
  | Some g => default PageAbsent <$> (rungs g ++ releases g)
  end.
Definition notifyKeyOf (s : PageSnapshot) : pageNotifyKey :=
  mkNotifyKey (ss_Level s) (ss_Admit s) (ss_Generation s) (ladder_row s <$> seq 0 (Z.to_nat MaxPageSignals)).

Definition PageNotifyDue (prev : option PageSnapshot) (next : PageSnapshot) : bool :=
  match prev with
  | None => true
  | Some prev => negb (bool_decide (notifyKeyOf prev = notifyKeyOf next))
  end.

(** ** The writer *)
Record PageWriter := mkPageWriter {
  pw_seq : Z;
  pw_epoch : Z;
  pw_resumed : bool;
  pw_last : pageNotifyKey;
  pw_hasLast : bool;
}.

Definition new_writer : PageWriter := mkPageWriter 0 0 false zero_key false.

(** The mapping is its bytes and its address; the host's byte order is read
    from memory in the code. *)
Definition NewPageWriter (page : list byte) (addr : Z) (little_endian : bool) : res PageWriter :=
  failif (len page <? PageSize)
    (ErrorfW "%w: %d bytes, want at least %d" [ArgZ (len page); ArgZ PageSize] (ErrNew ErrPageBuffer)) ;!
  failif (negb (addr mod 8 =? 0)) (ErrorfW "%w: the mapping is not 8-byte aligned" [] (ErrNew ErrPageBuffer)) ;!
  failif (negb little_endian) (ErrorfW "%w: the host is not little-endian" [] (ErrNew ErrPageBuffer)) ;!
  Ok new_writer.

(** ** Stores *)
Definition store : Type := nat * Z.
Definition apply_store (m : list byte) (st : store) : list byte := store64 st.1 st.2 m.
Definition run_stores (m : list byte) (sts : list store) : list byte := foldl apply_store m sts.
(** Every memory between two stores, the first and the last included. *)
Fixpoint mem_states (m : list byte) (sts : list store) : list (list byte) :=
  m :: match sts with [] => [] | st :: sts' => mem_states (apply_store m st) sts' end.

(** ** Resume *)
Definition header_snapshot : PageSnapshot :=
  mkSnapshot 0 1 "-" (unixTime 1) PlatformLinux zero_Capacity LevelOK None (Some (mkLinux None None)) [] false "" None
    zero_KillMode zero_Recommendation [].
Definition encodeHeader (dst : list byte) : res (list byte) := EncodePage dst header_snapshot.

(** The page holds this ABI major. *)
Definition holds_major (m : list byte) : bool :=
  bool_decide (take 8 m = bytes_of PageMagic) &&
  (read_u16 m "abiMajor" =? PageABIMajor) && (read_u32 m "headerSize" =? PageHeaderSize).

(** The word offset of a field: [pageOffset(name) &^ 7]. *)
Definition word_off (name : string) : nat := Z.to_nat (pageOffset name / 8 * 8).

(** The offsets 56, 48, ..., 8 but the minor's and the size's words. *)
Definition plain_words : list nat :=
  filter (fun off => off <> word_off "abiMinor" /\ off <> word_off "bodySize") (reverse (Nat.mul 8 <$> seq 1 7)).
Definition header_order (shrinks : bool) : list nat :=
  plain_words ++ (if shrinks then [word_off "abiMinor"; word_off "bodySize"] else [word_off "bodySize"; word_off "abiMinor"]) ++ [0%nat].

Definition Resume (w : PageWriter) (m : list byte) : res (PageWriter * list store) :=
  let major := holds_major m in
  let shrinks := major && (pageBodySize <? read_u32 m "bodySize") in
  let sq := if major then load64 (Z.to_nat PageSeqOffset) m else 0 in
  let epoch := if major then load64 (Z.to_nat PageNotifyEpochOffset) m else 0 in
  let sq := if sq mod 2 =? 1 then u64 (sq + 1) else sq in
  let? fresh := encodeHeader zero_page in
  Ok (mkPageWriter sq epoch true (pw_last w) false,
      (fun off => (off, load64 off fresh)) <$> header_order shrinks).

(** ** Publish *)
Definition body_offsets : list nat :=
  (fun k => (Z.to_nat PageHeaderSize + 8 * k)%nat) <$> seq 0 (Z.to_nat ((pageBodyEnd - PageHeaderSize + 7) / 8)).
Definition body_stores (scratch : list byte) : list store := (fun off => (off, load64 off scratch)) <$> body_offsets.

Definition Publish (w : PageWriter) (s : PageSnapshot) : res (PageWriter * list store) :=
  failif (negb (pw_resumed w)) (ErrNew ErrPageWriterNotResumed) ;!
  let? scratch := EncodePage zero_page s in
  let key := notifyKeyOf s in
  let due := negb (pw_hasLast w) || negb (bool_decide (key = pw_last w)) in
  let sq := u64 (pw_seq w + 2) in
  let epoch := if due then u64 (pw_epoch w + 1) else pw_epoch w in
  Ok (mkPageWriter sq epoch (pw_resumed w) key true,
      (Z.to_nat PageSeqOffset, u64 (pw_seq w + 1)) :: body_stores scratch ++
      [(Z.to_nat PageSeqOffset, sq)] ++ (if due then [(Z.to_nat PageNotifyEpochOffset, epoch)] else [])).

(** ** Copying words *)

(** The stores that copy the words of [src] at the given offsets. *)
Definition copies (src : list byte) (offs : list nat) : list store := (fun off => (off, load64 off src)) <$> offs.

Lemma lookup_store_copy off src m i :
  (off + 8 <= length m)%nat -> (off + 8 <= length src)%nat ->
  apply_store m (off, load64 off src) !! i = if decide (off <= i < off + 8)%nat then src !! i else m !! i.
Proof.
  intros Hm Hs. unfold apply_store, store64. cbn [fst snd].
  assert (le_bytes 8 (load64 off src) = slice off 8 src) as ->.
  { unfold load64. rewrite <- (length_slice off 8 src Hs) at 1. apply le_bytes_word. }
  assert (length (slice off 8 src) = 8%nat) as Hl by by apply length_slice.
  case_decide as Hi.
  - rewrite lookup_blit_in by lia. unfold slice. rewrite lookup_take_lt, lookup_drop by lia. f_equal. lia.
  - apply lookup_blit_out. lia.
Qed.

Lemma length_apply_store m st : length (apply_store m st) = length m.
Proof. apply length_store64. Qed.
Lemma length_run_stores m sts : length (run_stores m sts) = length m.
Proof. revert m. induction sts as [|st sts IH]; intros m; [done|]. cbn. rewrite IH. apply length_apply_store. Qed.

Definition in_words (offs : list nat) (i : nat) : Prop := exists off, off ∈ offs /\ (off <= i < off + 8)%nat.

Lemma lookup_copies src offs m i :
  Forall (fun off => (off + 8 <= length m)%nat /\ (off + 8 <= length src)%nat) offs ->
  (in_words offs i -> run_stores m (copies src offs) !! i = src !! i) /\
  (~ in_words offs i -> run_stores m (copies src offs) !! i = m !! i).
Proof.
  revert m. induction offs as [|off offs IH]; intros m HF.
  - split; [intros (? & ? & _); set_solver|done].
  - apply Forall_cons in HF as [[Hm Hs] HF]. cbn [copies fmap list_fmap run_stores foldl].
    destruct (IH (apply_store m (off, load64 off src))) as [IHin IHout].
    { eapply Forall_impl; [exact HF|]. intros o. rewrite length_apply_store. done. }
    fold (copies src offs). fold (run_stores (apply_store m (off, load64 off src)) (copies src offs)).
    destruct (decide (Exists (fun o => (o <= i < o + 8)%nat) offs)) as [Hex|Hex]; rewrite Exists_exists in Hex.
    + split; intros Hi; [apply IHin; destruct Hex as (o & ? & ?); by exists o|].
      destruct Hi. destruct Hex as (o & ? & ?). exists o. split; [by right|done].
    + assert (~ in_words offs i) as Hn by (intros (o & ? & ?); apply Hex; eauto).
      rewrite (IHout Hn), lookup_store_copy by done. split.
      * intros (o & [->|Ho]%elem_of_cons & Hr); [by rewrite decide_True|]. destruct Hn. by exists o.
      * intros Hi. rewrite decide_False; [done|]. intros Hr. apply Hi. exists off. split; [left|done].
Qed.

Lemma elem_mem_states m sts m' :
  m' ∈ mem_states m sts <-> exists l1 l2, sts = l1 ++ l2 /\ m' = run_stores m l1.
Proof.
  revert m. induction sts as [|st sts IH]; intros m; simpl.
  - rewrite list_elem_of_singleton. split; [intros ->; by exists [], []|].
    intros ([|] & l2 & ? & ->); done.
  - rewrite elem_of_cons, IH. split.
    + intros [->|(l1 & l2 & -> & ->)]; [by exists [], (st :: sts)|by exists (st :: l1), l2].
    + intros ([|st' l1] & l2 & He & ->); [by left|]. injection He as -> ->. right. by exists l1, l2.
Qed.

(** ** The header bytes *)

(** The first 192 bytes of every encoded page are the same. *)
Definition header_page : list byte :=
  match put_fields header_snapshot zero_page header_layout with Ok p => p | Err _ => [] end.
Lemma header_any s : put_fields s zero_page header_layout = Ok header_page.
Proof. vm_compute. reflexivity. Qed.

Lemma length_header_page : length header_page = 4096%nat.
Proof. vm_compute. reflexivity. Qed.

Lemma header_page_major : holds_major header_page = true.
Proof. vm_compute. reflexivity. Qed.
Lemma header_page_words :
  le_word (slice 10 2 header_page) = PageABIMinor /\ le_word (slice 16 4 header_page) = pageBodySize.
Proof. split; [|unfold pageBodySize; rewrite pageBodyEnd_val]; vm_compute; reflexivity. Qed.

Lemma encode_header_bytes dst s p i : EncodePage dst s = Ok p -> (i < 192)%nat -> p !! i = header_page !! i.
Proof.
  intros (_ & _ & page & Hp & ->)%EncodePage_Ok Hi.
  pose proof (put_fields_length _ _ _ _ Hp) as Hl. rewrite length_zero_page in Hl. rewrite lookup_app_l by lia.
  rewrite layout_split, put_fields_app, header_any in Hp. cbn [res_bind] in Hp.
  apply (put_fields_before _ _ _ _ 192 i Hp); [lia|apply body_laid|lia].
Qed.

Definition fresh_page : list byte := match encodeHeader zero_page with Ok p => p | Err _ => [] end.
Lemma encodeHeader_Ok : encodeHeader zero_page = Ok fresh_page.
Proof. unfold fresh_page. destruct (encodeHeader zero_page) as [p|e] eqn:E; [done|]. vm_compute in E. discriminate E. Qed.

#[global] Opaque header_page fresh_page.

Lemma load64_ext off m m' :
  (forall i, (off <= i < off + 8)%nat -> m !! i = m' !! i) -> load64 off m = load64 off m'.
Proof. intros H. unfold load64. f_equal. by apply slice_ext. Qed.

Lemma header_order_val b :
  header_order b = [56; 48; 40; 32; 24]%nat ++ (if b then [8; 16]%nat else [16; 8]%nat) ++ [0%nat].
Proof. destruct b; vm_compute; reflexivity. Qed.

Lemma header_offs b : Forall (fun off => (off + 8 <= 64)%nat /\ Nat.divide 8 off) (header_order b).
Proof.
  rewrite header_order_val.
  destruct b; cbn [app]; repeat (apply Forall_cons; split; [split; [lia|apply Nat.Lcm0.mod_divide; reflexivity]|]);
    by apply Forall_nil.
Qed.

Definition shrinks (m : list byte) : bool := holds_major m && (pageBodySize <? read_u32 m "bodySize").
Definition page_seq (m : list byte) : Z := load64 64 m.
Definition page_epoch (m : list byte) : Z := load64 128 m.
(** The even seq at or after [n]. *)
Definition even_up (n : Z) : Z := if n mod 2 =? 1 then n + 1 else n.

Lemma copies_ext src src' offs :
  (forall off, off ∈ offs -> load64 off src = load64 off src') -> copies src offs = copies src' offs.
Proof. intros H. apply list_fmap_ext. intros k off Hk. f_equal. apply H. by eapply list_elem_of_lookup_2. Qed.

(** [Resume] never fails, and what it stores is the header. *)
Lemma Resume_Ok w m :
  Resume w m = Ok (mkPageWriter (u64 (even_up (if holds_major m then page_seq m else 0)))
                     (if holds_major m then page_epoch m else 0) true (pw_last w) false,
                   copies header_page (header_order (shrinks m))).
Proof.
  unfold Resume. rewrite encodeHeader_Ok. cbn [res_bind].
  change ((fun off => (off, load64 off fresh_page)) <$> header_order _) with (copies fresh_page (header_order (shrinks m))).
  rewrite (copies_ext fresh_page header_page (header_order (shrinks m))).
  - unfold even_up, page_seq, page_epoch. change (Z.to_nat PageSeqOffset) with 64%nat.
    change (Z.to_nat PageNotifyEpochOffset) with 128%nat. destruct (holds_major m); [|reflexivity].
    destruct (load64 64 m mod 2 =? 1); [reflexivity|]. by rewrite (u64_small (load64 64 m)) by apply word_range.
  - intros off Hoff.
    apply load64_ext. intros i Hi. apply (encode_header_bytes zero_page header_snapshot); [apply encodeHeader_Ok|].
    pose proof (header_offs (shrinks m)) as HF. rewrite Forall_forall in HF. specialize (HF off Hoff). lia.
Qed.

(** A field inside one word reads as the copied word once it is copied. *)
Lemma slice_copies src offs m o n w :
  Forall (fun off => (off + 8 <= length m)%nat /\ (off + 8 <= length src)%nat /\ Nat.divide 8 off) offs ->
  Nat.divide 8 w -> (w <= o)%nat -> (o + n <= w + 8)%nat ->
  slice o n (run_stores m (copies src offs)) = if decide (w ∈ offs) then slice o n src else slice o n m.
Proof.
  intros HF [kw Hw] Hlo Hhi.
  assert (Forall (fun off => (off + 8 <= length m)%nat /\ (off + 8 <= length src)%nat) offs) as HF'
    by (eapply Forall_impl; [exact HF|naive_solver]).
  case_decide as Hin; apply slice_ext; intros i Hi; destruct (lookup_copies src offs m i HF') as [H1 H2].
  - apply H1. exists w. split; [done|lia].
  - apply H2. intros (off & Hoff & Hr). rewrite Forall_forall in HF. destruct (HF off Hoff) as (_ & _ & [k Hk]).
    destruct (decide (k = kw)) as [->|]; [apply Hin; congruence|lia].
Qed.

(** ** The header between two stores of Resume *)

(** A header of this major is valid when its bodySize is at least the body
    size of its abiMinor, for any table [size_of] of body sizes. *)
Definition page_minor (m : list byte) : Z := read_u16 m "abiMinor".
Definition page_body_size (m : list byte) : Z := read_u32 m "bodySize".
Definition header_valid (size_of : Z -> Z) (m : list byte) : Prop :=
  holds_major m = true -> size_of (page_minor m) <= page_body_size m.

Lemma header_reads m :
  page_minor m = le_word (slice 10 2 m) /\ page_body_size m = le_word (slice 16 4 m) /\
  holds_major m = bool_decide (slice 0 8 m = bytes_of PageMagic) &&
    (le_word (slice 8 2 m) =? 1) && (le_word (slice 12 4 m) =? 192).
Proof.
  unfold page_minor, page_body_size, holds_major, read_u16, read_u32. destruct offset_header as (-> & -> & -> & ->). done.
Qed.

(** After some of the header stores, each of the three header words is either
    the old one or the fresh one. *)
Lemma header_prefix m l1 l2 b :
  (4096 <= length m)%nat -> header_order b = l1 ++ l2 ->
  let m' := run_stores m (copies header_page l1) in
  page_minor m' = (if decide (8%nat ∈ l1) then PageABIMinor else page_minor m) /\
  page_body_size m' = (if decide (16%nat ∈ l1) then pageBodySize else page_body_size m) /\
  holds_major m' = bool_decide (slice 0 8 (if decide (0%nat ∈ l1) then header_page else m) = bytes_of PageMagic) &&
    (le_word (slice 8 2 (if decide (8%nat ∈ l1) then header_page else m)) =? 1) &&
    (le_word (slice 12 4 (if decide (8%nat ∈ l1) then header_page else m)) =? 192).
Proof.
  intros Hm Hl m'. pose proof (header_offs b) as HF. rewrite Hl in HF. apply Forall_app in HF as [HF _].
  assert (Forall (fun off => (off + 8 <= length m)%nat /\ (off + 8 <= length header_page)%nat /\ Nat.divide 8 off) l1) as HF'.
  { eapply Forall_impl; [exact HF|]. rewrite length_header_page. intros o [? ?]. split_and!; [lia|lia|done]. }
  destruct (header_reads m') as (-> & -> & ->). destruct (header_reads m) as (-> & -> & _). subst m'.
  rewrite (slice_copies _ _ _ 10 2 8), (slice_copies _ _ _ 16 4 16), (slice_copies _ _ _ 0 8 0), (slice_copies _ _ _ 8 2 8),
    (slice_copies _ _ _ 12 4 8) by first [exact HF'|apply Nat.Lcm0.mod_divide; reflexivity|lia].
  pose proof header_page_words as [Hmin Hsz].
  split; [|split]; repeat case_decide; first [reflexivity|exact Hmin|exact Hsz].
Qed.

(** The order: the magic is last; between the minor's and the size's word, the
    one that keeps the pair valid is first. *)
Lemma header_order_prefix b o1 o2 :
  header_order b = o1 ++ o2 ->
  (0%nat ∈ o1 -> 8%nat ∈ o1) /\ (if b then 16%nat ∈ o1 -> 8%nat ∈ o1 else 8%nat ∈ o1 -> 16%nat ∈ o1).
Proof.
  rewrite header_order_val. intros H. assert (o1 = take (length o1) (header_order b)) as ->.
  { by rewrite header_order_val, H, take_app_length. }
  rewrite header_order_val. generalize (length o1). intros k.
  destruct b; do 9 (destruct k as [|k]; [cbn; set_solver|]); cbn; destruct k; set_solver.
Qed.

Lemma copies_prefix src offs l1 l2 :
  copies src offs = l1 ++ l2 -> exists o1 o2, offs = o1 ++ o2 /\ l1 = copies src o1.
Proof. intros (o1 & o2 & -> & _ & ->)%fmap_app_inv. by exists o1, o2. Qed.

Definition in_body_bytes (i : nat) : Prop := (192 <= i < 2344)%nat.
Lemma body_offsets_val : body_offsets = (fun k => (192 + 8 * k)%nat) <$> seq 0 269.
Proof. vm_compute. reflexivity. Qed.
Lemma body_offs : Forall (fun off => (192 <= off /\ off + 8 <= 2344)%nat) body_offsets.
Proof. rewrite body_offsets_val. apply Forall_fmap, Forall_forall. intros k Hk%elem_of_seq. simpl. lia. Qed.
Lemma body_words i : in_words body_offsets i <-> in_body_bytes i.
Proof.
  unfold in_words, in_body_bytes. split.
  - intros (off & Ho & Hi). pose proof body_offs as HF. rewrite Forall_forall in HF. specialize (HF off Ho). lia.
  - intros Hi. exists (192 + 8 * ((i - 192) / 8))%nat. pose proof (Nat.div_mod (i - 192) 8). pose proof (Nat.mod_upper_bound (i - 192) 8).
    split; [|lia]. rewrite body_offsets_val. apply list_elem_of_fmap. exists ((i - 192) / 8)%nat. split; [done|].
    apply elem_of_seq. split; [lia|]. apply Nat.Div0.div_lt_upper_bound. lia.
Qed.

(** ** Theorems on Resume *)

(** C15: whatever page [Resume] takes over, a valid header stays valid in every
    memory between two of its stores, so that a reader never meets a header
    whose bodySize is below the body size of its minor. *)
Theorem resume_headers_valid (size_of : Z -> Z) (w w' : PageWriter) (m m' : list byte) (sts : list store)
    (Hsize : size_of PageABIMinor <= pageBodySize) (Hlen : PageSize <= len m) (Hvalid : header_valid size_of m)
    (Hres : Resume w m = Ok (w', sts)) (Hm' : m' ∈ mem_states m sts) :
  header_valid size_of m'.
Proof.
  rewrite Resume_Ok in Hres. injection Hres as <- <-. apply elem_mem_states in Hm' as (l1 & l2 & Hl & ->).
  apply copies_prefix in Hl as (o1 & o2 & Ho & ->). unfold len, PageSize in Hlen.
  destruct (header_prefix m o1 o2 (shrinks m)) as (Hmin & Hbody & Hmaj); [lia|done|].
  unfold header_valid in *. rewrite Hmin, Hbody, Hmaj. clear Hmin Hbody Hmaj.
  destruct (header_reads m) as (_ & _ & Hm). apply header_order_prefix in Ho as [H0 Hs]. unfold shrinks in Hs.
  destruct (decide (8%nat ∈ o1)) as [H8|H8], (decide (16%nat ∈ o1)) as [H16|H16]; [done|..].
  - intros _. destruct (holds_major m && _) eqn:E; [|tauto]. apply andb_true_iff in E as [_ E]. apply Z.ltb_lt in E.
    unfold page_body_size. lia.
  - rewrite decide_False, <- Hm by tauto. intros Hh. specialize (Hvalid Hh). rewrite Hh in Hs. cbn [andb] in Hs.
    destruct (Z.ltb_spec pageBodySize (read_u32 m "bodySize")); [tauto|]. unfold page_body_size in Hvalid. lia.
  - by rewrite decide_False, <- Hm by tauto.
Qed.
Lemma resume_headers_valid_witness :
  header_valid (fun minor => if minor =? 0 then 2120 else 2152) header_page.
Proof.
  destruct (Resume new_writer header_page) as [[w' sts]|e] eqn:E.
  - apply (resume_headers_valid (fun minor => if minor =? 0 then 2120 else 2152) new_writer w' header_page header_page sts).
    + unfold pageBodySize. rewrite pageBodyEnd_val. discriminate.
    + vm_compute. discriminate.
    + intros _. vm_compute. discriminate.
    + exact E.
    + destruct sts; left.
  - exfalso. rewrite Resume_Ok in E. discriminate E.
Defined.

(** [Resume] never fails.  On a page of this major the writer continues its
    seq, rounded up to even when the last writer died mid-write, and its
    notifyEpoch; on any other page both start at 0.  Once its stores are made
    the page carries this minor's header, and no byte from offset 64 on has
    changed. *)
Theorem resume_takes_over (w : PageWriter) (m : list byte) (Hlen : PageSize <= len m) :
  exists w' sts, Resume w m = Ok (w', sts) /\ pw_resumed w' = true /\ pw_hasLast w' = false /\
    pw_seq w' = (if holds_major m then u64 (even_up (page_seq m)) else 0) /\
    pw_epoch w' = (if holds_major m then page_epoch m else 0) /\
    let m' := run_stores m sts in
    page_minor m' = PageABIMinor /\ page_body_size m' = pageBodySize /\ holds_major m' = true /\
    (forall i, (64 <= i)%nat -> m' !! i = m !! i).
Proof.
  rewrite Resume_Ok. eexists _, _. split; [reflexivity|]. cbn [pw_resumed pw_hasLast pw_seq pw_epoch].
  split; [reflexivity|]. split; [reflexivity|]. split; [by destruct (holds_major m)|]. split; [reflexivity|].
  unfold len, PageSize in Hlen.
  destruct (header_prefix m (header_order (shrinks m)) [] (shrinks m)) as (H1 & H2 & H3); [lia|by rewrite app_nil_r|].
  assert (0%nat ∈ header_order (shrinks m) /\ 8%nat ∈ header_order (shrinks m) /\ 16%nat ∈ header_order (shrinks m)) as (O0 & O8 & O16).
  { rewrite header_order_val. destruct (shrinks m); split_and!; apply (bool_decide_unpack _); vm_compute; exact I. }
  cbv zeta. rewrite H1, H2, H3, !decide_True by assumption. split; [reflexivity|]. split; [reflexivity|].
  destruct (header_reads header_page) as (_ & _ & <-). split; [exact header_page_major|].
  intros i Hi. pose proof (header_offs (shrinks m)) as HF. apply lookup_copies.
  - eapply Forall_impl; [exact HF|]. rewrite length_header_page. intros o [? _]. lia.
  - intros (off & Ho & Hr). rewrite Forall_forall in HF. specialize (HF off Ho). lia.
Qed.
Lemma resume_takes_over_witness :
  exists w' sts, Resume new_writer header_page = Ok (w', sts) /\ page_minor (run_stores header_page sts) = 1.
Proof.
  destruct (resume_takes_over new_writer header_page) as (w' & sts & Hr & _ & _ & _ & _ & Hm & _).
  - vm_compute. discriminate.
  - exists w', sts. split; [exact Hr|exact Hm].
Defined.

(** ** Theorems on Publish *)

(** The ladder a slot carries, absent values and empty slots alike. *)
Definition ladder_at (s : PageSnapshot) (i : nat) : list (option Z) :=
  match ss_Signals s !! i with Some g => rungs g ++ releases g | None => replicate 10 None end.
Definition apart (v : option Z) : Prop := v <> Some PageAbsent.

Lemma ladder_row_at s i : ladder_row s i = default PageAbsent <$> ladder_at s i.
Proof. unfold ladder_row, ladder_at. by destruct (ss_Signals s !! i). Qed.
Lemma default_inj l1 l2 :
  Forall apart l1 -> Forall apart l2 -> default PageAbsent <$> l1 = default PageAbsent <$> l2 -> l1 = l2.
Proof.
  revert l2. induction l1 as [|v l1 IH]; intros [|v' l2] H1 H2 H; try done.
  apply Forall_cons in H1 as [Hv H1], H2 as [Hv' H2]. injection H as Hd H. f_equal; [|auto].
  unfold apart in *. destruct v, v'; simpl in *; congruence.
Qed.
Lemma ladder_apart dst s p i : EncodePage dst s = Ok p -> (i < 8)%nat -> Forall apart (ladder_at s i).
Proof.
  intros He Hi. unfold ladder_at. destruct (ss_Signals s !! i) as [g|] eqn:Hg; [|by apply Forall_replicate].
  pose proof (encode_holds _ _ _ He) as Hh.
  assert (forall name get, slot_i64 i name get ∈ specs_signal i -> apart (get g)) as Ha.
  { intros name get Hin. destruct (slot_word s p Hh i name kindI64 _ _ _ (fun g => i64Word (get g)) Hi eq_refl Hin) as [Hw _].
    destruct (Hw g Hg) as [_ Hok]. unfold apart. intros E. rewrite E in Hok. vm_compute in Hok. discriminate Hok. }
  repeat (apply Forall_cons; split; [eapply Ha; in_group|]). by apply Forall_nil.
Qed.

(** [PageNotifyDue] compares what it documents: between two snapshots the
    page can carry, no bump is due exactly when level, admit and generation
    are equal and every slot holds the same rungs and releases, absent or
    present. *)
Theorem notify_due_spec (d1 d2 : list byte) (prev next : PageSnapshot) (p1 p2 : list byte)
    (H1 : EncodePage d1 prev = Ok p1) (H2 : EncodePage d2 next = Ok p2) :
  PageNotifyDue (Some prev) next = false <->
  ss_Level prev = ss_Level next /\ ss_Admit prev = ss_Admit next /\ ss_Generation prev = ss_Generation next /\
  (forall i, (i < 8)%nat -> ladder_at prev i = ladder_at next i).
Proof.
  unfold PageNotifyDue. rewrite negb_false_iff, bool_decide_eq_true. unfold notifyKeyOf.
  change (Z.to_nat MaxPageSignals) with 8%nat. split.
  - intros H. split; [exact (f_equal nk_level H)|]. split; [exact (f_equal nk_admit H)|].
    split; [exact (f_equal nk_generation H)|]. pose proof (f_equal nk_ladder H) as Hr. cbn [nk_ladder] in Hr.
    intros i Hi. apply default_inj; [by eapply ladder_apart|by eapply ladder_apart|].
    rewrite <- !ladder_row_at. apply (f_equal (fun l => l !! i)) in Hr. rewrite !list_lookup_fmap, !lookup_seq_lt in Hr by done. by injection Hr.
  - intros (-> & -> & -> & Hrows). f_equal. apply list_fmap_ext. intros k i Hk. apply lookup_seq in Hk as [-> Hk].
    rewrite !ladder_row_at. by rewrite Hrows.
Qed.
Lemma notify_due_spec_witness : PageNotifyDue (Some tiny_snapshot) header_snapshot = false.
Proof.
  destruct (EncodePage zero_page tiny_snapshot) as [p|e] eqn:E.
  - apply (notify_due_spec zero_page zero_page tiny_snapshot header_snapshot p p E E).
    split; [reflexivity|]. split; [reflexivity|]. split; [reflexivity|]. intros i _. reflexivity.
  - exfalso. vm_compute in E. discriminate E.
Defined.

(** A refused publication makes no store and leaves the writer as it was:
    [Publish] fails exactly before [Resume] or on a snapshot [EncodePage]
    refuses, with the sentinel of the case. *)
Theorem publish_refuses (w : PageWriter) (s : PageSnapshot) (e : error) :
  Publish w s = Err e <->
  (pw_resumed w = false /\ e = ErrNew ErrPageWriterNotResumed) \/
  (pw_resumed w = true /\ EncodePage zero_page s = Err e /\ errors_is e ErrInvalidPageSnapshot = true).
Proof.
  unfold Publish. destruct (pw_resumed w); cbn [negb failif checked].
  - destruct (EncodePage zero_page s) as [p|e'] eqn:E; cbn [res_bind].
    + split; [intros H; discriminate H|]. intros [[H _]|[_ [H _]]]; discriminate H.
    + split.
      * intros H. injection H as <-. right. split; [reflexivity|]. split; [reflexivity|].
        apply (EncodePage_refuses zero_page s e' E). vm_compute. discriminate.
      * intros [[H _]|[_ [H _]]]; [discriminate H|]. injection H as ->. reflexivity.
  - split; [intros H; injection H as <-; by left|]. intros [[_ ->]|[H _]]; [reflexivity|discriminate H].
Qed.

(** Whether a publication bumps notifyEpoch. *)
Definition publish_due (w : PageWriter) (s : PageSnapshot) : bool :=
  negb (pw_hasLast w) || negb (bool_decide (notifyKeyOf s = pw_last w)).

Lemma load64_body_copies off E m :
  (off + 8 <= 192)%nat -> (4096 <= length m)%nat -> (4096 <= length E)%nat ->
  load64 off (run_stores m (copies E body_offsets)) = load64 off m.
Proof.
  intros Ho Hm HE. apply load64_ext. intros i Hi. apply lookup_copies.
  - eapply Forall_impl; [exact body_offs|]. cbn beta. intros; lia.
  - intros Hw%body_words. unfold in_body_bytes in Hw. lia.
Qed.

Lemma publish_words w s w' sts m :
  (4096 <= length m)%nat -> Publish w s = Ok (w', sts) ->
  page_seq (run_stores m sts) = u64 (pw_seq w + 2) /\
  page_epoch (run_stores m sts) = (if publish_due w s then u64 (pw_epoch w + 1) else page_epoch m) /\
  pw_epoch w' = (if publish_due w s then u64 (pw_epoch w + 1) else pw_epoch w) /\ pw_seq w' = u64 (pw_seq w + 2) /\
  pw_hasLast w' = true /\ pw_last w' = notifyKeyOf s /\
  (publish_due w s = true -> last sts = Some (128%nat, u64 (pw_epoch w + 1))).
Proof.
  intros Hl H. unfold Publish in H. apply checked_Ok in H as [_ H]. apply res_bind_Ok in H as (E & HE & H).
  apply encode_length in HE. rewrite length_zero_page in HE.
  change (negb (pw_hasLast w) || negb (bool_decide (notifyKeyOf s = pw_last w))) with (publish_due w s) in H.
  change (Z.to_nat PageSeqOffset) with 64%nat in H. change (Z.to_nat PageNotifyEpochOffset) with 128%nat in H.
  injection H as <- <-. cbn [pw_epoch pw_seq pw_hasLast pw_last]. change (body_stores E) with (copies E body_offsets).
  cbn [run_stores foldl]. unfold run_stores. rewrite !foldl_app. fold (run_stores (apply_store m (64%nat, u64 (pw_seq w + 1))) (copies E body_offsets)).
  set (m2 := run_stores _ _). assert (length m2 = length m) as Hl2 by (unfold m2; by rewrite length_run_stores, length_apply_store).
  assert (page_epoch m2 = page_epoch m) as He2.
  { unfold m2, page_epoch. rewrite load64_body_copies by (rewrite ?length_apply_store; lia). apply load_store64_ne. cbn. lia. }
  unfold page_epoch, page_seq in *. destruct (publish_due w s); cbn [foldl app]; unfold apply_store; cbn [fst snd].
  - rewrite load_store64_ne, !load_store64_eq by (rewrite ?length_store64; lia). rewrite !(u64_small (u64 _)) by apply u64_range.
    do 6 (split; [reflexivity|]). intros _. rewrite app_comm_cons, last_app. reflexivity.
  - rewrite load_store64_eq, load_store64_ne by lia. rewrite (u64_small (u64 _)) by apply u64_range.
    split; [reflexivity|]. split; [exact He2|]. do 4 (split; [reflexivity|]). intros H; discriminate H.
Qed.

(** C18: after a publication the notifyEpoch word is one higher (modulo 2^64)
    exactly when a bump was due against the previous publication of this
    writer, seq is two higher, and the first publication of a writer always
    bumps, as its last store. *)
Theorem publish_notifies (w w1 w2 : PageWriter) (s1 s2 : PageSnapshot) (sts1 sts2 : list store) (m : list byte)
    (Hlen : PageSize <= len m) (H1 : Publish w s1 = Ok (w1, sts1)) (H2 : Publish w1 s2 = Ok (w2, sts2))
    (Hm : page_epoch m = pw_epoch w1) :
  page_epoch (run_stores m sts2) = (if PageNotifyDue (Some s1) s2 then u64 (page_epoch m + 1) else page_epoch m) /\
  page_epoch (run_stores m sts2) = pw_epoch w2 /\
  page_seq (run_stores m sts2) = u64 (pw_seq w + 4) /\
  (pw_hasLast w = false -> last sts1 = Some (128%nat, u64 (pw_epoch w + 1))).
Proof.
  unfold len, PageSize in Hlen.
  destruct (publish_words w s1 w1 sts1 m ltac:(lia) H1) as (_ & _ & _ & Hs1 & Hh & Hk & Hfirst).
  destruct (publish_words w1 s2 w2 sts2 m ltac:(lia) H2) as (-> & -> & -> & _ & _ & _ & _).
  assert (publish_due w1 s2 = PageNotifyDue (Some s1) s2) as ->.
  { unfold publish_due, PageNotifyDue. rewrite Hh, Hk. cbn [negb orb]. f_equal. apply bool_decide_ext. naive_solver. }
  rewrite Hm. split; [reflexivity|]. split; [reflexivity|]. split.
  - rewrite Hs1. unfold u64. rewrite Z.add_mod_idemp_l by lia. f_equal. lia.
  - intros Hl. apply Hfirst. unfold publish_due. by rewrite Hl.
Qed.
Definition first_writer : PageWriter := mkPageWriter 0 0 true zero_key false.
Definition first_publish : PageWriter * list store := ok_or (new_writer, []) (Publish first_writer tiny_snapshot).
Definition second_publish : PageWriter * list store := ok_or (new_writer, []) (Publish first_publish.1 header_snapshot).
Lemma publish_notifies_witness :
  page_epoch (run_stores (store64 128 1 zero_page) second_publish.2) = page_epoch (store64 128 1 zero_page).
Proof.
  apply (publish_notifies first_writer first_publish.1 second_publish.1 tiny_snapshot header_snapshot
           first_publish.2 second_publish.2 (store64 128 1 zero_page)).
  - vm_compute. discriminate.
  - rewrite <- surjective_pairing. apply ok_or_spec. vm_compute. reflexivity.
  - rewrite <- surjective_pairing. apply ok_or_spec. vm_compute. reflexivity.
  - vm_compute. reflexivity.
Defined.
