(* ===== verification/BudgetSeqlock.v ===== *)
(** * The seqlock: writer, crashes, readers (src/budget/v1alpha1/page.go)

    A system is the current writer, the stores it has still to make, the shared
    memory, and the snapshots published so far.  A step starts a publication,
    makes one store, or hands the page to a new writer, which may happen in the
    middle of a publication (the old writer died).  A reader may observe the
    memory between any two steps. *)
From stdpp Require Import relations.
From S2P Require Import Prelude GoLib BudgetVocab BudgetTypes BudgetLadder BudgetPolicy BudgetObservation BudgetPage BudgetPageCodec BudgetPageReader BudgetPageWriter.

Record system := mkSystem {
  sy_writer : PageWriter;
  sy_pending : list store;
  sy_mem : list byte;
  sy_published : list PageSnapshot;
}.

Inductive step : system -> system -> Prop :=
| step_publish w m pubs s w' sts :
    Publish w s = Ok (w', sts) -> step (mkSystem w [] m pubs) (mkSystem w' sts m (s :: pubs))
| step_store w st sts m pubs :
    step (mkSystem w (st :: sts) m pubs) (mkSystem w sts (apply_store m st) pubs)
| step_takeover w pending m pubs w0 w' sts :
    Resume w0 m = Ok (w', sts) -> step (mkSystem w pending m pubs) (mkSystem w' sts m pubs).

(** A page no writer of the run has taken over yet: one that holds this major,
    whatever its last writer left in it, or one whose seq word is 0, as a newly
    made, zeroed page file is.  On a page of something else with another seq the
    promises below do not hold (see [stale_seq_mixes]). *)
Definition start (st : system) : Prop :=
  pw_resumed (sy_writer st) = false /\ sy_pending st = [] /\ sy_published st = [] /\
  PageSize <= len (sy_mem st) /\ (holds_major (sy_mem st) = true \/ page_seq (sy_mem st) = 0).

(** ** Arithmetic of the sequence word *)
Lemma u64_add_l a b : u64 (u64 a + b) = u64 (a + b).
Proof. unfold u64. apply Z.add_mod_idemp_l. lia. Qed.
Lemma u64_idemp a : u64 (u64 a) = u64 a.
Proof. apply u64_small, u64_range. Qed.
Lemma u64_parity a : u64 a mod 2 = a mod 2.
Proof.
  unfold u64. rewrite (Z.div_mod a (2 ^ 64)) at 2 by lia.
  replace (2 ^ 64 * (a / 2 ^ 64)) with (2 ^ 63 * (a / 2 ^ 64) * 2) by lia.
  rewrite Z.add_comm, Z.mod_add by lia. done.
Qed.
Lemma even_up_u64 a : u64 (even_up (u64 a)) = u64 (even_up a).
Proof. unfold even_up. rewrite u64_parity. case_match; [apply u64_add_l|apply u64_idemp]. Qed.
Lemma even_up_spec a : a <= even_up a <= a + 1 /\ even_up a mod 2 = 0.
Proof.
  unfold even_up. pose proof (Z.mod_pos_bound a 2). destruct (Z.eqb_spec (a mod 2) 1) as [E|E].
  - split; [lia|]. rewrite <- Z.add_mod_idemp_l, E by lia. done.
  - split; lia.
Qed.
Lemma succ_parity a : a mod 2 = 0 -> (a + 1) mod 2 = 1 /\ (a + 2) mod 2 = 0.
Proof. intros H. rewrite <- (Z.add_mod_idemp_l a 1), <- (Z.add_mod_idemp_l a 2), H by lia. done. Qed.

(** ** What each pending store does to the logical sequence number *)
Definition content (pubs : list PageSnapshot) (m : list byte) : Prop :=
  exists s E, s ∈ pubs /\ EncodePage zero_page s = Ok E /\ forall i, (i < 64)%nat \/ in_body_bytes i -> m !! i = E !! i.
Definition header_fresh (m : list byte) : Prop := forall i, (i < 64)%nat -> m !! i = header_page !! i.

(** A page whose header is not of this major yet has its first seq still. *)
Definition claimed (L : Z) (m : list byte) : Prop := holds_major m = true \/ L = 0.

Definition store_ok (pubs : list PageSnapshot) (L L' : Z) (m : list byte) (st : store) : Prop :=
  (st.1 = 64%nat /\ st.2 = u64 L' /\ (L < L' <= L + 2 /\ holds_major m = true) /\ (L' mod 2 = 0 -> content pubs (apply_store m st))) \/
  (L' = L /\ st.1 = 128%nat) \/
  (L' = L /\ (st.1 + 8 <= 64)%nat /\ st.2 = load64 st.1 header_page) \/
  (L' = L /\ L mod 2 = 1 /\ (192 <= st.1 /\ st.1 + 8 <= 2344)%nat).

Fixpoint pending_ok (pubs : list PageSnapshot) (w : PageWriter) (L : Z) (m : list byte) (sts : list store) : Prop :=
  match sts with
  | [] => pw_resumed w = true -> pw_seq w = u64 (even_up L) /\ header_fresh m
  | st :: sts' => exists L', store_ok pubs L L' m st /\ pending_ok pubs w L' (apply_store m st) sts'
  end.

(** The invariant: [L] is the sequence number without wrap-around, [L0] the one
    the run started with. *)
Record inv (L0 L : Z) (st : system) : Prop := {
  inv_len : (4096 <= length (sy_mem st))%nat;
  inv_seq : page_seq (sy_mem st) = u64 L;
  inv_major : claimed L (sy_mem st);
  inv_pending : pending_ok (sy_published st) (sy_writer st) L (sy_mem st) (sy_pending st);
  inv_content : L mod 2 = 0 -> L = L0 \/ content (sy_published st) (sy_mem st);
}.

(** What a step does to the observable page. *)
Definition moves (L L' : Z) (m m' : list byte) : Prop :=
  L <= L' <= L + 2 /\ (L' = L -> L mod 2 = 0 -> forall i, in_body_bytes i -> m' !! i = m !! i).

(** ** One store *)
Lemma store_out m st i : ~ (st.1 <= i < st.1 + 8)%nat -> apply_store m st !! i = m !! i.
Proof. intros Hi. apply lookup_blit_out. rewrite length_le_bytes. lia. Qed.

(** The bytes [holds_major] reads are the header's. *)
Lemma lookup_of_slice off n m m' i :
  slice off n m = slice off n m' -> (off <= i < off + n)%nat -> m !! i = m' !! i.
Proof.
  intros H Hi. replace i with (off + (i - off))%nat by lia.
  rewrite <- !lookup_drop. rewrite <- (lookup_take_lt (drop off m) n), <- (lookup_take_lt (drop off m') n) by lia.
  unfold slice in H. by rewrite H.
Qed.
Lemma header_page_slices :
  slice 0 8 header_page = bytes_of PageMagic /\ slice 8 2 header_page = le_bytes 2 1 /\ slice 12 4 header_page = le_bytes 4 192.
Proof. vm_compute. done. Qed.
Lemma slice_of_word off n m w :
  (off + n <= length m)%nat -> (le_word (slice off n m) =? w) = true -> slice off n m = le_bytes n w.
Proof. intros Hl <-%Z.eqb_eq. rewrite <- (length_slice off n m Hl) at 2. symmetry. apply le_bytes_word. Qed.

Definition major_byte (i : nat) : Prop := (i < 10)%nat \/ (12 <= i < 16)%nat.
Lemma holds_major_iff m :
  (16 <= length m)%nat -> holds_major m = true <-> forall i, major_byte i -> m !! i = header_page !! i.
Proof.
  intros Hm. destruct (header_reads m) as (_ & _ & ->). destruct header_page_slices as (H1 & H2 & H3). split.
  - intros [[A B]%andb_true_iff C]%andb_true_iff i Hi. apply bool_decide_eq_true in A.
    apply slice_of_word in B; [|lia]. apply slice_of_word in C; [|lia].
    destruct (decide (i < 8)%nat); [apply (lookup_of_slice 0 8); [congruence|lia]|].
    destruct (decide (i < 10)%nat); [apply (lookup_of_slice 8 2); [congruence|lia]|].
    apply (lookup_of_slice 12 4); [congruence|]. destruct Hi; lia.
  - intros H. rewrite (slice_ext 0 8 m header_page), (slice_ext 8 2 m header_page), (slice_ext 12 4 m header_page), H1, H2, H3
      by (intros; apply H; unfold major_byte; lia).
    rewrite bool_decide_true by done. done.
Qed.

Lemma major_kept m st :
  (4096 <= length m)%nat -> (64 <= st.1)%nat \/ (st.1 + 8 <= 64)%nat /\ st.2 = load64 st.1 header_page ->
  holds_major m = true -> holds_major (apply_store m st) = true.
Proof.
  intros Hl Hst Hm. rewrite holds_major_iff in Hm by lia. rewrite holds_major_iff by (rewrite length_apply_store; lia).
  intros i Hi. destruct st as [off v]. cbn [fst snd] in Hst. destruct Hst as [Ho|[Ho ->]].
  - rewrite store_out by (cbn; unfold major_byte in Hi; lia). by apply Hm.
  - rewrite lookup_store_copy by (rewrite ?length_header_page; lia). case_decide; auto.
Qed.
Lemma claimed_kept L m st :
  (4096 <= length m)%nat -> (64 <= st.1)%nat \/ (st.1 + 8 <= 64)%nat /\ st.2 = load64 st.1 header_page ->
  claimed L m -> claimed L (apply_store m st).
Proof. intros Hl Hst [Hm|Hm]; [left; by apply major_kept|by right]. Qed.
Lemma fresh_major m : (4096 <= length m)%nat -> header_fresh m -> holds_major m = true.
Proof. intros Hl Hf. apply holds_major_iff; [lia|]. intros i Hi. apply Hf. unfold major_byte in Hi. lia. Qed.

(** A store keeps the header of this major, moves the sequence number as it
    says, and keeps published content. *)
Lemma store_step pubs L L' m st :
  (4096 <= length m)%nat -> page_seq m = u64 L -> claimed L m -> store_ok pubs L L' m st ->
  page_seq (apply_store m st) = u64 L' /\ claimed L' (apply_store m st) /\ moves L L' m (apply_store m st).
Proof.
  intros Hl Hseq Hmaj Hok. destruct st as [off v].
  destruct Hok as [(Ho & Hv & [HL Hm] & _)|[(-> & Ho)|[(-> & Ho & Hv)|(-> & Hodd & Ho)]]]; cbn [fst snd] in *; subst.
  - split; [unfold page_seq, apply_store; rewrite load_store64_eq by (cbn; lia); apply u64_idemp|].
    split; [left; apply major_kept; cbn; auto with lia|split; [lia|intros; lia]].
  - split; [unfold page_seq, apply_store; rewrite load_store64_ne by (cbn; lia); done|].
    split; [apply claimed_kept; cbn; auto with lia|split; [lia|]].
    intros; rewrite store_out by (cbn; unfold in_body_bytes in *; lia); auto.
  - split; [unfold page_seq, apply_store; rewrite load_store64_ne by (cbn; lia); done|].
    split; [apply claimed_kept; cbn; auto with lia|split; [lia|]].
    intros _ _ i Hi. apply store_out. unfold in_body_bytes in Hi. cbn. lia.
  - split; [unfold page_seq, apply_store; rewrite load_store64_ne by (cbn; lia); done|].
    split; [apply claimed_kept; cbn; auto with lia|split; [lia|intros; lia]].
Qed.

Lemma store_content pubs L m st :
  (4096 <= length m)%nat -> store_ok pubs L L m st -> L mod 2 = 0 -> content pubs m -> content pubs (apply_store m st).
Proof.
  intros Hl Hok Heven (s & E & Hs & HE & Hm). exists s, E. split; [done|]. split; [done|]. intros i Hi.
  destruct st as [off v]. destruct Hok as [(_ & _ & [HL _] & _)|[(_ & Ho)|[(_ & Ho & Hv)|(_ & Hodd & _)]]]; cbn [fst snd] in *; subst; try lia.
  - rewrite store_out by (cbn; unfold in_body_bytes in Hi; lia). auto.
  - rewrite lookup_store_copy by (rewrite ?length_header_page; lia). case_decide; [|auto].
    symmetry. apply (encode_header_bytes _ _ _ _ HE). lia.
Qed.

(** ** The pending stores of Resume and Publish *)
Lemma pending_ok_copies pubs w L m src offs rest :
  Forall (fun off => (off + 8 <= length m)%nat) offs ->
  Forall (fun off => forall m', store_ok pubs L L m' (off, load64 off src)) offs ->
  pending_ok pubs w L (run_stores m (copies src offs)) rest -> pending_ok pubs w L m (copies src offs ++ rest).
Proof.
  revert m. induction offs as [|off offs IH]; intros m Hb Hok Hrest; [done|].
  apply Forall_cons in Hb as [Hb Hbs], Hok as [Ho Hos]. cbn. exists L. split; [apply Ho|]. apply IH; [|done|done].
  eapply Forall_impl; [exact Hbs|]. intros o. by rewrite length_apply_store.
Qed.

Lemma header_words b i : in_words (header_order b) i <-> (i < 64)%nat.
Proof.
  unfold in_words. rewrite header_order_val. split.
  - intros (off & Ho & Hi). pose proof (header_offs b) as HF. rewrite header_order_val, Forall_forall in HF.
    specialize (HF off Ho). lia.
  - intros Hi. exists (8 * (i / 8))%nat. pose proof (Nat.div_mod i 8). pose proof (Nat.mod_upper_bound i 8). split; [|lia].
    assert (i / 8 < 8)%nat as Hq by (apply Nat.Div0.div_lt_upper_bound; lia).
    revert Hq. clear. generalize (i / 8)%nat. intros k Hk.
    destruct b; do 8 (destruct k as [|k]; [apply (bool_decide_unpack _); vm_compute; exact I|]); lia.
Qed.

(** After all header stores the header is fresh. *)
Lemma takeover_pending pubs L m w0 w' sts :
  (4096 <= length m)%nat -> page_seq m = u64 L -> claimed L m ->
  Resume w0 m = Ok (w', sts) -> pending_ok pubs w' L m sts.
Proof.
  intros Hl Hseq Hmaj Hr. rewrite Resume_Ok in Hr. injection Hr as <- <-.
  rewrite <- (app_nil_r (copies _ _)). pose proof (header_offs (shrinks m)) as HF. apply pending_ok_copies.
  - eapply Forall_impl; [exact HF|]. simpl. intros; lia.
  - eapply Forall_impl; [exact HF|]. intros off [Ho _] m'. right; right; left. done.
  - intros _. split.
    { cbn [pw_seq]. destruct Hmaj as [->| ->]; [rewrite Hseq; apply even_up_u64|]. by rewrite Hseq, Tauto.if_same. }
    intros i Hi. apply lookup_copies; [|by apply header_words].
    eapply Forall_impl; [exact HF|]. rewrite length_header_page. simpl. intros; lia.
Qed.

Lemma EncodePage_zero_length s E : EncodePage zero_page s = Ok E -> length E = 4096%nat.
Proof. intros H. rewrite (encode_length _ _ _ H). apply length_zero_page. Qed.

Lemma publish_pending pubs L m w s w' sts :
  (4096 <= length m)%nat -> pending_ok pubs w L m [] -> Publish w s = Ok (w', sts) -> pending_ok (s :: pubs) w' L m sts.
Proof.
  intros Hl Hp Hpub. unfold Publish in Hpub. apply checked_Ok in Hpub as [Hres Hpub].
  apply failif_None, negb_false_iff in Hres. destruct (Hp Hres) as [Hseq Hhdr]. clear Hp.
  apply res_bind_Ok in Hpub as (E & HE & [= <- <-]). change (Z.to_nat PageSeqOffset) with 64%nat.
  change (Z.to_nat PageNotifyEpochOffset) with 128%nat.
  destruct (even_up_spec L) as [HL Heven]. destruct (succ_parity _ Heven) as [Hodd Heven2].
  pose proof (EncodePage_zero_length s E HE) as HlE.
  set (m1 := apply_store m (64%nat, u64 (pw_seq w + 1))).
  assert (length m1 = length m) as Hl1 by apply length_apply_store.
  pose proof body_offs as HF.
  assert (Forall (fun off => (off + 8 <= length m1)%nat /\ (off + 8 <= length E)%nat) body_offsets) as HF'.
  { eapply Forall_impl; [exact HF|]. rewrite Hl1, HlE. simpl. intros; lia. }
  exists (even_up L + 1). split.
  { left. cbn [fst snd]. split; [done|]. split; [rewrite Hseq; apply u64_add_l|]. split; [split; [lia|by apply fresh_major]|]. intros H. lia. }
  fold m1. apply pending_ok_copies.
  { eapply Forall_impl; [exact HF'|naive_solver]. }
  { eapply Forall_impl; [exact HF|]. intros off Ho m'. right; right; right. cbn [fst]. done. }
  set (m2 := run_stores m1 (copies E body_offsets)).
  assert (length m2 = length m) as Hl2 by (unfold m2; by rewrite length_run_stores).
  assert (forall i, (i < 64)%nat -> m2 !! i = header_page !! i) as Hh2.
  { intros i Hi. destruct (lookup_copies E body_offsets m1 i HF') as [_ Hout]. unfold m2. rewrite Hout.
    - unfold m1. rewrite store_out by (cbn; lia). by apply Hhdr.
    - rewrite body_words. unfold in_body_bytes. lia. }
  cbn [app pending_ok]. exists (even_up L + 2). split.
  { left. cbn [fst snd]. split; [done|]. split; [rewrite Hseq; apply u64_add_l|]. split; [split; [lia|apply fresh_major; [lia|exact Hh2]]|]. intros _.
    exists s, E. split; [left|]. split; [done|]. intros i Hi.
    rewrite store_out by (cbn; unfold in_body_bytes in Hi; lia). destruct Hi as [Hi|Hi].
    - rewrite Hh2 by done. symmetry. apply (encode_header_bytes _ _ _ _ HE). lia.
    - by apply lookup_copies, body_words. }
  assert (forall m3, (forall i, (i < 64)%nat -> m3 !! i = m2 !! i) ->
    u64 (pw_seq w + 2) = u64 (even_up (even_up L + 2)) /\ header_fresh m3) as Hend.
  { intros m3 H3. split; [|intros i Hi; rewrite H3 by done; by apply Hh2].
    rewrite Hseq, u64_add_l. unfold even_up at 2. by rewrite Heven2. }
  destruct (negb (pw_hasLast w) || _); cbn [pending_ok].
  - exists (even_up L + 2). split; [right; left; done|]. intros _. apply Hend. intros i Hi.
    rewrite !store_out by (cbn; lia). done.
  - intros _. apply Hend. intros i Hi. rewrite store_out by (cbn; lia). done.
Qed.

(** ** The invariant along a run *)
Lemma content_more pubs s m : content pubs m -> content (s :: pubs) m.
Proof. intros (s' & E & Hs & H). exists s', E. split; [by right|done]. Qed.

Lemma inv_step L0 L st st' :
  inv L0 L st -> L0 <= L -> step st st' -> exists L', inv L0 L' st' /\ moves L L' (sy_mem st) (sy_mem st').
Proof.
  intros [Hl Hseq Hmaj Hp Hc] HL0 Hstep. destruct Hstep as [w m pubs s w' sts Hpub|w st sts m pubs|w pending m pubs w0 w' sts Hr];
    cbn [sy_mem sy_writer sy_pending sy_published] in *.
  - exists L. split; [|split; [lia|intros; reflexivity]].
    split; cbn [sy_mem sy_writer sy_pending sy_published]; [exact Hl|exact Hseq|exact Hmaj| |].
    + exact (publish_pending pubs L m w s w' sts Hl Hp Hpub).
    + intros He. destruct (Hc He) as [?|?]; [by left|right; by apply content_more].
  - destruct Hp as (L' & Hok & Hp). exists L'.
    destruct (store_step _ _ _ _ _ Hl Hseq Hmaj Hok) as (Hseq' & Hmaj' & Hmv). split; [|exact Hmv].
    split; cbn [sy_mem sy_writer sy_pending sy_published];
      [by rewrite length_apply_store|exact Hseq'|exact Hmaj'|exact Hp|]. intros He.
    destruct Hmv as [HL _]. destruct (decide (L' = L)) as [->|Hne].
    + destruct (Hc He) as [?|?]; [by left|right; by apply (store_content pubs L)].
    + right. destruct Hok as [(_ & _ & _ & H)|[(? & _)|[(? & _)|(? & _)]]]; [auto|done..].
  - exists L. split; [|split; [lia|intros; reflexivity]].
    split; cbn [sy_mem sy_writer sy_pending sy_published]; [exact Hl|exact Hseq|exact Hmaj| |exact Hc].
    exact (takeover_pending pubs L m w0 w' sts Hl Hseq Hmaj Hr).
Qed.

Lemma inv_steps L0 L n st st' :
  inv L0 L st -> L0 <= L -> nsteps step n st st' ->
  exists L', inv L0 L' st' /\ L <= L' <= L + 2 * Z.of_nat n /\
    (L' = L -> L mod 2 = 0 -> forall i, in_body_bytes i -> sy_mem st' !! i = sy_mem st !! i).
Proof.
  intros Hinv HL0 Hn. revert L Hinv HL0. induction Hn as [st|n st st1 st' Hstep Hn IH]; intros L Hinv HL0.
  - exists L. split; [done|]. split; [lia|done].
  - destruct (inv_step _ _ _ _ Hinv HL0 Hstep) as (L1 & Hinv1 & [Hmv Hbody]).
    destruct (IH L1 Hinv1) as (L' & Hinv' & HL' & Hbody'); [lia|]. exists L'. split; [done|]. split; [lia|].
    intros HE He i Hi. assert (L1 = L) as -> by lia. rewrite Hbody' by (done || lia). by apply Hbody.
Qed.

Lemma inv_start st : start st -> exists L0, inv L0 L0 st /\ page_seq (sy_mem st) = L0.
Proof.
  intros (Hw & Hp & _ & Hl & Hm). exists (page_seq (sy_mem st)). split; [|done]. unfold len, PageSize in Hl. split; [lia| |exact Hm| |by left].
  - symmetry. apply u64_small, word_range.
  - rewrite Hp. intros H. congruence.
Qed.

(** The fields lie in the header's first 64 bytes or in the body. *)
Lemma field_place f i :
  f ∈ pageLayout -> pf_name f ∉ ["seq"; "notifyEpoch"] -> pf_offset f <= Z.of_nat i < pf_offset f + pf_size f ->
  (i < 64)%nat \/ in_body_bytes i.
Proof.
  intros Hf Hn Hi. destruct (layout_row f Hf) as (_ & _ & _ & _ & _ & _ & Hlo & Hend). rewrite pageBodyEnd_val in Hend.
  rewrite layout_split in Hf. unfold in_body_bytes. apply elem_of_app in Hf as [Hf|Hf].
  - left. assert (pf_offset f + pf_size f <= 64) as H; [|lia].
    revert Hf Hn. clear. unfold header_layout. cbn. rewrite !elem_of_cons, elem_of_nil. intros Hf Hn.
    repeat destruct Hf as [->|Hf]; try (vm_compute; congruence); try done; exfalso; apply Hn; cbn; set_solver.
  - right. pose proof (laid_from _ _ _ body_laid Hf). lia.
Qed.

(** Content at rest decodes to the snapshot. *)
Lemma content_decodes pubs m :
  (4096 <= length m)%nat -> page_seq m mod 2 = 0 -> content pubs m ->
  exists s, s ∈ pubs /\ (typed_snapshot s -> decodePage m = Ok (page_view s)).
Proof.
  intros Hl He (s & E & Hs & HE & Hm). exists s. split; [done|]. apply holds_decodes.
  pose proof (EncodePage_zero_length s E HE) as HlE.
  destruct (encode_holds _ _ _ HE) as [_ Hc _ Hf]. split; [exact Hl|exact Hc|exact He|].
  intros f Hin Hn. destruct (Hf f Hin Hn) as (bs & Hbs & Hsl). exists bs. split; [exact Hbs|].
  rewrite <- Hsl at 2. apply slice_ext. intros i Hi. apply Hm, (field_place f); [done|done|].
  pose proof (page_fits s) as HF. rewrite Forall_forall in HF. specialize (HF f Hin bs Hbs).
  destruct (layout_row f Hin) as (_ & _ & _ & _ & _ & _ & Hlo & _). lia.
Qed.

(** ** Theorems *)

(** C1: the seqlock.  In any run of writers over one page that holds this ABI
    major or has seq 0 (a new, zeroed page), publications,
    crashes and takeovers included, take a reader that loads an even seq, later
    loads the same seq again, with fewer than 2^62 steps in between: every body
    byte it could load in between is the one of the first moment, and if the
    seq is not the one the run started with, that memory decodes to a snapshot
    published in the run. *)
Theorem seqlock_reads_one_publication (st0 st1 st st2 : system) (n0 n1 n2 : nat)
    (Hstart : start st0) (Hrun0 : nsteps step n0 st0 st1) (Hrun1 : nsteps step n1 st1 st) (Hrun2 : nsteps step n2 st st2)
    (Hbound : Z.of_nat n1 + Z.of_nat n2 < 2 ^ 62)
    (Heven : page_seq (sy_mem st1) mod 2 = 0) (Hsame : page_seq (sy_mem st2) = page_seq (sy_mem st1)) :
  (forall i, in_body_bytes i -> sy_mem st !! i = sy_mem st1 !! i) /\
  (page_seq (sy_mem st1) <> page_seq (sy_mem st0) ->
   exists s, s ∈ sy_published st1 /\ (typed_snapshot s -> decodePage (sy_mem st1) = Ok (page_view s))).
Proof.
  destruct (inv_start st0 Hstart) as (L0 & Hinv0 & HL0).
  destruct (inv_steps _ _ _ _ _ Hinv0 (Z.le_refl _) Hrun0) as (L1 & Hinv1 & HL1 & _).
  destruct (inv_steps _ _ _ _ _ Hinv1 ltac:(lia) Hrun1) as (L & Hinv & HL & Hbody).
  destruct (inv_steps _ _ _ _ _ Hinv ltac:(lia) Hrun2) as (L2 & Hinv2 & HL2 & _).
  pose proof (inv_seq _ _ _ Hinv1) as Hs1. pose proof (inv_seq _ _ _ Hinv2) as Hs2.
  rewrite Hs1 in Heven, Hsame. rewrite Hs2 in Hsame. rewrite u64_parity in Heven.
  assert (L2 = L1) as HLL.
  { unfold u64 in Hsame. pose proof (Z.div_mod L1 (2 ^ 64)). pose proof (Z.div_mod L2 (2 ^ 64)). nia. }
  split; [apply Hbody; [lia|done]|]. intros Hne.
  destruct (inv_content _ _ _ Hinv1 Heven) as [->|Hc].
  - exfalso. apply Hne. rewrite Hs1. symmetry. apply (inv_seq _ _ _ Hinv0).
  - apply content_decodes; [apply (inv_len _ _ _ Hinv1)|by rewrite Hs1, u64_parity|done].
Qed.

(** A run: a first writer takes the page over, publishes, and finishes. *)
Lemma run_pending w sts m pubs :
  nsteps step (length sts) (mkSystem w sts m pubs) (mkSystem w [] (run_stores m sts) pubs).
Proof.
  revert m. induction sts as [|st sts IH]; intros m; [constructor|]. econstructor; [constructor|]. apply IH.
Qed.
Definition resumed : PageWriter * list store := match Resume new_writer zero_page with Ok r => r | Err _ => (new_writer, []) end.
Definition published : PageWriter * list store := match Publish resumed.1 sample_snapshot with Ok r => r | Err _ => (new_writer, []) end.
Definition after_resume : list byte := run_stores zero_page resumed.2.
Definition after_publish : list byte := run_stores after_resume published.2.
Lemma sample_resume : Resume new_writer zero_page = Ok resumed.
Proof. unfold resumed. destruct (Resume new_writer zero_page) eqn:E; [reflexivity|]. rewrite Resume_Ok in E. discriminate E. Qed.
Lemma sample_publish : Publish resumed.1 sample_snapshot = Ok published.
Proof. unfold published. destruct (Publish resumed.1 sample_snapshot) eqn:E; [done|]. vm_compute in E. discriminate E. Qed.

Lemma seqlock_reads_one_publication_witness : decodePage after_publish = Ok (page_view sample_snapshot).
Proof.
  set (st0 := mkSystem new_writer [] zero_page []).
  set (st1 := mkSystem published.1 [] after_publish [sample_snapshot]).
  assert (exists n, nsteps step n st0 st1) as [n Hrun].
  { eexists. eapply nsteps_trans; [|eapply nsteps_trans].
    - eapply nsteps_l; [|apply (run_pending resumed.1 resumed.2)]. apply (step_takeover new_writer [] zero_page [] new_writer).
      rewrite sample_resume. apply f_equal, surjective_pairing.
    - apply nsteps_once, (step_publish _ _ _ sample_snapshot published.1 published.2).
      rewrite sample_publish. apply f_equal, surjective_pairing.
    - apply (run_pending published.1 published.2). }
  destruct (seqlock_reads_one_publication st0 st1 st1 st1 n 0 0) as [_ H].
  - split; [reflexivity|]. split; [reflexivity|]. split; [reflexivity|]. split; [vm_compute; discriminate|right; vm_compute; reflexivity].
  - exact Hrun.
  - constructor.
  - constructor.
  - reflexivity.
  - vm_compute. reflexivity.
  - reflexivity.
  - destruct H as (s & Hs & Hd); [vm_compute; discriminate|]. apply list_elem_of_singleton in Hs as ->.
    apply Hd, sample_typed.
Defined.

(** ** Recovery *)
Lemma Resume_length w m w' sts : Resume w m = Ok (w', sts) -> length sts = 8%nat /\ pw_resumed w' = true.
Proof.
  rewrite Resume_Ok. intros [= <- <-]. split; [|reflexivity].
  unfold copies. rewrite length_fmap, header_order_val. destruct (shrinks m); reflexivity.
Qed.
Lemma Publish_length w s w' sts : Publish w s = Ok (w', sts) -> (length sts <= 272)%nat.
Proof.
  intros H. unfold Publish in H. apply checked_Ok in H as [_ H]. apply res_bind_Ok in H as (E & _ & [= _ <-]).
  cbn [length]. rewrite !length_app. change (body_stores E) with (copies E body_offsets).
  unfold copies. rewrite length_fmap, body_offsets_val, length_fmap, length_seq. case_match; cbn; lia.
Qed.
Lemma Publish_Ok w s E : pw_resumed w = true -> EncodePage zero_page s = Ok E -> exists w' sts, Publish w s = Ok (w', sts).
Proof. intros Hw HE. unfold Publish. rewrite Hw, HE. cbn. eauto. Qed.
Lemma u64_inj_near a b : u64 a = u64 b -> a <= b < a + 2 ^ 64 -> a = b.
Proof. unfold u64. pose proof (Z.div_mod a (2 ^ 64)). pose proof (Z.div_mod b (2 ^ 64)). nia. Qed.

(** A takeover and one publication, from a page whose sequence number is [L]. *)
Lemma recovery L m w0 w1 sts1 s w2 sts2 :
  (4096 <= length m)%nat -> page_seq m = u64 L -> claimed L m ->
  Resume w0 m = Ok (w1, sts1) -> Publish w1 s = Ok (w2, sts2) ->
  let m' := run_stores (run_stores m sts1) sts2 in
  page_seq m' mod 2 = 0 /\ page_seq m' <> page_seq m /\ content [s] m'.
Proof.
  intros Hl Hseq Hmaj Hr Hp m'. destruct (Resume_length _ _ _ _ Hr) as [Hn1 Hres]. pose proof (Publish_length _ _ _ _ Hp) as Hn2.
  assert (inv L L (mkSystem w1 sts1 m [])) as Hinv.
  { split; cbn; [done..| |by left]. by apply (takeover_pending [] L m w0). }
  destruct (inv_steps _ _ _ _ _ Hinv (Z.le_refl _) (run_pending w1 sts1 m [])) as (L1 & Hinv1 & HL1 & _).
  destruct (inv_pending _ _ _ Hinv1 Hres) as [Hw1 _]. cbn [sy_writer sy_mem] in Hw1.
  assert (nsteps step (S (length sts2)) (mkSystem w1 [] (run_stores m sts1) []) (mkSystem w2 [] m' [s])) as Hrun.
  { econstructor; [by apply step_publish|apply run_pending]. }
  destruct (inv_steps _ _ _ _ _ Hinv1 ltac:(lia) Hrun) as (L2 & Hinv2 & HL2 & _).
  pose proof (inv_seq _ _ _ Hinv2) as Hs2. pose proof (inv_content _ _ _ Hinv2) as Hc2. cbn [sy_mem sy_published] in Hs2, Hc2.
  destruct (publish_words w1 s w2 sts2 (run_stores m sts1) ltac:(by rewrite length_run_stores) Hp) as (Hs & _).
  fold m' in Hs. rewrite Hw1, u64_add_l in Hs. destruct (even_up_spec L1) as [He1 He2]. destruct (succ_parity _ He2) as [_ He3].
  assert (u64 L <> u64 (even_up L1 + 2)) as Hne by (intros E%u64_inj_near; lia).
  rewrite Hs, u64_parity, Hseq. split; [done|]. split; [congruence|].
  destruct Hc2 as [->|Hc]; [|congruence|done]. by rewrite <- u64_parity, <- Hs2, Hs, u64_parity.
Qed.

(** C3: A crash never wedges the page.  From any state a run can reach that
    began on a page of this ABI major or with seq 0 (a new, zeroed page), a
    publication or a first takeover cut off in the middle included, a new writer's [Resume]
    succeeds, its [Publish] of any snapshot that encodes succeeds, and once
    their stores, at most 280, are made the seq is even, differs from the one a
    reader may have been stuck on, and the page decodes to that snapshot. *)
Theorem crash_recovery (st0 st : system) (n : nat) (w0 : PageWriter) (s : PageSnapshot) (E : list byte)
    (Hstart : start st0) (Hrun : nsteps step n st0 st) (HE : EncodePage zero_page s = Ok E) :
  exists w1 sts1 w2 sts2,
    Resume w0 (sy_mem st) = Ok (w1, sts1) /\ Publish w1 s = Ok (w2, sts2) /\ (length sts1 + length sts2 <= 280)%nat /\
    let m := run_stores (run_stores (sy_mem st) sts1) sts2 in
    page_seq m mod 2 = 0 /\ page_seq m <> page_seq (sy_mem st) /\ (typed_snapshot s -> decodePage m = Ok (page_view s)).
Proof.
  destruct (inv_start st0 Hstart) as (L0 & Hinv0 & _).
  destruct (inv_steps _ _ _ _ _ Hinv0 (Z.le_refl _) Hrun) as (L & [Hl Hseq Hmaj _ _] & _ & _).
  destruct (Resume w0 (sy_mem st)) as [[w1 sts1]|e] eqn:Hr; [|by rewrite Resume_Ok in Hr].
  destruct (Resume_length _ _ _ _ Hr) as [Hn1 Hres]. destruct (Publish_Ok w1 s E Hres HE) as (w2 & sts2 & Hp).
  exists w1, sts1, w2, sts2. pose proof (Publish_length _ _ _ _ Hp).
  destruct (recovery L _ _ _ _ _ _ _ Hl Hseq Hmaj Hr Hp) as (He & Hne & Hc).
  split; [done|]. split; [done|]. split; [lia|]. split; [done|]. split; [done|].
  assert (4096 <= length (run_stores (run_stores (sy_mem st) sts1) sts2))%nat as Hl' by (rewrite !length_run_stores; exact Hl).
  destruct (content_decodes _ _ Hl' He Hc) as (s' & Hs & Hd). apply list_elem_of_singleton in Hs as ->. exact Hd.
Qed.

(** The page recovered: its first writer died after the store that made seq odd. *)
Definition cut_off : system :=
  mkSystem published.1 (tail published.2) (run_stores after_resume (take 1 published.2)) [sample_snapshot].
Lemma cut_off_reached : nsteps step 11 (mkSystem new_writer [] zero_page []) cut_off.
Proof.
  assert (published.2 <> []) as Hne by (vm_compute; discriminate).
  change 11%nat with (S (8 + S 1))%nat.
  econstructor.
  - apply (step_takeover new_writer [] zero_page [] new_writer resumed.1 resumed.2).
    rewrite sample_resume. apply f_equal, surjective_pairing.
  - eapply nsteps_trans; [apply (run_pending resumed.1 resumed.2)|].
    econstructor; [apply (step_publish _ _ _ sample_snapshot published.1 published.2)|].
    + rewrite sample_publish. apply f_equal, surjective_pairing.
    + apply nsteps_once. unfold cut_off. destruct (published.2) as [|st sts]; [done|]. constructor.
Qed.
Lemma crash_recovery_witness :
  page_seq (sy_mem cut_off) mod 2 = 1 /\
  exists w1 sts1 w2 sts2, Resume new_writer (sy_mem cut_off) = Ok (w1, sts1) /\ Publish w1 sample_snapshot = Ok (w2, sts2) /\
    decodePage (run_stores (run_stores (sy_mem cut_off) sts1) sts2) = Ok (page_view sample_snapshot).
Proof.
  split; [vm_compute; reflexivity|].
  destruct (EncodePage zero_page sample_snapshot) as [E|] eqn:HE; [|vm_compute in HE; discriminate HE].
  destruct (crash_recovery (mkSystem new_writer [] zero_page []) cut_off 11 new_writer sample_snapshot E)
    as (w1 & sts1 & w2 & sts2 & Hr & Hp & _ & _ & _ & Hd).
  - split; [reflexivity|]. split; [reflexivity|]. split; [reflexivity|]. split; [vm_compute; discriminate|right; vm_compute; reflexivity].
  - exact cut_off_reached.
  - exact HE.
  - exists w1, sts1, w2, sts2. split; [exact Hr|]. split; [exact Hp|]. apply Hd, sample_typed.
Defined.

(** ** A stale seq *)
(** [Resume] on a page that does not hold this major starts its own seq at 0
    but leaves the word on the page as it is.  If that word is 2, the header
    becomes one readers accept while seq is 2, and the first publication ends at
    2 again: a reader that loaded 2 on both sides can have read bytes from
    before and from after it. *)
Definition stale_page : list byte := apply_store zero_page (64%nat, 2).
Definition stale_resumed : PageWriter * list store := ok_or (new_writer, []) (Resume new_writer stale_page).
Definition stale_published : PageWriter * list store := ok_or (new_writer, []) (Publish stale_resumed.1 sample_snapshot).
Theorem stale_seq_mixes : exists st1 st2 n1 n2,
  nsteps step n1 (mkSystem new_writer [] stale_page []) st1 /\ nsteps step n2 st1 st2 /\
  holds_major stale_page = false /\ holds_major (sy_mem st1) = true /\ page_seq (sy_mem st1) = 2 /\ page_seq (sy_mem st2) = 2 /\
  exists i, in_body_bytes i /\ sy_mem st1 !! i <> sy_mem st2 !! i.
Proof.
  assert (Resume new_writer stale_page = Ok stale_resumed) as Hr by (apply ok_or_spec; by rewrite Resume_Ok).
  assert (Publish stale_resumed.1 sample_snapshot = Ok stale_published) as Hp by (apply ok_or_spec; vm_compute; reflexivity).
  rewrite (surjective_pairing stale_resumed) in Hr at 1. rewrite (surjective_pairing stale_published) in Hp at 1.
  set (m1 := run_stores stale_page stale_resumed.2).
  exists (mkSystem stale_resumed.1 [] m1 []), (mkSystem stale_published.1 [] (run_stores m1 stale_published.2) [sample_snapshot]).
  do 2 eexists. split; [eapply nsteps_l; [by apply (step_takeover _ _ _ _ new_writer)|apply run_pending]|].
  split; [eapply nsteps_l; [by apply step_publish|apply run_pending]|].
  split_and!; [vm_compute; reflexivity..|]. exists 192%nat. split; [unfold in_body_bytes; lia|]. vm_compute. discriminate.
Qed.
