(* ===== verification/BudgetAnnotation.v ===== *)
(** * The annotation payloads
    (src/budget/v1alpha1/annotationpayload.go, annotations.go)

    A node reports its observation, and the relay its desired policy, as JSON
    in a Node annotation.  The text-to-tree step is encoding/json's; a JSON
    value is its tree with the members of an object in text order, repeats
    included, so the duplicate-key walk, the exact-key walk and the schema
    probe are those of the code. *)
From S2P Require Import Prelude GoLib BudgetVocab BudgetTypes BudgetLadder BudgetPolicy BudgetObservation.

Definition BudgetAnnotationSchema : Z := 1.
Definition MaxBudgetAnnotationBytes : Z := 16384.
Definition ErrUnknownBudgetSchema : string := "budgetv1alpha1: unknown budget annotation schema".
Definition ErrInvalidBudgetAnnotation : string := "budgetv1alpha1: invalid budget annotation".
Definition ErrBudgetAnnotationTooLarge : string := "budgetv1alpha1: budget annotation too large".

Definition AnnotationStatus : string := "budget.k3sm.io/status".
Definition AnnotationPolicy : string := "budget.k3sm.io/policy".
Definition AnnotationBand : string := "budget.k3sm.io/band".
Definition AnnotationPage : string := "budget.k3sm.io/page".
Definition TaintAdmitStop : string := "budget.k3sm.io/admit-stop".
Definition TaintAdmitStopEffect : string := "PreferNoSchedule".

(** ** JSON trees and tokens *)
#[local] Set Warnings "-register-all".
Inductive json :=
| JNull
| JBool (b : bool)
| JNum (raw : string)
| JStr (s : string)
| JArr (vs : list json)
| JObj (ms : list (string * json)).

(** What [Decoder.Token] yields, in order. *)
Inductive token :=
| TDelim (c : ascii)
| TStr (s : string)
| TLit.

Fixpoint tokens (v : json) : list token :=
  match v with
  | JNull | JBool _ | JNum _ => [TLit]
  | JStr s => [TStr s]
  | JArr vs => TDelim "[" :: concat (map tokens vs) ++ [TDelim "]"]
  | JObj ms => TDelim "{" :: concat (map (fun m => TStr m.1 :: tokens m.2) ms) ++ [TDelim "}"]
  end.

(** ** checkDuplicateKeys *)
Record frame := mkFrame { fr_obj : bool; fr_expectKey : bool; fr_keys : gset string }.

(** The stack has its top first. *)
Definition valueDone (stack : list frame) : list frame :=
  match stack with
  | f :: s => if fr_obj f then mkFrame true true (fr_keys f) :: s else stack
  | [] => []
  end.

(** One iteration of the loop: an error, the end, or the next stack. *)
Inductive walk := Fails (e : error) | Ends | Goes (stack : list frame).

Definition key_step (f : frame) (s : list frame) (tok : token) : walk :=
  match tok with
  | TDelim "}" => Goes (valueDone s)
  | _ =>
      let k := match tok with TStr k => k | _ => "" end in
      if bool_decide (k ∈ fr_keys f) then Fails (Errorf "key %q is repeated" [ArgS k])
      else Goes (mkFrame (fr_obj f) false ({[k]} ∪ fr_keys f) :: s)
  end.
Definition value_step (stack : list frame) (tok : token) : list frame :=
  match tok with
  | TDelim "{" => mkFrame true true ∅ :: stack
  | TDelim "[" => mkFrame false false ∅ :: stack
  | TDelim _ => valueDone (tail stack)
  | _ => valueDone stack
  end.
Definition token_step (stack : list frame) (tok : token) : walk :=
  match stack with
  | f :: s => if fr_obj f && fr_expectKey f then key_step f s tok
              else match value_step stack tok with [] => Ends | st => Goes st end
  | [] => match value_step [] tok with [] => Ends | st => Goes st end
  end.

Fixpoint walk_tokens (stack : list frame) (toks : list token) : check :=
  match toks with
  | [] => None
  | tok :: toks' =>
      match token_step stack tok with
      | Fails e => Some e
      | Ends => None
      | Goes stack' => walk_tokens stack' toks'
      end
  end.
Definition checkDuplicateKeys (toks : list token) : check := walk_tokens [] toks.

(** ** checkExactKeys *)

(** What the walk reads of a Go type: the exported struct fields, each with its
    JSON name (the tag's, or the Go name of an untagged field) and whether it is
    an embedded struct, whose name is empty when it is inlined. *)
Inductive gotype :=
| GStruct (fs : list (string * bool * gotype))
| GSlice (t : gotype)
| GPtr (t : gotype)
| GTime
| GOther.

(** [collectJSONFields]: later names replace earlier ones, as in the map. *)
Fixpoint collectJSONFields (t : gotype) : list (string * gotype) :=
  match t with
  | GStruct fs =>
      concat (map (fun f => match f with
                            | (name, inline, ft) =>
                                if String.eqb name "-" then []
                                else if inline && String.eqb name "" then collectJSONFields ft
                                else [(name, ft)]
                            end) fs)
  | _ => []
  end.
Definition field_type (k : string) (fields : list (string * gotype)) : option gotype :=
  snd <$> List.find (fun f => String.eqb f.1 k) (reverse fields).

Fixpoint deref (t : gotype) : gotype := match t with GPtr t' => deref t' | _ => t end.

(** [strings.TrimPrefix(path, ".")]. *)
Definition trim_dot (path : string) : string :=
  match path with String "." path' => path' | _ => path end.

Fixpoint checkExactKeys (v : json) (t : gotype) (path : string) : check :=
  match v, deref t with
  | JNull, _ => None
  | JObj ms, GStruct fs =>
      (fix members (ms : list (string * json)) : check :=
         match ms with
         | [] => None
         | (k, child) :: ms' =>
             match field_type k (collectJSONFields (GStruct fs)) with
             | None => Some (Errorf "%s: unknown field %q" [ArgS (trim_dot path); ArgS k])
             | Some ft => checkExactKeys child ft (path +:+ "." +:+ k) ;? members ms'
             end
         end) ms
  | JArr vs, GSlice et =>
      (fix elements (i : Z) (vs : list json) : check :=
         match vs with
         | [] => None
         | e :: vs' => checkExactKeys e et (path +:+ "[" +:+ pretty i +:+ "]") ;? elements (i + 1) vs'
         end) 0 vs
  | _, _ => None
  end.

(** ** mergeUnknownWindows *)

(** The sum of two counts, saturating at the largest int64. *)
Definition sat_add (a w : Z) : Z :=
  if (0 <? w) && (MaxInt64 - w <? a) then MaxInt64 else i64_of_u64 (u64 (a + w)).

Fixpoint merge_windows (out : list WindowCount) (at_ : gmap string nat) (ws : list WindowCount) : list WindowCount :=
  match ws with
  | [] => out
  | w :: ws' =>
      if negb (String.eqb (wc_Reason w) CounterUnknown) then merge_windows (out ++ [w]) at_ ws'
      else match at_ !! (wc_Window w : string) with
           | None => merge_windows (out ++ [w]) (<[(wc_Window w : string) := length out]> at_) ws'
           | Some i =>
               let add o := mkWindowCount (wc_Window o) (wc_Reason o) (sat_add (wc_Count o) (wc_Count w)) in
               merge_windows (alter add i out) at_ ws'
           end
  end.
Definition mergeUnknownWindows (ws : list WindowCount) : list WindowCount := merge_windows [] ∅ ws.

(** ** The payloads *)
Record NodeBudgetReport := mkReport {
  rep_Schema : Z;
  rep_Observation : NodeBudgetObservation;
}.
Record NodeBudgetDesiredPolicy := mkDesired {
  dp_Schema : Z;
  dp_Name : string;
  dp_ResourceVersion : string;
  dp_Spec : NodeBudgetPolicySpec;
}.

Definition NodeBudgetReport_Validate (r : NodeBudgetReport) : check :=
  failif (negb (rep_Schema r =? BudgetAnnotationSchema))
    (ErrorfW "%w: report schema %d, want %d" [ArgZ (rep_Schema r); ArgZ BudgetAnnotationSchema] (ErrNew ErrUnknownBudgetSchema)) ;?
  wrapc (ErrorfWW "%w: %w" [] (ErrNew ErrInvalidBudgetAnnotation)) (NodeBudgetObservation_Validate (rep_Observation r)).

Definition NodeBudgetDesiredPolicy_Validate (d : NodeBudgetDesiredPolicy) : check :=
  failif (negb (dp_Schema d =? BudgetAnnotationSchema))
    (ErrorfW "%w: desired schema %d, want %d" [ArgZ (dp_Schema d); ArgZ BudgetAnnotationSchema] (ErrNew ErrUnknownBudgetSchema)) ;?
  failif (negb (isObjectName (dp_Name d)))
    (ErrorfW "%w: desired name %q is not an object name" [ArgS (dp_Name d)] (ErrNew ErrInvalidBudgetAnnotation)) ;?
  failif (negb (isPrintableASCII (dp_ResourceVersion d) MaxPolicyResourceVersionBytes))
    (ErrorfW "%w: desired resourceVersion is not 1..%d printable ASCII bytes" [ArgZ MaxPolicyResourceVersionBytes]
      (ErrNew ErrInvalidBudgetAnnotation)) ;?
  wrapc (ErrorfWW "%w: %w" [] (ErrNew ErrInvalidBudgetAnnotation)) (NodeBudgetPolicySpec_Validate (dp_Spec d)).

(** ** The strict decoder

    encoding/json is used through the operations below.  [ej_read] reads the
    first JSON value of a text and returns what is left of the text after it
    and the white space that follows; [ej_fold] is the case folding by which
    the package matches keys with field names.  The excerpt of the raw schema
    in the error text is left out. *)
Class EncodingJSON := {
  ej_read : string -> res (json * string);
  ej_fold : string -> string;
}.
(** A Go type the package encodes and decodes: its shape, the assignment of a
    tree to a value with unknown fields disallowed, and the marshalled text. *)
Class Payload (T : Type) := {
  pl_type : gotype;
  pl_decode : json -> res T;
  pl_marshal : T -> res string;
}.

Section Decoder.
Context `{EJ : EncodingJSON}.

(** [json.Unmarshal]: one value and nothing after it. *)
Definition json_Unmarshal (value : string) : res json :=
  let? r := ej_read value in
  if String.eqb r.2 "" then Ok r.1 else Err (Errorf "invalid character after top-level value" []).

(** The raw schema of the probe struct: the last member whose key folds to
    "schema"; a value that is neither an object nor null is an error. *)
Definition probe_schema (v : json) : res (option json) :=
  match v with
  | JNull => Ok None
  | JObj ms => Ok (snd <$> List.find (fun m => String.eqb (ej_fold m.1) (ej_fold "schema")) (reverse ms))
  | _ => Err (Errorf "json: cannot unmarshal into Go value of type struct" [])
  end.
Definition wrap_invalid (e : error) : error := ErrorfWW "%w: %w" [] (ErrNew ErrInvalidBudgetAnnotation) e.
Definition res_wrap {A} (f : error -> error) (r : res A) : res A := match r with Ok a => Ok a | Err e => Err (f e) end.

(** Steps 3 to 6: decode, no trailing data, no repeated key, exact keys. *)
Definition decode_strict {T} `{PL : Payload T} (value : string) : res T :=
  let? first := res_wrap wrap_invalid (ej_read value) in
  let? v := res_wrap wrap_invalid (pl_decode first.1) in
  failif (negb (String.eqb first.2 ""))
    (ErrorfW "%w: trailing data after the payload" [] (ErrNew ErrInvalidBudgetAnnotation)) ;!
  wrapc wrap_invalid (checkDuplicateKeys (tokens first.1)) ;!
  let? generic := res_wrap wrap_invalid (json_Unmarshal value) in
  wrapc wrap_invalid (checkExactKeys generic pl_type "") ;!
  Ok v.

(** The raw schema is exactly the text of [BudgetAnnotationSchema]. *)
Definition schema_current (raw : json) : bool :=
  match raw with JNum r => String.eqb r (pretty BudgetAnnotationSchema) | _ => false end.

Definition decodeBudgetAnnotation {T} `{PL : Payload T} (value : string) : res T :=
  failif (MaxBudgetAnnotationBytes <? slen value)
    (ErrorfWW "%w: %w: payload is %d bytes, at most %d" [ArgZ (slen value); ArgZ MaxBudgetAnnotationBytes]
      (ErrNew ErrInvalidBudgetAnnotation) (ErrNew ErrBudgetAnnotationTooLarge)) ;!
  let? schema := res_wrap wrap_invalid (let? v := json_Unmarshal value in probe_schema v) in
  match schema with
  | None | Some JNull => Err (ErrorfW "%w: payload has no schema" [] (ErrNew ErrUnknownBudgetSchema))
  | Some raw =>
      failif (negb (schema_current raw))
        (ErrorfW "%w: schema %.32s, want %s" [ArgS (pretty BudgetAnnotationSchema)] (ErrNew ErrUnknownBudgetSchema)) ;!
      decode_strict value
  end.

Definition encodeBudgetAnnotation {T} `{Payload T} (v : T) : res string :=
  let? b := res_wrap wrap_invalid (pl_marshal v) in
  failif (MaxBudgetAnnotationBytes <? slen b)
    (ErrorfWW "%w: %w: payload is %d bytes, at most %d" [ArgZ (slen b); ArgZ MaxBudgetAnnotationBytes]
      (ErrNew ErrInvalidBudgetAnnotation) (ErrNew ErrBudgetAnnotationTooLarge)) ;!
  Ok b.

Context `{PR : Payload NodeBudgetReport} `{PD : Payload NodeBudgetDesiredPolicy}.

Definition merge_counters (o : NodeBudgetObservation) : NodeBudgetObservation :=
  let merge c := mkBandCounters (bc_Band c) (bc_EvictionsTotal c) (bc_OOMKillsTotal c) (bc_KernelKillsTotal c)
    (bc_RestartsTotal c) (bc_MemHighEventsTotal c) (bc_Tier1RefusedTotal c) (mergeUnknownWindows (bc_Windows c)) in
  mkObservation (obs_ObservedAt o) (obs_ProducerGeneration o) (obs_Platform o) (obs_Level o) (obs_Admit o)
    (obs_AdmitReasonSignal o) (obs_EvictDeadline o) (obs_Capacity o) (obs_Signals o) (obs_Recommendation o) (obs_KillMode o)
    (obs_WouldKill o) (match obs_Counters o with Some cs => Some (merge <$> cs) | None => None end) (obs_Policy o) (obs_InForce o) (obs_Darwin o) (obs_Linux o).

Definition ParseNodeBudgetReport (value : string) : res NodeBudgetReport :=
  let? r := decodeBudgetAnnotation (T := NodeBudgetReport) value in
  let r := mkReport (rep_Schema r) (merge_counters (rep_Observation r)) in
  NodeBudgetReport_Validate r ;! Ok r.
Definition ParseNodeBudgetDesiredPolicy (value : string) : res NodeBudgetDesiredPolicy :=
  let? d := decodeBudgetAnnotation (T := NodeBudgetDesiredPolicy) value in
  NodeBudgetDesiredPolicy_Validate d ;! Ok d.

Definition NodeBudgetReport_Encode (r : NodeBudgetReport) : res string :=
  NodeBudgetReport_Validate r ;!
  let? s := encodeBudgetAnnotation r in
  let? _ := ParseNodeBudgetReport s in Ok s.
Definition NodeBudgetDesiredPolicy_Encode (d : NodeBudgetDesiredPolicy) : res string :=
  NodeBudgetDesiredPolicy_Validate d ;!
  let? s := encodeBudgetAnnotation d in
  let? _ := ParseNodeBudgetDesiredPolicy s in Ok s.
End Decoder.

(** ** Reference definitions *)

(** The first repeated key of the tree, in text order: the recursive account of
    the token walk. *)
Fixpoint dup_keys (v : json) : check :=
  match v with
  | JArr vs => foldr (fun v k => dup_keys v ;? k) None vs
  | JObj ms =>
      (fix members (seen : gset string) (ms : list (string * json)) : check :=
         match ms with
         | [] => None
         | (k, c) :: ms' =>
             failif (bool_decide (k ∈ seen)) (Errorf "key %q is repeated" [ArgS k]) ;?
             dup_keys c ;? members ({[k]} ∪ seen) ms'
         end) ∅ ms
  | _ => None
  end.
Definition dup_members : gset string -> list (string * json) -> check :=
  fix members (seen : gset string) (ms : list (string * json)) : check :=
    match ms with
    | [] => None
    | (k, c) :: ms' =>
        failif (bool_decide (k ∈ seen)) (Errorf "key %q is repeated" [ArgS k]) ;?
        dup_keys c ;? members ({[k]} ∪ seen) ms'
    end.

(** No object of the tree names a key twice. *)
Inductive keys_once : json -> Prop :=
| once_null : keys_once JNull
| once_bool b : keys_once (JBool b)
| once_num r : keys_once (JNum r)
| once_str s : keys_once (JStr s)
| once_arr vs : Forall keys_once vs -> keys_once (JArr vs)
| once_obj ms : NoDup (fst <$> ms) -> Forall keys_once (snd <$> ms) -> keys_once (JObj ms).

(** The tree by induction, with the hypothesis for every child. *)
Lemma json_rect_nested (P : json -> Prop) :
  P JNull -> (forall b, P (JBool b)) -> (forall r, P (JNum r)) -> (forall s, P (JStr s)) ->
  (forall vs, Forall P vs -> P (JArr vs)) -> (forall ms, Forall (fun m => P m.2) ms -> P (JObj ms)) -> forall v, P v.
Proof.
  intros Hn Hb Hr Hs Ha Ho. fix IH 1. intros [| | | |vs|ms]; [done|apply Hb|apply Hr|apply Hs|apply Ha|apply Ho].
  - induction vs as [|v vs IHvs]; constructor; [apply IH|apply IHvs].
  - induction ms as [|[k v] ms IHms]; constructor; [apply IH|apply IHms].
Qed.

Lemma dup_keys_once v : dup_keys v = None <-> keys_once v.
Proof.
  induction v as [| | | |vs IH|ms IH] using json_rect_nested; try (split; [constructor|done]).
  - assert (foldr (fun v k => dup_keys v ;? k) None vs = None <-> Forall keys_once vs) as H.
    { induction IH as [|v vs Hv _ IHvs]; simpl; [split; constructor|]. by rewrite andthen_None, Forall_cons, Hv, IHvs. }
    simpl. rewrite H. split; [by constructor|by inversion 1].
  - assert (forall seen, dup_members seen ms = None <->
      NoDup (fst <$> ms) /\ (forall k, k ∈ fst <$> ms -> k ∉ seen) /\ Forall keys_once (snd <$> ms)) as H.
    { induction IH as [|[k c] ms Hv _ IHms]; intros seen; simpl.
      - split; [intros _; split; [constructor|split; [set_solver|constructor]]|done].
      - rewrite !andthen_None, failif_None, bool_decide_eq_false, Hv, IHms, NoDup_cons, Forall_cons. simpl.
        setoid_rewrite elem_of_cons. split.
        + intros (Hk & Hc & Hnd & Hs & HF). split_and!; try done; [|set_solver]. intros Hin. apply (Hs k Hin). set_solver.
        + intros ([Hk Hnd] & Hs & Hc & HF). split_and!; try done; [set_solver|]. intros k' Hk' Hin.
          apply elem_of_union in Hin as [->%elem_of_singleton|Hin]; [done|]. apply (Hs k'); [by right|done]. }
    change (dup_keys (JObj ms)) with (dup_members ∅ ms). rewrite H. split.
    + intros (? & _ & ?). by constructor.
    + inversion 1; subst. split_and!; [done|set_solver|done].
Qed.

(** A stack whose top waits for a value. *)
Definition wants_value (stack : list frame) : Prop :=
  match stack with f :: _ => fr_obj f && fr_expectKey f = false | [] => False end.

Lemma andthen_assoc (a b c : check) : ((a ;? b) ;? c) = (a ;? (b ;? c)).
Proof. by destruct a. Qed.

Lemma valueDone_cons stack : wants_value stack -> exists f s, valueDone stack = f :: s.
Proof. destruct stack as [|f s]; [done|]. intros _. simpl. destruct (fr_obj f); eauto. Qed.

Lemma walk_scalar stack tok rest :
  wants_value stack -> value_step stack tok = valueDone stack -> walk_tokens stack (tok :: rest) = walk_tokens (valueDone stack) rest.
Proof.
  intros Hw Hs. destruct (valueDone_cons stack Hw) as (f & s & He). destruct stack as [|g st]; [done|].
  cbn [walk_tokens]. unfold token_step. unfold wants_value in Hw. rewrite Hw, Hs, He. done.
Qed.

(** The walk of a value is its duplicate check, then the walk of the rest. *)
Definition walks (v : json) : Prop := forall stack rest, wants_value stack ->
  walk_tokens stack (tokens v ++ rest) = (dup_keys v ;? walk_tokens (valueDone stack) rest).

Lemma walk_elements vs base rest :
  Forall walks vs ->
  walk_tokens (mkFrame false false ∅ :: base) (concat (map tokens vs) ++ rest) =
  (dup_keys (JArr vs) ;? walk_tokens (mkFrame false false ∅ :: base) rest).
Proof.
  induction 1 as [|v vs Hv _ IH]; [done|]. simpl. rewrite <- app_assoc, Hv, andthen_assoc by done. f_equal. apply IH.
Qed.
Lemma walk_members ms seen base rest :
  Forall (fun m => walks m.2) ms ->
  walk_tokens (mkFrame true true seen :: base) (concat (map (fun m => TStr m.1 :: tokens m.2) ms) ++ TDelim "}" :: rest) =
  (dup_members seen ms ;? walk_tokens (valueDone base) rest).
Proof.
  intros HF. revert seen. induction HF as [|[k c] ms Hv _ IH]; intros seen; [done|].
  cbn [map concat app walk_tokens token_step fr_obj fr_expectKey andb key_step fst snd dup_members fr_keys].
  case_bool_decide; [done|]. cbn [failif andthen]. rewrite <- app_assoc, Hv by done. rewrite andthen_assoc. f_equal.
  cbn [valueDone fr_obj fr_keys]. apply IH.
Qed.

Lemma walk_value v : walks v.
Proof.
  induction v as [| | | |vs IH|ms IH] using json_rect_nested; intros stack rest Hw;
    try (apply walk_scalar; [done|reflexivity]);
    destruct (valueDone_cons stack Hw) as (g & st & Hd); destruct stack as [|f s]; try done; unfold wants_value in Hw;
    cbn [tokens app walk_tokens token_step]; rewrite Hw; cbn [value_step]; rewrite <- app_assoc.
  - rewrite walk_elements by done. f_equal. cbn [app walk_tokens token_step fr_obj andb value_step tail]. by rewrite Hd.
  - cbn [app]. by rewrite walk_members.
Qed.

Lemma walk_top v : checkDuplicateKeys (tokens v) = dup_keys v.
Proof.
  unfold checkDuplicateKeys. destruct v as [| | | |vs|ms]; try done; cbn [tokens app walk_tokens token_step value_step].
  - rewrite walk_elements by (apply Forall_true; apply walk_value). cbn. by destruct (foldr _ None vs).
  - rewrite walk_members by (apply Forall_true; intros; apply walk_value).
    change (dup_keys (JObj ms)) with (dup_members ∅ ms). cbn. by destruct (dup_members ∅ ms).
Qed.

(** ** Theorems *)

(** C25: the token walk of [checkDuplicateKeys], with its stack of frames,
    is the recursive search of the tree: it reports the same key, the first one
    in text order that its object already named; and it reports none exactly
    when no object of the tree, at any depth, names a key twice. *)
Theorem checkDuplicateKeys_spec (v : json) :
  checkDuplicateKeys (tokens v) = dup_keys v /\ (checkDuplicateKeys (tokens v) = None <-> keys_once v).
Proof. by rewrite walk_top, dup_keys_once. Qed.

(** Every object key under a struct type is, byte for byte, a field's name. *)
Inductive exact_keys : json -> gotype -> Prop :=
| exact_obj ms t fs :
    deref t = GStruct fs ->
    Forall (fun m => exists ft, field_type m.1 (collectJSONFields (GStruct fs)) = Some ft /\ exact_keys m.2 ft) ms ->
    exact_keys (JObj ms) t
| exact_arr vs t et : deref t = GSlice et -> Forall (fun v => exact_keys v et) vs -> exact_keys (JArr vs) t
| exact_leaf v t :
    (forall ms fs, v = JObj ms -> deref t <> GStruct fs) -> (forall vs et, v = JArr vs -> deref t <> GSlice et) -> exact_keys v t.

Lemma exact_obj_inv ms t fs :
  exact_keys (JObj ms) t -> deref t = GStruct fs ->
  Forall (fun m => exists ft, field_type m.1 (collectJSONFields (GStruct fs)) = Some ft /\ exact_keys m.2 ft) ms.
Proof.
  intros H E. inversion H as [? ? fs' E' HF| |? ? Hn _]; subst; [|by destruct (Hn ms fs)].
  rewrite E in E'. by injection E' as ->.
Qed.
Lemma exact_arr_inv vs t et : exact_keys (JArr vs) t -> deref t = GSlice et -> Forall (fun v => exact_keys v et) vs.
Proof.
  intros H E. inversion H as [|? ? et' E' HF|? ? _ Hn]; subst; [|by destruct (Hn vs et)].
  rewrite E in E'. by injection E' as ->.
Qed.

Lemma checkExactKeys_iff (v : json) (t : gotype) (path : string) :
  checkExactKeys v t path = None <-> exact_keys v t.
Proof.
  revert t path. induction v as [| | | |vs IH|ms IH] using json_rect_nested; intros t path;
    try (split; [intros _; apply exact_leaf; intros; discriminate|done]).
  - simpl. destruct (deref t) as [fs|et| | |] eqn:Et;
      try (split; [intros _; apply exact_leaf; intros; congruence|done]).
    transitivity (Forall (fun v => exact_keys v et) vs);
      [|split; [intros; by eapply exact_arr|intros H; by eapply exact_arr_inv]].
    generalize 0. induction IH as [|v vs Hv _ IHvs]; intros i; [split; [constructor|done]|].
    rewrite andthen_None, Forall_cons, Hv, IHvs. done.
  - simpl. destruct (deref t) as [fs|et| | |] eqn:Et;
      try (split; [intros _; apply exact_leaf; intros; congruence|done]).
    transitivity (Forall (fun m => exists ft, field_type m.1 (collectJSONFields (GStruct fs)) = Some ft /\ exact_keys m.2 ft) ms);
      [|split; [intros; by eapply exact_obj|intros H; by eapply exact_obj_inv]].
    induction IH as [|[k c] ms Hv _ IHms]; [split; [constructor|done]|]. cbn [fst snd] in *.
    change (concat _) with (collectJSONFields (GStruct fs)) in *. rewrite Forall_cons. cbn [fst snd].
    destruct (field_type k (collectJSONFields (GStruct fs))) as [ft|].
    + rewrite andthen_None, Hv, IHms. naive_solver.
    + naive_solver.
Qed.

(** [checkExactKeys] accepts a decoded value exactly when every object key
    it reaches under a struct type is the JSON name of a field of that struct,
    embedded structs included: a key that matches only case-insensitively is
    refused. *)
Theorem checkExactKeys_spec (v : json) (t : gotype) (path : string) :
  checkExactKeys v t path = None <-> exact_keys v t.
Proof. apply checkExactKeys_iff. Qed.

(** ** Merged windows *)
Definition is_unknown (w : WindowCount) : Prop := wc_Reason w = CounterUnknown.
#[global] Instance is_unknown_dec w : Decision (is_unknown w).
Proof. unfold is_unknown, CounterReason; apply _. Defined.
Definition unknown_at (x : string) (w : WindowCount) : Prop := is_unknown w /\ wc_Window w = x.
#[global] Instance unknown_at_dec x w : Decision (unknown_at x w).
Proof. unfold unknown_at, CounterWindow; apply _. Defined.
Definition total (x : string) (l : list WindowCount) : Z := foldr Z.add 0 (wc_Count <$> filter (unknown_at x) l).

Lemma total_app x l1 l2 : total x (l1 ++ l2) = total x l1 + total x l2.
Proof. unfold total. rewrite filter_app, fmap_app. induction (wc_Count <$> filter (unknown_at x) l1); simpl; lia. Qed.
Lemma total_cons x w l : total x (w :: l) = (if decide (unknown_at x w) then wc_Count w else 0) + total x l.
Proof. unfold total. rewrite filter_cons. by case_decide. Qed.
Lemma total_nonneg x l : Forall (fun w => 0 <= wc_Count w) l -> 0 <= total x l.
Proof. induction 1 as [|w l Hw _ IH]; [done|]. rewrite total_cons. case_decide; lia. Qed.
Lemma total_zero x l : (forall w, w ∈ l -> ~ unknown_at x w) -> total x l = 0.
Proof.
  induction l as [|w l IH]; intros H; [done|]. rewrite total_cons, decide_False, IH; [done| |].
  - intros w' Hw'. apply H. by right.
  - apply H. left.
Qed.

Lemma sat_add_min a w :
  0 <= a <= MaxInt64 -> 0 <= w <= MaxInt64 -> sat_add a w = Z.min MaxInt64 (a + w).
Proof.
  intros Ha Hw. unfold sat_add, MaxInt64 in *. destruct (Z.ltb_spec 0 w); simpl; [|assert (w = 0) as -> by lia].
  - destruct (Z.ltb_spec (2 ^ 63 - 1 - w) a); [lia|]. rewrite i64_u64 by (unfold in_i64; lia). lia.
  - rewrite i64_u64 by (unfold in_i64; lia). lia.
Qed.

(** The index map points at the one unknown entry of each window. *)
Definition at_ok (out : list WindowCount) (at_ : gmap string nat) : Prop :=
  forall x i, at_ !! x = Some i <-> exists w, out !! i = Some w /\ unknown_at x w.

Lemma at_ok_split out at_ x i :
  at_ok out at_ -> at_ !! x = Some i ->
  exists l1 o l2, out = l1 ++ o :: l2 /\ i = length l1 /\ unknown_at x o /\ total x l1 = 0 /\ total x l2 = 0.
Proof.
  intros Hok Hx. destruct (proj1 (Hok x i) Hx) as (o & Ho & Hu).
  destruct (list_elem_of_split_length _ _ _ Ho) as (l1 & l2 & -> & ->). exists l1, o, l2.
  assert (forall j w, (l1 ++ o :: l2) !! j = Some w -> unknown_at x w -> j = length l1) as Huniq.
  { intros j w Hj Hw. assert (at_ !! x = Some j) as E by (apply Hok; eauto). congruence. }
  split_and!; try done; apply total_zero; intros w Hw Huw; apply list_elem_of_lookup in Hw as [j Hj].
  - assert (j = length l1) as ->; [|apply lookup_lt_Some in Hj; lia].
    apply (Huniq j w); [|done]. by apply lookup_app_l_Some.
  - assert (length l1 + S j = length l1)%nat; [|lia].
    apply (Huniq _ w); [|done]. rewrite lookup_app_r by lia. by replace (length l1 + S j - length l1)%nat with (S j) by lia.
Qed.

Lemma at_ok_known out at_ w : at_ok out at_ -> ~ is_unknown w -> at_ok (out ++ [w]) at_.
Proof.
  intros Hok Hw x i. rewrite (Hok x i). split; intros (v & Hv & Hu); exists v; (split; [|done]).
  - by apply lookup_app_l_Some.
  - apply lookup_app_Some in Hv as [Hv|[Hl Hv]]; [done|]. apply list_lookup_singleton_Some in Hv as [_ <-].
    by destruct Hu.
Qed.
Lemma at_ok_new out at_ w :
  at_ok out at_ -> is_unknown w -> at_ !! (wc_Window w : string) = None ->
  at_ok (out ++ [w]) (<[(wc_Window w : string) := length out]> at_).
Proof.
  intros Hok Hw Hn x i. split.
  - intros H. destruct (decide (x = wc_Window w)) as [->|Hx].
    + rewrite lookup_insert_eq in H. injection H as <-. exists w. rewrite lookup_app_r, Nat.sub_diag by lia. by repeat split.
    + rewrite lookup_insert_ne in H by done. apply Hok in H as (v & Hv & Hu). exists v. split; [by apply lookup_app_l_Some|done].
  - intros (v & Hv & Hu). apply lookup_app_Some in Hv as [Hv|[Hl Hv]].
    + assert (at_ !! x = Some i) as E by (apply Hok; eauto). rewrite lookup_insert_ne; [done|]. intros <-. congruence.
    + apply list_lookup_singleton_Some in Hv as [Hi <-]. destruct Hu as [_ <-]. rewrite lookup_insert_eq. f_equal. lia.
Qed.
Lemma at_ok_alter out at_ i f :
  at_ok out at_ -> (forall o, wc_Window (f o) = wc_Window o /\ wc_Reason (f o) = wc_Reason o) -> at_ok (alter f i out) at_.
Proof.
  intros Hok Hf x j. rewrite (Hok x j). destruct (decide (i = j)) as [->|Hij]; [|by rewrite list_lookup_alter_ne].
  rewrite list_lookup_alter_eq. unfold unknown_at, is_unknown. split.
  - intros (v & -> & Hu). exists (f v). destruct (Hf v) as [-> ->]. done.
  - intros (v & Hv & Hu). destruct (out !! j) as [o|]; [|done]. simpl in Hv. injection Hv as <-.
    exists o. destruct (Hf o) as [E1 E2]. rewrite E1, E2 in Hu. done.
Qed.

Lemma alter_middle {A} (f : A -> A) l1 x l2 : alter f (length l1) (l1 ++ x :: l2) = l1 ++ f x :: l2.
Proof. induction l1 as [|y l1 IH]; [done|]. cbn. f_equal. apply IH. Qed.

Definition count_ok (w : WindowCount) : Prop := 0 <= wc_Count w <= MaxInt64.

Lemma total_bound out at_ x : at_ok out at_ -> Forall count_ok out -> 0 <= total x out <= MaxInt64.
Proof.
  intros Hok HF. destruct (at_ !! x) as [i|] eqn:Hx.
  - destruct (at_ok_split _ _ _ _ Hok Hx) as (l1 & o & l2 & -> & _ & Hu & H1 & H2).
    rewrite total_app, total_cons, H1, H2, decide_True by done.
    apply Forall_app in HF as [_ HF]. apply Forall_cons in HF as [[? ?] _]. lia.
  - rewrite total_zero; [unfold MaxInt64; lia|]. intros w Hw Hu. apply list_elem_of_lookup in Hw as [j Hj].
    assert (at_ !! x = Some j) by (apply Hok; eauto). congruence.
Qed.

Definition known_only (l : list WindowCount) : list WindowCount := filter (fun w => ~ is_unknown w) l.

Lemma merge_windows_spec ws out at_ :
  at_ok out at_ -> Forall count_ok out -> Forall count_ok ws ->
  let r := merge_windows out at_ ws in
  known_only r = known_only out ++ known_only ws /\ (exists at', at_ok r at') /\ Forall count_ok r /\
  forall x, total x r = Z.min MaxInt64 (total x out + total x ws).
Proof.
  revert out at_. induction ws as [|w ws IH]; intros out at_ Hok Hout Hws; cbn [merge_windows].
  - split; [by rewrite app_nil_r|]. split; [eauto|]. split; [done|]. intros x.
    destruct (total_bound out at_ x Hok Hout). change (total x []) with 0. lia.
  - apply Forall_cons in Hws as [Hw Hws]. unfold known_only in *. rewrite filter_cons.
    destruct (String.eqb_spec (wc_Reason w) CounterUnknown) as [Hu|Hu]; cbn [negb].
    + rewrite decide_False by (intros H; by apply H).
      destruct (at_ !! (wc_Window w : string)) as [i|] eqn:Hi.
      * destruct (at_ok_split _ _ _ _ Hok Hi) as (l1 & o & l2 & -> & -> & Huo & H1 & H2).
        set (add := fun o => mkWindowCount _ _ _).
        pose proof (alter_middle add l1 o l2) as Ha.
        apply Forall_app in Hout as [Ho1 [Hoo Ho2]%Forall_cons].
        assert (wc_Count (add o) = Z.min MaxInt64 (wc_Count o + wc_Count w)) as Hsum by (apply sat_add_min; [apply Hoo|apply Hw]).
        assert (at_ok (alter add (length l1) (l1 ++ o :: l2)) at_) as Hok' by (apply at_ok_alter; [done|by intros]).
        rewrite Ha in *. destruct (IH (l1 ++ add o :: l2) at_) as (Hk & Hat & HF & Htot); [done| |done|].
        { apply Forall_app. split; [done|]. apply Forall_cons. split; [|done]. unfold count_ok in *. rewrite Hsum.
          destruct Hoo, Hw. unfold MaxInt64 in *. lia. }
        split_and!; [|done|done|].
        -- destruct Huo as [Huo _]. rewrite Hk, !filter_app, !filter_cons. f_equal. f_equal.
           rewrite !decide_False by (intros H; by apply H). done.
        -- intros x. rewrite Htot, !total_app, !total_cons.
           assert (unknown_at x (add o) <-> unknown_at x o) as E by done.
           destruct (decide (unknown_at x o)) as [Hxo|Hxo].
           ++ assert (x = wc_Window w) as -> by (destruct Hxo as [_ <-], Huo as [_ <-]; done).
              rewrite H1, H2, decide_True, (decide_True (P := unknown_at _ w)) by done. rewrite Hsum.
              pose proof (total_nonneg (wc_Window w) ws) as Hn. specialize (Hn ltac:(eapply Forall_impl; [exact Hws|by intros ? []])). lia.
           ++ rewrite decide_False by done. rewrite (decide_False (P := unknown_at x w)); [lia|].
              intros [_ <-]. by apply Hxo.
      * destruct (IH (out ++ [w]) (<[(wc_Window w : string) := length out]> at_)) as (Hk & Hat & HF & Htot);
          [by apply at_ok_new|by apply Forall_app_2; [|apply Forall_singleton]|done|].
        split_and!; [|done|done|].
        -- rewrite Hk, filter_app, filter_cons, decide_False, app_nil_r by (intros H; by apply H). done.
        -- intros x. rewrite Htot, total_app, !total_cons. change (total x []) with 0. lia.
    + rewrite decide_True by done.
      destruct (IH (out ++ [w]) at_) as (Hk & Hat & HF & Htot);
        [by apply at_ok_known|by apply Forall_app_2; [|apply Forall_singleton]|done|].
      split_and!; [|done|done|].
      * rewrite Hk, filter_app, filter_cons, decide_True, <- app_assoc by done. done.
      * intros x. rewrite Htot, total_app, !total_cons. change (total x []) with 0. lia.
Qed.

(** [mergeUnknownWindows] keeps every entry of a known reason, in order,
    leaves at most one unknown entry per window, and that entry's count is the
    sum of the window's unknown counts, saturated at the largest int64; so the
    merged list repeats no (window, reason) key unless a known one was. *)
Theorem mergeUnknownWindows_spec (ws : list WindowCount) (Hc : Forall count_ok ws) :
  let r := mergeUnknownWindows ws in
  known_only r = known_only ws /\
  (forall i j v w, r !! i = Some v -> r !! j = Some w -> is_unknown v -> is_unknown w -> wc_Window v = wc_Window w -> i = j) /\
  (forall x, total x r = Z.min MaxInt64 (total x ws)) /\ Forall count_ok r.
Proof.
  destruct (merge_windows_spec ws [] ∅) as (Hk & [at' Hat] & HF & Ht); [|constructor|done|].
  { intros x i. rewrite lookup_empty. split; [done|]. intros (w & Hw & _). done. }
  split; [exact Hk|]. split; [|split; [exact Ht|exact HF]].
  intros i j v w Hi Hj Hv Hw E.
  assert (at' !! (wc_Window v : string) = Some i) as H1 by (apply Hat; exists v; by repeat split).
  assert (at' !! (wc_Window v : string) = Some j) as H2 by (apply Hat; exists w; by repeat split).
  congruence.
Qed.
Lemma mergeUnknownWindows_spec_witness :
  total Window1h (mergeUnknownWindows [mkWindowCount Window1h CounterUnknown MaxInt64; mkWindowCount Window1h CounterEviction 4;
    mkWindowCount Window1h CounterUnknown 7]) = MaxInt64.
Proof.
  apply (mergeUnknownWindows_spec [mkWindowCount Window1h CounterUnknown MaxInt64; mkWindowCount Window1h CounterEviction 4;
    mkWindowCount Window1h CounterUnknown 7]).
  repeat (apply Forall_cons; split; [split; vm_compute; discriminate|]). apply Forall_nil. exact I.
Defined.

(** ** The payloads *)
Section Payloads.
Context `{EJ : EncodingJSON} `{PR : Payload NodeBudgetReport} `{PD : Payload NodeBudgetDesiredPolicy}.

Lemma res_wrap_Ok {A} f (r : res A) a : res_wrap f r = Ok a <-> r = Ok a.
Proof. destruct r; simpl; naive_solver. Qed.
Lemma json_Unmarshal_Ok value v : json_Unmarshal value = Ok v <-> ej_read value = Ok (v, "").
Proof.
  unfold json_Unmarshal. rewrite res_bind_Ok. split.
  - intros ([v' rest] & -> & H). cbn [fst snd] in H. destruct (String.eqb_spec rest ""); naive_solver.
  - intros ->. by exists (v, "").
Qed.

Lemma strict_Ok {T} `{PL : Payload T} value (x : T) :
  decode_strict value = Ok x <->
  exists v, ej_read value = Ok (v, "") /\ pl_decode v = Ok x /\ keys_once v /\ exact_keys v pl_type.
Proof.
  unfold decode_strict. rewrite res_bind_Ok. split.
  - intros ([v rest] & Hr & Hd). apply res_wrap_Ok in Hr. cbn [fst snd] in Hd.
    apply res_bind_Ok in Hd as (y & Hy & Hd). apply res_wrap_Ok in Hy.
    apply checked_Ok in Hd as [Hrest Hd]. apply failif_None, negb_false_iff, String.eqb_eq in Hrest as ->.
    apply checked_Ok in Hd as [Hdup Hd]. apply wrapc_None in Hdup. rewrite walk_top, dup_keys_once in Hdup.
    apply res_bind_Ok in Hd as (g & Hg & Hd). apply res_wrap_Ok, json_Unmarshal_Ok in Hg. assert (g = v) as -> by congruence.
    apply checked_Ok in Hd as [Hex Hd]. apply wrapc_None, checkExactKeys_iff in Hex. injection Hd as ->. eauto 6.
  - intros (v & Hr & Hd & Hk & Hx). exists (v, ""). split; [by apply res_wrap_Ok|]. cbn [fst snd]. rewrite Hd. cbn.
    rewrite walk_top, (proj2 (dup_keys_once v) Hk). cbn.
    rewrite (proj2 (json_Unmarshal_Ok value v) Hr). cbn. by rewrite (proj2 (checkExactKeys_iff v _ "") Hx).
Qed.

Lemma wrapped {A} (r : res A) e : res_wrap wrap_invalid r = Err e -> errors_is e ErrInvalidBudgetAnnotation = true.
Proof. destruct r; simpl; [done|]. by intros [= <-]. Qed.
Lemma wrappedc c e : wrapc wrap_invalid c = Some e -> errors_is e ErrInvalidBudgetAnnotation = true.
Proof. intros (? & _ & <-)%wrapc_Some. done. Qed.

Lemma strict_Err {T} `{PL : Payload T} value e :
  decode_strict (T := T) value = Err e -> errors_is e ErrInvalidBudgetAnnotation = true.
Proof.
  unfold decode_strict. intros Hr.
  apply res_bind_Err in Hr as [Hr|(first & _ & Hr)]; [by eapply wrapped|].
  apply res_bind_Err in Hr as [Hr|(v & _ & Hr)]; [by eapply wrapped|].
  apply checked_Err in Hr as [Hr|[_ Hr]]; [by apply failif_Some in Hr as [_ <-]|].
  apply checked_Err in Hr as [Hr|[_ Hr]]; [by eapply wrappedc|].
  apply res_bind_Err in Hr as [Hr|(g & _ & Hr)]; [by eapply wrapped|].
  apply checked_Err in Hr as [Hr|[_ Hr]]; [by eapply wrappedc|discriminate Hr].
Qed.

(** The schema a text carries, before any other check of its content. *)
Definition schema_of (value : string) : res (option json) := let? v := json_Unmarshal value in probe_schema v.

Lemma decode_Ok {T} `{PL : Payload T} value (x : T) :
  decodeBudgetAnnotation value = Ok x <->
  slen value <= MaxBudgetAnnotationBytes /\ schema_of value = Ok (Some (JNum "1")) /\ decode_strict value = Ok x.
Proof.
  unfold decodeBudgetAnnotation. rewrite checked_Ok, failif_None, Z.ltb_ge, res_bind_Ok. split.
  - intros (Hsz & schema & Hp & Hd). apply res_wrap_Ok in Hp.
    destruct schema as [[| |r| | |]|]; try discriminate Hd. apply checked_Ok in Hd as [Hraw Hd].
    apply failif_None, negb_false_iff, String.eqb_eq in Hraw. by subst r.
  - intros (Hsz & Hp & Hd). split; [done|]. exists (Some (JNum "1")). split; [by apply res_wrap_Ok|]. done.
Qed.

(** C26: the strict decoder accepts exactly the texts of at most 16384 bytes
    that are one JSON value with nothing after it, whose schema is the number
    1, that encoding/json decodes with unknown fields disallowed, in which no
    object repeats a key and every key names its field byte for byte. *)
Theorem decodeBudgetAnnotation_accepts {T : Type} `{PL : Payload T} (value : string) (x : T) :
  decodeBudgetAnnotation value = Ok x <->
  slen value <= MaxBudgetAnnotationBytes /\
  exists v, ej_read value = Ok (v, "") /\ probe_schema v = Ok (Some (JNum "1")) /\ pl_decode v = Ok x /\
    keys_once v /\ exact_keys v pl_type.
Proof.
  rewrite decode_Ok, strict_Ok. unfold schema_of. split.
  - intros (Hsz & Hs & v & Hr & Hrest). split; [done|]. exists v. split; [done|].
    rewrite (proj2 (json_Unmarshal_Ok value v) Hr) in Hs. done.
  - intros (Hsz & v & Hr & Hs & Hrest). split; [done|]. rewrite (proj2 (json_Unmarshal_Ok value v) Hr). eauto 6.
Qed.

(** The decoder's errors are sorted for the relay: a payload over the
    bound is refused unparsed as too large; otherwise a well-formed object
    without the current schema is ErrUnknownBudgetSchema, whatever else is
    wrong with it; every other refusal wraps ErrInvalidBudgetAnnotation. *)
Theorem decodeBudgetAnnotation_errors {T : Type} `{PL : Payload T} (value : string) (e : error)
    (Herr : decodeBudgetAnnotation (T := T) value = Err e) :
  (MaxBudgetAnnotationBytes < slen value /\ errors_is e ErrBudgetAnnotationTooLarge = true /\ errors_is e ErrInvalidBudgetAnnotation = true) \/
  (slen value <= MaxBudgetAnnotationBytes /\
   ((exists raw, schema_of value = Ok raw /\ raw <> Some (JNum "1") /\ errors_is e ErrUnknownBudgetSchema = true) \/
    (errors_is e ErrInvalidBudgetAnnotation = true /\
     (schema_of value = Ok (Some (JNum "1")) \/ exists e', schema_of value = Err e')))).
Proof.
  unfold decodeBudgetAnnotation in Herr. apply checked_Err in Herr as [Hr|[Hsz Hr]].
  { apply failif_Some in Hr as [Hb <-]. left. split; [by apply Z.ltb_lt|done]. }
  right. apply failif_None, Z.ltb_ge in Hsz. split; [done|]. fold (schema_of value) in Hr.
  apply res_bind_Err in Hr as [Hr|(raw & Hs & Hr)].
  { right. split; [by eapply wrapped|]. right. destruct (schema_of value) as [r|e']; [discriminate Hr|eauto]. }
  apply res_wrap_Ok in Hs. rewrite Hs.
  assert (raw = Some (JNum "1") \/ raw <> Some (JNum "1")) as [->|Hne].
  { destruct raw as [[| |r| | |]|]; try (by right). destruct (decide (r = "1")) as [->|]; [by left|right; congruence]. }
  - right. split; [|by left]. by apply (strict_Err value e).
  - left. exists raw. split; [done|]. split; [done|].
    destruct raw as [[| |r| | |]|]; try (by injection Hr as <-).
    apply checked_Err in Hr as [Hr|[Hr _]]; [by apply failif_Some in Hr as [_ <-]|].
    apply failif_None, negb_false_iff, String.eqb_eq in Hr. by subst r.
Qed.

Lemma encode_bound {T} `{PL : Payload T} (x : T) b : encodeBudgetAnnotation x = Ok b -> slen b <= MaxBudgetAnnotationBytes.
Proof.
  unfold encodeBudgetAnnotation. intros (b' & _ & H)%res_bind_Ok. apply checked_Ok in H as [Hb [= <-]].
  by apply failif_None, Z.ltb_ge in Hb.
Qed.

(** A report or policy the writer encodes is one its reader accepts: an
    encoded value parses, to a payload that passes validation; and whatever
    the reader returns passes validation. *)
Theorem encoded_payloads_parse (r : NodeBudgetReport) (d : NodeBudgetDesiredPolicy) (sr sd : string)
    (Hr : NodeBudgetReport_Encode r = Ok sr) (Hd : NodeBudgetDesiredPolicy_Encode d = Ok sd) :
  (slen sr <= MaxBudgetAnnotationBytes /\ exists r', ParseNodeBudgetReport sr = Ok r' /\
     rep_Schema r' = BudgetAnnotationSchema /\ observation_ok (rep_Observation r')) /\
  (slen sd <= MaxBudgetAnnotationBytes /\ exists d', ParseNodeBudgetDesiredPolicy sd = Ok d' /\
     dp_Schema d' = BudgetAnnotationSchema /\ policy_ok (dp_Spec d')).
Proof.
  split.
  - unfold NodeBudgetReport_Encode in Hr. apply checked_Ok in Hr as [_ Hr]. apply res_bind_Ok in Hr as (b & Hb & Hr).
    apply res_bind_Ok in Hr as (r' & Hp & [= <-]). split; [exact (encode_bound _ _ Hb)|]. exists r'. split; [done|].
    unfold ParseNodeBudgetReport in Hp. apply res_bind_Ok in Hp as (r0 & _ & Hp). apply checked_Ok in Hp as [Hv [= <-]].
    unfold NodeBudgetReport_Validate in Hv. rewrite andthen_None, failif_None, negb_false_iff, wrapc_None in Hv.
    destruct Hv as [Hs Hv]. split; [by apply Z.eqb_eq|by apply observation_validate_iff].
  - unfold NodeBudgetDesiredPolicy_Encode in Hd. apply checked_Ok in Hd as [_ Hd]. apply res_bind_Ok in Hd as (b & Hb & Hd).
    apply res_bind_Ok in Hd as (d' & Hp & [= <-]). split; [exact (encode_bound _ _ Hb)|]. exists d'. split; [done|].
    unfold ParseNodeBudgetDesiredPolicy in Hp. apply res_bind_Ok in Hp as (d0 & _ & Hp). apply checked_Ok in Hp as [Hv [= <-]].
    unfold NodeBudgetDesiredPolicy_Validate in Hv. rewrite !andthen_None, failif_None, negb_false_iff, wrapc_None in Hv.
    destruct Hv as (Hs & _ & _ & Hv). split; [by apply Z.eqb_eq|by apply policy_validate_iff].
Qed.
End Payloads.

(** A concrete instance: a reader that knows one text, whose value is the
    object {"schema": 1}, and payload types with that one field. *)
Definition sample_text : string := "{schema:1}".
Definition sample_json : EncodingJSON :=
  {| ej_read s := if String.eqb s sample_text then Ok (JObj [("schema", JNum "1")], "") else Err (Errorf "syntax error" []);
     ej_fold := ToLower |}.
Definition sample_payload {T} (x : T) : Payload T :=
  {| pl_type := GStruct [("schema", false, GOther)]; pl_decode _ := Ok x; pl_marshal _ := Ok sample_text |}.
Definition sample_report : NodeBudgetReport := mkReport 1 sample_observation.
Definition sample_desired : NodeBudgetDesiredPolicy :=
  mkDesired 1 "default" "42" (mkPolicySpec ∅ 0 [] None None "" None None None None None).

Lemma decodeBudgetAnnotation_errors_witness :
  exists e, decodeBudgetAnnotation (EJ := sample_json) (PL := sample_payload sample_report) "{" = Err e /\
    errors_is e ErrInvalidBudgetAnnotation = true.
Proof.
  eexists. split; [reflexivity|].
  destruct (decodeBudgetAnnotation_errors (EJ := sample_json) (PL := sample_payload sample_report) "{" _ eq_refl)
    as [(_ & _ & H)|(_ & [(raw & Hs & _)|[H _]])]; [exact H|discriminate Hs|exact H].
Defined.
Lemma encoded_payloads_parse_witness :
  exists r', ParseNodeBudgetReport (EJ := sample_json) (PR := sample_payload sample_report) sample_text = Ok r' /\
    observation_ok (rep_Observation r').
Proof.
  destruct (encoded_payloads_parse (EJ := sample_json) (PR := sample_payload sample_report) (PD := sample_payload sample_desired)
    sample_report sample_desired sample_text sample_text) as [(_ & r' & Hp & _ & Ho) _]; [vm_compute; reflexivity..|].
  exists r'. split; [exact Hp|exact Ho].
Defined.
