(* ===== verification/GoStrings.v ===== *)
(** * Lemmas about the string functions of the Go library model

    Splitting and joining are inverse, a count of separators is the number of
    pieces less one, and case folding acts byte by byte. *)
From S2P Require Import Prelude GoLib.

Lemma sapp_nil_r (s : string) : s +:+ "" = s.
Proof. induction s as [|c s IH]; [done|]. change (String c (s +:+ "") = String c s). by rewrite IH. Qed.
Lemma sapp_assoc (a b c : string) : (a +:+ b) +:+ c = a +:+ (b +:+ c).
Proof. induction a as [|x a IH]; [done|]. change (String x ((a +:+ b) +:+ c) = String x (a +:+ (b +:+ c))). by rewrite IH. Qed.
Lemma sapp_cons c a b : String c a +:+ b = String c (a +:+ b).
Proof. done. Qed.
Lemma slength_app (a b : string) : String.length (a +:+ b) = (String.length a + String.length b)%nat.
Proof. induction a as [|x a IH]; [done|]. change (S (String.length (a +:+ b)) = S (String.length a + String.length b)). by rewrite IH. Qed.
Lemma sapp_inj_r (a b c : string) : a +:+ b = a +:+ c -> b = c.
Proof. induction a as [|x a IH]; [done|]. change (String x (a +:+ b) = String x (a +:+ c) -> b = c). naive_solver. Qed.

Lemma sforall_app P a b : sforall P (a +:+ b) = sforall P a && sforall P b.
Proof.
  induction a as [|x a IH]; [done|]. change (P x && sforall P (a +:+ b) = (P x && sforall P a) && sforall P b).
  by rewrite IH, andb_assoc.
Qed.
Lemma sforall_impl (P Q : ascii -> bool) s :
  (forall c, P c = true -> Q c = true) -> sforall P s = true -> sforall Q s = true.
Proof.
  intros HPQ. induction s as [|c s IH]; [done|]. simpl. rewrite !andb_true_iff. naive_solver.
Qed.
Lemma sforall_and (P Q : ascii -> bool) s :
  sforall (fun c => P c && Q c) s = true <-> sforall P s = true /\ sforall Q s = true.
Proof.
  induction s as [|c s IH]; [done|]. simpl. rewrite !andb_true_iff, IH. naive_solver.
Qed.

(** [s] has no byte [sep]. *)
Definition without (sep : ascii) (s : string) : bool := sforall (fun c => negb (Ascii.eqb c sep)) s.

Lemma Split_nonempty s sep : Split s sep <> [].
Proof. destruct s as [|c s]; simpl; [done|]. destruct (Ascii.eqb c sep); [done|]. by destruct (Split s sep). Qed.

Lemma Split_without s sep : Forall (fun c => without sep c = true) (Split s sep).
Proof.
  induction s as [|c s IH]; simpl; [by constructor|].
  destruct (Ascii.eqb c sep) eqn:E; [by constructor|].
  destruct (Split s sep) as [|p ps]; inversion IH; subst; constructor; try done;
    unfold without in *; simpl; by rewrite E.
Qed.

Lemma Join_cons p ps sep : ps <> [] -> Join (p :: ps) sep = p +:+ String sep (Join ps sep).
Proof. by destruct ps. Qed.

Lemma Join_app ds cs sep : ds <> [] -> cs <> [] ->
  Join (ds ++ cs) sep = Join ds sep +:+ String sep (Join cs sep).
Proof.
  intros Hd Hc. induction ds as [|d ds IH]; [done|]. destruct ds as [|e ds]; [by apply Join_cons|].
  change ((d :: e :: ds) ++ cs) with (d :: ((e :: ds) ++ cs)).
  rewrite (Join_cons d ((e :: ds) ++ cs)), (Join_cons d (e :: ds)), IH by done.
  by rewrite (sapp_assoc d (String sep (Join (e :: ds) sep))).
Qed.

Lemma Join_Split s sep : Join (Split s sep) sep = s.
Proof.
  induction s as [|c s IH]; [done|]. pose proof (Split_nonempty s sep) as Hn. cbn [Split].
  destruct (Ascii.eqb c sep) eqn:E.
  - apply Ascii.eqb_eq in E as ->. rewrite Join_cons, IH by done. done.
  - destruct (Split s sep) as [|p [|q ps]]; [done| |].
    + simpl in *. by subst.
    + rewrite Join_cons in IH |- * by done. simpl. by rewrite <- IH.
Qed.

Lemma Split_piece s sep : without sep s = true -> Split s sep = [s].
Proof.
  induction s as [|c s IH]; [done|]. unfold without. cbn [sforall Split]. rewrite andb_true_iff.
  intros [Hc Hs]. apply negb_true_iff in Hc. by rewrite Hc, (IH Hs).
Qed.

Lemma Split_app a b sep : Split (a +:+ String sep b) sep = Split a sep ++ Split b sep.
Proof.
  induction a as [|c a IH].
  - change ("" +:+ String sep b) with (String sep b). cbn [Split]. by rewrite Ascii.eqb_refl.
  - change (String c a +:+ String sep b) with (String c (a +:+ String sep b)). cbn [Split].
    rewrite IH. destruct (Ascii.eqb c sep); [done|].
    pose proof (Split_nonempty a sep). by destruct (Split a sep).
Qed.

Lemma Split_Join cs sep :
  cs <> [] -> Forall (fun c => without sep c = true) cs -> Split (Join cs sep) sep = cs.
Proof.
  intros Hn Hcs. induction Hcs as [|c cs Hc Hcs IH]; [done|].
  destruct cs as [|d cs]; [by apply Split_piece|].
  rewrite Join_cons, Split_app, Split_piece, IH by done. done.
Qed.

Lemma Count_Split s sep : Count s sep + 1 = len (Split s sep).
Proof.
  unfold len. induction s as [|c s IH]; [done|]. cbn [Count Split].
  destruct (Ascii.eqb c sep); [simpl; lia|].
  pose proof (Split_nonempty s sep). destruct (Split s sep) as [|p ps]; [done|]. simpl in *. lia.
Qed.

(** Each component a piece of at most [k] bytes: the joined length. *)
Lemma slen_Join cs sep k :
  Forall (fun c => slen c <= k) cs -> cs <> [] -> slen (Join cs sep) <= len cs * (k + 1) - 1.
Proof.
  intros Hcs Hn. induction Hcs as [|c cs Hc Hcs IH]; [done|].
  destruct cs as [|d cs]; [unfold len; simpl; lia|].
  rewrite Join_cons by done. specialize (IH ltac:(done)).
  unfold slen, len in *. rewrite slength_app. cbn [String.length length] in *. lia.
Qed.

Lemma sforall_Join P cs sep :
  P sep = true -> sforall P (Join cs sep) = true <-> Forall (fun c => sforall P c = true) cs.
Proof.
  intros Hs. induction cs as [|c cs IH]; [by split; constructor|].
  destruct cs as [|d cs].
  - cbn [Join]. rewrite Forall_cons. split; [intros; by repeat constructor|naive_solver].
  - rewrite Join_cons, sforall_app by done. cbn [sforall]. rewrite Hs, Forall_cons, !andb_true_iff, IH.
    naive_solver.
Qed.

(** ** Case folding *)
Lemma lower_byte_sep c sep :
  is_upper sep = false -> is_lower sep = false -> Ascii.eqb (lower_byte c) sep = Ascii.eqb c sep.
Proof.
  intros Hu Hl. unfold lower_byte. destruct (is_upper c) eqn:Ec; [|done].
  apply eq_true_iff_eq. rewrite !Ascii.eqb_eq. split; intros <-; [|congruence].
  exfalso. revert Hl Ec. unfold is_lower, is_upper. rewrite Z_of_byte_of_Z.
  pose proof (Z_of_byte_range c). rewrite andb_true_iff, andb_false_iff, !Z.leb_le, !Z.leb_gt.
  intros Hl Ec. rewrite Z.mod_small in Hl; lia.
Qed.
Lemma ToLower_app a b : ToLower (a +:+ b) = ToLower a +:+ ToLower b.
Proof. induction a as [|x a IH]; [done|]. change (String (lower_byte x) (ToLower (a +:+ b)) = String (lower_byte x) (ToLower a +:+ ToLower b)). by rewrite IH. Qed.
Lemma Split_ToLower s sep :
  is_upper sep = false -> is_lower sep = false -> Split (ToLower s) sep = ToLower <$> Split s sep.
Proof.
  intros Hu Hl. induction s as [|c s IH]; [done|]. cbn [ToLower Split].
  rewrite lower_byte_sep, IH by done. destruct (Ascii.eqb c sep); [done|].
  by destruct (Split s sep).
Qed.

(** ** Prefixes and suffixes *)
Lemma HasPrefix_spec s pre : HasPrefix s pre = true <-> exists t, s = pre +:+ t.
Proof.
  revert s. induction pre as [|a pre IH]; intros s.
  - split; [by exists s|by destruct s].
  - destruct s as [|b s]; simpl; [split; [done|naive_solver]|].
    rewrite andb_true_iff, Ascii.eqb_eq, IH. split.
    + intros [-> [t ->]]. by exists t.
    + intros [t Ht]. change (String b s = String a (pre +:+ t)) in Ht. naive_solver.
Qed.
Lemma substring_all s : String.substring 0 (String.length s) s = s.
Proof. induction s as [|c s IH]; [done|]. simpl. by rewrite IH. Qed.
Lemma substring_app a b n : String.substring (String.length a) n (a +:+ b) = String.substring 0 n b.
Proof. induction a as [|c a IH]; [done|]. exact IH. Qed.
Lemma substring_split k s : (k <= String.length s)%nat ->
  s = String.substring 0 k s +:+ String.substring k (String.length s - k) s.
Proof.
  revert s. induction k as [|k IH]; intros s Hk.
  - destruct s; [done|]. rewrite Nat.sub_0_r, substring_all. done.
  - destruct s as [|c s]; simpl in Hk; [lia|].
    change (String c s = String c (String.substring 0 k s +:+ String.substring k (String.length s - k) s)).
    rewrite <- IH by lia. done.
Qed.
Lemma HasSuffix_spec s suf : HasSuffix s suf = true <-> exists t, s = t +:+ suf.
Proof.
  unfold HasSuffix. rewrite andb_true_iff, Nat.leb_le, String.eqb_eq. split.
  - intros [Hl Hs]. exists (String.substring 0 (String.length s - String.length suf) s).
    rewrite (substring_split (String.length s - String.length suf) s) at 1 by lia. f_equal.
    etransitivity; [|exact Hs]. f_equal. lia.
  - intros [t ->]. rewrite slength_app. split; [lia|].
    replace (String.length t + String.length suf - String.length suf)%nat with (String.length t) by lia.
    by rewrite substring_app, substring_all.
Qed.

(** ** Matched names *)

(** Every byte class of the expression lies in [P]. *)
Fixpoint re_within (P : ascii -> bool) (r : Regexp.re) : Prop :=
  match r with
  | Regexp.Empty | Regexp.Eps => True
  | Regexp.Class Q => forall c, Q c = true -> P c = true
  | Regexp.Seq r1 r2 | Regexp.Alt r1 r2 => re_within P r1 /\ re_within P r2
  | Regexp.Star r => re_within P r
  end.
Lemma lang_within P r s : re_within P r -> Regexp.lang r s -> Forall (fun c => P c = true) s.
Proof.
  intros Hr Hl. induction Hl as [| | | | | |r s1 s2 H1 IH1 H2 IH2]; simpl in *;
    rewrite ?Forall_app; try destruct Hr; auto.
Qed.
Lemma sforall_bytes P s : sforall P s = true <-> Forall (fun c => P c = true) (bytes_of s).
Proof.
  induction s as [|c s IH]; simpl; [by split; constructor|]. by rewrite andb_true_iff, Forall_cons, IH.
Qed.
Lemma MatchString_within P r s :
  re_within P r -> Regexp.MatchString r s = true -> sforall P s = true.
Proof. intros Hr Hs%Regexp.MatchString_lang. apply sforall_bytes. by eapply lang_within. Qed.

Lemma dns_label_within P :
  (forall c, Regexp.alnum_dash c = true -> P c = true) -> re_within P Regexp.dns_label.
Proof.
  intros HP. assert (forall c, Regexp.alnum c = true -> P c = true) as HP'.
  { intros c Hc. apply HP. unfold Regexp.alnum_dash. rewrite Hc. apply orb_true_r. }
  simpl. tauto.
Qed.
Lemma dns_label_nonempty s : Regexp.MatchString Regexp.dns_label s = true -> s <> "".
Proof. by intros H ->. Qed.
Lemma dns_subdomain_nonempty s : Regexp.MatchString Regexp.dns_subdomain s = true -> s <> "".
Proof. by intros H ->. Qed.

(** Text before the first separator is determined. *)
Lemma without_app_inj a b c d sep :
  without sep a = true -> without sep b = true ->
  a +:+ String sep c = b +:+ String sep d -> a = b /\ c = d.
Proof.
  revert b. induction a as [|x a IH]; intros [|y b] Ha Hb E.
  - change (String sep c = String sep d) in E. by injection E as ->.
  - change (String sep c = String y (b +:+ String sep d)) in E. injection E as -> E.
    unfold without in Hb. simpl in Hb. by rewrite Ascii.eqb_refl in Hb.
  - change (String x (a +:+ String sep c) = String sep d) in E. injection E as -> E.
    unfold without in Ha. simpl in Ha. by rewrite Ascii.eqb_refl in Ha.
  - change (String x (a +:+ String sep c) = String y (b +:+ String sep d)) in E. injection E as -> E.
    unfold without in Ha, Hb. simpl in Ha, Hb. apply andb_true_iff in Ha as [_ Ha], Hb as [_ Hb].
    destruct (IH b Ha Hb E) as [-> ->]. done.
Qed.
