(* ===== verification/GoNumbers.v ===== *)
(** * Decimal numbers

    [strconv.ParseInt] on base ten and its inverse, the text [%d] writes. *)
From S2P Require Import Prelude GoLib GoStrings.

Definition digit (c : ascii) : option Z :=
  let z := Z_of_byte c - 48 in if (0 <=? z) && (z <=? 9) then Some z else None.
Fixpoint digits (acc : Z) (s : string) : option Z :=
  match s with "" => Some acc | String c s' => d ← digit c; digits (acc * 10 + d) s' end.
(** [strconv.ParseInt(s, 10, 64)] on an optional minus and digits, before the
    check of the range. *)
Definition ParseInt (s : string) : option Z :=
  match s with
  | "" => None
  | String "-" "" => None
  | String "-" s' => Z.opp <$> digits 0 s'
  | _ => digits 0 s
  end.

Lemma digit_char x : (x < 10)%N -> digit (pretty_N_char x) = Some (Z.of_N x).
Proof.
  intros Hx. assert (x ∈ N.of_nat <$> seq 0 10) as Hin.
  { apply list_elem_of_fmap. exists (N.to_nat x). rewrite elem_of_seq. lia. }
  cbn in Hin. rewrite !elem_of_cons in Hin. repeat destruct Hin as [->|Hin]; [reflexivity..|]. by apply elem_of_nil in Hin.
Qed.
Lemma digits_go x s : (0 < x)%N -> digits 0 (pretty_N_go x s) = digits (Z.of_N x) s.
Proof.
  revert s. induction x as [x IH] using (well_founded_induction N.lt_wf_0); intros s Hx. rewrite pretty_N_go_step by done.
  pose proof (N.mod_lt x 10 ltac:(done)) as Hm. pose proof (N.div_mod' x 10) as Hd.
  destruct (decide (0 < x `div` 10)%N) as [Hq|Hq].
  - rewrite IH; [|apply N.div_lt; lia|done]. cbn [digits]. rewrite digit_char by done. cbn. f_equal. lia.
  - assert (x `div` 10 = 0)%N as -> by lia. rewrite pretty_N_go_0. cbn [digits]. rewrite digit_char by done. cbn. f_equal. lia.
Qed.
Lemma digits_N (x : N) : digits 0 (pretty x) = Some (Z.of_N x).
Proof.
  unfold pretty, pretty_N. case_decide as E; [by subst|]. rewrite digits_go by lia. done.
Qed.
Lemma pretty_N_head (x : N) : exists c s, pretty x = String c s /\ is_Some (digit c).
Proof.
  pose proof (digits_N x) as H. destruct (pretty x) as [|c s] eqn:E.
  - exfalso. unfold pretty, pretty_N in E. case_decide as Hx; [done|].
    assert (forall y s, s <> "" -> pretty_N_go y s <> "") as Hne.
    { intros y. induction y as [y IH] using (well_founded_induction N.lt_wf_0). intros s Hs.
      destruct (decide (y = 0)%N) as [->|Hy]; [by rewrite pretty_N_go_0|]. rewrite pretty_N_go_step by lia.
      apply IH; [apply N.div_lt; lia|done]. }
    rewrite pretty_N_go_step in E by lia. by apply Hne in E.
  - exists c, s. split; [done|]. cbn in H. destruct (digit c); [by eexists|discriminate].
Qed.
Lemma ParseInt_pretty (z : Z) : ParseInt (pretty z) = Some z.
Proof.
  destruct z as [|p|p]; [reflexivity| |].
  - change (pretty (Z.pos p)) with (pretty (N.pos p)). destruct (pretty_N_head (N.pos p)) as (c & s & E & [d Hd]).
    pose proof (digits_N (N.pos p)) as H. rewrite E in *. unfold ParseInt. rewrite H.
    destruct (decide (c = "-"%char)) as [->|Hc]; [discriminate|]. clear -Hc. destruct c as [[] [] [] [] [] [] [] []]; try done.
  - change (pretty (Z.neg p)) with (String "-" (pretty (N.pos p))). destruct (pretty_N_head (N.pos p)) as (c & s & E & _).
    pose proof (digits_N (N.pos p)) as H. rewrite E in *. unfold ParseInt. by rewrite H.
Qed.


(** Only a minus and digits. *)
Definition decimal_byte (c : ascii) : bool := Ascii.eqb c "-" || bool_decide (is_Some (digit c)).
Lemma digits_bytes s : forall acc, is_Some (digits acc s) -> sforall decimal_byte s = true.
Proof.
  induction s as [|c s IH]; intros acc; [done|]. cbn. destruct (digit c) as [d|] eqn:E; cbn; [|by intros [? [=]]].
  intros H. rewrite (IH _ H), andb_true_r. unfold decimal_byte. rewrite E. rewrite bool_decide_true by eauto. by rewrite orb_true_r.
Qed.
Lemma pretty_bytes (z : Z) : sforall decimal_byte (pretty z) = true.
Proof.
  assert (forall x : N, sforall decimal_byte (pretty x) = true) as HN by (intros x; apply (digits_bytes _ 0); rewrite digits_N; eauto).
  destruct z as [|p|p]; [reflexivity|apply (HN (N.pos p))|]. change (sforall decimal_byte (pretty (N.pos p)) = true). apply HN.
Qed.
Lemma pretty_without sep (z : Z) : decimal_byte sep = false -> without sep (pretty z) = true.
Proof.
  intros Hs. eapply sforall_impl; [|apply (pretty_bytes z)]. intros c Hc. apply negb_true_iff. destruct (Ascii.eqb_spec c sep) as [->|]; congruence.
Qed.

(** A positive number has no leading zero. *)
Definition digit_byte (c : ascii) : bool := bool_decide (is_Some (digit c)).
Lemma digit_char_byte x : (x < 10)%N -> digit_byte (pretty_N_char x) = true.
Proof. intros Hx. apply bool_decide_eq_true. rewrite digit_char by done. eauto. Qed.
Lemma pretty_go_shape x s : (0 < x)%N -> sforall digit_byte s = true ->
  exists c t, pretty_N_go x s = String c t /\ digit_byte c = true /\ c <> "0"%char /\ sforall digit_byte t = true.
Proof.
  revert s. induction x as [x IH] using (well_founded_induction N.lt_wf_0); intros s Hx Hs. rewrite pretty_N_go_step by done.
  pose proof (N.mod_lt x 10 ltac:(done)) as Hm. pose proof (N.div_mod' x 10) as Hd.
  destruct (decide (0 < x `div` 10)%N) as [Hq|Hq].
  - apply IH; [apply N.div_lt; lia|done|]. cbn [sforall]. by rewrite digit_char_byte, Hs.
  - assert (x `div` 10 = 0)%N as E by lia. rewrite E, pretty_N_go_0. exists (pretty_N_char (x `mod` 10)), s.
    split; [done|]. split; [by apply digit_char_byte|]. split; [|done]. intros H0. pose proof (digit_char _ Hm) as Hc. rewrite H0 in Hc. change (Some 0 = Some (Z.of_N (x `mod` 10))) in Hc.
    injection Hc as Hc. lia.
Qed.
Lemma pretty_pos_shape p : exists c t, pretty (Z.pos p) = String c t /\ digit_byte c = true /\ c <> "0"%char /\ sforall digit_byte t = true.
Proof. change (pretty (Z.pos p)) with (pretty (N.pos p)). unfold pretty, pretty_N. rewrite decide_False by done. by apply pretty_go_shape. Qed.
