(* ===== verification/BudgetPageText.v ===== *)
(** * The layout descriptor (src/budget/v1alpha1/page.go, PageLayout)

    The text that publishes the layout of a page, and a reader of the format
    its second line documents.  The reader recovers every column of the table
    from the text, so the descriptor alone locates every field of an encoded
    page; the descriptor of a later minor begins with the text of this one. *)
From S2P Require Import Prelude GoLib GoStrings GoNumbers BudgetVocab BudgetTypes BudgetPage BudgetPageCodec.

Definition pageLayoutHeader : string := "# k3sm node budget page, ABI major 1: a 4096-byte little-endian file.
# One line per field: <offset> <size> <kind> <absent|-> <enum|-> <name>. A minor only appends lines.
# Fields mirror NodeBudget: the same names and units (seconds, bytes, permille, counts).
# Page-only: magic abiMajor abiMinor headerSize bodySize seq notifyEpoch writerPeriodSeconds.
# NodeBudget-only: conditions, writer, policy, inForce, wouldKill, windowed counts, every string but nodeName.
# Codes are u64, index+1 in the manifest tables, 0 unset or unknown; an absent i64 is -9223372036854775808.
# Signal and counter slots are filled in order; an empty slot (id or band 0) is all zero bytes.
# nodeName: 256 inline bytes after nodeNameLen; a length above 253 is refused by writers and readers.
# Host or guest: platform=darwin with every linux word absent is the host's page; with any linux word present, a vm guest's.
# Seqlock: store seq odd, every body word (headerSize to headerSize+bodySize), seq even, then notifyEpoch.
# notifyEpoch: alone on its line, outside the seqlock region; wait on its low 32-bit word, the 4 bytes at
# its offset; bumped only on a change of level, admit, a threshold or generation; it wraps, so compare
# for inequality only.
".
(** The descriptor of a table; [PageLayout] is that of the page. *)
Definition layout_text (fs : list pageField) : string := pageLayoutHeader +:+ foldr String.append "" (PageLayout_lines fs).
Definition PageLayout : string := layout_text pageLayout.

(** ** A reader of the documented format *)
Record row := mkrow { row_offset : Z; row_size : Z; row_kind : pageKind; row_absent : bool; row_enum : string; row_name : string }.
Definition row_of (f : pageField) : row := mkrow (pf_offset f) (pf_size f) (pf_kind f) (pf_absent f) (pf_enum f) (pf_name f).
Definition read_kind (s : string) : option pageKind :=
  List.find (fun k => String.eqb (pageKind_String k) s) [kindBytes; kindU16; kindU32; kindU64; kindI64].
Definition read_row (line : string) : option row :=
  match Split line " " with
  | [off; size; kind; absent; enum; name] =>
      off ← ParseInt off; size ← ParseInt size; kind ← read_kind kind;
      absent ← (if String.eqb absent "absent" then Some true else if String.eqb absent "-" then Some false else None);
      Some (mkrow off size kind absent (if String.eqb enum "-" then "" else enum) name)
  | _ => None
  end.
Definition field_line (line : string) : bool := match line with "" => false | String c _ => negb (Ascii.eqb c "#") end.
Definition newline : ascii := byte_of_Z 10.
Definition read_layout (text : string) : option (list row) := mapM read_row (List.filter field_line (Split text newline)).

(** ** The lines *)
Definition plain_word (s : string) : bool := without " " s && without newline s.
(** A row whose columns the format can carry. *)
Definition clean (f : pageField) : Prop := plain_word (pf_name f) = true /\ plain_word (pf_enum f) = true /\ pf_enum f <> "-".
#[export] Instance clean_dec f : Decision (clean f) := _.
Definition columns (f : pageField) : list string :=
  [pretty (pf_offset f); pretty (pf_size f); pageKind_String (pf_kind f); if pf_absent f then "absent" else "-";
   if String.eqb (pf_enum f) "" then "-" else pf_enum f; pf_name f].
Lemma columns_line f : layout_line f = Join (columns f) " " +:+ nl.
Proof. unfold layout_line, columns, nl. cbn [Join]. repeat (rewrite sapp_assoc || rewrite sapp_cons). done. Qed.
Lemma columns_plain f : clean f -> Forall (fun c => plain_word c = true) (columns f).
Proof.
  intros (Hn & He & _). unfold plain_word in *. repeat constructor; try done.
  1-2: by rewrite !pretty_without.
  - by destruct (pf_kind f).
  - by destruct (pf_absent f).
  - by destruct (String.eqb (pf_enum f) "").
Qed.
Lemma plain_split f : clean f -> Split (Join (columns f) " ") " " = columns f /\ without newline (Join (columns f) " ") = true.
Proof.
  intros Hc%columns_plain. split.
  - apply Split_Join; [done|]. eapply Forall_impl; [exact Hc|]. by intros c [? _]%andb_true_iff.
  - apply sforall_Join; [done|]. eapply Forall_impl; [exact Hc|]. by intros c [_ ?]%andb_true_iff.
Qed.
Lemma read_kind_String k : read_kind (pageKind_String k) = Some k.
Proof. by destruct k. Qed.
Lemma read_line f : clean f -> read_row (Join (columns f) " ") = Some (row_of f).
Proof.
  intros Hc. unfold read_row. rewrite (proj1 (plain_split f Hc)). cbn [columns]. rewrite !ParseInt_pretty, read_kind_String. cbn.
  unfold row_of. destruct Hc as (_ & _ & He). destruct (String.eqb_spec (pf_enum f) "") as [->|Hn]; [by destruct (pf_absent f)|].
  rewrite (proj2 (String.eqb_neq _ _) He). by destruct (pf_absent f).
Qed.
Lemma line_kept f : field_line (Join (columns f) " ") = true.
Proof.
  assert (exists c s, pretty (pf_offset f) = String c s /\ decimal_byte c = true) as (c & s & E & Hc).
  { pose proof (pretty_bytes (pf_offset f)) as H. pose proof (ParseInt_pretty (pf_offset f)) as Hp.
    destruct (pretty (pf_offset f)) as [|c s]; [done|]. exists c, s. split; [done|]. by apply andb_true_iff in H as [? _]. }
  unfold columns. cbn [Join]. rewrite E, sapp_cons. cbn. destruct (Ascii.eqb_spec c "#") as [->|]; [discriminate|done].
Qed.

(** ** The text *)
Lemma Split_lines fs : Forall clean fs ->
  Split (foldr String.append "" (PageLayout_lines fs)) newline = ((fun f => Join (columns f) " ") <$> fs) ++ [""].
Proof.
  induction 1 as [|f fs Hf _ IH]; [done|]. unfold PageLayout_lines. cbn [fmap list_fmap foldr]. rewrite columns_line, sapp_assoc.
  unfold nl. rewrite sapp_cons. change (String.append "" ?x) with x. rewrite Split_app, Split_piece by (by apply plain_split). cbn. f_equal. exact IH.
Qed.
Lemma header_comments : exists h, pageLayoutHeader = h +:+ String newline "" /\ List.filter field_line (Split h newline) = [].
Proof. exists (Join (removelast (Split pageLayoutHeader newline)) newline). split; vm_compute; reflexivity. Qed.
Lemma read_layout_text fs : Forall clean fs -> read_layout (layout_text fs) = Some (row_of <$> fs).
Proof.
  intros Hfs. unfold read_layout, layout_text. destruct header_comments as (h & -> & Hh).
  rewrite sapp_assoc, sapp_cons. change ("" +:+ ?x) with x. rewrite Split_app, Split_lines by done.
  rewrite !List.filter_app, Hh. cbn [app List.filter field_line]. rewrite app_nil_r.
  assert (List.filter field_line ((fun f => Join (columns f) " ") <$> fs) = (fun f => Join (columns f) " ") <$> fs) as ->.
  { induction fs as [|f fs IH]; [done|]. cbn [fmap list_fmap List.filter]. rewrite line_kept, IH; [done|]. by apply Forall_cons in Hfs as [_ ?]. }
  apply mapM_Some_2, Forall2_fmap_2, Forall_Forall2_diag. eapply Forall_impl; [exact Hfs|]. apply read_line.
Qed.
Lemma layout_text_app fs gs : layout_text (fs ++ gs) = layout_text fs +:+ foldr String.append "" (PageLayout_lines gs).
Proof.
  unfold layout_text, PageLayout_lines. rewrite fmap_app, foldr_app, sapp_assoc. f_equal. induction (layout_line <$> fs) as [|l ls IH]; [done|].
  cbn. by rewrite IH, sapp_assoc.
Qed.
Lemma page_clean : Forall clean pageLayout.
Proof. apply (bool_decide_unpack _). vm_compute. exact I. Qed.
Lemma laid_clean specs off : Forall clean specs -> Forall clean (layout_from off specs).1.
Proof.
  intros H. revert off. induction H as [|f fs Hf _ IH]; intros off; [constructor|]. cbn.
  specialize (IH (align_up off (field_align f) + pf_size f)). destruct (layout_from _ fs). constructor; [exact Hf|exact IH].
Qed.
Lemma minor0_prefix : exists text, PageLayout = layout_text (buildPageLayout specs_minor0).1 +:+ text.
Proof.
  pose proof (f_equal fst layout_eq) as E. cbn [fst] in E. unfold PageLayout, buildPageLayout. rewrite <- E.
  with_strategy transparent [pageFieldSpecs] unfold pageFieldSpecs. rewrite layout_from_app. cbn [fst]. rewrite layout_text_app. by eexists.
Qed.

(** C19: The descriptor locates every field: a reader of its documented format
    recovers from the text of [PageLayout] the row of every field, and in an
    encoded page the bytes of each field stand at its row's offset within its
    row's size.  However many rows a later minor appends, its descriptor begins
    with this text and its rows with these rows, as this text begins with the
    descriptor of minor 0. *)
Theorem descriptor_locates_fields (more : list pageField) (dst : list byte) (s : PageSnapshot) (p : list byte) :
  Forall clean more -> EncodePage dst s = Ok p ->
  let later := layout_text (buildPageLayout (pageFieldSpecs ++ more)).1 in
  exists rows rest text, read_layout PageLayout = Some rows /\ read_layout later = Some (rows ++ rest) /\ later = PageLayout +:+ text /\
    (exists text0, PageLayout = layout_text (buildPageLayout specs_minor0).1 +:+ text0) /\
    Forall2 (fun r f => r = row_of f /\ exists bs, field_bytes s f = Ok bs /\ Z.of_nat (length bs) <= row_size r /\
      slice (Z.to_nat (row_offset r)) (length bs) p = bs) rows pageLayout.
Proof.
  intros Hm He. cbn zeta. unfold buildPageLayout. rewrite layout_from_app, layout_eq. cbn [fst snd].
  exists (row_of <$> pageLayout), (row_of <$> (layout_from pageBodyEnd more).1), (foldr String.append "" (PageLayout_lines (layout_from pageBodyEnd more).1)).
  split_and!; [by apply read_layout_text, page_clean| |apply layout_text_app|apply minor0_prefix|].
  - rewrite read_layout_text, fmap_app; [done|]. apply Forall_app. split; [apply page_clean|by apply laid_clean].
  - apply Forall2_fmap_l, Forall_Forall2_diag, Forall_forall. intros f Hf. split; [done|].
    destruct (encode_field dst s p f He Hf) as (bs & Hbs & Hsl). exists bs. split_and!; [done| |done].
    pose proof (page_fits s) as Hfit. rewrite Forall_forall in Hfit. by apply (Hfit f Hf).
Qed.
Lemma descriptor_locates_fields_witness :
  exists p rows, EncodePage zero_page tiny_snapshot = Ok p /\ read_layout PageLayout = Some rows /\ length rows = length pageLayout.
Proof.
  destruct (EncodePage zero_page tiny_snapshot) as [p|e] eqn:E.
  - destruct (descriptor_locates_fields [] zero_page tiny_snapshot p ltac:(constructor) E) as (rows & _ & _ & Hr & _ & _ & _ & H).
    exists p, rows. split; [reflexivity|]. split; [exact Hr|]. by apply Forall2_length in H.
  - exfalso. vm_compute in E. discriminate E.
Defined.
