(* ===== verification/Sentinels.v ===== *)
(** * Which sentinel an error wraps

    [wraps s c]: every error the check [c] can return is recognised by
    errors.Is as the sentinel [s].  The rules follow the combinators the models
    are built from, so a goal about a whole validation is closed by
    [auto with wraps]. *)
From S2P Require Import Prelude.

Definition wraps (s : string) (c : check) : Prop := forall e, c = Some e -> errors_is e s = true.

Lemma wraps_failif s b e : errors_is e s = true -> wraps s (failif b e).
Proof. intros He e' [_ <-]%failif_Some. done. Qed.
Lemma wraps_andthen s c k : wraps s c -> wraps s k -> wraps s (c ;? k).
Proof. intros Hc Hk e [H|[_ H]]%andthen_Some; auto. Qed.
Lemma wraps_wrapc s f c : (forall e, errors_is (f e) s = true) -> wraps s (wrapc f c).
Proof. intros Hf e (e' & _ & <-)%wrapc_Some. done. Qed.
Lemma wraps_Some s e : errors_is e s = true -> wraps s (Some e).
Proof. by intros He e' [= <-]. Qed.
Lemma wraps_None s : wraps s None.
Proof. done. Qed.
Lemma wraps_each {A} s (f : Z -> A -> check) l i : (forall j x, wraps s (f j x)) -> wraps s (each i f l).
Proof.
  intros Hf. revert i. induction l as [|x l IH]; intros i; [done|]. by apply wraps_andthen.
Qed.
Lemma wraps_each_seen {A K} `{Countable K} s (f : Z -> gset K -> A -> check) key l i seen :
  (forall j sn x, wraps s (f j sn x)) -> wraps s (each_seen i seen f key l).
Proof.
  intros Hf. revert i seen. induction l as [|x l IH]; intros i seen; [done|]. by apply wraps_andthen.
Qed.
Lemma wraps_if s (b : bool) c k : wraps s c -> wraps s k -> wraps s (if b then c else k).
Proof. by destruct b. Qed.
(** The sentinel comes first in the two-error format. *)
Lemma wrapc_sentinel s fmt args e : errors_is (ErrorfWW fmt args (ErrNew s) e) s = true.
Proof. simpl. by rewrite String.eqb_refl. Qed.

Create HintDb wraps.
#[export] Hint Resolve wraps_failif wraps_andthen wraps_wrapc wraps_Some wraps_None wraps_each
  wraps_each_seen wraps_if wrapc_sentinel : wraps.
#[export] Hint Extern 1 (errors_is _ _ = true) => reflexivity : wraps.
