(* ===== verification/Artifact.v ===== *)
(** * Artifact paths and allow-sets (src/artifact/v1)

    The path rules a file of an artifact obeys ([ValidatePath],
    [ValidatePathSet] of path.go) and the closed allow-sets of artifact and
    layer media types (allowset.go, mediatypes.go).  The theorems give the
    accepted paths and path sets as predicates on path components, and say what
    no allow-set admits. *)
From S2P Require Import Prelude GoLib GoStrings.

(** ** Bounds and sentinels *)
Definition MaxPathDepth : Z := 8.
Definition MaxComponentBytes : Z := 255.
Definition MaxPathBytes : Z := MaxPathDepth * (MaxComponentBytes + 1).
Definition MaxPaths : Z := 4096.

Definition ErrEmptyPath := ErrNew "ErrEmptyPath".
Definition ErrAbsolutePath := ErrNew "ErrAbsolutePath".
Definition ErrPathCharset := ErrNew "ErrPathCharset".
Definition ErrPathComponent := ErrNew "ErrPathComponent".
Definition ErrReservedComponent := ErrNew "ErrReservedComponent".
Definition ErrPathTooLong := ErrNew "ErrPathTooLong".
Definition ErrPathDepth := ErrNew "ErrPathDepth".
Definition ErrComponentTooLong := ErrNew "ErrComponentTooLong".
Definition ErrCodeFile := ErrNew "ErrCodeFile".
Definition ErrDuplicatePath := ErrNew "ErrDuplicatePath".
Definition ErrCaseCollision := ErrNew "ErrCaseCollision".
Definition ErrFileDirConflict := ErrNew "ErrFileDirConflict".
Definition ErrTooManyPaths := ErrNew "ErrTooManyPaths".

Definition codeExtensions : list string :=
  [".py"; ".pyc"; ".bin"; ".pt"; ".pth"; ".pkl"; ".pickle"; ".ckpt"; ".so"; ".dylib"].

(** ** ValidatePath *)
Definition pathByte (b : byte) : bool :=
  is_lower b || is_upper b || is_digit b ||
  (Ascii.eqb b "." || Ascii.eqb b "_" || Ascii.eqb b "-" || Ascii.eqb b "/").

Fixpoint check_charset (p : string) (i : Z) (rest : string) : check :=
  match rest with
  | "" => None
  | String b rest' =>
      failif (negb (pathByte b)) (ErrorfW "%q: byte %d: %w" [ArgS p; ArgZ i] ErrPathCharset) ;?
      check_charset p (i + 1) rest'
  end.

Definition check_component (p c : string) : check :=
  failif (String.eqb c "" || String.eqb c "." || String.eqb c "..")
    (ErrorfW "%q: %w" [ArgS p] ErrPathComponent) ;?
  failif (HasPrefix c ".." || HasPrefix c "._")
    (ErrorfW "%q: component %q: %w" [ArgS p; ArgS c] ErrReservedComponent) ;?
  failif (slen c >? MaxComponentBytes)
    (ErrorfW "%q: component of %d bytes, at most %d: %w" [ArgS p; ArgZ (slen c); ArgZ MaxComponentBytes]
      ErrComponentTooLong).

(** The loop over the components; [last] is the variable it assigns. *)
Fixpoint components_loop (p last : string) (cs : list string) : res string :=
  match cs with
  | [] => Ok last
  | c :: cs' => check_component p c ;! components_loop p c cs'
  end.

Definition ValidatePath (p : string) : check :=
  failif (slen p >? MaxPathBytes)
    (ErrorfW "path of %d bytes, at most %d: %w" [ArgZ (slen p); ArgZ MaxPathBytes] ErrPathTooLong) ;?
  failif (String.eqb p "") ErrEmptyPath ;?
  failif (HasPrefix p "/") (ErrorfW "%q: %w" [ArgS p] ErrAbsolutePath) ;?
  check_charset p 0 p ;?
  (let depth := Count p "/" + 1 in
   failif (depth >? MaxPathDepth)
     (ErrorfW "%q: %d components, at most %d: %w" [ArgS p; ArgZ depth; ArgZ MaxPathDepth] ErrPathDepth)) ;?
  match components_loop p "" (Split p "/") with
  | Err e => Some e
  | Ok last =>
      let name := ToLower last in
      each 0 (fun _ ext =>
        failif (HasSuffix name ext) (ErrorfW "%q: %w (%s)" [ArgS p; ArgS ext] ErrCodeFile)) codeExtensions
  end.

(** ** ValidatePathSet *)
Fixpoint set_loop (exact : gset string) (folded : gmap string string) (paths : list string)
    : res (gmap string string) :=
  match paths with
  | [] => Ok folded
  | p :: paths' =>
      ValidatePath p ;!
      failif (bool_decide (p ∈ exact)) (ErrorfW "%q: %w" [ArgS p] ErrDuplicatePath) ;!
      let f := ToLower p in
      match folded !! f with
      | Some prev => Err (ErrorfW "%q and %q: %w" [ArgS prev; ArgS p] ErrCaseCollision)
      | None => set_loop ({[p]} ∪ exact) (<[f := p]> folded) paths'
      end
  end.

(** The loop over the bytes of a folded path: [pre] is [f[:i]]. *)
Fixpoint dirs_loop (folded : gmap string string) (p pre rest : string) : check :=
  match rest with
  | "" => None
  | String b rest' =>
      (if Ascii.eqb b "/" then
         match folded !! pre with
         | Some file =>
             Some (ErrorfW "%q is a file and a directory of %q: %w" [ArgS file; ArgS p] ErrFileDirConflict)
         | None => None
         end
       else None) ;?
      dirs_loop folded p (pre +:+ String b "") rest'
  end.

Definition ValidatePathSet (paths : list string) : check :=
  failif (len paths >? MaxPaths)
    (ErrorfW "%d paths, at most %d: %w" [ArgZ (len paths); ArgZ MaxPaths] ErrTooManyPaths) ;?
  match set_loop ∅ ∅ paths with
  | Err e => Some e
  | Ok folded => each 0 (fun _ p => dirs_loop folded p "" (ToLower p)) paths
  end.

(** ** Media types and allow-sets *)
Definition ArtifactTypeModel := "application/vnd.cncf.model.manifest.v1+json".
Definition MediaTypeModelConfig := "application/vnd.cncf.model.config.v1+json".
Definition MediaTypeModelWeight := "application/vnd.cncf.model.weight.v1.raw".
Definition MediaTypeModelWeightConfig := "application/vnd.cncf.model.weight.config.v1.raw".
Definition MediaTypeModelDoc := "application/vnd.cncf.model.doc.v1.raw".
Definition MediaTypeModelCode := "application/vnd.cncf.model.code.v1.raw".
Definition MediaTypeWasmConfig := "application/vnd.wasm.config.v0+json".
Definition MediaTypeWasmLayer := "application/wasm".
Definition ArtifactTypeGuest := "application/vnd.k3sm.guest.v1".
Definition MediaTypeGuestKernel := "application/vnd.k3sm.guest.kernel.v1.raw".
Definition MediaTypeGuestInitramfs := "application/vnd.k3sm.guest.initramfs.v1.raw".
Definition MediaTypeOCIImageConfig := "application/vnd.oci.image.config.v1+json".

Definition ArtifactType (manifestArtifactType configMediaType : string) : string :=
  if negb (String.eqb manifestArtifactType "") then manifestArtifactType else configMediaType.

Definition ErrUnknownPolicy := ErrNew "ErrUnknownPolicy".

Record typeRule := { artifactType : string; layers : list string }.
Record AllowSet := { name : string; rules : list typeRule }.

Definition modelLayers : list string :=
  [MediaTypeModelWeight; MediaTypeModelWeightConfig; MediaTypeModelDoc].

Definition ImageVolumeAllowSet : AllowSet :=
  {| name := "image-volume";
     rules := [{| artifactType := ArtifactTypeModel; layers := modelLayers |};
               {| artifactType := MediaTypeWasmConfig; layers := [MediaTypeWasmLayer] |}] |}.
Definition GuestAllowSet : AllowSet :=
  {| name := "guest";
     rules := [{| artifactType := ArtifactTypeGuest;
                  layers := [MediaTypeGuestKernel; MediaTypeGuestInitramfs] |}] |}.

(** The ArtifactPolicy enum is a protobuf open enum: any int32. *)
Definition ARTIFACT_POLICY_UNSPECIFIED : Z := 0.
Definition ARTIFACT_POLICY_IMAGE_VOLUME : Z := 1.

(** [policy_String] is the enum's generated String method, used for the message
    alone. *)
Definition AllowSetFor (policy_String : Z -> string) (policy : Z) : res AllowSet :=
  if policy =? ARTIFACT_POLICY_IMAGE_VOLUME then Ok ImageVolumeAllowSet
  else Err (ErrorfW "artifact policy %d (%s): %w" [ArgZ policy; ArgS (policy_String policy)]
              ErrUnknownPolicy).

Definition AllowSet_rule (a : AllowSet) (t : string) : option typeRule :=
  List.find (fun r => String.eqb r.(artifactType) t) a.(rules).
Definition AllowSet_AllowsType (a : AllowSet) (t : string) : bool :=
  match AllowSet_rule a t with Some _ => true | None => false end.
Definition AllowSet_AllowsLayer (a : AllowSet) (t layer : string) : bool :=
  match AllowSet_rule a t with
  | Some r => existsb (String.eqb layer) r.(layers)
  | None => false
  end.
Definition AllowSet_ArtifactTypes (a : AllowSet) : list string := artifactType <$> a.(rules).
Definition AllowSet_LayerMediaTypes (a : AllowSet) (t : string) : option (list string) :=
  match AllowSet_rule a t with None => None | Some r => Some r.(layers) end.
Definition AllowSet_Name (a : AllowSet) : string := a.(name).

(** ** What a valid path is *)
Definition name_byte (b : byte) : bool :=
  is_lower b || is_upper b || is_digit b || (Ascii.eqb b "." || Ascii.eqb b "_" || Ascii.eqb b "-").

(** A component: 1 to 255 bytes of [A-Za-z0-9._-], neither "." nor starting
    ".." or "._". *)
Record component_ok (c : string) : Prop := {
  component_size : 0 < slen c <= MaxComponentBytes;
  component_bytes : sforall name_byte c = true;
  component_not_dot : c <> ".";
  component_not_reserved : forall t, c <> ".." +:+ t /\ c <> "._" +:+ t }.

(** A code file's name ends, whatever the case, in a refused extension. *)
Definition code_file (c : string) : Prop :=
  exists ext t, ext ∈ codeExtensions /\ ToLower c = t +:+ ext.

(** A path: at most eight components joined by "/", the last no code file. *)
Record path_ok (p : string) (cs : list string) : Prop := {
  path_join : p = Join cs "/";
  path_nonempty : cs <> [];
  path_depth : len cs <= MaxPathDepth;
  path_components : Forall component_ok cs;
  path_data : ~ code_file (List.last cs "") }.

Lemma pathByte_split b : pathByte b = true <-> name_byte b = true \/ b = "/"%char.
Proof.
  unfold pathByte, name_byte. rewrite !orb_true_iff, !Ascii.eqb_eq. tauto.
Qed.
Lemma name_byte_slash : name_byte "/" = false.
Proof. done. Qed.

Lemma check_charset_None p i rest : check_charset p i rest = None <-> sforall pathByte rest = true.
Proof.
  revert i. induction rest as [|b rest IH]; intros i; [done|]. cbn [check_charset sforall].
  rewrite andthen_None, failif_None, negb_false_iff, andb_true_iff, IH. done.
Qed.

Lemma last_cons (c d : string) cs : List.last (c :: cs) d = List.last cs c.
Proof.
  revert c d. induction cs as [|c' cs IH]; intros c d; [done|].
  change (List.last (c' :: cs) d = List.last (c' :: cs) c). by rewrite !IH.
Qed.

Lemma components_loop_Ok p cs last l :
  components_loop p last cs = Ok l <->
    Forall (fun c => check_component p c = None) cs /\ l = List.last cs last.
Proof.
  revert last. induction cs as [|c cs IH]; intros last.
  - simpl. split; [intros [= ->]; by split|intros [_ ->]; done].
  - cbn [components_loop]. rewrite checked_Ok, Forall_cons, IH.
    rewrite last_cons. tauto.
Qed.

(** A component of bytes other than "/" passes the switch when it is well
    formed. *)
Lemma check_component_None p c :
  sforall name_byte c = true -> check_component p c = None <-> component_ok c.
Proof.
  intros Hb. unfold check_component. rewrite !andthen_None, !failif_None, !orb_false_iff.
  rewrite !String.eqb_neq, <- !not_true_iff_false, !HasPrefix_spec, Z.gtb_lt. split.
  - intros ([[Hc Hd] _] & [Hp Hq] & Hs). split; try done; [|naive_solver].
    split; [|lia]. destruct c; [done|]. unfold slen. simpl. lia.
  - intros [[Hs Hs'] _ Hd Hr]. split_and!; try done; try lia; naive_solver.
Qed.

(** The bytes of a path are the bytes of its components and the separators. *)
Lemma path_bytes p :
  sforall pathByte p = true <-> Forall (fun c => sforall name_byte c = true) (Split p "/").
Proof.
  rewrite <- (Join_Split p "/") at 1. rewrite sforall_Join by done.
  pose proof (Split_without p "/") as Hw. split; intros H.
  - eapply Forall_impl; [by apply Forall_and; split; [exact H|exact Hw]|].
    intros c [Hp Hn]. rewrite <- (sforall_impl (fun b => pathByte b && negb (Ascii.eqb b "/")) name_byte c).
    + done.
    + intros b. rewrite andb_true_iff, pathByte_split, negb_true_iff, Ascii.eqb_neq. tauto.
    + by apply sforall_and.
  - eapply Forall_impl; [exact H|]. intros c. apply sforall_impl. intros b Hb.
    apply pathByte_split. by left.
Qed.

Lemma each_code_None p n :
  each 0 (fun _ ext =>
    failif (HasSuffix (ToLower n) ext) (ErrorfW "%q: %w (%s)" [ArgS p; ArgS ext] ErrCodeFile))
    codeExtensions = None <-> ~ code_file n.
Proof.
  rewrite (each_None _ (fun ext => ~ exists t, ToLower n = t +:+ ext)).
  - rewrite Forall_forall. unfold code_file. naive_solver.
  - intros _ ext. by rewrite failif_None, <- not_true_iff_false, HasSuffix_spec.
Qed.

Lemma component_nonempty : ~ component_ok "".
Proof. intros [[H _] _ _ _]. done. Qed.
Lemma component_ok_piece c : component_ok c -> without "/" c = true.
Proof.
  intros [_ Hb _ _]. revert Hb. apply sforall_impl. intros b Hb.
  apply negb_true_iff, Ascii.eqb_neq. intros ->. done.
Qed.

(** [ValidatePath] on the pieces of its argument, without the length bound. *)
Lemma ValidatePath_pieces p :
  ValidatePath p = None <-> slen p <= MaxPathBytes /\ path_ok p (Split p "/").
Proof.
  unfold ValidatePath. rewrite !andthen_None, !failif_None, check_charset_None.
  rewrite Z.gtb_ltb, Z.ltb_ge, Z.gtb_ltb, Z.ltb_ge, Count_Split, path_bytes, String.eqb_neq.
  rewrite <- not_true_iff_false, HasPrefix_spec.
  pose proof (Split_nonempty p "/") as Hn. pose proof (Join_Split p "/") as Hj.
  split.
  - intros (Hl & He & Ha & Hb & Hd & Hc). split; [done|].
    destruct (components_loop p "" (Split p "/")) as [n|] eqn:E; [|done].
    apply components_loop_Ok in E as [Hcs ->]. split; try done.
    + apply Forall_forall. intros c Hin. rewrite Forall_forall in Hcs, Hb.
      apply (check_component_None p c (Hb _ Hin)), Hcs, Hin.
    + by apply each_code_None in Hc.
  - intros [Hl [_ _ Hd Hcs Hnc]].
    assert (Forall (fun c => sforall name_byte c = true) (Split p "/")) as Hb.
    { eapply Forall_impl; [done|]. by intros c []. }
    split; [done|]. split; [intros ->; rewrite Forall_forall in Hcs; apply component_nonempty, Hcs; left|].
    split.
    { intros [t ->]. change ("/" +:+ t) with (String "/" t) in Hcs.
      rewrite Forall_forall in Hcs. apply component_nonempty, Hcs. cbn [Split]. left. }
    split; [done|]. split; [done|].
    assert (components_loop p "" (Split p "/") = Ok (List.last (Split p "/") "")) as ->.
    { apply components_loop_Ok. split; [|done]. eapply Forall_impl; [exact Hcs|].
      intros c Hc. apply check_component_None; [apply Hc|exact Hc]. }
    by apply each_code_None.
Qed.

Lemma path_ok_unique p cs : path_ok p cs -> Split p "/" = cs.
Proof.
  intros [-> Hn _ Hcs _]. apply Split_Join; [done|]. eapply Forall_impl; [done|].
  apply component_ok_piece.
Qed.

(** Eight components of 255 bytes and their separators fit the length bound,
    which is checked first. *)
Lemma path_ok_short p cs : path_ok p cs -> slen p <= MaxPathBytes.
Proof.
  intros [-> Hn Hd Hcs _].
  pose proof (slen_Join cs "/" MaxComponentBytes) as Hj.
  transitivity (len cs * (MaxComponentBytes + 1) - 1).
  - apply Hj; [|done]. eapply Forall_impl; [done|]. by intros c [[_ Hc] _ _ _].
  - unfold MaxPathBytes, MaxComponentBytes, MaxPathDepth in *. lia.
Qed.

Lemma ValidatePath_None p : ValidatePath p = None <-> exists cs, path_ok p cs.
Proof.
  rewrite ValidatePath_pieces. split; [naive_solver|].
  intros [cs Hcs]. split; [by eapply path_ok_short|]. by rewrite (path_ok_unique p cs).
Qed.

(** [ValidatePath] accepts exactly the paths that are one to eight
    components of 1 to 255 bytes of [A-Za-z0-9._-] joined by single slashes,
    no component "." or starting ".." or "._", and the last no code file; the
    components are then those of the path's split, and the whole-path byte
    bound refuses no path the other rules accept. *)
Theorem ValidatePath_spec p :
  (ValidatePath p = None <-> exists cs, path_ok p cs) /\
  (forall cs, path_ok p cs -> Split p "/" = cs /\ slen p <= MaxPathBytes).
Proof.
  split; [apply ValidatePath_None|]. intros cs Hcs.
  split; [by apply path_ok_unique|by eapply path_ok_short].
Qed.

(** ** What a valid path set is *)

(** The path set as a case-insensitive volume sees it: the folded component
    lists.  [q] lies under [p] when [p]'s components are a proper prefix. *)
Definition folded_components (p : string) : list string := ToLower <$> Split p "/".
Definition lies_under (q p : string) : Prop :=
  exists cs, cs <> [] /\ folded_components q = folded_components p ++ cs.

Record path_set_ok (paths : list string) : Prop := {
  set_size : len paths <= MaxPaths;
  set_paths : Forall (fun p => exists cs, path_ok p cs) paths;
  set_distinct : NoDup (folded_components <$> paths);
  set_flat : forall p q, p ∈ paths -> q ∈ paths -> ~ lies_under q p }.

Lemma folded_components_Split p : folded_components p = Split (ToLower p) "/".
Proof. unfold folded_components. by rewrite Split_ToLower. Qed.
Lemma folded_components_inj p q : folded_components p = folded_components q <-> ToLower p = ToLower q.
Proof.
  rewrite !folded_components_Split. split; [|by intros ->]. intros H.
  by rewrite <- (Join_Split (ToLower p) "/"), H, Join_Split.
Qed.
Lemma lies_under_prefix q p : lies_under q p <-> exists r, ToLower q = ToLower p +:+ String "/" r.
Proof.
  unfold lies_under. rewrite !folded_components_Split. split.
  - intros (cs & Hn & Hq). exists (Join cs "/").
    rewrite <- (Join_Split (ToLower q) "/"), Hq, Join_app by (done || apply Split_nonempty).
    by rewrite Join_Split.
  - intros [r Hr]. exists (Split r "/"). split; [apply Split_nonempty|]. by rewrite Hr, Split_app.
Qed.

(** The first loop passes when the paths are valid and distinct under folding,
    and leaves a map of the folded paths. *)
Lemma set_loop_Ok exact folded paths m :
  set_loop exact folded paths = Ok m ->
    Forall (fun p => ValidatePath p = None) paths /\ NoDup (ToLower <$> paths) /\
    (forall p, p ∈ paths -> folded !! ToLower p = None) /\
    (forall f, is_Some (m !! f) <-> is_Some (folded !! f) \/ f ∈ ToLower <$> paths).
Proof.
  revert exact folded. induction paths as [|p paths IH]; intros exact folded; cbn [set_loop].
  - intros [= <-]. split; [done|]. split; [constructor|]. set_solver.
  - rewrite !checked_Ok. intros (Hp & _ & Hl).
    destruct (folded !! ToLower p) as [prev|] eqn:Ep; [done|].
    apply IH in Hl as (Hps & Hn & Hfr & Hm). rewrite fmap_cons.
    split; [by constructor|]. split; [|split].
    + constructor; [|done]. intros (q & Hq & Hin)%list_elem_of_fmap.
      specialize (Hfr q Hin). by rewrite <- Hq, lookup_insert_eq in Hfr.
    + intros q [->|Hq]%elem_of_cons; [done|]. by apply Hfr, lookup_insert_None in Hq as [? _].
    + intros f. rewrite Hm, lookup_insert_is_Some', elem_of_cons. naive_solver.
Qed.

Lemma set_loop_passes exact folded paths :
  (forall p, p ∈ exact -> is_Some (folded !! ToLower p)) ->
  Forall (fun p => ValidatePath p = None) paths -> NoDup (ToLower <$> paths) ->
  (forall p, p ∈ paths -> folded !! ToLower p = None) ->
  exists m, set_loop exact folded paths = Ok m.
Proof.
  intros He Hps. revert exact folded He. induction Hps as [|p paths Hp Hps IH];
    intros exact folded He Hn Hfr; [by exists folded|].
  rewrite fmap_cons in Hn. apply NoDup_cons in Hn as [Hnp Hn].
  assert (folded !! ToLower p = None) as Ep by (apply Hfr; left).
  destruct (IH ({[p]} ∪ exact) (<[ToLower p := p]> folded)) as [m Hm].
  - intros q [->%elem_of_singleton|Hq]%elem_of_union; [by rewrite lookup_insert_eq|].
    apply lookup_insert_is_Some'. right. by apply He.
  - done.
  - intros q Hq. apply lookup_insert_None. split; [apply Hfr; by right|].
    intros E. apply Hnp, list_elem_of_fmap. by exists q.
  - exists m. cbn [set_loop]. rewrite !checked_Ok, failif_None, bool_decide_eq_false, Ep.
    split; [done|]. split; [|done]. intros Hpe. destruct (He p Hpe). congruence.
Qed.

(** The second loop finds a folded path that a "/" follows. *)
Lemma dirs_loop_None folded p pre rest :
  dirs_loop folded p pre rest = None <->
    forall d r, rest = d +:+ String "/" r -> folded !! (pre +:+ d) = None.
Proof.
  revert pre. induction rest as [|b rest IH]; intros pre.
  - split; [|done]. intros _ [|? ?] r; done.
  - cbn [dirs_loop]. rewrite andthen_None, IH. split.
    + intros [Hb Hr] [|c d] r E.
      * change (String b rest = String "/" r) in E. injection E as -> ->.
        rewrite sapp_nil_r. simpl in Hb. by destruct (folded !! pre).
      * change (String b rest = String c (d +:+ String "/" r)) in E. injection E as -> E.
        apply Hr in E. by rewrite sapp_assoc in E.
    + intros H. split.
      * destruct (Ascii.eqb b "/") eqn:Eb; [|done]. apply Ascii.eqb_eq in Eb as ->.
        rewrite <- (sapp_nil_r pre), (H "" rest) by done. done.
      * intros d r ->. rewrite sapp_assoc. by apply (H (String b d) r).
Qed.

Lemma ValidatePathSet_None paths : ValidatePathSet paths = None <-> path_set_ok paths.
Proof.
  unfold ValidatePathSet. rewrite andthen_None, failif_None, Z.gtb_ltb, Z.ltb_ge.
  assert (Hnd : NoDup (folded_components <$> paths) <-> NoDup (ToLower <$> paths)).
  { assert (folded_components <$> paths = (fun s => Split s "/") <$> (ToLower <$> paths)) as ->.
    { rewrite <- list_fmap_compose. apply list_fmap_ext. intros. apply folded_components_Split. }
    rewrite NoDup_fmap; [done|]. intros a b E. by rewrite <- (Join_Split a "/"), E, Join_Split. }
  assert (Hv : Forall (fun p => exists cs, path_ok p cs) paths <-> Forall (fun p => ValidatePath p = None) paths).
  { apply Forall_iff. intros p. by rewrite ValidatePath_None. }
  split.
  - intros [Hl H]. destruct (set_loop ∅ ∅ paths) as [m|] eqn:E; [|done].
    apply set_loop_Ok in E as (Hps & Hn & _ & Hm).
    split; [done|by apply Hv|by apply Hnd|]. intros p q Hp Hq [r Hr]%lies_under_prefix.
    apply (each_None _ (fun p => forall d r, ToLower p = d +:+ String "/" r -> m !! d = None)) in H.
    + rewrite Forall_forall in H. apply (H q Hq) in Hr.
      destruct (proj2 (Hm (ToLower p))) as [v Hv']; [|congruence].
      right. apply list_elem_of_fmap. by exists p.
    + intros _ x. apply dirs_loop_None.
  - intros [Hl Hps Hn Hflat]. split; [done|].
    destruct (set_loop_passes ∅ ∅ paths) as [m E]; [set_solver|by apply Hv|by apply Hnd|done|].
    rewrite E. apply set_loop_Ok in E as (_ & _ & _ & Hm).
    apply each_None_weak. intros _ q Hq. apply dirs_loop_None. intros d r Hr.
    change ("" +:+ d) with d. apply eq_None_not_Some. intros [Hd|Hd]%Hm.
    + by rewrite lookup_empty in Hd; destruct Hd.
    + apply list_elem_of_fmap in Hd as (p & -> & Hp). apply (Hflat p q Hp Hq), lies_under_prefix.
      by exists r.
Qed.

(** C29: [ValidatePathSet] accepts exactly the sets of at most 4096 valid paths
    in which no two paths name the same file of a case-insensitive volume and
    no path is a directory of another; so a repeated path is always refused and
    the order of the paths does not matter. *)
Theorem ValidatePathSet_spec paths :
  (ValidatePathSet paths = None <-> path_set_ok paths) /\
  (forall paths', paths' ≡ₚ paths -> ValidatePathSet paths' = None <-> ValidatePathSet paths = None).
Proof.
  split; [apply ValidatePathSet_None|]. intros paths' Hp. rewrite !ValidatePathSet_None.
  split; intros [Hl Hv Hn Hf]; (split; [unfold len in *|..]).
  - by rewrite <- Hp.
  - by rewrite <- Hp.
  - by rewrite <- Hp.
  - intros p q. rewrite <- !Hp. apply Hf.
  - by rewrite Hp.
  - by rewrite Hp.
  - by rewrite Hp.
  - intros p q. rewrite !Hp. apply Hf.
Qed.

(** ** Allow-sets *)
Lemma AllowSet_rule_Some a t r :
  AllowSet_rule a t = Some r -> r ∈ a.(rules) /\ r.(artifactType) = t.
Proof.
  unfold AllowSet_rule. intros [Hin Ht]%List.find_some. apply String.eqb_eq in Ht.
  by rewrite list_elem_of_In.
Qed.
Lemma AllowSet_rule_None a t :
  AllowSet_rule a t = None <-> t ∉ AllowSet_ArtifactTypes a.
Proof.
  unfold AllowSet_rule, AllowSet_ArtifactTypes. split.
  - intros H (r & -> & Hin)%list_elem_of_fmap. apply list_elem_of_In in Hin.
    apply (List.find_none _ _ H) in Hin. by rewrite String.eqb_refl in Hin.
  - intros H. destruct (List.find _ _) as [r|] eqn:E; [|done].
    apply (AllowSet_rule_Some a t r) in E as [Hin <-]. destruct H. apply list_elem_of_fmap. by exists r.
Qed.
Lemma existsb_string x l : existsb (String.eqb x) l = true <-> x ∈ l.
Proof.
  rewrite existsb_exists. setoid_rewrite String.eqb_eq. rewrite list_elem_of_In. naive_solver.
Qed.

Lemma AllowsType_spec a t : AllowSet_AllowsType a t = true <-> t ∈ AllowSet_ArtifactTypes a.
Proof.
  unfold AllowSet_AllowsType. pose proof (AllowSet_rule_None a t) as H.
  destruct (AllowSet_rule a t) as [r|] eqn:E.
  - split; [|done]. intros _. apply AllowSet_rule_Some in E as [Hin <-]. apply list_elem_of_fmap. by exists r.
  - split; [done|]. intros Ht. by destruct (proj1 H eq_refl).
Qed.
Lemma AllowsLayer_spec a t l :
  AllowSet_AllowsLayer a t l = true <-> exists ls, AllowSet_LayerMediaTypes a t = Some ls /\ l ∈ ls.
Proof.
  unfold AllowSet_AllowsLayer, AllowSet_LayerMediaTypes.
  destruct (AllowSet_rule a t) as [r|]; [rewrite existsb_string; naive_solver|naive_solver].
Qed.
Lemma AllowsLayer_In a t l :
  AllowSet_AllowsLayer a t l = true -> exists r, r ∈ a.(rules) /\ r.(artifactType) = t /\ l ∈ r.(layers).
Proof.
  unfold AllowSet_AllowsLayer. destruct (AllowSet_rule a t) as [r|] eqn:E; [|done].
  rewrite existsb_string. apply AllowSet_rule_Some in E as [? ?]. eauto.
Qed.

(** An allow-set is closed: it admits a layer for an artifact type exactly
    when it lists the type and the type's rule lists the layer. *)
Theorem allow_set_closed a t l :
  (AllowSet_AllowsType a t = true <-> t ∈ AllowSet_ArtifactTypes a) /\
  (AllowSet_AllowsLayer a t l = true <-> exists ls, AllowSet_LayerMediaTypes a t = Some ls /\ l ∈ ls) /\
  (AllowSet_AllowsLayer a t l = true -> AllowSet_AllowsType a t = true) /\
  AllowSet_AllowsType {| name := ""; rules := [] |} t = false.
Proof.
  split; [apply AllowsType_spec|]. split; [apply AllowsLayer_spec|]. split; [|done].
  unfold AllowSet_AllowsLayer, AllowSet_AllowsType. by destruct (AllowSet_rule a t).
Qed.

(** Every media type a set of this build admits. *)
Definition admitted (a : AllowSet) (l : string) : Prop :=
  l ∈ AllowSet_ArtifactTypes a \/ exists t, AllowSet_AllowsLayer a t l = true.
Definition all_media (a : AllowSet) : list string :=
  AllowSet_ArtifactTypes a ++ (a.(rules) ≫= layers).

Lemma admitted_media a l : admitted a l -> l ∈ all_media a.
Proof.
  unfold all_media. rewrite elem_of_app. intros [H|[t H]]; [by left|right].
  apply AllowsLayer_In in H as (r & Hr & _ & Hl). apply list_elem_of_bind. eauto.
Qed.

(** C30: a pull request reaches the image-volume set alone: the one policy value
    that names it selects it and every other int32 is refused with
    ErrUnknownPolicy; through it no guest media type, no model code layer and no
    OCI image config can be admitted, and the guest set shares no media type
    with it. *)
Theorem pull_policy_contained policy_String policy :
  (AllowSetFor policy_String policy = Ok ImageVolumeAllowSet <-> policy = ARTIFACT_POLICY_IMAGE_VOLUME) /\
  (policy <> ARTIFACT_POLICY_IMAGE_VOLUME ->
     exists e, AllowSetFor policy_String policy = Err e /\ errors_is e "ErrUnknownPolicy" = true) /\
  (forall a m, AllowSetFor policy_String policy = Ok a -> admitted a m ->
     m <> MediaTypeModelCode /\ m <> MediaTypeOCIImageConfig /\ ~ admitted GuestAllowSet m).
Proof.
  unfold AllowSetFor. destruct (Z.eqb_spec policy ARTIFACT_POLICY_IMAGE_VOLUME) as [->|Hne].
  - split; [done|]. split; [done|]. intros a m [= <-] Hm. apply admitted_media in Hm.
    assert (Hd : Forall (fun m => m <> MediaTypeModelCode /\ m <> MediaTypeOCIImageConfig /\
                        m ∉ all_media GuestAllowSet) (all_media ImageVolumeAllowSet)).
    { apply (bool_decide_unpack _). vm_compute. exact I. }
    rewrite Forall_forall in Hd. destruct (Hd m Hm) as (H1 & H2 & H3).
    split; [done|]. split; [done|]. intros H. by apply H3, admitted_media.
  - split; [by split|]. split; [|done]. intros _. eexists. by split.
Qed.
