(* ===== verification/GoRunes.v ===== *)
(** * Runes of a string (Go's UTF-8 decoding)

    A [for range] over a string, and the [strings] functions that take a
    predicate on runes, see the bytes through UTF-8: a well-formed sequence is
    its code point, any other byte is U+FFFD with width one.  [runes] is that
    decoding, with the byte ranges of the language specification; [IsSpace],
    [IsControl] and the case folding against an ASCII string are the tables of
    package unicode. *)
From S2P Require Import Prelude GoLib GoStrings.

Definition RuneError : Z := 65533.
Definition between (lo hi x : Z) : bool := (lo <=? x) && (x <=? hi).
Definition cont (b : byte) : bool := between 128 191 (Z_of_byte b).
Definition low6 (b : byte) : Z := Z.land (Z_of_byte b) 63.
(** The bounds the second byte must meet after a three or four byte lead. *)
Definition second_ok (lead : Z) (b : byte) : bool :=
  let x := Z_of_byte b in
  if lead =? 224 then between 160 191 x else if lead =? 237 then between 128 159 x
  else if lead =? 240 then between 144 191 x else if lead =? 244 then between 128 143 x else cont b.

(** The runes with the bytes each was read from. *)
Fixpoint decode (s : string) : list (Z * string) :=
  match s with
  | "" => []
  | String b0 r0 =>
      let x := Z_of_byte b0 in
      if x <? 128 then (x, String b0 "") :: decode r0 else
      match r0 with
      | "" => (RuneError, String b0 "") :: decode r0
      | String b1 r1 =>
          if between 194 223 x && cont b1
          then (Z.lor (Z.shiftl (Z.land x 31) 6) (low6 b1), String b0 (String b1 "")) :: decode r1 else
          match r1 with
          | "" => (RuneError, String b0 "") :: decode r0
          | String b2 r2 =>
              if between 224 239 x && second_ok x b1 && cont b2
              then (Z.lor (Z.lor (Z.shiftl (Z.land x 15) 12) (Z.shiftl (low6 b1) 6)) (low6 b2),
                    String b0 (String b1 (String b2 ""))) :: decode r2 else
              match r2 with
              | "" => (RuneError, String b0 "") :: decode r0
              | String b3 r3 =>
                  if between 240 244 x && second_ok x b1 && cont b2 && cont b3
                  then (Z.lor (Z.lor (Z.lor (Z.shiftl (Z.land x 7) 18) (Z.shiftl (low6 b1) 12))
                         (Z.shiftl (low6 b2) 6)) (low6 b3), String b0 (String b1 (String b2 (String b3 "")))) :: decode r3
                  else (RuneError, String b0 "") :: decode r0
              end
          end
      end
  end.
Definition runes (s : string) : list Z := map fst (decode s).
Definition undecode (l : list (Z * string)) : string := foldr (fun c r => c.2 +:+ r) "" l.

(** [utf8.AppendRune]. *)
Definition encode_rune (r : Z) : string :=
  let b z := ascii_of_N (Z.to_N z) in
  let c k := b (Z.lor 128 (Z.land (Z.shiftr r k) 63)) in
  if between 0 127 r then String (b r) ""
  else if between 128 2047 r then String (b (Z.lor 192 (Z.shiftr r 6))) (String (c 0) "")
  else if between 2048 55295 r || between 57344 65535 r
       then String (b (Z.lor 224 (Z.shiftr r 12))) (String (c 6) (String (c 0) ""))
  else if between 65536 1114111 r
       then String (b (Z.lor 240 (Z.shiftr r 18))) (String (c 12) (String (c 6) (String (c 0) "")))
  else String (b 239) (String (b 191) (String (b 189) "")).
Definition encode_runes (rs : list Z) : string := foldr (fun r t => encode_rune r +:+ t) "" rs.

Definition IsControl (r : Z) : bool := between 0 31 r || between 127 159 r.
Definition IsSpace (r : Z) : bool :=
  between 9 13 r || existsb (Z.eqb r) [32; 133; 160; 5760; 8232; 8233; 8239; 8287; 12288] || between 8192 8202 r.

(** [fold] sends a rune to the lower-case ASCII letter of its folding orbit;
    the orbits of U+017F and U+212A are the only ones outside ASCII that hold
    an ASCII letter, so for an ASCII [t] this is [strings.EqualFold]. *)
Definition fold (r : Z) : Z :=
  if between 65 90 r then r + 32 else if r =? 383 then 115 else if r =? 8490 then 107 else r.
(** [unicode.ToLower] where the result is ASCII: the capitals, U+0130 and
    U+212A; every other rune maps outside ASCII and is left as it is, which is
    all a search for an ASCII keyword in [strings.ToLower] of a string sees. *)
Definition lower_rune (r : Z) : Z :=
  if between 65 90 r then r + 32 else if r =? 304 then 105 else if r =? 8490 then 107 else r.
Definition ToLower_runes (s : string) : string := encode_runes (map lower_rune (runes s)).

(** [strings.TrimSpace]. *)
Fixpoint trim_left (l : list (Z * string)) : list (Z * string) :=
  match l with [] => [] | c :: l' => if IsSpace c.1 then trim_left l' else l end.
Definition TrimSpace (s : string) : string := undecode (reverse (trim_left (reverse (trim_left (decode s))))).

Definition EqualFold (s t : string) : bool := bool_decide (map fold (runes s) = map fold (runes t)).

(** ** An ASCII byte is a rune of its own *)
Lemma cont_high b : cont b = true -> 128 <= Z_of_byte b.
Proof. unfold cont, between. intros [?%Z.leb_le ?%Z.leb_le]%andb_true_iff. done. Qed.
Lemma second_high x b : second_ok x b = true -> 128 <= Z_of_byte b.
Proof.
  unfold second_ok. pose proof (cont_high b). unfold between. repeat case_match; intros Hb; [..|auto];
    apply andb_true_iff in Hb as [?%Z.leb_le _]; lia.
Qed.

Definition occurs (c : ascii) (s : string) : Prop := c ∈ bytes_of s.
Lemma occurs_cons c b s : occurs c (String b s) <-> c = b \/ occurs c s.
Proof. unfold occurs. simpl. apply elem_of_cons. Qed.

Lemma ascii_is_rune c s : Z_of_byte c < 128 -> occurs c s -> Z_of_byte c ∈ runes s.
Proof.
  unfold runes. intros Hc. remember (String.length s) as n eqn:Hn. revert s Hn.
  induction (lt_wf n) as [n _ IH]. intros s -> Ho. destruct s as [|b0 r0]; [by apply elem_of_nil in Ho|].
  assert (Hrec : forall r, (String.length r <= String.length r0)%nat -> occurs c r -> Z_of_byte c ∈ map fst (decode r)).
  { intros r Hr Hor. eapply IH; [|reflexivity|done]. simpl. lia. }
  assert (Htail : 128 <= Z_of_byte b0 -> occurs c r0) by (intros ?; apply occurs_cons in Ho as [->|]; [lia|done]).
  assert (Hskip : forall b r, 128 <= Z_of_byte b -> occurs c (String b r) -> occurs c r).
  { intros b r Hb [->|]%occurs_cons; [lia|done]. }
  cbn [decode]. destruct (Z.ltb_spec (Z_of_byte b0) 128) as [Hl|Hl].
  { apply occurs_cons in Ho as [->|Ho]; [left|right; by apply Hrec]. }
  specialize (Htail Hl). destruct r0 as [|b1 r1]; [by apply elem_of_nil in Htail|].
  destruct (between 194 223 _ && cont b1) eqn:E1.
  { apply andb_true_iff in E1 as [_ E1%cont_high]. right. apply Hrec; [simpl; lia|]. by apply (Hskip b1). }
  destruct r1 as [|b2 r2]; [right; by apply Hrec|].
  destruct (between 224 239 _ && second_ok _ b1 && cont b2) eqn:E2.
  { rewrite !andb_true_iff in E2. destruct E2 as [[_ Ha%second_high] Hb%cont_high].
    right. apply Hrec; [simpl; lia|]. by apply (Hskip b2), (Hskip b1). }
  destruct r2 as [|b3 r3]; [right; by apply Hrec|].
  destruct (between 240 244 _ && second_ok _ b1 && cont b2 && cont b3) eqn:E3; [|right; by apply Hrec].
  rewrite !andb_true_iff in E3. destruct E3 as [[[_ Ha%second_high] Hb%cont_high] Hd%cont_high].
  right. apply Hrec; [simpl; lia|]. by apply (Hskip b3), (Hskip b2), (Hskip b1).
Qed.

(** ** ASCII strings are their own runes *)
Definition ascii_only (s : string) : bool := sforall (fun c => Z_of_byte c <? 128) s.
Lemma runes_ascii s : ascii_only s = true -> runes s = map Z_of_byte (bytes_of s).
Proof.
  unfold ascii_only, runes. induction s as [|c s IH]; [done|]. cbn [sforall decode bytes_of list_ascii_of_string map].
  intros [-> Hs]%andb_true_iff. cbn [map fst]. f_equal. by apply IH.
Qed.

Lemma fold_ascii r : fold r < 128 -> r < 128 \/ r = 383 \/ r = 8490.
Proof. unfold fold, between. repeat case_match; reflect_bools; lia. Qed.

Lemma occurs_without c s : without c s = true <-> ~ occurs c s.
Proof.
  unfold without, occurs. rewrite sforall_bytes, Forall_forall. split.
  - intros H Ho. specialize (H c Ho). by rewrite Ascii.eqb_refl in H.
  - intros H x Hx. apply negb_true_iff, Ascii.eqb_neq. by intros ->.
Qed.
