(* ===== verification/NetIP.v ===== *)
(** * The parts of net, net/netip and strconv the code calls

    Addresses of package net/netip with their parser, [net.SplitHostPort] and
    [strconv.ParseUint] in base 10.  The callers use only whether these fail,
    so a failure is [None]. *)
From S2P Require Import Prelude GoLib GoStrings.

(** ** Package strings and strconv *)
Fixpoint IndexByte (s : string) (c : ascii) : option nat :=
  match s with
  | "" => None
  | String b s' => if Ascii.eqb b c then Some 0%nat else S <$> IndexByte s' c
  end.
Fixpoint LastIndexByte (s : string) (c : ascii) : option nat :=
  match s with
  | "" => None
  | String b s' =>
      match LastIndexByte s' c with
      | Some i => Some (S i)
      | None => if Ascii.eqb b c then Some 0%nat else None
      end
  end.
(** [s[:i]] and [s[i:]]. *)
Definition upto (i : nat) (s : string) : string := String.substring 0 i s.
Fixpoint from (i : nat) (s : string) : string :=
  match i, s with
  | O, _ => s
  | S i', String _ s' => from i' s'
  | S _, "" => ""
  end.

(** [strconv.ParseUint(s, 10, bitSize)], with [max] the largest value. *)
Fixpoint parse_digits (max n : Z) (s : string) : option Z :=
  match s with
  | "" => Some n
  | String c s' =>
      if is_digit c then
        let n' := n * 10 + (Z_of_byte c - 48) in
        if n' >? max then None else parse_digits max n' s'
      else None
  end.
Definition ParseUint (s : string) (max : Z) : option Z :=
  if String.eqb s "" then None else parse_digits max 0 s.

(** ** Package net/netip *)
Inductive Addr :=
| AddrZero
| Addr4 (b0 b1 b2 b3 : Z)
| Addr6 (bs : list Z) (zone : string).

#[global] Instance Addr_eq_dec : EqDecision Addr.
Proof. solve_decision. Defined.

Definition AddrFrom4 (b0 b1 b2 b3 : Z) : Addr := Addr4 b0 b1 b2 b3.
Definition Is4 (a : Addr) : bool := match a with Addr4 _ _ _ _ => true | _ => false end.
Definition Unmap (a : Addr) : Addr :=
  match a with
  | Addr6 bs _ =>
      if bool_decide (take 12 bs = replicate 10 0 ++ [255; 255]) then
        match drop 12 bs with [b0; b1; b2; b3] => Addr4 b0 b1 b2 b3 | _ => a end
      else a
  | _ => a
  end.
(** [As4] panics on an address that is neither IPv4 nor IPv4-mapped; the code
    calls it on IPv4 addresses only. *)
Definition As4 (a : Addr) : Z * Z * Z * Z :=
  match Unmap a with Addr4 b0 b1 b2 b3 => (b0, b1, b2, b3) | _ => (0, 0, 0, 0) end.
Definition IsLinkLocalUnicast (a : Addr) : bool :=
  match Unmap a with
  | Addr4 b0 b1 _ _ => (b0 =? 169) && (b1 =? 254)
  | Addr6 (b0 :: b1 :: _) _ => Z.land (b0 * 256 + b1) 65472 =? 65152
  | _ => false
  end.

(** The dotted form of an IPv4 address. *)
Definition Addr4_String (b0 b1 b2 b3 : Z) : string :=
  Join [pretty b0; pretty b1; pretty b2; pretty b3] ".".

(** [prev] is the byte before the current one, [None] at the start. *)
Fixpoint parseIPv4Fields (prev : option ascii) (val digLen : Z) (fields : list Z) (s : string)
    : option (list Z) :=
  match s with
  | "" => if (length fields <? 3)%nat then None else Some (fields ++ [val])
  | String c s' =>
      if is_digit c then
        if (digLen =? 1) && (val =? 0) then None
        else let val' := val * 10 + (Z_of_byte c - 48) in
             if val' >? 255 then None else parseIPv4Fields (Some c) val' (digLen + 1) fields s'
      else if Ascii.eqb c "." then
        if match prev with None => true | Some p => Ascii.eqb p "." end || String.eqb s' "" then None
        else if (length fields =? 3)%nat then None
        else parseIPv4Fields (Some c) 0 0 (fields ++ [val]) s'
      else None
  end.
Definition parseIPv4 (s : string) : option Addr :=
  match parseIPv4Fields None 0 0 [] s with
  | Some [b0; b1; b2; b3] => Some (Addr4 b0 b1 b2 b3)
  | _ => None
  end.

Definition hex_digit (c : ascii) : option Z :=
  let n := Z_of_byte c in
  if is_digit c then Some (n - 48)
  else if (97 <=? n) && (n <=? 102) then Some (n - 87)
  else if (65 <=? n) && (n <=? 70) then Some (n - 55)
  else None.
(** The digits of a group: their number, their value and the rest. *)
Fixpoint hex_group (off : Z) (acc : Z) (s : string) : option (Z * Z * string) :=
  match s with
  | "" => Some (off, acc, s)
  | String c s' =>
      match hex_digit c with
      | None => Some (off, acc, s)
      | Some d =>
          let acc' := acc * 16 + d in
          if (off >? 3) || (acc' >? 65535) then None else hex_group (off + 1) acc' s'
      end
  end.

(** The loop over at most [n] groups: [ip] are the bytes parsed so far and
    [ell] the position of an ellipsis. *)
Fixpoint v6_groups (n : nat) (ip : list Z) (ell : option nat) (s : string)
    : option (list Z * option nat * string) :=
  match n with
  | O => Some (ip, ell, s)
  | S n' =>
      match hex_group 0 0 s with
      | None => None
      | Some (off, acc, s1) =>
          if off =? 0 then None
          else if match s1 with String "." _ => true | _ => false end then
            if match ell with None => negb (length ip =? 12)%nat | Some _ => false end then None
            else if (16 <? length ip + 4)%nat then None
            else match parseIPv4Fields None 0 0 [] s with
                 | Some fields => Some (ip ++ fields, ell, "")
                 | None => None
                 end
          else
            let ip' := ip ++ [acc / 256; acc mod 256] in
            match s1 with
            | "" => Some (ip', ell, "")
            | String ":" "" => None
            | String ":" (String ":" s2) =>
                match ell with
                | Some _ => None
                | None => if String.eqb s2 "" then Some (ip', Some (length ip'), "")
                          else v6_groups n' ip' (Some (length ip')) s2
                end
            | String ":" s2 => v6_groups n' ip' ell s2
            | _ => None
            end
      end
  end.

(** The ellipsis expanded to the missing zero bytes. *)
Definition v6_expand (ip : list Z) (ell : option nat) : option (list Z) :=
  if (length ip <? 16)%nat then
    match ell with
    | None => None
    | Some e => Some (take e ip ++ replicate (16 - length ip) 0 ++ drop e ip)
    end
  else match ell with Some _ => None | None => Some ip end.

Definition parseIPv6_body (s zone : string) : option Addr :=
  let parse ell s :=
    match v6_groups 8 [] ell s with
    | Some (ip, ell', "") => (fun bs => Addr6 bs zone) <$> v6_expand ip ell'
    | _ => None
    end in
  match s with
  | String ":" (String ":" s') =>
      if String.eqb s' "" then Some (Addr6 (replicate 16 0) zone) else parse (Some 0%nat) s'
  | _ => parse None s
  end.
Definition parseIPv6 (s : string) : option Addr :=
  match IndexByte s "%" with
  | None => parseIPv6_body s ""
  | Some i =>
      let zone := from (S i) s in
      if String.eqb zone "" then None else parseIPv6_body (upto i s) zone
  end.

(** The first of ".", ":" and "%" selects the form. *)
Fixpoint ParseAddr_scan (s rest : string) : option Addr :=
  match rest with
  | "" => None
  | String "." _ => parseIPv4 s
  | String ":" _ => parseIPv6 s
  | String "%" _ => None
  | String _ rest' => ParseAddr_scan s rest'
  end.
Definition ParseAddr (s : string) : option Addr := ParseAddr_scan s s.

Example ParseAddr_examples :
  ParseAddr "169.254.0.9" = Some (Addr4 169 254 0 9) /\
  ParseAddr "169.254.00.9" = None /\
  ParseAddr "1.2.3" = None /\
  ParseAddr "fe80::1%en2" = Some (Addr6 ([254; 128] ++ replicate 13 0 ++ [1]) "en2") /\
  (Unmap <$> ParseAddr "::ffff:169.254.1.2") = Some (Addr4 169 254 1 2) /\
  ParseAddr "1:2:3:4:5:6:7:8:9" = None /\
  ParseAddr "1::2::3" = None /\
  ParseAddr "::" = Some (Addr6 (replicate 16 0) "").
Proof. vm_compute. repeat split. Qed.

(** ** net.SplitHostPort *)
Definition SplitHostPort (hostport : string) : option (string * string) :=
  match LastIndexByte hostport ":" with
  | None => None
  | Some i =>
      let rest (host : string) (j k : nat) :=
        match IndexByte (from j hostport) "[", IndexByte (from k hostport) "]" with
        | None, None => Some (host, from (S i) hostport)
        | _, _ => None
        end in
      if HasPrefix hostport "[" then
        match IndexByte hostport "]" with
        | None => None
        | Some e =>
            if (S e =? i)%nat then rest (from 1 (upto e hostport)) 1%nat (S e) else None
        end
      else
        let host := upto i hostport in
        match IndexByte host ":" with Some _ => None | None => rest host 0%nat 0%nat end
  end.

Example SplitHostPort_examples :
  SplitHostPort "10.0.0.1:51820" = Some ("10.0.0.1", "51820") /\
  SplitHostPort "[fd00::1]:51820" = Some ("fd00::1", "51820") /\
  SplitHostPort "fd00::1:51820" = None /\ SplitHostPort "host" = None /\
  SplitHostPort "[a]b:1" = None /\ SplitHostPort ":80" = Some ("", "80").
Proof. vm_compute. repeat split. Qed.
