(* ===== verification/Interconnect.v ===== *)
(** * The interconnect: derived addresses and the Interconnect object
    (src/net/v1alpha1/linkip.go, interconnectaddr.go, interconnect.go)

    Direct-link and interconnect addresses are arithmetic on a node index and a
    slot; the theorems show that the arithmetic never wraps a byte, never
    collides and stays in the reserved halves.  The Interconnect spec is a
    record with its validation. *)
From S2P Require Import Prelude GoLib GoStrings Sentinels NetIP.

(** ** linkip.go *)
Definition ErrNoLinkAddress := ErrNew "ErrNoLinkAddress".
Definition MaxLinkNodeIndex : Z := 61.
Definition MaxPortOrdinal : Z := 7.
Definition lowHalfMaxIndex : Z := 30.
Definition portsPerNode : Z := MaxPortOrdinal + 1.

(** The conversion [byte(x)] keeps the low eight bits. *)
Definition to_byte (x : Z) : Z := x mod 256.

Definition LinkIP (idx portOrdinal : Z) : res Addr :=
  if (portOrdinal <? 0) || (portOrdinal >? MaxPortOrdinal) then
    Err (ErrorfW "%w: port ordinal %d is outside 0..%d" [ArgZ portOrdinal; ArgZ MaxPortOrdinal] ErrNoLinkAddress)
  else if (idx >=? 0) && (idx <=? lowHalfMaxIndex) then
    Ok (AddrFrom4 169 254 0 (to_byte (portsPerNode * idx + portOrdinal + 1)))
  else if (idx >? lowHalfMaxIndex) && (idx <=? MaxLinkNodeIndex) then
    Ok (AddrFrom4 169 254 255 (to_byte (portsPerNode * (idx - lowHalfMaxIndex - 1) + portOrdinal + 1)))
  else
    Err (ErrorfW "%w: node index %d is outside 0..%d" [ArgZ idx; ArgZ MaxLinkNodeIndex] ErrNoLinkAddress).

Definition IsLinkAddress (a : Addr) : bool :=
  let a := Unmap a in
  if negb (Is4 a) then false
  else match As4 a with (b0, b1, b2, _) => (b0 =? 169) && (b1 =? 254) && ((b2 =? 0) || (b2 =? 255)) end.

(** ** interconnectaddr.go *)
Definition ErrNoInterconnectAddress := ErrNew "ErrNoInterconnectAddress".
Definition InterconnectCIDR : string := "169.254.0.0/24".
Definition MaxInterconnectNodeIndex : Z := 30.
Definition InterconnectSlotNode : Z := 0.
Definition InterconnectSlotMLXRank : Z := 1.
Definition InterconnectSlotFirstPod : Z := 2.
Definition MaxInterconnectSlot : Z := 7.
Definition interconnectSlotsPerNode : Z := MaxInterconnectSlot + 1.

Definition InterconnectSlotAddress (idx slot : Z) : res Addr :=
  if (idx <? 0) || (idx >? MaxInterconnectNodeIndex) then
    Err (ErrorfW "%w: node index %d is outside 0..%d" [ArgZ idx; ArgZ MaxInterconnectNodeIndex] ErrNoInterconnectAddress)
  else if (slot <? 0) || (slot >? MaxInterconnectSlot) then
    Err (ErrorfW "%w: slot %d is outside 0..%d" [ArgZ slot; ArgZ MaxInterconnectSlot] ErrNoInterconnectAddress)
  else Ok (AddrFrom4 169 254 0 (to_byte (interconnectSlotsPerNode * idx + slot + 1))).

(** ** interconnect.go *)
Definition MediumThunderbolt : string := "thunderbolt".
Definition ErrInvalidInterconnect := ErrNew "ErrInvalidInterconnect".
Definition dns1123LabelRE : Regexp.re := Regexp.dns_label.
Definition dns1123SubdomainRE : Regexp.re := Regexp.dns_subdomain.
Definition MaxInterconnectListItems : Z := 64.

Definition isNodeName (s : string) : bool :=
  (slen s <=? 253) && Regexp.MatchString dns1123SubdomainRE s.
Definition isNamespaceName (s : string) : bool :=
  (slen s <=? 63) && Regexp.MatchString dns1123LabelRE s.

(** [InterconnectFallback] is a string type. *)
Definition InterconnectFallbackNetwork : string := "network".
Definition InterconnectFallbackNone : string := "none".

Record InterconnectSpec := mkInterconnectSpec {
  Medium : string;
  Fallback : string;
  Enabled : bool;
  ExcludedNodes : list string;
  AllowedNamespaces : list string;
}.
(** The object's name and spec; its status is written by the server and read by
    none of the operations. *)
Record Interconnect := mkInterconnect { ic_Name : string; ic_Spec : InterconnectSpec }.

Definition InterconnectSpec_EffectiveFallback (s : InterconnectSpec) : string :=
  if String.eqb s.(Fallback) "" then InterconnectFallbackNetwork else s.(Fallback).

Definition InterconnectSpec_NamespaceAllowed (s : InterconnectSpec) (ns : string) : bool :=
  if len s.(AllowedNamespaces) =? 0 then true
  else existsb (fun n => String.eqb n ns) s.(AllowedNamespaces).

(** A loop that refuses a badly shaped or repeated name of the list [field]. *)
Definition check_names (shape : string -> bool) (err_shape err_repeat : Z -> string -> error)
    (names : list string) : check :=
  each_seen 0 ∅ (fun i seen n =>
    failif (negb (shape n)) (err_shape i n) ;?
    failif (bool_decide (n ∈ seen)) (err_repeat i n)) id names.

Definition InterconnectSpec_Validate (s : InterconnectSpec) : check :=
  failif (negb (String.eqb s.(Medium) MediumThunderbolt))
    (ErrorfW "%w: medium %q, want %q" [ArgS s.(Medium); ArgS MediumThunderbolt] ErrInvalidInterconnect) ;?
  failif (negb (String.eqb s.(Fallback) "" || String.eqb s.(Fallback) InterconnectFallbackNetwork
                || String.eqb s.(Fallback) InterconnectFallbackNone))
    (ErrorfW "%w: fallback %q, want %q or %q"
      [ArgS s.(Fallback); ArgS InterconnectFallbackNetwork; ArgS InterconnectFallbackNone] ErrInvalidInterconnect) ;?
  failif (len s.(ExcludedNodes) >? MaxInterconnectListItems)
    (ErrorfW "%w: excludedNodes has %d entries, at most %d"
      [ArgZ (len s.(ExcludedNodes)); ArgZ MaxInterconnectListItems] ErrInvalidInterconnect) ;?
  failif (len s.(AllowedNamespaces) >? MaxInterconnectListItems)
    (ErrorfW "%w: allowedNamespaces has %d entries, at most %d"
      [ArgZ (len s.(AllowedNamespaces)); ArgZ MaxInterconnectListItems] ErrInvalidInterconnect) ;?
  check_names isNodeName
    (fun i n => ErrorfW "%w: excludedNodes[%d] %q is not a node name" [ArgZ i; ArgS n] ErrInvalidInterconnect)
    (fun i n => ErrorfW "%w: excludedNodes[%d] %q is repeated" [ArgZ i; ArgS n] ErrInvalidInterconnect)
    s.(ExcludedNodes) ;?
  check_names isNamespaceName
    (fun i n => ErrorfW "%w: allowedNamespaces[%d] %q is not a namespace name" [ArgZ i; ArgS n] ErrInvalidInterconnect)
    (fun i n => ErrorfW "%w: allowedNamespaces[%d] %q is repeated" [ArgZ i; ArgS n] ErrInvalidInterconnect)
    s.(AllowedNamespaces).

Definition Interconnect_Validate (o : Interconnect) : check :=
  failif (negb (String.eqb o.(ic_Name) "") && negb (String.eqb o.(ic_Name) o.(ic_Spec).(Medium)))
    (ErrorfW "%w: name %q, want the medium %q" [ArgS o.(ic_Name); ArgS o.(ic_Spec).(Medium)] ErrInvalidInterconnect) ;?
  InterconnectSpec_Validate o.(ic_Spec).

(** ** Derived addresses *)
Definition link_position (idx p : Z) : Prop := 0 <= idx <= MaxLinkNodeIndex /\ 0 <= p <= MaxPortOrdinal.

(** The derivation without the byte conversion. *)
Definition link_host (idx p : Z) : Z := 8 * (idx mod 31) + p + 1.
Definition link_half (idx : Z) : Z := if idx <=? lowHalfMaxIndex then 0 else 255.

Lemma LinkIP_Ok idx p a :
  LinkIP idx p = Ok a <-> link_position idx p /\ a = Addr4 169 254 (link_half idx) (link_host idx p).
Proof.
  unfold LinkIP, link_position, link_half, link_host, to_byte, portsPerNode,
    MaxPortOrdinal, lowHalfMaxIndex, MaxLinkNodeIndex, AddrFrom4.
  destruct (Z.ltb_spec p 0), (Z.gtb_spec p 7); simpl; try (split; [done|lia]).
  destruct (Z.geb_spec idx 0), (Z.leb_spec idx 30); simpl.
  - rewrite !Z.mod_small by lia. split; [intros [= <-]; split; [lia|done]|by intros [_ ->]].
  - destruct (Z.gtb_spec idx 30), (Z.leb_spec idx 61); simpl; try lia.
    + rewrite (Z.mod_small _ 256) by lia.
      replace (idx mod 31) with (idx - 30 - 1).
      * split; [intros [= <-]; split; [lia|done]|by intros [_ ->]].
      * rewrite <- (Z.mod_small (idx - 30 - 1) 31) by lia.
        replace idx with (idx - 30 - 1 + 1 * 31) at 2 by lia. by rewrite Z.mod_add.
    + split; [done|lia].
  - destruct (Z.gtb_spec idx 30); simpl; try lia. split; [done|lia].
  - lia.
Qed.

Lemma LinkIP_Err idx p e :
  LinkIP idx p = Err e -> ~ link_position idx p /\ errors_is e "ErrNoLinkAddress" = true.
Proof.
  intros H. split.
  - intros Hp. pose proof (proj2 (LinkIP_Ok idx p _) (conj Hp eq_refl)). congruence.
  - revert H. unfold LinkIP. repeat case_match; naive_solver.
Qed.

Lemma link_host_range idx p : link_position idx p -> 1 <= link_host idx p <= 248.
Proof.
  unfold link_position, link_host, MaxPortOrdinal. intros [_ Hp].
  pose proof (Z.mod_pos_bound idx 31 eq_refl). lia.
Qed.

Lemma link_address_inj idx p idx' p' :
  link_position idx p -> link_position idx' p' ->
  link_half idx = link_half idx' -> link_host idx p = link_host idx' p' -> idx = idx' /\ p = p'.
Proof.
  unfold link_position, link_half, link_host, MaxPortOrdinal, MaxLinkNodeIndex, lowHalfMaxIndex.
  intros [Hi Hp] [Hi' Hp'] Hh Ho.
  pose proof (Z.mod_pos_bound idx 31 eq_refl). pose proof (Z.mod_pos_bound idx' 31 eq_refl).
  assert (idx mod 31 = idx' mod 31 /\ p = p') as [Hm ->] by lia. split; [|done].
  rewrite (Z.div_mod idx 31), (Z.div_mod idx' 31), Hm by lia.
  pose proof (Z.div_mod idx 31 ltac:(lia)). pose proof (Z.div_mod idx' 31 ltac:(lia)).
  destruct (Z.leb_spec idx 30), (Z.leb_spec idx' 30); try done; lia.
Qed.

(** C32: [LinkIP] derives an address exactly for node indexes 0..61 and ports
    0..7; every derived address lies in one of the two reserved halves with a
    host octet 1..248 (no byte wraps, no network or broadcast address), two
    positions never share an address, and every other position fails with
    ErrNoLinkAddress. *)
Theorem link_addresses_sound idx p :
  ((exists a, LinkIP idx p = Ok a) <-> link_position idx p) /\
  (forall a, LinkIP idx p = Ok a ->
     IsLinkAddress a = true /\
     (exists h, a = Addr4 169 254 (link_half idx) h /\ 1 <= h <= 248) /\
     (forall idx' p', LinkIP idx' p' = Ok a -> idx' = idx /\ p' = p)) /\
  (forall e, LinkIP idx p = Err e -> errors_is e "ErrNoLinkAddress" = true).
Proof.
  split; [|split].
  - split; [intros [a Ha]; by apply LinkIP_Ok in Ha as [Hp _]|]. intros Hp. eexists.
    by apply LinkIP_Ok.
  - intros a [Hp ->]%LinkIP_Ok. split; [|split].
    + unfold IsLinkAddress, link_half. simpl. by destruct (idx <=? lowHalfMaxIndex).
    + eexists. split; [done|]. by apply link_host_range.
    + intros idx' p' [Hp' [= Hh Ho]]%LinkIP_Ok. by apply link_address_inj.
  - by intros e [_ He]%LinkIP_Err.
Qed.

(** [InterconnectSlotAddress] is [LinkIP] on the low half: for node indexes
    0..30 the two agree on every slot, and the interconnect refuses every other
    index, those of the high half included, with ErrNoInterconnectAddress; so
    every interconnect address lies in 169.254.0.0/24 and no two positions share
    one. *)
Theorem interconnect_address_is_LinkIP idx slot :
  (forall a, InterconnectSlotAddress idx slot = Ok a <-> LinkIP idx slot = Ok a /\ idx <= MaxInterconnectNodeIndex) /\
  (forall e, InterconnectSlotAddress idx slot = Err e -> errors_is e "ErrNoInterconnectAddress" = true) /\
  (forall a, InterconnectSlotAddress idx slot = Ok a ->
     (exists h, a = Addr4 169 254 0 h /\ 1 <= h <= 248) /\
     forall idx' slot', InterconnectSlotAddress idx' slot' = Ok a -> idx' = idx /\ slot' = slot).
Proof.
  assert (Hok : forall idx slot a, InterconnectSlotAddress idx slot = Ok a <->
    LinkIP idx slot = Ok a /\ idx <= MaxInterconnectNodeIndex).
  { clear. intros idx slot a. rewrite LinkIP_Ok. unfold InterconnectSlotAddress, link_position, link_half, link_host,
      to_byte, interconnectSlotsPerNode, MaxInterconnectSlot, MaxInterconnectNodeIndex, MaxPortOrdinal,
      MaxLinkNodeIndex, lowHalfMaxIndex, AddrFrom4.
    destruct (Z.ltb_spec idx 0), (Z.gtb_spec idx 30); simpl; try (split; [done|lia]).
    destruct (Z.ltb_spec slot 0), (Z.gtb_spec slot 7); simpl; try (split; [done|lia]).
    rewrite !Z.mod_small, (proj2 (Z.leb_le idx 30)) by lia.
    split; [intros [= <-]; split; [split; [lia|done]|lia]|by intros [[_ ->] _]]. }
  split; [apply Hok|]. split.
  - intros e. unfold InterconnectSlotAddress. repeat case_match; naive_solver.
  - intros a [[Hp ->]%LinkIP_Ok Hi]%Hok. split.
    + exists (link_host idx slot). split; [|by apply link_host_range].
      unfold link_half. by rewrite (proj2 (Z.leb_le _ _)) by done.
    + intros idx' slot' [[Hp' [= Hh Ho]]%LinkIP_Ok _]%Hok. by apply link_address_inj.
Qed.

(** ** The Interconnect object *)
Lemma check_names_None shape e1 e2 names :
  check_names shape e1 e2 names = None <-> Forall (fun n => shape n = true) names /\ NoDup names.
Proof.
  unfold check_names. rewrite (each_seen_None_empty _ id (fun n => shape n = true)).
  - by rewrite list_fmap_id.
  - intros j sn x. rewrite andthen_None, !failif_None, negb_false_iff, bool_decide_eq_false. done.
Qed.
Lemma check_names_wraps s shape e1 e2 names :
  (forall i n, errors_is (e1 i n) s = true) -> (forall i n, errors_is (e2 i n) s = true) ->
  wraps s (check_names shape e1 e2 names).
Proof. intros. unfold check_names. auto with wraps. Qed.
#[export] Hint Resolve check_names_wraps : wraps.

(** A well-formed spec. *)
Record spec_ok (s : InterconnectSpec) : Prop := {
  ok_medium : s.(Medium) = MediumThunderbolt;
  ok_fallback : s.(Fallback) ∈ [""; InterconnectFallbackNetwork; InterconnectFallbackNone];
  ok_excluded : len s.(ExcludedNodes) <= MaxInterconnectListItems /\ NoDup s.(ExcludedNodes) /\
    Forall (fun n => isNodeName n = true) s.(ExcludedNodes);
  ok_allowed : len s.(AllowedNamespaces) <= MaxInterconnectListItems /\ NoDup s.(AllowedNamespaces) /\
    Forall (fun n => isNamespaceName n = true) s.(AllowedNamespaces) }.

Lemma one_of_three (s a b c : string) :
  negb (String.eqb s a || String.eqb s b || String.eqb s c) = false <-> s ∈ [a; b; c].
Proof.
  rewrite negb_false_iff, !orb_true_iff, !String.eqb_eq, !elem_of_cons, elem_of_nil. tauto.
Qed.

Lemma InterconnectSpec_Validate_None s : InterconnectSpec_Validate s = None <-> spec_ok s.
Proof.
  unfold InterconnectSpec_Validate.
  rewrite !andthen_None, !failif_None, !check_names_None, one_of_three, !Z.gtb_ltb, !Z.ltb_ge.
  rewrite negb_false_iff, String.eqb_eq. split; [intros; split; tauto|intros []; tauto].
Qed.
Lemma InterconnectSpec_Validate_wraps s : wraps "ErrInvalidInterconnect" (InterconnectSpec_Validate s).
Proof. unfold InterconnectSpec_Validate. auto 20 with wraps. Qed.

Lemma NamespaceAllowed_spec s ns :
  InterconnectSpec_NamespaceAllowed s ns = true <-> s.(AllowedNamespaces) = [] \/ ns ∈ s.(AllowedNamespaces).
Proof.
  unfold InterconnectSpec_NamespaceAllowed, len. destruct (AllowedNamespaces s) as [|n l].
  - simpl. split; auto.
  - cbn [length]. rewrite (proj2 (Z.eqb_neq _ _)) by lia. rewrite existsb_exists.
    setoid_rewrite String.eqb_eq. rewrite list_elem_of_In. naive_solver.
Qed.

(** An Interconnect is accepted exactly when it is unnamed or named for its
    medium and its spec is well formed (the thunderbolt medium, a known
    fallback, at most 64 distinct node names and 64 distinct namespace names);
    every refusal wraps ErrInvalidInterconnect; and an accepted spec's effective
    fallback is never empty. *)
Theorem Interconnect_Validate_spec o :
  (Interconnect_Validate o = None <->
     (o.(ic_Name) = "" \/ o.(ic_Name) = MediumThunderbolt) /\ spec_ok o.(ic_Spec)) /\
  wraps "ErrInvalidInterconnect" (Interconnect_Validate o) /\
  (Interconnect_Validate o = None ->
     InterconnectSpec_EffectiveFallback o.(ic_Spec) ∈ [InterconnectFallbackNetwork; InterconnectFallbackNone]).
Proof.
  assert (Hv : Interconnect_Validate o = None <->
    (o.(ic_Name) = "" \/ o.(ic_Name) = MediumThunderbolt) /\ spec_ok o.(ic_Spec)).
  { unfold Interconnect_Validate.
    rewrite andthen_None, failif_None, InterconnectSpec_Validate_None, andb_false_iff.
    rewrite !negb_false_iff, !String.eqb_eq. split; intros [Hn Ho]; (split; [|exact Ho]).
    - by rewrite (ok_medium _ Ho) in Hn.
    - by rewrite (ok_medium _ Ho). }
  split; [exact Hv|]. split.
  - unfold Interconnect_Validate. auto using InterconnectSpec_Validate_wraps with wraps.
  - intros [_ Ho]%Hv. unfold InterconnectSpec_EffectiveFallback.
    pose proof (ok_fallback _ Ho) as Hf. destruct (String.eqb_spec (Fallback (ic_Spec o)) ""); set_solver.
Qed.
