(* ===== verification/InterconnectAnnotation.v ===== *)
(** * The interconnect annotations and the alias ledger
    (src/net/v1alpha1/interconnectannotation.go, interconnectledger.go)

    A node's report and the server's desired membership, with their bounds,
    their encoders and their parsers, and the ledger of owned aliases.
    encoding/json is an interface here; InterconnectText gives it over text. *)
From S2P Require Import Prelude GoLib GoStrings Sentinels NetIP Interconnect.

Definition InterconnectAnnotationSchema : Z := 1.
Definition MaxInterconnectReportBytes : Z := 4096.
Definition MaxInterconnectReportPeers : Z := 16.
Definition MaxInterconnectDomainUUIDBytes : Z := 64.
Definition MaxInterconnectUIDBytes : Z := 64.
Definition ErrUnknownInterconnectSchema := ErrNew "ErrUnknownInterconnectSchema".
Definition ErrInvalidInterconnectAnnotation := ErrNew "ErrInvalidInterconnectAnnotation".

Definition isPrintableASCII (u : string) (max : Z) : bool :=
  if String.eqb u "" || (slen u >? max) then false
  else sforall (fun c => negb ((Z_of_byte c <? 32) || (Z_of_byte c >? 126))) u.
Definition isDomainUUID (u : string) : bool := isPrintableASCII u MaxInterconnectDomainUUIDBytes.

(** ** InterconnectReport *)
Record InterconnectReport := mkReport {
  ir_Schema : Z;
  LocalDomainUUIDs : list string;
  PeerDomainUUIDs : list string;
  Carrier : bool;
  SpeedGbps : Z;
  ReachablePeers : list string;
}.

Definition InterconnectReport_Validate (r : InterconnectReport) : check :=
  failif (negb (r.(ir_Schema) =? InterconnectAnnotationSchema))
    (ErrorfW "%w: report schema %d, want %d" [ArgZ r.(ir_Schema); ArgZ InterconnectAnnotationSchema] ErrUnknownInterconnectSchema) ;?
  failif (len r.(ReachablePeers) >? MaxInterconnectReportPeers)
    (ErrorfW "%w: report lists %d reachable peers, at most %d"
      [ArgZ (len r.(ReachablePeers)); ArgZ MaxInterconnectReportPeers] ErrInvalidInterconnectAnnotation) ;?
  failif (len r.(PeerDomainUUIDs) >? MaxInterconnectReportPeers)
    (ErrorfW "%w: report lists %d peer domain UUIDs, at most %d"
      [ArgZ (len r.(PeerDomainUUIDs)); ArgZ MaxInterconnectReportPeers] ErrInvalidInterconnectAnnotation) ;?
  failif (len r.(LocalDomainUUIDs) >? MaxInterconnectSlot + 1)
    (ErrorfW "%w: report lists %d local domain UUIDs, at most %d"
      [ArgZ (len r.(LocalDomainUUIDs)); ArgZ (MaxInterconnectSlot + 1)] ErrInvalidInterconnectAnnotation) ;?
  each 0 (fun i u => failif (negb (isDomainUUID u))
    (ErrorfW "%w: report localDomainUUIDs[%d] is not 1..%d printable ASCII bytes"
      [ArgZ i; ArgZ MaxInterconnectDomainUUIDBytes] ErrInvalidInterconnectAnnotation)) r.(LocalDomainUUIDs) ;?
  each 0 (fun i u => failif (negb (isDomainUUID u))
    (ErrorfW "%w: report peerDomainUUIDs[%d] is not 1..%d printable ASCII bytes"
      [ArgZ i; ArgZ MaxInterconnectDomainUUIDBytes] ErrInvalidInterconnectAnnotation)) r.(PeerDomainUUIDs) ;?
  failif (r.(SpeedGbps) <? 0)
    (ErrorfW "%w: report speedGbps %d is negative" [ArgZ r.(SpeedGbps)] ErrInvalidInterconnectAnnotation) ;?
  check_names isNodeName
    (fun i p => ErrorfW "%w: report reachablePeers[%d] %q is not a node name" [ArgZ i; ArgS p] ErrInvalidInterconnectAnnotation)
    (fun i p => ErrorfW "%w: report reachablePeers[%d] %q is repeated" [ArgZ i; ArgS p] ErrInvalidInterconnectAnnotation)
    r.(ReachablePeers).

(** ** InterconnectDesired *)
Record InterconnectModelRef := mkModelRef { mr_Namespace : string; mr_Name : string; mr_UID : string }.
Record InterconnectDesired := mkDesired {
  id_Schema : Z;
  id_Interconnect : string;
  id_Fallback : string;
  id_AllowedNamespaces : list string;
  MLXModels : list InterconnectModelRef;
}.

Definition InterconnectDesired_NamespaceAllowed (d : InterconnectDesired) (ns : string) : bool :=
  InterconnectSpec_NamespaceAllowed (mkInterconnectSpec "" "" false [] d.(id_AllowedNamespaces)) ns.

Definition InterconnectDesired_HasMLXModel (d : InterconnectDesired) (namespace name uid : string) : bool :=
  if String.eqb namespace "" || String.eqb name "" || String.eqb uid "" then false
  else existsb (fun m => String.eqb m.(mr_Namespace) namespace && String.eqb m.(mr_Name) name
                         && String.eqb m.(mr_UID) uid) d.(MLXModels).

Definition model_key (m : InterconnectModelRef) : string := m.(mr_Namespace) +:+ "/" +:+ m.(mr_Name).

Fixpoint models_loop (i : Z) (names uids : gset string) (ms : list InterconnectModelRef) : check :=
  match ms with
  | [] => None
  | m :: ms' =>
      failif (negb (isNamespaceName m.(mr_Namespace)))
        (ErrorfW "%w: desired mlxModels[%d] namespace %q is not a namespace name" [ArgZ i; ArgS m.(mr_Namespace)]
          ErrInvalidInterconnectAnnotation) ;?
      failif (negb (isNodeName m.(mr_Name)))
        (ErrorfW "%w: desired mlxModels[%d] name %q is not an object name" [ArgZ i; ArgS m.(mr_Name)]
          ErrInvalidInterconnectAnnotation) ;?
      failif (negb (isPrintableASCII m.(mr_UID) MaxInterconnectUIDBytes))
        (ErrorfW "%w: desired mlxModels[%d] uid is not 1..%d printable ASCII bytes" [ArgZ i; ArgZ MaxInterconnectUIDBytes]
          ErrInvalidInterconnectAnnotation) ;?
      failif (bool_decide (model_key m ∈ names) || bool_decide (m.(mr_UID) ∈ uids))
        (ErrorfW "%w: desired mlxModels[%d] %s (uid %q) is repeated" [ArgZ i; ArgS (model_key m); ArgS m.(mr_UID)]
          ErrInvalidInterconnectAnnotation) ;?
      models_loop (i + 1) ({[model_key m]} ∪ names) ({[m.(mr_UID)]} ∪ uids) ms'
  end.

Definition InterconnectDesired_Validate (d : InterconnectDesired) : check :=
  failif (negb (d.(id_Schema) =? InterconnectAnnotationSchema))
    (ErrorfW "%w: desired schema %d, want %d" [ArgZ d.(id_Schema); ArgZ InterconnectAnnotationSchema] ErrUnknownInterconnectSchema) ;?
  failif (negb (isNodeName d.(id_Interconnect)))
    (ErrorfW "%w: desired interconnect %q is not an object name" [ArgS d.(id_Interconnect)] ErrInvalidInterconnectAnnotation) ;?
  failif (negb (String.eqb d.(id_Fallback) InterconnectFallbackNetwork || String.eqb d.(id_Fallback) InterconnectFallbackNone))
    (ErrorfW "%w: desired fallback %q, want %q or %q"
      [ArgS d.(id_Fallback); ArgS InterconnectFallbackNetwork; ArgS InterconnectFallbackNone] ErrInvalidInterconnectAnnotation) ;?
  failif (len d.(id_AllowedNamespaces) >? MaxInterconnectListItems)
    (ErrorfW "%w: desired allowedNamespaces has %d entries, at most %d"
      [ArgZ (len d.(id_AllowedNamespaces)); ArgZ MaxInterconnectListItems] ErrInvalidInterconnectAnnotation) ;?
  failif (len d.(MLXModels) >? MaxInterconnectListItems)
    (ErrorfW "%w: desired mlxModels has %d entries, at most %d"
      [ArgZ (len d.(MLXModels)); ArgZ MaxInterconnectListItems] ErrInvalidInterconnectAnnotation) ;?
  check_names isNamespaceName
    (fun i ns => ErrorfW "%w: desired allowedNamespaces[%d] %q is not a namespace name" [ArgZ i; ArgS ns] ErrInvalidInterconnectAnnotation)
    (fun i ns => ErrorfW "%w: desired allowedNamespaces[%d] %q is repeated" [ArgZ i; ArgS ns] ErrInvalidInterconnectAnnotation)
    d.(id_AllowedNamespaces) ;?
  models_loop 0 ∅ ∅ d.(MLXModels).

(** ** Encoding and parsing

    [AnnotationJSON T] is what encoding/json does for the payload type [T]:
    marshal a value, unmarshal a text, and unmarshal a text into the probe
    struct, whose one field is a pointer to the schema. *)
Class AnnotationJSON (T : Type) := {
  json_Marshal : T -> res string;
  json_Unmarshal : string -> res T;
  json_Probe : string -> res (option Z);
}.

Section Annotations.
Context {T : Type} `{AJ : AnnotationJSON T}.

Definition wrap_invalid (e : error) : error := ErrorfWW "%w: %w" [] ErrInvalidInterconnectAnnotation e.

Definition encodeInterconnectAnnotation (v : T) : res string :=
  match json_Marshal v with
  | Err e => Err (wrap_invalid e)
  | Ok b =>
      failif (slen b >? MaxInterconnectReportBytes)
        (ErrorfW "%w: payload is %d bytes, at most %d" [ArgZ (slen b); ArgZ MaxInterconnectReportBytes] ErrInvalidInterconnectAnnotation) ;!
      Ok b
  end.

Definition decodeInterconnectAnnotation (value : string) : res T :=
  failif (slen value >? MaxInterconnectReportBytes)
    (ErrorfW "%w: payload is %d bytes, at most %d" [ArgZ (slen value); ArgZ MaxInterconnectReportBytes] ErrInvalidInterconnectAnnotation) ;!
  match json_Probe value with
  | Err e => Err (wrap_invalid e)
  | Ok None => Err (ErrorfW "%w: payload has no schema" [] ErrUnknownInterconnectSchema)
  | Ok (Some schema) =>
      failif (negb (schema =? InterconnectAnnotationSchema))
        (ErrorfW "%w: schema %d, want %d" [ArgZ schema; ArgZ InterconnectAnnotationSchema] ErrUnknownInterconnectSchema) ;!
      match json_Unmarshal value with
      | Err e => Err (wrap_invalid e)
      | Ok v => Ok v
      end
  end.

(** [Encode] and [Parse…] of a payload with its [Validate]. *)
Context (Validate : T -> check).
Definition encode_payload (v : T) : res string := Validate v ;! encodeInterconnectAnnotation v.
Definition parse_payload (value : string) : res T :=
  let? v := decodeInterconnectAnnotation value in Validate v ;! Ok v.
End Annotations.

Definition InterconnectReport_Encode `{AnnotationJSON InterconnectReport} : InterconnectReport -> res string :=
  encode_payload InterconnectReport_Validate.
Definition ParseInterconnectReport `{AnnotationJSON InterconnectReport} : string -> res InterconnectReport :=
  parse_payload InterconnectReport_Validate.
Definition InterconnectDesired_Encode `{AnnotationJSON InterconnectDesired} : InterconnectDesired -> res string :=
  encode_payload InterconnectDesired_Validate.
Definition ParseInterconnectDesired `{AnnotationJSON InterconnectDesired} : string -> res InterconnectDesired :=
  parse_payload InterconnectDesired_Validate.

(** ** interconnectledger.go *)
Record InterconnectLedgerEntry := mkLedgerEntry { Slot : Z; Address : string }.
(** [Aliases]: [None] is the nil slice. *)
Record InterconnectLedger := mkLedger { Aliases : option (list InterconnectLedgerEntry) }.

Class LedgerJSON := {
  ledger_Marshal : InterconnectLedger -> res string;
  ledger_Unmarshal : string -> res InterconnectLedger;
}.

Definition ParseInterconnectLedger `{LedgerJSON} (raw : string) : res InterconnectLedger :=
  match ledger_Unmarshal raw with
  | Err e => Err (ErrorfW "decode interconnect ledger: %w" [] e)
  | Ok l => Ok l
  end.

(** [cmp.Compare(a.Slot, b.Slot)] is negative. *)
Definition slot_less (a b : InterconnectLedgerEntry) : bool := a.(Slot) <? b.(Slot).

Definition InterconnectLedger_Marshal `{LedgerJSON} (l : InterconnectLedger) : res string :=
  let aliases := SliceStable slot_less (default [] l.(Aliases)) in
  match ledger_Marshal (mkLedger (Some aliases)) with
  | Err e => Err (ErrorfW "encode interconnect ledger: %w" [] e)
  | Ok raw => Ok (raw +:+ String "010" "")
  end.

(** ** Payload theorems *)
Definition uuids_ok (us : list string) : Prop := Forall (fun u => isDomainUUID u = true) us.

Record report_ok (r : InterconnectReport) : Prop := {
  report_schema : r.(ir_Schema) = InterconnectAnnotationSchema;
  report_peers : len r.(ReachablePeers) <= MaxInterconnectReportPeers /\ NoDup r.(ReachablePeers) /\
    Forall (fun p => isNodeName p = true) r.(ReachablePeers);
  report_far : len r.(PeerDomainUUIDs) <= MaxInterconnectReportPeers /\ uuids_ok r.(PeerDomainUUIDs);
  report_near : len r.(LocalDomainUUIDs) <= 8 /\ uuids_ok r.(LocalDomainUUIDs);
  report_speed : 0 <= r.(SpeedGbps) }.

Lemma each_shape_None (shape : string -> bool) (err : Z -> error) us :
  each 0 (fun i u => failif (negb (shape u)) (err i)) us = None <-> Forall (fun u => shape u = true) us.
Proof. apply each_None. intros j x. by rewrite failif_None, negb_false_iff. Qed.

Lemma report_Validate_None r : InterconnectReport_Validate r = None <-> report_ok r.
Proof.
  unfold InterconnectReport_Validate, MaxInterconnectSlot.
  rewrite !andthen_None, !failif_None, !check_names_None, !each_shape_None, !Z.gtb_ltb, !Z.ltb_ge.
  rewrite negb_false_iff, Z.eqb_eq. split; [intros; split; unfold uuids_ok; tauto|].
  intros []; unfold uuids_ok in *; tauto.
Qed.

(** What a refusal wraps: the schema sentinel for a schema other than the
    current one, the annotation sentinel for everything else. *)
Definition payload_sentinel (schema : Z) : string :=
  if schema =? InterconnectAnnotationSchema then "ErrInvalidInterconnectAnnotation"
  else "ErrUnknownInterconnectSchema".

Lemma schema_first_wraps schema e rest :
  errors_is e "ErrUnknownInterconnectSchema" = true -> wraps "ErrInvalidInterconnectAnnotation" rest ->
  wraps (payload_sentinel schema) (failif (negb (schema =? InterconnectAnnotationSchema)) e ;? rest).
Proof.
  intros He Hr. unfold payload_sentinel. destruct (schema =? InterconnectAnnotationSchema); simpl; [done|].
  by apply wraps_Some.
Qed.

Lemma report_wraps r : wraps (payload_sentinel r.(ir_Schema)) (InterconnectReport_Validate r).
Proof. apply schema_first_wraps; [done|]. auto 20 with wraps. Qed.

(** A report is accepted exactly when its schema is current, it lists at
    most 16 distinct node-name peers, at most 16 peer and 8 local domain UUIDs,
    each 1 to 64 printable ASCII bytes, and no negative speed; a refusal wraps
    ErrUnknownInterconnectSchema when the schema is not current and
    ErrInvalidInterconnectAnnotation otherwise. *)
Theorem InterconnectReport_Validate_spec r :
  (InterconnectReport_Validate r = None <-> report_ok r) /\
  wraps (payload_sentinel r.(ir_Schema)) (InterconnectReport_Validate r).
Proof.
  split; [apply report_Validate_None|apply report_wraps].
Qed.

(** A model reference: an RFC 1123 namespace label, an object name and a UID. *)
Record model_ok (m : InterconnectModelRef) : Prop := {
  model_namespace : isNamespaceName m.(mr_Namespace) = true;
  model_name : isNodeName m.(mr_Name) = true;
  model_uid : isPrintableASCII m.(mr_UID) MaxInterconnectUIDBytes = true }.

Record desired_ok (d : InterconnectDesired) : Prop := {
  desired_schema : d.(id_Schema) = InterconnectAnnotationSchema;
  desired_interconnect : isNodeName d.(id_Interconnect) = true;
  desired_fallback : d.(id_Fallback) ∈ [InterconnectFallbackNetwork; InterconnectFallbackNone];
  desired_allowed : len d.(id_AllowedNamespaces) <= MaxInterconnectListItems /\ NoDup d.(id_AllowedNamespaces) /\
    Forall (fun n => isNamespaceName n = true) d.(id_AllowedNamespaces);
  desired_models : len d.(MLXModels) <= MaxInterconnectListItems /\ Forall model_ok d.(MLXModels);
  desired_names : NoDup ((fun m => (m.(mr_Namespace), m.(mr_Name))) <$> d.(MLXModels));
  desired_uids : NoDup (mr_UID <$> d.(MLXModels)) }.

Lemma namespace_no_slash ns : isNamespaceName ns = true -> without "/" ns = true.
Proof.
  unfold isNamespaceName. intros [_ H]%andb_true_iff. revert H. apply MatchString_within, dns_label_within.
  intros c Hc. apply negb_true_iff, Ascii.eqb_neq. intros ->. done.
Qed.
(** The loop's key determines the pair it is built from. *)
Lemma model_key_inj m m' : model_ok m -> model_ok m' -> model_key m = model_key m' ->
  m.(mr_Namespace) = m'.(mr_Namespace) /\ m.(mr_Name) = m'.(mr_Name).
Proof.
  intros [Hn _ _] [Hn' _ _] E. by apply (without_app_inj _ _ _ _ "/"); try apply namespace_no_slash.
Qed.
Lemma model_keys_NoDup ms : Forall model_ok ms ->
  NoDup (model_key <$> ms) <-> NoDup ((fun m => (m.(mr_Namespace), m.(mr_Name))) <$> ms).
Proof.
  induction 1 as [|m ms Hm Hms IH]; [split; constructor|]. rewrite !fmap_cons, !NoDup_cons, IH.
  assert (model_key m ∈ (model_key <$> ms) <->
    (mr_Namespace m, mr_Name m) ∈ ((fun m => (m.(mr_Namespace), m.(mr_Name))) <$> ms)) as ->; [|done].
  rewrite !list_elem_of_fmap. rewrite Forall_forall in Hms. split.
  - intros (m' & E & Hin). exists m'. split; [|done].
    destruct (model_key_inj m m') as [-> ->]; auto.
  - intros (m' & [= E1 E2] & Hin). exists m'. split; [|done]. unfold model_key. by rewrite E1, E2.
Qed.

Lemma models_loop_None i names uids ms :
  models_loop i names uids ms = None <->
    Forall model_ok ms /\ NoDup (model_key <$> ms) /\ NoDup (mr_UID <$> ms) /\
    Forall (fun m => (model_key m ∉ names) /\ mr_UID m ∉ uids) ms.
Proof.
  revert i names uids. induction ms as [|m ms IH]; intros i names uids.
  - split; [intros _; split_and!; constructor|done].
  - cbn [models_loop]. rewrite !andthen_None, !failif_None, IH, orb_false_iff, !bool_decide_eq_false.
    rewrite !negb_false_iff, !fmap_cons, !NoDup_cons, !Forall_cons.
    assert (model_ok m <-> isNamespaceName (mr_Namespace m) = true /\ isNodeName (mr_Name m) = true /\
      isPrintableASCII (mr_UID m) MaxInterconnectUIDBytes = true) as ->.
    { split; [by intros []|intros (? & ? & ?); by constructor]. }
    assert (Forall (fun m' => (model_key m' ∉ ({[model_key m]} ∪ names)) /\ mr_UID m' ∉ ({[mr_UID m]} ∪ uids)) ms <->
      (model_key m ∉ (model_key <$> ms)) /\ (mr_UID m ∉ (mr_UID <$> ms)) /\
      Forall (fun m' => (model_key m' ∉ names) /\ mr_UID m' ∉ uids) ms) as ->; [|tauto].
    rewrite !Forall_forall. setoid_rewrite not_elem_of_union. setoid_rewrite not_elem_of_singleton. split.
    + intros H. split_and!.
      * intros (m' & E & Hin)%list_elem_of_fmap. by destruct (H m' Hin) as [[? _] _].
      * intros (m' & E & Hin)%list_elem_of_fmap. by destruct (H m' Hin) as [_ [? _]].
      * intros m' Hin. split; apply (H m' Hin).
    + intros (Hk & Hu & H) m' Hin. split; (split; [|apply (H m' Hin)]).
      * intros E. apply Hk, list_elem_of_fmap. by exists m'.
      * intros E. apply Hu, list_elem_of_fmap. by exists m'.
Qed.

Lemma desired_Validate_None d : InterconnectDesired_Validate d = None <-> desired_ok d.
Proof.
  unfold InterconnectDesired_Validate.
  rewrite !andthen_None, !failif_None, !check_names_None, models_loop_None, !Z.gtb_ltb, !Z.ltb_ge.
  rewrite !negb_false_iff, Z.eqb_eq, orb_true_iff, !String.eqb_eq. split.
  - intros (Hs & Hi & Hf & Ha & Hm & [Hn Hd] & Hms & Hk & Hu & _).
    split; try done; [set_solver|by apply model_keys_NoDup].
  - intros [Hs Hi Hf (Ha & Hn & Hd) [Hm Hms] Hk Hu]. split_and!; try done.
    + set_solver.
    + by apply model_keys_NoDup.
    + apply Forall_forall. set_solver.
Qed.
Lemma models_loop_wraps i names uids ms : wraps "ErrInvalidInterconnectAnnotation" (models_loop i names uids ms).
Proof.
  revert i names uids. induction ms as [|m ms IH]; intros i names uids; simpl; auto 20 with wraps.
Qed.
#[export] Hint Resolve models_loop_wraps : wraps.

Lemma desired_wraps d : wraps (payload_sentinel d.(id_Schema)) (InterconnectDesired_Validate d).
Proof. apply schema_first_wraps; [done|]. auto 20 with wraps. Qed.

(** A desired payload is accepted exactly when its schema is current, its
    interconnect is an object name, its fallback is known, and it lists at most
    64 distinct namespaces and at most 64 well-formed models with no
    namespace/name pair and no UID twice (the slash-joined key the code compares
    identifies the pair); a refusal wraps the schema sentinel exactly when the
    schema is not current. *)
Theorem InterconnectDesired_Validate_spec d :
  (InterconnectDesired_Validate d = None <-> desired_ok d) /\
  wraps (payload_sentinel d.(id_Schema)) (InterconnectDesired_Validate d).
Proof.
  split; [apply desired_Validate_None|apply desired_wraps].
Qed.

(** Elements of a list without repeated keys are determined by their key. *)
Lemma NoDup_key_inj {A B} (f : A -> B) (l : list A) x y :
  NoDup (f <$> l) -> x ∈ l -> y ∈ l -> f x = f y -> x = y.
Proof.
  induction l as [|z l IH]; [by intros _ Hx%elem_of_nil|]. rewrite fmap_cons, NoDup_cons.
  intros [Hz Hl] [->|Hx]%elem_of_cons [->|Hy]%elem_of_cons E; auto.
  - destruct Hz. rewrite E. apply list_elem_of_fmap. eauto.
  - destruct Hz. rewrite <- E. apply list_elem_of_fmap. eauto.
Qed.

Lemma HasMLXModel_spec d ns n u : desired_ok d ->
  InterconnectDesired_HasMLXModel d ns n u = true <-> mkModelRef ns n u ∈ d.(MLXModels).
Proof.
  intros Hd. unfold InterconnectDesired_HasMLXModel.
  assert (Hin : existsb (fun m => String.eqb m.(mr_Namespace) ns && String.eqb m.(mr_Name) n
    && String.eqb m.(mr_UID) u) d.(MLXModels) = true <-> mkModelRef ns n u ∈ d.(MLXModels)).
  { rewrite existsb_exists, list_elem_of_In. setoid_rewrite andb_true_iff. setoid_rewrite andb_true_iff.
    setoid_rewrite String.eqb_eq. split.
    - intros ([] & Hm & [<- <-] & <-). done.
    - intros Hm. by eexists. }
  destruct (String.eqb_spec ns ""), (String.eqb_spec n ""), (String.eqb_spec u ""); simpl; try exact Hin;
    (split; [done|]); intros Hm; exfalso;
    pose proof (proj1 (Forall_forall _ _) (proj2 (desired_models d Hd)) _ Hm) as [Hns Hn Hu]; subst; done.
Qed.

(** C39: an accepted desired payload identifies models exactly: HasMLXModel holds
    for the listed references and for nothing else, so a namespace and name
    match at most one UID and a UID at most one namespace and name; and its
    namespace rule is the Interconnect's. *)
Theorem accepted_desired_identifies d :
  InterconnectDesired_Validate d = None ->
  (forall ns n u, InterconnectDesired_HasMLXModel d ns n u = true <-> mkModelRef ns n u ∈ d.(MLXModels)) /\
  (forall ns n u u', InterconnectDesired_HasMLXModel d ns n u = true ->
     InterconnectDesired_HasMLXModel d ns n u' = true -> u = u') /\
  (forall ns n ns' n' u, InterconnectDesired_HasMLXModel d ns n u = true ->
     InterconnectDesired_HasMLXModel d ns' n' u = true -> ns = ns' /\ n = n') /\
  (forall ns, InterconnectDesired_NamespaceAllowed d ns = true <->
     d.(id_AllowedNamespaces) = [] \/ ns ∈ d.(id_AllowedNamespaces)).
Proof.
  intros Hd%desired_Validate_None. split; [intros; by apply HasMLXModel_spec|]. split; [|split].
  - intros ns n u u'. rewrite !HasMLXModel_spec by done. intros H H'.
    by injection (NoDup_key_inj _ _ _ _ (desired_names d Hd) H H' eq_refl).
  - intros ns n ns' n' u. rewrite !HasMLXModel_spec by done. intros H H'.
    by injection (NoDup_key_inj _ _ _ _ (desired_uids d Hd) H H' eq_refl).
  - intros ns. apply NamespaceAllowed_spec.
Qed.

Lemma accepted_desired_identifies_witness :
  let d := mkDesired 1 "thunderbolt" "network" ["prod"]
             [mkModelRef "prod" "llama" "u-1"; mkModelRef "dev" "llama" "u-2"] in
  InterconnectDesired_Validate d = None /\
  (forall u, InterconnectDesired_HasMLXModel d "prod" "llama" u = true -> u = "u-1").
Proof.
  intros d. assert (Hv : InterconnectDesired_Validate d = None) by (vm_compute; reflexivity).
  split; [exact Hv|]. intros u Hu.
  apply (proj1 (proj2 (accepted_desired_identifies d Hv)) "prod" "llama" u "u-1" Hu). vm_compute. reflexivity.
Defined.

(** ** Encoding and parsing *)
Section Payloads.
Context {T : Type} `{AJ : AnnotationJSON T} (Validate : T -> check) (schema_of : T -> Z).
Context (Vsent : forall v, wraps (payload_sentinel (schema_of v)) (Validate v)).

Lemma parse_payload_Ok value v :
  parse_payload Validate value = Ok v <->
    slen value <= MaxInterconnectReportBytes /\ json_Probe (T := T) value = Ok (Some InterconnectAnnotationSchema) /\
    json_Unmarshal value = Ok v /\ Validate v = None.
Proof.
  unfold parse_payload, decodeInterconnectAnnotation. rewrite res_bind_Ok. split.
  - intros (v' & [Hl Hp]%checked_Ok & [Hv [= ->]]%checked_Ok).
    rewrite failif_None, Z.gtb_ltb, Z.ltb_ge in Hl.
    destruct (json_Probe value) as [[s|]|]; try done.
    apply checked_Ok in Hp as [Hs Hp]. rewrite failif_None, negb_false_iff, Z.eqb_eq in Hs. subst s.
    by destruct (json_Unmarshal value); simplify_eq.
  - intros (Hl & -> & Hu & Hv). exists v. rewrite !checked_Ok, failif_None, Z.gtb_ltb, Z.ltb_ge.
    split; [|done]. split; [done|]. by rewrite Hu.
Qed.

Lemma encode_payload_Ok v s :
  encode_payload Validate v = Ok s <->
    Validate v = None /\ json_Marshal v = Ok s /\ slen s <= MaxInterconnectReportBytes.
Proof.
  unfold encode_payload, encodeInterconnectAnnotation. rewrite checked_Ok.
  destruct (json_Marshal v) as [b|e]; [|naive_solver].
  rewrite checked_Ok, failif_None, Z.gtb_ltb, Z.ltb_ge. naive_solver.
Qed.

(** Every parse error wraps one of the two sentinels; a text of acceptable size
    that probes to no schema, or to another one, always gets the schema
    sentinel, whatever the rest of the text is. *)
Lemma parse_payload_Err value e :
  parse_payload Validate value = Err e ->
  errors_is e "ErrUnknownInterconnectSchema" = true \/ errors_is e "ErrInvalidInterconnectAnnotation" = true.
Proof.
  unfold parse_payload, decodeInterconnectAnnotation. rewrite res_bind_Err.
  intros [H|(v & _ & [H|[_ [=]]]%checked_Err)].
  - apply checked_Err in H as [[_ <-]%failif_Some|[_ H]]; [by right|].
    destruct (json_Probe value) as [[s|]|pe]; simplify_eq; [|by left|by right].
    apply checked_Err in H as [[_ <-]%failif_Some|[_ H]]; [by left|].
    destruct (json_Unmarshal value); simplify_eq. by right.
  - apply Vsent in H. revert H. unfold payload_sentinel. case_match; auto.
Qed.
Lemma parse_payload_schema value s :
  slen value <= MaxInterconnectReportBytes -> json_Probe (T := T) value = Ok s ->
  s <> Some InterconnectAnnotationSchema ->
  exists e, parse_payload Validate value = Err e /\ errors_is e "ErrUnknownInterconnectSchema" = true.
Proof.
  intros Hl Hp Hs. unfold parse_payload, decodeInterconnectAnnotation.
  rewrite Z.gtb_ltb, (proj2 (Z.ltb_ge _ _)), Hp by done. simpl. destruct s as [s|]; [|by eexists].
  destruct (Z.eqb_spec s InterconnectAnnotationSchema); [congruence|]. by eexists.
Qed.
End Payloads.

(** What a reader accepts: a report value parses exactly when it is at most
    4096 bytes, its probed schema is current and it unmarshals to a report that
    validates; the result is that report.  A value whose schema is missing or
    another one is refused with ErrUnknownInterconnectSchema even when the rest
    does not fit the type, and every other refusal wraps
    ErrInvalidInterconnectAnnotation.  The same holds of the desired payload. *)
Theorem interconnect_parse_spec `{AnnotationJSON InterconnectReport} `{AnnotationJSON InterconnectDesired} value :
  (forall r, ParseInterconnectReport value = Ok r <->
     slen value <= MaxInterconnectReportBytes /\
     json_Probe (T := InterconnectReport) value = Ok (Some InterconnectAnnotationSchema) /\
     json_Unmarshal value = Ok r /\ report_ok r) /\
  (forall d, ParseInterconnectDesired value = Ok d <->
     slen value <= MaxInterconnectReportBytes /\
     json_Probe (T := InterconnectDesired) value = Ok (Some InterconnectAnnotationSchema) /\
     json_Unmarshal value = Ok d /\ desired_ok d) /\
  (forall s, slen value <= MaxInterconnectReportBytes -> json_Probe (T := InterconnectReport) value = Ok s ->
     s <> Some InterconnectAnnotationSchema ->
     exists e, ParseInterconnectReport value = Err e /\ errors_is e "ErrUnknownInterconnectSchema" = true) /\
  (forall e, ParseInterconnectReport value = Err e \/ ParseInterconnectDesired value = Err e ->
     errors_is e "ErrUnknownInterconnectSchema" = true \/ errors_is e "ErrInvalidInterconnectAnnotation" = true).
Proof.
  split; [|split; [|split]].
  - intros r. unfold ParseInterconnectReport. by rewrite parse_payload_Ok, report_Validate_None.
  - intros d. unfold ParseInterconnectDesired. by rewrite parse_payload_Ok, desired_Validate_None.
  - intros s. apply parse_payload_schema.
  - intros e [He|He]; revert He.
    + apply (parse_payload_Err _ ir_Schema), report_wraps.
    + apply (parse_payload_Err _ id_Schema), desired_wraps.
Qed.

(** ** The ledger *)
Definition slot_before := before slot_less.
Lemma slot_before_spec a b : slot_before a b <-> a.(Slot) <= b.(Slot).
Proof. unfold slot_before, before, slot_less. by rewrite Z.ltb_ge. Qed.

(** A stable sort keeps the entries of each slot in their order. *)
Lemma insert_stable_slot x l k :
  filter (fun a => a.(Slot) = k) (insert_stable slot_less x l) = filter (fun a => a.(Slot) = k) (x :: l).
Proof.
  induction l as [|y l IH]; [done|]. cbn [insert_stable].
  destruct (slot_less y x) eqn:E; [|done]. unfold slot_less in E. apply Z.ltb_lt in E.
  rewrite filter_cons, IH, !filter_cons. destruct (decide (Slot y = k)), (decide (Slot x = k)); try done. lia.
Qed.
Lemma SliceStable_slot l k :
  filter (fun a => a.(Slot) = k) (SliceStable slot_less l) = filter (fun a => a.(Slot) = k) l.
Proof.
  induction l as [|x l IH]; [done|]. cbn [SliceStable foldr].
  change (foldr (insert_stable slot_less) [] l) with (SliceStable slot_less l).
  by rewrite insert_stable_slot, !filter_cons, IH.
Qed.

(** What the sort makes of the aliases. *)
Lemma ledger_sorted l : let as' := SliceStable slot_less (default [] l.(Aliases)) in
  as' ≡ₚ default [] l.(Aliases) /\ StronglySorted (fun a b => a.(Slot) <= b.(Slot)) as' /\
  (forall k, filter (fun a => a.(Slot) = k) as' = filter (fun a => a.(Slot) = k) (default [] l.(Aliases))).
Proof.
  cbn zeta. split; [apply SliceStable_perm|]. split; [|apply SliceStable_slot].
  assert (Hs : StronglySorted slot_before (SliceStable slot_less (default [] (Aliases l)))).
  { apply SliceStable_sorted.
    - intros a b c. rewrite !slot_before_spec. lia.
    - intros a b Hab. apply slot_before_spec. unfold slot_less in Hab. lia. }
  induction Hs as [|a as' Has IH Ha]; constructor; [done|].
  eapply Forall_impl; [done|]. intros b. by rewrite slot_before_spec.
Qed.
