(* ===== verification/NetService.v ===== *)
(** * Services and in-pod DNS (src/net/v1/service.go, dns.go)

    The Service proxy's view of a Service and the DNS configuration of a pod,
    with their defaults and validations. *)
From S2P Require Import Prelude GoLib GoStrings GoRunes Sentinels NetIP.

Definition ErrInvalid := ErrNew "ErrInvalid".

(** ** service.go *)
Definition ProtocolTCP : string := "TCP".
Definition ProtocolUDP : string := "UDP".
Definition Protocol_Valid (p : string) : bool := String.eqb p ProtocolTCP || String.eqb p ProtocolUDP.

Record ServicePort := mkServicePort {
  sp_Name : string;
  sp_Port : Z;         (* int32 *)
  sp_TargetPort : Z;   (* int32 *)
  sp_Protocol : string;
  sp_NodePort : Z;     (* int32 *)
}.
Definition validPort (p : Z) : bool := (p >=? 1) && (p <=? 65535).

Definition ServicePort_Validate (sp : ServicePort) : check :=
  let proto := if String.eqb sp.(sp_Protocol) "" then ProtocolTCP else sp.(sp_Protocol) in
  failif (negb (Protocol_Valid proto))
    (ErrorfW "%w: port %q protocol %q" [ArgS sp.(sp_Name); ArgS sp.(sp_Protocol)] ErrInvalid) ;?
  failif (negb (validPort sp.(sp_Port)))
    (ErrorfW "%w: port %q port %d out of range" [ArgS sp.(sp_Name); ArgZ sp.(sp_Port)] ErrInvalid) ;?
  failif (negb (validPort sp.(sp_TargetPort)))
    (ErrorfW "%w: port %q targetPort %d out of range" [ArgS sp.(sp_Name); ArgZ sp.(sp_TargetPort)] ErrInvalid) ;?
  failif (negb (sp.(sp_NodePort) =? 0) && negb (validPort sp.(sp_NodePort)))
    (ErrorfW "%w: port %q nodePort %d out of range" [ArgS sp.(sp_Name); ArgZ sp.(sp_NodePort)] ErrInvalid).

Record ServiceVIP := mkServiceVIP {
  sv_Namespace : string;
  sv_Name : string;
  sv_ClusterIP : string;
  sv_Ports : option (list ServicePort);   (* None is the nil slice *)
}.

Definition default_protocol (sp : ServicePort) : ServicePort :=
  if String.eqb sp.(sp_Protocol) ""
  then mkServicePort sp.(sp_Name) sp.(sp_Port) sp.(sp_TargetPort) ProtocolTCP sp.(sp_NodePort) else sp.
Definition ServiceVIP_WithDefaults (s : ServiceVIP) : ServiceVIP :=
  mkServiceVIP s.(sv_Namespace) s.(sv_Name) s.(sv_ClusterIP)
    (match s.(sv_Ports) with None => None | Some ps => Some (map default_protocol ps) end).

Definition ServiceVIP_Validate (s : ServiceVIP) : check :=
  failif (String.eqb s.(sv_Namespace) "" || String.eqb s.(sv_Name) "")
    (ErrorfW "%w: service missing namespace/name" [] ErrInvalid) ;?
  failif (String.eqb s.(sv_ClusterIP) "")
    (ErrorfW "%w: service %s/%s missing clusterIP" [ArgS s.(sv_Namespace); ArgS s.(sv_Name)] ErrInvalid) ;?
  failif (len (default [] s.(sv_Ports)) =? 0)
    (ErrorfW "%w: service %s/%s has no ports" [ArgS s.(sv_Namespace); ArgS s.(sv_Name)] ErrInvalid) ;?
  each 0 (fun _ p =>
    wrapc (ErrorfW "service %s/%s: %w" [ArgS s.(sv_Namespace); ArgS s.(sv_Name)]) (ServicePort_Validate p))
    (default [] s.(sv_Ports)).

Record Endpoint := mkEndpoint { ep_IP : string; ep_Port : Z; ep_Ready : bool }.
Definition Endpoint_Validate (e : Endpoint) : check :=
  failif (String.eqb e.(ep_IP) "") (ErrorfW "%w: endpoint missing ip" [] ErrInvalid) ;?
  failif (negb (validPort e.(ep_Port)))
    (ErrorfW "%w: endpoint %s port %d out of range" [ArgS e.(ep_IP); ArgZ e.(ep_Port)] ErrInvalid).

(** ** dns.go *)
Definition DefaultNDots : Z := 5.
Definition MaxNameservers : Z := 3.
Definition DNSPolicyClusterFirst : string := "".
Definition DNSPolicyNone : string := "None".

Record DNSOption := mkDNSOption { do_Name : string; do_Value : string }.
Record DNSConfig := mkDNSConfig {
  dc_ClusterDNSIP : string;
  dc_ClusterDomain : string;
  dc_SearchDomains : list string;
  dc_NDots : Z;   (* int32 *)
  dc_Policy : string;
  dc_Nameservers : list string;
  dc_Options : list DNSOption;
}.

(** [None] is the nil slice. *)
Definition DNSConfig_Servers (c : DNSConfig) : option (list string) :=
  if String.eqb c.(dc_Policy) DNSPolicyClusterFirst then
    if String.eqb c.(dc_ClusterDNSIP) "" then None else Some [c.(dc_ClusterDNSIP)]
  else if String.eqb c.(dc_Policy) DNSPolicyNone then
    if len c.(dc_Nameservers) =? 0 then None else Some c.(dc_Nameservers)
  else None.

Definition DNSConfig_WithDefaults (c : DNSConfig) : DNSConfig :=
  mkDNSConfig c.(dc_ClusterDNSIP) c.(dc_ClusterDomain) c.(dc_SearchDomains)
    (if c.(dc_NDots) =? 0 then DefaultNDots else c.(dc_NDots))
    c.(dc_Policy) c.(dc_Nameservers) c.(dc_Options).

Definition Addr_Zone (a : Addr) : string := match a with Addr6 _ z => z | _ => "" end.

Definition is_space_or_control (r : Z) : bool := IsSpace r || IsControl r.
Definition hasSpaceOrControl (s : string) : bool := existsb is_space_or_control (runes s).
(** [strings.ContainsAny(s, ":=")]. *)
Definition ContainsColonOrEq (s : string) : bool :=
  negb (sforall (fun c => negb (Ascii.eqb c ":" || Ascii.eqb c "=")) s).

Definition validateDNSOption (o : DNSOption) : check :=
  failif (String.eqb o.(do_Name) "") (ErrorfW "%w: dns option name is empty" [] ErrInvalid) ;?
  failif (EqualFold o.(do_Name) "ndots")
    (ErrorfW "%w: dns option %q is not allowed; set ndots instead" [ArgS o.(do_Name)] ErrInvalid) ;?
  failif (hasSpaceOrControl o.(do_Name))
    (ErrorfW "%w: dns option name %q contains whitespace or a control character" [ArgS o.(do_Name)] ErrInvalid) ;?
  failif (ContainsColonOrEq o.(do_Name))
    (ErrorfW "%w: dns option name %q contains a ':' or '=' separator" [ArgS o.(do_Name)] ErrInvalid) ;?
  failif (hasSpaceOrControl o.(do_Value))
    (ErrorfW "%w: dns option %q value %q contains whitespace or a control character"
      [ArgS o.(do_Name); ArgS o.(do_Value)] ErrInvalid).

(** The addresses seen so far are a list: [seen[addr]] is membership. *)
Fixpoint nameservers_loop (seen : list Addr) (ns : list string) : check :=
  match ns with
  | [] => None
  | s :: ns' =>
      match ParseAddr s with
      | None => Some (ErrorfW "%w: dns config nameserver %q is not an IP address" [ArgS s] ErrInvalid)
      | Some addr =>
          failif (negb (String.eqb (Addr_Zone addr) ""))
            (ErrorfW "%w: dns config nameserver %q must not carry a zone" [ArgS s] ErrInvalid) ;?
          failif (bool_decide (addr ∈ seen))
            (ErrorfW "%w: dns config nameserver %q is repeated" [ArgS s] ErrInvalid) ;?
          nameservers_loop (addr :: seen) ns'
      end
  end.
Definition validateNameservers (ns : list string) : check :=
  failif (len ns =? 0) (ErrorfW "%w: dns config policy None requires at least one nameserver" [] ErrInvalid) ;?
  failif (len ns >? MaxNameservers)
    (ErrorfW "%w: dns config has %d nameservers, at most %d allowed" [ArgZ (len ns); ArgZ MaxNameservers] ErrInvalid) ;?
  nameservers_loop [] ns.

Definition DNSConfig_Validate (c : DNSConfig) : check :=
  (if String.eqb c.(dc_Policy) DNSPolicyClusterFirst then
     failif (String.eqb c.(dc_ClusterDNSIP) "") (ErrorfW "%w: dns config missing clusterDNSIP" [] ErrInvalid) ;?
     failif (String.eqb c.(dc_ClusterDomain) "") (ErrorfW "%w: dns config missing clusterDomain" [] ErrInvalid) ;?
     failif (negb (len c.(dc_Nameservers) =? 0))
       (ErrorfW "%w: dns config policy ClusterFirst must not set nameservers" [] ErrInvalid) ;?
     failif (negb (len c.(dc_Options) =? 0))
       (ErrorfW "%w: dns config policy ClusterFirst must not set options" [] ErrInvalid)
   else if String.eqb c.(dc_Policy) DNSPolicyNone then
     validateNameservers c.(dc_Nameservers) ;?
     failif (negb (String.eqb c.(dc_ClusterDNSIP) ""))
       (ErrorfW "%w: dns config policy None must not set clusterDNSIP" [] ErrInvalid)
   else Some (ErrorfW "%w: dns config policy %q is unknown; the only values are %q (ClusterFirst) and %q"
     [ArgS c.(dc_Policy); ArgS DNSPolicyClusterFirst; ArgS DNSPolicyNone] ErrInvalid)) ;?
  failif (c.(dc_NDots) <? 0) (ErrorfW "%w: dns config ndots %d is negative" [ArgZ c.(dc_NDots)] ErrInvalid) ;?
  each 0 (fun i o => wrapc (ErrorfW "dns config option %d: %w" [ArgZ i]) (validateDNSOption o)) c.(dc_Options).

(** ** Services *)
Definition port_range (p : Z) : Prop := 1 <= p <= 65535.
Lemma validPort_spec p : validPort p = true <-> port_range p.
Proof. unfold validPort, port_range. rewrite andb_true_iff, Z.geb_le, Z.leb_le. done. Qed.

Record port_ok (sp : ServicePort) : Prop := {
  ok_protocol : sp.(sp_Protocol) ∈ [""; ProtocolTCP; ProtocolUDP];
  ok_port : port_range sp.(sp_Port);
  ok_target : port_range sp.(sp_TargetPort);
  ok_nodeport : sp.(sp_NodePort) = 0 \/ port_range sp.(sp_NodePort) }.

Lemma ServicePort_Validate_None sp : ServicePort_Validate sp = None <-> port_ok sp.
Proof.
  unfold ServicePort_Validate. rewrite !andthen_None, !failif_None, !negb_false_iff, !validPort_spec.
  rewrite andb_false_iff, !negb_false_iff, Z.eqb_eq, validPort_spec.
  assert (Protocol_Valid (if String.eqb (sp_Protocol sp) "" then ProtocolTCP else sp_Protocol sp) = true <->
    sp_Protocol sp ∈ [""; ProtocolTCP; ProtocolUDP]) as ->.
  { unfold Protocol_Valid. rewrite !elem_of_cons, elem_of_nil.
    destruct (String.eqb_spec (sp_Protocol sp) "") as [E|E].
    - split; [by left|done].
    - rewrite orb_true_iff, !String.eqb_eq. tauto. }
  split; [intros (? & ? & ? & ?); by constructor|intros []; tauto].
Qed.

Record service_ok (s : ServiceVIP) : Prop := {
  ok_identity : s.(sv_Namespace) <> "" /\ s.(sv_Name) <> "";
  ok_clusterIP : s.(sv_ClusterIP) <> "";
  ok_ports : default [] s.(sv_Ports) <> [] /\ Forall port_ok (default [] s.(sv_Ports)) }.

Lemma len_zero {A} (l : list A) : (len l =? 0) = true <-> l = [].
Proof. unfold len. rewrite Z.eqb_eq. destruct l; simpl; split; intros; done || lia. Qed.

Lemma ServiceVIP_Validate_None s : ServiceVIP_Validate s = None <-> service_ok s.
Proof.
  unfold ServiceVIP_Validate. rewrite !andthen_None, !failif_None, orb_false_iff, !String.eqb_neq.
  rewrite <- not_true_iff_false, len_zero, (each_None _ port_ok).
  - split; [intros (? & ? & ? & ?); by constructor|intros []; tauto].
  - intros _ p. by rewrite wrapc_None, ServicePort_Validate_None.
Qed.

Lemma ServicePort_Validate_wraps sp : wraps "ErrInvalid" (ServicePort_Validate sp).
Proof. unfold ServicePort_Validate. auto 20 with wraps. Qed.
(** A context added with %w keeps the sentinel. *)
Lemma wraps_context s fmt args c : wraps s c -> wraps s (wrapc (ErrorfW fmt args) c).
Proof. intros Hc e (e' & He & <-)%wrapc_Some. simpl. by apply Hc. Qed.
#[export] Hint Resolve wraps_context ServicePort_Validate_wraps : wraps.

Lemma default_protocol_ok sp : port_ok (default_protocol sp) <-> port_ok sp.
Proof.
  unfold default_protocol. destruct (String.eqb_spec (sp_Protocol sp) "") as [E|]; [|done].
  split; intros [Hp ? ? ?]; constructor; simpl in *; try done; [rewrite E|]; set_solver.
Qed.

(** A Service is accepted exactly when it has an identity, a cluster IP
    and at least one port, every port with TCP, UDP or no protocol and with
    port numbers in 1..65535 (the node port possibly 0); a refusal wraps
    ErrInvalid; applying the defaults twice is applying them once, changes
    neither the verdict nor anything but empty protocols, and leaves every port
    of an accepted Service with a protocol the proxy serves. *)
Theorem ServiceVIP_spec s :
  (ServiceVIP_Validate s = None <-> service_ok s) /\
  wraps "ErrInvalid" (ServiceVIP_Validate s) /\
  ServiceVIP_WithDefaults (ServiceVIP_WithDefaults s) = ServiceVIP_WithDefaults s /\
  (ServiceVIP_Validate (ServiceVIP_WithDefaults s) = None <-> ServiceVIP_Validate s = None) /\
  (ServiceVIP_Validate s = None ->
     Forall (fun p => Protocol_Valid p.(sp_Protocol) = true) (default [] (ServiceVIP_WithDefaults s).(sv_Ports))).
Proof.
  assert (Hd : default [] (ServiceVIP_WithDefaults s).(sv_Ports) = map default_protocol (default [] s.(sv_Ports))).
  { unfold ServiceVIP_WithDefaults. by destruct (sv_Ports s). }
  split; [apply ServiceVIP_Validate_None|]. split; [unfold ServiceVIP_Validate; auto 20 with wraps|]. split; [|split].
  - unfold ServiceVIP_WithDefaults. cbn. f_equal. destruct (sv_Ports s) as [ps|]; [|done]. f_equal.
    rewrite map_map. apply map_ext. intros p. unfold default_protocol.
    destruct (String.eqb (sp_Protocol p) "") eqn:E; [reflexivity|rewrite E; reflexivity].
  - rewrite !ServiceVIP_Validate_None. split; intros [Hi Hc [Hn Hf]]; (split; [exact Hi|exact Hc|]).
    + rewrite Hd in Hn, Hf. split; [by destruct (default [] (sv_Ports s))|].
      rewrite List.Forall_map in Hf. eapply Forall_impl; [exact Hf|]. intros p. apply default_protocol_ok.
    + rewrite Hd. split; [by destruct (default [] (sv_Ports s))|].
      apply List.Forall_map. eapply Forall_impl; [exact Hf|]. intros p. apply default_protocol_ok.
  - intros [_ _ [_ Hf]]%ServiceVIP_Validate_None. rewrite Hd. apply List.Forall_map.
    eapply Forall_impl; [exact Hf|]. intros p [Hp _ _ _]. unfold default_protocol, Protocol_Valid.
    destruct (String.eqb_spec (sp_Protocol p) ""); [done|].
    apply orb_true_iff. rewrite !String.eqb_eq. set_solver.
Qed.

(** ** DNS configurations *)
Definition clean (s : string) : Prop := Forall (fun r => is_space_or_control r = false) (runes s).
Lemma hasSpaceOrControl_false s : hasSpaceOrControl s = false <-> clean s.
Proof.
  unfold hasSpaceOrControl, clean. rewrite <- not_true_iff_false, existsb_exists, Forall_forall. split.
  - intros H r Hr. apply not_true_iff_false. intros Hs. apply H. exists r. split; [by apply list_elem_of_In|done].
  - intros H (r & Hr & Hs). apply list_elem_of_In in Hr. by rewrite (H r Hr) in Hs.
Qed.
Record option_ok (o : DNSOption) : Prop := {
  option_name : o.(do_Name) <> "" /\ clean o.(do_Name);
  option_not_ndots : EqualFold o.(do_Name) "ndots" = false;
  option_no_separator : without ":" o.(do_Name) = true /\ without "=" o.(do_Name) = true;
  option_value : clean o.(do_Value) }.

Lemma validateDNSOption_None o : validateDNSOption o = None <-> option_ok o.
Proof.
  unfold validateDNSOption, ContainsColonOrEq.
  rewrite !andthen_None, !failif_None, !hasSpaceOrControl_false, !negb_false_iff, !String.eqb_neq.
  assert (Hs : sforall (fun c => negb (Ascii.eqb c ":" || Ascii.eqb c "=")) (do_Name o) = true <->
    without ":" (do_Name o) = true /\ without "=" (do_Name o) = true).
  { unfold without. rewrite <- sforall_and. split; apply sforall_impl; intros c; by rewrite negb_orb. }
  rewrite Hs. split; [intros (? & ? & ? & ? & ?); by constructor|intros []; tauto].
Qed.

Lemma nameservers_loop_None seen ns :
  nameservers_loop seen ns = None <->
    exists addrs, Forall2 (fun s a => ParseAddr s = Some a /\ Addr_Zone a = "") ns addrs /\
      NoDup addrs /\ Forall (fun a => a ∉ seen) addrs.
Proof.
  revert seen. induction ns as [|s ns IH]; intros seen; cbn [nameservers_loop].
  - split; [|done]. intros _. exists []. split; [constructor|]. split; constructor.
  - destruct (ParseAddr s) as [a|] eqn:E; [|split; [done|intros (as' & Hf & _); inversion Hf; naive_solver]].
    rewrite !andthen_None, !failif_None, negb_false_iff, String.eqb_eq, bool_decide_eq_false, IH. split.
    + intros (Hz & Hns & as' & Hf & Hn & Hs). exists (a :: as').
      split; [by constructor|]. setoid_rewrite not_elem_of_cons in Hs. rewrite NoDup_cons, Forall_cons.
      rewrite Forall_forall in Hs. split; [|split; [done|]].
      * split; [|done]. intros Hin. by destruct (Hs a Hin).
      * apply Forall_forall. intros x Hx. by destruct (Hs x Hx).
    + intros (as' & Hf & Hn & Hs). inversion Hf as [|? a' ? as'' [Ha Hz] Hf']; subst. simplify_eq.
      apply NoDup_cons in Hn as [Hni Hn]. apply Forall_cons in Hs as [Hs Hs'].
      split; [done|]. split; [done|]. exists as''. split; [done|]. split; [done|].
      rewrite Forall_forall in Hs' |- *. intros x Hx. apply not_elem_of_cons. split; [|by apply Hs'].
      by intros ->.
Qed.

(** What a configuration must be, per policy. *)
Definition cluster_first_ok (c : DNSConfig) : Prop :=
  c.(dc_ClusterDNSIP) <> "" /\ c.(dc_ClusterDomain) <> "" /\ c.(dc_Nameservers) = [] /\ c.(dc_Options) = [].
Definition none_ok (c : DNSConfig) : Prop :=
  c.(dc_ClusterDNSIP) = "" /\ 1 <= len c.(dc_Nameservers) <= MaxNameservers /\
  exists addrs, NoDup addrs /\
    Forall2 (fun s a => ParseAddr s = Some a /\ Addr_Zone a = "") c.(dc_Nameservers) addrs.
Definition dns_ok (c : DNSConfig) : Prop :=
  (c.(dc_Policy) = DNSPolicyClusterFirst /\ cluster_first_ok c \/ c.(dc_Policy) = DNSPolicyNone /\ none_ok c) /\
  0 <= c.(dc_NDots) /\ Forall option_ok c.(dc_Options).

Lemma DNSConfig_Validate_None c : DNSConfig_Validate c = None <-> dns_ok c.
Proof.
  unfold DNSConfig_Validate, dns_ok. rewrite !andthen_None, !failif_None, Z.ltb_ge, (each_None _ option_ok).
  2: { intros j o. by rewrite wrapc_None, validateDNSOption_None. }
  assert (forall A B C D : Prop, (A <-> B) -> (A /\ C /\ D <-> B /\ C /\ D)) as Hc by tauto. apply Hc. clear Hc.
  destruct (String.eqb_spec (dc_Policy c) DNSPolicyClusterFirst) as [E|E].
  - rewrite !andthen_None, !failif_None, !negb_false_iff, !String.eqb_neq, !len_zero. rewrite E.
    unfold cluster_first_ok. split; [tauto|]. intros [[_ ?]|[[=] _]]. tauto.
  - destruct (String.eqb_spec (dc_Policy c) DNSPolicyNone) as [E'|E']; [|split; [done|tauto]].
    unfold validateNameservers. rewrite !andthen_None, !failif_None, negb_false_iff, String.eqb_eq.
    rewrite nameservers_loop_None, Z.gtb_ltb, Z.ltb_ge, <- not_true_iff_false, len_zero.
    assert (Hlen : dc_Nameservers c <> [] <-> 1 <= len (dc_Nameservers c)).
    { unfold len. destruct (dc_Nameservers c); simpl; split; intros; done || lia. }
    rewrite Hlen. split.
    + intros ((Hn & Hm & as' & Hf & Hnd & _) & Hi). right. split; [done|]. split; [done|]. split; [done|]. by exists as'.
    + intros [[? _]|[_ (Hi & [Hn Hm] & as' & Hnd & Hf)]]; [done|]. split; [|done]. split; [done|]. split; [done|].
      exists as'. split; [done|]. split; [done|]. apply Forall_forall. intros x _ Hx. by apply elem_of_nil in Hx.
Qed.

Lemma validateDNSOption_wraps o : wraps "ErrInvalid" (validateDNSOption o).
Proof. unfold validateDNSOption. auto 20 with wraps. Qed.
Lemma nameservers_loop_wraps ns seen : wraps "ErrInvalid" (nameservers_loop seen ns).
Proof.
  revert seen. induction ns as [|s ns IH]; intros seen; cbn [nameservers_loop]; [apply wraps_None|].
  destruct (ParseAddr s); auto 10 with wraps.
Qed.
#[export] Hint Resolve validateDNSOption_wraps nameservers_loop_wraps : wraps.

Lemma dns_ok_defaults c : dns_ok (DNSConfig_WithDefaults c) <-> dns_ok c.
Proof.
  unfold dns_ok, cluster_first_ok, none_ok, DNSConfig_WithDefaults, DefaultNDots. cbn.
  assert ((0 <= if dc_NDots c =? 0 then 5 else dc_NDots c) <-> 0 <= dc_NDots c) as ->; [|done].
  destruct (Z.eqb_spec (dc_NDots c) 0); lia.
Qed.

(** A DNS configuration is accepted exactly when its policy is one of the
    two known ones with the fields that policy requires and without those it
    forbids, the nameservers being one to three distinct zoneless addresses,
    ndots is not negative and every option is a single safe token; a refusal
    wraps ErrInvalid; the default changes no verdict; and an accepted
    configuration selects at least one and at most MaxNameservers resolvers:
    the cluster's address alone, or exactly its own nameservers in order. *)
Theorem DNSConfig_spec c :
  (DNSConfig_Validate c = None <-> dns_ok c) /\
  wraps "ErrInvalid" (DNSConfig_Validate c) /\
  (DNSConfig_Validate (DNSConfig_WithDefaults c) = None <-> DNSConfig_Validate c = None) /\
  (DNSConfig_Validate c = None ->
     1 <= len (default [] (DNSConfig_Servers c)) <= MaxNameservers /\
     DNSConfig_Servers c =
       Some (if String.eqb c.(dc_Policy) DNSPolicyNone then c.(dc_Nameservers) else [c.(dc_ClusterDNSIP)])).
Proof.
  split; [apply DNSConfig_Validate_None|]. split; [|split].
  - unfold DNSConfig_Validate, validateNameservers. auto 20 with wraps.
  - rewrite !DNSConfig_Validate_None. apply dns_ok_defaults.
  - intros [[[E (Hi & _)]|[E (_ & Hl & _)]] _]%DNSConfig_Validate_None; unfold DNSConfig_Servers; rewrite E; simpl.
    + apply String.eqb_neq in Hi as ->. done.
    + destruct (Z.eqb_spec (len (dc_Nameservers c)) 0); [lia|done].
Qed.

(** How a consumer writes an option into the resolv.conf options line. *)
Definition option_token (o : DNSOption) : string :=
  if String.eqb o.(do_Value) "" then o.(do_Name) else o.(do_Name) +:+ String ":" o.(do_Value).

Lemma clean_without c s : is_space_or_control (Z_of_byte c) = true -> Z_of_byte c < 128 -> clean s -> without c s = true.
Proof.
  intros Hc Hl Hs. apply occurs_without. intros Ho. apply (ascii_is_rune c s Hl) in Ho.
  unfold clean in Hs. rewrite Forall_forall in Hs. rewrite (Hs _ Ho) in Hc. done.
Qed.
Lemma token_without c o : is_space_or_control (Z_of_byte c) = true -> Z_of_byte c < 128 -> option_ok o ->
  without c (option_token o) = true.
Proof.
  intros Hc Hl [[_ Hn] _ _ Hv]. pose proof (clean_without c _ Hc Hl Hn) as Hn'. pose proof (clean_without c _ Hc Hl Hv) as Hv'.
  unfold option_token. destruct (String.eqb (do_Value o) ""); [done|].
  unfold without in *. rewrite sforall_app, Hn'. cbn [sforall]. rewrite Hv'.
  destruct (Ascii.eqb_spec ":" c) as [<-|]; [discriminate Hc|done].
Qed.
Lemma token_name o : option_ok o -> Split (option_token o) ":" = do_Name o :: tail (Split (option_token o) ":").
Proof.
  intros [_ _ [Hc _] _]. unfold option_token. destruct (String.eqb (do_Value o) "").
  - by rewrite Split_piece.
  - by rewrite Split_app, Split_piece.
Qed.

(** C38: The options of an accepted configuration cannot smuggle anything into
    the line they are written on: the space-separated line has no line break
    or NUL, splits back into exactly one token per option, and the part of each token before
    its first ':' is that option's name, which is never ndots under any
    letter case. *)
Theorem dns_options_no_injection c :
  DNSConfig_Validate c = None ->
  let tokens := map option_token c.(dc_Options) in
  (tokens <> [] -> Split (Join tokens " ") " " = tokens) /\
  Forall (fun b => without b (Join tokens " ") = true) [ascii_of_nat 0; ascii_of_nat 10; ascii_of_nat 13] /\
  Forall (fun o => hd "" (Split (option_token o) ":") = o.(do_Name) /\ EqualFold o.(do_Name) "ndots" = false)
    c.(dc_Options).
Proof.
  intros [_ [_ Ho]]%DNSConfig_Validate_None tokens.
  assert (Hw : forall b, is_space_or_control (Z_of_byte b) = true -> Z_of_byte b < 128 ->
    Forall (fun t => without b t = true) tokens).
  { intros b Hb Hl. apply List.Forall_map. eapply Forall_impl; [exact Ho|]. intros o. by apply token_without. }
  split; [|split].
  - intros Hne. apply Split_Join; [done|]. by apply Hw.
  - assert (forall b, is_space_or_control (Z_of_byte b) = true -> Z_of_byte b < 128 -> Ascii.eqb " " b = false ->
      without b (Join tokens " ") = true) as Hj.
    { intros b Hb Hl Hs. unfold without. rewrite sforall_Join; [|by rewrite Hs]. by apply Hw. }
    repeat constructor; apply Hj; done.
  - eapply Forall_impl; [exact Ho|]. intros o Hok. rewrite (token_name o Hok). by destruct Hok.
Qed.

Definition sample_dns : DNSConfig :=
  mkDNSConfig "" "" ["example.org"] 2 DNSPolicyNone ["10.0.0.2"; "fd00::2"] [mkDNSOption "timeout" "2"; mkDNSOption "rotate" ""].
Lemma dns_options_no_injection_witness :
  DNSConfig_Validate sample_dns = None /\ Split (Join (map option_token sample_dns.(dc_Options)) " ") " " = ["timeout:2"; "rotate"].
Proof.
  split; [vm_compute; reflexivity|].
  apply (dns_options_no_injection sample_dns); [vm_compute; reflexivity|discriminate].
Defined.
