(* ===== verification/NetMesh.v ===== *)
(** * The mesh contract (src/net/v1/mesh.go)

    Mesh peers with their endpoint candidates and the enrolment messages:
    defaults and validation, down to the byte loop that recognises a DNS name.
    Slices whose nil value is told apart are options. *)
From S2P Require Import Prelude GoLib GoStrings Sentinels NetIP NetService Interconnect.

Definition MeshPeerSchemaVersion : Z := 1.
Definition DefaultPersistentKeepaliveSeconds : Z := 25.
Definition DefaultMeshMTU : Z := 1380.
Definition MeshEnrollSchemaVersion : Z := 1.
Definition EndpointLinkUnderlay : string := "underlay".
Definition EndpointLinkDirect : string := "direct".

Record EndpointCandidate := mkEndpointCandidate { ec_Address : string; ec_Link : string }.
Record MeshPeerSpec := mkMeshPeerSpec {
  mp_SchemaVersion : Z;   (* int32 *)
  mp_NodeName : string;
  mp_PublicKey : string;
  mp_Endpoint : string;
  mp_Endpoints : option (list EndpointCandidate);
  mp_PodCIDR : string;
  mp_AllowedIPs : option (list string);
  mp_MeshIP : string;
  mp_PersistentKeepaliveSeconds : Z;   (* int32 *)
}.

(** The copies of the two slices are equal to them as values. *)
Definition MeshPeerSpec_WithDefaults (s : MeshPeerSpec) : MeshPeerSpec :=
  mkMeshPeerSpec
    (if s.(mp_SchemaVersion) =? 0 then MeshPeerSchemaVersion else s.(mp_SchemaVersion))
    s.(mp_NodeName) s.(mp_PublicKey) s.(mp_Endpoint) s.(mp_Endpoints) s.(mp_PodCIDR) s.(mp_AllowedIPs) s.(mp_MeshIP)
    (if s.(mp_PersistentKeepaliveSeconds) =? 0 then DefaultPersistentKeepaliveSeconds
     else s.(mp_PersistentKeepaliveSeconds)).

(** ** Endpoint strings *)
Definition is_letter_or_digit (c : ascii) : bool := is_lower c || is_upper c || is_digit c.
(** The loop of [validDNSName]: [prev] is [h[i-1]], read only when [label] is
    not zero; the final test is on the last byte. *)
Fixpoint dns_name_loop (prev : ascii) (label : Z) (h : string) : bool :=
  match h with
  | "" => negb (label =? 0) && negb (Ascii.eqb prev "-")
  | String c h' =>
      if Ascii.eqb c "." then
        if (label =? 0) || Ascii.eqb prev "-" then false else dns_name_loop c 0 h'
      else if is_letter_or_digit c || (Ascii.eqb c "-" && negb (label =? 0)) then
        if label + 1 >? 63 then false else dns_name_loop c (label + 1) h'
      else false
  end.
Definition validDNSName (h : string) : bool :=
  if slen h >? 253 then false else dns_name_loop zero_byte 0 h.

Definition validateHostPort (endpoint : string) : check :=
  match SplitHostPort endpoint with
  | None => Some (Errorf "endpoint %q is not host:port" [ArgS endpoint])
  | Some (host, port) =>
      failif (String.eqb host "") (Errorf "endpoint %q has an empty host" [ArgS endpoint]) ;?
      failif (match ParseAddr host with None => negb (validDNSName host) | Some _ => false end)
        (Errorf "endpoint %q has an invalid host %q" [ArgS endpoint; ArgS host]) ;?
      failif (match ParseUint port 65535 with None => true | Some n => n =? 0 end)
        (Errorf "endpoint %q has an invalid port %q" [ArgS endpoint; ArgS port])
  end.

Definition inReservedLinkHalf (a : Addr) : bool :=
  match As4 a with (b0, b1, b2, _) => (b0 =? 169) && (b1 =? 254) && ((b2 =? 0) || (b2 =? 255)) end.

Definition validateLinkLocal (endpoint : string) (allowReserved : bool) : check :=
  match SplitHostPort endpoint with
  | None => Some (Errorf "endpoint %q is not host:port" [ArgS endpoint])
  | Some (host, _) =>
      match ParseAddr host with
      | None => None
      | Some addr =>
          let addr := Unmap addr in
          if negb (Is4 addr) || negb (IsLinkLocalUnicast addr) then None
          else
            failif (negb (inReservedLinkHalf addr))
              (Errorf "endpoint %q is a self-assigned link-local address outside 169.254.0.0/24 and 169.254.255.0/24" [ArgS endpoint]) ;?
            failif (negb allowReserved)
              (Errorf "endpoint %q is a direct-link address on a non-direct candidate" [ArgS endpoint])
      end
  end.

Definition EndpointCandidate_validate (c : EndpointCandidate) : check :=
  failif (negb (String.eqb c.(ec_Link) EndpointLinkUnderlay || String.eqb c.(ec_Link) EndpointLinkDirect))
    (Errorf "unknown link %q (want %q or %q)" [ArgS c.(ec_Link); ArgS EndpointLinkUnderlay; ArgS EndpointLinkDirect]) ;?
  failif (String.eqb c.(ec_Address) "") (Errorf "missing address" []) ;?
  validateHostPort c.(ec_Address) ;?
  validateLinkLocal c.(ec_Address) (String.eqb c.(ec_Link) EndpointLinkDirect).

Definition MeshPeerSpec_Validate (s : MeshPeerSpec) : check :=
  let name := ArgS s.(mp_NodeName) in
  failif (s.(mp_SchemaVersion) =? 0)
    (ErrorfW "%w: mesh peer %q missing schemaVersion (call WithDefaults)" [name] ErrInvalid) ;?
  failif (String.eqb s.(mp_NodeName) "") (ErrorfW "%w: mesh peer missing nodeName" [] ErrInvalid) ;?
  failif (String.eqb s.(mp_PublicKey) "") (ErrorfW "%w: mesh peer %q missing publicKey" [name] ErrInvalid) ;?
  failif (String.eqb s.(mp_Endpoint) "") (ErrorfW "%w: mesh peer %q missing endpoint" [name] ErrInvalid) ;?
  wrapc (ErrorfWW "%w: mesh peer %q %w" [name] ErrInvalid) (validateHostPort s.(mp_Endpoint)) ;?
  wrapc (ErrorfWW "%w: mesh peer %q %w" [name] ErrInvalid) (validateLinkLocal s.(mp_Endpoint) true) ;?
  each 0 (fun i c => wrapc (ErrorfWW "%w: mesh peer %q endpoints[%d]: %w" [name; ArgZ i] ErrInvalid)
                       (EndpointCandidate_validate c)) (default [] s.(mp_Endpoints)) ;?
  failif (String.eqb s.(mp_PodCIDR) "") (ErrorfW "%w: mesh peer %q missing podCIDR" [name] ErrInvalid) ;?
  failif (len (default [] s.(mp_AllowedIPs)) =? 0) (ErrorfW "%w: mesh peer %q has no allowedIPs" [name] ErrInvalid).

(** ** Enrolment *)
Record MeshEnrollRequest := mkMeshEnrollRequest {
  mq_SchemaVersion : Z; mq_NodeName : string; mq_PublicKey : string; mq_Endpoint : string; mq_PodCIDR : string }.
Definition MeshEnrollRequest_WithDefaults (r : MeshEnrollRequest) : MeshEnrollRequest :=
  mkMeshEnrollRequest
    (if r.(mq_SchemaVersion) =? 0 then MeshEnrollSchemaVersion else r.(mq_SchemaVersion))
    r.(mq_NodeName) r.(mq_PublicKey) r.(mq_Endpoint) r.(mq_PodCIDR).
Definition MeshEnrollRequest_Validate (r : MeshEnrollRequest) : check :=
  failif (r.(mq_SchemaVersion) =? 0)
    (ErrorfW "%w: mesh-enroll request missing schemaVersion (call WithDefaults)" [] ErrInvalid) ;?
  failif (String.eqb r.(mq_NodeName) "") (ErrorfW "%w: mesh-enroll request missing nodeName" [] ErrInvalid) ;?
  failif (String.eqb r.(mq_PublicKey) "") (ErrorfW "%w: mesh-enroll request missing publicKey" [] ErrInvalid) ;?
  failif (String.eqb r.(mq_Endpoint) "") (ErrorfW "%w: mesh-enroll request missing endpoint" [] ErrInvalid) ;?
  wrapc (ErrorfWW "%w: mesh-enroll request %w" [] ErrInvalid) (validateHostPort r.(mq_Endpoint)).

Record MeshEnrollResponse := mkMeshEnrollResponse {
  mr_SchemaVersion : Z; mr_NodeName : string; mr_PodCIDR : string; mr_MeshIP : string;
  mr_Peers : option (list MeshPeerSpec) }.
(** The peers are deep-copied, which keeps them as values. *)
Definition MeshEnrollResponse_WithDefaults (r : MeshEnrollResponse) : MeshEnrollResponse :=
  mkMeshEnrollResponse
    (if r.(mr_SchemaVersion) =? 0 then MeshEnrollSchemaVersion else r.(mr_SchemaVersion))
    r.(mr_NodeName) r.(mr_PodCIDR) r.(mr_MeshIP) r.(mr_Peers).
Definition MeshEnrollResponse_Validate (r : MeshEnrollResponse) : check :=
  failif (r.(mr_SchemaVersion) =? 0)
    (ErrorfW "%w: mesh-enroll response missing schemaVersion (call WithDefaults)" [] ErrInvalid) ;?
  failif (String.eqb r.(mr_NodeName) "") (ErrorfW "%w: mesh-enroll response missing nodeName" [] ErrInvalid) ;?
  failif (String.eqb r.(mr_PodCIDR) "") (ErrorfW "%w: mesh-enroll response missing podCIDR" [] ErrInvalid).

(** ** The DNS-name loop against the definition of a name *)
Definition name_byte (c : ascii) : bool := is_letter_or_digit c || Ascii.eqb c "-".
Record label_ok (l : string) : Prop := {
  label_length : 1 <= slen l <= 63;
  label_bytes : sforall name_byte l = true;
  label_head : head (bytes_of l) <> Some "-"%char;
  label_last : last (bytes_of l) <> Some "-"%char }.

Lemma Split_prefix a h sep p ps :
  without sep a = true -> Split h sep = p :: ps -> Split (a +:+ h) sep = (a +:+ p) :: ps.
Proof.
  intros Ha Hh. induction a as [|c a IH]; [done|]. unfold without in *. cbn [sforall] in Ha.
  apply andb_true_iff in Ha as [Hc%negb_true_iff Ha]. simpl. by rewrite Hc, IH.
Qed.
Lemma name_byte_without l : sforall name_byte l = true -> without "." l = true.
Proof. apply sforall_impl. intros c Hc. apply negb_true_iff, Ascii.eqb_neq. intros ->. discriminate Hc. Qed.
Lemma bytes_of_app a b : bytes_of (a +:+ b) = bytes_of a ++ bytes_of b.
Proof. induction a as [|c a IH]; [done|]. simpl. by f_equal. Qed.

(** The invariant of the loop: [cur] is the label read so far. *)
Record reading (cur : string) (prev : ascii) (label : Z) : Prop := {
  reading_label : label = slen cur /\ label <= 63;
  reading_bytes : sforall name_byte cur = true;
  reading_head : head (bytes_of cur) <> Some "-"%char;
  reading_prev : label <> 0 -> last (bytes_of cur) = Some prev }.

Lemma reading_label_ok cur prev label : reading cur prev label ->
  label_ok cur <-> negb (label =? 0) && negb (Ascii.eqb prev "-") = true.
Proof.
  intros [[-> Hl] Hb Hh Hp]. rewrite andb_true_iff, !negb_true_iff, Z.eqb_neq, Ascii.eqb_neq. split.
  - intros [[H1 _] _ _ Hn]. split; [lia|]. intros ->. apply Hn, Hp. lia.
  - intros [H1 H2]. constructor; [unfold slen in *; lia|done|done|]. rewrite Hp by done. congruence.
Qed.
Lemma reading_step cur prev label c : reading cur prev label -> name_byte c = true ->
  (c = "-"%char -> label <> 0) -> label + 1 <= 63 -> reading (cur +:+ String c "") c (label + 1).
Proof.
  intros [[-> Hl] Hb Hh Hp] Hc Hd Hn. constructor.
  - unfold slen in *. rewrite slength_app. simpl. lia.
  - rewrite sforall_app, Hb. simpl. by rewrite Hc.
  - rewrite bytes_of_app. destruct cur as [|d cur]; [|done]. simpl. intros [= ->]. by apply Hd.
  - intros _. rewrite bytes_of_app. simpl. by rewrite last_snoc.
Qed.
Lemma first_label_bytes cur c h : Forall label_ok (Split (cur +:+ String c h) ".") ->
  sforall name_byte cur = true -> c <> "."%char ->
  exists p, label_ok (cur +:+ String c p).
Proof.
  intros Hf Hcur Hc. pose proof (Split_nonempty h ".") as Hne. destruct (Split h ".") as [|p ps] eqn:E; [done|].
  exists p. rewrite (Split_prefix _ _ _ (String c p) ps) in Hf; [by apply Forall_cons in Hf as [? _]|by apply name_byte_without|].
  cbn [Split]. apply Ascii.eqb_neq in Hc as ->. by rewrite E.
Qed.

Lemma dns_name_loop_spec h cur prev label : reading cur prev label ->
  dns_name_loop prev label h = true <-> Forall label_ok (Split (cur +:+ h) ".").
Proof.
  revert cur prev label. induction h as [|c h IH]; intros cur prev label Hr; cbn [dns_name_loop].
  - rewrite sapp_nil_r, Split_piece by (apply name_byte_without, Hr). rewrite Forall_singleton.
    symmetry. by apply reading_label_ok.
  - destruct (Ascii.eqb_spec c ".") as [->|Hc].
    { rewrite Split_app, Split_piece by (apply name_byte_without, Hr). cbn [app]. rewrite Forall_cons.
      rewrite (reading_label_ok _ _ _ Hr), <- negb_orb. destruct (_ || _); [naive_solver|].
      rewrite (IH "" "."%char 0); [naive_solver|]. constructor; [done|done|done|lia]. }
    destruct (is_letter_or_digit c || (Ascii.eqb c "-" && negb (label =? 0))) eqn:E.
    + assert (name_byte c = true /\ (c = "-"%char -> label <> 0)) as [Hn Hd].
      { unfold name_byte. apply orb_true_iff in E as [E|E].
        - rewrite E. split; [done|]. intros ->. discriminate E.
        - apply andb_true_iff in E as [-> E%negb_true_iff%Z.eqb_neq]. by rewrite orb_true_r. }
      destruct (Z.gtb_spec (label + 1) 63) as [Hg|Hg].
      * split; [done|]. intros Hf. apply first_label_bytes in Hf as (p & [[_ Hl] _ _ _]); [|apply Hr|done].
        destruct Hr as [[-> _] _ _ _]. unfold slen in *. rewrite slength_app in Hl. cbn [String.length] in Hl. lia.
      * rewrite (IH (cur +:+ String c "")) by (by apply (reading_step _ prev)). by rewrite sapp_assoc.
    + split; [done|]. intros Hf. apply orb_false_iff in E as [E1 E2].
      apply first_label_bytes in Hf as (p & [_ Hb Hh _]); [|apply Hr|done].
      rewrite sforall_app, andb_true_iff in Hb. destruct Hb as [_ Hb]. cbn [sforall] in Hb.
      apply andb_true_iff in Hb as [Hb _]. unfold name_byte in Hb. rewrite E1 in Hb. simpl in Hb.
      rewrite Hb in E2. apply negb_false_iff, Z.eqb_eq in E2. destruct Hr as [[Hl _] _ _ _].
      apply Ascii.eqb_eq in Hb as ->. destruct cur; [by destruct Hh|]. unfold slen in Hl. simpl in Hl. lia.
Qed.

(** C33: The byte loop of validDNSName accepts a string exactly when it is at
    most 253 bytes and every dot-separated label is 1 to 63 letters, digits
    and dashes with no dash at either end. *)
Theorem validDNSName_spec h :
  validDNSName h = true <-> slen h <= 253 /\ Forall label_ok (Split h ".").
Proof.
  unfold validDNSName. destruct (Z.gtb_spec (slen h) 253); [split; [done|lia]|].
  rewrite (dns_name_loop_spec h "" zero_byte 0); [naive_solver|]. constructor; [done|done|done|lia].
Qed.

(** ** Validation *)
Definition host_ok (host : string) : Prop :=
  is_Some (ParseAddr host) \/ slen host <= 253 /\ Forall label_ok (Split host ".").
Record host_port_ok (endpoint host port : string) (n : Z) : Prop := {
  hp_split : SplitHostPort endpoint = Some (host, port);
  hp_host : host <> "" /\ host_ok host;
  hp_port : ParseUint port 65535 = Some n /\ 1 <= n <= 65535 }.

Lemma parse_digits_range max s n m : 0 <= n <= max -> parse_digits max n s = Some m -> n <= m <= max.
Proof.
  revert n. induction s as [|c s IH]; intros n Hn; cbn [parse_digits]; [intros [= <-]; lia|].
  destruct (is_digit c) eqn:Hd; [|done]. destruct (Z.gtb_spec (n * 10 + (Z_of_byte c - 48)) max); [done|].
  unfold is_digit in Hd. rewrite andb_true_iff, !Z.leb_le in Hd. intros Hm. apply IH in Hm; lia.
Qed.
Lemma ParseUint_range s max n : 0 <= max -> ParseUint s max = Some n -> 0 <= n <= max.
Proof.
  unfold ParseUint. destruct (String.eqb s ""); [done|]. intros Hm Hp. eapply parse_digits_range in Hp; lia.
Qed.

Lemma validateHostPort_None endpoint :
  validateHostPort endpoint = None <-> exists host port n, host_port_ok endpoint host port n.
Proof.
  unfold validateHostPort. destruct (SplitHostPort endpoint) as [[host port]|] eqn:Es.
  2: { split; [done|]. intros (? & ? & ? & [Hs _ _]). congruence. }
  rewrite !andthen_None, !failif_None, String.eqb_neq. split.
  - intros (Hne & Hh & Hp). destruct (ParseUint port 65535) as [n|] eqn:En; [|done]. apply Z.eqb_neq in Hp.
    exists host, port, n. constructor; [done| |].
    + split; [done|]. unfold host_ok. destruct (ParseAddr host); [left; eauto|right].
      by apply validDNSName_spec, negb_false_iff.
    + split; [done|]. apply ParseUint_range in En; lia.
  - intros (h & p & n & [Hs [Hne Hh] [Hp Hn]]). rewrite Es in Hs. injection Hs as <- <-. rewrite Hp.
    split; [done|]. split; [|apply Z.eqb_neq; lia]. destruct Hh as [[a ->]|Hh]; [done|].
    destruct (ParseAddr host); [done|]. by apply negb_false_iff, validDNSName_spec.
Qed.

(** The link-local rule: an endpoint that is a link-local IPv4 address is one
    of the derivable link addresses, on a link that allows them. *)
Definition link_local_ok (endpoint : string) (allowReserved : bool) : Prop :=
  forall host port a, SplitHostPort endpoint = Some (host, port) -> ParseAddr host = Some a ->
    Is4 (Unmap a) = true -> IsLinkLocalUnicast a = true -> IsLinkAddress a = true /\ allowReserved = true.

Lemma Unmap_idem a : Unmap (Unmap a) = Unmap a.
Proof.
  assert (Unmap a = a \/ Is4 (Unmap a) = true) as [E|H]; [|by rewrite !E|by destruct (Unmap a)].
  destruct a as [| |bs z]; [by left|by left|]. cbn [Unmap]. case_bool_decide; [|by left].
  destruct (drop 12 bs) as [|b0 [|b1 [|b2 [|b3 [|b4 bs']]]]]; (left; reflexivity) || (right; reflexivity).
Qed.
Lemma IsLinkLocalUnicast_Unmap a : IsLinkLocalUnicast (Unmap a) = IsLinkLocalUnicast a.
Proof. unfold IsLinkLocalUnicast. by rewrite Unmap_idem. Qed.
(** The two packages' copies of the reserved-half test agree. *)
Lemma reserved_half_is_link_address a : Is4 (Unmap a) = true -> inReservedLinkHalf (Unmap a) = IsLinkAddress a.
Proof. intros H4. unfold IsLinkAddress, inReservedLinkHalf, As4. by rewrite H4. Qed.

Lemma validateLinkLocal_None endpoint allow : is_Some (SplitHostPort endpoint) ->
  validateLinkLocal endpoint allow = None <-> link_local_ok endpoint allow.
Proof.
  intros [[host port] Es]. unfold validateLinkLocal, link_local_ok. rewrite Es.
  destruct (ParseAddr host) as [a|] eqn:Ea; [|split; [intros _; congruence|done]].
  rewrite IsLinkLocalUnicast_Unmap.
  destruct (Is4 (Unmap a)) eqn:E4; cbn [negb orb]; [|split; [intros _; congruence|done]].
  destruct (IsLinkLocalUnicast a) eqn:El; cbn [negb orb]; [|split; [intros _; congruence|done]].
  rewrite andthen_None, !failif_None, !negb_false_iff, reserved_half_is_link_address by done. split.
  - intros H h p a' [= <- <-]. rewrite Ea. by intros [= <-].
  - intros H. by apply (H host port a).
Qed.

Record candidate_ok (c : EndpointCandidate) : Prop := {
  candidate_link : c.(ec_Link) = EndpointLinkUnderlay \/ c.(ec_Link) = EndpointLinkDirect;
  candidate_address : exists host port n, host_port_ok c.(ec_Address) host port n;
  candidate_link_local : link_local_ok c.(ec_Address) (String.eqb c.(ec_Link) EndpointLinkDirect) }.

Lemma host_port_nonempty e host port n : host_port_ok e host port n -> e <> "".
Proof. intros [Hs _ _] ->. discriminate Hs. Qed.

Lemma EndpointCandidate_validate_None c : EndpointCandidate_validate c = None <-> candidate_ok c.
Proof.
  unfold EndpointCandidate_validate.
  rewrite !andthen_None, !failif_None, negb_false_iff, orb_true_iff, !String.eqb_eq, String.eqb_neq, validateHostPort_None.
  split.
  - intros (Hl & _ & Hh & Hv). constructor; [done|done|]. apply validateLinkLocal_None; [|done].
    destruct Hh as (? & ? & ? & [Hs _ _]). eauto.
  - intros [Hl Hh Hv]. split; [done|]. destruct Hh as (h & p & n & Hok).
    split; [by eapply host_port_nonempty|]. split; [eauto|]. apply validateLinkLocal_None; [|done].
    destruct Hok as [Hs _ _]. eauto.
Qed.

Record mesh_peer_ok (s : MeshPeerSpec) : Prop := {
  peer_version : s.(mp_SchemaVersion) <> 0;
  peer_identity : s.(mp_NodeName) <> "" /\ s.(mp_PublicKey) <> "";
  peer_endpoint : exists host port n, host_port_ok s.(mp_Endpoint) host port n;
  peer_link_local : link_local_ok s.(mp_Endpoint) true;
  peer_candidates : Forall candidate_ok (default [] s.(mp_Endpoints));
  peer_routes : s.(mp_PodCIDR) <> "" /\ default [] s.(mp_AllowedIPs) <> [] }.

Lemma MeshPeerSpec_Validate_None s : MeshPeerSpec_Validate s = None <-> mesh_peer_ok s.
Proof.
  unfold MeshPeerSpec_Validate.
  rewrite !andthen_None, !failif_None, !wrapc_None, !String.eqb_neq, Z.eqb_neq, validateHostPort_None.
  rewrite (each_None _ candidate_ok) by (intros ? ?; by rewrite wrapc_None, EndpointCandidate_validate_None).
  rewrite <- (not_true_iff_false (len _ =? 0)), len_zero. split.
  - intros (Hv & Hn & Hk & _ & Hh & Hl & Hc & Hp & Ha). constructor; try done.
    apply validateLinkLocal_None; [|done]. destruct Hh as (? & ? & ? & [Hs _ _]). eauto.
  - intros [Hv [Hn Hk] (h & p & n & Hok) Hl Hc [Hp Ha]].
    split; [done|]. split; [done|]. split; [done|]. split; [by eapply host_port_nonempty|]. split; [eauto|].
    split; [|done]. apply validateLinkLocal_None; [|done]. destruct Hok as [Hs _ _]. eauto.
Qed.

Lemma MeshPeerSpec_Validate_wraps s : wraps "ErrInvalid" (MeshPeerSpec_Validate s).
Proof. unfold MeshPeerSpec_Validate. auto 20 with wraps. Qed.

(** A mesh peer is accepted exactly when it is versioned, identified and
    routed, its Endpoint is a host:port and every candidate a host:port on a
    known link, and any of them that is an IPv4 link-local address (in mapped
    form too) is a derivable link address, which a candidate may be on the
    direct link only; a refusal wraps ErrInvalid. *)
Theorem MeshPeerSpec_Validate_spec s :
  (MeshPeerSpec_Validate s = None <-> mesh_peer_ok s) /\ wraps "ErrInvalid" (MeshPeerSpec_Validate s).
Proof. split; [apply MeshPeerSpec_Validate_None|apply MeshPeerSpec_Validate_wraps]. Qed.

(** ** Endpoints made of a plain host and a port *)
Lemma IndexByte_None s c : without c s = true -> IndexByte s c = None.
Proof.
  unfold without. induction s as [|b s IH]; [done|]. cbn [sforall IndexByte].
  intros [->%negb_true_iff Hs]%andb_true_iff. by rewrite IH.
Qed.
Lemma LastIndexByte_None s c : without c s = true -> LastIndexByte s c = None.
Proof.
  unfold without. induction s as [|b s IH]; [done|]. cbn [sforall LastIndexByte].
  intros [Hb%negb_true_iff Hs]%andb_true_iff. by rewrite IH, Hb.
Qed.
Lemma LastIndexByte_sep a b c : without c b = true -> LastIndexByte (a +:+ String c b) c = Some (String.length a).
Proof.
  intros Hb. induction a as [|d a IH].
  - change ("" +:+ String c b) with (String c b). cbn [LastIndexByte]. by rewrite LastIndexByte_None, Ascii.eqb_refl.
  - change (String d a +:+ String c b) with (String d (a +:+ String c b)). cbn [LastIndexByte]. by rewrite IH.
Qed.
Lemma upto_app a b : upto (String.length a) (a +:+ b) = a.
Proof. unfold upto. induction a as [|c a IH]; [by destruct b|]. simpl. by rewrite IH. Qed.
Lemma from_app a c b : from (S (String.length a)) (a +:+ String c b) = b.
Proof. induction a as [|d a IH]; [done|]. exact IH. Qed.

Definition plain (s : string) : bool := sforall (fun c => negb (Ascii.eqb c ":" || Ascii.eqb c "[" || Ascii.eqb c "]")) s.
Lemma plain_without s : plain s = true <-> without ":" s = true /\ without "[" s = true /\ without "]" s = true.
Proof.
  unfold plain, without. rewrite <- !sforall_and. split; apply sforall_impl; intros c; rewrite !negb_orb;
    rewrite !andb_true_iff; tauto.
Qed.
Lemma SplitHostPort_plain host port : plain host = true -> plain port = true ->
  SplitHostPort (host +:+ String ":" port) = Some (host, port).
Proof.
  intros (Hh1 & Hh2 & Hh3)%plain_without (Hp1 & Hp2 & Hp3)%plain_without. unfold SplitHostPort.
  rewrite LastIndexByte_sep, upto_app by done.
  assert (Hw : forall c, Ascii.eqb ":" c = false -> without c host = true -> without c port = true ->
    IndexByte (from 0 (host +:+ String ":" port)) c = None).
  { intros c Hc Ha Hb. apply IndexByte_None. cbn [from]. unfold without in *. rewrite sforall_app, Ha. cbn [sforall].
    by rewrite Hc, Hb. }
  assert (HasPrefix (host +:+ String ":" port) "[" = false) as ->.
  { destruct host as [|d host]; [done|]. apply andb_true_iff in Hh2 as [Hd _]. apply negb_true_iff in Hd.
    change (String d host +:+ String ":" port) with (String d (host +:+ String ":" port)). cbn [HasPrefix].
    by rewrite Ascii.eqb_sym, Hd || rewrite Hd. }
  rewrite IndexByte_None, !Hw, from_app by done. done.
Qed.
Lemma parse_digits_plain max s n m : parse_digits max n s = Some m -> plain s = true.
Proof.
  revert n. induction s as [|c s IH]; [done|]. intros n. cbn [parse_digits]. destruct (is_digit c) eqn:Hd; [|done].
  case_match; [done|]. intros Hs%IH. unfold plain in *. cbn [sforall]. rewrite Hs, andb_true_r.
  apply negb_true_iff. rewrite !orb_false_iff, !Ascii.eqb_neq. repeat split; intros ->; discriminate Hd.
Qed.

(** ** Derived link addresses in the mesh *)
Definition addr_string (a : Addr) : string :=
  match a with Addr4 b0 b1 b2 b3 => Addr4_String b0 b1 b2 b3 | _ => "" end.
Definition link_host_ok (a : Addr) : bool :=
  let host := addr_string a in
  plain host && bool_decide (ParseAddr host = Some a) && Is4 (Unmap a) && IsLinkLocalUnicast a && IsLinkAddress a.
Lemma link_hosts_ok :
  forallb (fun idx => forallb (fun p => match LinkIP idx p with Ok a => link_host_ok a | Err _ => false end)
    (seqZ 0 8)) (seqZ 0 62) = true.
Proof. vm_compute. reflexivity. Qed.
Lemma LinkIP_host idx p a : LinkIP idx p = Ok a -> link_host_ok a = true.
Proof.
  intros Ha. destruct (proj1 (LinkIP_Ok idx p a) Ha) as [Hpos _]. unfold link_position, MaxLinkNodeIndex, MaxPortOrdinal in Hpos.
  assert (Hidx : In idx (seqZ 0 62)) by (apply list_elem_of_In, elem_of_seqZ; lia).
  assert (Hp : In p (seqZ 0 8)) by (apply list_elem_of_In, elem_of_seqZ; lia).
  pose proof link_hosts_ok as H. rewrite forallb_forall in H. specialize (H idx Hidx).
  rewrite forallb_forall in H. specialize (H p Hp). by rewrite Ha in H.
Qed.

Lemma link_endpoint idx p a port n : LinkIP idx p = Ok a -> ParseUint port 65535 = Some n -> n <> 0 ->
  let hp := addr_string a +:+ String ":" port in
  SplitHostPort hp = Some (addr_string a, port) /\ ParseAddr (addr_string a) = Some a /\
  Is4 (Unmap a) = true /\ IsLinkLocalUnicast a = true /\ IsLinkAddress a = true /\
  host_port_ok hp (addr_string a) port n.
Proof.
  intros Ha Hn H0 hp. pose proof (LinkIP_host idx p a Ha) as Hok. unfold link_host_ok in Hok.
  rewrite !andb_true_iff, bool_decide_eq_true in Hok. destruct Hok as [[[[Hpl Hpa] H4] Hl] Hi].
  assert (Hpp : plain port = true).
  { unfold ParseUint in Hn. destruct (String.eqb port ""); [done|]. by eapply parse_digits_plain. }
  assert (Hs : SplitHostPort hp = Some (addr_string a, port)) by (by apply SplitHostPort_plain).
  split; [exact Hs|]. split; [exact Hpa|]. split; [exact H4|]. split; [exact Hl|]. split; [exact Hi|].
  constructor; [exact Hs| |].
  - split; [|left; eauto]. intros E. rewrite E in Hpa. discriminate Hpa.
  - split; [exact Hn|]. apply ParseUint_range in Hn; lia.
Qed.

(** Every address the direct-link derivation yields, with any usable port,
    is accepted as a peer's Endpoint and as a direct candidate, and is refused
    as an underlay candidate. *)
Theorem link_addresses_in_mesh idx p a port n :
  LinkIP idx p = Ok a -> ParseUint port 65535 = Some n -> n <> 0 ->
  let hp := addr_string a +:+ String ":" port in
  EndpointCandidate_validate (mkEndpointCandidate hp EndpointLinkDirect) = None /\
  EndpointCandidate_validate (mkEndpointCandidate hp EndpointLinkUnderlay) <> None /\
  (forall s, MeshPeerSpec_Validate s = None ->
     MeshPeerSpec_Validate (mkMeshPeerSpec s.(mp_SchemaVersion) s.(mp_NodeName) s.(mp_PublicKey) hp
       s.(mp_Endpoints) s.(mp_PodCIDR) s.(mp_AllowedIPs) s.(mp_MeshIP) s.(mp_PersistentKeepaliveSeconds)) = None).
Proof.
  intros Ha Hn H0 hp. destruct (link_endpoint idx p a port n Ha Hn H0) as (Hs & Hp & H4 & Hl & Hi & Hok).
  assert (Hll : link_local_ok hp true).
  { intros h q a' Hs' Ha'. unfold hp in Hs'. rewrite Hs in Hs'. injection Hs' as <- <-. rewrite Hp in Ha'.
    injection Ha' as <-. done. }
  split; [|split].
  - apply EndpointCandidate_validate_None. constructor; [by right|by exists (addr_string a), port, n|exact Hll].
  - intros [_ _ Hd]%EndpointCandidate_validate_None.
    destruct (Hd _ _ _ Hs Hp H4 Hl) as [_ Hd']. discriminate Hd'.
  - intros s [Hv Hid _ _ Hc Hr]%MeshPeerSpec_Validate_None. apply MeshPeerSpec_Validate_None.
    constructor; [exact Hv|exact Hid|by exists (addr_string a), port, n|exact Hll|exact Hc|exact Hr].
Qed.
Lemma link_addresses_in_mesh_witness :
  LinkIP 31 2 = Ok (Addr4 169 254 255 3) /\
  EndpointCandidate_validate (mkEndpointCandidate "169.254.255.3:51820" EndpointLinkDirect) = None.
Proof.
  split; [reflexivity|].
  apply (link_addresses_in_mesh 31 2 (Addr4 169 254 255 3) "51820" 51820); [reflexivity|reflexivity|discriminate].
Defined.

(** ** Defaults and enrolment *)
Record enroll_request_ok (r : MeshEnrollRequest) : Prop := {
  request_version : r.(mq_SchemaVersion) <> 0;
  request_identity : r.(mq_NodeName) <> "" /\ r.(mq_PublicKey) <> "";
  request_endpoint : exists host port n, host_port_ok r.(mq_Endpoint) host port n }.

Lemma MeshEnrollRequest_Validate_None r : MeshEnrollRequest_Validate r = None <-> enroll_request_ok r.
Proof.
  unfold MeshEnrollRequest_Validate.
  rewrite !andthen_None, !failif_None, wrapc_None, !String.eqb_neq, Z.eqb_neq, validateHostPort_None. split.
  - intros (? & ? & ? & _ & ?). by constructor.
  - intros [? [? ?] Hh]. split; [done|]. split; [done|]. split; [done|]. split; [|done].
    destruct Hh as (? & ? & ? & Hok). by eapply host_port_nonempty.
Qed.

(** The peer a server publishes for an accepted request, with the podCIDR
    it assigned, is an accepted mesh peer exactly when the request's endpoint
    meets the link-local rule, which the request itself does not check: both
    messages agree on the host:port syntax, and on nothing else. *)
Theorem enrolled_peer_validates r cidr :
  MeshEnrollRequest_Validate (MeshEnrollRequest_WithDefaults r) = None -> cidr <> "" ->
  let peer := MeshPeerSpec_WithDefaults
    (mkMeshPeerSpec 0 r.(mq_NodeName) r.(mq_PublicKey) r.(mq_Endpoint) None cidr (Some [cidr]) "" 0) in
  MeshPeerSpec_Validate peer = None <-> link_local_ok r.(mq_Endpoint) true.
Proof.
  intros [_ Hid Hh]%MeshEnrollRequest_Validate_None Hc peer. rewrite MeshPeerSpec_Validate_None. split.
  - intros [_ _ _ Hl _ _]. exact Hl.
  - intros Hl. constructor; [done|exact Hid|exact Hh|exact Hl|constructor|by split].
Qed.
Lemma enrolled_peer_validates_witness :
  MeshPeerSpec_Validate (MeshPeerSpec_WithDefaults
    (mkMeshPeerSpec 0 "n" "k" "169.254.1.1:51820" None "100.64.1.0/24" (Some ["100.64.1.0/24"]) "" 0)) = None <->
  link_local_ok "169.254.1.1:51820" true.
Proof.
  apply (enrolled_peer_validates (mkMeshEnrollRequest 0 "n" "k" "169.254.1.1:51820" "") "100.64.1.0/24");
    [vm_compute; reflexivity|discriminate].
Defined.

(** An endpoint the enrolment request accepts and the mesh peer refuses: the
    strings the two sides of the contract reject differ. *)
Theorem enroll_and_peer_disagree :
  let ep := "169.254.1.1:51820" in
  MeshEnrollRequest_Validate (mkMeshEnrollRequest 1 "n" "k" ep "") = None /\
  MeshPeerSpec_Validate (mkMeshPeerSpec 1 "n" "k" ep None "100.64.1.0/24" (Some ["100.64.1.0/24"]) "" 25) <> None.
Proof. split; [vm_compute; reflexivity|vm_compute; discriminate]. Qed.

(** Defaults are applied once, fill exactly the zero fields, and make the
    version check pass: a defaulted message is refused only for a field the
    caller left out. *)
Theorem mesh_defaults_spec s q r :
  MeshPeerSpec_WithDefaults (MeshPeerSpec_WithDefaults s) = MeshPeerSpec_WithDefaults s /\
  (MeshPeerSpec_Validate s = None -> MeshPeerSpec_Validate (MeshPeerSpec_WithDefaults s) = None) /\
  (MeshEnrollRequest_Validate (MeshEnrollRequest_WithDefaults q) = None <->
     q.(mq_NodeName) <> "" /\ q.(mq_PublicKey) <> "" /\ validateHostPort q.(mq_Endpoint) = None) /\
  (MeshEnrollResponse_Validate (MeshEnrollResponse_WithDefaults r) = None <->
     r.(mr_NodeName) <> "" /\ r.(mr_PodCIDR) <> "") /\
  (MeshEnrollResponse_WithDefaults r).(mr_Peers) = r.(mr_Peers).
Proof.
  assert (Hz : forall z d, d <> 0 -> (if z =? 0 then d else z) <> 0).
  { intros z d Hd. by destruct (Z.eqb_spec z 0). }
  split; [|split; [|split; [|split]]].
  - unfold MeshPeerSpec_WithDefaults. cbn.
    destruct (Z.eqb_spec (mp_SchemaVersion s) 0) as [|E%Z.eqb_neq]; [|rewrite E];
      destruct (Z.eqb_spec (mp_PersistentKeepaliveSeconds s) 0) as [|E'%Z.eqb_neq]; rewrite ?E'; reflexivity.
  - rewrite !MeshPeerSpec_Validate_None. intros [Hv Hid Hh Hl Hc Hr].
    constructor; [by apply Hz|exact Hid|exact Hh|exact Hl|exact Hc|exact Hr].
  - rewrite MeshEnrollRequest_Validate_None, validateHostPort_None. split.
    + intros [_ [? ?] Hh]. done.
    + intros (? & ? & Hh). constructor; [by apply Hz|done|exact Hh].
  - unfold MeshEnrollResponse_Validate. rewrite !andthen_None, !failif_None, !String.eqb_neq, Z.eqb_neq. cbn.
    specialize (Hz (mr_SchemaVersion r) MeshEnrollSchemaVersion ltac:(done)). tauto.
  - reflexivity.
Qed.
