(* ===== verification/QuarantineText.v ===== *)
(** * Text handling of the quarantine registry (src/hack/lib/testresults.go)

    The string and regexp helpers of the test-result evaluator: words and
    comments of a registry line, test ids, dates, harness lines, race reports
    and trust surfaces.  A capturing regexp whose groups are separated by bytes
    the groups exclude is written as the cuts it makes. *)
From S2P Require Import Prelude GoLib GoStrings GoRunes NetIP.

(** ** Package strings *)
Fixpoint Contains (s sub : string) : bool :=
  HasPrefix s sub || match s with "" => false | String _ s' => Contains s' sub end.
(** [strings.Cut]: the text before and after the first [sep]. *)
Fixpoint Cut (s sep : string) : option (string * string) :=
  if HasPrefix s sep then Some ("", from (String.length sep) s)
  else match s with "" => None | String c s' => prod_map (String c) id <$> Cut s' sep end.
Fixpoint take_while (P : ascii -> bool) (s : string) : string :=
  match s with "" => "" | String c s' => if P c then String c (take_while P s') else "" end.
Fixpoint drop_while (P : ascii -> bool) (s : string) : string :=
  match s with "" => "" | String c s' => if P c then drop_while P s' else s end.
Definition TrimSuffix (s suf : string) : string :=
  if HasSuffix s suf then upto (String.length s - String.length suf) s else s.
(** [strings.ReplaceAll(s, "\r\n", "\n")]. *)
Fixpoint crlf (s : string) : string :=
  match s with
  | "" => ""
  | String c s' =>
      match s' with
      | String d s'' =>
          if Ascii.eqb c (ascii_of_nat 13) && Ascii.eqb d (ascii_of_nat 10) then String d (crlf s'') else String c (crlf s')
      | "" => String c ""
      end
  end.
Definition newline : ascii := ascii_of_nat 10.

(** ** Regular expressions *)
(** [\s] is [\t\n\f\r ]. *)
Definition re_space (c : ascii) : bool := existsb (Z.eqb (Z_of_byte c)) [9; 10; 12; 13; 32].
Definition re_nonspace (c : ascii) : bool := negb (re_space c).
(** [spaceRE.ReplaceAllString(s, " ")]; [in_run] holds after a replaced byte. *)
Fixpoint collapse (in_run : bool) (s : string) : string :=
  match s with
  | "" => ""
  | String c s' =>
      if re_space c then if in_run then collapse true s' else String " " (collapse true s')
      else String c (collapse false s')
  end.
Definition durationRE : Regexp.re :=
  let char c := Regexp.Class (Ascii.eqb c) in
  let digits := Regexp.Seq (Regexp.Class is_digit) (Regexp.Star (Regexp.Class is_digit)) in
  Regexp.Seq (char "("%char) (Regexp.Seq digits
    (Regexp.Seq (Regexp.Opt (Regexp.Seq (char "."%char) digits))
      (Regexp.Seq (char "s"%char) (Regexp.Seq (Regexp.Opt (char ")"%char)) (Regexp.Star (Regexp.Class re_space)))))).
(** [durationRE.ReplaceAllString(sig, "(")]: the expression ends at the end of
    the text, so there is one match at most, the leftmost. *)
Fixpoint drop_duration (s : string) : string :=
  match s with
  | "" => ""
  | String c s' => if Regexp.MatchString durationRE s then "(" else String c (drop_duration s')
  end.
(** [framingRE.FindStringSubmatch(l)]: its first group. *)
Definition framing (l : string) : option string :=
  let l := drop_while re_space l in
  let named (rest : string) :=
    if negb (String.eqb rest "") && negb (String.eqb (drop_while re_space rest) rest)
       && negb (String.eqb (take_while re_nonspace (drop_while re_space rest)) "")
    then Some (take_while re_nonspace (drop_while re_space rest)) else None in
  match find (HasPrefix l)
          ["=== RUN"; "=== PAUSE"; "=== CONT"; "=== NAME"; "--- PASS:"; "--- FAIL:"; "--- SKIP:"] with
  | Some k => named (from (String.length k) l)
  | None => None
  end.

Definition re_word (c : ascii) : bool := is_lower c || is_upper c || is_digit c || Ascii.eqb c "_".
Definition re_path (c : ascii) : bool :=
  is_lower c || is_upper c || is_digit c || Ascii.eqb c "." || Ascii.eqb c "_" || Ascii.eqb c "~" || Ascii.eqb c "-".
Definition re_ident (s : string) : bool :=
  match s with "" => false | String c s' => negb (is_digit c) && re_word c && sforall re_word s' end.
(** [goIDRE]: the groups 1, and 2 with 3.  The first group holds no colon and
    the second no slash, so the cuts are the only ones possible. *)
Definition goID (test : string) : option (string * string) :=
  match Cut test "::" with
  | None => None
  | Some (pkg, rest) =>
      let name := take_while (fun c => negb (Ascii.eqb c "/")) rest in
      let sub := drop_while (fun c => negb (Ascii.eqb c "/")) rest in
      if forallb (fun seg => negb (String.eqb seg "") && sforall re_path seg) (Split pkg "/")
         && existsb (HasPrefix name) ["Test"; "Example"; "Fuzz"] && sforall re_word name
         && (String.eqb sub "" || negb (String.eqb (from 1 sub) "") && sforall re_nonspace (from 1 sub))
      then Some (pkg, name +:+ sub) else None
  end.
(** [swiftIDRE]. *)
Definition swiftID (test : string) : option (string * string) :=
  match Cut test "/" with
  | None => None
  | Some (target, rest) =>
      match Cut rest "/" with
      | None => None
      | Some (suite, t) =>
          if re_ident target && re_ident suite && negb (String.eqb t "") && sforall re_nonspace t
          then Some (target, suite +:+ "/" +:+ t) else None
      end
  end.
Definition splitTestID (test : string) : option (string * string) :=
  match goID test with
  | Some r => Some r
  | None => if Contains test "::" then None else swiftID test
  end.
(** [keyRE.FindStringSubmatch(t)]. *)
Definition keyRE (t : string) : option (string * string) :=
  match Cut t "=" with
  | Some (k, v) => if negb (String.eqb k "") && sforall is_lower k then Some (k, v) else None
  | None => None
  end.

(** ** Race reports, harness lines, trust surfaces *)
Definition raceMarkers : list string :=
  ["WARNING: DATA RACE"; "race detected during execution of test"; "ThreadSanitizer"; "AddressSanitizer";
   "UndefinedBehaviorSanitizer"; "LeakSanitizer"; "MemorySanitizer"].
Definition raceMarker (text : string) : string := default "" (find (Contains text) raceMarkers).

Definition harnessReason (test name sig : string) : string :=
  let norm s := TrimSpace (collapse false s) in
  let s := norm (drop_duration sig) in
  if String.eqb s "" then ""
  else if Contains test s || Contains test (norm sig) then "the test id"
  else match find (fun h => Contains h s) ["=== RUN " +:+ name; "--- FAIL: " +:+ name +:+ " ("] with
       | Some h => "the harness line " +:+ TrimSuffix h " ("
       | None => ""
       end.

Definition protectedPathSegments : list (string * string) := [("pkg", "certs"); ("pkg", "bootstrap"); ("pkg", "rbac")].
Definition protectedPackages : list string := ["k3sm.io/runtimed/pkg/image"].
Definition protectedPackagePrefixes : list string := ["K3smInstall"].
Definition protectedNameKeywords : list string := ["signaturepolicy"; "sigpolicy"; "cosign"; "rbac"; "k3sminstall"].

(** The inner loop over consecutive segments. *)
Fixpoint adjacent (a b : string) (segs : list string) : bool :=
  match segs with
  | [] => false
  | x :: segs' =>
      match segs' with y :: _ => String.eqb x a && String.eqb y b | [] => false end || adjacent a b segs'
  end.
(** The %q of an ASCII word. *)
Definition quoted (s : string) : string := String (ascii_of_nat 34) (s +:+ String (ascii_of_nat 34) "").
Definition protectedReason (pkg name : string) : string :=
  let segs := Split pkg "/" in
  match find (fun p => adjacent p.1 p.2 segs) protectedPathSegments with
  | Some p => "trust surface " +:+ p.1 +:+ "/" +:+ p.2
  | None =>
      match find (fun p => String.eqb pkg p || HasPrefix pkg (p +:+ "/")) protectedPackages with
      | Some p => "trust surface " +:+ p +:+ " (signature policy)"
      | None =>
          match find (HasPrefix pkg) protectedPackagePrefixes with
          | Some p => "trust surface " +:+ p
          | None =>
              match find (Contains (ToLower_runes name)) protectedNameKeywords with
              | Some k => "trust surface: test name names " +:+ quoted k
              | None => ""
              end
          end
      end
  end.

(** The first line of a parent's output that is not blank, not a line of a
    subtest and not framing of the parent or of a subtest. *)
Definition ownFailure (name output : string) (kidOutputs : list string) : string :=
  let kidLines := concat (map (fun o => Split o newline) kidOutputs) in
  default "" (find (fun l =>
    negb (String.eqb (TrimSpace l) "" || existsb (String.eqb l) kidLines ||
          match framing l with
          | Some m => String.eqb m name || HasPrefix m (name +:+ "/")
          | None => false
          end)) (Split output newline)).

(** ** Registry lines *)
Definition quote_char (c : ascii) : bool := (Z_of_byte c =? 34) || (Z_of_byte c =? 39).
Definition comment_space (c : ascii) : bool := existsb (Z.eqb (Z_of_byte c)) [32; 9; 13; 10; 11; 12].
(** The loop of [stripComment] from a position on: the kept text.  Every
    character it looks for is ASCII, so runes and bytes agree. *)
Fixpoint strip_from (quote : option ascii) (prevSpace : bool) (line : string) : string :=
  match line with
  | "" => ""
  | String ch rest =>
      match quote with
      | Some q => String ch (strip_from (if Ascii.eqb ch q then None else quote) (comment_space ch) rest)
      | None =>
          if quote_char ch then String ch (strip_from (Some ch) (comment_space ch) rest)
          else if Ascii.eqb ch "#" && prevSpace then ""
          else String ch (strip_from None (comment_space ch) rest)
      end
  end.
Definition stripComment (line : string) : string := strip_from None true line.

(** The runes up to the closing single quote, and those after it. *)
Fixpoint single_quoted (rs : list Z) : option (list Z * list Z) :=
  match rs with
  | [] => None
  | r :: rs' => if r =? 39 then Some ([], rs') else prod_map (cons r) id <$> single_quoted rs'
  end.
(** The same for a double quote, with its two escapes resolved. *)
Fixpoint double_quoted (rs : list Z) : option (list Z * list Z) :=
  match rs with
  | [] => None
  | r :: rs' =>
      if r =? 34 then Some ([], rs')
      else match rs' with
           | r' :: rs'' =>
               if (r =? 92) && ((r' =? 34) || (r' =? 92)) then prod_map (cons r') id <$> double_quoted rs''
               else prod_map (cons r) id <$> double_quoted rs'
           | [] => None
           end
  end.
Definition noEscaped := ErrNew "no escaped character".
Definition noClosing := ErrNew "no closing quotation".
Definition flush (words : list string) (cur : list Z) (inWord : bool) : list string :=
  if inWord then words ++ [encode_runes cur] else words.
(** The loop of [shellSplit]; [None] is fuel running out, one unit per rune
    being enough. *)
Fixpoint shell_loop (fuel : nat) (words : list string) (cur : list Z) (inWord : bool) (rs : list Z)
    : option (res (list string)) :=
  match fuel with
  | O => None
  | S fuel =>
      match rs with
      | [] => Some (Ok (flush words cur inWord))
      | ch :: rs' =>
          if existsb (Z.eqb ch) [32; 9; 13; 10] then
            if inWord then shell_loop fuel (words ++ [encode_runes cur]) [] false rs'
            else shell_loop fuel words cur inWord rs'
          else if ch =? 92 then
            match rs' with
            | [] => Some (Err noEscaped)
            | c :: rs'' => shell_loop fuel words (cur ++ [c]) true rs''
            end
          else if ch =? 39 then
            match single_quoted rs' with
            | None => Some (Err noClosing)
            | Some (q, rs'') => shell_loop fuel words (cur ++ q) true rs''
            end
          else if ch =? 34 then
            match double_quoted rs' with
            | None => Some (Err noClosing)
            | Some (q, rs'') => shell_loop fuel words (cur ++ q) true rs''
            end
          else shell_loop fuel words (cur ++ [ch]) true rs'
      end
  end.
Definition shellSplit (s : string) : res (list string) :=
  default (Err (ErrNew "fuel")) (shell_loop (S (length (runes s))) [] [] false (runes s)).

(** ** Dates *)
Record date := mkdate { d_year : Z; d_month : Z; d_day : Z }.
Definition Before (a b : date) : bool :=
  (a.(d_year) <? b.(d_year)) ||
  ((a.(d_year) =? b.(d_year)) &&
   ((a.(d_month) <? b.(d_month)) || ((a.(d_month) =? b.(d_month)) && (a.(d_day) <? b.(d_day))))).
Definition is_leap (y : Z) : bool := (y mod 4 =? 0) && (negb (y mod 100 =? 0) || (y mod 400 =? 0)).
Definition days_in (m y : Z) : Z :=
  if m =? 2 then (if is_leap y then 29 else 28) else if existsb (Z.eqb m) [4; 6; 9; 11] then 30 else 31.
Definition digit (c : ascii) : Z := Z_of_byte c - 48.
Definition parseDate (s : string) : option date :=
  match s with
  | String y1 (String y2 (String y3 (String y4 (String h1 (String m1 (String m2 (String h2 (String d1 (String d2 ""))))))))) =>
      if forallb is_digit [y1; y2; y3; y4; m1; m2; d1; d2] && Ascii.eqb h1 "-" && Ascii.eqb h2 "-" then
        let y := digit y1 * 1000 + digit y2 * 100 + digit y3 * 10 + digit y4 in
        let m := digit m1 * 10 + digit m2 in
        let d := digit d1 * 10 + digit d2 in
        if between 1 12 m && between 1 (days_in m y) d then Some (mkdate y m d) else None
      else None
  | _ => None
  end.

(** ** Termination and words *)
Lemma single_quoted_shorter rs q rest : single_quoted rs = Some (q, rest) -> (length rest < length rs)%nat.
Proof.
  revert q. induction rs as [|r rs IH]; intros q; [done|]. cbn [single_quoted]. destruct (r =? 39).
  - intros [= <- <-]. simpl. lia.
  - destruct (single_quoted rs) as [[q' rest']|]; [|done]. intros [= <- <-]. specialize (IH q' eq_refl). unfold id. simpl. lia.
Qed.
Lemma double_quoted_shorter rs q rest : double_quoted rs = Some (q, rest) -> (length rest < length rs)%nat.
Proof.
  remember (length rs) as n eqn:Hn. revert rs q rest Hn. induction (lt_wf n) as [n _ IH]. intros rs q rest ->.
  destruct rs as [|r rs]; [done|]. cbn [double_quoted]. destruct (r =? 34).
  - intros [= <- <-]. simpl. lia.
  - destruct rs as [|r' rs]; [done|]. destruct ((r =? 92) && ((r' =? 34) || (r' =? 92))).
    + destruct (double_quoted rs) as [[q' rest']|] eqn:E; [|done]. intros [= <- <-].
      apply (IH (length rs)) in E; [unfold id; simpl; lia|simpl; lia|done].
    + destruct (double_quoted (r' :: rs)) as [[q' rest']|] eqn:E; [|done]. intros [= <- <-].
      apply (IH (length (r' :: rs))) in E; [unfold id; simpl in *; lia|simpl; lia|done].
Qed.

Lemma shell_loop_total fuel words cur inWord rs :
  (length rs < fuel)%nat -> is_Some (shell_loop fuel words cur inWord rs).
Proof.
  revert words cur inWord rs. induction fuel as [|fuel IH]; intros words cur inWord rs Hf; [lia|].
  cbn [shell_loop]. destruct rs as [|ch rs]; [eauto|]. simpl in Hf.
  destruct (existsb _ _); [destruct inWord; apply IH; lia|].
  destruct (ch =? 92). { destruct rs as [|c rs]; [eauto|]. simpl in Hf. apply IH. lia. }
  destruct (ch =? 39).
  { destruct (single_quoted rs) as [[q rest]|] eqn:E; [|eauto]. apply single_quoted_shorter in E. apply IH. lia. }
  destruct (ch =? 34).
  { destruct (double_quoted rs) as [[q rest]|] eqn:E; [|eauto]. apply double_quoted_shorter in E. apply IH. lia. }
  apply IH. lia.
Qed.

(** Once a word is under way, or one is finished, the result is not empty. *)
Lemma shell_loop_nonempty fuel words cur inWord rs ws : inWord = true \/ words <> [] ->
  shell_loop fuel words cur inWord rs = Some (Ok ws) -> ws <> [].
Proof.
  revert words cur inWord rs. induction fuel as [|fuel IH]; intros words cur inWord rs Hw; [done|].
  assert (Hsnoc : forall w : string, words ++ [w] <> []) by (intros w; by destruct words).
  cbn [shell_loop]. destruct rs as [|ch rs].
  { unfold flush. destruct inWord; intros [= <-]; [apply Hsnoc|naive_solver]. }
  destruct (existsb _ _); [destruct inWord; apply IH; naive_solver|].
  destruct (ch =? 92). { destruct rs; [done|]. apply IH. by left. }
  destruct (ch =? 39). { destruct (single_quoted rs) as [[q rest]|]; [|done]. apply IH. by left. }
  destruct (ch =? 34). { destruct (double_quoted rs) as [[q rest]|]; [|done]. apply IH. by left. }
  apply IH. by left.
Qed.
Definition shell_blank (r : Z) : bool := existsb (Z.eqb r) [32; 9; 13; 10].
Lemma shellSplit_words s r rs ws : runes s = r :: rs -> shell_blank r = false ->
  shellSplit s = Ok ws -> ws <> [].
Proof.
  unfold shellSplit, shell_blank. intros Hr Hb. destruct (shell_loop_total (S (length (runes s))) [] [] false (runes s)) as [x Hx]; [lia|].
  rewrite Hx. simpl. intros ->. revert Hx. rewrite Hr. cbn [shell_loop]. rewrite Hb.
  destruct (r =? 92). { destruct rs; [done|]. apply shell_loop_nonempty. by left. }
  destruct (r =? 39). { destruct (single_quoted rs) as [[q rest]|]; [|done]. apply shell_loop_nonempty. by left. }
  destruct (r =? 34). { destruct (double_quoted rs) as [[q rest]|]; [|done]. apply shell_loop_nonempty. by left. }
  apply shell_loop_nonempty. by left.
Qed.

Example shellSplit_examples :
  shellSplit "a 'b c' d\ e" = Ok ["a"; "b c"; "d e"] /\
  shellSplit "a 'b" = Err noClosing /\ stripComment "x='#' #y" = "x='#' " /\
  splitTestID "k3sm.io/a/b::TestX/sub=1" = Some ("k3sm.io/a/b", "TestX/sub=1") /\
  splitTestID "T/S/t" = Some ("T", "S/t") /\ splitTestID "a::b/c/d" = None /\
  parseDate "2024-02-29" = Some (mkdate 2024 2 29) /\ parseDate "2023-02-29" = None /\
  framing "    --- FAIL: TestX (0.00s)" = Some "TestX" /\
  harnessReason "p::TestX" "TestX" "--- FAIL:  TestX (0.01s)" = "the harness line --- FAIL: TestX".
Proof. vm_compute. repeat split. Qed.
