(* ===== verification/QuarantineRegistry.v ===== *)
(** * The flake quarantine registry (src/hack/lib/testresults.go)

    [parseRegistry] reads the registry text line by line into entries and
    error lines.  A report line is kept as its format and arguments. *)
From S2P Require Import Prelude GoLib GoStrings GoRunes NetIP QuarantineText.

Definition maxEntries : Z := 10.
Definition minSigChars : Z := 12.
Definition requiredKeys : list string := ["sig"; "owner"; "filed"; "deadline"; "fix"; "reason"].
Definition contains (l : list string) (s : string) : bool := existsb (String.eqb s) l.

Inductive line :=
| NoLine
| Sprintf (fmt : string) (args : list fmtarg)
| Prefixed (s : string) (l : line).

Record entry := mkentry {
  e_line : Z;
  e_test : string;
  e_pkg : string;
  e_sig : string;
  e_owner : string;
  e_fix : string;
  e_deadline : string;
  e_deadlineDate : date;
}.

(** ** The fields of a line *)
Abbreviation fields := (gmap string string).
Definition field_of (fs : fields) (k : string) : string := default "" (fs !! k).
Definition field_state : Type := fields * list line * bool.
Definition field_step (whereL : fmtarg) (st : field_state) (t : string) : field_state :=
  let '(fs, errs, bad) := st in
  match keyRE t with
  | None => (fs, errs ++ [Sprintf "%s: token %q is not key=value" [whereL; ArgS t]], true)
  | Some (k, v) =>
      if negb (contains requiredKeys k) then (fs, errs ++ [Sprintf "%s: unknown key %q" [whereL; ArgS k]], true)
      else if negb (String.eqb (field_of fs k) "") then (fs, errs ++ [Sprintf "%s: key %q repeats" [whereL; ArgS k]], true)
      else if String.eqb (TrimSpace v) "" then (fs, errs ++ [Sprintf "%s: key %q is empty" [whereL; ArgS k]], true)
      else (<[k := v]> fs, errs, bad)
  end.
Definition missing_keys (fs : fields) : list string :=
  List.filter (fun k => match fs !! k with None => true | Some _ => false end) requiredKeys.

(** The checks on a line whose fields are all there: an error line, or the
    deadline. *)
Definition check_fields (whereL : fmtarg) (test pkg name : string) (fs : fields) : line + date :=
  match parseDate (field_of fs "filed"), parseDate (field_of fs "deadline") with
  | None, _ => inl (Sprintf "%s: filed=%q is not a YYYY-MM-DD date" [whereL; ArgS (field_of fs "filed")])
  | _, None => inl (Sprintf "%s: deadline=%q is not a YYYY-MM-DD date" [whereL; ArgS (field_of fs "deadline")])
  | Some filed, Some deadline =>
      let sig := field_of fs "sig" in
      if Before deadline filed then
        inl (Sprintf "%s: deadline %s is before filed %s" [whereL; ArgS (field_of fs "deadline"); ArgS (field_of fs "filed")])
      else if len (runes sig) <? minSigChars then
        inl (Sprintf "%s: sig is shorter than %d characters, so it would match nearly any failure" [whereL; ArgZ minSigChars])
      else if negb (String.eqb (raceMarker sig) "") then
        inl (Sprintf "%s: refused, a race or sanitizer report is never quarantinable (sig carries %q)" [whereL; ArgS (raceMarker sig)])
      else if negb (String.eqb (harnessReason test name sig) "") then
        inl (Sprintf "%s: sig occurs in %s, so it matches the harness's own lines, not a failure (harness)" [whereL; ArgS (harnessReason test name sig)])
      else if negb (String.eqb (protectedReason pkg name) "") then
        inl (Sprintf "%s: refused, %s can never be quarantined (%s)" [whereL; ArgS test; ArgS (protectedReason pkg name)])
      else inr deadline
  end.

(** ** The loop over the lines *)
Record registry := mkregistry {
  g_entries : list entry;
  g_errs : list line;
  g_seen : gmap string Z;
  g_listed : Z;
}.
Definition report (g : registry) (ls : list line) : registry :=
  mkregistry g.(g_entries) (g.(g_errs) ++ ls) g.(g_seen) g.(g_listed).

(** [None] is the panic of indexing an empty word list. *)
Definition parse_line (g : registry) (n : Z) (raw : string) : option registry :=
  let lineno := n + 1 in
  let text := TrimSpace (stripComment raw) in
  if String.eqb text "" then Some g else
  let g := mkregistry g.(g_entries) g.(g_errs) g.(g_seen) (g.(g_listed) + 1) in
  let whereL := ArgS ("line " +:+ pretty lineno) in
  match shellSplit text with
  | Err (ErrNew m) => Some (report g [Sprintf "%s: unparseable (%v)" [whereL; ArgS m]])
  | Err _ => Some (report g [Sprintf "%s: unparseable (%v)" [whereL]])
  | Ok [] => None
  | Ok (test :: rest) =>
      match splitTestID test with
      | None => Some (report g [Sprintf "%s: %q is not a Go <import path>::<TestName> or Swift <Target>/<Suite>/<test> id" [whereL; ArgS test]])
      | Some (pkg, name) =>
          let '(fs, errs, bad) := foldl (field_step whereL) (∅, [], false) rest in
          let missing := missing_keys fs in
          let errs := if len missing >? 0 then errs ++ [Sprintf "%s: missing %s" [whereL; ArgL missing]] else errs in
          let g := report g errs in
          if bad || (len missing >? 0) then Some g else
          match check_fields whereL test pkg name fs with
          | inl l => Some (report g [l])
          | inr deadline =>
              match g.(g_seen) !! test with
              | Some prev => Some (report g [Sprintf "%s: %s is already listed on line %d" [whereL; ArgS test; ArgZ prev]])
              | None =>
                  Some (mkregistry
                    (g.(g_entries) ++ [mkentry lineno test pkg (field_of fs "sig") (field_of fs "owner")
                       (field_of fs "fix") (field_of fs "deadline") deadline])
                    g.(g_errs) (<[test := lineno]> g.(g_seen)) g.(g_listed))
              end
          end
      end
  end.
Fixpoint parse_lines (g : registry) (n : Z) (ls : list string) : option registry :=
  match ls with
  | [] => Some g
  | l :: ls' => match parse_line g n l with Some g' => parse_lines g' (n + 1) ls' | None => None end
  end.
Definition parseRegistry (text : string) : option (list entry * list line) :=
  match parse_lines (mkregistry [] [] ∅ 0) 0 (Split (crlf text) newline) with
  | None => None
  | Some g =>
      Some (g.(g_entries),
            if g.(g_listed) >? maxEntries
            then g.(g_errs) ++ [Sprintf "registry lists %d entries; at most %d are allowed" [ArgZ g.(g_listed); ArgZ maxEntries]]
            else g.(g_errs))
  end.

(** ** No panic *)
Lemma decode_chunk s r bs : (r, bs) ∈ decode s -> exists b t, bs = String b t /\ (Z_of_byte b < 128 -> r = Z_of_byte b).
Proof.
  remember (String.length s) as n eqn:Hn. revert s Hn. induction (lt_wf n) as [n _ IH]. intros s ->.
  destruct s as [|b0 r0]; [intros []%elem_of_nil|].
  assert (Hrec : forall t, (String.length t <= String.length r0)%nat -> (r, bs) ∈ decode t ->
    exists b t, bs = String b t /\ (Z_of_byte b < 128 -> r = Z_of_byte b)).
  { intros t Ht. eapply IH; [|reflexivity]. simpl. lia. }
  assert (Hhd : forall r' t, 128 <= Z_of_byte b0 -> (r, bs) = (r', String b0 t) ->
    exists b t, bs = String b t /\ (Z_of_byte b < 128 -> r = Z_of_byte b)).
  { intros r' t Hb [= -> ->]. exists b0, t. split; [done|lia]. }
  cbn [decode]. destruct (Z.ltb_spec (Z_of_byte b0) 128) as [Hl|Hl].
  { intros [[= -> ->]|H]%elem_of_cons; [by exists b0, ""|by apply (Hrec r0)]. }
  repeat case_match; simplify_eq; intros [E|H]%elem_of_cons;
    try (by eapply Hhd); (eapply Hrec; [|exact H]); simpl; lia.
Qed.

Lemma shell_blank_space r : shell_blank r = true -> IsSpace r = true /\ 0 <= r < 64.
Proof.
  unfold shell_blank. intros H. apply existsb_exists in H as (x & Hx & ->%Z.eqb_eq).
  simpl in Hx. intuition subst; done || lia.
Qed.
Lemma lor_shift_zero a b k : 0 <= k -> 0 <= a -> 0 <= b -> Z.lor (Z.shiftl a k) b < 2 ^ k -> a = 0.
Proof.
  intros Hk Ha Hb H. destruct (Z.eq_dec a 0) as [|Hn]; [done|]. exfalso.
  assert (Z.shiftl a k <= Z.lor (Z.shiftl a k) b) as Hle.
  { apply Z.ldiff_le; [apply Z.lor_nonneg; split; [by apply Z.shiftl_nonneg|done]|].
    apply Z.bits_inj'. intros i Hi. rewrite Z.ldiff_spec, Z.lor_spec, Z.bits_0. by destruct (Z.testbit (Z.shiftl a k) i). }
  rewrite Z.shiftl_mul_pow2 in * by lia. nia.
Qed.
Lemma land_ones_0 x k : 0 <= k -> Z.land x (2 ^ k - 1) = 0 -> x mod 2 ^ k = 0.
Proof. intros Hk. replace (2 ^ k - 1) with (Z.ones k) by (rewrite Z.ones_equiv; lia). by rewrite Z.land_ones. Qed.
Lemma low6_0 b : low6 b = 0 -> Z_of_byte b mod 64 = 0.
Proof. intros H. apply (land_ones_0 _ 6) in H; [done|lia]. Qed.
Lemma low6_nonneg b : 0 <= low6 b.
Proof. unfold low6. apply Z.land_nonneg. right. done. Qed.

(** A rune below 64 is an ASCII byte. *)
Lemma small_rune b s r rs : runes (String b s) = r :: rs -> 0 <= r < 64 -> Z_of_byte b = r.
Proof.
  assert (Hz : forall Y c, 0 <= Y -> 0 <= Z.lor (Z.shiftl Y 6) (low6 c) < 64 -> Y = 0).
  { intros Y c HY Hr. eapply (lor_shift_zero Y (low6 c) 6); [lia|done|apply low6_nonneg|].
    change (2 ^ 6) with 64. lia. }
  assert (Hs : forall a k c, Z.lor (Z.shiftl a (k + 6)) (Z.shiftl c 6) = Z.shiftl (Z.lor (Z.shiftl a k) c) 6 \/ k < 0).
  { intros a k c. destruct (Z.lt_ge_cases k 0); [by right|left]. by rewrite Z.shiftl_lor, Z.shiftl_shiftl. }
  assert (Hn : forall x m, 0 <= m -> 0 <= Z.land x m) by (intros; apply Z.land_nonneg; by right).
  unfold runes. cbn [decode]. pose proof (Z_of_byte_range b) as Hb.
  destruct (Z.ltb_spec (Z_of_byte b) 128) as [|Hl]; [by intros [= ->]|]. intros H Hr. exfalso. revert H.
  assert (He : forall l, map fst ((RuneError, String b "") :: decode l) = r :: rs -> False).
  { intros l [= <- _]. unfold RuneError in Hr. lia. }
  destruct s as [|b1 s]; [apply He|]. destruct (between 194 223 _ && cont b1) eqn:E1.
  { intros [= <- _]. apply Hz in Hr; [|by apply Hn]. apply (land_ones_0 _ 5) in Hr; [|lia].
    unfold between in E1. reflect_bools. pose proof (Z.div_mod (Z_of_byte b) (2 ^ 5) ltac:(done)) as Hd.
    change (2 ^ 5) with 32 in *. lia. }
  destruct s as [|b2 s]; [apply He|]. destruct (between 224 239 _ && second_ok _ b1 && cont b2) eqn:E2.
  { intros [= <- _]. destruct (Hs (Z.land (Z_of_byte b) 15) 6 (low6 b1)) as [E|]; [|lia]. change (6 + 6) with 12 in E.
    rewrite E in Hr. apply Hz in Hr; [|apply Z.lor_nonneg; split; [apply Z.shiftl_nonneg; by apply Hn|apply low6_nonneg]].
    apply Z.lor_eq_0_iff in Hr as [Ha Hc%low6_0]. apply Z.shiftl_eq_0_iff in Ha; [|lia].
    apply (land_ones_0 _ 4) in Ha; [|lia]. change (2 ^ 4) with 16 in Ha.
    rewrite !andb_true_iff in E2. destruct E2 as [[Ex Ey] _]. unfold between in Ex. reflect_bools.
    assert (Z_of_byte b = 224) as Hx by (pose proof (Z.div_mod (Z_of_byte b) 16 ltac:(done)); lia).
    unfold second_ok, between in Ey. rewrite Hx in Ey. simpl in Ey. reflect_bools.
    pose proof (Z.div_mod (Z_of_byte b1) 64 ltac:(done)). lia. }
  destruct s as [|b3 s]; [apply He|]. destruct (between 240 244 _ && second_ok _ b1 && cont b2 && cont b3) eqn:E3; [|apply He].
  intros [= <- _]. set (x := Z_of_byte b) in *.
  destruct (Hs (Z.lor (Z.shiftl (Z.land x 7) 6) (low6 b1)) 6 (low6 b2)) as [E|]; [|lia]. change (6 + 6) with 12 in E.
  rewrite Z.shiftl_lor, Z.shiftl_shiftl in E by lia. change (6 + 12) with 18 in E. rewrite E in Hr.
  apply Hz in Hr; [|repeat (rewrite Z.lor_nonneg || rewrite Z.shiftl_nonneg); repeat split; (by apply Hn) || apply low6_nonneg].
  apply Z.lor_eq_0_iff in Hr as [Hr _]. apply Z.shiftl_eq_0_iff in Hr; [|lia].
  apply Z.lor_eq_0_iff in Hr as [Ha Hc%low6_0]. apply Z.shiftl_eq_0_iff in Ha; [|lia].
  apply (land_ones_0 _ 3) in Ha; [|lia]. change (2 ^ 3) with 8 in Ha.
  rewrite !andb_true_iff in E3. destruct E3 as [[[Ex Ey] _] _]. unfold between in Ex. reflect_bools.
  assert (x = 240) as Hx by (pose proof (Z.div_mod x 8 ltac:(done)); lia).
  unfold second_ok, between in Ey. rewrite Hx in Ey. simpl in Ey. reflect_bools.
  pose proof (Z.div_mod (Z_of_byte b1) 64 ltac:(done)). lia.
Qed.

Lemma trim_left_head l : match trim_left l with [] => True | c :: _ => IsSpace c.1 = false end.
Proof. induction l as [|c l IH]; [done|]. cbn [trim_left]. by destruct (IsSpace c.1) eqn:E. Qed.
Lemma trim_left_suffix l : trim_left l `suffix_of` l.
Proof.
  induction l as [|c l IH]; [done|]. cbn [trim_left]. destruct (IsSpace c.1); [by apply suffix_cons_r|done].
Qed.
Lemma trim_chunks s : exists cs,
  TrimSpace s = undecode cs /\ (forall c, c ∈ cs -> c ∈ decode s) /\
  match cs with [] => True | c :: _ => IsSpace c.1 = false end.
Proof.
  eexists. split; [reflexivity|]. set (l := trim_left (decode s)).
  destruct (trim_left_suffix (reverse l)) as [k Hk].
  assert (Hl : l = reverse (trim_left (reverse l)) ++ reverse k).
  { rewrite <- (reverse_involutive l) at 1. rewrite Hk at 1. by rewrite reverse_app. }
  split.
  - intros c Hc. destruct (trim_left_suffix (decode s)) as [k' Hk']. rewrite Hk'. apply elem_of_app. right.
    change (c ∈ l). rewrite Hl. apply elem_of_app. by left.
  - pose proof (trim_left_head (decode s)) as Hh. change (match l with [] => True | c :: _ => IsSpace c.1 = false end) in Hh.
    rewrite Hl in Hh. by destruct (reverse (trim_left (reverse l))).
Qed.

Lemma trimmed_first_rune s : TrimSpace s <> "" -> exists r rs, runes (TrimSpace s) = r :: rs /\ shell_blank r = false.
Proof.
  destruct (trim_chunks s) as (cs & -> & Hin & Hh). destruct cs as [|[r bs] cs]; [done|]. intros _.
  destruct (decode_chunk s r bs) as (b & t & -> & Hb); [apply Hin; left|].
  change (undecode ((r, String b t) :: cs)) with (String b (t +:+ undecode cs)).
  assert (exists r' rs, runes (String b (t +:+ undecode cs)) = r' :: rs) as (r' & rs & E).
  { unfold runes. cbn [decode]. repeat case_match; cbn [map]; eauto. }
  exists r', rs. split; [done|]. apply not_true_iff_false. intros [Hs Hr]%shell_blank_space.
  pose proof (small_rune _ _ _ _ E Hr) as Hbr. simpl in Hh. rewrite Hb, Hbr, Hs in Hh by lia. done.
Qed.

Lemma parse_line_total g n raw : is_Some (parse_line g n raw).
Proof.
  unfold parse_line. destruct (String.eqb_spec (TrimSpace (stripComment raw)) "") as [|Hne]; [eauto|].
  destruct (trimmed_first_rune (stripComment raw) Hne) as (r & rs & Hr & Hb).
  destruct (shellSplit _) as [[|test rest]|e] eqn:E.
  - by apply (shellSplit_words _ r rs) in E.
  - destruct (splitTestID test) as [[pkg name]|]; [|eauto].
    destruct (foldl _ _ _) as [[fs errs] bad]. destruct (bad || _); [eauto|].
    destruct (check_fields _ _ _ _ _); [eauto|]. destruct (_ !! test); eauto.
  - destruct e; eauto.
Qed.
Lemma parse_lines_total ls g n : is_Some (parse_lines g n ls).
Proof.
  revert g n. induction ls as [|l ls IH]; intros g n; cbn [parse_lines]; [eauto|].
  destruct (parse_line_total g n l) as [g' ->]. apply IH.
Qed.

(** ** What an entry is *)
Record entry_ok (e : entry) : Prop := {
  entry_filled : Forall (fun v => TrimSpace v <> "") [e.(e_sig); e.(e_owner); e.(e_fix); e.(e_deadline)];
  entry_sig_long : minSigChars <= len (runes e.(e_sig));
  entry_sig_race : raceMarker e.(e_sig) = "";
  entry_id : exists name, splitTestID e.(e_test) = Some (e.(e_pkg), name) /\
    harnessReason e.(e_test) name e.(e_sig) = "" /\ protectedReason e.(e_pkg) name = "";
  entry_dated : parseDate e.(e_deadline) = Some e.(e_deadlineDate) }.

Definition significant (raw : string) : bool := negb (String.eqb (TrimSpace (stripComment raw)) "").
Definition significant_lines (ls : list string) : Z := len (List.filter significant ls).

Record registry_ok (g : registry) : Prop := {
  registry_entries : Forall entry_ok g.(g_entries);
  registry_distinct : NoDup (map e_test g.(g_entries));
  registry_seen : forall t, t ∈ map e_test g.(g_entries) -> is_Some (g.(g_seen) !! t);
  registry_listed : g.(g_errs) = [] -> g.(g_listed) = len g.(g_entries) }.

(** Every stored field is filled. *)
Definition filled (fs : fields) : Prop := forall k v, fs !! k = Some v -> TrimSpace v <> "".
Record field_state_ok (st : field_state) : Prop := {
  fields_filled : filled st.1.1;
  fields_reported : st.2 = true <-> st.1.2 <> [] }.
Lemma field_step_ok whereL st t : field_state_ok st -> field_state_ok (field_step whereL st t).
Proof.
  destruct st as [[fs errs] bad]. intros [Hf Hb].
  assert (Hbad : forall e, field_state_ok (fs, errs ++ [e], true)).
  { intros e. constructor; [exact Hf|]. cbn. split; [|done]. intros _. by destruct errs. }
  unfold field_step. destruct (keyRE t) as [[k v]|]; [|apply Hbad].
  destruct (negb (contains _ _)); [apply Hbad|]. destruct (negb (String.eqb (field_of fs k) "")); [apply Hbad|].
  destruct (String.eqb_spec (TrimSpace v) "") as [|Hv]; [apply Hbad|]. constructor; [|exact Hb]. cbn in *.
  intros k' v'. destruct (decide (k = k')) as [<-|].
  - rewrite lookup_insert_eq. by intros [= <-].
  - rewrite lookup_insert_ne by done. apply Hf.
Qed.
Lemma field_fold_ok whereL rest st : field_state_ok st -> field_state_ok (foldl (field_step whereL) st rest).
Proof. revert st. induction rest as [|t rest IH]; intros st Hst; [done|]. by apply IH, field_step_ok. Qed.
Lemma missing_none fs k : missing_keys fs = [] -> In k requiredKeys -> is_Some (fs !! k).
Proof.
  intros Hm Hk. destruct (fs !! k) as [v|] eqn:E; [eauto|]. exfalso.
  assert (In k (missing_keys fs)) as H by (apply filter_In; by rewrite E). by rewrite Hm in H.
Qed.
Lemma field_filled fs k : filled fs -> missing_keys fs = [] -> In k requiredKeys -> TrimSpace (field_of fs k) <> "".
Proof. intros Hf Hm Hk. destruct (missing_none fs k Hm Hk) as [v Hv]. unfold field_of. rewrite Hv. by apply (Hf k). Qed.

Lemma check_fields_ok whereL lineno test pkg name fs deadline :
  check_fields whereL test pkg name fs = inr deadline -> splitTestID test = Some (pkg, name) ->
  filled fs -> missing_keys fs = [] ->
  entry_ok (mkentry lineno test pkg (field_of fs "sig") (field_of fs "owner") (field_of fs "fix") (field_of fs "deadline") deadline).
Proof.
  unfold check_fields. intros Hc Hid Hf Hm.
  destruct (parseDate (field_of fs "filed")) as [filed|]; [|done].
  destruct (parseDate (field_of fs "deadline")) as [dl|] eqn:Ed; [|done]. revert Hc.
  destruct (Before dl filed); [done|]. destruct (Z.ltb_spec (len (runes (field_of fs "sig"))) minSigChars); [done|].
  destruct (String.eqb_spec (raceMarker (field_of fs "sig")) ""); [|done].
  destruct (String.eqb_spec (harnessReason test name (field_of fs "sig")) ""); [|done].
  destruct (String.eqb_spec (protectedReason pkg name) ""); [|done]. intros [= <-].
  constructor; cbn; [|done|done|by exists name|done].
  repeat constructor; apply field_filled; simpl; tauto.
Qed.

(** Counting a line and reporting an error keeps the invariant. *)
Lemma counted_ok g ls : registry_ok g -> ls <> [] ->
  registry_ok (report (mkregistry g.(g_entries) g.(g_errs) g.(g_seen) (g.(g_listed) + 1)) ls).
Proof.
  intros [He Hd Hs Hl] Hn. constructor; [exact He|exact Hd|exact Hs|]. cbn. intros E. by apply app_nil in E as [_ ?].
Qed.

Lemma parse_line_ok g n raw g' : registry_ok g -> parse_line g n raw = Some g' ->
  registry_ok g' /\ g'.(g_listed) = g.(g_listed) + (if significant raw then 1 else 0).
Proof.
  intros Hg. unfold parse_line, significant. destruct (String.eqb _ ""); [intros [= <-]; split; [done|simpl; lia]|].
  simpl negb. cbv beta zeta. set (g1 := mkregistry _ _ _ _). set (whereL := ArgS _).
  assert (Hrep : forall ls, ls <> [] -> Some (report g1 ls) = Some g' -> registry_ok g' /\ g_listed g' = g_listed g + 1).
  { intros ls Hls [= <-]. split; [by apply counted_ok|done]. }
  destruct (shellSplit _) as [[|test rest]|[]]; [done| |by apply Hrep..].
  destruct (splitTestID test) as [[pkg name]|] eqn:Hid; [|by apply Hrep].
  pose proof (field_fold_ok whereL rest (∅, [], false)) as Hfold.
  destruct (foldl _ _ _) as [[fs errs] bad]. destruct Hfold as [Hf Hb]; [by constructor|]. cbn in Hf, Hb.
  destruct (Z.gtb_spec (len (missing_keys fs)) 0) as [Hm|Hm].
  { rewrite orb_true_r. apply Hrep. by destruct errs. }
  rewrite orb_false_r. destruct bad; [apply Hrep; by apply Hb|].
  assert (errs = []) as ->.
  { destruct errs as [|x xs]; [done|]. assert (false = true) as [=]. by apply Hb. }
  assert (report g1 [] = g1) as -> by (unfold report, g1; cbn; by rewrite app_nil_r).
  assert (missing_keys fs = []) as Hmk by (unfold len in Hm; destruct (missing_keys fs); [done|simpl in Hm; lia]).
  destruct (check_fields whereL test pkg name fs) as [l|deadline] eqn:Hc; [by apply Hrep|].
  destruct (g_seen g1 !! test) as [prev|] eqn:Hs; [by apply Hrep|]. intros [= <-].
  apply (check_fields_ok _ (n + 1)) in Hc; [|done..]. destruct Hg as [He Hd Hse Hl]. split; [|done]. constructor; cbn.
  - apply Forall_app. split; [done|]. by constructor.
  - rewrite map_app. apply NoDup_app. split; [done|]. split; [|apply NoDup_singleton].
    intros t Ht ->%list_elem_of_singleton. apply Hse in Ht as [? Ht]. cbn in Hs, Ht. by rewrite Hs in Ht.
  - intros t. rewrite map_app. cbn [map]. rewrite elem_of_app, list_elem_of_singleton. cbn.
    intros [Ht| ->]; [|rewrite lookup_insert_eq; eauto].
    destruct (decide (test = t)) as [<-|]; [rewrite lookup_insert_eq; eauto|]. rewrite lookup_insert_ne by done. by apply Hse.
  - intros E. rewrite (Hl E). unfold len. rewrite length_app. simpl. lia.
Qed.
Lemma parse_lines_ok ls g n g' : registry_ok g -> parse_lines g n ls = Some g' ->
  registry_ok g' /\ g'.(g_listed) = g.(g_listed) + significant_lines ls.
Proof.
  revert g n. induction ls as [|l ls IH]; intros g n Hg; cbn [parse_lines].
  { intros [= <-]. split; [done|]. unfold significant_lines, len. simpl. lia. }
  destruct (parse_line g n l) as [g1|] eqn:E; [|done]. apply parse_line_ok in E as [Hg1 Hl1]; [|done].
  intros H. apply IH in H as [Hg' Hl']; [|done]. split; [done|]. rewrite Hl', Hl1.
  unfold significant_lines, len. cbn [List.filter]. destruct (significant l); simpl; lia.
Qed.

Lemma parseRegistry_ok text : exists entries errs, parseRegistry text = Some (entries, errs) /\
  Forall entry_ok entries /\ NoDup (map e_test entries) /\
  (errs = [] -> len entries <= maxEntries /\ len entries = significant_lines (Split (crlf text) newline)).
Proof.
  unfold parseRegistry. set (ls := Split _ _).
  destruct (parse_lines_total ls (mkregistry [] [] ∅ 0) 0) as [g Hg]. rewrite Hg.
  eexists _, _. split; [reflexivity|]. apply parse_lines_ok in Hg as [[He Hd _ Hl] Hn].
  2: { constructor; cbn; [constructor|constructor|by intros t []%elem_of_nil|done]. }
  split; [done|]. split; [done|]. cbn in Hn. destruct (Z.gtb_spec (g_listed g) maxEntries).
  - intros E. by apply app_nil in E as [_ ?].
  - intros E. specialize (Hl E). lia.
Qed.

(** C28: The registry parser never panics, and whatever text it reads: every
    entry it returns names a test by a well-formed id whose package and name
    lie on no trust surface, has all its fields filled, a signature of at least
    twelve characters that carries no race marker and does not occur in the
    test id or the harness's lines, and a real calendar deadline; no test is
    listed twice; and without errors there are at most ten entries, one for
    every line that is not blank or comment. *)
Theorem parseRegistry_spec text : exists entries errs, parseRegistry text = Some (entries, errs) /\
  Forall entry_ok entries /\ NoDup (map e_test entries) /\
  (errs = [] -> len entries <= maxEntries /\ len entries = significant_lines (Split (crlf text) newline)).
Proof. apply parseRegistry_ok. Qed.

Definition sample_registry : string :=
  "# flakes" +:+ String newline
  "k3sm.io/a::TestX/sub sig='timed out waiting' owner=me filed=2024-01-01 deadline=2024-02-29 fix=i1 reason='slow # host'".
Example sample_registry_entry : parseRegistry sample_registry =
  Some ([mkentry 2 "k3sm.io/a::TestX/sub" "k3sm.io/a" "timed out waiting" "me" "i1" "2024-02-29" (mkdate 2024 2 29)], []).
Proof. vm_compute. reflexivity. Qed.
