(* ===== verification/TestResults.v ===== *)
(** * Applying the registry to test results (src/hack/lib/testresults.go)

    [evaluate] decides whether a run is red: a loop over the results that
    settles the listed failures and collects the unlisted ones, then a loop
    over the unlisted ones that asks whether their subtests cover them. *)
From S2P Require Import Prelude GoLib GoStrings GoRunes NetIP QuarantineText QuarantineRegistry.

Record result := mkresult {
  t_test : string;
  t_status : string;            (* pass, fail, skip, or the empty string *)
  t_output : string;
  t_failedRuns : list string;
  t_run : string;
  t_open : bool;
}.

Definition carriedByEveryRun (runs : list string) (sig : string) : bool :=
  forallb (fun r => Contains r sig) runs && (len runs >? 0).

(** ** The variables of the first loop *)
Record verdict := mkverdict {
  v_red : bool;
  v_excused : Z;
  v_out : list line;
  v_quarantined : list string;
  v_unlisted : list (nat * string);   (* pending{idx, test} *)
  v_unlistedIDs : list string;
  v_failing : list string;
  v_outputs : gmap string string;
}.

Section Evaluate.
Context (entries : list entry) (tier : string) (edited : list string) (today : date).

Definition byID : gmap string entry := foldl (fun m e => <[e.(e_test) := e]> m) ∅ entries.

Definition settle (v : verdict) (red : bool) (l : line) : verdict :=
  mkverdict (v.(v_red) || red) v.(v_excused) (v.(v_out) ++ [l]) v.(v_quarantined) v.(v_unlisted) v.(v_unlistedIDs)
    v.(v_failing) v.(v_outputs).
Definition failed (v : verdict) (r : result) : verdict :=
  mkverdict v.(v_red) v.(v_excused) v.(v_out) v.(v_quarantined) v.(v_unlisted) v.(v_unlistedIDs)
    (v.(v_failing) ++ [r.(t_test)]) (<[r.(t_test) := r.(t_output)]> v.(v_outputs)).

Definition result_step (v : verdict) (r : result) : verdict :=
  let id := ArgS r.(t_test) in
  if String.eqb r.(t_status) "pass" || String.eqb r.(t_status) "skip" then
    match byID !! r.(t_test) with
    | Some _ => settle v false (Sprintf "ok  %s: quarantined test %sed" [id; ArgS r.(t_status)])
    | None => v
    end
  else if negb (String.eqb r.(t_status) "fail") then settle v true (Sprintf "RED %s: no result" [id])
  else
    let v := failed v r in
    match byID !! r.(t_test) with
    | None =>
        mkverdict v.(v_red) v.(v_excused) (v.(v_out) ++ [NoLine]) v.(v_quarantined)
          (v.(v_unlisted) ++ [(length v.(v_out), r.(t_test))]) (r.(t_test) :: v.(v_unlistedIDs)) v.(v_failing) v.(v_outputs)
    | Some e =>
        if negb (String.eqb (raceMarker r.(t_output)) "") then
          settle v true (Sprintf "RED %s: failed with a race or sanitizer report (%q); quarantine never applies" [id; ArgS (raceMarker r.(t_output))])
        else if String.eqb tier "full" then
          settle v true (Sprintf "RED %s: quarantined test failed; the full tier reds on it (fix %s, deadline %s)" [id; ArgS e.(e_fix); ArgS e.(e_deadline)])
        else if existsb (String.eqb e.(e_pkg)) edited then
          settle v true (Sprintf "RED %s: quarantined, but the change edits %s directly" [id; ArgS e.(e_pkg)])
        else if negb (carriedByEveryRun r.(t_failedRuns) e.(e_sig)) then
          settle v true (Sprintf "RED %s: quarantined, but the failure does not match the recorded signature" [id])
        else
          mkverdict v.(v_red) (v.(v_excused) + 1)
            (v.(v_out) ++ [Sprintf "QUARANTINED %s: failed with its recorded signature; reported, not red (owner %s, fix %s, deadline %s)"
               [id; ArgS e.(e_owner); ArgS e.(e_fix); ArgS e.(e_deadline)]])
            (r.(t_test) :: v.(v_quarantined)) v.(v_unlisted) v.(v_unlistedIDs) v.(v_failing) v.(v_outputs)
    end.

(** ** The second loop *)
Definition below (t u : string) : bool := HasPrefix t (u +:+ "/").
Definition kids (v : verdict) (u : string) : list string := List.filter (fun c => below c u) v.(v_failing).
Definition is_in (t : string) (l : list string) : bool := existsb (String.eqb t) l.
Definition covered (v : verdict) (u : string) : bool :=
  let ks := kids v u in
  (len ks >? 0) &&
  forallb (fun c => is_in c v.(v_quarantined) || (is_in c v.(v_unlistedIDs) && existsb (fun g => below g c) ks)) ks.
Definition output_of (v : verdict) (t : string) : string := default "" (v.(v_outputs) !! t).
Definition name_of (test : string) : string := match Cut test "::" with Some (_, n) => n | None => "" end.
Definition own_failure (v : verdict) (u : string) : string :=
  if covered v u then ownFailure (name_of u) (output_of v u) (map (output_of v) (kids v u)) else "".

Definition unlisted_step (v : verdict) (st : bool * list line) (p : nat * string) : bool * list line :=
  let '(red, out) := st in
  let '(idx, u) := p in
  let id := ArgS u in
  let rm := raceMarker (output_of v u) in
  let own := own_failure v u in
  if negb (String.eqb rm "") then
    (true, <[idx := Sprintf "RED %s: failed with a race or sanitizer report (%q); quarantine never applies" [id; ArgS rm]]> out)
  else if covered v u && negb (String.eqb own "") then
    (true, <[idx := Sprintf "RED %s: failed; its own output carries %q beside its quarantined subtests" [id; ArgS (TrimSpace own)]]> out)
  else if covered v u then
    (red, <[idx := Sprintf "QUARANTINED %s: failed only through quarantined subtests (%s); reported, not red"
             [id; ArgL (List.filter (fun c => is_in c v.(v_quarantined)) (kids v u))]]> out)
  else (true, <[idx := Sprintf "RED %s: failed" [id]]> out).

Definition expired_lines : list line :=
  map (fun e => Sprintf "RED %s: quarantine expired %s (owner %s, fix %s)"
         [ArgS e.(e_test); ArgS e.(e_deadline); ArgS e.(e_owner); ArgS e.(e_fix)])
    (List.filter (fun e => Before e.(e_deadlineDate) today) entries).

Definition first_pass (red : bool) (results : list result) : verdict :=
  foldl result_step (mkverdict red 0 [] [] [] [] [] ∅) results.

Definition evaluate_entries (errs : list line) (results : list result) : bool * Z * list line :=
  let lines := map (Prefixed "RED registry: ") errs ++ expired_lines in
  let red := (len errs >? 0) || (len expired_lines >? 0) in
  let v := first_pass red results in
  let '(red, out) := foldl (unlisted_step v) (v.(v_red), v.(v_out)) v.(v_unlisted) in
  (red, v.(v_excused), lines ++ out).

(** ** What a green run is *)
Definition failing (r : result) : bool := String.eqb r.(t_status) "fail".
Definition listed (r : result) : bool := match byID !! r.(t_test) with Some _ => true | None => false end.
(** The conditions under which a listed failure is excused. *)
Definition excusable (r : result) (e : entry) : bool :=
  String.eqb (raceMarker r.(t_output)) "" && negb (String.eqb tier "full") &&
  negb (existsb (String.eqb e.(e_pkg)) edited) && carriedByEveryRun r.(t_failedRuns) e.(e_sig).
Definition quarantined (r : result) : bool :=
  failing r && match byID !! r.(t_test) with Some e => excusable r e | None => false end.
Definition unlisted (r : result) : bool := failing r && negb (listed r).
Definition settled (r : result) : bool :=
  String.eqb r.(t_status) "pass" || String.eqb r.(t_status) "skip" || quarantined r || unlisted r.

Definition tests (P : result -> bool) (rs : list result) : list string := map t_test (List.filter P rs).
(** The output recorded for a failing id. *)
Definition output_in (rs : list result) (t : string) : string :=
  default "" (last (map t_output (List.filter (fun r => failing r && String.eqb r.(t_test) t) rs))).

(** The first loop's variables as functions of the results read so far. *)
Record pass_ok (red : bool) (rs : list result) (v : verdict) : Prop := {
  pass_red : v.(v_red) = red || negb (forallb settled rs);
  pass_excused : v.(v_excused) = len (List.filter quarantined rs);
  pass_quarantined : forall t, t ∈ v.(v_quarantined) <-> t ∈ tests quarantined rs;
  pass_unlisted : map snd v.(v_unlisted) = tests unlisted rs;
  pass_unlistedIDs : forall t, t ∈ v.(v_unlistedIDs) <-> t ∈ tests unlisted rs;
  pass_failing : v.(v_failing) = tests failing rs;
  pass_outputs : forall t, output_of v t = output_in rs t;
  pass_pending : forall i, v.(v_out) !! i = Some NoLine <-> i ∈ map fst v.(v_unlisted);
  pass_pending_once : NoDup (map fst v.(v_unlisted)) }.

Lemma tests_snoc P rs r : tests P (rs ++ [r]) = tests P rs ++ (if P r then [r.(t_test)] else []).
Proof. unfold tests. rewrite List.filter_app, map_app. simpl. by destruct (P r). Qed.
Lemma filter_len_snoc (P : result -> bool) rs r :
  len (List.filter P (rs ++ [r])) = len (List.filter P rs) + (if P r then 1 else 0).
Proof. unfold len. rewrite List.filter_app, length_app. simpl. destruct (P r); simpl; lia. Qed.
Lemma output_in_snoc rs r t : output_in (rs ++ [r]) t =
  if failing r && String.eqb r.(t_test) t then r.(t_output) else output_in rs t.
Proof.
  unfold output_in. rewrite List.filter_app, map_app. simpl. destruct (failing r && _); simpl.
  - by rewrite last_snoc.
  - by rewrite app_nil_r.
Qed.
Lemma lookup_snoc_line (out : list line) l i : (out ++ [l]) !! i = Some NoLine <->
  out !! i = Some NoLine \/ i = length out /\ l = NoLine.
Proof.
  rewrite lookup_app_Some. split.
  - intros [?|[Hi H]]; [by left|]. apply list_lookup_singleton_Some in H as [Hi' ->]. right. split; [lia|done].
  - intros [?|[-> ->]]; [by left|]. right. split; [lia|]. by rewrite Nat.sub_diag.
Qed.

(** The part of a step every failing result shares. *)
Definition noted (v : verdict) (r : result) : verdict := if failing r then failed v r else v.
Lemma noted_fields v r :
  v_red (noted v r) = v_red v /\ v_excused (noted v r) = v_excused v /\ v_out (noted v r) = v_out v /\
  v_quarantined (noted v r) = v_quarantined v /\ v_unlisted (noted v r) = v_unlisted v /\
  v_unlistedIDs (noted v r) = v_unlistedIDs v.
Proof. unfold noted. by destruct (failing r). Qed.
Lemma noted_failing v r rs : v_failing v = tests failing rs -> v_failing (noted v r) = tests failing (rs ++ [r]).
Proof. intros H. rewrite tests_snoc. unfold noted. destruct (failing r); cbn; rewrite H; [done|by rewrite app_nil_r]. Qed.
Lemma noted_outputs v r rs t : (forall t, output_of v t = output_in rs t) ->
  output_of (noted v r) t = output_in (rs ++ [r]) t.
Proof.
  intros H. rewrite output_in_snoc. unfold noted. destruct (failing r); [|apply H]. cbn [andb].
  unfold failed, output_of. cbn. destruct (String.eqb_spec (t_test r) t) as [<-|].
  - by rewrite lookup_insert_eq.
  - rewrite lookup_insert_ne by done. apply H.
Qed.

Lemma forallb_settled_snoc rs r b red : settled r = negb b ->
  red || negb (forallb settled (rs ++ [r])) = (red || negb (forallb settled rs)) || b.
Proof. intros H. rewrite forallb_app. simpl. rewrite H. by destruct red, (forallb settled rs), b. Qed.

Lemma settle_ok red rs v r b l : pass_ok red rs v -> quarantined r = false -> unlisted r = false ->
  settled r = negb b -> l <> NoLine -> pass_ok red (rs ++ [r]) (settle (noted v r) b l).
Proof.
  intros [Hr He Hq Hu Hi Hf Ho Hp Hn] Eq Eu Es El.
  destruct (noted_fields v r) as (N1 & N2 & N3 & N4 & N5 & N6).
  constructor; unfold settle; cbn; rewrite ?N1, ?N2, ?N3, ?N4, ?N5, ?N6, ?tests_snoc, ?Eq, ?Eu, ?app_nil_r; try done.
  - by rewrite Hr, (forallb_settled_snoc _ _ b).
  - rewrite He, filter_len_snoc, Eq. lia.
  - by rewrite (noted_failing v r rs Hf), tests_snoc.
  - intros t. by apply noted_outputs.
  - intros i. rewrite lookup_snoc_line, Hp. naive_solver.
Qed.
Lemma skipped_ok red rs v r : pass_ok red rs v -> failing r = false -> settled r = true -> pass_ok red (rs ++ [r]) v.
Proof.
  intros [Hr He Hq Hu Hi Hf Ho Hp Hn] Ef Es. assert (quarantined r = false /\ unlisted r = false) as [Eq Eu].
  { unfold quarantined, unlisted. by rewrite Ef. }
  constructor; rewrite ?tests_snoc, ?Eq, ?Eu, ?Ef, ?app_nil_r; try done.
  - by rewrite Hr, (forallb_settled_snoc _ _ false), orb_false_r.
  - rewrite He, filter_len_snoc, Eq. lia.
  - intros t. by rewrite output_in_snoc, Ef.
Qed.

Lemma quarantine_ok red rs v r l : pass_ok red rs v -> quarantined r = true -> unlisted r = false -> settled r = true ->
  l <> NoLine ->
  pass_ok red (rs ++ [r]) (let v := noted v r in
    mkverdict v.(v_red) (v.(v_excused) + 1) (v.(v_out) ++ [l]) (r.(t_test) :: v.(v_quarantined)) v.(v_unlisted)
      v.(v_unlistedIDs) v.(v_failing) v.(v_outputs)).
Proof.
  intros [Hr He Hq Hu Hi Hf Ho Hp Hn] Eq Eu Es El. destruct (noted_fields v r) as (N1 & N2 & N3 & N4 & N5 & N6).
  constructor; cbn; rewrite ?N1, ?N2, ?N3, ?N4, ?N5, ?N6, ?tests_snoc, ?Eq, ?Eu, ?app_nil_r; try done.
  - by rewrite Hr, (forallb_settled_snoc _ _ false), orb_false_r.
  - rewrite He, filter_len_snoc, Eq. lia.
  - intros t. cbn. rewrite elem_of_cons, elem_of_app, list_elem_of_singleton, Hq. tauto.
  - by rewrite (noted_failing v r rs Hf), tests_snoc.
  - intros t. by apply noted_outputs.
  - intros i. rewrite lookup_snoc_line, Hp. naive_solver.
Qed.
Lemma pending_ok red rs v r : pass_ok red rs v -> quarantined r = false -> unlisted r = true -> settled r = true ->
  pass_ok red (rs ++ [r]) (let v := noted v r in
    mkverdict v.(v_red) v.(v_excused) (v.(v_out) ++ [NoLine]) v.(v_quarantined)
      (v.(v_unlisted) ++ [(length v.(v_out), r.(t_test))]) (r.(t_test) :: v.(v_unlistedIDs)) v.(v_failing) v.(v_outputs)).
Proof.
  intros [Hr He Hq Hu Hi Hf Ho Hp Hn] Eq Eu Es. destruct (noted_fields v r) as (N1 & N2 & N3 & N4 & N5 & N6).
  constructor; cbn; rewrite ?N1, ?N2, ?N3, ?N4, ?N5, ?N6, ?tests_snoc, ?Eq, ?Eu, ?app_nil_r, ?map_app; try done.
  - by rewrite Hr, (forallb_settled_snoc _ _ false), orb_false_r.
  - rewrite He, filter_len_snoc, Eq. lia.
  - by rewrite Hu.
  - intros t. cbn. rewrite elem_of_cons, elem_of_app, list_elem_of_singleton, Hi. tauto.
  - by rewrite (noted_failing v r rs Hf), tests_snoc.
  - intros t. by apply noted_outputs.
  - intros i. cbn. rewrite lookup_snoc_line, Hp, elem_of_app, list_elem_of_singleton. naive_solver.
  - apply NoDup_app. split; [done|]. split; [|apply NoDup_singleton].
    intros i Hi' ->%list_elem_of_singleton. apply Hp in Hi'. cbn in Hi'. rewrite lookup_ge_None_2 in Hi'; done.
Qed.

Lemma result_step_ok red rs v r : pass_ok red rs v -> pass_ok red (rs ++ [r]) (result_step v r).
Proof.
  intros Hv. unfold result_step.
  destruct (String.eqb (t_status r) "pass" || String.eqb (t_status r) "skip") eqn:Ep.
  - assert (failing r = false) as Ef.
    { unfold failing. apply orb_true_iff in Ep as [->%String.eqb_eq| ->%String.eqb_eq]; done. }
    assert (settled r = true) as Es by (unfold settled; by rewrite Ep).
    destruct (byID !! t_test r); [|by apply skipped_ok].
    assert (v = noted v r) as E by (unfold noted; by rewrite Ef). rewrite E at 1.
    apply settle_ok; try done; unfold quarantined, unlisted; by rewrite Ef.
  - destruct (String.eqb (t_status r) "fail") eqn:Ef; cbn [negb].
    2: { assert (v = noted v r) as E by (unfold noted, failing; by rewrite Ef). rewrite E at 1.
         apply settle_ok; try done; unfold settled, quarantined, unlisted, failing; by rewrite ?Ep, Ef. }
    assert (En : failed v r = noted v r) by (unfold noted, failing; by rewrite Ef). rewrite En. clear En.
    assert (Hfail : failing r = true) by (by unfold failing). cbv zeta.
    destruct (byID !! t_test r) as [e|] eqn:Eb.
    + assert (Eq : quarantined r = excusable r e) by (unfold quarantined; by rewrite Hfail, Eb).
      assert (Eu : unlisted r = false) by (unfold unlisted, listed; by rewrite Hfail, Eb).
      assert (Es : settled r = excusable r e) by (unfold settled; rewrite Ep, Eq, Eu; by destruct (excusable r e)).
      assert (Hred : excusable r e = false -> forall l, l <> NoLine -> pass_ok red (rs ++ [r]) (settle (noted v r) true l)).
      { intros Hx l Hl. apply settle_ok; [done|by rewrite Eq|done|by rewrite Es|done]. }
      unfold excusable in *. destruct (String.eqb (raceMarker (t_output r)) ""); cbn [negb]; [|by apply Hred].
      destruct (String.eqb tier "full"); cbn [negb andb] in *; [by apply Hred|].
      destruct (existsb (String.eqb (e_pkg e)) edited); cbn [negb andb] in *; [by apply Hred|].
      destruct (carriedByEveryRun (t_failedRuns r) (e_sig e)); cbn [negb andb] in *; [|by apply Hred].
      by apply quarantine_ok.
    + apply pending_ok; [done|..]; unfold settled, quarantined, unlisted, listed; rewrite ?Hfail, ?Eb; [done..|].
      by rewrite !orb_true_r.
Qed.

Lemma first_pass_ok red rs : pass_ok red rs (first_pass red rs).
Proof.
  induction rs as [|r rs IH] using rev_ind.
  - constructor; cbn; try done; [by rewrite orb_false_r| |constructor].
    intros i. split; [done|by intros []%elem_of_nil].
  - unfold first_pass. rewrite foldl_app. by apply result_step_ok.
Qed.

(** ** The second loop *)
Definition kids_in (rs : list result) (u : string) : list string := List.filter (fun c => below c u) (tests failing rs).
(** An unlisted failure is covered by its subtests. *)
Record covered_in (rs : list result) (u : string) : Prop := {
  cover_race : raceMarker (output_in rs u) = "";
  cover_kids : kids_in rs u <> [];
  cover_each : forall c, c ∈ kids_in rs u ->
    c ∈ tests quarantined rs \/ c ∈ tests unlisted rs /\ exists g, g ∈ kids_in rs u /\ below g c = true;
  cover_own : ownFailure (name_of u) (output_in rs u) (map (output_in rs) (kids_in rs u)) = "" }.

Lemma is_in_spec t l : is_in t l = true <-> t ∈ l.
Proof.
  unfold is_in. rewrite existsb_exists, list_elem_of_In. split; [intros (x & Hx & ->%String.eqb_eq)|]; [done|].
  intros H. exists t. split; [done|]. apply String.eqb_refl.
Qed.
Lemma len_pos {A} (l : list A) : (len l >? 0) = true <-> l <> [].
Proof. unfold len. rewrite Z.gtb_lt. destruct l; simpl; split; intros; done || lia. Qed.

Definition unlisted_ok (v : verdict) (u : string) : bool :=
  String.eqb (raceMarker (output_of v u)) "" && covered v u && String.eqb (own_failure v u) "".
Lemma unlisted_ok_spec red rs v u : pass_ok red rs v -> unlisted_ok v u = true <-> covered_in rs u.
Proof.
  intros [_ _ Hq _ Hi Hf Ho _ _]. unfold unlisted_ok, own_failure.
  assert (Hk : kids v u = kids_in rs u) by (unfold kids, kids_in; by rewrite Hf).
  assert (Hc : covered v u = true <-> kids_in rs u <> [] /\ forall c, c ∈ kids_in rs u ->
    c ∈ tests quarantined rs \/ c ∈ tests unlisted rs /\ exists g, g ∈ kids_in rs u /\ below g c = true).
  { unfold covered. rewrite andb_true_iff, Hk, len_pos, forallb_forall.
    assert (forall c, is_in c (v_quarantined v) || is_in c (v_unlistedIDs v) && existsb (fun g => below g c) (kids_in rs u) = true <->
      c ∈ tests quarantined rs \/ c ∈ tests unlisted rs /\ exists g, g ∈ kids_in rs u /\ below g c = true) as E.
    { intros c. rewrite orb_true_iff, andb_true_iff, !is_in_spec, Hq, Hi, existsb_exists.
      setoid_rewrite list_elem_of_In. done. }
    setoid_rewrite E. setoid_rewrite <- list_elem_of_In. done. }
  assert (map (output_of v) (kids v u) = map (output_in rs) (kids_in rs u)) as Hm by (rewrite Hk; by apply map_ext).
  rewrite !andb_true_iff, !String.eqb_eq, Hm, Ho. split.
  - intros [[Hr Hcov] Hown]. rewrite Hcov in Hown. apply Hc in Hcov as [? ?]. by constructor.
  - intros [Hr Hk' He Hown]. assert (covered v u = true) as Hcov by (by apply Hc). by rewrite Hcov.
Qed.

Lemma unlisted_step_spec v red out i u : exists l, l <> NoLine /\
  unlisted_step v (red, out) (i, u) = (red || negb (unlisted_ok v u), <[i := l]> out).
Proof.
  unfold unlisted_step, unlisted_ok. destruct (String.eqb (raceMarker _) ""); cbn [negb andb].
  2: { rewrite orb_true_r. (eexists; split; [|reflexivity]; discriminate). }
  destruct (covered v u); cbn [negb andb]; [|rewrite orb_true_r; (eexists; split; [|reflexivity]; discriminate)].
  destruct (String.eqb (own_failure v u) ""); cbn [negb andb]; [rewrite orb_false_r|rewrite orb_true_r]; (eexists; split; [|reflexivity]; discriminate).
Qed.
Lemma unlisted_fold v ps red out :
  let '(red', out') := foldl (unlisted_step v) (red, out) ps in
  red' = red || negb (forallb (unlisted_ok v) (map snd ps)) /\ length out' = length out /\
  (forall i, out' !! i = Some NoLine -> out !! i = Some NoLine /\ i ∉ map fst ps).
Proof.
  revert red out. induction ps as [|[i u] ps IH]; intros red out; cbn [foldl map forallb fst snd].
  { split; [by rewrite orb_false_r|]. split; [done|]. intros i Hi. split; [done|apply not_elem_of_nil]. }
  destruct (unlisted_step_spec v red out i u) as (l & Hl & ->). specialize (IH (red || negb (unlisted_ok v u)) (<[i := l]> out)).
  destruct (foldl _ _ _) as [red' out']. destruct IH as (-> & -> & Hn). split.
  { by destruct red, (unlisted_ok v u), (forallb (unlisted_ok v) (map snd ps)). }
  rewrite length_insert. split; [done|]. intros j Hj. apply Hn in Hj as [Hj Hnin].
  destruct (decide (i = j)) as [<-|Hne].
  - destruct (decide (i < length out)%nat).
    + rewrite list_lookup_insert_eq in Hj by done. congruence.
    + rewrite list_insert_ge, lookup_ge_None_2 in Hj by lia. done.
  - rewrite list_lookup_insert_ne in Hj by done. split; [done|]. apply not_elem_of_cons. by split.
Qed.

(** ** The verdict *)
Record green (errs : list line) (rs : list result) : Prop := {
  green_registry : errs = [] /\ Forall (fun e => Before e.(e_deadlineDate) today = false) entries;
  green_settled : Forall (fun r => settled r = true) rs;
  green_covered : Forall (fun r => unlisted r = true -> covered_in rs r.(t_test)) rs }.

Lemma expired_none : (len expired_lines >? 0) = false <-> Forall (fun e => Before e.(e_deadlineDate) today = false) entries.
Proof.
  rewrite <- not_true_iff_false, len_pos. unfold expired_lines. rewrite Forall_forall. split.
  - intros H e He. apply not_true_iff_false. intros Hb. apply H. intros E. apply map_eq_nil in E.
    assert (In e (List.filter (fun e => Before (e_deadlineDate e) today) entries)) as Hin.
    { apply filter_In. by rewrite <- list_elem_of_In. }
    by rewrite E in Hin.
  - intros H Hne. apply Hne. destruct (List.filter _ _) as [|e l] eqn:E; [done|]. exfalso.
    assert (In e (e :: l)) as Hin by (by left). rewrite <- E in Hin. apply filter_In in Hin as [Hin Hb].
    rewrite H in Hb; [done|by apply list_elem_of_In].
Qed.

Lemma evaluate_entries_spec errs rs red excused lines :
  evaluate_entries errs rs = (red, excused, lines) ->
  (red = false <-> green errs rs) /\ excused = len (List.filter quarantined rs) /\ NoLine ∉ lines.
Proof.
  unfold evaluate_entries. set (red0 := (len errs >? 0) || (len expired_lines >? 0)).
  pose proof (first_pass_ok red0 rs) as Hv. set (v := first_pass red0 rs) in *.
  pose proof (unlisted_fold v (v_unlisted v) (v_red v) (v_out v)) as Hu.
  destruct (foldl _ _ _) as [red' out']. destruct Hu as (-> & _ & Hn). intros [= <- <- <-].
  split; [|split; [apply Hv|]].
  - rewrite (pass_unlisted _ _ _ Hv), (pass_red _ _ _ Hv). unfold red0.
    rewrite !orb_false_iff, !negb_false_iff, expired_none, !forallb_Forall.
    rewrite <- (not_true_iff_false (len errs >? 0)), len_pos.
    assert (Forall (fun u => unlisted_ok v u = true) (tests unlisted rs) <->
      Forall (fun r => unlisted r = true -> covered_in rs (t_test r)) rs) as ->.
    { rewrite !Forall_forall. unfold tests. setoid_rewrite list_elem_of_fmap. setoid_rewrite (unlisted_ok_spec red0 rs v _ Hv).
      setoid_rewrite list_elem_of_In. setoid_rewrite filter_In. setoid_rewrite <- list_elem_of_In. naive_solver. }
    assert (~ errs <> [] <-> errs = []) as -> by (destruct errs; naive_solver).
    split; [intros [[[? ?] ?] ?]; by constructor|intros [[? ?] ? ?]; done].
  - rewrite !not_elem_of_app. split.
    + split; [|unfold expired_lines]; rewrite list_elem_of_fmap; by intros (? & [=] & _).
    + intros [i Hi]%list_elem_of_lookup. apply Hn in Hi as [Hi Hin]. by apply (pass_pending _ _ _ Hv) in Hi.
Qed.

(** ** Every failure of a green run rests on a quarantined one *)
Lemma byID_entry t e : byID !! t = Some e -> e ∈ entries /\ e.(e_test) = t.
Proof.
  unfold byID. induction entries as [|x es IH] using rev_ind; [done|]. rewrite foldl_app. cbn [foldl].
  destruct (decide (e_test x = t)) as [<-|Hne].
  - rewrite lookup_insert_eq. intros [= <-]. split; [|done]. apply elem_of_app. right. apply list_elem_of_singleton. done.
  - rewrite lookup_insert_ne by done. intros H. apply IH in H as [? ?]. split; [|done]. apply elem_of_app. by left.
Qed.
Lemma below_longer t u : below t u = true -> (String.length u < String.length t)%nat.
Proof.
  unfold below. intros (x & ->)%HasPrefix_spec. rewrite !slength_app. simpl. lia.
Qed.
Lemma below_trans a b c : below a b = true -> below b c = true -> below a c = true.
Proof.
  unfold below. intros (x & ->)%HasPrefix_spec (y & ->)%HasPrefix_spec. apply HasPrefix_spec.
  exists (y +:+ ("/" +:+ x)). by rewrite !sapp_assoc.
Qed.
Lemma longest (l : list string) : l <> [] -> exists c, c ∈ l /\ forall g, g ∈ l -> (String.length g <= String.length c)%nat.
Proof.
  induction l as [|x l IH]; [done|]. intros _. destruct l as [|y l].
  - exists x. split; [left|]. intros g ->%list_elem_of_singleton. done.
  - destruct IH as (c & Hc & Hm); [done|]. destruct (decide (String.length c <= String.length x)%nat) as [H|H].
    + exists x. split; [left|]. intros g [->|Hg]%elem_of_cons; [done|]. specialize (Hm g Hg). lia.
    + exists c. split; [by right|]. intros g [->|Hg]%elem_of_cons; [lia|by apply Hm].
Qed.
Lemma covered_root rs u : covered_in rs u -> exists c, c ∈ tests quarantined rs /\ below c u = true.
Proof.
  intros [_ Hk He _]. destruct (longest _ Hk) as (c & Hc & Hm). exists c. split.
  - destruct (He c Hc) as [?|(_ & g & Hg & Hb)]; [done|]. apply below_longer in Hb. specialize (Hm g Hg). lia.
  - unfold kids_in in Hc. rewrite list_elem_of_In in Hc. by apply filter_In in Hc as [_ ?].
Qed.
Lemma elem_of_tests P rs t : t ∈ tests P rs <-> exists r, r ∈ rs /\ P r = true /\ r.(t_test) = t.
Proof.
  unfold tests. rewrite list_elem_of_fmap. setoid_rewrite list_elem_of_In. setoid_rewrite filter_In. naive_solver.
Qed.
Lemma failing_settled r : failing r = true -> settled r = true -> quarantined r = true \/ unlisted r = true.
Proof.
  unfold settled, failing. intros ->%String.eqb_eq. cbn [orb String.eqb]. intros H. apply orb_true_iff in H. exact H.
Qed.
Lemma green_rooted errs rs r : green errs rs -> r ∈ rs -> failing r = true ->
  exists q e, q ∈ rs /\ failing q = true /\ byID !! q.(t_test) = Some e /\ excusable q e = true /\
    (q = r \/ below q.(t_test) r.(t_test) = true).
Proof.
  intros [_ Hs Hc] Hr Hf. rewrite Forall_forall in Hs. rewrite Forall_forall in Hc.
  assert (Hq : forall q, quarantined q = true -> exists e, failing q = true /\ byID !! q.(t_test) = Some e /\ excusable q e = true).
  { intros q. unfold quarantined. intros [? H]%andb_true_iff. destruct (byID !! t_test q) as [e|]; [eauto|done]. }
  destruct (failing_settled r Hf (Hs r Hr)) as [H|H].
  - destruct (Hq r H) as (e & ? & ? & ?). exists r, e. tauto.
  - destruct (covered_root rs _ (Hc r Hr H)) as (c & (q & Hin & Hqq & <-)%elem_of_tests & Hb).
    destruct (Hq q Hqq) as (e & ? & ? & ?). exists q, e. tauto.
Qed.
Lemma green_excused errs rs : green errs rs -> (len (List.filter quarantined rs) >? 0) = (len (List.filter failing rs) >? 0).
Proof.
  intros Hg. apply eq_true_iff_eq. rewrite !len_pos.
  assert (Hne : forall P : result -> bool, List.filter P rs <> [] <-> exists r, r ∈ rs /\ P r = true).
  { intros P. split.
    - intros H. destruct (List.filter P rs) as [|r l] eqn:E; [done|]. exists r.
      assert (In r (r :: l)) as Hin by (by left). rewrite <- E in Hin. apply filter_In in Hin. by rewrite list_elem_of_In.
    - intros (r & Hr & HP) E. assert (In r (List.filter P rs)) as Hin by (apply filter_In; by rewrite <- list_elem_of_In).
      by rewrite E in Hin. }
  rewrite !Hne. split.
  - intros (r & Hr & [Hf _]%andb_true_iff). eauto.
  - intros (r & Hr & Hf). destruct (green_rooted errs rs r Hg Hr Hf) as (q & e & Hq & Hqf & Hb & Hx & _).
    exists q. split; [done|]. unfold quarantined. by rewrite Hqf, Hb.
Qed.
End Evaluate.

(** [None] is a panic, which [parseRegistry] never has. *)
Definition evaluate (registry : string) (results : list result) (tier : string) (edited : list string) (today : date)
    : option (bool * Z * list line) :=
  match parseRegistry registry with
  | None => None
  | Some (entries, errs) => Some (evaluate_entries entries tier edited today errs results)
  end.

(** The verdict of evaluate: it is green exactly when the registry parses
    without error and holds no expired entry, every result is a pass, a skip, a
    listed failure that meets all the conditions of an excuse, or an unlisted
    one, and every unlisted failure is covered by its failing subtests with
    nothing of its own in its output; the count is that of the excused listed
    failures; and every reported line was decided. *)
Theorem evaluate_spec registry results tier edited today :
  exists entries errs red excused lines,
    parseRegistry registry = Some (entries, errs) /\
    evaluate registry results tier edited today = Some (red, excused, lines) /\
    (red = false <-> green entries tier edited today errs results) /\
    excused = len (List.filter (quarantined entries tier edited) results) /\ NoLine ∉ lines.
Proof.
  destruct (parseRegistry_ok registry) as (entries & errs & E & _). exists entries, errs.
  unfold evaluate. rewrite E. destruct (evaluate_entries _ _ _ _ _ _) as [[red excused] lines] eqn:Ee.
  exists red, excused, lines. apply evaluate_entries_spec in Ee as (? & ? & ?). tauto.
Qed.

(** C13: In a green run every failing test rests on a failing test that the
    registry lists, itself or a subtest below it: the entry is well formed and
    not past its deadline, the tier is not full, the entry's package is not
    edited, no race or sanitizer report occurs in the output, and every failed
    run carries the recorded signature. *)
Theorem green_failures_are_excused registry results tier edited today excused lines r :
  evaluate registry results tier edited today = Some (false, excused, lines) ->
  r ∈ results -> failing r = true ->
  0 < excused /\
  exists q e, q ∈ results /\ failing q = true /\
    (q = r \/ below q.(t_test) r.(t_test) = true) /\
    e.(e_test) = q.(t_test) /\ entry_ok e /\ Before e.(e_deadlineDate) today = false /\
    tier <> "full" /\ (e.(e_pkg) ∉ edited) /\ raceMarker q.(t_output) = "" /\
    q.(t_failedRuns) <> [] /\ Forall (fun run => Contains run e.(e_sig) = true) q.(t_failedRuns).
Proof.
  unfold evaluate. destruct (parseRegistry_ok registry) as (entries & errs & E & Hok & _). rewrite E.
  intros [= Ee] Hr Hf. apply evaluate_entries_spec in Ee as (Hg & -> & _).
  apply proj1 in Hg. specialize (Hg eq_refl). destruct (green_rooted _ _ _ _ _ _ r Hg Hr Hf) as (q & e & Hq & Hqf & Hb & Hx & Hrel).
  destruct (byID_entry _ _ _ Hb) as [He Ht]. split.
  - assert (In q (List.filter (quarantined entries tier edited) results)) as Hin.
    { apply filter_In. split; [by apply list_elem_of_In|]. unfold quarantined. by rewrite Hqf, Hb. }
    unfold len. destruct (List.filter _ _); [done|simpl; lia].
  - exists q, e. unfold excusable in Hx. rewrite !andb_true_iff, !negb_true_iff, String.eqb_eq, String.eqb_neq in Hx.
    destruct Hx as [[[Hrace Htier] Hed] Hcar]. unfold carriedByEveryRun in Hcar.
    rewrite andb_true_iff, len_pos, forallb_Forall in Hcar. destruct Hcar as [Hcar Hne].
    split; [done|]. split; [done|]. split; [done|]. split; [done|].
    split; [rewrite Forall_forall in Hok; by apply Hok|].
    split; [destruct Hg as [[_ Hd] _ _]; rewrite Forall_forall in Hd; by apply Hd|].
    split; [done|]. split; [|done]. intros Hin%is_in_spec. unfold is_in in Hin. congruence.
Qed.

Definition sample_failure : result :=
  mkresult "k3sm.io/a::TestX/sub" "fail" "timed out waiting for x" ["timed out waiting for x"] "" false.
Definition sample_parent : result := mkresult "k3sm.io/a::TestX" "fail" "=== RUN   TestX" ["=== RUN   TestX"] "" false.
Lemma green_failures_are_excused_witness :
  exists excused lines, evaluate sample_registry [sample_failure; sample_parent] "fast" [] (mkdate 2024 1 2) = Some (false, excused, lines) /\
    0 < excused.
Proof.
  eexists _, _. assert (E : evaluate sample_registry [sample_failure; sample_parent] "fast" [] (mkdate 2024 1 2) = Some (false, 1, _))
    by (vm_compute; reflexivity).
  split; [exact E|]. apply (green_failures_are_excused _ _ _ _ _ _ _ sample_parent E); [|reflexivity].
  apply list_elem_of_In. right. left. reflexivity.
Defined.

(** The full tier excuses nothing: it is green only when every result is a
    pass or a skip, whatever the registry lists. *)
Theorem full_tier_reds registry results edited today excused lines :
  evaluate registry results "full" edited today = Some (false, excused, lines) ->
  Forall (fun r => r.(t_status) = "pass" \/ r.(t_status) = "skip") results /\ excused = 0.
Proof.
  unfold evaluate. destruct (parseRegistry_ok registry) as (entries & errs & E & _). rewrite E. intros [= Ee].
  apply evaluate_entries_spec in Ee as (Hg & -> & _). specialize (proj1 Hg eq_refl) as Hgr.
  assert (Hnone : forall r, r ∈ results -> failing r = false).
  { intros r Hr. apply not_true_iff_false. intros Hf. destruct (green_rooted _ _ _ _ _ _ r Hgr Hr Hf) as (q & e & _ & _ & _ & Hx & _).
    unfold excusable in Hx. rewrite !andb_true_iff in Hx. destruct Hx as [[[_ [=]] _] _]. }
  split.
  - destruct Hgr as [_ Hs _]. rewrite Forall_forall in Hs |- *. intros r Hr. specialize (Hs r Hr).
    unfold settled, quarantined, unlisted in Hs. rewrite (Hnone r Hr) in Hs. cbn [andb] in Hs. rewrite !orb_false_r in Hs.
    apply orb_true_iff in Hs as [?%String.eqb_eq|?%String.eqb_eq]; tauto.
  - destruct (List.filter _ results) as [|r l] eqn:El; [done|].
    assert (In r (r :: l)) as Hin by (by left). rewrite <- El in Hin. apply filter_In in Hin as [Hin Hq].
    unfold quarantined in Hq. rewrite Hnone in Hq; [done|]. by apply list_elem_of_In.
Qed.
Lemma full_tier_reds_witness : exists lines,
  evaluate sample_registry [mkresult "a::TestA" "pass" "" [] "" false] "full" [] (mkdate 2024 1 2) = Some (false, 0, lines) /\
  Forall (fun r => r.(t_status) = "pass" \/ r.(t_status) = "skip") [mkresult "a::TestA" "pass" "" [] "" false].
Proof.
  eexists. assert (E : evaluate sample_registry [mkresult "a::TestA" "pass" "" [] "" false] "full" [] (mkdate 2024 1 2) = Some (false, 0, _))
    by (vm_compute; reflexivity).
  split; [exact E|]. apply (full_tier_reds _ _ _ _ _ _ E).
Defined.
