(* ===== verification/TestStream.v ===== *)
(** * The test stream and the exit status (src/hack/lib/testresults.go)

    The collector that turns a [go test -json] stream into results, and [run],
    which reads the registry and the stream and chooses the exit status.  The
    JSON decoding of a line is a parameter [unmarshal]; the flags arrive
    parsed; of what [run] prints, the report lines and the echoed output are
    kept, the summary text is not. *)
From S2P Require Import Prelude GoLib GoStrings GoRunes NetIP QuarantineText QuarantineRegistry TestResults.

Definition exitGreen : Z := 0.
Definition exitRed : Z := 1.
Definition exitUsage : Z := 2.
Definition exitExcused : Z := 3.

Record event := mkevent {
  ev_Action : string; ev_Package : string; ev_ImportPath : string; ev_Test : string; ev_Output : string }.

Record collector := mkcollector {
  c_w : list string;                  (* what was written to w *)
  c_tests : gmap string result;
  c_order : list string;
  c_errs : list line;
  c_pkgFail : gset string;
  c_pkgHasFail : gset string;
  c_pkgOrder : list string;
  c_pkgText : gmap string string;
  c_pkgSeen : list string;
  c_buildFail : list string;
  c_text : list string;
}.
Definition newCollector : collector := mkcollector [] ∅ [] [] ∅ ∅ [] ∅ [] [] [].

Definition add_err (c : collector) (l : line) : collector :=
  mkcollector c.(c_w) c.(c_tests) c.(c_order) (c.(c_errs) ++ [l]) c.(c_pkgFail) c.(c_pkgHasFail) c.(c_pkgOrder)
    c.(c_pkgText) c.(c_pkgSeen) c.(c_buildFail) c.(c_text).

(** ** Events without a package, of a package, of a test *)
Definition build_event (c : collector) (ev : event) : collector :=
  mkcollector (c.(c_w) ++ [ev.(ev_Output)]) c.(c_tests) c.(c_order) c.(c_errs) c.(c_pkgFail) c.(c_pkgHasFail)
    c.(c_pkgOrder) c.(c_pkgText) c.(c_pkgSeen)
    (if String.eqb ev.(ev_Action) "build-fail" then c.(c_buildFail) ++ [ev.(ev_ImportPath)] else c.(c_buildFail))
    (c.(c_text) ++ [ev.(ev_Output)]).

Definition pass_line : string := "PASS" +:+ String newline "".
Definition package_event (c : collector) (ev : event) : collector :=
  let p := ev.(ev_Package) in
  let c :=
    if String.eqb ev.(ev_Action) "output" then
      mkcollector (if String.eqb ev.(ev_Output) pass_line then c.(c_w) else c.(c_w) ++ [ev.(ev_Output)])
        c.(c_tests) c.(c_order) c.(c_errs) c.(c_pkgFail) c.(c_pkgHasFail) c.(c_pkgOrder)
        (<[p := default "" (c.(c_pkgText) !! p) +:+ ev.(ev_Output)]> c.(c_pkgText))
        (match c.(c_pkgText) !! p with None => c.(c_pkgSeen) ++ [p] | Some _ => c.(c_pkgSeen) end)
        c.(c_buildFail) (c.(c_text) ++ [ev.(ev_Output)])
    else c in
  if String.eqb ev.(ev_Action) "fail" then
    mkcollector c.(c_w) c.(c_tests) c.(c_order) c.(c_errs) ({[p]} ∪ c.(c_pkgFail)) c.(c_pkgHasFail)
      (if bool_decide (p ∈ c.(c_pkgFail)) then c.(c_pkgOrder) else c.(c_pkgOrder) ++ [p])
      c.(c_pkgText) c.(c_pkgSeen) c.(c_buildFail) c.(c_text)
  else c.

(** The switch on the action of a test's event. *)
Definition test_event (t : result) (action output : string) : result :=
  if String.eqb action "run" then
    mkresult t.(t_test) t.(t_status) t.(t_output) t.(t_failedRuns) t.(t_run) true
  else if String.eqb action "output" then
    mkresult t.(t_test) t.(t_status) (t.(t_output) +:+ output) t.(t_failedRuns) (t.(t_run) +:+ output) true
  else if String.eqb action "pass" || String.eqb action "skip" then
    mkresult t.(t_test) (if String.eqb t.(t_status) "fail" then t.(t_status) else action) t.(t_output) t.(t_failedRuns) "" false
  else if String.eqb action "fail" then
    mkresult t.(t_test) "fail" t.(t_output) (t.(t_failedRuns) ++ [t.(t_run)]) "" false
  else t.
Definition test_id (ev : event) : string := ev.(ev_Package) +:+ "::" +:+ ev.(ev_Test).
Definition new_result (id : string) : result := mkresult id "" "" [] "" false.
Definition tested_event (c : collector) (ev : event) : collector :=
  let id := test_id ev in
  let t := default (new_result id) (c.(c_tests) !! id) in
  let a := ev.(ev_Action) in
  mkcollector (if String.eqb a "fail" then c.(c_w) ++ [t.(t_run)] else c.(c_w))
    (<[id := test_event t a ev.(ev_Output)]> c.(c_tests))
    (match c.(c_tests) !! id with None => c.(c_order) ++ [id] | Some _ => c.(c_order) end)
    c.(c_errs) c.(c_pkgFail)
    (if String.eqb a "fail" then {[ev.(ev_Package)]} ∪ c.(c_pkgHasFail) else c.(c_pkgHasFail))
    c.(c_pkgOrder) c.(c_pkgText) c.(c_pkgSeen) c.(c_buildFail)
    (if String.eqb a "output" then c.(c_text) ++ [ev.(ev_Output)] else c.(c_text)).

Definition collect_event (c : collector) (n : Z) (ev : event) : collector :=
  if String.eqb ev.(ev_Package) "" && negb (String.eqb ev.(ev_ImportPath) "") && HasPrefix ev.(ev_Action) "build-"
  then build_event c ev
  else if String.eqb ev.(ev_Package) "" || String.eqb ev.(ev_Action) ""
  then add_err c (Sprintf "line %d: event without Package/Action" [ArgZ n])
  else if String.eqb ev.(ev_Test) "" then package_event c ev
  else tested_event c ev.

Section Stream.
Context (unmarshal : string -> option event).

Definition collector_line (c : collector) (n : Z) (raw : string) : collector :=
  if String.eqb (TrimSpace raw) "" then c
  else match unmarshal raw with
       | None => add_err c (Sprintf "line %d: not JSON" [ArgZ n])
       | Some ev => collect_event c n ev
       end.
Fixpoint collect (c : collector) (n : Z) (raws : list string) : collector :=
  match raws with [] => c | raw :: raws' => collect (collector_line c (n + 1) raw) (n + 1) raws' end.

(** ** The results *)
Definition close_result (r : result) : result :=
  if r.(t_open) then mkresult r.(t_test) "" r.(t_output) r.(t_failedRuns) r.(t_run) r.(t_open) else r.
Definition synthetic (id output : string) : result := mkresult id "fail" output [] "" false.
Definition collector_results (c : collector) : list result :=
  let text_of p := default "" (c.(c_pkgText) !! p) in
  let raced := List.filter (fun p => negb (String.eqb (raceMarker (text_of p)) "")) c.(c_pkgSeen) in
  map (fun id => close_result (default (new_result id) (c.(c_tests) !! id))) c.(c_order) ++
  map (fun p => synthetic (p +:+ "::(package)")
         ("package output carries a race or sanitizer report outside any test: " +:+ raceMarker (text_of p))) raced ++
  map (fun p => synthetic (p +:+ "::(package)") "package failed outside any test")
    (List.filter (fun p => negb (bool_decide (p ∈ c.(c_pkgHasFail))) && negb (is_in p raced)) c.(c_pkgOrder)) ++
  map (fun p => synthetic (p +:+ "::(build)") "build failed") c.(c_buildFail).

(** ** run *)
Inductive registry_file :=
| FileText (text : string)
| FileMissing
| FileUnreadable.
Record invocation := mkinvocation {
  i_tier : string; i_todayFlag : string; i_edited : list string; i_registry : registry_file;
  i_stream : list string;        (* the lines the scanner yields *)
  i_scanErr : option string;     (* its error *)
}.
(** From the collected stream on. *)
Definition finish (i : invocation) (tier : string) (today : date) (registry : string) (c : collector) : option (Z * list line) :=
  let errs := match i.(i_scanErr) with
              | None => c.(c_errs)
              | Some e => c.(c_errs) ++ [Sprintf "reading the stream: %v" [ArgS e]]
              end in
  let results := collector_results c in
  match evaluate registry results tier i.(i_edited) today with
  | None => None
  | Some (red, excused, lines) =>
      let lines := map (Prefixed "RED test stream: ") errs ++ lines in
      let red := red || (len errs >? 0) in
      let none := (len results =? 0) && (len errs =? 0) in
      let lines := if none then lines ++ [Sprintf "RED test stream holds no results" []] else lines in
      let red := red || none in
      let failed := len (List.filter failing results) in
      Some (if red then exitRed else if excused >? 0 then exitExcused
            else if failed >? 0 then exitRed else exitGreen, lines)
  end.
(** The result: the exit status and the report lines; [None] is a panic.
    [now] is the date of time.Now; [flags] is [None] when they do not parse. *)
Definition run (now : date) (flags : option invocation) : option (Z * list line) :=
  match flags with
  | None => Some (exitUsage, [])
  | Some i =>
      if negb (String.eqb i.(i_tier) "fast" || String.eqb i.(i_tier) "affected" || String.eqb i.(i_tier) "full")
      then Some (exitUsage, []) else
      let tier := if String.eqb i.(i_tier) "full" then "full" else "fast" in
      match (if String.eqb i.(i_todayFlag) "" then Some now else parseDate i.(i_todayFlag)) with
      | None => Some (exitUsage, [])
      | Some today =>
          match i.(i_registry) with
          | FileUnreadable => Some (exitRed, [])
          | file =>
              finish i tier today (match file with FileText t => t | _ => "" end) (collect newCollector 0 i.(i_stream))
          end
      end
  end.

(** ** The collector keeps one result per test id *)
(** The event a line carries; the action and output it brings to a test. *)
Definition event_of (raw : string) : option event :=
  if String.eqb (TrimSpace raw) "" then None else unmarshal raw.
Definition is_test_event (ev : event) : bool :=
  negb (String.eqb ev.(ev_Package) "") && negb (String.eqb ev.(ev_Action) "") && negb (String.eqb ev.(ev_Test) "").
Definition test_action (id raw : string) : list (string * string) :=
  match event_of raw with
  | Some ev => if is_test_event ev && String.eqb (test_id ev) id then [(ev.(ev_Action), ev.(ev_Output))] else []
  | None => []
  end.
Definition test_actions (id : string) (raws : list string) : list (string * string) := concat (map (test_action id) raws).
Definition replay (t : result) (acts : list (string * string)) : result :=
  foldl (fun t a => test_event t a.1 a.2) t acts.
(** The state of a test after more of its events. *)
Definition replayed (o : option result) (id : string) (acts : list (string * string)) : option result :=
  match acts with [] => o | _ => Some (replay (default (new_result id) o) acts) end.

Lemma collector_line_tests c n raw id :
  c_tests (collector_line c n raw) !! id = replayed (c_tests c !! id) id (test_action id raw).
Proof.
  unfold collector_line, test_action, event_of. destruct (String.eqb (TrimSpace raw) ""); [done|].
  destruct (unmarshal raw) as [ev|]; [|done]. unfold collect_event, is_test_event.
  destruct (String.eqb (ev_Package ev) "") eqn:Ep; cbn [negb andb orb].
  { by destruct (negb (String.eqb (ev_ImportPath ev) "") && _). }
  destruct (String.eqb (ev_Action ev) ""); cbn [negb andb orb]; [done|].
  destruct (String.eqb (ev_Test ev) ""); cbn [negb andb].
  { unfold package_event. by destruct (String.eqb _ "output"), (String.eqb _ "fail"). }
  unfold tested_event. cbn. destruct (String.eqb_spec (test_id ev) id) as [<-|Hne].
  - by rewrite lookup_insert_eq.
  - by rewrite lookup_insert_ne.
Qed.
Lemma replayed_app o id a b : replayed (replayed o id a) id b = replayed o id (a ++ b).
Proof.
  unfold replayed. destruct a as [|x a]; [done|]. destruct b as [|y b]; [by rewrite app_nil_r|].
  cbn [default app]. f_equal. unfold replay. change (x :: a ++ y :: b) with ((x :: a) ++ y :: b). by rewrite foldl_app.
Qed.
Lemma collect_tests raws c n id :
  c_tests (collect c n raws) !! id = replayed (c_tests c !! id) id (test_actions id raws).
Proof.
  revert c n. induction raws as [|raw raws IH]; intros c n; [done|]. cbn [collect]. rewrite IH, collector_line_tests.
  unfold test_actions. cbn [map concat]. apply replayed_app.
Qed.

(** A failure is sticky, and each failing event records one run. *)
Lemma replay_status acts t : (replay t acts).(t_status) = "fail" <->
  t.(t_status) = "fail" \/ "fail" ∈ map fst acts.
Proof.
  revert t. induction acts as [|[a o] acts IH]; intros t; cbn [replay foldl map fst snd].
  { rewrite elem_of_nil. tauto. }
  change (foldl _ (test_event t a o) acts) with (replay (test_event t a o) acts). rewrite IH, elem_of_cons.
  assert ((test_event t a o).(t_status) = "fail" <-> t.(t_status) = "fail" \/ "fail" = a) as ->; [|tauto].
  unfold test_event. destruct (String.eqb_spec a "run") as [->|]; [cbn; naive_solver|].
  destruct (String.eqb_spec a "output") as [->|]; [cbn; naive_solver|].
  destruct (String.eqb_spec a "pass") as [->|].
  { cbn. destruct (String.eqb_spec (t_status t) "fail"); naive_solver. }
  destruct (String.eqb_spec a "skip") as [->|].
  { cbn. destruct (String.eqb_spec (t_status t) "fail"); naive_solver. }
  cbn [orb]. destruct (String.eqb_spec a "fail") as [->|]; cbn; naive_solver.
Qed.
Definition fail_count (acts : list (string * string)) : nat := length (List.filter (fun a => String.eqb a.1 "fail") acts).
Lemma replay_runs acts t : length (replay t acts).(t_failedRuns) = (length t.(t_failedRuns) + fail_count acts)%nat.
Proof.
  revert t. induction acts as [|[a o] acts IH]; intros t; [by rewrite Nat.add_0_r|].
  change (replay t ((a, o) :: acts)) with (replay (test_event t a o) acts). rewrite IH. unfold fail_count. cbn [List.filter fst].
  unfold test_event. destruct (String.eqb_spec a "fail") as [->|Hne]; cbn; [rewrite length_app; simpl; lia|].
  repeat case_match; simpl; lia.
Qed.
Lemma replay_test acts t : (replay t acts).(t_test) = t.(t_test).
Proof.
  revert t. induction acts as [|[a o] acts IH]; intros t; [done|].
  change (replay t ((a, o) :: acts)) with (replay (test_event t a o) acts). rewrite IH. unfold test_event. by repeat case_match.
Qed.

(** ** What the collector never forgets *)
Record collector_ok (c : collector) : Prop := {
  col_order : forall id, id ∈ c.(c_order) <-> is_Some (c.(c_tests) !! id);
  col_once : NoDup c.(c_order);
  col_hasfail : forall p, p ∈ c.(c_pkgHasFail) -> exists id r, c.(c_tests) !! id = Some r /\ r.(t_status) = "fail";
  col_pkgfail : forall p, p ∈ c.(c_pkgFail) -> p ∈ c.(c_pkgOrder) }.
(** A failing package or build, once seen, stays. *)
Definition recorded (c : collector) (ev : event) : Prop :=
  if String.eqb ev.(ev_Package) "" then ev.(ev_ImportPath) ∈ c.(c_buildFail)
  else if String.eqb ev.(ev_Test) "" then ev.(ev_Package) ∈ c.(c_pkgOrder)
  else exists r, c.(c_tests) !! test_id ev = Some r /\ r.(t_status) = "fail".
(** The events that report a failure. *)
Definition fails (ev : event) : Prop :=
  ev.(ev_Package) <> "" /\ ev.(ev_Action) = "fail" \/
  ev.(ev_Package) = "" /\ ev.(ev_ImportPath) <> "" /\ ev.(ev_Action) = "build-fail".

Lemma test_event_fail t a o : t.(t_status) = "fail" -> (test_event t a o).(t_status) = "fail".
Proof. intros H. unfold test_event. rewrite H. by repeat case_match. Qed.
Lemma tested_event_ok c ev : collector_ok c -> collector_ok (tested_event c ev).
Proof.
  intros [Ho Hn Hf Hp]. unfold tested_event. set (id := test_id ev). constructor; cbn.
  - intros id'. destruct (decide (id = id')) as [<-|Hne].
    + rewrite lookup_insert_eq. split; [eauto|]. intros _. destruct (c_tests c !! id) eqn:E; [apply Ho; eauto|].
      apply elem_of_app. right. by apply list_elem_of_singleton.
    + rewrite lookup_insert_ne, <- Ho by done. destruct (c_tests c !! id); [done|].
      rewrite elem_of_app, list_elem_of_singleton. naive_solver.
  - destruct (c_tests c !! id) eqn:E; [done|]. apply NoDup_app. split; [done|]. split; [|apply NoDup_singleton].
    intros x Hx ->%list_elem_of_singleton. apply Ho in Hx as [? Hx]. congruence.
  - assert (Hkeep : forall p, p ∈ c_pkgHasFail c -> exists id' r,
      <[id := test_event (default (new_result id) (c_tests c !! id)) (ev_Action ev) (ev_Output ev)]> (c_tests c) !! id' = Some r /\
      t_status r = "fail").
    { intros p Hin. destruct (Hf p Hin) as (id' & r & Hr & Hs). exists id'. destruct (decide (id = id')) as [<-|Hne].
      - rewrite lookup_insert_eq, Hr. eexists. split; [done|]. by apply test_event_fail.
      - rewrite lookup_insert_ne by done. eauto. }
    intros p. destruct (String.eqb_spec (ev_Action ev) "fail") as [Ea|]; [|apply Hkeep].
    rewrite elem_of_union, elem_of_singleton. intros [->|Hin]; [|by apply (Hkeep p)].
    exists id. rewrite lookup_insert_eq, Ea. by eexists.
  - done.
Qed.
Lemma package_event_ok c ev : collector_ok c -> collector_ok (package_event c ev).
Proof.
  intros [Ho Hn Hf Hp]. unfold package_event.
  destruct (String.eqb (ev_Action ev) "fail"), (String.eqb (ev_Action ev) "output"); constructor; cbn; try done;
    intros p; rewrite elem_of_union, elem_of_singleton; case_bool_decide; rewrite ?elem_of_app, ?list_elem_of_singleton; naive_solver.
Qed.
Lemma collector_line_ok c n raw : collector_ok c -> collector_ok (collector_line c n raw).
Proof.
  intros Hc. unfold collector_line. destruct (String.eqb (TrimSpace raw) ""); [done|].
  destruct (unmarshal raw) as [ev|]; [|by destruct Hc; constructor]. unfold collect_event.
  destruct (_ && _); [by destruct Hc; constructor|]. destruct (_ || _); [by destruct Hc; constructor|].
  destruct (String.eqb (ev_Test ev) ""); [by apply package_event_ok|by apply tested_event_ok].
Qed.

(** The events seen later never undo a record, and a failing event leaves one. *)
Lemma recorded_kept c n raw ev : recorded c ev -> recorded (collector_line c n raw) ev.
Proof.
  unfold recorded. destruct (String.eqb (ev_Package ev) "") eqn:Ep; [|destruct (String.eqb (ev_Test ev) "") eqn:Et].
  1,2: unfold collector_line; destruct (String.eqb (TrimSpace raw) ""); [done|]; destruct (unmarshal raw) as [e|]; [|done];
    unfold collect_event, build_event, package_event, tested_event;
    repeat case_match; cbn; rewrite ?elem_of_app; tauto.
  intros (r & Hr & Hs). rewrite collector_line_tests, Hr. unfold replayed.
  destruct (test_action (test_id ev) raw) as [|a acts]; [eauto|]. eexists. split; [done|]. apply replay_status. by left.
Qed.
Lemma recorded_kept_all raws c n ev : recorded c ev -> recorded (collect c n raws) ev.
Proof. revert c n. induction raws as [|raw raws IH]; intros c n H; [done|]. by apply IH, recorded_kept. Qed.
Lemma recorded_new c n raw ev : collector_ok c -> event_of raw = Some ev -> fails ev -> recorded (collector_line c n raw) ev.
Proof.
  unfold event_of, recorded, collector_line. intros Hc. destruct (String.eqb (TrimSpace raw) ""); [done|]. intros -> Hf.
  unfold collect_event. destruct Hf as [[Hp Ha]|(Hp & Hi & Ha)].
  - apply String.eqb_neq in Hp. rewrite Hp, Ha. cbn [andb orb]. destruct (String.eqb (ev_Test ev) "") eqn:Et; cbn.
    + unfold package_event. rewrite Ha. cbn. case_bool_decide; [by apply Hc|].
      apply elem_of_app. right. by apply list_elem_of_singleton.
    + rewrite lookup_insert_eq, Ha. by eexists.
  - rewrite Hp, Ha. apply String.eqb_neq in Hi. rewrite Hi. cbn. rewrite Ha. cbn.
    apply elem_of_app. right. by apply list_elem_of_singleton.
Qed.
Lemma collect_ok raws c n : collector_ok c -> collector_ok (collect c n raws).
Proof. revert c n. induction raws as [|raw raws IH]; intros c n H; [done|]. by apply IH, collector_line_ok. Qed.
Lemma collect_recorded raws c n raw ev : collector_ok c -> raw ∈ raws -> event_of raw = Some ev -> fails ev ->
  recorded (collect c n raws) ev.
Proof.
  revert c n. induction raws as [|x raws IH]; intros c n Hc Hin He Hf; [by apply elem_of_nil in Hin|]. cbn [collect].
  apply elem_of_cons in Hin as [<-|Hin].
  - apply recorded_kept_all. by apply recorded_new.
  - apply IH; [by apply collector_line_ok|done..].
Qed.
Lemma newCollector_ok : collector_ok newCollector.
Proof.
  constructor; cbn; [|constructor|by intros p []%elem_of_empty|by intros p []%elem_of_empty].
  intros id. rewrite lookup_empty, elem_of_nil. split; [done|by intros []].
Qed.

Lemma in_results_tests c id r : id ∈ c.(c_order) -> c.(c_tests) !! id = Some r -> close_result r ∈ collector_results c.
Proof.
  intros Hin Hr. unfold collector_results. apply elem_of_app. left. apply list_elem_of_fmap. exists id.
  by rewrite Hr.
Qed.
Lemma close_fail r : r.(t_status) = "fail" ->
  (close_result r).(t_status) <> "pass" /\ (close_result r).(t_status) <> "skip".
Proof. unfold close_result. destruct (t_open r); cbn; [done|]. by intros ->. Qed.
Lemma recorded_result c ev : collector_ok c -> recorded c ev ->
  exists r, r ∈ collector_results c /\ r.(t_status) <> "pass" /\ r.(t_status) <> "skip".
Proof.
  intros Hc. unfold recorded. destruct (String.eqb (ev_Package ev) ""); [|destruct (String.eqb (ev_Test ev) "")].
  - intros Hb. exists (synthetic (ev_ImportPath ev +:+ "::(build)") "build failed"). split; [|done].
    unfold collector_results. rewrite !elem_of_app. right. right. right. apply list_elem_of_fmap. eauto.
  - intros Hp. set (p := ev_Package ev) in *. destruct (decide (p ∈ c_pkgHasFail c)) as [Hh|Hh].
    { destruct (col_hasfail _ Hc p Hh) as (id & r & Hr & Hs). exists (close_result r).
      split; [|by apply close_fail]. apply (in_results_tests c id); [|done]. apply Hc. eauto. }
    unfold collector_results.
    set (raced := List.filter _ (c_pkgSeen c)). destruct (is_in p raced) eqn:Er.
    + apply is_in_spec in Er. eexists. split; [|split].
      * rewrite !elem_of_app. right. left. apply list_elem_of_fmap. exists p. split; [reflexivity|done].
      * done.
      * done.
    + exists (synthetic (p +:+ "::(package)") "package failed outside any test"). split; [|done].
      rewrite !elem_of_app. right. right. left. apply list_elem_of_fmap. exists p. split; [done|].
      apply list_elem_of_In, filter_In. split; [by apply list_elem_of_In|].
      rewrite bool_decide_eq_false_2 by done. by rewrite Er.
  - intros (r & Hr & Hs). exists (close_result r). split; [|by apply close_fail].
    apply (in_results_tests c (test_id ev)); [|done]. apply Hc. eauto.
Qed.

(** Without stream errors every line that is not blank decoded. *)
Lemma collector_line_errs c n raw : c_errs (collector_line c n raw) = [] ->
  c_errs c = [] /\ (TrimSpace raw <> "" -> is_Some (event_of raw)).
Proof.
  unfold collector_line, event_of. destruct (String.eqb_spec (TrimSpace raw) ""); [done|].
  destruct (unmarshal raw) as [ev|]; cbn; [|by intros [_ ?]%app_nil]. unfold collect_event.
  destruct (_ && _); [cbn; eauto|]. destruct (_ || _); [by intros [_ ?]%app_nil|]. split; [|eauto]. revert H.
  destruct (String.eqb (ev_Test ev) ""); [|done]. unfold package_event. by repeat case_match.
Qed.
Lemma collect_errs raws c n : c_errs (collect c n raws) = [] ->
  c_errs c = [] /\ forall raw, raw ∈ raws -> TrimSpace raw <> "" -> is_Some (event_of raw).
Proof.
  revert c n. induction raws as [|x raws IH]; intros c n; cbn [collect].
  { intros ->. split; [done|]. by intros raw []%elem_of_nil. }
  intros H. apply IH in H as [H Hr]. apply collector_line_errs in H as [H Hx]. split; [done|].
  intros raw [->|Hin]%elem_of_cons; [done|by apply Hr].
Qed.

(** Each test id of the stream has one result, the replay of exactly its own
    events in order: it is a failure once any of its runs failed, whatever came
    after, with one recorded output per failing run, unless its last run never
    reported, when it has no result at all. *)
Theorem collector_results_spec raws id :
  let acts := test_actions id raws in
  let c := collect newCollector 0 raws in
  NoDup c.(c_order) /\ (id ∈ c.(c_order) <-> acts <> []) /\
  (acts <> [] -> exists r, r ∈ collector_results c /\ r = close_result (replay (new_result id) acts) /\ r.(t_test) = id /\
     length r.(t_failedRuns) = fail_count acts /\
     (r.(t_open) = true -> r.(t_status) = "") /\
     (r.(t_open) = false -> (r.(t_status) = "fail" <-> "fail" ∈ map fst acts))).
Proof.
  intros acts c. assert (Hc : collector_ok c) by apply collect_ok, newCollector_ok.
  assert (Ht : c_tests c !! id = replayed None id acts) by apply collect_tests.
  split; [apply Hc|]. split.
  { rewrite (col_order _ Hc), Ht. unfold replayed. destruct acts; split; try done. }
  intros Hne. exists (close_result (replay (new_result id) acts)).
  assert (c_tests c !! id = Some (replay (new_result id) acts)) as Hr.
  { rewrite Ht. unfold replayed. by destruct acts. }
  split; [apply (in_results_tests c id); [apply Hc; eauto|done]|]. split; [done|].
  pose proof (replay_test acts (new_result id)) as Hn. pose proof (replay_runs acts (new_result id)) as Hl.
  pose proof (replay_status acts (new_result id)) as Hs. unfold close_result.
  destruct (t_open (replay (new_result id) acts)) eqn:Eo; cbn.
  - split; [done|]. split; [done|]. split; [done|]. discriminate.
  - split; [done|]. split; [done|]. split; [by rewrite Eo|]. intros _. rewrite Hs. cbn. naive_solver.
Qed.

(** ** The exit status *)
Definition stream_green (i : invocation) (today : date) (registry : string) : Prop :=
  let c := collect newCollector 0 i.(i_stream) in
  exists entries errs, parseRegistry registry = Some (entries, errs) /\
    green entries (if String.eqb i.(i_tier) "full" then "full" else "fast") i.(i_edited) today errs (collector_results c) /\
    c.(c_errs) = [] /\ i.(i_scanErr) = None /\ collector_results c <> [].
Definition failures (i : invocation) : list result :=
  List.filter failing (collector_results (collect newCollector 0 i.(i_stream))).

Record started (now : date) (i : invocation) (today : date) (registry : string) : Prop := {
  started_tier : i.(i_tier) ∈ ["fast"; "affected"; "full"];
  started_today : (if String.eqb i.(i_todayFlag) "" then Some now else parseDate i.(i_todayFlag)) = Some today;
  started_registry : i.(i_registry) = FileText registry \/ i.(i_registry) = FileMissing /\ registry = "" }.

Lemma len_zero_b {A} (l : list A) : (len l =? 0) = true <-> l = [].
Proof. unfold len. rewrite Z.eqb_eq. destruct l; simpl; split; intros; done || lia. Qed.
Lemma not_pos {A} (l : list A) : (len l >? 0) = false <-> l = [].
Proof. rewrite <- not_true_iff_false, len_pos. destruct l; naive_solver. Qed.

Lemma finish_total i tier today registry c : finish i tier today registry c <> None.
Proof.
  unfold finish, evaluate.
  destruct (parseRegistry_ok registry) as (entries & errs & -> & _). by destruct (evaluate_entries _ _ _ _ _ _) as [[? ?] ?].
Qed.
Lemma run_started now i today registry : started now i today registry ->
  exists red lines', (red = false <-> stream_green i today registry) /\
    run now (Some i) = Some (if red then exitRed else if len (failures i) >? 0 then exitExcused else exitGreen, lines').
Proof.
  intros [Ht Hd Hreg]. unfold run, stream_green, failures.
  assert (negb (String.eqb (i_tier i) "fast" || String.eqb (i_tier i) "affected" || String.eqb (i_tier i) "full") = false) as ->.
  { rewrite !elem_of_cons, elem_of_nil in Ht. destruct Ht as [->|[->|[->|[]]]]; reflexivity. }
  rewrite Hd. set (tier := if String.eqb (i_tier i) "full" then "full" else "fast").
  set (c := collect newCollector 0 (i_stream i)). destruct (parseRegistry_ok registry) as (entries & errs & Ep & _).
  assert (Hlast : exists red lines', (red = false <-> exists entries errs, parseRegistry registry = Some (entries, errs) /\
      green entries tier (i_edited i) today errs (collector_results c) /\ c_errs c = [] /\ i_scanErr i = None /\ collector_results c <> []) /\
    finish i tier today registry c = Some (if red then exitRed else if len (List.filter failing (collector_results c)) >? 0 then exitExcused else exitGreen, lines')).
  2: { destruct Hlast as (red & lines' & H1 & H2). exists red, lines'. split; [exact H1|]. by destruct Hreg as [->|[-> ->]]. }
  unfold finish, evaluate. rewrite Ep. destruct (evaluate_entries _ _ _ _ _ _) as [[red excused] lines] eqn:Ee.
  apply evaluate_entries_spec in Ee as (Hg & -> & _). set (rs := collector_results c) in *.
  set (es := match i_scanErr i with None => _ | Some e => _ end).
  assert (Hes : es = [] <-> c_errs c = [] /\ i_scanErr i = None).
  { unfold es. destruct (i_scanErr i); [|naive_solver]. split; [by intros [_ ?]%app_nil|by intros [_ ?]]. }
  eexists (red || (len es >? 0) || ((len rs =? 0) && (len es =? 0))), _. split.
  - rewrite !orb_false_iff, Hg, not_pos, andb_false_iff, <- !not_true_iff_false, !len_zero_b, Hes. split.
    + intros [[H1 H2] H3]. exists entries, errs. naive_solver.
    + intros (entries' & errs' & E' & H1 & H2 & H3 & H4). injection E' as <- <-. tauto.
  - destruct (red || (len es >? 0) || _) eqn:Er; [reflexivity|].
    rewrite !orb_false_iff in Er. destruct Er as [[->%Hg%green_excused _] _]. by destruct (len (List.filter failing rs) >? 0).
Qed.

(** The day of a run, from its -today flag or the clock. *)
Definition run_today (now : date) (i : invocation) : option date :=
  if String.eqb i.(i_todayFlag) "" then Some now else parseDate i.(i_todayFlag).
(** Flags a run can start with: a known tier and a day. *)
Definition usable (now : date) (i : invocation) : Prop :=
  i.(i_tier) ∈ ["fast"; "affected"; "full"] /\ is_Some (run_today now i).
Lemma run_unusable now i : ~ usable now i -> run now (Some i) = Some (exitUsage, []).
Proof.
  intros Hu. unfold run, usable, run_today in *. destruct (negb _) eqn:Et; [done|].
  rewrite negb_false_iff, !orb_true_iff, !String.eqb_eq in Et.
  destruct (if String.eqb (i_todayFlag i) "" then _ else _) as [today|]; [|done]. exfalso. apply Hu. split; [set_solver|by eexists].
Qed.
Lemma run_usable now i : usable now i ->
  i.(i_registry) = FileUnreadable /\ run now (Some i) = Some (exitRed, []) \/ exists today registry, started now i today registry.
Proof.
  intros [Ht [today Hd]]. destruct (i_registry i) as [text| |] eqn:Ef.
  - right. exists today, text. constructor; [done|done|by left].
  - right. exists today, "". constructor; [done|done|by right].
  - left. split; [done|]. unfold run, run_today in *. rewrite Hd, Ef.
    rewrite !elem_of_cons, elem_of_nil in Ht. by destruct Ht as [->|[->|[->|[]]]].
Qed.

(** C27: Run never panics.  It exits 2 exactly on unusable flags: ones that do
    not parse, a tier that is none of fast, affected and full, or a -today that
    is no date.  With an unreadable registry it exits 1; otherwise it exits 1
    exactly when the run is not green, 3 when it is green with failures, and 0
    when it is green with none: the last case of its switch, failures of which
    none was excused, cannot happen. *)
Theorem run_exit_status now flags : exists code lines, run now flags = Some (code, lines) /\
  match flags with
  | None => code = exitUsage
  | Some i =>
      (code = exitUsage <-> ~ usable now i) /\
      (usable now i -> i.(i_registry) = FileUnreadable -> code = exitRed) /\
      forall today registry, started now i today registry ->
        (code = exitGreen <-> stream_green i today registry /\ failures i = []) /\
        (code = exitExcused <-> stream_green i today registry /\ failures i <> []) /\
        (code = exitRed <-> ~ stream_green i today registry)
  end.
Proof.
  destruct flags as [i|]; [|by eexists _, _].
  assert (forall today registry, started now i today registry -> usable now i) as Hsu.
  { intros today registry [Ht Hd _]. split; [done|]. unfold run_today. rewrite Hd. by eexists. }
  destruct (run now (Some i)) as [[code lines]|] eqn:E.
  - exists code, lines. split; [done|].
    assert (forall today registry, started now i today registry ->
      exists red, (red = false <-> stream_green i today registry) /\
        code = if red then exitRed else if len (failures i) >? 0 then exitExcused else exitGreen) as Hst.
    { intros today registry Hst. destruct (run_started _ _ _ _ Hst) as (red & lines' & Hg & Hr). rewrite E in Hr.
      injection Hr as -> _. by exists red. }
    split_and!.
    + split; [|intros Hu; rewrite run_unusable in E by done; by injection E as <- _].
      intros -> Hu. destruct (run_usable now i Hu) as [[_ Hr]|(today & registry & Hs)]; [rewrite E in Hr; discriminate|].
      destruct (Hst _ _ Hs) as (red & _ & Hc). destruct red; [done|]. by destruct (len (failures i) >? 0).
    + intros Hu Hf. destruct (run_usable now i Hu) as [[_ Hr]|(today & registry & [_ _ Hs])]; [congruence|].
      rewrite Hf in Hs. by destruct Hs as [?|[? _]].
    + intros today registry Hs. destruct (Hst _ _ Hs) as (red & Hg & ->). rewrite <- Hg.
      pose proof (not_pos (failures i)) as Hf. destruct red; [naive_solver|]. destruct (len (failures i) >? 0); naive_solver.
  - exfalso. unfold run in E. repeat case_match; try done; by eapply finish_total.
Qed.

Lemma run_starts now i code lines : run now (Some i) = Some (code, lines) -> code <> exitUsage -> code <> exitRed ->
  exists today registry, started now i today registry.
Proof.
  unfold run. intros E Hu Hr. destruct (negb _) eqn:Et; [naive_solver|].
  assert (i_tier i ∈ ["fast"; "affected"; "full"]) as Hin.
  { rewrite negb_false_iff, !orb_true_iff, !String.eqb_eq in Et. set_solver. }
  destruct (if String.eqb (i_todayFlag i) "" then _ else _) as [today|] eqn:Ed; [|naive_solver].
  destruct (i_registry i) as [text| |] eqn:Ef; [..|naive_solver].
  - exists today, text. constructor; [done|done|by left].
  - exists today, "". constructor; [done|done|by right].
Qed.

(** C5: When run exits 0, every line of the stream decoded and none of them
    reported a failure: no test, no package and no build failed anywhere in
    it, and when it exits 0 or 3 no test was left without a result. *)
Theorem green_exit_sees_no_failure now i code lines :
  run now (Some i) = Some (code, lines) -> code = exitGreen \/ code = exitExcused ->
  (forall raw, raw ∈ i.(i_stream) -> TrimSpace raw <> "" -> exists ev, unmarshal raw = Some ev /\ (code = exitGreen -> ~ fails ev)) /\
  (forall r, r ∈ collector_results (collect newCollector 0 i.(i_stream)) -> r.(t_status) <> "").
Proof.
  intros E Hcode. set (c := collect newCollector 0 (i_stream i)).
  destruct (run_starts _ _ _ _ E) as (today & registry & Hst); [destruct Hcode as [->| ->]; done..|].
  destruct (run_started _ _ _ _ Hst) as (red & lines' & Hg & Hr). rewrite E in Hr. injection Hr as Hc _.
  assert (Hred : red = false /\ (code = exitGreen -> failures i = [])).
  { pose proof (not_pos (failures i)). destruct red; [by destruct Hcode as [->| ->]|].
    split; [done|]. intros ->. destruct (len (failures i) >? 0); [done|]. naive_solver. }
  destruct Hred as [Hred Hf]. apply Hg in Hred as (entries & errs & _ & Hgreen & He & _ & _).
  apply collect_errs in He as [_ He]. destruct Hgreen as [_ Hs _]. rewrite Forall_forall in Hs. split.
  - intros raw Hin Hne. destruct (He raw Hin Hne) as [ev Hev]. exists ev.
    assert (unmarshal raw = Some ev) as Hu. { unfold event_of in Hev. apply String.eqb_neq in Hne. by rewrite Hne in Hev. }
    split; [done|]. intros Hgr Hfail.
    assert (recorded c ev) as Hrec by (by apply (collect_recorded (i_stream i) newCollector 0 raw ev newCollector_ok)).
    destruct (recorded_result c ev) as (r & Hr & Hp & Hsk); [apply collect_ok, newCollector_ok|done|].
    assert (failing r = true) as Hfr.
    { specialize (Hs r Hr). unfold settled, quarantined, unlisted in Hs. apply String.eqb_neq in Hp, Hsk. rewrite Hp, Hsk in Hs.
      by destruct (failing r). }
    assert (In r (failures i)) as HI by (apply filter_In; split; [by apply list_elem_of_In|done]).
    by rewrite Hf in HI.
  - intros r Hr Hst'. specialize (Hs r Hr). unfold settled, quarantined, unlisted, failing in Hs. by rewrite Hst' in Hs.
Qed.
End Stream.

Definition sample_unmarshal (raw : string) : option event :=
  if String.eqb raw "run" then Some (mkevent "run" "p" "" "TestA" "")
  else if String.eqb raw "pass" then Some (mkevent "pass" "p" "" "TestA" "") else None.
Lemma green_exit_sees_no_failure_witness :
  (exists lines, run sample_unmarshal (mkdate 2024 1 2)
     (Some (mkinvocation "full" "" [] FileMissing ["run"; ""; "pass"] None)) = Some (exitGreen, lines)) /\
  exists ev, sample_unmarshal "run" = Some ev /\ (exitGreen = exitGreen -> ~ fails ev).
Proof.
  assert (E : run sample_unmarshal (mkdate 2024 1 2)
    (Some (mkinvocation "full" "" [] FileMissing ["run"; ""; "pass"] None)) = Some (exitGreen, [])) by (vm_compute; reflexivity).
  split; [by eexists|].
  apply (green_exit_sees_no_failure sample_unmarshal _ _ _ _ E); [by left|left|discriminate].
Defined.
