(* ===== verification/Storage.v ===== *)
(** * Local-path storage (src/storage/v1/storage.go)

    The storage class contract and the directory a claim maps to, with the
    parts of package path it uses. *)
From S2P Require Import Prelude GoLib GoStrings GoRunes Sentinels.

(** ** Package path *)
Definition IsAbs (p : string) : bool := HasPrefix p "/".
(** The lexical processing of [path.Clean]: the components kept so far, last
    first. *)
Definition clean_step (rooted : bool) (stack : list string) (c : string) : list string :=
  if String.eqb c "" || String.eqb c "." then stack
  else if String.eqb c ".." then
    match stack with
    | [] => if rooted then [] else [".."]
    | top :: rest => if String.eqb top ".." then ".." :: stack else rest
    end
  else c :: stack.
Definition clean_components (p : string) : list string :=
  reverse (foldl (clean_step (IsAbs p)) [] (Split p "/")).
Definition Clean (p : string) : string :=
  let j := Join (clean_components p) "/" in
  if IsAbs p then "/" +:+ j else if String.eqb j "" then "." else j.
(** [path.Join] of elements none of which is empty. *)
Definition path_Join (elems : list string) : string := Clean (Join elems "/").

(** ** The contract *)
Definition DefaultStorageClassName : string := "local-path".
Definition ProvisionerName : string := "k3sm.io/local-path".
Definition DefaultBasePath : string := "/var/lib/k3sm/storage".
Definition TopologyKeyHostname : string := "kubernetes.io/hostname".
Definition ReclaimRetain : string := "Retain".
Definition ReclaimDelete : string := "Delete".
Definition ReclaimPolicy_Valid (p : string) : bool := String.eqb p ReclaimRetain || String.eqb p ReclaimDelete.
Definition BindingWaitForFirstConsumer : string := "WaitForFirstConsumer".
Definition BindingImmediate : string := "Immediate".
Definition VolumeBindingMode_Valid (m : string) : bool :=
  String.eqb m BindingWaitForFirstConsumer || String.eqb m BindingImmediate.
Definition ErrInvalid := ErrNew "ErrInvalid".

Record LocalPathClass := mkLocalPathClass {
  lp_Name : string;
  lp_Provisioner : string;
  lp_BasePath : string;
  lp_ReclaimPolicy : string;
  lp_VolumeBindingMode : string;
  lp_Parameters : option (gmap string string);
}.
Definition DefaultLocalPathClass : LocalPathClass :=
  mkLocalPathClass DefaultStorageClassName ProvisionerName DefaultBasePath ReclaimRetain BindingWaitForFirstConsumer None.
Definition or_default (s d : string) : string := if String.eqb s "" then d else s.
Definition LocalPathClass_WithDefaults (c : LocalPathClass) : LocalPathClass :=
  mkLocalPathClass (or_default c.(lp_Name) DefaultStorageClassName) (or_default c.(lp_Provisioner) ProvisionerName)
    (or_default c.(lp_BasePath) DefaultBasePath) (or_default c.(lp_ReclaimPolicy) ReclaimRetain)
    (or_default c.(lp_VolumeBindingMode) BindingWaitForFirstConsumer) c.(lp_Parameters).
Definition LocalPathClass_Validate (c : LocalPathClass) : check :=
  let name := ArgS c.(lp_Name) in
  failif (String.eqb c.(lp_Name) "") (ErrorfW "%w: storage class missing name" [] ErrInvalid) ;?
  failif (String.eqb c.(lp_Provisioner) "") (ErrorfW "%w: storage class %q missing provisioner" [name] ErrInvalid) ;?
  failif (String.eqb c.(lp_BasePath) "" || negb (IsAbs c.(lp_BasePath)))
    (ErrorfW "%w: storage class %q basePath %q must be an absolute path" [name; ArgS c.(lp_BasePath)] ErrInvalid) ;?
  failif (negb (String.eqb c.(lp_ReclaimPolicy) ReclaimRetain))
    (ErrorfW "%w: storage class %q reclaimPolicy %q unsupported (only %q is supported)"
      [name; ArgS c.(lp_ReclaimPolicy); ArgS ReclaimRetain] ErrInvalid) ;?
  failif (negb (String.eqb c.(lp_VolumeBindingMode) BindingWaitForFirstConsumer))
    (ErrorfW "%w: storage class %q volumeBindingMode %q unsupported (only %q is supported)"
      [name; ArgS c.(lp_VolumeBindingMode); ArgS BindingWaitForFirstConsumer] ErrInvalid).

Definition maxDNSLabelLen : Z := 63.
Definition maxDNSSubdomainLen : Z := 253.
Definition dnsLabelRe : Regexp.re := Regexp.dns_label.
Definition dnsSubdomainRe : Regexp.re := Regexp.dns_subdomain.
Definition validDNSName (kind v : string) (re : Regexp.re) (max : Z) : check :=
  failif (String.eqb v "") (ErrorfW "%w: DataDir needs a non-empty %s" [ArgS kind] ErrInvalid) ;?
  failif (slen v >? max) (ErrorfW "%w: DataDir %s %q is longer than %d bytes" [ArgS kind; ArgS v; ArgZ max] ErrInvalid) ;?
  failif (negb (Regexp.MatchString re v))
    (ErrorfW "%w: DataDir %s %q must match %s (RFC 1123: lowercase, no separators)" [ArgS kind; ArgS v] ErrInvalid).

Definition DataDir (c : LocalPathClass) (namespace claimName : string) : res string :=
  let base := or_default c.(lp_BasePath) DefaultBasePath in
  validDNSName "namespace" namespace dnsLabelRe maxDNSLabelLen ;!
  validDNSName "claimName" claimName dnsSubdomainRe maxDNSSubdomainLen ;!
  Ok (path_Join [base; namespace; claimName]).

Definition PVName (pvcUID : string) : res string :=
  if String.eqb (TrimSpace pvcUID) "" then Err (ErrorfW "%w: PVName needs a non-empty PVC UID" [] ErrInvalid)
  else Ok ("pvc-" +:+ pvcUID).

Record NodeTopology := mkNodeTopology { nt_Key : string; nt_NodeName : string }.
Definition NodeTopology_WithDefaults (t : NodeTopology) : NodeTopology :=
  mkNodeTopology (or_default t.(nt_Key) TopologyKeyHostname) t.(nt_NodeName).
Definition NodeTopology_Validate (t : NodeTopology) : check :=
  let key := or_default t.(nt_Key) TopologyKeyHostname in
  failif (String.eqb key "") (ErrorfW "%w: node topology missing key" [] ErrInvalid) ;?
  failif (String.eqb t.(nt_NodeName) "") (ErrorfW "%w: node topology missing nodeName" [] ErrInvalid).

Example Clean_examples :
  Clean "/a//b/./c/" = "/a/b/c" /\ Clean "/a/../../b" = "/b" /\ Clean "a/../.." = ".." /\ Clean "" = "." /\ Clean "/.." = "/".
Proof. vm_compute. repeat split. Qed.

(** ** Paths *)
(** A component that [Clean] keeps as it is. *)
Definition proper (c : string) : Prop := without "/" c = true /\ (c ∉ [""; "."; ".."]).

Lemma clean_step_proper rooted stack c : proper c -> clean_step rooted stack c = c :: stack.
Proof.
  intros [_ Hc]. rewrite !not_elem_of_cons in Hc. destruct Hc as (H1 & H2 & H3 & _). unfold clean_step.
  apply String.eqb_neq in H1, H2, H3. by rewrite H1, H2, H3.
Qed.
Lemma clean_fold_proper cs stack : Forall (fun c => without "/" c = true) cs -> Forall proper stack ->
  Forall proper (foldl (clean_step true) stack cs).
Proof.
  intros Hcs. revert stack. induction Hcs as [|c cs Hc Hcs IH]; intros stack Hs; [done|]. cbn [foldl]. apply IH.
  unfold clean_step. destruct (String.eqb_spec c ""); [done|]. destruct (String.eqb_spec c "."); [done|]. cbn [orb].
  destruct (String.eqb_spec c "..").
  - destruct Hs as [|top rest [Ht Hn] Hr]; [done|]. destruct (String.eqb_spec top "..") as [->|]; [|done].
    rewrite !not_elem_of_cons in Hn. tauto.
  - constructor; [|done]. split; [done|]. rewrite !not_elem_of_cons. split_and!; try done. apply not_elem_of_nil.
Qed.
Lemma clean_components_proper p : IsAbs p = true -> Forall proper (clean_components p).
Proof.
  intros Hp. unfold clean_components. rewrite Hp. apply Forall_reverse, clean_fold_proper; [apply Split_without|constructor].
Qed.

Lemma IsAbs_app p q : IsAbs p = true -> IsAbs (p +:+ q) = true.
Proof.
  unfold IsAbs. intros (t & ->)%HasPrefix_spec. apply HasPrefix_spec. exists (t +:+ q). by rewrite sapp_assoc.
Qed.
Lemma path_Join_proper base ns claim : IsAbs base = true -> proper ns -> proper claim ->
  path_Join [base; ns; claim] = "/" +:+ Join (clean_components base ++ [ns; claim]) "/".
Proof.
  intros Hb Hn Hc. unfold path_Join. set (p := Join [base; ns; claim] "/").
  assert (Hp : p = base +:+ String "/" (ns +:+ String "/" claim)) by done.
  assert (Ha : IsAbs p = true) by (rewrite Hp; by apply IsAbs_app).
  unfold Clean. rewrite Ha. do 2 f_equal. unfold clean_components. rewrite Ha, Hb, Hp, !Split_app.
  rewrite (Split_piece ns), (Split_piece claim) by (apply Hn || apply Hc). rewrite foldl_app. cbn [foldl app].
  rewrite !clean_step_proper by done. by rewrite !reverse_cons, <- app_assoc.
Qed.

(** ** Names *)
Definition name_byte (c : ascii) : bool := Regexp.alnum_dash c || Regexp.dot c.
Lemma dns_subdomain_within : re_within name_byte Regexp.dns_subdomain.
Proof.
  assert (Hl : re_within name_byte Regexp.dns_label).
  { apply dns_label_within. intros c Hc. unfold name_byte. by rewrite Hc. }
  split; [exact Hl|]. split; [|exact Hl]. intros c Hc. unfold name_byte. by rewrite Hc, orb_true_r.
Qed.
Lemma name_byte_facts c : name_byte c = true -> Ascii.eqb c "/" = false /\ lower_byte c = c.
Proof.
  unfold name_byte, Regexp.alnum_dash, Regexp.alnum, Regexp.dot. intros H. split.
  - apply Ascii.eqb_neq. intros ->. discriminate H.
  - unfold lower_byte. destruct (is_upper c) eqn:Eu; [|done]. exfalso. revert Eu H.
    unfold is_upper, is_lower, is_digit. rewrite !orb_true_iff, !andb_true_iff, !Z.leb_le, !Ascii.eqb_eq.
    intros Hu [[->|[H|H]]| ->]; try lia; vm_compute in Hu; naive_solver.
Qed.
Lemma name_within v : sforall name_byte v = true -> without "/" v = true /\ ToLower v = v.
Proof.
  intros Hv. split.
  - revert Hv. apply sforall_impl. intros c Hc. by destruct (name_byte_facts c Hc) as [-> _].
  - induction v as [|c v IH]; [done|]. cbn [sforall] in Hv. apply andb_true_iff in Hv as [Hc Hv].
    cbn [ToLower]. rewrite IH by done. by destruct (name_byte_facts c Hc) as [_ ->].
Qed.
(** Neither grammar matches a dot component. *)
Record claim_name (re : Regexp.re) (max : Z) (v : string) : Prop := {
  claim_matches : Regexp.MatchString re v = true;
  claim_length : slen v <= max }.
Lemma label_is_proper v : Regexp.MatchString Regexp.dns_label v = true -> proper v /\ ToLower v = v.
Proof.
  intros Hv. assert (Hw : re_within name_byte Regexp.dns_label).
  { apply dns_label_within. intros c Hc. unfold name_byte. by rewrite Hc. }
  destruct (name_within v (MatchString_within _ _ _ Hw Hv)) as [Hs Hl]. split; [|done]. split; [done|].
  rewrite !not_elem_of_cons. split_and!; try (intros ->; discriminate Hv). apply not_elem_of_nil.
Qed.
Lemma subdomain_is_proper v : Regexp.MatchString Regexp.dns_subdomain v = true -> proper v /\ ToLower v = v.
Proof.
  intros Hv. destruct (name_within v (MatchString_within _ _ _ dns_subdomain_within Hv)) as [Hs Hl].
  split; [|done]. split; [done|].
  rewrite !not_elem_of_cons. split_and!; try (intros ->; discriminate Hv). apply not_elem_of_nil.
Qed.

Lemma validDNSName_None kind v re max : Regexp.MatchString re "" = false ->
  validDNSName kind v re max = None <-> claim_name re max v.
Proof.
  intros He. unfold validDNSName. rewrite !andthen_None, !failif_None, negb_false_iff, String.eqb_neq, Z.gtb_ltb, Z.ltb_ge.
  split; [intros (? & ? & ?); by constructor|]. intros [Hm ?]. split; [|done]. intros ->. congruence.
Qed.
Lemma validDNSName_wraps kind v re max : wraps "ErrInvalid" (validDNSName kind v re max).
Proof. unfold validDNSName. auto 20 with wraps. Qed.

(** What the directory is: the cleaned base extended by exactly two
    components. *)
Definition claim_path (base ns claim : string) : string := "/" +:+ Join (clean_components base ++ [ns; claim]) "/".
Lemma DataDir_Ok c ns claim d : IsAbs (or_default c.(lp_BasePath) DefaultBasePath) = true ->
  DataDir c ns claim = Ok d <->
    claim_name dnsLabelRe maxDNSLabelLen ns /\ claim_name dnsSubdomainRe maxDNSSubdomainLen claim /\
    d = claim_path (or_default c.(lp_BasePath) DefaultBasePath) ns claim.
Proof.
  intros Hb. unfold DataDir. rewrite !checked_Ok, !validDNSName_None by done. split.
  - intros (Hn & Hc & [= <-]). split; [done|]. split; [done|].
    apply path_Join_proper; [done|apply label_is_proper, Hn|apply subdomain_is_proper, Hc].
  - intros (Hn & Hc & ->). split; [done|]. split; [done|]. f_equal.
    apply path_Join_proper; [done|apply label_is_proper, Hn|apply subdomain_is_proper, Hc].
Qed.
Lemma claim_path_folded base ns claim : IsAbs base = true -> proper ns /\ ToLower ns = ns -> proper claim /\ ToLower claim = claim ->
  Split (ToLower (claim_path base ns claim)) "/" = "" :: map ToLower (clean_components base) ++ [ns; claim].
Proof.
  intros Hb [Hn Ln] [Hc Lc]. rewrite Split_ToLower by done. unfold claim_path.
  change ("/" +:+ ?j) with (String "/" j). change (String "/" ?j) with ("" +:+ String "/" j). rewrite Split_app.
  rewrite Split_Join.
  - change (ToLower <$> ?l) with (map ToLower l). rewrite !map_app. cbn [map app Split ToLower]. by rewrite Ln, Lc.
  - by destruct (clean_components base).
  - apply Forall_app. split; [|constructor; [apply Hn|constructor; [apply Hc|constructor]]].
    eapply Forall_impl; [apply (clean_components_proper base Hb)|]. by intros x [? _].
Qed.

(** C31: With an absolute base path, which the class's validation requires, a
    claim's directory is the cleaned base path extended by exactly the
    namespace and the claim name, with no dot or empty component anywhere, for
    exactly the RFC 1123 names within their lengths; any other pair is refused
    with ErrInvalid and yields no path; and two different claims never share a
    directory, not even on a volume that ignores letter case. *)
Theorem DataDir_spec c ns claim : let base := or_default c.(lp_BasePath) DefaultBasePath in
  IsAbs base = true ->
  (forall d, DataDir c ns claim = Ok d <->
     claim_name dnsLabelRe maxDNSLabelLen ns /\ claim_name dnsSubdomainRe maxDNSSubdomainLen claim /\
     d = claim_path base ns claim) /\
  (forall d, DataDir c ns claim = Ok d -> Forall proper (clean_components base ++ [ns; claim])) /\
  (forall e, DataDir c ns claim = Err e -> errors_is e "ErrInvalid" = true) /\
  (forall d ns' claim' d', DataDir c ns claim = Ok d -> DataDir c ns' claim' = Ok d' ->
     ToLower d = ToLower d' -> ns = ns' /\ claim = claim').
Proof.
  intros base Hb. split; [intros d; by apply DataDir_Ok|]. split; [|split].
  - intros d (Hn & Hc & _)%DataDir_Ok; [|done]. apply Forall_app. split; [by apply clean_components_proper|].
    constructor; [apply label_is_proper, Hn|]. constructor; [apply subdomain_is_proper, Hc|constructor].
  - intros e [H|[_ H]]%checked_Err; [by eapply validDNSName_wraps|].
    apply checked_Err in H as [H|[_ [=]]]. by eapply validDNSName_wraps.
  - intros d ns' claim' d' (Hn & Hc & ->)%DataDir_Ok (Hn' & Hc' & ->)%DataDir_Ok E; [|done..].
    apply (f_equal (fun s => Split s "/")) in E.
    rewrite !claim_path_folded in E; try done; try (apply label_is_proper; apply Hn || apply Hn');
      try (apply subdomain_is_proper; apply Hc || apply Hc').
    injection E as E. apply app_inv_head in E. by injection E.
Qed.
Lemma DataDir_spec_witness : DataDir DefaultLocalPathClass "default" "data-0" = Ok "/var/lib/k3sm/storage/default/data-0".
Proof.
  apply (DataDir_spec DefaultLocalPathClass "default" "data-0"); [reflexivity|].
  split; [constructor; vm_compute; [reflexivity|discriminate]|]. split; [constructor; vm_compute; [reflexivity|discriminate]|].
  vm_compute. reflexivity.
Defined.

(** ** The class *)
Record class_ok (c : LocalPathClass) : Prop := {
  class_identity : c.(lp_Name) <> "" /\ c.(lp_Provisioner) <> "";
  class_base : IsAbs c.(lp_BasePath) = true;
  class_policies : c.(lp_ReclaimPolicy) = ReclaimRetain /\ c.(lp_VolumeBindingMode) = BindingWaitForFirstConsumer }.
Lemma LocalPathClass_Validate_None c : LocalPathClass_Validate c = None <-> class_ok c.
Proof.
  unfold LocalPathClass_Validate.
  rewrite !andthen_None, !failif_None, !negb_false_iff, orb_false_iff, negb_false_iff, !String.eqb_eq, !String.eqb_neq. split.
  - intros (? & ? & (_ & ?) & ? & ?). by constructor.
  - intros [[? ?] Ha [? ?]]. split_and!; try done. by intros E; rewrite E in Ha.
Qed.
Lemma or_default_idem s d : or_default (or_default s d) d = or_default s d.
Proof. unfold or_default. destruct (String.eqb s "") eqn:E; [|by rewrite E]. by destruct (String.eqb d ""). Qed.
Lemma or_default_cases s d : s = "" /\ or_default s d = d \/ s <> "" /\ or_default s d = s.
Proof. unfold or_default. destruct (String.eqb_spec s ""); tauto. Qed.

(** Validate accepts exactly the classes with an identity, an absolute base
    path and the two supported policies, its errors wrapping ErrInvalid; filling
    the defaults is done once and turns a class into an accepted one exactly
    when the fields it already had were acceptable, the empty class becoming
    the default one; and the directories of an accepted class are those of its
    own base path. *)
Theorem LocalPathClass_spec c :
  (LocalPathClass_Validate c = None <-> class_ok c) /\ wraps "ErrInvalid" (LocalPathClass_Validate c) /\
  LocalPathClass_WithDefaults (LocalPathClass_WithDefaults c) = LocalPathClass_WithDefaults c /\
  LocalPathClass_WithDefaults (mkLocalPathClass "" "" "" "" "" None) = DefaultLocalPathClass /\
  (LocalPathClass_Validate (LocalPathClass_WithDefaults c) = None <->
     (c.(lp_BasePath) = "" \/ IsAbs c.(lp_BasePath) = true) /\ (c.(lp_ReclaimPolicy) ∈ [""; ReclaimRetain]) /\
     (c.(lp_VolumeBindingMode) ∈ [""; BindingWaitForFirstConsumer])) /\
  (LocalPathClass_Validate c = None -> or_default c.(lp_BasePath) DefaultBasePath = c.(lp_BasePath)).
Proof.
  split; [apply LocalPathClass_Validate_None|]. split; [unfold LocalPathClass_Validate; auto 20 with wraps|].
  split; [unfold LocalPathClass_WithDefaults; cbn; by rewrite !or_default_idem|]. split; [done|]. split.
  - rewrite LocalPathClass_Validate_None, !elem_of_cons, !elem_of_nil.
    destruct (or_default_cases (lp_Name c) DefaultStorageClassName) as [[E1 D1]|[E1 D1]],
      (or_default_cases (lp_Provisioner c) ProvisionerName) as [[E2 D2]|[E2 D2]],
      (or_default_cases (lp_BasePath c) DefaultBasePath) as [[E3 D3]|[E3 D3]],
      (or_default_cases (lp_ReclaimPolicy c) ReclaimRetain) as [[E4 D4]|[E4 D4]],
      (or_default_cases (lp_VolumeBindingMode c) BindingWaitForFirstConsumer) as [[E5 D5]|[E5 D5]];
      (split; [intros [_ Hb [Hr Hv]]; cbn in *; rewrite ?D3, ?D4, ?D5 in *; tauto|
               intros (Hb & Hr & Hv); constructor; cbn; rewrite ?D1, ?D2, ?D3, ?D4, ?D5; try split; try done; tauto]).
  - intros [_ Ha _]%LocalPathClass_Validate_None. unfold or_default.
    destruct (String.eqb_spec (lp_BasePath c) "") as [E|]; [|done]. by rewrite E in Ha.
Qed.

(** PVName fails exactly on a blank UID, with ErrInvalid, and is injective;
    a topology is accepted exactly when it names a node, and its key is never
    empty once defaulted. *)
Theorem storage_names_spec u u' t :
  (is_ok (PVName u) = true <-> TrimSpace u <> "") /\
  (forall e, PVName u = Err e -> errors_is e "ErrInvalid" = true) /\
  (forall n, PVName u = Ok n -> PVName u' = Ok n -> u = u') /\
  (NodeTopology_Validate t = None <-> t.(nt_NodeName) <> "") /\
  (NodeTopology_WithDefaults t).(nt_Key) <> "".
Proof.
  assert (Hk : or_default t.(nt_Key) TopologyKeyHostname <> "").
  { destruct (or_default_cases (nt_Key t) TopologyKeyHostname) as [[_ ->]|[? ->]]; done. }
  unfold PVName, NodeTopology_Validate. split; [|split; [|split; [|split]]].
  - destruct (String.eqb_spec (TrimSpace u) ""); naive_solver.
  - intros e. destruct (String.eqb (TrimSpace u) ""); [|done]. by intros [= <-].
  - intros n. destruct (String.eqb (TrimSpace u) ""); [done|]. intros [= <-].
    destruct (String.eqb (TrimSpace u') ""); [done|]. intros [= E]. symmetry. exact E.
  - rewrite !andthen_None, !failif_None, !String.eqb_neq. tauto.
  - exact Hk.
Qed.
