(* ===== verification/Runtime.v ===== *)
(** * Runtime handlers, chip labels and wasm signatures (src/runtime/v1)

    The mapping from RuntimeClass handlers to sandbox backends, the label form
    of a chip name, and the classification of a pod's wasm signature.  A nil
    map is [None]; a [range] over a map visits its pairs in some order, so the
    validation takes that order as an argument. *)
From S2P Require Import Prelude GoLib GoStrings GoRunes Sentinels.

(** ** handler.go *)
Definition SANDBOX_BACKEND_UNSPECIFIED : Z := 0.
Definition SANDBOX_BACKEND_VM : Z := 4.
Definition SANDBOX_BACKEND_WASM : Z := 5.
(** The keys of the generated [SandboxBackend_name]. *)
Definition SandboxBackend_name : list Z := [0; 1; 2; 3; 4; 5].
Definition HandlerVM : string := "vm".
Definition HandlerWasm : string := "wasm".
Definition ErrUnknownHandler := ErrNew "ErrUnknownHandler".
Definition ErrInvalid := ErrNew "ErrInvalid".

Record HandlerConfig := mkHandlerConfig {
  hc_Handlers : option (gmap string Z);
  hc_DefaultBackend : Z;   (* int32 *)
}.
Definition table (c : HandlerConfig) : gmap string Z := default ∅ c.(hc_Handlers).
Definition DefaultHandlerConfig : HandlerConfig :=
  mkHandlerConfig (Some {[HandlerVM := SANDBOX_BACKEND_VM; HandlerWasm := SANDBOX_BACKEND_WASM]}) SANDBOX_BACKEND_UNSPECIFIED.

(** The backend is returned with the error, as in Go. *)
Definition HandlerConfig_Backend (c : HandlerConfig) (handler : string) : Z * check :=
  if String.eqb handler "" then (c.(hc_DefaultBackend), None)
  else match table c !! handler with
       | Some b => (b, None)
       | None => (SANDBOX_BACKEND_UNSPECIFIED, Some (ErrorfW "%w: %q" [ArgS handler] ErrUnknownHandler))
       end.

(** The second loop adds the missing built-in handlers, in any order. *)
Definition add_missing (m : gmap string Z) (kv : string * Z) : gmap string Z :=
  match m !! kv.1 with Some _ => m | None => <[kv.1 := kv.2]> m end.
Definition HandlerConfig_WithDefaults (c : HandlerConfig) : HandlerConfig :=
  mkHandlerConfig (Some (foldl add_missing (table c) (map_to_list (table DefaultHandlerConfig)))) c.(hc_DefaultBackend).

Definition validBackend (b : Z) : bool := existsb (Z.eqb b) SandboxBackend_name.
Definition HandlerConfig_Validate (order : list (string * Z)) (c : HandlerConfig) : check :=
  failif (negb (validBackend c.(hc_DefaultBackend)))
    (ErrorfW "%w: defaultBackend %d is not a defined SandboxBackend" [ArgZ c.(hc_DefaultBackend)] ErrInvalid) ;?
  each 0 (fun _ kv =>
    failif (String.eqb kv.1 "") (ErrorfW "%w: empty handler key is resolved via defaultBackend, not the table" [] ErrInvalid) ;?
    failif (negb (validBackend kv.2))
      (ErrorfW "%w: handler %q maps to %d, not a defined SandboxBackend" [ArgS kv.1; ArgZ kv.2] ErrInvalid)) order.
(** The orders a range over the table can take. *)
Definition visits (order : list (string * Z)) (c : HandlerConfig) : Prop := order ≡ₚ map_to_list (table c).

(** ** labels.go *)
Definition maxLabelValueLen : Z := 63.
Definition slug_rune (r : Z) : bool := between 97 122 r || between 48 57 r.
(** The loop over the runes: the bytes written so far and the pending dash. *)
Definition slug_step (st : string * bool) (r : Z) : string * bool :=
  let '(b, pendingDash) := st in
  if slug_rune r then ((if pendingDash then b +:+ "-" else b) +:+ encode_rune r, false)
  else (b, if slen b >? 0 then true else pendingDash).
Definition trim_right_dash (s : string) : string :=
  string_of (reverse ((fix go l := match l with c :: l' => if Ascii.eqb c "-" then go l' else l | [] => [] end)
    (reverse (bytes_of s)))).
Definition ChipSlug (raw : string) : string :=
  let s := (foldl slug_step ("", false) (runes (ToLower_runes raw))).1 in
  if slen s >? maxLabelValueLen then trim_right_dash (String.substring 0 (Z.to_nat maxLabelValueLen) s) else s.

(** ** wasm.go *)
Definition WasmPlatformOS : string := "wasi".
Definition WasmPlatformArch : string := "wasm32".
Definition WasmPlatform : string := WasmPlatformOS +:+ "/" +:+ WasmPlatformArch.
Definition WasmPlatformAliases : list string := ["wasi/wasm"; "wasip1/wasm32"; "wasip2/wasm32"].
Inductive WasmSignatureMode := WasmSignatureNone | WasmSignatureEnforce | WasmSignatureInvalid.
Record WasmSignature := mkWasmSignature { ws_Required : bool; ws_PublicKeySpkiDer : list byte }.
(** The generated getters accept a nil receiver. *)
Definition GetRequired (s : option WasmSignature) : bool := match s with Some x => x.(ws_Required) | None => false end.
Definition GetPublicKeySpkiDer (s : option WasmSignature) : list byte :=
  match s with Some x => x.(ws_PublicKeySpkiDer) | None => [] end.
Definition ClassifyWasmSignature (s : option WasmSignature) : WasmSignatureMode :=
  match s with
  | None => WasmSignatureNone
  | Some _ =>
      if GetRequired s && (len (GetPublicKeySpkiDer s) >? 0) then WasmSignatureEnforce else WasmSignatureInvalid
  end.

Example ChipSlug_examples :
  ChipSlug "Apple M4 Max" = "apple-m4-max" /\ ChipSlug "  (M4)  " = "m4" /\ ChipSlug "--" = "" /\
  slen (ChipSlug "aaaaaaaaaaaaaaaaaaaaaaaaaaaaaaaaaaaaaaaaaaaaaaaaaaaaaaaaaaaaaa--b") = 62.
Proof. vm_compute. repeat split. Qed.

(** ** Handlers *)
Lemma validBackend_spec b : validBackend b = true <-> 0 <= b <= 5.
Proof.
  unfold validBackend, SandboxBackend_name. rewrite existsb_exists. setoid_rewrite Z.eqb_eq. split.
  - intros (x & Hx & ->). simpl in Hx. lia.
  - intros Hb. exists b. split; [|done]. simpl. lia.
Qed.
Record config_ok (c : HandlerConfig) : Prop := {
  config_default : 0 <= c.(hc_DefaultBackend) <= 5;
  config_table : map_Forall (fun k b => k <> "" /\ 0 <= b <= 5) (table c) }.

Lemma HandlerConfig_Validate_None order c : visits order c -> HandlerConfig_Validate order c = None <-> config_ok c.
Proof.
  intros Hv. unfold HandlerConfig_Validate. rewrite andthen_None, failif_None, negb_false_iff, validBackend_spec.
  rewrite (each_None _ (fun kv => kv.1 <> "" /\ 0 <= kv.2 <= 5)).
  2: { intros _ kv. rewrite andthen_None, !failif_None, negb_false_iff, validBackend_spec, String.eqb_neq. done. }
  rewrite Hv. assert (Hf : Forall (fun kv => kv.1 <> "" /\ 0 <= kv.2 <= 5) (map_to_list (table c)) <->
    map_Forall (fun k b => k <> "" /\ 0 <= b <= 5) (table c)).
  { rewrite map_Forall_to_list. apply Forall_iff. by intros [k b]. }
  rewrite Hf. split; [intros [? ?]; by constructor|intros []; done].
Qed.

Lemma add_missing_lookup l m k : NoDup l.*1 ->
  foldl add_missing m l !! k = match m !! k with Some b => Some b | None => (list_to_map l : gmap string Z) !! k end.
Proof.
  revert m. induction l as [|[k' b'] l IH]; intros m; cbn [foldl fmap list_fmap fst].
  { intros _. change (list_to_map [] : gmap string Z) with (∅ : gmap string Z). rewrite lookup_empty. by destruct (m !! k). }
  intros [Hn Hd]%NoDup_cons. rewrite IH by done. unfold add_missing. cbn [fst snd].
  rewrite list_to_map_cons. destruct (decide (k' = k)) as [->|Hne].
  - rewrite lookup_insert_eq. destruct (m !! k) as [b|] eqn:E; [by rewrite E|]. by rewrite lookup_insert_eq.
  - rewrite lookup_insert_ne by done. destruct (m !! k'); [done|]. by rewrite lookup_insert_ne.
Qed.
Lemma WithDefaults_lookup c k : table (HandlerConfig_WithDefaults c) !! k =
  match table c !! k with Some b => Some b | None => table DefaultHandlerConfig !! k end.
Proof.
  change (table (HandlerConfig_WithDefaults c)) with
    (foldl add_missing (table c) (map_to_list (table DefaultHandlerConfig))).
  rewrite add_missing_lookup by apply NoDup_fst_map_to_list. by rewrite list_to_map_to_list.
Qed.

(** C40: Handler resolution fails closed: the empty handler resolves to the
    default backend and a mapped one to its backend, and every other handler is
    an error wrapping ErrUnknownHandler; with the defaults filled in, the
    receiver's own mappings win, vm and wasm always resolve, to the backends of
    these names where the receiver does not map them, no other handler
    becomes known and nothing changes a second time; and the validation accepts,
    whatever the order it visits the table in, exactly a defined default backend
    with a table of non-empty handlers to defined backends, which filling the defaults keeps. *)
Theorem handler_resolution c handler order :
  visits order c ->
  let d := HandlerConfig_WithDefaults c in
  (forall b, HandlerConfig_Backend c handler = (b, None) <->
     handler = "" /\ b = c.(hc_DefaultBackend) \/ handler <> "" /\ table c !! handler = Some b) /\
  wraps "ErrUnknownHandler" (HandlerConfig_Backend c handler).2 /\
  ((HandlerConfig_Backend d handler).2 = None <->
     (HandlerConfig_Backend c handler).2 = None \/ (handler ∈ [HandlerVM; HandlerWasm])) /\
  ((HandlerConfig_Backend c handler).2 = None -> HandlerConfig_Backend d handler = HandlerConfig_Backend c handler) /\
  table (HandlerConfig_WithDefaults d) = table d /\
  (HandlerConfig_Validate order c = None <-> config_ok c) /\ wraps "ErrInvalid" (HandlerConfig_Validate order c) /\
  (config_ok c -> config_ok d) /\
  ((HandlerConfig_Backend c handler).2 <> None ->
     (handler = HandlerVM -> HandlerConfig_Backend d handler = (SANDBOX_BACKEND_VM, None)) /\
     (handler = HandlerWasm -> HandlerConfig_Backend d handler = (SANDBOX_BACKEND_WASM, None))).
Proof.
  intros Hv d.
  assert (Hd : forall k, table d !! k = match table c !! k with Some b => Some b | None => table DefaultHandlerConfig !! k end)
    by apply WithDefaults_lookup.
  assert (Hdef : forall k, is_Some (table DefaultHandlerConfig !! k) <-> k ∈ [HandlerVM; HandlerWasm]).
  { intros k. change (table DefaultHandlerConfig) with ({[HandlerVM := SANDBOX_BACKEND_VM; HandlerWasm := SANDBOX_BACKEND_WASM]} : gmap string Z).
    rewrite lookup_insert_is_Some, lookup_singleton_is_Some, !elem_of_cons, elem_of_nil.
    destruct (decide (HandlerVM = k)); naive_solver. }
  split; [|split; [|split; [|split; [|split; [|split; [|split; [|split]]]]]]].
  - intros b. unfold HandlerConfig_Backend. destruct (String.eqb_spec handler ""); [naive_solver|].
    destruct (table c !! handler); naive_solver.
  - unfold HandlerConfig_Backend. repeat case_match; cbn; auto with wraps.
  - unfold HandlerConfig_Backend. rewrite Hd. destruct (String.eqb_spec handler ""); [naive_solver|].
    destruct (table c !! handler); [cbn; naive_solver|]. rewrite <- Hdef. destruct (table DefaultHandlerConfig !! handler); cbn.
    + naive_solver.
    + split; [done|]. intros [?|[? [=]]]; done.
  - unfold HandlerConfig_Backend. rewrite Hd. destruct (String.eqb_spec handler ""); [done|].
    by destruct (table c !! handler).
  - apply map_eq. intros k. rewrite WithDefaults_lookup, Hd.
    destruct (table c !! k); [done|]. by destruct (table DefaultHandlerConfig !! k).
  - by apply HandlerConfig_Validate_None.
  - unfold HandlerConfig_Validate. auto 20 with wraps.
  - intros [H0 Ht]. constructor; [done|]. intros k b. rewrite Hd. destruct (table c !! k) as [b'|] eqn:E.
    + intros [= <-]. by apply Ht.
    + assert (map_Forall (fun k b => k <> "" /\ 0 <= b <= 5) (table DefaultHandlerConfig)) as H.
      { apply (bool_decide_unpack _). vm_compute. exact I. }
      apply H.
  - intros Hno. unfold HandlerConfig_Backend in Hno |- *. rewrite Hd. destruct (String.eqb_spec handler ""); [done|].
    destruct (table c !! handler); [done|]. split; intros ->; reflexivity.
Qed.
Lemma handler_resolution_witness :
  visits (map_to_list (table DefaultHandlerConfig)) DefaultHandlerConfig /\
  HandlerConfig_Backend DefaultHandlerConfig "vm" = (SANDBOX_BACKEND_VM, None).
Proof.
  assert (H : visits (map_to_list (table DefaultHandlerConfig)) DefaultHandlerConfig) by (unfold visits; reflexivity).
  split; [exact H|]. destruct (handler_resolution DefaultHandlerConfig "vm" _ H) as [Hb _]. apply Hb. right. split; [discriminate|vm_compute; reflexivity].
Defined.

(** ** Chip slugs *)
Definition slug_byte (c : ascii) : bool := is_lower c || is_digit c.
(** The recogniser of a slug: [Some true] after a dash or at the start,
    [Some false] after a letter or digit, [None] once two dashes meet, a dash
    leads or another byte occurs. *)
Fixpoint slug_run (after : bool) (s : string) : option bool :=
  match s with
  | "" => Some after
  | String c s' =>
      if Ascii.eqb c "-" then if after then None else slug_run true s'
      else if slug_byte c then slug_run false s' else None
  end.
Definition slug_ok (s : string) : Prop := s = "" \/ slug_run true s = Some false.

Lemma slug_run_app a b p : slug_run p (a +:+ b) = match slug_run p a with Some q => slug_run q b | None => None end.
Proof.
  revert p. induction a as [|c a IH]; intros p; [done|]. change (String c a +:+ b) with (String c (a +:+ b)). cbn [slug_run].
  destruct (Ascii.eqb c "-"); [destruct p; [done|apply IH]|]. destruct (slug_byte c); [apply IH|done].
Qed.
Lemma encode_slug r : slug_rune r = true -> exists c, encode_rune r = String c "" /\ Z_of_byte c = r /\ slug_byte c = true /\ Ascii.eqb c "-" = false.
Proof.
  intros Hr. unfold slug_rune, between in Hr. rewrite orb_true_iff, !andb_true_iff, !Z.leb_le in Hr.
  unfold encode_rune, between. destruct (Z.leb_spec 0 r); [|lia]. destruct (Z.leb_spec r 127); [|lia]. cbn [andb].
  assert (Hz : Z_of_byte (ascii_of_N (Z.to_N r)) = r).
  { pose proof (Z_of_byte_of_Z r) as H'. unfold byte_of_Z in H'. rewrite Z.mod_small in H' by lia. exact H'. }
  eexists. split; [reflexivity|]. split; [done|]. split.
  - unfold slug_byte, is_lower, is_digit. rewrite Hz, orb_true_iff, !andb_true_iff, !Z.leb_le. lia.
  - apply Ascii.eqb_neq. intros E. rewrite E in Hz. vm_compute in Hz. lia.
Qed.

(** The invariant of the loop. *)
Definition slug_state_ok (st : string * bool) : Prop :=
  slug_ok st.1 /\ (st.2 = true -> st.1 <> "").
Lemma slen_pos s : (slen s >? 0) = true <-> s <> "".
Proof. unfold slen. rewrite Z.gtb_lt. destruct s; cbn [String.length]; split; intros; done || lia. Qed.
Lemma slug_step_ok st r : slug_state_ok st -> slug_state_ok (slug_step st r).
Proof.
  destruct st as [b pd]. intros [Hb Hp]. cbn in Hb, Hp. unfold slug_step. destruct (slug_rune r) eqn:Er.
  - destruct (encode_slug r Er) as (c & -> & _ & Hc & Hd). split; [|done]. right. cbn [fst].
    assert (Hlast : forall q, slug_run q (String c "") = Some false) by (intros q; cbn [slug_run]; by rewrite Hd, Hc).
    destruct pd.
    + destruct Hb as [->|Hb]; [by destruct (Hp eq_refl)|]. rewrite !slug_run_app, Hb. change (slug_run false "-") with (Some true). apply Hlast.
    + destruct Hb as [->|Hb]; [apply Hlast|]. rewrite slug_run_app, Hb. apply Hlast.
  - split; [exact Hb|]. cbn. destruct (slen b >? 0) eqn:E; [|done]. intros _. by apply slen_pos.
Qed.
Lemma slug_fold_ok rs st : slug_state_ok st -> slug_state_ok (foldl slug_step st rs).
Proof. revert st. induction rs as [|r rs IH]; intros st H; [done|]. by apply IH, slug_step_ok. Qed.

(** Truncation: a prefix of a slug is a slug, with perhaps one dash after it. *)
Definition strip_dash := fix go l := match l with c :: l' => if Ascii.eqb c "-" then go l' else l | [] => [] end.
Lemma trim_right_strip s : trim_right_dash s = string_of (reverse (strip_dash (reverse (bytes_of s)))).
Proof. done. Qed.
Lemma slug_last c s : slug_run true (s +:+ String c "") = Some false -> Ascii.eqb c "-" = false.
Proof.
  rewrite slug_run_app. destruct (slug_run true s) as [q|]; [|done]. cbn [slug_run].
  destruct (Ascii.eqb c "-"); [|done]. by destruct q.
Qed.
Lemma string_snoc s : s <> "" -> exists t c, s = t +:+ String c "".
Proof.
  induction s as [|c s IH]; [done|]. intros _. destruct s as [|d s]; [by exists "", c|].
  destruct IH as (t & e & E); [done|]. exists (String c t), e. by rewrite E.
Qed.
Lemma bytes_of_sapp a b : bytes_of (a +:+ b) = bytes_of a ++ bytes_of b.
Proof. induction a as [|c a IH]; [done|]. simpl. by f_equal. Qed.
Lemma trim_snoc t c : trim_right_dash (t +:+ String c "") = if Ascii.eqb c "-" then trim_right_dash t else t +:+ String c "".
Proof.
  rewrite !trim_right_strip, bytes_of_sapp, reverse_app. cbn [bytes_of list_ascii_of_string reverse].
  change (reverse [c] ++ ?l) with (c :: l). cbn [strip_dash]. destruct (Ascii.eqb c "-"); [done|].
  rewrite reverse_cons, reverse_involutive. rewrite <- (string_of_bytes_of (t +:+ String c "")). by rewrite bytes_of_sapp.
Qed.
Lemma trim_slug t : slug_ok t -> trim_right_dash t = t.
Proof.
  intros [->|Ht]; [done|]. destruct (string_snoc t) as (u & c & ->); [by intros ->|].
  rewrite trim_snoc. by rewrite (slug_last _ _ Ht).
Qed.
Lemma trim_prefix a b : slug_run true (a +:+ b) = Some false -> slug_ok (trim_right_dash a) /\ slen (trim_right_dash a) <= slen a.
Proof.
  rewrite slug_run_app. destruct (slug_run true a) as [q|] eqn:Ea; [|done]. intros _.
  destruct (decide (a = "")) as [->|Hne]; [split; [by left|done]|]. destruct (string_snoc a Hne) as (t & c & ->).
  rewrite trim_snoc. destruct (Ascii.eqb c "-") eqn:Ec.
  - rewrite slug_run_app in Ea. destruct (slug_run true t) as [p|] eqn:Et; [|done]. cbn [slug_run] in Ea. rewrite Ec in Ea.
    destruct p; [done|]. assert (slug_ok t) as Ht by (by right). rewrite (trim_slug t Ht). split; [done|].
    unfold slen. rewrite slength_app. lia.
  - split; [|done]. right. rewrite slug_run_app in Ea |- *. destruct (slug_run true t) as [p|]; [|done].
    cbn [slug_run] in *. rewrite Ec in *. by destruct (slug_byte c).
Qed.

Lemma length_upto k s : (String.length (String.substring 0 k s) <= k)%nat.
Proof. revert s. induction k as [|k IH]; intros [|c s]; simpl; try lia. specialize (IH s). lia. Qed.
Lemma ChipSlug_ok raw : slug_ok (ChipSlug raw) /\ slen (ChipSlug raw) <= maxLabelValueLen.
Proof.
  unfold ChipSlug. destruct (slug_fold_ok (runes (ToLower_runes raw)) ("", false)) as [Hs _]; [by split; [left|]|].
  set (s := (foldl slug_step ("", false) (runes (ToLower_runes raw))).1) in *.
  destruct (Z.gtb_spec (slen s) maxLabelValueLen) as [Hl|Hl]; [|done].
  assert (Hle : (Z.to_nat maxLabelValueLen <= String.length s)%nat) by (unfold slen, maxLabelValueLen in *; lia).
  destruct Hs as [->|Hs]; [unfold slen, maxLabelValueLen in Hl; simpl in Hl; lia|].
  rewrite (substring_split (Z.to_nat maxLabelValueLen) s Hle) in Hs. apply trim_prefix in Hs as [Ho Hn].
  split; [done|]. etransitivity; [exact Hn|]. pose proof (length_upto (Z.to_nat maxLabelValueLen) s) as Hu.
  unfold slen, maxLabelValueLen in *. lia.
Qed.

(** ** A slug is its own slug *)
Lemma slug_byte_facts c : slug_byte c = true ->
  slug_rune (Z_of_byte c) = true /\ encode_rune (Z_of_byte c) = String c "" /\ lower_rune (Z_of_byte c) = Z_of_byte c.
Proof.
  unfold slug_byte, is_lower, is_digit. rewrite orb_true_iff, !andb_true_iff, !Z.leb_le. intros Hc. split; [|split].
  - unfold slug_rune, between. rewrite orb_true_iff, !andb_true_iff, !Z.leb_le. lia.
  - unfold encode_rune, between. destruct (Z.leb_spec 0 (Z_of_byte c)); [|lia]. destruct (Z.leb_spec (Z_of_byte c) 127); [|lia].
    cbn [andb]. f_equal. unfold Z_of_byte. by rewrite N2Z.id, ascii_N_embedding.
  - unfold lower_rune, between. destruct (Z.leb_spec 65 (Z_of_byte c)), (Z.leb_spec (Z_of_byte c) 90); cbn [andb]; try lia;
      destruct (Z.eqb_spec (Z_of_byte c) 304), (Z.eqb_spec (Z_of_byte c) 8490); lia.
Qed.
Lemma slug_run_bytes s p q : slug_run p s = Some q -> sforall (fun c => slug_byte c || Ascii.eqb c "-") s = true.
Proof.
  revert p. induction s as [|c s IH]; intros p; [done|]. cbn [slug_run sforall].
  destruct (Ascii.eqb c "-"); [destruct p; [done|]|destruct (slug_byte c); [|done]]; intros H%IH; by rewrite ?orb_true_r.
Qed.
Lemma dash_facts : Z_of_byte "-" = 45 /\ encode_rune 45 = "-" /\ lower_rune 45 = 45 /\ slug_rune 45 = false.
Proof. by vm_compute. Qed.
Lemma slug_runes s : sforall (fun c => slug_byte c || Ascii.eqb c "-") s = true ->
  runes s = map Z_of_byte (bytes_of s) /\ ToLower_runes s = s.
Proof.
  intros Hs. assert (Ha : runes s = map Z_of_byte (bytes_of s)).
  { apply runes_ascii. revert Hs. apply sforall_impl. intros c Hc. apply Z.ltb_lt. apply orb_true_iff in Hc as [Hc|Hc].
    - unfold slug_byte, is_lower, is_digit in Hc. rewrite orb_true_iff, !andb_true_iff, !Z.leb_le in Hc. lia.
    - apply Ascii.eqb_eq in Hc as ->. done. }
  split; [done|]. unfold ToLower_runes. rewrite Ha. clear Ha. induction s as [|c s IH]; [done|].
  cbn [sforall] in Hs. apply andb_true_iff in Hs as [Hc Hs]. specialize (IH Hs).
  cbn [bytes_of list_ascii_of_string map encode_runes foldr].
  assert (encode_rune (lower_rune (Z_of_byte c)) = String c "") as ->.
  { apply orb_true_iff in Hc as [Hc|Hc]; [by destruct (slug_byte_facts c Hc) as (_ & H & ->)|].
    apply Ascii.eqb_eq in Hc as ->. done. }
  change (String c (encode_runes (map lower_rune (map Z_of_byte (bytes_of s)))) = String c s). by rewrite IH.
Qed.
Lemma slug_fold_id s b (pd after : bool) : slug_run after s = Some false ->
  (after = true /\ pd = true /\ b <> "" \/ after = false /\ pd = false /\ b <> "" \/ after = true /\ pd = false /\ b = "") ->
  foldl slug_step (b, pd) (map Z_of_byte (bytes_of s)) = (b +:+ (if pd then "-" else "") +:+ s, false).
Proof.
  revert b pd after. induction s as [|c s IH]; intros b pd after; cbn [slug_run].
  { intros [= ->] [[[=] _]|[(_ & -> & _)|[[=] _]]]. cbn. by rewrite sapp_nil_r. }
  change (bytes_of (String c s)) with (c :: bytes_of s). cbn [map foldl]. destruct (Ascii.eqb_spec c "-") as [->|Hd].
  - destruct after; [done|]. intros Hr [[[=] _]|[(_ & -> & Hb)|[[=] _]]]. destruct dash_facts as (E1 & _ & _ & E4).
    assert (slug_step (b, false) (Z_of_byte "-") = (b, true)) as ->.
    { unfold slug_step. rewrite E1, E4. by rewrite (proj2 (slen_pos b) Hb). }
    rewrite (IH b true true Hr) by tauto. done.
  - destruct (slug_byte c) eqn:Hc; [|done]. intros Hr Hst. destruct (slug_byte_facts c Hc) as (E1 & E2 & _).
    assert (slug_step (b, pd) (Z_of_byte c) = ((if pd then b +:+ "-" else b) +:+ String c "", false)) as ->.
    { unfold slug_step. by rewrite E1, E2. }
    rewrite (IH _ false false Hr).
    + destruct pd; cbn; [|by rewrite sapp_assoc]. by rewrite !sapp_assoc.
    + right. left. split; [done|]. split; [done|]. destruct pd; destruct b; done.
Qed.

(** A chip slug is always a valid label value of at most 63 bytes: empty,
    or letters and digits in runs separated by single dashes, with no dash at
    either end; and it is its own slug, so every writer and reader that applies
    the function any number of times gets the same bytes. *)
Theorem ChipSlug_spec raw :
  slug_ok (ChipSlug raw) /\ slen (ChipSlug raw) <= maxLabelValueLen /\ ChipSlug (ChipSlug raw) = ChipSlug raw.
Proof.
  destruct (ChipSlug_ok raw) as [Hs Hl]. split; [done|]. split; [done|]. set (s := ChipSlug raw) in *.
  destruct Hs as [->|Hs]; [done|]. destruct (slug_runes s (slug_run_bytes _ _ _ Hs)) as [Hr Ht].
  unfold ChipSlug. rewrite Ht, Hr, (slug_fold_id s "" false true Hs) by tauto. cbn [fst].
  change ("" +:+ "" +:+ s) with s. destruct (Z.gtb_spec (slen s) maxLabelValueLen); [lia|done].
Qed.

(** A wasm signature enforces a check exactly when it is present, required
    and has a key, and asks for none exactly when it is absent: a present
    signature in any other state is refused. *)
Theorem wasm_signature_closed s :
  (ClassifyWasmSignature s = WasmSignatureNone <-> s = None) /\
  (ClassifyWasmSignature s = WasmSignatureEnforce <->
     exists x, s = Some x /\ x.(ws_Required) = true /\ x.(ws_PublicKeySpkiDer) <> []) /\
  (ClassifyWasmSignature s = WasmSignatureInvalid <->
     exists x, s = Some x /\ (x.(ws_Required) = false \/ x.(ws_PublicKeySpkiDer) = [])) /\
  NoDup (WasmPlatform :: WasmPlatformAliases).
Proof.
  split; [|split; [|split]]; [..|apply (bool_decide_unpack _); vm_compute; exact I];
    destruct s as [[req key]|]; cbn; try naive_solver; destruct req, key; cbn; naive_solver.
Qed.
