(* ===== verification/DeepCopy.v ===== *)
(** * Deep copies over a shared store

    The hand-written DeepCopyInto, DeepCopy and DeepCopyObject methods decide
    what memory a copied object shares with the original.  Here Go values are
    untyped ([gv]) with pointers, slices and maps as locations of a heap, the
    field types of a struct are a descriptor ([ty]), and [rep] says which tree of
    values a value of a type stands for in a heap and which locations it may
    reach.  A copier is right for a type ([copies]) when it leaves the old heap as
    it was and returns a value that stands for the same tree through new
    locations only.  The combinators at the end are the statements the methods
    are made of. *)
From S2P Require Import Prelude.
Set Warnings "-register-all".

Definition loc := positive.
Inductive gv :=
| VS (s : string)
| VZ (z : Z)
| VB (b : bool)
| VPtr (p : option loc)
| VSlice (s : option (loc * nat * nat))   (* array, offset, length *)
| VMap (m : option loc)
| VStruct (fs : list (string * gv))
| VNil.                                    (* the nil interface *)
Inductive obj :=
| Cells (vs : list gv)
| Table (m : gmap string gv).
Abbreviation heap := (gmap loc obj).

(** The value tree a Go value stands for; a slice observed up to nil-or-empty
    has only [Arr]. *)
Inductive tree :=
| Leaf (v : gv)
| Node (xs : list (string * tree))
| Nil
| Ref (x : tree)
| Arr (xs : list tree)
| Tab (m : gmap string tree).

(** The types whose code is in k8s.io/apimachinery. *)
Inductive ext := ObjectMeta | ListMeta | Time | Condition | Quantity.
Inductive ty :=
| TVal                                (* no references inside *)
| TStruct (fts : list (string * ty))
| TPtr (t : ty)
| TSlice (t : ty)
| TSliceE (t : ty)                    (* a slice, nil and empty not told apart *)
| TMap (t : ty)
| TExt (e : ext).

Fixpoint plain (v : gv) : bool :=
  match v with
  | VS _ | VZ _ | VB _ => true
  | VStruct fs => (fix go fs := match fs with [] => true | (_, w) :: fs' => plain w && go fs' end) fs
  | _ => false
  end.

(** ** Fields *)
Section Fields.
Context {A : Type}.
Fixpoint get (n : string) (fs : list (string * A)) : option A :=
  match fs with [] => None | (m, w) :: fs' => if String.eqb n m then Some w else get n fs' end.
Fixpoint set (n : string) (w : A) (fs : list (string * A)) : list (string * A) :=
  match fs with [] => [] | (m, u) :: fs' => if String.eqb n m then (m, w) :: fs' else (m, u) :: set n w fs' end.

Lemma set_names n w fs : map fst (set n w fs) = map fst fs.
Proof. induction fs as [|[m u] fs IH]; [done|]. cbn [set]. destruct (String.eqb n m); cbn; by rewrite ?IH. Qed.
Lemma get_set_eq n w u fs : get n fs = Some u -> get n (set n w fs) = Some w.
Proof.
  induction fs as [|[m x] fs IH]; [done|]. cbn [get set]. destruct (String.eqb n m) eqn:E; cbn [get]; rewrite E; [done|apply IH].
Qed.
Lemma get_set_ne n k w fs : n <> k -> get k (set n w fs) = get k fs.
Proof.
  intros Hne. induction fs as [|[m x] fs IH]; [done|]. cbn [set]. destruct (String.eqb_spec n m) as [->|]; cbn [get].
  - destruct (String.eqb_spec k m) as [->|]; done.
  - by rewrite IH.
Qed.
Lemma get_In n w fs : get n fs = Some w -> In (n, w) fs.
Proof.
  induction fs as [|[m x] fs IH]; [done|]. cbn [get]. destruct (String.eqb_spec n m) as [->|]; [|right; by apply IH].
  intros [= ->]. by left.
Qed.
Lemma get_Some n fs : In n (map fst fs) -> is_Some (get n fs).
Proof.
  induction fs as [|[m u] fs IH]; [done|]. cbn [get map fst]. intros [->|Hin]; [rewrite String.eqb_refl; eauto|].
  destruct (String.eqb n m); eauto.
Qed.
Lemma names_unique (fs : list (string * A)) n x y : NoDup (map fst fs) -> In (n, x) fs -> In (n, y) fs -> x = y.
Proof.
  induction fs as [|[m u] fs IH]; [done|]. intros [Hni Hnd]%NoDup_cons Hx Hy.
  assert (forall z, In (n, z) fs -> m <> n) as Hm.
  { intros z Hz ->. apply Hni. apply list_elem_of_In. by apply (in_map fst) in Hz. }
  destruct Hx as [[= -> ->]|Hx], Hy as [[= ->]|Hy]; [done|by destruct (Hm _ Hy)| |by apply IH].
  subst. by destruct (Hm _ Hx).
Qed.
End Fields.

(** ** External types: what their copies promise *)
Class External := {
  ext_rep : ext -> heap -> gset loc -> gv -> tree -> Prop;
  ext_copy : ext -> gv -> heap -> heap * gv;
  ext_local : forall e h h' fp fp' v x, fp ⊆ fp' -> (forall l, l ∈ fp -> h !! l = h' !! l) ->
    ext_rep e h fp v x -> ext_rep e h' fp' v x;
  ext_copies : forall e h fp v x, fp ⊆ dom h -> ext_rep e h fp v x ->
    let r := ext_copy e v h in h ⊆ r.1 /\ ext_rep e r.1 (dom r.1 ∖ dom h) r.2 x;
}.

Section DeepCopy.
Context `{External}.

(** ** What a value stands for *)
Fixpoint rep (t : ty) (h : heap) (fp : gset loc) (v : gv) (x : tree) {struct t} : Prop :=
  match t with
  | TVal => plain v = true /\ x = Leaf v
  | TStruct fts =>
      exists fvs xs, v = VStruct fvs /\ x = Node xs /\ map fst fvs = map fst fts /\ map fst xs = map fst fts /\
        (fix go (fts : list (string * ty)) : Prop :=
           match fts with
           | [] => True
           | (n, t) :: fts' => (exists w y, get n fvs = Some w /\ get n xs = Some y /\ rep t h fp w y) /\ go fts'
           end) fts
  | TPtr t =>
      v = VPtr None /\ x = Nil \/
      exists l w y, v = VPtr (Some l) /\ x = Ref y /\ l ∈ fp /\ h !! l = Some (Cells [w]) /\ rep t h fp w y
  | TSlice t =>
      v = VSlice None /\ x = Nil \/
      exists l off n vs ys, v = VSlice (Some (l, off, n)) /\ x = Arr ys /\ l ∈ fp /\ h !! l = Some (Cells vs) /\
        (off + n <= length vs)%nat /\ Forall2 (rep t h fp) (take n (drop off vs)) ys
  | TSliceE t =>
      v = VSlice None /\ x = Arr [] \/
      exists l off n vs ys, v = VSlice (Some (l, off, n)) /\ x = Arr ys /\ l ∈ fp /\ h !! l = Some (Cells vs) /\
        (off + n <= length vs)%nat /\ Forall2 (rep t h fp) (take n (drop off vs)) ys
  | TMap t =>
      v = VMap None /\ x = Nil \/
      exists l m ym, v = VMap (Some l) /\ x = Tab ym /\ l ∈ fp /\ h !! l = Some (Table m) /\
        forall k, option_Forall2 (rep t h fp) (m !! k) (ym !! k)
  | TExt e => ext_rep e h fp v x
  end.
(** The fields of a struct, one by one. *)
Definition rep_field (h : heap) (fp : gset loc) (fvs : list (string * gv)) (xs : list (string * tree)) (ft : string * ty) : Prop :=
  exists w y, get ft.1 fvs = Some w /\ get ft.1 xs = Some y /\ rep ft.2 h fp w y.
Lemma rep_struct fts h fp v x : rep (TStruct fts) h fp v x <->
  exists fvs xs, v = VStruct fvs /\ x = Node xs /\ map fst fvs = map fst fts /\ map fst xs = map fst fts /\
    Forall (rep_field h fp fvs xs) fts.
Proof.
  cbn [rep]. repeat (apply exist_proper; intros ?). do 4 (apply and_iff_compat_l). clear.
  induction fts as [|[n t] fts IH]; [by split; constructor|]. rewrite Forall_cons, <- IH. done.
Qed.

(** Induction on a type with its fields. *)
Lemma ty_ind' (P : ty -> Prop) :
  P TVal -> (forall fts, Forall (fun ft => P ft.2) fts -> P (TStruct fts)) -> (forall t, P t -> P (TPtr t)) ->
  (forall t, P t -> P (TSlice t)) -> (forall t, P t -> P (TSliceE t)) -> (forall t, P t -> P (TMap t)) ->
  (forall e, P (TExt e)) -> forall t, P t.
Proof.
  intros H1 H2 H3 H4 H5 H6 H7. fix IH 1. intros [|fts|t|t|t|t|e]; [exact H1| |by apply H3|by apply H4|by apply H5|by apply H6|apply H7].
  apply H2. induction fts as [|[n t] fts IHl]; constructor; [apply IH|exact IHl].
Qed.

(** [rep] reads the cells of its footprint only. *)
Lemma rep_local t h h' fp fp' v x : fp ⊆ fp' -> (forall l, l ∈ fp -> h !! l = h' !! l) -> rep t h fp v x -> rep t h' fp' v x.
Proof.
  intros Hfp Hh. revert v x. induction t as [|fts IH|t IH|t IH|t IH|t IH|e] using ty_ind'; intros v x.
  - done.
  - rewrite !rep_struct. intros (fvs & xs & -> & -> & Hn & Hx & Hf). exists fvs, xs. do 4 (split; [done|]).
    rewrite Forall_forall in IH. rewrite Forall_forall in Hf. apply Forall_forall. intros ft Hin.
    destruct (Hf ft Hin) as (w & y & ? & ? & ?). exists w, y. split; [done|]. split; [done|]. by apply IH.
  - cbn [rep]. intros [?|(l & w & y & -> & -> & Hl & Hc & Hr)]; [by left|right].
    exists l, w, y. rewrite <- Hh by done. split_and!; try done; [by apply Hfp|by apply IH].
  - cbn [rep]. intros [?|(l & off & n & vs & ys & -> & -> & Hl & Hc & Hn & Hr)]; [by left|right].
    exists l, off, n, vs, ys. rewrite <- Hh by done. split_and!; try done; [by apply Hfp|]. eapply Forall2_impl; [exact Hr|]. apply IH.
  - cbn [rep]. intros [?|(l & off & n & vs & ys & -> & -> & Hl & Hc & Hn & Hr)]; [by left|right].
    exists l, off, n, vs, ys. rewrite <- Hh by done. split_and!; try done; [by apply Hfp|]. eapply Forall2_impl; [exact Hr|]. apply IH.
  - cbn [rep]. intros [?|(l & m & ym & -> & -> & Hl & Hc & Hr)]; [by left|right].
    exists l, m, ym. rewrite <- Hh by done. split_and!; try done; [by apply Hfp|]. intros k. specialize (Hr k).
    destruct Hr; constructor. by apply IH.
  - cbn [rep]. by apply ext_local.
Qed.
Lemma rep_mono t h h' fp fp' v x : h ⊆ h' -> fp ⊆ dom h -> fp ⊆ fp' -> rep t h fp v x -> rep t h' fp' v x.
Proof.
  intros Hh Hd Hf. apply rep_local; [done|]. intros l Hl. apply Hd, elem_of_dom in Hl as [o Ho].
  rewrite Ho. symmetry. by eapply lookup_weaken.
Qed.

(** A type without references is copied by assignment. *)
Fixpoint no_refs (t : ty) : bool :=
  match t with
  | TVal => true
  | TStruct fts => (fix go fts := match fts with [] => true | (_, t) :: fts' => no_refs t && go fts' end) fts
  | _ => false
  end.
Lemma no_refs_rep t h h' fp fp' v x : no_refs t = true -> rep t h fp v x -> rep t h' fp' v x.
Proof.
  revert v x. induction t as [|fts IH|t IH|t IH|t IH|t IH|e] using ty_ind'; intros v x Hn; try done.
  rewrite !rep_struct. intros (fvs & xs & -> & -> & Hfv & Hxs & Hf). exists fvs, xs. do 4 (split; [done|]). clear Hfv Hxs.
  induction fts as [|[n t] fts IHl]; [constructor|]. cbn [no_refs] in Hn. apply andb_true_iff in Hn as [Hn Hns].
  apply Forall_cons in IH as [IHt IH]. apply Forall_cons in Hf as [(w & y & ? & ? & ?) Hf].
  constructor; [|by apply IHl]. exists w, y. split; [done|]. split; [done|]. by apply IHt.
Qed.

(** ** Copiers *)
Abbreviation M A := (heap -> heap * A).
Definition ret {A} (a : A) : M A := fun h => (h, a).
Definition bind {A B} (m : M A) (k : A -> M B) : M B := fun h => let '(h', a) := m h in k a h'.
(** [&x], [new], [make]: a new location. *)
Definition alloc (o : obj) : M loc := fun h => let l := fresh (dom h) in (<[l := o]> h, l).
(** A dereference; pointers of Go values are valid. *)
Definition cells_at (l : loc) : M (list gv) := fun h => (h, match h !! l with Some (Cells vs) => vs | _ => [] end).
Definition table_at (l : loc) : M (gmap string gv) := fun h => (h, match h !! l with Some (Table m) => m | _ => ∅ end).
Fixpoint each_copy (c : gv -> M gv) (vs : list gv) : M (list gv) :=
  match vs with
  | [] => ret []
  | v :: vs' => bind (c v) (fun w => bind (each_copy c vs') (fun ws => ret (w :: ws)))
  end.

Definition copies (t : ty) (c : gv -> M gv) : Prop :=
  forall h fp v x, fp ⊆ dom h -> rep t h fp v x ->
    h ⊆ (c v h).1 /\ rep t (c v h).1 (dom (c v h).1 ∖ dom h) (c v h).2 x.

(** [if in.F != nil { out.F = make(...); copy each element }]. *)
Definition copy_slice (c : gv -> M gv) (v : gv) : M gv :=
  match v with
  | VSlice (Some (l, off, n)) =>
      bind (cells_at l) (fun vs => bind (each_copy c (take n (drop off vs))) (fun ws =>
      bind (alloc (Cells ws)) (fun l' => ret (VSlice (Some (l', 0%nat, n))))))
  | _ => ret v
  end.
(** [append([]T(nil), in.F...)], which is nil when [in.F] is empty. *)
Definition append_nil (v : gv) : M gv :=
  match v with
  | VSlice (Some (l, off, O)) => ret (VSlice None)
  | _ => copy_slice ret v
  end.
(** [if in.F != nil { x := copy of *in.F; out.F = &x }]. *)
Definition copy_ptr (c : gv -> M gv) (v : gv) : M gv :=
  match v with
  | VPtr (Some l) =>
      bind (cells_at l) (fun vs => bind (c (default VNil (head vs))) (fun w =>
      bind (alloc (Cells [w])) (fun l' => ret (VPtr (Some l')))))
  | _ => ret v
  end.
(** [if in.F != nil { out.F = make(map...); for k, v := range in.F { out.F[k] = v } }]. *)
Definition copy_map (v : gv) : M gv :=
  match v with
  | VMap (Some l) => bind (table_at l) (fun m => bind (alloc (Table m)) (fun l' => ret (VMap (Some l'))))
  | _ => ret v
  end.
(** Assignments to the fields of [out], each from the same field of [in]. *)
Fixpoint assign (cs : list (string * (gv -> M gv))) (fin fout : list (string * gv)) : M gv :=
  match cs with
  | [] => ret (VStruct fout)
  | (n, c) :: cs' => bind (c (default VNil (get n fin))) (fun w => assign cs' fin (set n w fout))
  end.
(** [*out = *in] and then the assignments. *)
Definition copy_struct (cs : list (string * (gv -> M gv))) (v : gv) : M gv :=
  match v with VStruct fs => assign cs fs fs | _ => ret v end.
(** [*out = T{F: ...}] for a struct of pointers: the fields not named are nil. *)
Definition literal (cs : list (string * (gv -> M gv))) (v : gv) : M gv :=
  match v with VStruct fs => assign cs fs (map (fun f => (f.1, VPtr None)) fs) | _ => ret v end.

(** ** Copiers are right *)
Lemma copies_ret t : no_refs t = true -> copies t ret.
Proof. intros Ht h fp v x _ Hr. cbn. split; [done|]. by eapply no_refs_rep. Qed.
Lemma copier_ext e : copies (TExt e) (ext_copy e).
Proof. intros h fp v x Hd Hr. by apply (ext_copies e h fp). Qed.

(** A right copier run later, in a heap that has grown. *)
Lemma copies_later t c h h1 fp v x : copies t c -> fp ⊆ dom h -> rep t h fp v x -> h ⊆ h1 ->
  h1 ⊆ (c v h1).1 /\ rep t (c v h1).1 (dom (c v h1).1 ∖ dom h) (c v h1).2 x.
Proof.
  intros Hc Hd Hr Hs. pose proof (subseteq_dom _ _ Hs) as Hds.
  destruct (Hc h1 fp v x) as [H1 H2]; [set_solver|by eapply rep_mono|]. split; [done|].
  eapply rep_mono; [reflexivity| | |exact H2]; set_solver.
Qed.
Lemma each_copy_ok t c h h1 fp vs ys : copies t c -> fp ⊆ dom h -> Forall2 (rep t h fp) vs ys -> h ⊆ h1 ->
  h1 ⊆ (each_copy c vs h1).1 /\
  Forall2 (rep t (each_copy c vs h1).1 (dom (each_copy c vs h1).1 ∖ dom h)) (each_copy c vs h1).2 ys.
Proof.
  intros Hc Hd Hf. revert h1. induction Hf as [|v y vs ys Hr Hf IH]; intros h1 Hs; [by split; [|constructor]|].
  cbn [each_copy]. unfold bind, ret. destruct (copies_later t c h h1 fp v y) as [H1 H2]; try done.
  destruct (c v h1) as [h2 w]. cbn in H1, H2. specialize (IH h2 ltac:(by transitivity h1)) as [H3 H4].
  destruct (each_copy c vs h2) as [h3 ws]. cbn in *. split; [by transitivity h2|]. constructor; [|done].
  pose proof (subseteq_dom _ _ H3). eapply rep_mono; [exact H3| | |exact H2]; set_solver.
Qed.

Lemma alloc_spec o h : h ⊆ (alloc o h).1 /\ (alloc o h).1 !! (alloc o h).2 = Some o /\
  (alloc o h).2 ∈ dom (alloc o h).1 ∖ dom h /\ dom h ⊆ dom (alloc o h).1.
Proof.
  unfold alloc. cbn. pose proof (is_fresh (dom h)) as Hf.
  assert (Hn : h !! fresh (dom h) = None) by (by apply not_elem_of_dom).
  split; [by apply insert_subseteq|]. split; [by rewrite lookup_insert_eq|]. rewrite dom_insert_L. set_solver.
Qed.
#[local] Arguments alloc : simpl never.
(** Allocating after a copy keeps what was copied. *)
Lemma rep_alloc t (h h1 : heap) o v x : rep t h1 (dom h1 ∖ dom h) v x ->
  rep t (alloc o h1).1 (dom (alloc o h1).1 ∖ dom h) v x.
Proof. destruct (alloc_spec o h1) as (H1 & _ & _ & H4). intros Hr. eapply rep_mono; [exact H1| | |exact Hr]; set_solver. Qed.

Lemma copies_ptr t c : copies t c -> copies (TPtr t) (copy_ptr c).
Proof.
  intros Hc h fp v x Hd [[-> ->]|(l & w & y & -> & -> & Hl & Hw & Hr)]; [split; [done|by left]|].
  unfold copy_ptr, bind, cells_at. cbn. rewrite Hw. cbn.
  destruct (Hc h fp w y Hd Hr) as [H1 H2]. destruct (c w h) as [h1 w']. cbn in H1, H2.
  destruct (alloc_spec (Cells [w']) h1) as (A1 & A2 & A3 & A4). pose proof (rep_alloc t h h1 (Cells [w']) w' y H2) as H3.
  destruct (alloc (Cells [w']) h1) as [h2 l']. cbn in *. split; [by transitivity h1|]. right.
  exists l', w', y. split; [done|]. split; [done|]. split; [|done]. pose proof (subseteq_dom _ _ H1). set_solver.
Qed.
Lemma copy_slice_ok t c h fp l off n vs ys : copies t c -> fp ⊆ dom h -> h !! l = Some (Cells vs) ->
  (off + n <= length vs)%nat -> Forall2 (rep t h fp) (take n (drop off vs)) ys ->
  let r := copy_slice c (VSlice (Some (l, off, n))) h in
  h ⊆ r.1 /\ exists l' ws, r.2 = VSlice (Some (l', 0%nat, n)) /\ l' ∈ dom r.1 ∖ dom h /\ r.1 !! l' = Some (Cells ws) /\
    (0 + n <= length ws)%nat /\ Forall2 (rep t r.1 (dom r.1 ∖ dom h)) (take n (drop 0 ws)) ys.
Proof.
  intros Hc Hd Hl Hn Hf. unfold copy_slice, bind, cells_at. cbn. rewrite Hl.
  destruct (each_copy_ok t c h h fp _ _ Hc Hd Hf) as [H1 H2]; [done|].
  pose proof (Forall2_length _ _ _ Hf) as Hlen. rewrite length_take, length_drop in Hlen.
  pose proof (Forall2_length _ _ _ H2) as Hlen'.
  destruct (each_copy c (take n (drop off vs)) h) as [h1 ws]. cbn in H1, H2, Hlen'.
  destruct (alloc_spec (Cells ws) h1) as (A1 & A2 & A3 & A4).
  assert (H3 : Forall2 (rep t (alloc (Cells ws) h1).1 (dom (alloc (Cells ws) h1).1 ∖ dom h)) ws ys).
  { eapply Forall2_impl; [exact H2|]. intros a b. apply rep_alloc. }
  destruct (alloc (Cells ws) h1) as [h2 l']. cbn in *. split; [by transitivity h1|].
  exists l', ws. split; [done|]. split; [pose proof (subseteq_dom _ _ H1); set_solver|]. split; [done|].
  split; [lia|]. rewrite drop_0, take_ge by lia. done.
Qed.
Lemma copies_slice t c : copies t c -> copies (TSlice t) (copy_slice c).
Proof.
  intros Hc h fp v x Hd [[-> ->]|(l & off & n & vs & ys & -> & -> & Hl & Hv & Hn & Hf)]; [split; [done|by left]|].
  destruct (copy_slice_ok t c h fp l off n vs ys) as (H1 & l' & ws & Hr & ?); try done. split; [done|].
  rewrite Hr. right. by exists l', 0%nat, n, ws, ys.
Qed.
Lemma copies_append t : no_refs t = true -> copies (TSliceE t) append_nil.
Proof.
  intros Ht h fp v x Hd [[-> ->]|(l & off & n & vs & ys & -> & -> & Hl & Hv & Hn & Hf)]; [split; [done|by left]|].
  destruct n as [|n].
  - cbn. split; [done|]. left. apply Forall2_nil_inv_l in Hf as ->. done.
  - destruct (copy_slice_ok t ret h fp l off (S n) vs ys) as (H1 & l' & ws & Hr & ?); try done; [by apply copies_ret|].
    change (append_nil (VSlice (Some (l, off, S n))) h) with (copy_slice ret (VSlice (Some (l, off, S n))) h).
    split; [done|]. rewrite Hr. right. by exists l', 0%nat, (S n), ws, ys.
Qed.
Lemma copies_map t : no_refs t = true -> copies (TMap t) copy_map.
Proof.
  intros Ht h fp v x Hd [[-> ->]|(l & m & ym & -> & -> & Hl & Hm & Hf)]; [split; [done|by left]|].
  unfold copy_map, bind, table_at. cbn. rewrite Hm. destruct (alloc_spec (Table m) h) as (A1 & A2 & A3 & A4).
  destruct (alloc (Table m) h) as [h1 l']. cbn in *. split; [done|]. right. exists l', m, ym. split_and!; try done.
  intros k. specialize (Hf k). destruct Hf; constructor. by eapply no_refs_rep.
Qed.

(** ** Structs *)
(** The state of the assignments: the fields already assigned stand for their
    trees through new locations, the others hold their starting value. *)
Definition assigned (h h1 : heap) (fts : list (string * ty)) (xs : list (string * tree))
    (start fout : list (string * gv)) (done : list string) : Prop :=
  forall n t, In (n, t) fts -> exists y, get n xs = Some y /\
    if bool_decide (n ∈ done) then exists w, get n fout = Some w /\ rep t h1 (dom h1 ∖ dom h) w y
    else get n fout = get n start.

Lemma assign_ok fts cs h fp fin xs start : NoDup (map fst fts) ->
  Forall (fun nc => exists t, In (nc.1, t) fts /\ copies t nc.2) cs ->
  fp ⊆ dom h -> Forall (rep_field h fp fin xs) fts -> map fst start = map fst fts ->
  forall h1 fout dn, h ⊆ h1 -> map fst fout = map fst fts -> assigned h h1 fts xs start fout dn ->
  exists fout', (assign cs fin fout h1).2 = VStruct fout' /\ map fst fout' = map fst fts /\
    h1 ⊆ (assign cs fin fout h1).1 /\
    assigned h (assign cs fin fout h1).1 fts xs start fout' (map fst cs ++ dn).
Proof.
  intros Hnd Hcs Hd Hrep Hst. induction Hcs as [|[n c] cs (t & Hin & Hc) Hcs IH]; intros h1 fout dn Hs Hn Ha.
  { exists fout. split; [done|]. split; [done|]. split; [done|exact Ha]. }
  cbn [fst snd] in *. rewrite Forall_forall in Hrep.
  destruct (Hrep (n, t)) as (w & y & Hw & Hy & Hr); [by apply list_elem_of_In|]. cbn [fst snd] in *.
  cbn [assign]. rewrite Hw. change (default VNil (Some w)) with w. unfold bind.
  destruct (copies_later t c h h1 fp w y Hc Hd Hr Hs) as [H1 H2]. destruct (c w h1) as [h2 w'] eqn:E. cbn [fst snd] in H1, H2.
  destruct (get_Some n fout) as [u Hu]; [rewrite Hn; by apply (in_map fst) in Hin|].
  destruct (IH h2 (set n w' fout) (n :: dn)) as (fout' & E1 & E2 & E3 & E4).
  - by transitivity h1.
  - by rewrite set_names.
  - intros k t' Hk. destruct (Ha k t' Hk) as (yk & Hyk & Hv). exists yk. split; [done|].
    pose proof (subseteq_dom _ _ H1) as Hdom. destruct (decide (k = n)) as [->|Hne].
    + rewrite bool_decide_eq_true_2 by left. exists w'. rewrite (get_set_eq _ _ u) by done. split; [done|].
      assert (t' = t) as -> by (by apply (names_unique fts n)). assert (yk = y) as -> by congruence. done.
    + rewrite get_set_ne by done. destruct (decide (k ∈ dn)) as [Hkd|Hkd].
      * rewrite bool_decide_eq_true_2 in Hv by done. rewrite bool_decide_eq_true_2 by (by right).
        destruct Hv as (v & Hv & Hrv). exists v. split; [done|]. eapply rep_mono; [exact H1| | |exact Hrv]; set_solver.
      * rewrite bool_decide_eq_false_2 in Hv by done. rewrite bool_decide_eq_false_2; [done|].
        rewrite not_elem_of_cons. done.
  - exists fout'. split; [exact E1|]. split; [exact E2|]. split; [transitivity h2; [exact H1|exact E3]|].
    intros k t' Hk. destruct (E4 k t' Hk) as (yk & Hyk & Hv). exists yk. split; [done|]. cbn [map fst].
    assert (bool_decide (k ∈ (n :: map fst cs) ++ dn) = bool_decide (k ∈ map fst cs ++ n :: dn)) as ->; [|done].
    apply bool_decide_ext. set_solver.
Qed.

(** What remains to check of a method: the fields are distinct, each
    assignment copies its field's type, and no other field holds references. *)
Definition covers (fts : list (string * ty)) (cs : list (string * (gv -> M gv))) : bool :=
  forallb (fun ft => existsb (String.eqb ft.1) (map fst cs) || no_refs ft.2) fts.
Definition covers_all (fts : list (string * ty)) (cs : list (string * (gv -> M gv))) : bool :=
  forallb (fun ft => existsb (String.eqb ft.1) (map fst cs)) fts.

Lemma struct_result fts h h' fp fin xs start fout (cs : list (string * (gv -> M gv))) :
  Forall (rep_field h fp fin xs) fts -> map fst xs = map fst fts -> map fst fout = map fst fts ->
  (forall n t, In (n, t) fts -> (n ∉ map fst cs ++ []) -> get n start = get n fin /\ no_refs t = true) ->
  assigned h h' fts xs start fout (map fst cs ++ []) ->
  rep (TStruct fts) h' (dom h' ∖ dom h) (VStruct fout) (Node xs).
Proof.
  intros Hrep Hx Hn Hrest Ha. apply rep_struct. exists fout, xs. do 4 (split; [done|]). apply Forall_forall.
  intros [n t] Hin. rewrite Forall_forall in Hrep. destruct (Hrep _ Hin) as (w & y & Hw & Hy & Hr). cbn [fst snd] in *.
  apply list_elem_of_In in Hin. destruct (Ha n t Hin) as (y' & Hy' & Hv). assert (y' = y) as -> by congruence.
  case_bool_decide as Hd.
  - destruct Hv as (w' & ? & ?). by exists w', y.
  - destruct (Hrest n t Hin Hd) as [Hs Hnr]. exists w, y. cbn. rewrite Hv, Hs. split; [done|]. split; [done|]. by eapply no_refs_rep.
Qed.
Lemma assigned_start h fts fp fin xs start : Forall (rep_field h fp fin xs) fts -> assigned h h fts xs start start [].
Proof.
  rewrite Forall_forall. intros Hf n t Hin. destruct (Hf (n, t)) as (w & y & _ & Hy & _); [by apply list_elem_of_In|].
  exists y. split; [done|]. by rewrite bool_decide_eq_false_2 by apply not_elem_of_nil.
Qed.
Lemma copies_struct fts cs : NoDup (map fst fts) -> covers fts cs = true ->
  Forall (fun nc => exists t, In (nc.1, t) fts /\ copies t nc.2) cs -> copies (TStruct fts) (copy_struct cs).
Proof.
  intros Hnd Hcov Hcs h fp v x Hd (fvs & xs & -> & -> & Hn & Hx & Hf)%rep_struct. cbn [copy_struct].
  destruct (assign_ok fts cs h fp fvs xs fvs Hnd Hcs Hd Hf Hn h fvs []) as (fout & -> & E2 & E3 & E4); [done|done|by eapply assigned_start|].
  split; [done|]. eapply struct_result; [done|done|done| |exact E4]. intros n t Hin Hni. split; [done|].
  unfold covers in Hcov. rewrite forallb_forall in Hcov. specialize (Hcov _ Hin). apply orb_true_iff in Hcov as [Hc|]; [|done].
  exfalso. apply Hni. apply existsb_exists in Hc as (m & Hm & <-%String.eqb_eq). rewrite app_nil_r. by apply list_elem_of_In.
Qed.
Lemma copies_literal fts cs : NoDup (map fst fts) -> covers_all fts cs = true ->
  Forall (fun nc => exists t, In (nc.1, t) fts /\ copies t nc.2) cs -> copies (TStruct fts) (literal cs).
Proof.
  intros Hnd Hcov Hcs h fp v x Hd (fvs & xs & -> & -> & Hn & Hx & Hf)%rep_struct. cbn [literal].
  set (zero := map (fun f : string * gv => (f.1, VPtr None)) fvs).
  assert (Hz : map fst zero = map fst fts) by (unfold zero; rewrite map_map; exact Hn).
  destruct (assign_ok fts cs h fp fvs xs zero Hnd Hcs Hd Hf Hz h zero []) as (fout & -> & E2 & E3 & E4); [done|done|by eapply assigned_start|].
  split; [done|]. eapply struct_result; [done|done|done| |exact E4]. intros n t Hin Hni. exfalso. apply Hni.
  unfold covers_all in Hcov. rewrite forallb_forall in Hcov. specialize (Hcov _ Hin).
  apply existsb_exists in Hcov as (m & Hm & <-%String.eqb_eq). rewrite app_nil_r. by apply list_elem_of_In.
Qed.

(** ** Independence *)
(** A right copier's result and the original never see each other's later
    writes. *)
Lemma copies_independent t c h fp v x : copies t c -> fp ⊆ dom h -> rep t h fp v x ->
  let r := c v h in
  let new := dom r.1 ∖ dom h in
  rep t r.1 fp v x /\ rep t r.1 new r.2 x /\ fp ## new /\
  (forall h2, (forall l, l ∉ new -> h2 !! l = r.1 !! l) -> rep t h2 fp v x) /\
  (forall h2, (forall l, l ∈ new -> h2 !! l = r.1 !! l) -> rep t h2 new r.2 x).
Proof.
  intros Hc Hd Hr r new. destruct (Hc h fp v x Hd Hr) as [H1 H2]. fold r in H1, H2. fold new in H2.
  assert (H3 : rep t r.1 fp v x) by (by eapply rep_mono).
  split; [done|]. split; [done|]. split; [set_solver|]. split; intros h2 Hh.
  - eapply rep_local; [reflexivity| |exact H3]. intros l Hl. symmetry. apply Hh. set_solver.
  - eapply rep_local; [reflexivity| |exact H2]. intros l Hl. symmetry. by apply Hh.
Qed.
End DeepCopy.
