(* ===== verification/DeepCopyTypes.v ===== *)
(** * The deep copies of the API types

    The struct types of the served objects as field descriptors, and their
    hand-written DeepCopyInto, DeepCopy and DeepCopyObject methods
    (src/net/v1/mesh.go, src/net/v1alpha1/interconnect.go,
    src/updates/v1alpha1, src/mlx/v1alpha1/mlxmodel.go, src/helm/v1/deepcopy.go,
    src/budget/v1alpha1/nodebudget.go and nodebudgetpolicy.go), assignment by
    assignment.  ObjectMeta, ListMeta, Time, Condition and Quantity are types of
    k8s.io/apimachinery, whose copies are the parameters of class [External]. *)
From S2P Require Import Prelude DeepCopy.

Create HintDb deepcopy.

(** ** Types *)
(** net/v1 *)
Definition ty_EndpointCandidate : ty :=
  TStruct [("Address", TVal); ("Link", TVal)].
Definition ty_MeshPeerSpec : ty :=
  TStruct [("SchemaVersion", TVal); ("NodeName", TVal); ("PublicKey", TVal); ("Endpoint", TVal);
    ("Endpoints", TSlice ty_EndpointCandidate); ("PodCIDR", TVal); ("AllowedIPs", TSlice TVal);
    ("MeshIP", TVal); ("PersistentKeepaliveSeconds", TVal)].
Definition ty_MeshPeerStatus : ty :=
  TStruct [("LastHandshakeTime", TPtr (TExt Time)); ("Reachable", TVal); ("ObservedSchemaVersion", TVal)].
Definition ty_MeshPeer : ty :=
  TStruct [("TypeMeta", TVal); ("ObjectMeta", TExt ObjectMeta); ("Spec", ty_MeshPeerSpec);
    ("Status", ty_MeshPeerStatus)].
Definition ty_MeshPeerList : ty :=
  TStruct [("TypeMeta", TVal); ("ListMeta", TExt ListMeta); ("Items", TSlice ty_MeshPeer)].

(** net/v1alpha1 *)
Definition ty_InterconnectSpec : ty :=
  TStruct [("Medium", TVal); ("Fallback", TVal); ("Enabled", TVal); ("ExcludedNodes", TSliceE TVal);
    ("AllowedNamespaces", TSliceE TVal)].
Definition ty_InterconnectMember : ty :=
  TStruct [("Node", TVal); ("Index", TVal); ("Address", TVal); ("State", TVal); ("SpeedGbps", TVal);
    ("Segment", TVal); ("ReachablePeers", TSliceE TVal); ("LastTransition", TPtr (TExt Time))].
Definition ty_InterconnectSegment : ty :=
  TStruct [("ID", TVal); ("Nodes", TSliceE TVal)].
Definition ty_InterconnectStatus : ty :=
  TStruct [("Members", TSlice ty_InterconnectMember); ("Segments", TSlice ty_InterconnectSegment);
    ("AttachedPods", TVal); ("ArmedBy", TVal); ("ArmedAt", TPtr (TExt Time));
    ("Conditions", TSlice (TExt Condition))].
Definition ty_Interconnect : ty :=
  TStruct [("TypeMeta", TVal); ("ObjectMeta", TExt ObjectMeta); ("Spec", ty_InterconnectSpec);
    ("Status", ty_InterconnectStatus)].
Definition ty_InterconnectList : ty :=
  TStruct [("TypeMeta", TVal); ("ListMeta", TExt ListMeta); ("Items", TSlice ty_Interconnect)].

(** updates/v1alpha1 *)
Definition ty_UpdateStrategy : ty :=
  TStruct [("Order", TVal); ("MaxUnavailable", TVal); ("Drain", TVal)].
Definition ty_UpdateVerify : ty :=
  TStruct [("Signature", TVal)].
Definition ty_UpdateSpec : ty :=
  TStruct [("Version", TVal); ("Strategy", ty_UpdateStrategy); ("Verify", ty_UpdateVerify);
    ("AllowDowngrade", TVal); ("Cancel", TVal)].
Definition ty_UpdateNodeStatus : ty :=
  TStruct [("Name", TVal); ("From", TVal); ("To", TVal); ("Phase", TVal); ("Message", TVal);
    ("AdminTokenRotated", TVal); ("StartedAt", TPtr (TExt Time)); ("FinishedAt", TPtr (TExt Time))].
Definition ty_UpdateResolved : ty :=
  TStruct [("Version", TVal); ("Digest", TVal)].
Definition ty_UpdateStatus : ty :=
  TStruct [("Phase", TVal); ("Resolved", TPtr ty_UpdateResolved); ("Nodes", TSlice ty_UpdateNodeStatus);
    ("Conditions", TSlice (TExt Condition)); ("ObservedGeneration", TVal)].
Definition ty_Update : ty :=
  TStruct [("TypeMeta", TVal); ("ObjectMeta", TExt ObjectMeta); ("Spec", ty_UpdateSpec);
    ("Status", ty_UpdateStatus)].
Definition ty_UpdateList : ty :=
  TStruct [("TypeMeta", TVal); ("ListMeta", TExt ListMeta); ("Items", TSlice ty_Update)].
Definition ty_UpdatePolicySpec : ty :=
  TStruct [("Channel", TVal)].
Definition ty_UpdatePolicy : ty :=
  TStruct [("TypeMeta", TVal); ("ObjectMeta", TExt ObjectMeta); ("Spec", ty_UpdatePolicySpec)].
Definition ty_UpdatePolicyList : ty :=
  TStruct [("TypeMeta", TVal); ("ListMeta", TExt ListMeta); ("Items", TSlice ty_UpdatePolicy)].

(** mlx/v1alpha1 *)
Definition ty_ArtifactRef : ty :=
  TStruct [("Reference", TVal); ("Variant", TVal)].
Definition ty_MLXRuntime : ty :=
  TStruct [("Image", TVal); ("Args", TSlice TVal)].
Definition ty_MLXCache : ty :=
  TStruct [("Size", TExt Quantity); ("StorageClassName", TVal)].
Definition ty_MLXDistributed : ty :=
  TStruct [("Ranks", TVal); ("Backend", TVal); ("Parallelism", TVal); ("Interconnect", TVal)].
Definition ty_MLXModelSpec : ty :=
  TStruct [("Model", TVal); ("Artifact", TPtr ty_ArtifactRef); ("Revision", TVal); ("Quantization", TVal);
    ("Memory", TExt Quantity); ("Replicas", TPtr TVal); ("Port", TVal); ("Runtime", ty_MLXRuntime);
    ("Cache", TPtr ty_MLXCache); ("NodeSelector", TMap TVal); ("Distributed", TPtr ty_MLXDistributed)].
Definition ty_MLXModelStatus : ty :=
  TStruct [("Conditions", TSlice (TExt Condition)); ("ObservedGeneration", TVal); ("Phase", TVal);
    ("Endpoint", TVal); ("ResolvedRevision", TVal); ("ResolvedArtifact", TVal); ("Replicas", TVal);
    ("ReadyReplicas", TVal); ("UpdatedReplicas", TVal)].
Definition ty_MLXModel : ty :=
  TStruct [("TypeMeta", TVal); ("ObjectMeta", TExt ObjectMeta); ("Spec", ty_MLXModelSpec);
    ("Status", ty_MLXModelStatus)].
Definition ty_MLXModelList : ty :=
  TStruct [("TypeMeta", TVal); ("ListMeta", TExt ListMeta); ("Items", TSlice ty_MLXModel)].

(** helm/v1 *)
Definition ty_HelmChartSpec : ty :=
  TStruct [("Chart", TVal); ("Repo", TVal); ("Version", TVal); ("TargetNamespace", TVal);
    ("CreateNamespace", TVal); ("ValuesContent", TVal); ("Set", TMap TVal); ("ChartContent", TVal);
    ("Timeout", TPtr TVal); ("Bootstrap", TVal); ("BackOffLimit", TPtr TVal); ("FailurePolicy", TVal);
    ("ForceConflicts", TVal); ("TakeOwnership", TVal)].
Definition ty_HelmChartCondition : ty :=
  TStruct [("Type", TVal); ("Status", TVal); ("LastUpdateTime", TExt Time); ("LastTransitionTime", TExt Time);
    ("Reason", TVal); ("Message", TVal)].
Definition ty_HelmChartStatus : ty :=
  TStruct [("JobName", TVal); ("Conditions", TSlice ty_HelmChartCondition)].
Definition ty_HelmChart : ty :=
  TStruct [("TypeMeta", TVal); ("ObjectMeta", TExt ObjectMeta); ("Spec", ty_HelmChartSpec);
    ("Status", ty_HelmChartStatus)].
Definition ty_HelmChartList : ty :=
  TStruct [("TypeMeta", TVal); ("ListMeta", TExt ListMeta); ("Items", TSlice ty_HelmChart)].
Definition ty_HelmChartConfigSpec : ty :=
  TStruct [("ValuesContent", TVal); ("FailurePolicy", TVal); ("ForceConflicts", TVal)].
Definition ty_HelmChartConfig : ty :=
  TStruct [("TypeMeta", TVal); ("ObjectMeta", TExt ObjectMeta); ("Spec", ty_HelmChartConfigSpec)].
Definition ty_HelmChartConfigList : ty :=
  TStruct [("TypeMeta", TVal); ("ListMeta", TExt ListMeta); ("Items", TSlice ty_HelmChartConfig)].

(** budget/v1alpha1 *)
Definition ty_BudgetCapacity : ty :=
  TStruct [("CPUCapacityMilli", TPtr TVal); ("CPUSystemReserveMilli", TPtr TVal);
    ("MemCapacityBytes", TPtr TVal); ("MemSystemReserveBytes", TPtr TVal);
    ("MemEvictionReserveBytes", TPtr TVal); ("MemAllocatableBytes", TPtr TVal); ("SwapTotalBytes", TPtr TVal);
    ("SwapUsedBytes", TPtr TVal); ("CPUPerformanceCores", TPtr TVal); ("CPUEfficiencyCores", TPtr TVal);
    ("GPUPresent", TPtr TVal); ("GPUCount", TPtr TVal)].
Definition ty_BudgetSignal : ty :=
  TStruct [("ID", TVal); ("Unit", TVal); ("Value", TPtr TVal); ("WarnThreshold", TPtr TVal);
    ("AdmitStopThreshold", TPtr TVal); ("CriticalThreshold", TPtr TVal); ("EvictSoftThreshold", TPtr TVal);
    ("EvictHardThreshold", TPtr TVal); ("WarnRelease", TPtr TVal); ("AdmitStopRelease", TPtr TVal);
    ("CriticalRelease", TPtr TVal); ("EvictSoftRelease", TPtr TVal); ("EvictHardRelease", TPtr TVal);
    ("GraceSeconds", TPtr TVal); ("MinReclaimBytes", TPtr TVal); ("WindowSeconds", TPtr TVal);
    ("EtaToNextRungSeconds", TPtr TVal); ("Trend", TVal); ("LimitingResource", TVal); ("SharedWith", TVal)].
Definition ty_WindowCount : ty :=
  TStruct [("Window", TVal); ("Reason", TVal); ("Count", TVal)].
Definition ty_BandCounters : ty :=
  TStruct [("Band", TVal); ("EvictionsTotal", TVal); ("OOMKillsTotal", TVal); ("KernelKillsTotal", TVal);
    ("RestartsTotal", TVal); ("MemHighEventsTotal", TVal); ("Tier1RefusedTotal", TVal);
    ("Windows", TSlice ty_WindowCount)].
Definition ty_DarwinCompressor : ty :=
  TStruct [("BytesUsed", TPtr TVal); ("BytesStored", TPtr TVal); ("SegmentLimitBytes", TPtr TVal)].
Definition ty_DarwinSignals : ty :=
  TStruct [("VMPressureLevel", TPtr TVal); ("MemorystatusLevelPermille", TPtr TVal);
    ("Compressor", TPtr ty_DarwinCompressor); ("SwapinsTotal", TPtr TVal); ("SwapoutsTotal", TPtr TVal)].
Definition ty_PSILine : ty :=
  TStruct [("Avg10Permille", TPtr TVal); ("Avg60Permille", TPtr TVal); ("TotalUs", TPtr TVal)].
Definition ty_PSIResource : ty :=
  TStruct [("Some", TPtr ty_PSILine); ("Full", TPtr ty_PSILine)].
Definition ty_LinuxPSI : ty :=
  TStruct [("CPU", TPtr ty_PSIResource); ("Memory", TPtr ty_PSIResource); ("IO", TPtr ty_PSIResource)].
Definition ty_LinuxMemoryEvents : ty :=
  TStruct [("High", TPtr TVal); ("Max", TPtr TVal); ("OOM", TPtr TVal); ("OOMKill", TPtr TVal)].
Definition ty_LinuxSignals : ty :=
  TStruct [("PSI", TPtr ty_LinuxPSI); ("MemoryEvents", TPtr ty_LinuxMemoryEvents)].
Definition ty_BudgetRecommendation : ty :=
  TStruct [("SafeAdditionalBytes", TPtr TVal); ("Basis", TVal)].
Definition ty_WouldKill : ty :=
  TStruct [("Band", TVal); ("Reason", TVal); ("At", TExt Time)].
Definition ty_KillMode : ty :=
  TStruct [("Mode", TVal); ("Armed", TVal); ("ArmingEpisodes", TVal); ("Reason", TVal)].
Definition ty_PolicyRef : ty :=
  TStruct [("Name", TVal); ("ResourceVersion", TVal)].
Definition ty_AppliedPolicy : ty :=
  TStruct [("PolicyRef", ty_PolicyRef); ("Outcome", TVal); ("ClampedFields", TSlice TVal)].
Definition ty_NodeBudgetObservation : ty :=
  TStruct [("ObservedAt", TExt Time); ("ProducerGeneration", TVal); ("Platform", TVal); ("Level", TVal);
    ("Admit", TVal); ("AdmitReasonSignal", TVal); ("EvictDeadline", TPtr (TExt Time));
    ("Capacity", ty_BudgetCapacity); ("Signals", TSlice ty_BudgetSignal);
    ("Recommendation", ty_BudgetRecommendation); ("KillMode", ty_KillMode); ("WouldKill", TPtr ty_WouldKill);
    ("Counters", TSlice ty_BandCounters); ("Policy", TPtr ty_AppliedPolicy); ("InForce", TPtr ty_PolicyRef);
    ("Darwin", TPtr ty_DarwinSignals); ("Linux", TPtr ty_LinuxSignals)].
Definition ty_BudgetWriter : ty :=
  TStruct [("Shape", TVal); ("NodeNameExtra", TVal)].
Definition ty_NodeBudgetStatus : ty :=
  TStruct [("NodeBudgetObservation", ty_NodeBudgetObservation); ("Writer", TPtr ty_BudgetWriter);
    ("Conditions", TSlice (TExt Condition))].
Definition ty_NodeBudget : ty :=
  TStruct [("TypeMeta", TVal); ("ObjectMeta", TExt ObjectMeta); ("Status", ty_NodeBudgetStatus)].
Definition ty_NodeBudgetList : ty :=
  TStruct [("TypeMeta", TVal); ("ListMeta", TExt ListMeta); ("Items", TSlice ty_NodeBudget)].
Definition ty_SignalThresholds : ty :=
  TStruct [("Signal", TVal); ("WarnThreshold", TPtr TVal); ("AdmitStopThreshold", TPtr TVal);
    ("CriticalThreshold", TPtr TVal); ("EvictSoftThreshold", TPtr TVal); ("EvictHardThreshold", TPtr TVal);
    ("WarnRelease", TPtr TVal); ("AdmitStopRelease", TPtr TVal); ("CriticalRelease", TPtr TVal);
    ("EvictSoftRelease", TPtr TVal); ("EvictHardRelease", TPtr TVal); ("GraceSeconds", TPtr TVal);
    ("MinReclaimBytes", TPtr TVal); ("DwellSeconds", TPtr TVal); ("WindowSeconds", TPtr TVal)].
Definition ty_BudgetReserves : ty :=
  TStruct [("CPUSystemReserveMilli", TPtr TVal); ("MemSystemReserveBytes", TPtr TVal);
    ("MemEvictionReserveBytes", TPtr TVal)].
Definition ty_BudgetHistory : ty :=
  TStruct [("MemoryHalfLifeSeconds", TPtr TVal); ("CPUHalfLifeSeconds", TPtr TVal);
    ("MarginPermille", TPtr TVal)].
Definition ty_NodeBudgetPolicySpec : ty :=
  TStruct [("NodeSelector", TMap TVal); ("Priority", TVal); ("Thresholds", TSlice ty_SignalThresholds);
    ("Reserves", TPtr ty_BudgetReserves); ("History", TPtr ty_BudgetHistory); ("Mode", TVal);
    ("Tier1GraceSeconds", TPtr TVal); ("Tier1HeldSeconds", TPtr TVal);
    ("Tier1MaxDeliveriesPerHour", TPtr TVal); ("Tier1CooloffSeconds", TPtr TVal);
    ("PSIHeldPermille", TPtr TVal)].
Definition ty_NodeBudgetPolicy : ty :=
  TStruct [("TypeMeta", TVal); ("ObjectMeta", TExt ObjectMeta); ("Spec", ty_NodeBudgetPolicySpec)].
Definition ty_NodeBudgetPolicyList : ty :=
  TStruct [("TypeMeta", TVal); ("ListMeta", TExt ListMeta); ("Items", TSlice ty_NodeBudgetPolicy)].

(** The checks of a struct method: distinct fields, every reference field
    assigned, and each assignment a copy of its field's type. *)
Ltac deep_in := cbn [fst]; solve [repeat first [left; reflexivity | right]].
Ltac deep_struct :=
  (apply copies_struct || apply copies_literal);
  [apply (bool_decide_unpack _); vm_compute; exact I | vm_compute; reflexivity |
   repeat (apply Forall_cons; split; [eexists; split; [deep_in | cbn [snd]; auto with deepcopy]|]); apply Forall_nil; exact I].

Section Methods.
Context `{External}.
Abbreviation copier := (gv -> heap -> heap * gv).

(** ** Shared helpers *)
(** A pointer method: [nil] for [nil], a new object otherwise. *)
Definition DeepCopy_of (into : copier) : copier := copy_ptr into.
(** The nil pointer becomes the nil interface. *)
Definition DeepCopyObject_of (copy : copier) : copier := fun v =>
  bind (copy v) (fun c => match c with VPtr None => ret VNil | _ => ret c end).
(** validate.go: the generic helpers, for element types without references. *)
Definition clonePtr : copier := copy_ptr ret.
Definition cloneSlice : copier := copy_slice ret.
Definition copy_time : copier := copy_ptr (ext_copy Time).
Definition copy_conditions : copier := copy_slice (ext_copy Condition).

(** ** net/v1 *)
Definition MeshPeerSpec_DeepCopyInto : copier :=
  copy_struct [("AllowedIPs", copy_slice ret); ("Endpoints", copy_slice ret)].
Definition MeshPeerSpec_DeepCopy : copier := DeepCopy_of MeshPeerSpec_DeepCopyInto.
Definition MeshPeerStatus_DeepCopyInto : copier :=
  copy_struct [("LastHandshakeTime", copy_time)].
Definition MeshPeerStatus_DeepCopy : copier := DeepCopy_of MeshPeerStatus_DeepCopyInto.
Definition MeshPeer_DeepCopyInto : copier :=
  copy_struct [("TypeMeta", ret); ("ObjectMeta", ext_copy ObjectMeta); ("Spec", MeshPeerSpec_DeepCopyInto); ("Status", MeshPeerStatus_DeepCopyInto)].
Definition MeshPeer_DeepCopy : copier := DeepCopy_of MeshPeer_DeepCopyInto.
Definition MeshPeer_DeepCopyObject : copier := DeepCopyObject_of MeshPeer_DeepCopy.
Definition MeshPeerList_DeepCopyInto : copier :=
  copy_struct [("TypeMeta", ret); ("ListMeta", ext_copy ListMeta); ("Items", copy_slice MeshPeer_DeepCopyInto)].
Definition MeshPeerList_DeepCopy : copier := DeepCopy_of MeshPeerList_DeepCopyInto.
Definition MeshPeerList_DeepCopyObject : copier := DeepCopyObject_of MeshPeerList_DeepCopy.

(** ** net/v1alpha1 *)
Definition InterconnectSpec_DeepCopyInto : copier :=
  copy_struct [("ExcludedNodes", append_nil); ("AllowedNamespaces", append_nil)].
Definition InterconnectSpec_DeepCopy : copier := DeepCopy_of InterconnectSpec_DeepCopyInto.
Definition InterconnectMember_DeepCopyInto : copier :=
  copy_struct [("ReachablePeers", append_nil); ("LastTransition", copy_time)].
Definition InterconnectMember_DeepCopy : copier := DeepCopy_of InterconnectMember_DeepCopyInto.
Definition InterconnectSegment_DeepCopyInto : copier :=
  copy_struct [("Nodes", append_nil)].
Definition InterconnectSegment_DeepCopy : copier := DeepCopy_of InterconnectSegment_DeepCopyInto.
Definition InterconnectStatus_DeepCopyInto : copier :=
  copy_struct [("Members", copy_slice InterconnectMember_DeepCopyInto);
    ("Segments", copy_slice InterconnectSegment_DeepCopyInto); ("ArmedAt", copy_time);
    ("Conditions", copy_conditions)].
Definition InterconnectStatus_DeepCopy : copier := DeepCopy_of InterconnectStatus_DeepCopyInto.
Definition Interconnect_DeepCopyInto : copier :=
  copy_struct [("TypeMeta", ret); ("ObjectMeta", ext_copy ObjectMeta); ("Spec", InterconnectSpec_DeepCopyInto); ("Status", InterconnectStatus_DeepCopyInto)].
Definition Interconnect_DeepCopy : copier := DeepCopy_of Interconnect_DeepCopyInto.
Definition Interconnect_DeepCopyObject : copier := DeepCopyObject_of Interconnect_DeepCopy.
Definition InterconnectList_DeepCopyInto : copier :=
  copy_struct [("TypeMeta", ret); ("ListMeta", ext_copy ListMeta); ("Items", copy_slice Interconnect_DeepCopyInto)].
Definition InterconnectList_DeepCopy : copier := DeepCopy_of InterconnectList_DeepCopyInto.
Definition InterconnectList_DeepCopyObject : copier := DeepCopyObject_of InterconnectList_DeepCopy.

(** ** updates/v1alpha1 *)
Definition UpdateSpec_DeepCopyInto : copier :=
  copy_struct [].
Definition UpdateSpec_DeepCopy : copier := DeepCopy_of UpdateSpec_DeepCopyInto.
Definition UpdateNodeStatus_DeepCopyInto : copier :=
  copy_struct [("StartedAt", copy_time); ("FinishedAt", copy_time)].
Definition UpdateNodeStatus_DeepCopy : copier := DeepCopy_of UpdateNodeStatus_DeepCopyInto.
Definition UpdateStatus_DeepCopyInto : copier :=
  copy_struct [("Resolved", copy_ptr ret); ("Nodes", copy_slice UpdateNodeStatus_DeepCopyInto);
    ("Conditions", copy_conditions)].
Definition UpdateStatus_DeepCopy : copier := DeepCopy_of UpdateStatus_DeepCopyInto.
Definition Update_DeepCopyInto : copier :=
  copy_struct [("TypeMeta", ret); ("ObjectMeta", ext_copy ObjectMeta); ("Spec", UpdateSpec_DeepCopyInto); ("Status", UpdateStatus_DeepCopyInto)].
Definition Update_DeepCopy : copier := DeepCopy_of Update_DeepCopyInto.
Definition Update_DeepCopyObject : copier := DeepCopyObject_of Update_DeepCopy.
Definition UpdateList_DeepCopyInto : copier :=
  copy_struct [("TypeMeta", ret); ("ListMeta", ext_copy ListMeta); ("Items", copy_slice Update_DeepCopyInto)].
Definition UpdateList_DeepCopy : copier := DeepCopy_of UpdateList_DeepCopyInto.
Definition UpdateList_DeepCopyObject : copier := DeepCopyObject_of UpdateList_DeepCopy.
Definition UpdatePolicySpec_DeepCopyInto : copier :=
  copy_struct [].
Definition UpdatePolicySpec_DeepCopy : copier := DeepCopy_of UpdatePolicySpec_DeepCopyInto.
Definition UpdatePolicy_DeepCopyInto : copier :=
  copy_struct [("TypeMeta", ret); ("ObjectMeta", ext_copy ObjectMeta); ("Spec", UpdatePolicySpec_DeepCopyInto)].
Definition UpdatePolicy_DeepCopy : copier := DeepCopy_of UpdatePolicy_DeepCopyInto.
Definition UpdatePolicy_DeepCopyObject : copier := DeepCopyObject_of UpdatePolicy_DeepCopy.
Definition UpdatePolicyList_DeepCopyInto : copier :=
  copy_struct [("TypeMeta", ret); ("ListMeta", ext_copy ListMeta); ("Items", copy_slice UpdatePolicy_DeepCopyInto)].
Definition UpdatePolicyList_DeepCopy : copier := DeepCopy_of UpdatePolicyList_DeepCopyInto.
Definition UpdatePolicyList_DeepCopyObject : copier := DeepCopyObject_of UpdatePolicyList_DeepCopy.

(** ** mlx/v1alpha1 *)
Definition MLXRuntime_DeepCopyInto : copier :=
  copy_struct [("Args", copy_slice ret)].
Definition MLXRuntime_DeepCopy : copier := DeepCopy_of MLXRuntime_DeepCopyInto.
Definition MLXCache_DeepCopyInto : copier :=
  copy_struct [("Size", ext_copy Quantity)].
Definition MLXCache_DeepCopy : copier := DeepCopy_of MLXCache_DeepCopyInto.
Definition MLXDistributed_DeepCopyInto : copier :=
  copy_struct [].
Definition MLXDistributed_DeepCopy : copier := DeepCopy_of MLXDistributed_DeepCopyInto.
Definition MLXModelSpec_DeepCopyInto : copier :=
  copy_struct [("Memory", ext_copy Quantity); ("Replicas", copy_ptr ret); ("Artifact", copy_ptr ret);
    ("Runtime", MLXRuntime_DeepCopyInto); ("Cache", MLXCache_DeepCopy); ("NodeSelector", copy_map);
    ("Distributed", MLXDistributed_DeepCopy)].
Definition MLXModelSpec_DeepCopy : copier := DeepCopy_of MLXModelSpec_DeepCopyInto.
Definition MLXModelStatus_DeepCopyInto : copier :=
  copy_struct [("Conditions", copy_conditions)].
Definition MLXModelStatus_DeepCopy : copier := DeepCopy_of MLXModelStatus_DeepCopyInto.
Definition MLXModel_DeepCopyInto : copier :=
  copy_struct [("TypeMeta", ret); ("ObjectMeta", ext_copy ObjectMeta); ("Spec", MLXModelSpec_DeepCopyInto); ("Status", MLXModelStatus_DeepCopyInto)].
Definition MLXModel_DeepCopy : copier := DeepCopy_of MLXModel_DeepCopyInto.
Definition MLXModel_DeepCopyObject : copier := DeepCopyObject_of MLXModel_DeepCopy.
Definition MLXModelList_DeepCopyInto : copier :=
  copy_struct [("TypeMeta", ret); ("ListMeta", ext_copy ListMeta); ("Items", copy_slice MLXModel_DeepCopyInto)].
Definition MLXModelList_DeepCopy : copier := DeepCopy_of MLXModelList_DeepCopyInto.
Definition MLXModelList_DeepCopyObject : copier := DeepCopyObject_of MLXModelList_DeepCopy.

(** ** helm/v1 *)
Definition HelmChartSpec_DeepCopyInto : copier :=
  copy_struct [("Set", copy_map); ("Timeout", copy_ptr ret); ("BackOffLimit", copy_ptr ret)].
Definition HelmChartSpec_DeepCopy : copier := DeepCopy_of HelmChartSpec_DeepCopyInto.
Definition HelmChartCondition_DeepCopyInto : copier :=
  copy_struct [("LastUpdateTime", ext_copy Time); ("LastTransitionTime", ext_copy Time)].
Definition HelmChartCondition_DeepCopy : copier := DeepCopy_of HelmChartCondition_DeepCopyInto.
Definition HelmChartStatus_DeepCopyInto : copier :=
  copy_struct [("Conditions", copy_slice HelmChartCondition_DeepCopyInto)].
Definition HelmChartStatus_DeepCopy : copier := DeepCopy_of HelmChartStatus_DeepCopyInto.
Definition HelmChart_DeepCopyInto : copier :=
  copy_struct [("TypeMeta", ret); ("ObjectMeta", ext_copy ObjectMeta); ("Spec", HelmChartSpec_DeepCopyInto); ("Status", HelmChartStatus_DeepCopyInto)].
Definition HelmChart_DeepCopy : copier := DeepCopy_of HelmChart_DeepCopyInto.
Definition HelmChart_DeepCopyObject : copier := DeepCopyObject_of HelmChart_DeepCopy.
Definition HelmChartList_DeepCopyInto : copier :=
  copy_struct [("TypeMeta", ret); ("ListMeta", ext_copy ListMeta); ("Items", copy_slice HelmChart_DeepCopyInto)].
Definition HelmChartList_DeepCopy : copier := DeepCopy_of HelmChartList_DeepCopyInto.
Definition HelmChartList_DeepCopyObject : copier := DeepCopyObject_of HelmChartList_DeepCopy.
Definition HelmChartConfigSpec_DeepCopyInto : copier :=
  copy_struct [].
Definition HelmChartConfigSpec_DeepCopy : copier := DeepCopy_of HelmChartConfigSpec_DeepCopyInto.
Definition HelmChartConfig_DeepCopyInto : copier :=
  copy_struct [("TypeMeta", ret); ("ObjectMeta", ext_copy ObjectMeta); ("Spec", HelmChartConfigSpec_DeepCopyInto)].
Definition HelmChartConfig_DeepCopy : copier := DeepCopy_of HelmChartConfig_DeepCopyInto.
Definition HelmChartConfig_DeepCopyObject : copier := DeepCopyObject_of HelmChartConfig_DeepCopy.
Definition HelmChartConfigList_DeepCopyInto : copier :=
  copy_struct [("TypeMeta", ret); ("ListMeta", ext_copy ListMeta); ("Items", copy_slice HelmChartConfig_DeepCopyInto)].
Definition HelmChartConfigList_DeepCopy : copier := DeepCopy_of HelmChartConfigList_DeepCopyInto.
Definition HelmChartConfigList_DeepCopyObject : copier := DeepCopyObject_of HelmChartConfigList_DeepCopy.

(** ** budget/v1alpha1 *)
Definition BudgetCapacity_DeepCopyInto : copier :=
  literal [("CPUCapacityMilli", clonePtr); ("CPUSystemReserveMilli", clonePtr); ("MemCapacityBytes", clonePtr);
    ("MemSystemReserveBytes", clonePtr); ("MemEvictionReserveBytes", clonePtr);
    ("MemAllocatableBytes", clonePtr); ("SwapTotalBytes", clonePtr); ("SwapUsedBytes", clonePtr);
    ("CPUPerformanceCores", clonePtr); ("CPUEfficiencyCores", clonePtr); ("GPUPresent", clonePtr);
    ("GPUCount", clonePtr)].
Definition BudgetSignal_DeepCopyInto : copier :=
  copy_struct [("Value", clonePtr); ("WarnThreshold", clonePtr); ("AdmitStopThreshold", clonePtr);
    ("CriticalThreshold", clonePtr); ("EvictSoftThreshold", clonePtr); ("EvictHardThreshold", clonePtr);
    ("WarnRelease", clonePtr); ("AdmitStopRelease", clonePtr); ("CriticalRelease", clonePtr);
    ("EvictSoftRelease", clonePtr); ("EvictHardRelease", clonePtr); ("GraceSeconds", clonePtr);
    ("MinReclaimBytes", clonePtr); ("WindowSeconds", clonePtr); ("EtaToNextRungSeconds", clonePtr)].
Definition BandCounters_DeepCopyInto : copier :=
  copy_struct [("Windows", cloneSlice)].
Definition copy_compressor : copier := copy_ptr (literal [("BytesUsed", clonePtr); ("BytesStored", clonePtr); ("SegmentLimitBytes", clonePtr)]).
Definition DarwinSignals_DeepCopyInto : copier :=
  literal [("VMPressureLevel", clonePtr); ("MemorystatusLevelPermille", clonePtr); ("SwapinsTotal", clonePtr);
    ("SwapoutsTotal", clonePtr); ("Compressor", copy_compressor)].
Definition PSILine_deepCopy : copier := copy_ptr (literal [("Avg10Permille", clonePtr); ("Avg60Permille", clonePtr); ("TotalUs", clonePtr)]).
Definition PSIResource_deepCopy : copier := copy_ptr (literal [("Some", PSILine_deepCopy); ("Full", PSILine_deepCopy)]).
Definition copy_psi : copier :=
  copy_ptr (literal [("CPU", PSIResource_deepCopy); ("Memory", PSIResource_deepCopy); ("IO", PSIResource_deepCopy)]).
Definition copy_events : copier := copy_ptr (literal [("High", clonePtr); ("Max", clonePtr); ("OOM", clonePtr); ("OOMKill", clonePtr)]).
Definition LinuxSignals_DeepCopyInto : copier :=
  literal [("PSI", copy_psi); ("MemoryEvents", copy_events)].
Definition copy_recommendation : copier := copy_struct [("SafeAdditionalBytes", clonePtr)].
Definition copy_would_kill : copier := copy_ptr (copy_struct [("At", ext_copy Time)]).
Definition copy_applied_policy : copier := copy_ptr (copy_struct [("ClampedFields", cloneSlice)]).
Definition NodeBudgetObservation_DeepCopyInto : copier :=
  copy_struct [("ObservedAt", ext_copy Time); ("EvictDeadline", copy_time);
    ("Capacity", BudgetCapacity_DeepCopyInto); ("Signals", copy_slice BudgetSignal_DeepCopyInto);
    ("Recommendation", copy_recommendation); ("WouldKill", copy_would_kill);
    ("Counters", copy_slice BandCounters_DeepCopyInto); ("Policy", copy_applied_policy); ("InForce", clonePtr);
    ("Darwin", copy_ptr DarwinSignals_DeepCopyInto); ("Linux", copy_ptr LinuxSignals_DeepCopyInto)].
Definition NodeBudgetObservation_DeepCopy : copier := DeepCopy_of NodeBudgetObservation_DeepCopyInto.
Definition NodeBudgetStatus_DeepCopyInto : copier :=
  copy_struct [("NodeBudgetObservation", NodeBudgetObservation_DeepCopyInto); ("Writer", clonePtr);
    ("Conditions", copy_conditions)].
Definition NodeBudgetStatus_DeepCopy : copier := DeepCopy_of NodeBudgetStatus_DeepCopyInto.
Definition NodeBudget_DeepCopyInto : copier :=
  copy_struct [("TypeMeta", ret); ("ObjectMeta", ext_copy ObjectMeta); ("Status", NodeBudgetStatus_DeepCopyInto)].
Definition NodeBudget_DeepCopy : copier := DeepCopy_of NodeBudget_DeepCopyInto.
Definition NodeBudget_DeepCopyObject : copier := DeepCopyObject_of NodeBudget_DeepCopy.
Definition NodeBudgetList_DeepCopyInto : copier :=
  copy_struct [("TypeMeta", ret); ("ListMeta", ext_copy ListMeta); ("Items", copy_slice NodeBudget_DeepCopyInto)].
Definition NodeBudgetList_DeepCopy : copier := DeepCopy_of NodeBudgetList_DeepCopyInto.
Definition NodeBudgetList_DeepCopyObject : copier := DeepCopyObject_of NodeBudgetList_DeepCopy.
Definition SignalThresholds_DeepCopyInto : copier :=
  copy_struct [("WarnThreshold", clonePtr); ("AdmitStopThreshold", clonePtr); ("CriticalThreshold", clonePtr);
    ("EvictSoftThreshold", clonePtr); ("EvictHardThreshold", clonePtr); ("WarnRelease", clonePtr);
    ("AdmitStopRelease", clonePtr); ("CriticalRelease", clonePtr); ("EvictSoftRelease", clonePtr);
    ("EvictHardRelease", clonePtr); ("GraceSeconds", clonePtr); ("MinReclaimBytes", clonePtr);
    ("DwellSeconds", clonePtr); ("WindowSeconds", clonePtr)].
Definition copy_reserves : copier :=
  copy_ptr (literal [("CPUSystemReserveMilli", clonePtr); ("MemSystemReserveBytes", clonePtr); ("MemEvictionReserveBytes", clonePtr)]).
Definition copy_history : copier :=
  copy_ptr (literal [("MemoryHalfLifeSeconds", clonePtr); ("CPUHalfLifeSeconds", clonePtr); ("MarginPermille", clonePtr)]).
Definition NodeBudgetPolicySpec_DeepCopyInto : copier :=
  copy_struct [("NodeSelector", copy_map); ("Thresholds", copy_slice SignalThresholds_DeepCopyInto);
    ("Reserves", copy_reserves); ("History", copy_history); ("Tier1GraceSeconds", clonePtr);
    ("Tier1HeldSeconds", clonePtr); ("Tier1MaxDeliveriesPerHour", clonePtr); ("Tier1CooloffSeconds", clonePtr);
    ("PSIHeldPermille", clonePtr)].
Definition NodeBudgetPolicySpec_DeepCopy : copier := DeepCopy_of NodeBudgetPolicySpec_DeepCopyInto.
Definition NodeBudgetPolicy_DeepCopyInto : copier :=
  copy_struct [("TypeMeta", ret); ("ObjectMeta", ext_copy ObjectMeta); ("Spec", NodeBudgetPolicySpec_DeepCopyInto)].
Definition NodeBudgetPolicy_DeepCopy : copier := DeepCopy_of NodeBudgetPolicy_DeepCopyInto.
Definition NodeBudgetPolicy_DeepCopyObject : copier := DeepCopyObject_of NodeBudgetPolicy_DeepCopy.
Definition NodeBudgetPolicyList_DeepCopyInto : copier :=
  copy_struct [("TypeMeta", ret); ("ListMeta", ext_copy ListMeta); ("Items", copy_slice NodeBudgetPolicy_DeepCopyInto)].
Definition NodeBudgetPolicyList_DeepCopy : copier := DeepCopy_of NodeBudgetPolicyList_DeepCopyInto.
Definition NodeBudgetPolicyList_DeepCopyObject : copier := DeepCopyObject_of NodeBudgetPolicyList_DeepCopy.

(** ** Every method is a deep copy *)
#[local] Hint Resolve copier_ext copies_ptr copies_slice copies_append copies_map copies_ret : deepcopy.
#[local] Hint Extern 1 (no_refs _ = true) => reflexivity : deepcopy.
Lemma clonePtr_copies t : no_refs t = true -> copies (TPtr t) clonePtr.
Proof. unfold clonePtr. auto with deepcopy. Qed.
Lemma cloneSlice_copies t : no_refs t = true -> copies (TSlice t) cloneSlice.
Proof. unfold cloneSlice. auto with deepcopy. Qed.
Lemma copy_time_copies : copies (TPtr (TExt Time)) copy_time.
Proof. unfold copy_time. auto with deepcopy. Qed.
Lemma copy_conditions_copies : copies (TSlice (TExt Condition)) copy_conditions.
Proof. unfold copy_conditions. auto with deepcopy. Qed.
Lemma DeepCopy_of_copies t c : copies t c -> copies (TPtr t) (DeepCopy_of c).
Proof. apply copies_ptr. Qed.
#[local] Hint Resolve clonePtr_copies cloneSlice_copies copy_time_copies copy_conditions_copies DeepCopy_of_copies : deepcopy.
Lemma MeshPeerSpec_DeepCopyInto_copies : copies ty_MeshPeerSpec MeshPeerSpec_DeepCopyInto.
Proof. unfold ty_MeshPeerSpec, MeshPeerSpec_DeepCopyInto. deep_struct. Qed.
#[local] Hint Resolve MeshPeerSpec_DeepCopyInto_copies : deepcopy.
Lemma MeshPeerSpec_DeepCopy_copies : copies (TPtr ty_MeshPeerSpec) MeshPeerSpec_DeepCopy.
Proof. unfold MeshPeerSpec_DeepCopy. auto with deepcopy. Qed.
#[local] Hint Resolve MeshPeerSpec_DeepCopy_copies : deepcopy.
Lemma MeshPeerStatus_DeepCopyInto_copies : copies ty_MeshPeerStatus MeshPeerStatus_DeepCopyInto.
Proof. unfold ty_MeshPeerStatus, MeshPeerStatus_DeepCopyInto. deep_struct. Qed.
#[local] Hint Resolve MeshPeerStatus_DeepCopyInto_copies : deepcopy.
Lemma MeshPeerStatus_DeepCopy_copies : copies (TPtr ty_MeshPeerStatus) MeshPeerStatus_DeepCopy.
Proof. unfold MeshPeerStatus_DeepCopy. auto with deepcopy. Qed.
#[local] Hint Resolve MeshPeerStatus_DeepCopy_copies : deepcopy.
Lemma MeshPeer_DeepCopyInto_copies : copies ty_MeshPeer MeshPeer_DeepCopyInto.
Proof. unfold ty_MeshPeer, MeshPeer_DeepCopyInto. deep_struct. Qed.
#[local] Hint Resolve MeshPeer_DeepCopyInto_copies : deepcopy.
Lemma MeshPeer_DeepCopy_copies : copies (TPtr ty_MeshPeer) MeshPeer_DeepCopy.
Proof. unfold MeshPeer_DeepCopy. auto with deepcopy. Qed.
#[local] Hint Resolve MeshPeer_DeepCopy_copies : deepcopy.
Lemma MeshPeerList_DeepCopyInto_copies : copies ty_MeshPeerList MeshPeerList_DeepCopyInto.
Proof. unfold ty_MeshPeerList, MeshPeerList_DeepCopyInto. deep_struct. Qed.
#[local] Hint Resolve MeshPeerList_DeepCopyInto_copies : deepcopy.
Lemma MeshPeerList_DeepCopy_copies : copies (TPtr ty_MeshPeerList) MeshPeerList_DeepCopy.
Proof. unfold MeshPeerList_DeepCopy. auto with deepcopy. Qed.
#[local] Hint Resolve MeshPeerList_DeepCopy_copies : deepcopy.
Lemma InterconnectSpec_DeepCopyInto_copies : copies ty_InterconnectSpec InterconnectSpec_DeepCopyInto.
Proof. unfold ty_InterconnectSpec, InterconnectSpec_DeepCopyInto. deep_struct. Qed.
#[local] Hint Resolve InterconnectSpec_DeepCopyInto_copies : deepcopy.
Lemma InterconnectSpec_DeepCopy_copies : copies (TPtr ty_InterconnectSpec) InterconnectSpec_DeepCopy.
Proof. unfold InterconnectSpec_DeepCopy. auto with deepcopy. Qed.
#[local] Hint Resolve InterconnectSpec_DeepCopy_copies : deepcopy.
Lemma InterconnectMember_DeepCopyInto_copies : copies ty_InterconnectMember InterconnectMember_DeepCopyInto.
Proof. unfold ty_InterconnectMember, InterconnectMember_DeepCopyInto. deep_struct. Qed.
#[local] Hint Resolve InterconnectMember_DeepCopyInto_copies : deepcopy.
Lemma InterconnectMember_DeepCopy_copies : copies (TPtr ty_InterconnectMember) InterconnectMember_DeepCopy.
Proof. unfold InterconnectMember_DeepCopy. auto with deepcopy. Qed.
#[local] Hint Resolve InterconnectMember_DeepCopy_copies : deepcopy.
Lemma InterconnectSegment_DeepCopyInto_copies : copies ty_InterconnectSegment InterconnectSegment_DeepCopyInto.
Proof. unfold ty_InterconnectSegment, InterconnectSegment_DeepCopyInto. deep_struct. Qed.
#[local] Hint Resolve InterconnectSegment_DeepCopyInto_copies : deepcopy.
Lemma InterconnectSegment_DeepCopy_copies : copies (TPtr ty_InterconnectSegment) InterconnectSegment_DeepCopy.
Proof. unfold InterconnectSegment_DeepCopy. auto with deepcopy. Qed.
#[local] Hint Resolve InterconnectSegment_DeepCopy_copies : deepcopy.
Lemma InterconnectStatus_DeepCopyInto_copies : copies ty_InterconnectStatus InterconnectStatus_DeepCopyInto.
Proof. unfold ty_InterconnectStatus, InterconnectStatus_DeepCopyInto. deep_struct. Qed.
#[local] Hint Resolve InterconnectStatus_DeepCopyInto_copies : deepcopy.
Lemma InterconnectStatus_DeepCopy_copies : copies (TPtr ty_InterconnectStatus) InterconnectStatus_DeepCopy.
Proof. unfold InterconnectStatus_DeepCopy. auto with deepcopy. Qed.
#[local] Hint Resolve InterconnectStatus_DeepCopy_copies : deepcopy.
Lemma Interconnect_DeepCopyInto_copies : copies ty_Interconnect Interconnect_DeepCopyInto.
Proof. unfold ty_Interconnect, Interconnect_DeepCopyInto. deep_struct. Qed.
#[local] Hint Resolve Interconnect_DeepCopyInto_copies : deepcopy.
Lemma Interconnect_DeepCopy_copies : copies (TPtr ty_Interconnect) Interconnect_DeepCopy.
Proof. unfold Interconnect_DeepCopy. auto with deepcopy. Qed.
#[local] Hint Resolve Interconnect_DeepCopy_copies : deepcopy.
Lemma InterconnectList_DeepCopyInto_copies : copies ty_InterconnectList InterconnectList_DeepCopyInto.
Proof. unfold ty_InterconnectList, InterconnectList_DeepCopyInto. deep_struct. Qed.
#[local] Hint Resolve InterconnectList_DeepCopyInto_copies : deepcopy.
Lemma InterconnectList_DeepCopy_copies : copies (TPtr ty_InterconnectList) InterconnectList_DeepCopy.
Proof. unfold InterconnectList_DeepCopy. auto with deepcopy. Qed.
#[local] Hint Resolve InterconnectList_DeepCopy_copies : deepcopy.
Lemma UpdateSpec_DeepCopyInto_copies : copies ty_UpdateSpec UpdateSpec_DeepCopyInto.
Proof. unfold ty_UpdateSpec, UpdateSpec_DeepCopyInto. deep_struct. Qed.
#[local] Hint Resolve UpdateSpec_DeepCopyInto_copies : deepcopy.
Lemma UpdateSpec_DeepCopy_copies : copies (TPtr ty_UpdateSpec) UpdateSpec_DeepCopy.
Proof. unfold UpdateSpec_DeepCopy. auto with deepcopy. Qed.
#[local] Hint Resolve UpdateSpec_DeepCopy_copies : deepcopy.
Lemma UpdateNodeStatus_DeepCopyInto_copies : copies ty_UpdateNodeStatus UpdateNodeStatus_DeepCopyInto.
Proof. unfold ty_UpdateNodeStatus, UpdateNodeStatus_DeepCopyInto. deep_struct. Qed.
#[local] Hint Resolve UpdateNodeStatus_DeepCopyInto_copies : deepcopy.
Lemma UpdateNodeStatus_DeepCopy_copies : copies (TPtr ty_UpdateNodeStatus) UpdateNodeStatus_DeepCopy.
Proof. unfold UpdateNodeStatus_DeepCopy. auto with deepcopy. Qed.
#[local] Hint Resolve UpdateNodeStatus_DeepCopy_copies : deepcopy.
Lemma UpdateStatus_DeepCopyInto_copies : copies ty_UpdateStatus UpdateStatus_DeepCopyInto.
Proof. unfold ty_UpdateStatus, UpdateStatus_DeepCopyInto. deep_struct. Qed.
#[local] Hint Resolve UpdateStatus_DeepCopyInto_copies : deepcopy.
Lemma UpdateStatus_DeepCopy_copies : copies (TPtr ty_UpdateStatus) UpdateStatus_DeepCopy.
Proof. unfold UpdateStatus_DeepCopy. auto with deepcopy. Qed.
#[local] Hint Resolve UpdateStatus_DeepCopy_copies : deepcopy.
Lemma Update_DeepCopyInto_copies : copies ty_Update Update_DeepCopyInto.
Proof. unfold ty_Update, Update_DeepCopyInto. deep_struct. Qed.
#[local] Hint Resolve Update_DeepCopyInto_copies : deepcopy.
Lemma Update_DeepCopy_copies : copies (TPtr ty_Update) Update_DeepCopy.
Proof. unfold Update_DeepCopy. auto with deepcopy. Qed.
#[local] Hint Resolve Update_DeepCopy_copies : deepcopy.
Lemma UpdateList_DeepCopyInto_copies : copies ty_UpdateList UpdateList_DeepCopyInto.
Proof. unfold ty_UpdateList, UpdateList_DeepCopyInto. deep_struct. Qed.
#[local] Hint Resolve UpdateList_DeepCopyInto_copies : deepcopy.
Lemma UpdateList_DeepCopy_copies : copies (TPtr ty_UpdateList) UpdateList_DeepCopy.
Proof. unfold UpdateList_DeepCopy. auto with deepcopy. Qed.
#[local] Hint Resolve UpdateList_DeepCopy_copies : deepcopy.
Lemma UpdatePolicySpec_DeepCopyInto_copies : copies ty_UpdatePolicySpec UpdatePolicySpec_DeepCopyInto.
Proof. unfold ty_UpdatePolicySpec, UpdatePolicySpec_DeepCopyInto. deep_struct. Qed.
#[local] Hint Resolve UpdatePolicySpec_DeepCopyInto_copies : deepcopy.
Lemma UpdatePolicySpec_DeepCopy_copies : copies (TPtr ty_UpdatePolicySpec) UpdatePolicySpec_DeepCopy.
Proof. unfold UpdatePolicySpec_DeepCopy. auto with deepcopy. Qed.
#[local] Hint Resolve UpdatePolicySpec_DeepCopy_copies : deepcopy.
Lemma UpdatePolicy_DeepCopyInto_copies : copies ty_UpdatePolicy UpdatePolicy_DeepCopyInto.
Proof. unfold ty_UpdatePolicy, UpdatePolicy_DeepCopyInto. deep_struct. Qed.
#[local] Hint Resolve UpdatePolicy_DeepCopyInto_copies : deepcopy.
Lemma UpdatePolicy_DeepCopy_copies : copies (TPtr ty_UpdatePolicy) UpdatePolicy_DeepCopy.
Proof. unfold UpdatePolicy_DeepCopy. auto with deepcopy. Qed.
#[local] Hint Resolve UpdatePolicy_DeepCopy_copies : deepcopy.
Lemma UpdatePolicyList_DeepCopyInto_copies : copies ty_UpdatePolicyList UpdatePolicyList_DeepCopyInto.
Proof. unfold ty_UpdatePolicyList, UpdatePolicyList_DeepCopyInto. deep_struct. Qed.
#[local] Hint Resolve UpdatePolicyList_DeepCopyInto_copies : deepcopy.
Lemma UpdatePolicyList_DeepCopy_copies : copies (TPtr ty_UpdatePolicyList) UpdatePolicyList_DeepCopy.
Proof. unfold UpdatePolicyList_DeepCopy. auto with deepcopy. Qed.
#[local] Hint Resolve UpdatePolicyList_DeepCopy_copies : deepcopy.
Lemma MLXRuntime_DeepCopyInto_copies : copies ty_MLXRuntime MLXRuntime_DeepCopyInto.
Proof. unfold ty_MLXRuntime, MLXRuntime_DeepCopyInto. deep_struct. Qed.
#[local] Hint Resolve MLXRuntime_DeepCopyInto_copies : deepcopy.
Lemma MLXRuntime_DeepCopy_copies : copies (TPtr ty_MLXRuntime) MLXRuntime_DeepCopy.
Proof. unfold MLXRuntime_DeepCopy. auto with deepcopy. Qed.
#[local] Hint Resolve MLXRuntime_DeepCopy_copies : deepcopy.
Lemma MLXCache_DeepCopyInto_copies : copies ty_MLXCache MLXCache_DeepCopyInto.
Proof. unfold ty_MLXCache, MLXCache_DeepCopyInto. deep_struct. Qed.
#[local] Hint Resolve MLXCache_DeepCopyInto_copies : deepcopy.
Lemma MLXCache_DeepCopy_copies : copies (TPtr ty_MLXCache) MLXCache_DeepCopy.
Proof. unfold MLXCache_DeepCopy. auto with deepcopy. Qed.
#[local] Hint Resolve MLXCache_DeepCopy_copies : deepcopy.
Lemma MLXDistributed_DeepCopyInto_copies : copies ty_MLXDistributed MLXDistributed_DeepCopyInto.
Proof. unfold ty_MLXDistributed, MLXDistributed_DeepCopyInto. deep_struct. Qed.
#[local] Hint Resolve MLXDistributed_DeepCopyInto_copies : deepcopy.
Lemma MLXDistributed_DeepCopy_copies : copies (TPtr ty_MLXDistributed) MLXDistributed_DeepCopy.
Proof. unfold MLXDistributed_DeepCopy. auto with deepcopy. Qed.
#[local] Hint Resolve MLXDistributed_DeepCopy_copies : deepcopy.
Lemma MLXModelSpec_DeepCopyInto_copies : copies ty_MLXModelSpec MLXModelSpec_DeepCopyInto.
Proof. unfold ty_MLXModelSpec, MLXModelSpec_DeepCopyInto. deep_struct. Qed.
#[local] Hint Resolve MLXModelSpec_DeepCopyInto_copies : deepcopy.
Lemma MLXModelSpec_DeepCopy_copies : copies (TPtr ty_MLXModelSpec) MLXModelSpec_DeepCopy.
Proof. unfold MLXModelSpec_DeepCopy. auto with deepcopy. Qed.
#[local] Hint Resolve MLXModelSpec_DeepCopy_copies : deepcopy.
Lemma MLXModelStatus_DeepCopyInto_copies : copies ty_MLXModelStatus MLXModelStatus_DeepCopyInto.
Proof. unfold ty_MLXModelStatus, MLXModelStatus_DeepCopyInto. deep_struct. Qed.
#[local] Hint Resolve MLXModelStatus_DeepCopyInto_copies : deepcopy.
Lemma MLXModelStatus_DeepCopy_copies : copies (TPtr ty_MLXModelStatus) MLXModelStatus_DeepCopy.
Proof. unfold MLXModelStatus_DeepCopy. auto with deepcopy. Qed.
#[local] Hint Resolve MLXModelStatus_DeepCopy_copies : deepcopy.
Lemma MLXModel_DeepCopyInto_copies : copies ty_MLXModel MLXModel_DeepCopyInto.
Proof. unfold ty_MLXModel, MLXModel_DeepCopyInto. deep_struct. Qed.
#[local] Hint Resolve MLXModel_DeepCopyInto_copies : deepcopy.
Lemma MLXModel_DeepCopy_copies : copies (TPtr ty_MLXModel) MLXModel_DeepCopy.
Proof. unfold MLXModel_DeepCopy. auto with deepcopy. Qed.
#[local] Hint Resolve MLXModel_DeepCopy_copies : deepcopy.
Lemma MLXModelList_DeepCopyInto_copies : copies ty_MLXModelList MLXModelList_DeepCopyInto.
Proof. unfold ty_MLXModelList, MLXModelList_DeepCopyInto. deep_struct. Qed.
#[local] Hint Resolve MLXModelList_DeepCopyInto_copies : deepcopy.
Lemma MLXModelList_DeepCopy_copies : copies (TPtr ty_MLXModelList) MLXModelList_DeepCopy.
Proof. unfold MLXModelList_DeepCopy. auto with deepcopy. Qed.
#[local] Hint Resolve MLXModelList_DeepCopy_copies : deepcopy.
Lemma HelmChartSpec_DeepCopyInto_copies : copies ty_HelmChartSpec HelmChartSpec_DeepCopyInto.
Proof. unfold ty_HelmChartSpec, HelmChartSpec_DeepCopyInto. deep_struct. Qed.
#[local] Hint Resolve HelmChartSpec_DeepCopyInto_copies : deepcopy.
Lemma HelmChartSpec_DeepCopy_copies : copies (TPtr ty_HelmChartSpec) HelmChartSpec_DeepCopy.
Proof. unfold HelmChartSpec_DeepCopy. auto with deepcopy. Qed.
#[local] Hint Resolve HelmChartSpec_DeepCopy_copies : deepcopy.
Lemma HelmChartCondition_DeepCopyInto_copies : copies ty_HelmChartCondition HelmChartCondition_DeepCopyInto.
Proof. unfold ty_HelmChartCondition, HelmChartCondition_DeepCopyInto. deep_struct. Qed.
#[local] Hint Resolve HelmChartCondition_DeepCopyInto_copies : deepcopy.
Lemma HelmChartCondition_DeepCopy_copies : copies (TPtr ty_HelmChartCondition) HelmChartCondition_DeepCopy.
Proof. unfold HelmChartCondition_DeepCopy. auto with deepcopy. Qed.
#[local] Hint Resolve HelmChartCondition_DeepCopy_copies : deepcopy.
Lemma HelmChartStatus_DeepCopyInto_copies : copies ty_HelmChartStatus HelmChartStatus_DeepCopyInto.
Proof. unfold ty_HelmChartStatus, HelmChartStatus_DeepCopyInto. deep_struct. Qed.
#[local] Hint Resolve HelmChartStatus_DeepCopyInto_copies : deepcopy.
Lemma HelmChartStatus_DeepCopy_copies : copies (TPtr ty_HelmChartStatus) HelmChartStatus_DeepCopy.
Proof. unfold HelmChartStatus_DeepCopy. auto with deepcopy. Qed.
#[local] Hint Resolve HelmChartStatus_DeepCopy_copies : deepcopy.
Lemma HelmChart_DeepCopyInto_copies : copies ty_HelmChart HelmChart_DeepCopyInto.
Proof. unfold ty_HelmChart, HelmChart_DeepCopyInto. deep_struct. Qed.
#[local] Hint Resolve HelmChart_DeepCopyInto_copies : deepcopy.
Lemma HelmChart_DeepCopy_copies : copies (TPtr ty_HelmChart) HelmChart_DeepCopy.
Proof. unfold HelmChart_DeepCopy. auto with deepcopy. Qed.
#[local] Hint Resolve HelmChart_DeepCopy_copies : deepcopy.
Lemma HelmChartList_DeepCopyInto_copies : copies ty_HelmChartList HelmChartList_DeepCopyInto.
Proof. unfold ty_HelmChartList, HelmChartList_DeepCopyInto. deep_struct. Qed.
#[local] Hint Resolve HelmChartList_DeepCopyInto_copies : deepcopy.
Lemma HelmChartList_DeepCopy_copies : copies (TPtr ty_HelmChartList) HelmChartList_DeepCopy.
Proof. unfold HelmChartList_DeepCopy. auto with deepcopy. Qed.
#[local] Hint Resolve HelmChartList_DeepCopy_copies : deepcopy.
Lemma HelmChartConfigSpec_DeepCopyInto_copies : copies ty_HelmChartConfigSpec HelmChartConfigSpec_DeepCopyInto.
Proof. unfold ty_HelmChartConfigSpec, HelmChartConfigSpec_DeepCopyInto. deep_struct. Qed.
#[local] Hint Resolve HelmChartConfigSpec_DeepCopyInto_copies : deepcopy.
Lemma HelmChartConfigSpec_DeepCopy_copies : copies (TPtr ty_HelmChartConfigSpec) HelmChartConfigSpec_DeepCopy.
Proof. unfold HelmChartConfigSpec_DeepCopy. auto with deepcopy. Qed.
#[local] Hint Resolve HelmChartConfigSpec_DeepCopy_copies : deepcopy.
Lemma HelmChartConfig_DeepCopyInto_copies : copies ty_HelmChartConfig HelmChartConfig_DeepCopyInto.
Proof. unfold ty_HelmChartConfig, HelmChartConfig_DeepCopyInto. deep_struct. Qed.
#[local] Hint Resolve HelmChartConfig_DeepCopyInto_copies : deepcopy.
Lemma HelmChartConfig_DeepCopy_copies : copies (TPtr ty_HelmChartConfig) HelmChartConfig_DeepCopy.
Proof. unfold HelmChartConfig_DeepCopy. auto with deepcopy. Qed.
#[local] Hint Resolve HelmChartConfig_DeepCopy_copies : deepcopy.
Lemma HelmChartConfigList_DeepCopyInto_copies : copies ty_HelmChartConfigList HelmChartConfigList_DeepCopyInto.
Proof. unfold ty_HelmChartConfigList, HelmChartConfigList_DeepCopyInto. deep_struct. Qed.
#[local] Hint Resolve HelmChartConfigList_DeepCopyInto_copies : deepcopy.
Lemma HelmChartConfigList_DeepCopy_copies : copies (TPtr ty_HelmChartConfigList) HelmChartConfigList_DeepCopy.
Proof. unfold HelmChartConfigList_DeepCopy. auto with deepcopy. Qed.
#[local] Hint Resolve HelmChartConfigList_DeepCopy_copies : deepcopy.
Lemma BudgetCapacity_DeepCopyInto_copies : copies ty_BudgetCapacity BudgetCapacity_DeepCopyInto.
Proof. unfold ty_BudgetCapacity, BudgetCapacity_DeepCopyInto. deep_struct. Qed.
#[local] Hint Resolve BudgetCapacity_DeepCopyInto_copies : deepcopy.
Lemma BudgetSignal_DeepCopyInto_copies : copies ty_BudgetSignal BudgetSignal_DeepCopyInto.
Proof. unfold ty_BudgetSignal, BudgetSignal_DeepCopyInto. deep_struct. Qed.
#[local] Hint Resolve BudgetSignal_DeepCopyInto_copies : deepcopy.
Lemma BandCounters_DeepCopyInto_copies : copies ty_BandCounters BandCounters_DeepCopyInto.
Proof. unfold ty_BandCounters, BandCounters_DeepCopyInto. deep_struct. Qed.
#[local] Hint Resolve BandCounters_DeepCopyInto_copies : deepcopy.
Lemma copy_compressor_copies : copies (TPtr ty_DarwinCompressor) copy_compressor.
Proof. unfold copy_compressor. apply copies_ptr. unfold ty_DarwinCompressor. deep_struct. Qed.
#[local] Hint Resolve copy_compressor_copies : deepcopy.
Lemma DarwinSignals_DeepCopyInto_copies : copies ty_DarwinSignals DarwinSignals_DeepCopyInto.
Proof. unfold ty_DarwinSignals, DarwinSignals_DeepCopyInto. deep_struct. Qed.
#[local] Hint Resolve DarwinSignals_DeepCopyInto_copies : deepcopy.
Lemma PSILine_deepCopy_copies : copies (TPtr ty_PSILine) PSILine_deepCopy.
Proof. unfold PSILine_deepCopy. apply copies_ptr. unfold ty_PSILine. deep_struct. Qed.
#[local] Hint Resolve PSILine_deepCopy_copies : deepcopy.
Lemma PSIResource_deepCopy_copies : copies (TPtr ty_PSIResource) PSIResource_deepCopy.
Proof. unfold PSIResource_deepCopy. apply copies_ptr. unfold ty_PSIResource. deep_struct. Qed.
#[local] Hint Resolve PSIResource_deepCopy_copies : deepcopy.
Lemma copy_psi_copies : copies (TPtr ty_LinuxPSI) copy_psi.
Proof. unfold copy_psi. apply copies_ptr. unfold ty_LinuxPSI. deep_struct. Qed.
#[local] Hint Resolve copy_psi_copies : deepcopy.
Lemma copy_events_copies : copies (TPtr ty_LinuxMemoryEvents) copy_events.
Proof. unfold copy_events. apply copies_ptr. unfold ty_LinuxMemoryEvents. deep_struct. Qed.
#[local] Hint Resolve copy_events_copies : deepcopy.
Lemma LinuxSignals_DeepCopyInto_copies : copies ty_LinuxSignals LinuxSignals_DeepCopyInto.
Proof. unfold ty_LinuxSignals, LinuxSignals_DeepCopyInto. deep_struct. Qed.
#[local] Hint Resolve LinuxSignals_DeepCopyInto_copies : deepcopy.
Lemma copy_recommendation_copies : copies ty_BudgetRecommendation copy_recommendation.
Proof. unfold copy_recommendation. unfold ty_BudgetRecommendation. deep_struct. Qed.
#[local] Hint Resolve copy_recommendation_copies : deepcopy.
Lemma copy_would_kill_copies : copies (TPtr ty_WouldKill) copy_would_kill.
Proof. unfold copy_would_kill. apply copies_ptr. unfold ty_WouldKill. deep_struct. Qed.
#[local] Hint Resolve copy_would_kill_copies : deepcopy.
Lemma copy_applied_policy_copies : copies (TPtr ty_AppliedPolicy) copy_applied_policy.
Proof. unfold copy_applied_policy. apply copies_ptr. unfold ty_AppliedPolicy. deep_struct. Qed.
#[local] Hint Resolve copy_applied_policy_copies : deepcopy.
Lemma NodeBudgetObservation_DeepCopyInto_copies : copies ty_NodeBudgetObservation NodeBudgetObservation_DeepCopyInto.
Proof. unfold ty_NodeBudgetObservation, NodeBudgetObservation_DeepCopyInto. deep_struct. Qed.
#[local] Hint Resolve NodeBudgetObservation_DeepCopyInto_copies : deepcopy.
Lemma NodeBudgetObservation_DeepCopy_copies : copies (TPtr ty_NodeBudgetObservation) NodeBudgetObservation_DeepCopy.
Proof. unfold NodeBudgetObservation_DeepCopy. auto with deepcopy. Qed.
#[local] Hint Resolve NodeBudgetObservation_DeepCopy_copies : deepcopy.
Lemma NodeBudgetStatus_DeepCopyInto_copies : copies ty_NodeBudgetStatus NodeBudgetStatus_DeepCopyInto.
Proof. unfold ty_NodeBudgetStatus, NodeBudgetStatus_DeepCopyInto. deep_struct. Qed.
#[local] Hint Resolve NodeBudgetStatus_DeepCopyInto_copies : deepcopy.
Lemma NodeBudgetStatus_DeepCopy_copies : copies (TPtr ty_NodeBudgetStatus) NodeBudgetStatus_DeepCopy.
Proof. unfold NodeBudgetStatus_DeepCopy. auto with deepcopy. Qed.
#[local] Hint Resolve NodeBudgetStatus_DeepCopy_copies : deepcopy.
Lemma NodeBudget_DeepCopyInto_copies : copies ty_NodeBudget NodeBudget_DeepCopyInto.
Proof. unfold ty_NodeBudget, NodeBudget_DeepCopyInto. deep_struct. Qed.
#[local] Hint Resolve NodeBudget_DeepCopyInto_copies : deepcopy.
Lemma NodeBudget_DeepCopy_copies : copies (TPtr ty_NodeBudget) NodeBudget_DeepCopy.
Proof. unfold NodeBudget_DeepCopy. auto with deepcopy. Qed.
#[local] Hint Resolve NodeBudget_DeepCopy_copies : deepcopy.
Lemma NodeBudgetList_DeepCopyInto_copies : copies ty_NodeBudgetList NodeBudgetList_DeepCopyInto.
Proof. unfold ty_NodeBudgetList, NodeBudgetList_DeepCopyInto. deep_struct. Qed.
#[local] Hint Resolve NodeBudgetList_DeepCopyInto_copies : deepcopy.
Lemma NodeBudgetList_DeepCopy_copies : copies (TPtr ty_NodeBudgetList) NodeBudgetList_DeepCopy.
Proof. unfold NodeBudgetList_DeepCopy. auto with deepcopy. Qed.
#[local] Hint Resolve NodeBudgetList_DeepCopy_copies : deepcopy.
Lemma SignalThresholds_DeepCopyInto_copies : copies ty_SignalThresholds SignalThresholds_DeepCopyInto.
Proof. unfold ty_SignalThresholds, SignalThresholds_DeepCopyInto. deep_struct. Qed.
#[local] Hint Resolve SignalThresholds_DeepCopyInto_copies : deepcopy.
Lemma copy_reserves_copies : copies (TPtr ty_BudgetReserves) copy_reserves.
Proof. unfold copy_reserves. apply copies_ptr. unfold ty_BudgetReserves. deep_struct. Qed.
#[local] Hint Resolve copy_reserves_copies : deepcopy.
Lemma copy_history_copies : copies (TPtr ty_BudgetHistory) copy_history.
Proof. unfold copy_history. apply copies_ptr. unfold ty_BudgetHistory. deep_struct. Qed.
#[local] Hint Resolve copy_history_copies : deepcopy.
Lemma NodeBudgetPolicySpec_DeepCopyInto_copies : copies ty_NodeBudgetPolicySpec NodeBudgetPolicySpec_DeepCopyInto.
Proof. unfold ty_NodeBudgetPolicySpec, NodeBudgetPolicySpec_DeepCopyInto. deep_struct. Qed.
#[local] Hint Resolve NodeBudgetPolicySpec_DeepCopyInto_copies : deepcopy.
Lemma NodeBudgetPolicySpec_DeepCopy_copies : copies (TPtr ty_NodeBudgetPolicySpec) NodeBudgetPolicySpec_DeepCopy.
Proof. unfold NodeBudgetPolicySpec_DeepCopy. auto with deepcopy. Qed.
#[local] Hint Resolve NodeBudgetPolicySpec_DeepCopy_copies : deepcopy.
Lemma NodeBudgetPolicy_DeepCopyInto_copies : copies ty_NodeBudgetPolicy NodeBudgetPolicy_DeepCopyInto.
Proof. unfold ty_NodeBudgetPolicy, NodeBudgetPolicy_DeepCopyInto. deep_struct. Qed.
#[local] Hint Resolve NodeBudgetPolicy_DeepCopyInto_copies : deepcopy.
Lemma NodeBudgetPolicy_DeepCopy_copies : copies (TPtr ty_NodeBudgetPolicy) NodeBudgetPolicy_DeepCopy.
Proof. unfold NodeBudgetPolicy_DeepCopy. auto with deepcopy. Qed.
#[local] Hint Resolve NodeBudgetPolicy_DeepCopy_copies : deepcopy.
Lemma NodeBudgetPolicyList_DeepCopyInto_copies : copies ty_NodeBudgetPolicyList NodeBudgetPolicyList_DeepCopyInto.
Proof. unfold ty_NodeBudgetPolicyList, NodeBudgetPolicyList_DeepCopyInto. deep_struct. Qed.
#[local] Hint Resolve NodeBudgetPolicyList_DeepCopyInto_copies : deepcopy.
Lemma NodeBudgetPolicyList_DeepCopy_copies : copies (TPtr ty_NodeBudgetPolicyList) NodeBudgetPolicyList_DeepCopy.
Proof. unfold NodeBudgetPolicyList_DeepCopy. auto with deepcopy. Qed.
#[local] Hint Resolve NodeBudgetPolicyList_DeepCopy_copies : deepcopy.

(** The types with their methods. *)
Definition deep_copy_methods : list (ty * copier) :=
  [(ty_MeshPeerSpec, MeshPeerSpec_DeepCopyInto); (ty_MeshPeerStatus, MeshPeerStatus_DeepCopyInto);
   (ty_MeshPeer, MeshPeer_DeepCopyInto); (ty_MeshPeerList, MeshPeerList_DeepCopyInto);
   (ty_InterconnectSpec, InterconnectSpec_DeepCopyInto);
   (ty_InterconnectMember, InterconnectMember_DeepCopyInto);
   (ty_InterconnectSegment, InterconnectSegment_DeepCopyInto);
   (ty_InterconnectStatus, InterconnectStatus_DeepCopyInto); (ty_Interconnect, Interconnect_DeepCopyInto);
   (ty_InterconnectList, InterconnectList_DeepCopyInto); (ty_UpdateSpec, UpdateSpec_DeepCopyInto);
   (ty_UpdateNodeStatus, UpdateNodeStatus_DeepCopyInto); (ty_UpdateStatus, UpdateStatus_DeepCopyInto);
   (ty_Update, Update_DeepCopyInto); (ty_UpdateList, UpdateList_DeepCopyInto);
   (ty_UpdatePolicySpec, UpdatePolicySpec_DeepCopyInto); (ty_UpdatePolicy, UpdatePolicy_DeepCopyInto);
   (ty_UpdatePolicyList, UpdatePolicyList_DeepCopyInto); (ty_MLXRuntime, MLXRuntime_DeepCopyInto);
   (ty_MLXCache, MLXCache_DeepCopyInto); (ty_MLXDistributed, MLXDistributed_DeepCopyInto);
   (ty_MLXModelSpec, MLXModelSpec_DeepCopyInto); (ty_MLXModelStatus, MLXModelStatus_DeepCopyInto);
   (ty_MLXModel, MLXModel_DeepCopyInto); (ty_MLXModelList, MLXModelList_DeepCopyInto);
   (ty_HelmChartSpec, HelmChartSpec_DeepCopyInto); (ty_HelmChartCondition, HelmChartCondition_DeepCopyInto);
   (ty_HelmChartStatus, HelmChartStatus_DeepCopyInto); (ty_HelmChart, HelmChart_DeepCopyInto);
   (ty_HelmChartList, HelmChartList_DeepCopyInto); (ty_HelmChartConfigSpec, HelmChartConfigSpec_DeepCopyInto);
   (ty_HelmChartConfig, HelmChartConfig_DeepCopyInto);
   (ty_HelmChartConfigList, HelmChartConfigList_DeepCopyInto);
   (ty_BudgetCapacity, BudgetCapacity_DeepCopyInto); (ty_BudgetSignal, BudgetSignal_DeepCopyInto);
   (ty_BandCounters, BandCounters_DeepCopyInto); (ty_DarwinSignals, DarwinSignals_DeepCopyInto);
   (ty_LinuxSignals, LinuxSignals_DeepCopyInto);
   (ty_NodeBudgetObservation, NodeBudgetObservation_DeepCopyInto);
   (ty_NodeBudgetStatus, NodeBudgetStatus_DeepCopyInto); (ty_NodeBudget, NodeBudget_DeepCopyInto);
   (ty_NodeBudgetList, NodeBudgetList_DeepCopyInto); (ty_SignalThresholds, SignalThresholds_DeepCopyInto);
   (ty_NodeBudgetPolicySpec, NodeBudgetPolicySpec_DeepCopyInto);
   (ty_NodeBudgetPolicy, NodeBudgetPolicy_DeepCopyInto);
   (ty_NodeBudgetPolicyList, NodeBudgetPolicyList_DeepCopyInto)].
Lemma deep_copy_methods_ok t into : (t, into) ∈ deep_copy_methods -> copies t into.
Proof.
  assert (Forall (fun tc => copies tc.1 tc.2) deep_copy_methods) as Hf.
  { unfold deep_copy_methods. repeat (apply Forall_cons; split; [cbn [fst snd]; auto with deepcopy|]). apply Forall_nil. exact I. }
  rewrite Forall_forall in Hf. apply (Hf (t, into)).
Qed.
End Methods.

(** C4: Every DeepCopy of the API types is deep: for a valid object of any of
    the types, behind a pointer, the copy stands for the same tree of values,
    reaches only newly allocated memory, and leaves the original as it was; any
    later write to memory outside the copy's leaves the copy unchanged, and any
    write to the copy's own memory leaves the original unchanged; a nil pointer
    is copied to a nil pointer, and to a nil interface by DeepCopyObject. *)
Theorem deep_copies_independent `{External} t into h fp v x :
  (t, into) ∈ deep_copy_methods -> fp ⊆ dom h -> rep (TPtr t) h fp v x ->
  let r := DeepCopy_of into v h in
  let new := dom r.1 ∖ dom h in
  rep (TPtr t) r.1 fp v x /\ rep (TPtr t) r.1 new r.2 x /\ fp ## new /\
  (forall h2, (forall l, l ∉ new -> h2 !! l = r.1 !! l) -> rep (TPtr t) h2 fp v x) /\
  (forall h2, (forall l, l ∈ new -> h2 !! l = r.1 !! l) -> rep (TPtr t) h2 new r.2 x) /\
  (v = VPtr None -> r.2 = VPtr None /\ (DeepCopyObject_of (DeepCopy_of into) v h).2 = VNil).
Proof.
  intros Hin Hd Hr r new. pose proof (copies_ptr t into (deep_copy_methods_ok t into Hin)) as Hc.
  destruct (copies_independent (TPtr t) (copy_ptr into) h fp v x Hc Hd Hr) as (H1 & H2 & H3 & H4 & H5).
  split; [exact H1|]. split; [exact H2|]. split; [exact H3|]. split; [exact H4|]. split; [exact H5|]. by intros ->.
Qed.

(** External types without references inside: one way their promise is met. *)
Definition plain_external : External.
Proof.
  refine {| ext_rep := fun _ _ _ v x => plain v = true /\ x = Leaf v; ext_copy := fun _ => ret |}; [done|].
  intros e h fp v x _ Hr. cbn. split; [done|exact Hr].
Defined.
Definition sample_spec_value : gv :=
  VStruct [("SchemaVersion", VZ 1); ("NodeName", VS "n"); ("PublicKey", VS "k"); ("Endpoint", VS "h:1");
    ("Endpoints", VSlice None); ("PodCIDR", VS "c"); ("AllowedIPs", VSlice (Some (2%positive, 1%nat, 1%nat)));
    ("MeshIP", VS ""); ("PersistentKeepaliveSeconds", VZ 25)].
Definition sample_heap : heap :=
  {[1%positive := Cells [sample_spec_value]; 2%positive := Cells [VS "x"; VS "100.64.1.0/24"]]}.
Definition sample_tree : tree :=
  Ref (Node [("SchemaVersion", Leaf (VZ 1)); ("NodeName", Leaf (VS "n")); ("PublicKey", Leaf (VS "k"));
    ("Endpoint", Leaf (VS "h:1")); ("Endpoints", Nil); ("PodCIDR", Leaf (VS "c"));
    ("AllowedIPs", Arr [Leaf (VS "100.64.1.0/24")]); ("MeshIP", Leaf (VS "")); ("PersistentKeepaliveSeconds", Leaf (VZ 25))]).
Lemma sample_rep : @rep plain_external (TPtr ty_MeshPeerSpec) sample_heap (dom sample_heap) (VPtr (Some 1%positive)) sample_tree.
Proof.
  right. exists 1%positive. eexists sample_spec_value, _. split; [done|]. split; [reflexivity|].
  split; [apply elem_of_dom; by exists (Cells [sample_spec_value])|]. split; [done|].
  apply rep_struct. eexists _, _. do 4 (split; [reflexivity|]).
  repeat (apply Forall_cons; split); try apply Forall_nil; try exact I;
    (eexists _, _; split; [reflexivity|]; split; [reflexivity|]); try (split; reflexivity).
  { by left. }
  right. exists 2%positive, 1%nat, 1%nat, [VS "x"; VS "100.64.1.0/24"]. eexists. split; [done|]. split; [reflexivity|].
  split; [apply elem_of_dom; by eexists|]. split; [done|]. split; [done|]. repeat constructor.
Qed.
Lemma deep_copies_independent_witness :
  @rep plain_external (TPtr ty_MeshPeerSpec) sample_heap (dom sample_heap) (VPtr (Some 1%positive)) sample_tree /\
  @rep plain_external (TPtr ty_MeshPeerSpec) (MeshPeerSpec_DeepCopy (VPtr (Some 1%positive)) sample_heap).1
    (dom sample_heap) (VPtr (Some 1%positive)) sample_tree.
Proof.
  split; [exact sample_rep|].
  destruct (@deep_copies_independent plain_external ty_MeshPeerSpec MeshPeerSpec_DeepCopyInto sample_heap (dom sample_heap)
    (VPtr (Some 1%positive)) sample_tree) as [Hr _];
    [left|reflexivity|exact sample_rep|exact Hr].
Defined.

(** The slices of an Interconnect are cloned by appending to nil, so a slice
    that is empty but not nil becomes nil in the copy, where the other types
    keep it. *)
Theorem empty_slice_becomes_nil `{External} h l id :
  (InterconnectSegment_DeepCopyInto (VStruct [("ID", VS id); ("Nodes", VSlice (Some (l, 0%nat, 0%nat)))]) h).2 =
    VStruct [("ID", VS id); ("Nodes", VSlice None)] /\
  (exists l', (MLXRuntime_DeepCopyInto (VStruct [("Image", VS id); ("Args", VSlice (Some (l, 0%nat, 0%nat)))]) h).2 =
    VStruct [("Image", VS id); ("Args", VSlice (Some (l', 0%nat, 0%nat)))]).
Proof. split; [reflexivity|]. by eexists. Qed.
