(* ===== verification/Capability.v ===== *)
(** * Test capabilities (src/k3smtest/capability.go, skip.go)

    Which capabilities a test process has, and what [SkipUnless] does about
    one it lacks.  The process's environment is a record: the operating system,
    the effective user id and the environment variables. *)
From S2P Require Import Prelude GoLib GoStrings GoRunes QuarantineRegistry.

Record process := mkprocess { os_darwin : bool; os_euid : Z; os_env : gmap string string }.
Definition Getenv (p : process) (name : string) : string := default "" (p.(os_env) !! name).

Definition DevMac : string := "dev-mac".
Definition Root : string := "root".
Definition Network : string := "network".
Definition Signing : string := "signing".
Definition AppleGPU : string := "apple-gpu".
Definition TwoMacs : string := "two-macs".
Definition VZ_ : string := "vz".
Definition Postgres : string := "postgres".
Definition MacOSRunner : string := "macos-runner".
Definition Reboot : string := "reboot".
Definition all : list string :=
  [DevMac; Root; Network; Signing; AppleGPU; TwoMacs; VZ_; Postgres; MacOSRunner; Reboot].

(** [strings.ToUpper] and [strings.ReplaceAll(s, "-", "_")] on the ASCII names. *)
Definition upper_byte (c : ascii) : ascii := if is_lower c then byte_of_Z (Z_of_byte c - 32) else c.
Fixpoint env_chars (s : string) : string :=
  match s with "" => "" | String c s' => String (upper_byte (if Ascii.eqb c "-" then "_"%char else c)) (env_chars s') end.
Definition envVarName (cap : string) : string := "K3SM_CAP_" +:+ env_chars cap.
Definition truthy (v : string) : bool := existsb (String.eqb (ToLower_runes (TrimSpace v))) ["1"; "true"; "yes"].
Definition declared (p : process) (cap : string) : bool := truthy (Getenv p (envVarName cap)).

(** The entry of [probers] for a capability. *)
Definition prober (p : process) (cap : string) : option bool :=
  if String.eqb cap DevMac then Some p.(os_darwin)
  else if String.eqb cap Root then Some (p.(os_euid) =? 0)
  else if existsb (String.eqb cap) all then Some (declared p cap) else None.
Definition isDeclared (p : process) (cap : string) : bool :=
  if String.eqb cap DevMac || String.eqb cap Root then false
  else match prober p cap with Some _ => true | None => false end.
Definition Available (p : process) (cap : string) : bool := default false (prober p cap).

(** [strings.FieldsFunc] on the four separators: [cur] is the field under way. *)
Definition list_separator (c : ascii) : bool := existsb (Z.eqb (Z_of_byte c)) [44; 32; 9; 10].
Fixpoint fields_from (cur s : string) : list string :=
  match s with
  | "" => if String.eqb cur "" then [] else [cur]
  | String c s' =>
      if list_separator c then (if String.eqb cur "" then [] else [cur]) ++ fields_from "" s'
      else fields_from (cur +:+ String c "") s'
  end.
Definition required (p : process) (cap : string) : bool :=
  let raw := Getenv p "K3SM_CI_REQUIRE" in
  if String.eqb raw "" then false
  else existsb (fun f => String.eqb (TrimSpace f) cap) (fields_from "" raw).

Inductive gate :=
| Run
| Fatalf (l : line)
| Skipf (l : line).
Definition SkipUnless (p : process) (cap : string) : gate :=
  match prober p cap with
  | None => Fatalf (Sprintf "k3smtest: %q is not a recognized capability" [ArgS cap])
  | Some _ =>
      if Available p cap then Run
      else if required p cap then
        Fatalf (Sprintf "k3smtest: capability %q is absent but named in K3SM_CI_REQUIRE — this run promised it and must not silently skip" [ArgS cap])
      else if isDeclared p cap then
        Skipf (Sprintf "k3smtest: capability %q not available (set %s=1 to declare it present, or list it in K3SM_CI_REQUIRE to make its absence fatal instead of a skip)" [ArgS cap; ArgS (envVarName cap)])
      else Skipf (Sprintf "k3smtest: capability %q not available in this environment (auto-detected; list it in K3SM_CI_REQUIRE to make its absence fatal instead of a skip)" [ArgS cap])
  end.

(** ** The gate *)
Lemma prober_known p cap : is_Some (prober p cap) <-> cap ∈ all.
Proof.
  unfold prober. destruct (String.eqb_spec cap DevMac) as [->|]; [split; [intros _; left|eauto]|].
  destruct (String.eqb_spec cap Root) as [->|]; [split; [intros _; right; left|eauto]|].
  destruct (existsb (String.eqb cap) all) eqn:E.
  - apply existsb_exists in E as (x & Hx & ->%String.eqb_eq). rewrite list_elem_of_In. split; [done|eauto].
  - split; [by intros []|]. intros Hin%list_elem_of_In. exfalso. apply not_true_iff_false in E. apply E.
    apply existsb_exists. exists cap. split; [done|]. apply String.eqb_refl.
Qed.

(** SkipUnless runs a test exactly when its capability is known and present;
    a capability the taxonomy does not name, or one that is absent although the
    run promised it, is always fatal, never a skip; and only an absent,
    unpromised, known capability skips.  The declared capabilities read
    different environment variables. *)
Theorem SkipUnless_spec p cap :
  (SkipUnless p cap = Run <-> (cap ∈ all) /\ Available p cap = true) /\
  ((exists l, SkipUnless p cap = Fatalf l) <-> (cap ∉ all) \/ Available p cap = false /\ required p cap = true) /\
  ((exists l, SkipUnless p cap = Skipf l) <-> (cap ∈ all) /\ Available p cap = false /\ required p cap = false) /\
  NoDup (map envVarName all).
Proof.
  rewrite <- (prober_known p). unfold SkipUnless.
  split; [|split; [|split]]; [..|apply (bool_decide_unpack _); vm_compute; exact I];
    (destruct (prober p cap) as [b|] eqn:E;
     [|assert (Available p cap = false) as -> by (unfold Available; by rewrite E); split; [naive_solver|]; rewrite ?is_Some_alt; naive_solver]);
    destruct (Available p cap) eqn:Ea; [naive_solver| |naive_solver| |naive_solver|];
    destruct (required p cap), (isDeclared p cap); naive_solver.
Qed.
