(* ===== verification/RuntimeContract.v ===== *)
(** * The runtime contract suite (src/k3smtest/runtimecontract/runtimecontract.go)

    The seven cases that check a runtime from the node's side.  The runtime is
    reached through a gRPC client: an interface over a state of the runtime,
    each call taking the state to the next one and answering with a response or
    a transport error (a call past its deadline is such an error).  [Runtime]
    states what a conforming runtime promises; the suite is proved to accept
    every such runtime, to leave no pod behind, and to refuse the defects it is
    meant to find. *)
From S2P Require Import Prelude GoLib.

(** ** The messages of runtime/v1, as far as the suite reads them *)
Definition POD_PHASE_UNSPECIFIED : Z := 0.
Record PodStatus := mkPodStatus { pod_PodId : string; pod_Phase : Z }.
(** [google.rpc.Status], the in-band error of a response. *)
Record rpcStatus := mkrpcStatus { rpc_Code : Z; rpc_Message : string }.
Record CreatePodResponse := mkCreatePodResponse {
  cp_Status : option PodStatus; cp_Error : option rpcStatus; cp_FailureReason : Z }.
Record GetPodStatusResponse := mkGetPodStatusResponse { gp_Status : option PodStatus; gp_Error : option rpcStatus }.
Record PodStatusEvent := mkPodStatusEvent { pe_Status : option PodStatus }.
(** The pod ids of the entries of a ListPodStatsResponse. *)
Record ListPodStatsResponse := mkListPodStatsResponse { lp_PodIds : list string }.
Record GetRuntimeInfoResponse := mkGetRuntimeInfoResponse { ri_RuntimeName : string }.

Definition GetCode (e : option rpcStatus) : Z := match e with Some x => x.(rpc_Code) | None => 0 end.
Definition GetMessage (e : option rpcStatus) : string := match e with Some x => x.(rpc_Message) | None => "" end.

Section Suite.
(** The runtime's state, the pod description, and gRPC's code for NotFound. *)
Context {R PodBox : Type} (NotFound : Z).

(** An effectful call. *)
Definition call (A : Type) : Type := R -> R * A.

Record RuntimeClient := mkRuntimeClient {
  CreatePod : PodBox -> call (res CreatePodResponse);
  DeletePod : string -> call (res unit);
  GetPodStatus : string -> call (res GetPodStatusResponse);
  WatchPodStatus : string -> call (res (call (res PodStatusEvent)));
  ListPodStats : call (res ListPodStatsResponse);
  GetRuntimeInfo : call (res GetRuntimeInfoResponse);
}.
Record RuntimeContract := mkRuntimeContract { Client : RuntimeClient; Pod : string -> PodBox }.

Record RuntimeContractResult := mkresult { rc_Case : string; rc_Err : check }.
Record contractCase := mkcase { cc_name : string; cc_check : RuntimeContract -> call check }.

Definition contractAbsentPodID : string := "contractabsentpod".

(** [defer cleanup()]. *)
Definition deferring (cleanup : R -> R) (body : call check) : call check :=
  fun r => let '(r, e) := body r in (cleanup r, e).

(** The response, the cleanup and the error. *)
Definition createPod (c : RuntimeContract) (id : string) : call (option CreatePodResponse * (R -> R) * check) := fun r =>
  let '(r, resp) := CreatePod c.(Client) (c.(Pod) id) r in
  match resp with
  | Err e => (r, (None, fun r => r, Some (ErrorfW "CreatePod %s: %w" [ArgS id] e)))
  | Ok resp =>
      let cleanup := fun r => (DeletePod c.(Client) id r).1 in
      match resp.(cp_Error) with
      | Some e =>
          if negb (e.(rpc_Code) =? 0) then
            (r, (None, cleanup, Some (Errorf "CreatePod %s refused in-band: code %d: %s (%s)"
               [ArgS id; ArgZ e.(rpc_Code); ArgS e.(rpc_Message); ArgZ resp.(cp_FailureReason)])))
          else (r, (Some resp, cleanup, None))
      | None => (r, (Some resp, cleanup, None))
      end
  end.

(** [resp, cleanup, err := createPod(ctx, c, id); defer cleanup(); if err != nil { return err }]. *)
Definition with_pod (c : RuntimeContract) (id : string) (body : option CreatePodResponse -> call check) : call check := fun r =>
  let '(r, (resp, cleanup, err)) := createPod c id r in
  deferring cleanup (match err with Some e => fun r => (r, Some e) | None => body resp end) r.

Definition checkStatusBody (where_ id : string) (st : option PodStatus) : check :=
  match st with
  | None => Some (Errorf "%s: no status for pod %s" [ArgS where_; ArgS id])
  | Some st =>
      failif (negb (String.eqb st.(pod_PodId) id))
        (Errorf "%s: status pod_id = %q, want %q" [ArgS where_; ArgS st.(pod_PodId); ArgS id]) ;?
      failif (st.(pod_Phase) =? POD_PHASE_UNSPECIFIED)
        (Errorf "%s: status for pod %s carries no phase" [ArgS where_; ArgS id])
  end.

Definition wantInBandNotFound (c : RuntimeContract) (id : string) : call check := fun r =>
  let '(r, resp) := GetPodStatus c.(Client) id r in
  (r, match resp with
      | Err e => Some (ErrorfW "GetPodStatus %s: transport error %w, want an in-band NotFound" [ArgS id] e)
      | Ok resp =>
          failif (negb (GetCode resp.(gp_Error) =? NotFound))
            (Errorf "GetPodStatus %s: in-band code = %d, want NotFound (%d)" [ArgS id; ArgZ (GetCode resp.(gp_Error)); ArgZ NotFound])
      end).

Definition checkRuntimeInfo (c : RuntimeContract) : call check := fun r =>
  let '(r, info) := GetRuntimeInfo c.(Client) r in
  (r, match info with
      | Err e => Some (ErrorfW "GetRuntimeInfo: %w" [] e)
      | Ok info => failif (String.eqb info.(ri_RuntimeName) "") (ErrNew "GetRuntimeInfo: runtime_name is empty")
      end).

Definition checkCreate (c : RuntimeContract) : call check :=
  let id := "contractcreate" in
  with_pod c id (fun resp r => (r, checkStatusBody "CreatePod" id (resp ≫= cp_Status))).

Definition checkStatus (c : RuntimeContract) : call check :=
  let id := "contractstatus" in
  with_pod c id (fun _ r =>
    let '(r, resp) := GetPodStatus c.(Client) id r in
    (r, match resp with
        | Err e => Some (ErrorfW "GetPodStatus %s: %w" [ArgS id] e)
        | Ok resp =>
            failif (match resp.(gp_Error) with Some e => negb (e.(rpc_Code) =? 0) | None => false end)
              (Errorf "GetPodStatus %s: in-band error code %d for a created pod: %s"
                 [ArgS id; ArgZ (GetCode resp.(gp_Error)); ArgS (GetMessage resp.(gp_Error))]) ;?
            checkStatusBody "GetPodStatus" id resp.(gp_Status)
        end)).

Definition checkStatusUnknown (c : RuntimeContract) : call check := wantInBandNotFound c contractAbsentPodID.

Definition checkWatch (c : RuntimeContract) : call check :=
  let id := "contractwatch" in
  with_pod c id (fun _ r =>
    let '(r, stream) := WatchPodStatus c.(Client) id r in
    match stream with
    | Err e => (r, Some (ErrorfW "WatchPodStatus %s: %w" [ArgS id] e))
    | Ok Recv =>
        let '(r, ev) := Recv r in
        (r, match ev with
            | Err e => Some (ErrorfW "WatchPodStatus %s: no snapshot event: %w" [ArgS id] e)
            | Ok ev => checkStatusBody "WatchPodStatus" id ev.(pe_Status)
            end)
    end).

Definition checkStats (c : RuntimeContract) : call check :=
  let id := "contractstats" in
  with_pod c id (fun _ r =>
    let '(r, resp) := ListPodStats c.(Client) r in
    (r, match resp with
        | Err e => Some (ErrorfW "ListPodStats: %w" [] e)
        | Ok resp => each 0 (fun i p => failif (String.eqb p "") (Errorf "ListPodStats: entry %d has an empty pod_id" [ArgZ i]))
                       resp.(lp_PodIds)
        end)).

(** A delete whose transport error ends the case. *)
Definition delete_or (c : RuntimeContract) (id : string) (f : error -> error) (k : call check) : call check := fun r =>
  let '(r, resp) := DeletePod c.(Client) id r in
  match resp with Err e => (r, Some (f e)) | Ok _ => k r end.

Definition checkDelete (c : RuntimeContract) : call check :=
  let id := "contractdelete" in
  with_pod c id (fun _ =>
    delete_or c id (ErrorfW "DeletePod %s: %w" [ArgS id]) (fun r =>
      let '(r, err) := wantInBandNotFound c id r in
      match err with
      | Some e => (r, Some (ErrorfW "after DeletePod: %w" [] e))
      | None =>
          delete_or c id (ErrorfW "second DeletePod %s: %w" [ArgS id])
            (delete_or c contractAbsentPodID (ErrorfW "DeletePod of an absent pod: %w" []) (fun r => (r, None))) r
      end)).

Definition runtimeContractCases : list contractCase :=
  [mkcase "runtime-info" checkRuntimeInfo; mkcase "create" checkCreate; mkcase "status" checkStatus;
   mkcase "status-unknown" checkStatusUnknown; mkcase "watch" checkWatch; mkcase "stats" checkStats;
   mkcase "delete" checkDelete].

Fixpoint check_cases (c : RuntimeContract) (cases : list contractCase) : call (list RuntimeContractResult) := fun r =>
  match cases with
  | [] => (r, [])
  | cc :: cases =>
      let '(r, e) := cc.(cc_check) c r in
      let '(r, out) := check_cases c cases r in (r, mkresult cc.(cc_name) e :: out)
  end.
Definition CheckRuntimeContract (c : RuntimeContract) : call (list RuntimeContractResult) := check_cases c runtimeContractCases.

(** The errors the subtests report, [t.Error] with the case's name. *)
Fixpoint run_cases (c : RuntimeContract) (cases : list contractCase) : call (list (string * error)) := fun r =>
  match cases with
  | [] => (r, [])
  | cc :: cases =>
      let '(r, e) := cc.(cc_check) c r in
      let '(r, out) := run_cases c cases r in
      (r, match e with Some e => (cc.(cc_name), e) :: out | None => out end)
  end.
Definition RunRuntimeContract (c : RuntimeContract) : call (list (string * error)) := run_cases c runtimeContractCases.

(** ** What a runtime promises *)
Definition status_ok (id : string) (st : option PodStatus) : Prop :=
  exists s, st = Some s /\ s.(pod_PodId) = id /\ s.(pod_Phase) <> POD_PHASE_UNSPECIFIED.
Definition no_error (e : option rpcStatus) : Prop := GetCode e = 0.

(** How the pods a runtime holds change: a refused or lost create adds none, a
    delete removes the pod, and no other call adds one. *)
Class Accounts (c : RuntimeContract) (pods : R -> gset string) : Prop := {
  acc_create id r : let '(r', resp) := CreatePod c.(Client) (c.(Pod) id) r in
    pods r' ⊆ {[id]} ∪ pods r /\ (is_ok resp = false -> pods r' ⊆ pods r);
  acc_delete id r : pods (DeletePod c.(Client) id r).1 ⊆ pods r ∖ {[id]};
  acc_status id r : pods (GetPodStatus c.(Client) id r).1 ⊆ pods r;
  acc_watch id r : let '(r', s) := WatchPodStatus c.(Client) id r in
    pods r' ⊆ pods r /\ forall recv, s = Ok recv -> forall r1, pods (recv r1).1 ⊆ pods r1;
  acc_stats r : pods (ListPodStats c.(Client) r).1 ⊆ pods r;
  acc_info r : pods (GetRuntimeInfo c.(Client) r).1 ⊆ pods r;
}.

(** What the node relies on: a new pod is created, answered for by its own id
    with a phase while it is held and as NotFound in-band while it is not, and
    a delete succeeds whether or not the pod is held. *)
Class Runtime (c : RuntimeContract) (pods : R -> gset string) : Prop := {
  rt_accounts :: Accounts c pods;
  rt_create id r : id ∉ pods r -> let '(r', resp) := CreatePod c.(Client) (c.(Pod) id) r in
    id ∈ pods r' /\ exists x, resp = Ok x /\ no_error x.(cp_Error) /\ status_ok id x.(cp_Status);
  rt_delete id r : is_ok (DeletePod c.(Client) id r).2 = true;
  rt_held id r : id ∈ pods r -> exists x, (GetPodStatus c.(Client) id r).2 = Ok x /\ no_error x.(gp_Error) /\ status_ok id x.(gp_Status);
  rt_absent id r : id ∉ pods r -> exists x, (GetPodStatus c.(Client) id r).2 = Ok x /\ GetCode x.(gp_Error) = NotFound;
  rt_watch id r : id ∈ pods r -> let '(r', s) := WatchPodStatus c.(Client) id r in
    exists recv, s = Ok recv /\ exists ev, (recv r').2 = Ok ev /\ status_ok id ev.(pe_Status);
  rt_stats r : exists x, (ListPodStats c.(Client) r).2 = Ok x /\ Forall (fun p => p <> "") x.(lp_PodIds);
  rt_info r : exists x, (GetRuntimeInfo c.(Client) r).2 = Ok x /\ x.(ri_RuntimeName) <> "";
}.

(** ** Lemmas *)
Lemma checkStatusBody_None w id st : checkStatusBody w id st = None <-> status_ok id st.
Proof.
  unfold status_ok. destruct st as [st|]; [|split; [discriminate|intros (? & [=] & _)]]. cbn.
  rewrite andthen_None, !failif_None, negb_false_iff, String.eqb_eq, Z.eqb_neq. naive_solver.
Qed.
Lemma stats_None (l : list string) (f : Z -> error) :
  each 0 (fun i p => failif (String.eqb p "") (f i)) l = None <-> Forall (fun p => p <> "") l.
Proof. apply each_None. intros j p. by rewrite failif_None, String.eqb_neq. Qed.

(** What [createPod] returns. *)
Variant created (c : RuntimeContract) (id : string) (r : R) : R * (option CreatePodResponse * (R -> R) * check) -> Prop :=
| created_lost r' e f : CreatePod c.(Client) (c.(Pod) id) r = (r', Err e) -> created c id r (r', (None, fun r => r, Some f))
| created_refused r' x f : CreatePod c.(Client) (c.(Pod) id) r = (r', Ok x) -> ~ no_error x.(cp_Error) ->
    created c id r (r', (None, fun r => (DeletePod c.(Client) id r).1, Some f))
| created_done r' x : CreatePod c.(Client) (c.(Pod) id) r = (r', Ok x) -> no_error x.(cp_Error) ->
    created c id r (r', (Some x, fun r => (DeletePod c.(Client) id r).1, None)).
Lemma createPod_cases c id r : created c id r (createPod c id r).
Proof.
  unfold createPod. destruct (CreatePod _ _ r) as [r' [x|e]] eqn:E; [|by econstructor].
  destruct (cp_Error x) as [st|] eqn:Ex; [|by apply created_done; [|unfold no_error; rewrite Ex]].
  destruct (rpc_Code st =? 0) eqn:Ec; cbn [negb].
  - apply created_done; [done|]. unfold no_error. rewrite Ex. by apply Z.eqb_eq.
  - eapply created_refused; [done|]. unfold no_error. rewrite Ex. by apply Z.eqb_neq.
Qed.

Section Accounting.
Context (c : RuntimeContract) (pods : R -> gset string) `{!Accounts c pods}.
Definition keeps {A} (m : call A) : Prop := forall r, pods (m r).1 ⊆ pods r.

Lemma with_pod_keeps id body : (forall resp, keeps (body resp)) -> keeps (with_pod c id body).
Proof.
  intros Hb r. unfold with_pod, deferring. pose proof (acc_create id r) as Hc.
  destruct (createPod_cases c id r) as [r' e f E|r' x f E _|r' x E _]; rewrite E in Hc; cbn.
  - by apply Hc.
  - pose proof (acc_delete id r'). set_solver.
  - specialize (Hb (Some x) r'). destruct (body (Some x) r') as [r1 e1]. cbn in *. pose proof (acc_delete id r1). set_solver.
Qed.
Lemma wantInBandNotFound_keeps id : keeps (wantInBandNotFound c id).
Proof. intros r. unfold wantInBandNotFound. pose proof (acc_status id r). by destruct (GetPodStatus _ _ r). Qed.
Lemma delete_or_keeps id f k : keeps k -> keeps (delete_or c id f k).
Proof.
  intros Hk r. unfold delete_or. pose proof (acc_delete id r) as Hd. destruct (DeletePod _ _ r) as [r' [x|e]]; cbn in *; [|set_solver].
  specialize (Hk r'). set_solver.
Qed.
Lemma case_keeps cc : cc ∈ runtimeContractCases -> keeps (cc.(cc_check) c).
Proof.
  unfold runtimeContractCases. rewrite !elem_of_cons, elem_of_nil.
  intros H. repeat destruct H as [->|H]; [..|done]; cbn [cc_check].
  - intros r. unfold checkRuntimeInfo. pose proof (acc_info r). by destruct (GetRuntimeInfo _ r).
  - apply with_pod_keeps. intros resp r. cbn. reflexivity.
  - apply with_pod_keeps. intros _ r. pose proof (acc_status "contractstatus" r). by destruct (GetPodStatus _ _ r).
  - apply wantInBandNotFound_keeps.
  - apply with_pod_keeps. intros _ r. pose proof (acc_watch "contractwatch" r) as Hw.
    destruct (WatchPodStatus _ _ r) as [r' [recv|e]]; [|apply Hw]. destruct Hw as [Hw Hr]. specialize (Hr recv eq_refl r').
    destruct (recv r') as [r1 ev]. cbn in *. set_solver.
  - apply with_pod_keeps. intros _ r. pose proof (acc_stats r). by destruct (ListPodStats _ r).
  - apply with_pod_keeps. intros _. apply delete_or_keeps. intros r. pose proof (wantInBandNotFound_keeps "contractdelete" r) as Hw.
    destruct (wantInBandNotFound c "contractdelete" r) as [r' [e|]]; [done|]. cbn in Hw.
    etrans; [|exact Hw]. apply delete_or_keeps, delete_or_keeps. intros r1. reflexivity.
Qed.

Lemma check_cases_keeps cases : Forall (fun cc => keeps (cc.(cc_check) c)) cases -> keeps (check_cases c cases).
Proof.
  induction 1 as [|cc cases Hcc _ IH]; intros r; [done|]. cbn. specialize (Hcc r).
  destruct (cc_check cc c r) as [r' e]. specialize (IH r'). destruct (check_cases c cases r') as [r1 out]. cbn in *. set_solver.
Qed.
End Accounting.

Section Conforming.
Context (c : RuntimeContract) (pods : R -> gset string) `{!Runtime c pods}.

Lemma with_pod_passes id body r : id ∉ pods r ->
  (forall resp r1, id ∈ pods r1 -> pods r1 ⊆ {[id]} ∪ pods r -> status_ok id resp.(cp_Status) -> (body (Some resp) r1).2 = None) ->
  (with_pod c id body r).2 = None.
Proof.
  intros Hid Hb. unfold with_pod, deferring. pose proof (acc_create id r) as Ha. pose proof (rt_create id r Hid) as Hc.
  destruct (createPod_cases c id r) as [r' e f E|r' x f E Hn|r' x E _]; rewrite E in Ha, Hc;
    destruct Hc as (Hin & y & [= ->] & Hy & Hst); [done|].
  specialize (Hb y r' Hin (proj1 Ha) Hst). by destruct (body (Some y) r').
Qed.
Lemma wantInBandNotFound_passes id r : id ∉ pods r -> (wantInBandNotFound c id r).2 = None.
Proof.
  intros Hid. unfold wantInBandNotFound. destruct (rt_absent id r Hid) as (x & E & Hx).
  destruct (GetPodStatus _ id r) as [r' resp]. cbn in E |- *. subst resp. apply failif_None, negb_false_iff, Z.eqb_eq, Hx.
Qed.
Lemma delete_or_passes id f k r : (forall r1, pods r1 ⊆ pods r ∖ {[id]} -> (k r1).2 = None) -> (delete_or c id f k r).2 = None.
Proof.
  intros Hk. unfold delete_or. pose proof (rt_delete id r) as Hd. pose proof (acc_delete id r) as Ha.
  destruct (DeletePod _ id r) as [r' [x|e]]; [|done]. by apply Hk.
Qed.

(** The pod ids the suite uses. *)
Definition suite_ids : gset string :=
  {["contractcreate"; "contractstatus"; "contractwatch"; "contractstats"; "contractdelete"; contractAbsentPodID]}.
Lemma suite_id id r : suite_ids ## pods r -> id ∈ suite_ids -> id ∉ pods r.
Proof. intros Hd Hin Hp. exact (Hd id Hin Hp). Qed.
Lemma case_passes cc r : cc ∈ runtimeContractCases -> suite_ids ## pods r -> (cc.(cc_check) c r).2 = None.
Proof.
  intros Hcc Hr. assert (Hid : forall id, id ∈ suite_ids -> id ∉ pods r) by (intros id; by apply suite_id).
  revert Hcc. unfold runtimeContractCases. rewrite !elem_of_cons, elem_of_nil.
  intros H. repeat destruct H as [->|H]; [..|done]; cbn [cc_check].
  - unfold checkRuntimeInfo. destruct (rt_info r) as (x & E & Hx). destruct (GetRuntimeInfo _ r). cbn in E |- *. subst.
    by apply failif_None, String.eqb_neq.
  - apply with_pod_passes; [apply Hid; unfold suite_ids; set_solver|]. intros resp r1 _ _ Hst. by apply checkStatusBody_None.
  - apply with_pod_passes; [apply Hid; unfold suite_ids; set_solver|]. intros resp r1 Hin _ _.
    destruct (rt_held _ _ Hin) as (x & E & Hx & Hst). destruct (GetPodStatus _ _ r1). cbn in E |- *. subst.
    apply andthen_None. split; [|by apply checkStatusBody_None]. unfold no_error, GetCode in Hx. apply failif_None.
    destruct (gp_Error x); [|done]. by rewrite Hx.
  - apply wantInBandNotFound_passes, Hid. unfold suite_ids. set_solver.
  - apply with_pod_passes; [apply Hid; unfold suite_ids; set_solver|]. intros resp r1 Hin _ _.
    pose proof (rt_watch _ _ Hin) as Hw. destruct (WatchPodStatus _ _ r1) as [r2 s]. destruct Hw as (recv & -> & ev & E & Hst).
    destruct (recv r2). cbn in E |- *. subst. by apply checkStatusBody_None.
  - apply with_pod_passes; [apply Hid; unfold suite_ids; set_solver|]. intros resp r1 Hin _ _.
    destruct (rt_stats r1) as (x & E & Hx). destruct (ListPodStats _ r1). cbn in E |- *. subst. by apply stats_None.
  - apply with_pod_passes; [apply Hid; unfold suite_ids; set_solver|]. intros resp r1 _ _ _. apply delete_or_passes.
    intros r2 H2. assert ("contractdelete" ∉ pods r2) as Hn by set_solver.
    pose proof (wantInBandNotFound_passes _ _ Hn) as Hw. destruct (wantInBandNotFound c _ r2) as [r3 e]. cbn in Hw. subst e.
    apply delete_or_passes. intros r4 _. by apply delete_or_passes.
Qed.

Lemma check_cases_passes cases r : Forall (fun cc => cc ∈ runtimeContractCases) cases -> suite_ids ## pods r ->
  (check_cases c cases r).2 = (fun cc => mkresult cc.(cc_name) None) <$> cases.
Proof.
  intros Hc. revert r. induction Hc as [|cc cases Hcc _ IH]; intros r Hr; [done|]. cbn.
  pose proof (case_passes cc r Hcc Hr) as Hp. pose proof (case_keeps c pods cc Hcc r) as Hk.
  destruct (cc_check cc c r) as [r' e]. cbn in Hp, Hk. subst e. specialize (IH r' (fun x Hx Hy => Hr x Hx (Hk x Hy))).
  destruct (check_cases c cases r'). cbn in IH |- *. by rewrite IH.
Qed.
End Conforming.

(** [RunRuntimeContract] reports what [CheckRuntimeContract] returns. *)
Lemma run_cases_check c cases r :
  run_cases c cases r =
  ((check_cases c cases r).1,
   omap (fun x => (fun e => (x.(rc_Case), e)) <$> x.(rc_Err)) (check_cases c cases r).2).
Proof.
  revert r. induction cases as [|cc cases IH]; intros r; [done|]. cbn. destruct (cc_check cc c r) as [r' e].
  rewrite IH. destruct (check_cases c cases r') as [r1 out]. by destruct e.
Qed.

(** ** Theorems *)

(** The suite accepts every runtime that keeps the contract: over a runtime
    that does not hold the suite's own pods, all seven cases return nil, in the
    fixed order, [RunRuntimeContract] reports nothing, and afterwards the
    runtime holds no pod it did not hold before. *)
Theorem conforming_runtime_passes c pods (HR : Runtime c pods) r : suite_ids ## pods r ->
  (CheckRuntimeContract c r).2 = (fun n => mkresult n None) <$>
    ["runtime-info"; "create"; "status"; "status-unknown"; "watch"; "stats"; "delete"] /\
  RunRuntimeContract c r = ((CheckRuntimeContract c r).1, []) /\
  pods (CheckRuntimeContract c r).1 ⊆ pods r.
Proof.
  intros Hr. assert (HF : Forall (fun cc => cc ∈ runtimeContractCases) runtimeContractCases) by (by apply Forall_forall).
  pose proof (check_cases_passes c pods _ r HF Hr) as Hp.
  split; [exact Hp|]. split.
  - unfold RunRuntimeContract. rewrite run_cases_check. unfold CheckRuntimeContract. by rewrite Hp.
  - apply (check_cases_keeps c pods). apply Forall_forall. intros cc. apply (case_keeps c pods).
Qed.

(** The suite leaves no pod behind whatever the runtime answers: when a lost
    create adds no pod and a delete removes its pod, the pods held after the
    suite are among those held before it, also when every case fails. *)
Theorem contract_leaves_no_pod c pods (HA : Accounts c pods) r :
  pods (CheckRuntimeContract c r).1 ⊆ pods r /\ pods (RunRuntimeContract c r).1 ⊆ pods r.
Proof.
  assert (keeps pods (CheckRuntimeContract c)) as Hk.
  { apply (check_cases_keeps c pods). apply Forall_forall. intros cc. apply (case_keeps c pods). }
  split; [apply Hk|]. unfold RunRuntimeContract. rewrite run_cases_check. apply Hk.
Qed.

(** What a nil verdict shows, of any runtime: the created pod was answered
    for by its id and with a phase; an unknown pod gave an in-band NotFound, not
    a transport error; and after a delete that succeeded the deleted pod gave an
    in-band NotFound, and the delete could be repeated. *)
Theorem contract_detects c r :
  ((checkCreate c r).2 = None <->
     exists r' x, CreatePod c.(Client) (c.(Pod) "contractcreate") r = (r', Ok x) /\ no_error x.(cp_Error) /\
       status_ok "contractcreate" x.(cp_Status)) /\
  ((checkStatusUnknown c r).2 = None <->
     exists x, (GetPodStatus c.(Client) contractAbsentPodID r).2 = Ok x /\ GetCode x.(gp_Error) = NotFound) /\
  ((checkDelete c r).2 = None ->
     exists r1 x r2 r3 y r4, CreatePod c.(Client) (c.(Pod) "contractdelete") r = (r1, Ok x) /\ no_error x.(cp_Error) /\
       DeletePod c.(Client) "contractdelete" r1 = (r2, Ok tt) /\
       GetPodStatus c.(Client) "contractdelete" r2 = (r3, Ok y) /\ GetCode y.(gp_Error) = NotFound /\
       DeletePod c.(Client) "contractdelete" r3 = (r4, Ok tt) /\
       is_ok (DeletePod c.(Client) contractAbsentPodID r4).2 = true).
Proof.
  split; [|split].
  - unfold checkCreate, with_pod, deferring.
    destruct (createPod_cases c "contractcreate" r) as [r' e f E|r' x f E Hn|r' x E Hn]; cbn;
      [split; [done|intros (? & ? & E' & _); rewrite E in E'; done]|split; [done|]|].
    + intros (? & ? & E' & Hx & _). rewrite E in E'. by injection E' as -> ->.
    + rewrite checkStatusBody_None. split; [intros H; by exists r', x|]. intros (? & ? & E' & _ & H). rewrite E in E'.
      by injection E' as -> ->.
  - unfold checkStatusUnknown, wantInBandNotFound. destruct (GetPodStatus _ _ r) as [r' [x|e]]; cbn; [|naive_solver].
    rewrite failif_None, negb_false_iff, Z.eqb_eq. naive_solver.
  - unfold checkDelete, with_pod, deferring.
    destruct (createPod_cases c "contractdelete" r) as [r' e f E|r' x f E Hn|r1 x E Hn]; cbn; [done..|].
    unfold delete_or, wantInBandNotFound. destruct (DeletePod _ _ r1) as [r2 [[]|e]] eqn:E1; [|done].
    destruct (GetPodStatus _ _ r2) as [r3 [y|e]] eqn:E2; [|done].
    destruct (GetCode (gp_Error y) =? NotFound) eqn:Ey; [|done]. cbn.
    destruct (DeletePod _ _ r3) as [r4 [[]|e]] eqn:E3; [|done].
    destruct (DeletePod _ _ r4) as [r5 [u|e]] eqn:E4; [|done]. intros _.
    exists r1, x, r2, r3, y, r4. apply Z.eqb_eq in Ey. rewrite E4. done.
Qed.
End Suite.

(** ** A runtime that keeps the contract: it holds a set of running pods. *)
Definition set_client : @RuntimeClient (gset string) string := {|
  CreatePod := fun id r => ({[id]} ∪ r, Ok (mkCreatePodResponse (Some (mkPodStatus id 2)) None 0));
  DeletePod := fun id r => (r ∖ {[id]}, Ok tt);
  GetPodStatus := fun id r => (r, Ok (if decide (id ∈ r) then mkGetPodStatusResponse (Some (mkPodStatus id 2)) None
                                      else mkGetPodStatusResponse None (Some (mkrpcStatus 5 "no such pod"))));
  WatchPodStatus := fun id r => (r, Ok (fun r => (r, Ok (mkPodStatusEvent (Some (mkPodStatus id 2))))));
  ListPodStats := fun r => (r, Ok (mkListPodStatsResponse (List.filter (fun p => negb (String.eqb p "")) (elements r))));
  GetRuntimeInfo := fun r => (r, Ok (mkGetRuntimeInfoResponse "set")) |}.
Definition set_contract : @RuntimeContract (gset string) string := mkRuntimeContract set_client (fun id => id).

#[export] Instance set_accounts : Accounts set_contract (fun r => r).
Proof. split; cbn; intros; try set_solver. Qed.
#[export] Instance set_runtime : Runtime 5 set_contract (fun r => r).
Proof.
  split; cbn; intros; try exact _; try done.
  - split; [set_solver|]. eexists. split; [done|]. split; [done|]. by eexists.
  - rewrite decide_True by done. eexists. split; [done|]. split; [done|]. by eexists.
  - rewrite decide_False by done. by eexists.
  - eexists. split; [done|]. eexists. split; [done|]. by eexists.
  - eexists. split; [done|]. apply Forall_forall. cbn. intros p [_ Hp]%list_elem_of_In%filter_In Hn. by rewrite Hn in Hp.
  - by eexists.
Qed.
Lemma conforming_runtime_passes_witness :
  (CheckRuntimeContract 5 set_contract {["other"]}).2 = (fun n => mkresult n None) <$>
    ["runtime-info"; "create"; "status"; "status-unknown"; "watch"; "stats"; "delete"].
Proof.
  apply (conforming_runtime_passes 5 set_contract (fun r => r) set_runtime {["other"]}).
  apply (bool_decide_unpack _). vm_compute. exact I.
Defined.
Lemma contract_leaves_no_pod_witness : (CheckRuntimeContract 5 set_contract {["other"]}).1 ⊆ {["other"]}.
Proof. apply (contract_leaves_no_pod 5 set_contract (fun r => r) set_accounts {["other"]}). Defined.
