(* ===== verification/RuntimeServe.v ===== *)
(** * A runtime served in memory (src/k3smtest/runtimecontract/runtimecontract.go, ServeRuntime)

    [ServeRuntime] starts a gRPC server in a goroutine, connects a client to it
    over a buffer and leaves the two to be released when the test ends.  The
    test is its log of actions and its stack of cleanups; the goroutine that
    serves runs whenever the scheduler lets it, so the log is executed against
    the server and the connection in every interleaving with it.  Proved: a
    returned client is usable, the contract suite passes through it exactly as
    on the runtime itself, and at the end of the test, failed dials included,
    the connection is closed and the server stopped, in that order, with no
    goroutine left serving. *)
From S2P Require Import Prelude GoLib RuntimeContract.

(** ** The test *)
Inductive action :=
| Listen (size : Z)
| NewServer
| RegisterRuntimeServer
| GoServe
| NewClient
| CloseConn
| StopServer
| Other (name : string).
Record TB := mkTB { tb_log : list action; tb_cleanups : list (list action); tb_fatal : option error }.
Definition act (a : action) (t : TB) : TB := mkTB (tb_log t ++ [a]) (tb_cleanups t) (tb_fatal t).
Definition Cleanup (f : list action) (t : TB) : TB := mkTB (tb_log t) (f :: tb_cleanups t) (tb_fatal t).
Definition Fatalf (e : error) (t : TB) : TB := mkTB (tb_log t) (tb_cleanups t) (Some e).
(** The cleanups of a test run when it ends, failed or not, the last one
    registered first. *)
Definition end_test (t : TB) : TB := mkTB (tb_log t ++ concat (tb_cleanups t)) [] (tb_fatal t).

(** Whether a client is returned; [dial] is the error text of [grpc.NewClient] for a
    target. *)
Definition ServeRuntime (dial : string -> option string) (t : TB) : TB * bool :=
  let t := act (Listen 1048576) t in
  let t := act NewServer t in
  let t := act RegisterRuntimeServer t in
  let t := act GoServe t in
  match dial "passthrough:///runtime" with
  | Some err =>
      let t := act StopServer t in
      (Fatalf (Errorf "dial in-memory runtime: %v" [ArgS err]) t, false)
  | None =>
      let t := act NewClient t in
      (Cleanup [CloseConn; StopServer] t, true)
  end.

(** ** The server and the connection *)
Inductive goroutine := NotStarted | Ready | Serving | Returned.
#[export] Instance goroutine_eq_dec : EqDecision goroutine.
Proof. solve_decision. Defined.
Record rig := mkrig {
  rg_registered : bool;
  rg_late : bool;
  rg_cut : bool;
  rg_serve : goroutine;
  rg_conn : bool;
  rg_stopped : bool;
}.
Definition no_rig : rig := mkrig false false false NotStarted false false.
(** A service must be registered before Serve is called ([rg_late] records that
    it was not); Stop cuts the calls of an open connection ([rg_cut] records
    that there was one) and makes a running Serve return, and a Serve called
    after Stop returns at once. *)
Definition perform (a : action) (g : rig) : rig :=
  let '(mkrig registered late cut serve conn stopped) := g in
  match a with
  | RegisterRuntimeServer => mkrig true (late || negb (bool_decide (serve = NotStarted))) cut serve conn stopped
  | GoServe => mkrig registered late cut Ready conn stopped
  | NewClient => mkrig registered late cut serve true stopped
  | CloseConn => mkrig registered late cut serve false stopped
  | StopServer => mkrig registered late (cut || conn) (match serve with Serving => Returned | s => s end) conn true
  | Listen _ | NewServer | Other _ => g
  end.
Definition schedule (g : rig) : rig :=
  mkrig (rg_registered g) (rg_late g) (rg_cut g) (if rg_stopped g then Returned else Serving) (rg_conn g) (rg_stopped g).
(** The actions in order, with the goroutine started at any point once it is
    ready. *)
Inductive exec {G} (step : action -> G -> G) (go : G -> G) (ready : G -> Prop) : list action -> G -> G -> Prop :=
| exec_done g : exec step go ready [] g g
| exec_act a l g g' : exec step go ready l (step a g) g' -> exec step go ready (a :: l) g g'
| exec_go l g g' : ready g -> exec step go ready l (go g) g' -> exec step go ready l g g'.
#[export] Hint Constructors exec : core.
Definition is_ready (g : rig) : Prop := rg_serve g = Ready.
Definition usable (g : rig) : bool := rg_conn g && negb (rg_stopped g) && rg_registered g && negb (rg_late g).
(** Nothing of the rig is left but, at most, a goroutine that returns as soon
    as it runs; no open connection was cut. *)
Definition released (g : rig) : Prop :=
  rg_conn g = false /\ rg_stopped g = true /\ rg_cut g = false /\ rg_serve g <> Serving /\ rg_serve (schedule g) = Returned.

(** ** What is relied on of gRPC

    The behaviour its documentation gives of the calls [ServeRuntime] makes,
    and of a connection: a call on a usable one reaches the server's method, a
    response comes back as it was given and an error as the status [gr_wire]
    makes of it.  A stream opens whatever its handler does: an error of the
    handler is what the client receives from it.  [RuntimeServer] has the
    methods of the client. *)
Section Relay.
Context {R PodBox : Type} (wire : error -> error).
Definition relay {A} (m : @call R (res A)) : @call R (res A) := fun r =>
  let '(r', x) := m r in (r', match x with Ok a => Ok a | Err e => Err (wire e) end).
Definition relayed (srv : @RuntimeClient R PodBox) : @RuntimeClient R PodBox := {|
  CreatePod p := relay (CreatePod srv p);
  DeletePod id := relay (DeletePod srv id);
  GetPodStatus id := relay (GetPodStatus srv id);
  WatchPodStatus id := fun r => let '(r', s) := WatchPodStatus srv id r in
    (r', Ok (match s with Ok recv => relay recv | Err e => fun r => (r, Err (wire e)) end));
  ListPodStats := relay (ListPodStats srv);
  GetRuntimeInfo := relay (GetRuntimeInfo srv);
|}.
End Relay.
Class GRPC (R PodBox G : Type) := {
  gr_new : G;
  gr_do : action -> G -> G;
  gr_go : G -> G;
  gr_client : G -> @RuntimeClient R PodBox -> @RuntimeClient R PodBox;
  gr_wire : error -> error;
  gr_view : G -> rig;
  gr_new_view : gr_view gr_new = no_rig;
  gr_do_view a g : gr_view (gr_do a g) = perform a (gr_view g);
  gr_go_view g : gr_view (gr_go g) = schedule (gr_view g);
  gr_relays g srv : usable (gr_view g) = true -> gr_client g srv = relayed gr_wire srv;
}.
#[global] Arguments gr_new {R PodBox G _}.
#[global] Arguments gr_view {R PodBox G _} _.

(** ** Executions *)
Abbreviation run := (exec perform schedule is_ready).
Definition foreign (a : action) : Prop := match a with Other _ => True | _ => False end.
(** What the goroutine's start preserves. *)
Definition stable (P : rig -> Prop) : Prop := forall g, rg_serve g = Ready -> P g -> P (schedule g).
Lemma stage_end (P : rig -> Prop) g g' : stable P -> run [] g g' -> P g -> P g'.
Proof.
  intros HP H. remember [] as l eqn:El. revert El. induction H as [|?|l g g' Hr H IH]; intros El; [done..|]. intros Hg. by apply IH, HP.
Qed.
Lemma stage (P Q : rig -> Prop) a l g g' : stable P -> (forall h, P h -> Q (perform a h)) -> run (a :: l) g g' -> P g -> exists h, Q h /\ run l h g'.
Proof.
  intros HP HQ H. remember (a :: l) as al eqn:El. revert El. induction H as [|a' l' g g' H _|l' g g' Hr H IH]; intros El; [done| |].
  - injection El as -> ->. intros Hg. eauto.
  - intros Hg. by apply IH, HP.
Qed.
Lemma foreign_stage (P : rig -> Prop) l1 l2 g g' : stable P -> Forall foreign l1 -> run (l1 ++ l2) g g' -> P g -> exists h, P h /\ run l2 h g'.
Proof.
  intros HP Hl. revert g. induction Hl as [|a l Ha _ IH]; intros g H Hg; [by exists g|].
  assert (forall h, P h -> P (perform a h)) as Hp by (intros h Hh; destruct a; try done; by destruct h).
  destruct (stage P P a (l ++ l2) g g' HP Hp H Hg) as (h & Hh & H'). by eapply IH.
Qed.

(** The stages of a served runtime: not yet served, served with a
    connection or without, and stopped. *)
Definition before (registered : bool) (g : rig) : Prop := g = mkrig registered false false NotStarted false false.
Definition up (conn : bool) (g : rig) : Prop := exists serve, (serve = Ready \/ serve = Serving) /\ g = mkrig true false false serve conn false.
Definition down (g : rig) : Prop := exists serve, (serve = Ready \/ serve = Returned) /\ g = mkrig true false false serve false true.
Lemma before_stable b : stable (before b).
Proof. by intros g Hr ->. Qed.
Lemma up_stable c : stable (up c).
Proof. intros g Hr (s & _ & ->). exists Serving. auto. Qed.
Lemma down_stable : stable down.
Proof. intros g Hr (s & _ & ->). exists Returned. auto. Qed.
Lemma down_released g : down g -> released g.
Proof. intros (s & Hs & ->). unfold released, schedule. cbn. destruct Hs as [-> | ->]; done. Qed.
Lemma stopped_down g : up false g -> down (perform StopServer g).
Proof. intros (s & [-> | ->] & ->); [exists Ready|exists Returned]; auto. Qed.
Lemma conn_up a c c' g : a = NewClient /\ c' = true \/ a = CloseConn /\ c' = false -> up c g -> up c' (perform a g).
Proof. intros [[-> ->]|[-> ->]] (s & Hs & ->); by exists s. Qed.

(** The server runs, without a connection, when the dial is made. *)
Lemma serving_stage log l g : Forall foreign log ->
  run (log ++ Listen 1048576 :: NewServer :: RegisterRuntimeServer :: GoServe :: l) no_rig g -> exists h, up false h /\ run l h g.
Proof.
  intros Hl H. eapply (foreign_stage (before false)) in H as (h0 & H0 & H); [|apply before_stable|done|done].
  eapply (stage (before false) (before false)) in H as (h1 & H1 & H); [|apply before_stable|by intros ? ->|done].
  eapply (stage (before false) (before false)) in H as (h2 & H2 & H); [|apply before_stable|by intros ? ->|done].
  eapply (stage (before false) (before true)) in H as (h3 & H3 & H); [|apply before_stable|by intros ? ->|done].
  eapply (stage (before true) (up false)) in H as (h4 & H4 & H); [|apply before_stable|intros ? ->; exists Ready; auto|done].
  by exists h4.
Qed.

(** ** The client *)
Section Served.
Context {R PodBox G : Type} (NotFound : Z) `{!GRPC R PodBox G}.
Abbreviation RuntimeClient := (@RuntimeClient R PodBox).
Abbreviation grun := (exec gr_do gr_go (fun g => is_ready (gr_view g))).
Lemma run_view l g g' : grun l g g' -> run l (gr_view g) (gr_view g').
Proof. induction 1; [done|apply exec_act; by rewrite <- gr_do_view|apply exec_go; [done|by rewrite <- gr_go_view]]. Qed.

Section Relayed.
Context (wire : error -> error) (srv : RuntimeClient) (pod : string -> PodBox) (pods : R -> gset string).
Abbreviation direct := (mkRuntimeContract srv pod).
Abbreviation served := (mkRuntimeContract (relayed wire srv) pod).
Lemma relay_state {A} (m : @call R (res A)) r : (relay wire m r).1 = (m r).1.
Proof. unfold relay. by destruct (m r). Qed.
Lemma relay_ok {A} (m : @call R (res A)) r a : (m r).2 = Ok a -> (relay wire m r).2 = Ok a.
Proof. unfold relay. destruct (m r). cbn. by intros ->. Qed.
Lemma relay_is_ok {A} (m : @call R (res A)) r : is_ok (relay wire m r).2 = is_ok (m r).2.
Proof. unfold relay. by destruct (m r) as [? []]. Qed.
Lemma served_accounts : Accounts direct pods -> Accounts served pods.
Proof.
  intros [Hc Hd Hs Hw Hl Hi]. split; cbn; intros.
  - specialize (Hc id r). cbn in Hc. rewrite (surjective_pairing (relay wire (CreatePod srv (pod id)) r)), relay_state, relay_is_ok. by destruct (CreatePod srv (pod id) r).
  - rewrite relay_state. apply Hd.
  - rewrite relay_state. apply Hs.
  - specialize (Hw id r). cbn in Hw. destruct (WatchPodStatus srv id r) as [r' [recv|e]]; cbn; [|split; [tauto|by intros recv' [= <-]]].
    destruct Hw as [? Hw]. split; [done|]. intros recv' [= <-] r1. rewrite relay_state. by apply Hw.
  - rewrite relay_state. apply Hl.
  - rewrite relay_state. apply Hi.
Qed.
Lemma served_runtime : Runtime NotFound direct pods -> Runtime NotFound served pods.
Proof.
  intros [Ha Hc Hd Hh Hab Hw Hl Hi]. split; cbn; intros.
  - by apply served_accounts.
  - specialize (Hc id r H). cbn in Hc. unfold relay. destruct (CreatePod srv (pod id) r) as [r' x].
    destruct Hc as (? & y & -> & ?). split; [done|]. by exists y.
  - rewrite relay_is_ok. apply Hd.
  - destruct (Hh id r H) as (x & E & ?). exists x. split; [by apply relay_ok|done].
  - destruct (Hab id r H) as (x & E & ?). exists x. split; [by apply relay_ok|done].
  - specialize (Hw id r H). cbn in Hw. destruct (WatchPodStatus srv id r) as [r' s].
    destruct Hw as (recv & -> & ev & E & ?). exists (relay wire recv). split; [done|]. exists ev. split; [by apply relay_ok|done].
  - destruct (Hl r) as (x & E & ?). exists x. split; [by apply relay_ok|done].
  - destruct (Hi r) as (x & E & ?). exists x. split; [by apply relay_ok|done].
Qed.
End Relayed.

(** ** The test that serves a runtime *)
Lemma served_log dial t g : Forall foreign (tb_log t) -> run (tb_log (ServeRuntime dial t).1) no_rig g ->
  if (ServeRuntime dial t).2 then up true g else down g.
Proof.
  intros Ht. unfold ServeRuntime. destruct (dial _) as [e|]; cbn; rewrite <- !app_assoc; cbn; intros (h & Hh & H)%serving_stage; try done.
  - eapply (stage (up false) down) in H as (h1 & H1 & H); [|apply up_stable|apply stopped_down|done]. by eapply stage_end; [apply down_stable|..].
  - eapply (stage (up false) (up true)) in H as (h1 & H1 & H); [|apply up_stable|intros; eapply conn_up; eauto|done].
    by eapply stage_end; [apply up_stable|..].
Qed.
Lemma ended_log dial t g : Forall foreign (tb_log t) -> Forall foreign (concat (tb_cleanups t)) ->
  run (tb_log (end_test (ServeRuntime dial t).1)) no_rig g -> down g.
Proof.
  intros Ht Hc. unfold ServeRuntime. destruct (dial _) as [e|]; cbn; rewrite <- !app_assoc; cbn; intros (h & Hh & H)%serving_stage; try done.
  - eapply (stage (up false) down) in H as (h1 & H1 & H); [|apply up_stable|apply stopped_down|done].
    rewrite <- (app_nil_r (concat _)) in H. eapply (foreign_stage down) in H as (h2 & H2 & H); [|apply down_stable|done|done].
    by eapply stage_end; [apply down_stable|..].
  - eapply (stage (up false) (up true)) in H as (h1 & H1 & H); [|apply up_stable|intros; eapply conn_up; eauto|done].
    eapply (stage (up true) (up false)) in H as (h2 & H2 & H); [|apply up_stable|intros; eapply conn_up; eauto|done].
    eapply (stage (up false) down) in H as (h3 & H3 & H); [|apply up_stable|apply stopped_down|done].
    rewrite <- (app_nil_r (concat _)) in H. eapply (foreign_stage down) in H as (h4 & H4 & H); [|apply down_stable|done|done].
    by eapply stage_end; [apply down_stable|..].
Qed.

(** C23: A runtime that keeps the contract and holds no pod with an id of the
    suite passes the suite when it is served
    by [ServeRuntime], whenever the serving goroutine gets to run: a client is
    returned exactly when the dial succeeds, every case returns nil through it
    and no pod is left behind; a failed dial fails the test with the server
    stopped.  However the test ends, its connection is closed before the server
    is stopped and nothing keeps serving. *)
Theorem served_runtime_passes dial t srv pod pods r :
  Forall foreign (tb_log t) -> Forall foreign (concat (tb_cleanups t)) ->
  Runtime NotFound (mkRuntimeContract srv pod) pods -> suite_ids ## pods r ->
  let '(t', ok) := ServeRuntime dial t in
  (if ok then dial "passthrough:///runtime" = None /\ tb_fatal t' = tb_fatal t else is_Some (dial "passthrough:///runtime") /\ is_Some (tb_fatal t')) /\
  (forall g, grun (tb_log t') gr_new g ->
     let c := mkRuntimeContract (gr_client g srv) pod in
     if ok then Forall (fun x => rc_Err x = None) (CheckRuntimeContract NotFound c r).2 /\ (RunRuntimeContract NotFound c r).2 = [] /\
                pods (CheckRuntimeContract NotFound c r).1 ⊆ pods r
     else released (gr_view g)) /\
  (forall g, grun (tb_log (end_test t')) gr_new g -> released (gr_view g)).
Proof.
  intros Ht Hc HR Hr. pose proof (served_log dial t) as Hl. pose proof (ended_log dial t) as He.
  destruct (ServeRuntime dial t) as [t' ok] eqn:E. cbn in Hl, He. split_and!.
  - unfold ServeRuntime in E. destruct (dial _) as [e|]; injection E as <- <-; cbn; [by split|done].
  - intros g Hg%run_view. rewrite gr_new_view in Hg. specialize (Hl _ Ht Hg). cbn zeta. destruct ok; [|by apply down_released].
    rewrite gr_relays by (destruct Hl as (s & _ & ->); done).
    destruct (conforming_runtime_passes NotFound (mkRuntimeContract (relayed gr_wire srv) pod) pods) with (r := r) as (H1 & H2 & H3);
      [by apply served_runtime|done|]. rewrite H1, H2. split; [by repeat constructor|done].
  - intros g Hg%run_view. rewrite gr_new_view in Hg. by apply down_released, He.
Qed.
End Served.

(** gRPC as it is documented, over the state of a rig. *)
Definition rig_grpc : GRPC (gset string) string rig := {|
  gr_new := no_rig; gr_do := perform; gr_go := schedule; gr_client _ := relayed id; gr_wire := id; gr_view := id;
  gr_new_view := eq_refl; gr_do_view _ _ := eq_refl; gr_go_view _ := eq_refl; gr_relays _ _ _ := eq_refl |}.
(** The actions of a test in order, the goroutine never started. *)
Lemma exec_main l g : run l g (fold_left (fun g a => perform a g) l g).
Proof. revert g. induction l; intros g; constructor; auto. Qed.
Lemma served_runtime_passes_witness :
  (RunRuntimeContract 5 (mkRuntimeContract (relayed id set_client) id) ({["other"]} : gset string)).2 = [] /\
  released (fold_left (fun g a => perform a g) (tb_log (end_test (ServeRuntime (fun _ => None) (mkTB [Other "setup"] [] None)).1)) no_rig).
Proof.
  pose proof (served_runtime_passes (GRPC0 := rig_grpc) 5 (fun _ => None) (mkTB [Other "setup"] [] None) set_client id id {["other"]}
    ltac:(by repeat constructor) ltac:(by constructor) set_runtime ltac:(apply (bool_decide_unpack _); vm_compute; exact I)) as (_ & Hs & He).
  split; [|apply He, exec_main]. apply (Hs (mkrig true false false Serving true false)).
  do 5 apply exec_act. apply exec_go; [reflexivity|]. apply exec_act. apply exec_done.
Defined.
