(* ===== verification/CrdSchema.v ===== *)
(** * The language of the CRD manifests

    The manifests under src/config/crd are written in three small languages:
    structural OpenAPI v3 schemas, the CEL validation rules inside them, and
    regular expressions.  This file gives the parts the manifests use: what an
    API server does with an object is [admission], the composition of pruning
    unknown fields, filling defaults and validating against schema and rules.
    Only the manifests themselves (CrdManifests) translate repository code. *)
From S2P Require Import Prelude GoLib GoStrings GoRunes.
Set Warnings "-register-all".

(** ** Values *)
Inductive jv :=
| JNull
| JBool (b : bool)
| JInt (z : Z)
| JStr (s : string)
| JArr (vs : list jv)
| JObj (ms : list (string * jv)).

Section Members.
Context {A : Type}.
Fixpoint lookup_key (k : string) (ms : list (string * A)) : option A :=
  match ms with [] => None | (k', v) :: ms' => if String.eqb k k' then Some v else lookup_key k ms' end.
(** The members that are present. *)
Definition present (fs : list (string * option A)) : list (string * A) :=
  omap (fun kv => (fun v => (kv.1, v)) <$> kv.2) fs.

Lemma lookup_key_elem k v ms : lookup_key k ms = Some v -> (k, v) ∈ ms.
Proof.
  induction ms as [|[k' v'] ms IH]; [done|]. cbn. destruct (String.eqb_spec k k') as [->|]; [intros [= ->]; left|right; auto].
Qed.
Lemma lookup_key_None k ms : lookup_key k ms = None <-> k ∉ ms.*1.
Proof.
  induction ms as [|[k' v'] ms IH]; cbn; [set_solver|]. destruct (String.eqb_spec k k') as [->|]; [set_solver|].
  rewrite IH. set_solver.
Qed.
End Members.
Lemma lookup_key_fmap {A B} (f : A -> B) k ms : lookup_key k (prod_map id f <$> ms) = f <$> lookup_key k ms.
Proof. induction ms as [|[k' v'] ms IH]; [done|]. cbn. by destruct (String.eqb k k'). Qed.
Lemma lookup_present {A} k (fs : list (string * option A)) :
  NoDup fs.*1 -> lookup_key k (present fs) = mjoin (lookup_key k fs).
Proof.
  induction fs as [|[k' v] fs IH]; [done|]. cbn. intros [Hk Hn]%NoDup_cons. specialize (IH Hn).
  destruct v as [v|]; cbn; destruct (String.eqb_spec k k') as [->|]; cbn; try done. change (omap _ fs) with (present fs).
  rewrite IH. apply lookup_key_None in Hk. by rewrite Hk.
Qed.

(** ** CEL rules *)
Inductive cel :=
| Self
| OldSelf
| Field (e : cel) (f : string)
| Has (e : cel) (f : string)
| LitS (s : string)
| LitZ (z : Z)
| CEq (a b : cel)
| CNe (a b : cel)
| CLt (a b : cel)
| CGt (a b : cel)
| CGe (a b : cel)
| CNot (a : cel)
| CAnd (a b : cel)
| COr (a b : cel)
| CIf (c a b : cel)
| EndsWith (e : cel) (s : string)
| StartsWith (e : cel) (s : string)
| LowerAscii (e : cel)
| CIn (e : cel) (l : list string)
| Paren (e : cel).

(** The text of a rule, as the manifests write it. *)
Definition quote (s : string) : string := "'" +:+ s +:+ "'".
Fixpoint commas (l : list string) : string :=
  match l with [] => "" | [s] => quote s | s :: l' => quote s +:+ ", " +:+ commas l' end.
Fixpoint cel_show (e : cel) : string :=
  match e with
  | Self => "self"
  | OldSelf => "oldSelf"
  | Field e f => cel_show e +:+ "." +:+ f
  | Has e f => "has(" +:+ cel_show e +:+ "." +:+ f +:+ ")"
  | LitS s => quote s
  | LitZ z => pretty z
  | CEq a b => cel_show a +:+ " == " +:+ cel_show b
  | CNe a b => cel_show a +:+ " != " +:+ cel_show b
  | CLt a b => cel_show a +:+ " < " +:+ cel_show b
  | CGt a b => cel_show a +:+ " > " +:+ cel_show b
  | CGe a b => cel_show a +:+ " >= " +:+ cel_show b
  | CNot a => "!" +:+ cel_show a
  | CAnd a b => cel_show a +:+ " && " +:+ cel_show b
  | COr a b => cel_show a +:+ " || " +:+ cel_show b
  | CIf c a b => cel_show c +:+ " ? " +:+ cel_show a +:+ " : " +:+ cel_show b
  | EndsWith e s => cel_show e +:+ ".endsWith(" +:+ quote s +:+ ")"
  | StartsWith e s => cel_show e +:+ ".startsWith(" +:+ quote s +:+ ")"
  | LowerAscii e => cel_show e +:+ ".lowerAscii()"
  | CIn e l => cel_show e +:+ " in [" +:+ commas l +:+ "]"
  | Paren e => "(" +:+ cel_show e +:+ ")"
  end.

Definition field_of (f : string) (v : jv) : option jv := match v with JObj ms => lookup_key f ms | _ => None end.
Definition cel_eq (a b : jv) : option bool :=
  match a, b with
  | JStr s, JStr t => Some (String.eqb s t)
  | JInt x, JInt y => Some (x =? y)
  | JBool x, JBool y => Some (Bool.eqb x y)
  | _, _ => None
  end.
Definition as_bool (v : option jv) : option bool := match v with Some (JBool b) => Some b | _ => None end.
Definition as_str (v : option jv) : option string := match v with Some (JStr s) => Some s | _ => None end.
Definition as_int (v : option jv) : option Z := match v with Some (JInt z) => Some z | _ => None end.
Definition int2 (f : Z -> Z -> bool) (a b : option jv) : option jv :=
  x ← as_int a; y ← as_int b; Some (JBool (f x y)).
(** [||] is true when either side is, whatever the other one does. *)
Definition cel_or (a b : option bool) : option bool :=
  match a, b with
  | Some true, _ | _, Some true => Some true
  | Some false, Some false => Some false
  | _, _ => None
  end.
Definition cel_and (a b : option bool) : option bool :=
  match a, b with
  | Some false, _ | _, Some false => Some false
  | Some true, Some true => Some true
  | _, _ => None
  end.

(** [None] is an evaluation error. *)
Section Eval.
Context (self : jv) (old : option jv).
Fixpoint cel_eval (e : cel) : option jv :=
  match e with
  | Self => Some self
  | OldSelf => old
  | Field e f => cel_eval e ≫= field_of f
  | Has e f => match cel_eval e with
               | Some (JObj ms) => Some (JBool (bool_decide (is_Some (lookup_key f ms))))
               | _ => None
               end
  | LitS s => Some (JStr s)
  | LitZ z => Some (JInt z)
  | CEq a b => x ← cel_eval a; y ← cel_eval b; JBool <$> cel_eq x y
  | CNe a b => x ← cel_eval a; y ← cel_eval b; (fun c => JBool (negb c)) <$> cel_eq x y
  | CLt a b => int2 Z.ltb (cel_eval a) (cel_eval b)
  | CGt a b => int2 (fun x y => y <? x) (cel_eval a) (cel_eval b)
  | CGe a b => int2 (fun x y => y <=? x) (cel_eval a) (cel_eval b)
  | CNot a => (fun c => JBool (negb c)) <$> as_bool (cel_eval a)
  | CAnd a b => JBool <$> cel_and (as_bool (cel_eval a)) (as_bool (cel_eval b))
  | COr a b => JBool <$> cel_or (as_bool (cel_eval a)) (as_bool (cel_eval b))
  | CIf c a b => b' ← as_bool (cel_eval c); if b' : bool then cel_eval a else cel_eval b
  | EndsWith e s => (fun t => JBool (HasSuffix t s)) <$> as_str (cel_eval e)
  | StartsWith e s => (fun t => JBool (HasPrefix t s)) <$> as_str (cel_eval e)
  | LowerAscii e => (fun t => JStr (ToLower t)) <$> as_str (cel_eval e)
  | CIn e l => (fun t => JBool (existsb (String.eqb t) l)) <$> as_str (cel_eval e)
  | Paren e => cel_eval e
  end.
End Eval.

Fixpoint uses_old (e : cel) : bool :=
  match e with
  | Self | LitS _ | LitZ _ => false
  | OldSelf => true
  | Field e _ | Has e _ | CNot e | EndsWith e _ | StartsWith e _ | LowerAscii e | CIn e _ | Paren e => uses_old e
  | CEq a b | CNe a b | CLt a b | CGt a b | CGe a b | CAnd a b | COr a b => uses_old a || uses_old b
  | CIf c a b => uses_old c || uses_old a || uses_old b
  end.
(** A rule: its text and what the text says.  A rule about the old object is
    checked on updates only. *)
Record rule := mkrule { rule_text : string; rule_cel : cel }.
Definition rule_holds (self : jv) (old : option jv) (r : rule) : bool :=
  if uses_old r.(rule_cel) && negb (bool_decide (is_Some old)) then true
  else bool_decide (as_bool (cel_eval self old r.(rule_cel)) = Some true).

(** ** Schemas *)
Inductive listType := ListAtomic | ListSet | ListMap (keys : list string).
Record strings_of := mkstrings {
  st_enum : list string; st_minLength : option Z; st_maxLength : option Z; st_pattern : option string; st_format : string }.
Inductive schema :=
| SObject (props : list (string * schema)) (addl : option schema) (required : list string) (maxProps : option Z)
    (defaults : list (string * jv)) (rules : list rule)
| SArray (items : schema) (minItems maxItems : option Z) (lt : listType)
| SString (c : strings_of) (rules : list rule)
| SInteger (format : string) (min max : option Z)
| SBoolean (rules : list rule)
| SIntOrString (pattern : option string).

(** Decimal digits and the other classes of the patterns. *)
Definition alnum_any (c : ascii) : bool := is_upper c || is_lower c || is_digit c.
Definition one_of (s : string) (c : ascii) : bool := existsb (Ascii.eqb c) (bytes_of s).
Fixpoint word (s : string) : Regexp.re :=
  match s with "" => Regexp.Eps | String c s' => Regexp.Seq (Regexp.Class (Ascii.eqb c)) (word s') end.
Definition many (r : Regexp.re) : Regexp.re := Regexp.Seq r (Regexp.Star r).
Definition digits : Regexp.re := many (Regexp.Class is_digit).
Definition decimal : Regexp.re :=
  Regexp.Alt (Regexp.Seq digits (Regexp.Opt (Regexp.Seq (word ".") (Regexp.Star (Regexp.Class is_digit)))))
             (Regexp.Seq (word ".") digits).
Definition sign : Regexp.re := Regexp.Opt (Regexp.Class (one_of "+-")).
Definition version_re : Regexp.re :=
  Regexp.Seq (word "v") (Regexp.Seq digits (Regexp.Seq (word ".") (Regexp.Seq digits (Regexp.Seq (word ".") (Regexp.Seq digits
    (Regexp.Opt (Regexp.Seq (word "-") (many (Regexp.Class (fun c => alnum_any c || one_of ".-" c)))))))))).
Definition quantization_re : Regexp.re := many (Regexp.Class (fun c => alnum_any c || one_of "._-" c)).
Definition quantity_re : Regexp.re :=
  Regexp.Seq sign (Regexp.Seq decimal (Regexp.Opt (Regexp.Alt (Regexp.Seq (Regexp.Class (one_of "KMGTPE")) (word "i"))
    (Regexp.Alt (Regexp.Class (one_of "numkMGTPE"))
      (Regexp.Seq (Regexp.Class (one_of "eE")) (Regexp.Seq sign decimal)))))).
Definition unit_re : Regexp.re := foldr (fun u r => Regexp.Alt (word u) r) Regexp.Empty ["ns"; "us"; "µs"; "ms"; "s"; "m"; "h"].
Definition duration_re : Regexp.re :=
  many (Regexp.Seq digits (Regexp.Seq (Regexp.Opt (Regexp.Seq (word ".") digits)) unit_re)).

(** The patterns of the manifests and the expressions they denote. *)
Definition patterns : list (string * Regexp.re) := [
  ("^[a-z0-9]([-a-z0-9]*[a-z0-9])?$", Regexp.dns_label);
  ("^[a-z0-9]([-a-z0-9]*[a-z0-9])?(\.[a-z0-9]([-a-z0-9]*[a-z0-9])?)*$", Regexp.dns_subdomain);
  ("^v[0-9]+\.[0-9]+\.[0-9]+(-[0-9A-Za-z.-]+)?$", version_re);
  ("^[A-Za-z0-9._-]+$", quantization_re);
  ("^(\+|-)?(([0-9]+(\.[0-9]*)?)|(\.[0-9]+))(([KMGTPE]i)|[numkMGTPE]|([eE](\+|-)?(([0-9]+(\.[0-9]*)?)|(\.[0-9]+))))?$", quantity_re);
  ("^([0-9]+(\.[0-9]+)?(ns|us|µs|ms|s|m|h))+$", duration_re)].
Definition matches (pattern : option string) (s : string) : bool :=
  match pattern with
  | None => true
  | Some p => match lookup_key p patterns with Some r => Regexp.MatchString r s | None => false end
  end.

Definition at_least (min : option Z) (z : Z) : bool := match min with Some m => m <=? z | None => true end.
Definition at_most (max : option Z) (z : Z) : bool := match max with Some m => z <=? m | None => true end.
(** [maxLength] counts code points. *)
Definition RuneCount (s : string) : Z := len (runes s).
Definition format_range (format : string) (z : Z) : bool :=
  if String.eqb format "int32" then (- 2 ^ 31 <=? z) && (z <? 2 ^ 31) else (- 2 ^ 63 <=? z) && (z <? 2 ^ 63).

Section Admission.
(** Which strings are RFC 3339 date-times. *)
Context (date_time : string -> bool).

Definition string_ok (c : strings_of) (s : string) : bool :=
  (bool_decide (c.(st_enum) = []) || existsb (String.eqb s) c.(st_enum)) &&
  at_least c.(st_minLength) (RuneCount s) && at_most c.(st_maxLength) (RuneCount s) &&
  matches c.(st_pattern) s && (negb (String.eqb c.(st_format) "date-time") || date_time s).

#[global] Instance jv_eq_dec : EqDecision jv.
Proof.
  refine (fix go (x y : jv) : Decision (x = y) :=
    let _ : EqDecision jv := go in
    match x, y with
    | JNull, JNull => left eq_refl
    | JBool a, JBool b => cast_if (decide (a = b))
    | JInt a, JInt b => cast_if (decide (a = b))
    | JStr a, JStr b => cast_if (decide (a = b))
    | JArr a, JArr b => cast_if (decide (a = b))
    | JObj a, JObj b => cast_if (decide (a = b))
    | _, _ => right _
    end); try congruence.
Defined.

Definition list_ok (lt : listType) (vs : list jv) : bool :=
  match lt with
  | ListAtomic => true
  | ListSet => bool_decide (NoDup vs)
  | ListMap keys => bool_decide (NoDup ((fun v => (fun k => field_of k v) <$> keys) <$> vs))
  end.

Fixpoint valid (s : schema) (old : option jv) (v : jv) : bool :=
  match s, v with
  | SObject props addl required maxProps _ rules, JObj ms =>
      forallb (fun k => bool_decide (is_Some (lookup_key k ms))) required &&
      at_most maxProps (len ms) &&
      (fix go ps := match ps with
         | [] => true
         | (k, s') :: ps' => match lookup_key k ms with
                             | Some v' => valid s' (old ≫= field_of k) v'
                             | None => true
                             end && go ps'
         end) props &&
      match addl with
      | Some a => forallb (fun kv => bool_decide (kv.1 ∈ props.*1) || valid a None kv.2) ms
      | None => true
      end &&
      forallb (rule_holds v old) rules
  | SArray items minItems maxItems lt, JArr vs =>
      at_least minItems (len vs) && at_most maxItems (len vs) && list_ok lt vs && forallb (valid items None) vs
  | SString c rules, JStr x => string_ok c x && forallb (rule_holds v old) rules
  | SInteger format min max, JInt z => format_range format z && at_least min z && at_most max z
  | SBoolean rules, JBool _ => forallb (rule_holds v old) rules
  | SIntOrString _, JInt _ => true
  | SIntOrString p, JStr x => matches p x
  | _, _ => false
  end.

(** Unknown fields are dropped, and so are null ones: no schema is nullable. *)
Definition is_null (v : jv) : bool := match v with JNull => true | _ => false end.
Fixpoint prune (s : schema) (v : jv) : jv :=
  match s, v with
  | SObject props addl _ _ _ _, JObj ms =>
      JObj (omap (fun kv =>
        if is_null kv.2 then None
        else (fix go ps := match ps with
                | [] => (fun a => (kv.1, prune a kv.2)) <$> addl
                | (k, s') :: ps' => if String.eqb kv.1 k then Some (kv.1, prune s' kv.2) else go ps'
                end) props) ms)
  | SArray items _ _ _, JArr vs => JArr (map (prune items) vs)
  | _, _ => v
  end.

(** Missing fields that have a default get it, from the outside in. *)
Fixpoint fill (s : schema) (v : jv) : jv :=
  match s, v with
  | SObject props addl _ _ defaults _, JObj ms =>
      let ms := ms ++ List.filter (fun kd => negb (bool_decide (kd.1 ∈ ms.*1))) defaults in
      JObj (map (fun kv =>
        (fix go ps := match ps with
           | [] => (kv.1, match addl with Some a => fill a kv.2 | None => kv.2 end)
           | (k, s') :: ps' => if String.eqb kv.1 k then (kv.1, fill s' kv.2) else go ps'
           end) props) ms)
  | SArray items _ _ _, JArr vs => JArr (map (fill items) vs)
  | _, _ => v
  end.

Definition admission (s : schema) (old : option jv) (v : jv) : option jv :=
  let v' := fill s (prune s v) in if valid s old v' then Some v' else None.
End Admission.
