(* ===== verification/CrdManifests.v ===== *)
(** * The CRD manifests (src/config/crd/*.yaml)

    The nine manifests, transcribed: names, versions and the schema with every
    constraint and rule; descriptions, messages and printer columns are left
    out.  Each rule carries its text beside its meaning, and
    [rules_transcribed] checks that the one prints as the other. *)
From S2P Require Import Prelude CrdSchema.

Definition text : schema := SString (mkstrings [] None None None "") [].
Definition enum (l : list string) : schema := SString (mkstrings l None None None "") [].
Definition date_time_text : schema := SString (mkstrings [] None None None "date-time") [].
Definition count64 : schema := SInteger "int64" (Some 0) None.

Record version := mkversion { ver_name : string; ver_served : bool; ver_storage : bool; ver_status : bool; ver_schema : schema }.
Record manifest := mkmanifest {
  crd_name : string; crd_group : string; crd_scope : string;
  crd_kind : string; crd_listKind : string; crd_plural : string; crd_singular : string; crd_versions : list version }.

(** ** mlx.k3sm.io_mlxmodels.yaml *)
Definition mlxModel_spec : schema :=
  SObject [("model", SString (mkstrings [] (Some 1) None None "")
        []);
      ("artifact", SObject [("reference", SString (mkstrings [] (Some 1) (Some 512) None "")
          []);
        ("variant", SString (mkstrings [] None (Some 128) None "")
          [])]
        None ["reference"] None []
        []);
      ("revision", text);
      ("quantization", SString (mkstrings [] None (Some 128) (Some "^[A-Za-z0-9._-]+$") "")
        []);
      ("memory", SIntOrString (Some "^(\+|-)?(([0-9]+(\.[0-9]*)?)|(\.[0-9]+))(([KMGTPE]i)|[numkMGTPE]|([eE](\+|-)?(([0-9]+(\.[0-9]*)?)|(\.[0-9]+))))?$"));
      ("replicas", SInteger "int32" (Some 0) None);
      ("port", SInteger "int32" (Some 0) (Some 65535));
      ("runtime", SObject [("image", text);
        ("args", SArray (text) None None ListAtomic)]
        None [] None []
        []);
      ("cache", SObject [("size", SIntOrString (Some "^(\+|-)?(([0-9]+(\.[0-9]*)?)|(\.[0-9]+))(([KMGTPE]i)|[numkMGTPE]|([eE](\+|-)?(([0-9]+(\.[0-9]*)?)|(\.[0-9]+))))?$"));
        ("storageClassName", text)]
        None ["size"] None []
        []);
      ("nodeSelector", SObject []
        (Some (text)) [] None []
        []);
      ("distributed", SObject [("ranks", SInteger "int32" None None);
        ("backend", enum ["auto"; "ring"; "jaccl"]);
        ("parallelism", enum ["tensor"; "pipeline"]);
        ("interconnect", enum ["auto"; "thunderbolt"; "network"])]
        None [] None [("interconnect", JStr "auto")]
        [(mkrule "has(self.ranks) && self.ranks >= 2"
  (CAnd (Has Self "ranks") (CGe (Field Self "ranks") (LitZ 2))))])]
      None ["memory"] None []
      [(mkrule "has(self.model) != has(self.artifact)"
  (CNe (Has Self "model") (Has Self "artifact")));
      (mkrule "!has(self.artifact) || !has(self.revision)"
  (COr (CNot (Has Self "artifact")) (CNot (Has Self "revision"))))].

Definition mlxModel_condition : schema :=
  SObject [("type", SString (mkstrings [] None (Some 316) None "")
            []);
          ("status", enum ["True"; "False"; "Unknown"]);
          ("observedGeneration", count64);
          ("lastTransitionTime", date_time_text);
          ("reason", SString (mkstrings [] None (Some 1024) None "")
            []);
          ("message", SString (mkstrings [] None (Some 32768) None "")
            [])]
          None ["type"; "status"; "lastTransitionTime"; "reason"] None []
          [].

Definition mlxModel_status : schema :=
  SObject [("conditions", SArray (mlxModel_condition) None None (ListMap ["type"]));
      ("observedGeneration", count64);
      ("phase", enum ["Pending"; "Downloading"; "Loading"; "Ready"; "Failed"]);
      ("endpoint", text);
      ("resolvedRevision", text);
      ("resolvedArtifact", text);
      ("replicas", SInteger "int32" (Some 0) None);
      ("readyReplicas", SInteger "int32" (Some 0) None);
      ("updatedReplicas", SInteger "int32" (Some 0) None)]
      None [] None []
      [].

Definition mlxModelCRDYAML : manifest :=
  mkmanifest "mlxmodels.mlx.k3sm.io" "mlx.k3sm.io" "Namespaced" "MLXModel" "MLXModelList" "mlxmodels" "mlxmodel"
  [mkversion "v1alpha1" true true true
   (SObject [("apiVersion", text);
    ("kind", text);
    ("metadata", SObject []
      None [] None []
      []);
    ("spec", mlxModel_spec);
    ("status", mlxModel_status)]
    None [] None []
    [])].

(** ** net.k3sm.io_meshpeers.yaml *)
Definition meshPeer_spec : schema :=
  SObject [("schemaVersion", SInteger "int32" (Some 1) None);
      ("nodeName", text);
      ("publicKey", text);
      ("endpoint", text);
      ("endpoints", SArray (SObject [("address", text);
          ("link", text)]
          None ["address"; "link"] None []
          []) None None ListAtomic);
      ("podCIDR", text);
      ("allowedIPs", SArray (text) (Some 1) None ListAtomic);
      ("meshIP", text);
      ("persistentKeepaliveSeconds", SInteger "int32" None None)]
      None ["schemaVersion"; "nodeName"; "publicKey"; "endpoint"; "podCIDR"; "allowedIPs"] None []
      [].

Definition meshPeer_status : schema :=
  SObject [("lastHandshakeTime", date_time_text);
      ("reachable", SBoolean []);
      ("observedSchemaVersion", SInteger "int32" None None)]
      None [] None []
      [].

Definition meshPeerCRDYAML : manifest :=
  mkmanifest "meshpeers.net.k3sm.io" "net.k3sm.io" "Cluster" "MeshPeer" "MeshPeerList" "meshpeers" "meshpeer"
  [mkversion "v1" true true true
   (SObject [("apiVersion", text);
    ("kind", text);
    ("metadata", SObject []
      None [] None []
      []);
    ("spec", meshPeer_spec);
    ("status", meshPeer_status)]
    None [] None []
    [])].

(** ** net.k3sm.io_interconnects.yaml *)
Definition interconnect_spec : schema :=
  SObject [("medium", enum ["thunderbolt"]);
      ("fallback", enum ["network"; "none"]);
      ("enabled", SBoolean []);
      ("excludedNodes", SArray (SString (mkstrings [] (Some 1) (Some 253) None "")
          []) None (Some 64) ListSet);
      ("allowedNamespaces", SArray (SString (mkstrings [] (Some 1) (Some 63) (Some "^[a-z0-9]([-a-z0-9]*[a-z0-9])?$") "")
          []) None (Some 64) ListSet)]
      None ["medium"] None [("fallback", JStr "network"); ("enabled", JBool false)]
      [].

Definition interconnect_member : schema :=
  SObject [("node", text);
          ("index", SInteger "int32" (Some 0) None);
          ("address", text);
          ("state", enum ["up"; "down"; "loop"]);
          ("speedGbps", SInteger "int32" (Some 0) None);
          ("segment", text);
          ("reachablePeers", SArray (text) None None ListAtomic);
          ("lastTransition", date_time_text)]
          None ["node"; "index"; "state"] None []
          [].

Definition interconnect_condition : schema :=
  SObject [("type", SString (mkstrings [] None (Some 316) None "")
            []);
          ("status", enum ["True"; "False"; "Unknown"]);
          ("observedGeneration", count64);
          ("lastTransitionTime", date_time_text);
          ("reason", SString (mkstrings [] None (Some 1024) None "")
            []);
          ("message", SString (mkstrings [] None (Some 32768) None "")
            [])]
          None ["type"; "status"; "lastTransitionTime"; "reason"] None []
          [].

Definition interconnect_status : schema :=
  SObject [("members", SArray (interconnect_member) None None ListAtomic);
      ("segments", SArray (SObject [("id", text);
          ("nodes", SArray (text) None None ListAtomic)]
          None ["id"] None []
          []) None None ListAtomic);
      ("attachedPods", SInteger "int32" (Some 0) None);
      ("armedBy", text);
      ("armedAt", date_time_text);
      ("conditions", SArray (interconnect_condition) None None (ListMap ["type"]))]
      None [] None []
      [].

Definition interconnectCRDYAML : manifest :=
  mkmanifest "interconnects.net.k3sm.io" "net.k3sm.io" "Cluster" "Interconnect" "InterconnectList" "interconnects" "interconnect"
  [mkversion "v1alpha1" true true true
   (SObject [("apiVersion", text);
    ("kind", text);
    ("metadata", SObject []
      None [] None []
      []);
    ("spec", interconnect_spec);
    ("status", interconnect_status)]
    None [] None []
    [])].

(** ** helm.k3sm.io_helmcharts.yaml *)
Definition helmChart_spec : schema :=
  SObject [("chart", SString (mkstrings [] None None None "")
        [(mkrule "!self.lowerAscii().startsWith('http://')"
  (CNot (StartsWith (LowerAscii Self) "http://")))]);
      ("repo", SString (mkstrings [] None None None "")
        [(mkrule "!self.lowerAscii().startsWith('http://')"
  (CNot (StartsWith (LowerAscii Self) "http://")))]);
      ("version", text);
      ("targetNamespace", text);
      ("createNamespace", SBoolean []);
      ("valuesContent", text);
      ("set", SObject []
        (Some (SIntOrString None)) [] None []
        []);
      ("chartContent", text);
      ("timeout", SString (mkstrings [] None None (Some "^([0-9]+(\.[0-9]+)?(ns|us|µs|ms|s|m|h))+$") "")
        []);
      ("bootstrap", SBoolean []);
      ("backOffLimit", SInteger "int32" (Some 0) None);
      ("failurePolicy", enum ["abort"; "reinstall"]);
      ("forceConflicts", SBoolean []);
      ("takeOwnership", SBoolean [])]
      None [] None []
      [].

Definition helmChart_status : schema :=
  SObject [("jobName", text);
      ("conditions", SArray (SObject [("type", text);
          ("status", enum ["True"; "False"; "Unknown"]);
          ("lastUpdateTime", date_time_text);
          ("lastTransitionTime", date_time_text);
          ("reason", text);
          ("message", text)]
          None ["type"; "status"] None []
          []) None None ListAtomic)]
      None [] None []
      [].

Definition helmChartCRDYAML : manifest :=
  mkmanifest "helmcharts.helm.k3sm.io" "helm.k3sm.io" "Namespaced" "HelmChart" "HelmChartList" "helmcharts" "helmchart"
  [mkversion "v1" true true true
   (SObject [("apiVersion", text);
    ("kind", text);
    ("metadata", SObject []
      None [] None []
      []);
    ("spec", helmChart_spec);
    ("status", helmChart_status)]
    None [] None []
    [])].

(** ** helm.k3sm.io_helmchartconfigs.yaml *)
Definition helmChartConfig_spec : schema :=
  SObject [("valuesContent", text);
      ("failurePolicy", enum ["abort"; "reinstall"]);
      ("forceConflicts", SBoolean [])]
      None [] None []
      [].

Definition helmChartConfigCRDYAML : manifest :=
  mkmanifest "helmchartconfigs.helm.k3sm.io" "helm.k3sm.io" "Namespaced" "HelmChartConfig" "HelmChartConfigList" "helmchartconfigs" "helmchartconfig"
  [mkversion "v1" true true false
   (SObject [("apiVersion", text);
    ("kind", text);
    ("metadata", SObject []
      None [] None []
      []);
    ("spec", helmChartConfig_spec)]
    None [] None []
    [])].

(** ** updates.k3sm.io_updates.yaml *)
Definition update_spec : schema :=
  SObject [("version", SString (mkstrings [] (Some 1) (Some 128) (Some "^v[0-9]+\.[0-9]+\.[0-9]+(-[0-9A-Za-z.-]+)?$") "")
        [(mkrule "self == oldSelf"
  (CEq Self OldSelf))]);
      ("strategy", SObject [("order", enum ["workers-then-server"]);
        ("maxUnavailable", SInteger "int32" (Some 1) None);
        ("drain", SBoolean [])]
        None [] None [("order", JStr "workers-then-server"); ("maxUnavailable", JInt 1); ("drain", JBool false)]
        []);
      ("verify", SObject [("signature", enum ["if-signed"; "required"])]
        None [] None [("signature", JStr "if-signed")]
        []);
      ("allowDowngrade", SBoolean []);
      ("cancel", SBoolean [(mkrule "!oldSelf || self"
  (COr (CNot OldSelf) Self))])]
      None ["version"] None [("strategy", JObj []); ("verify", JObj []); ("allowDowngrade", JBool false); ("cancel", JBool false)]
      [].

Definition update_condition : schema :=
  SObject [("type", SString (mkstrings [] None (Some 316) None "")
            []);
          ("status", enum ["True"; "False"; "Unknown"]);
          ("observedGeneration", count64);
          ("lastTransitionTime", date_time_text);
          ("reason", SString (mkstrings [] None (Some 1024) None "")
            []);
          ("message", SString (mkstrings [] None (Some 32768) None "")
            [])]
          None ["type"; "status"; "lastTransitionTime"; "reason"] None []
          [].

Definition update_status : schema :=
  SObject [("phase", SString (mkstrings [] None (Some 64) None "")
        []);
      ("resolved", SObject [("version", SString (mkstrings [] None (Some 128) None "")
          []);
        ("digest", SString (mkstrings [] None (Some 256) None "")
          [])]
        None [] None []
        []);
      ("nodes", SArray (SObject [("name", SString (mkstrings [] (Some 1) (Some 253) None "")
            []);
          ("from", text);
          ("to", text);
          ("phase", SString (mkstrings [] None (Some 64) None "")
            []);
          ("message", SString (mkstrings [] None (Some 32768) None "")
            []);
          ("adminTokenRotated", SBoolean []);
          ("startedAt", date_time_text);
          ("finishedAt", date_time_text)]
          None ["name"] None []
          []) None (Some 64) (ListMap ["name"]));
      ("conditions", SArray (update_condition) None (Some 16) (ListMap ["type"]));
      ("observedGeneration", count64)]
      None [] None []
      [].

Definition updateCRDYAML : manifest :=
  mkmanifest "updates.updates.k3sm.io" "updates.k3sm.io" "Cluster" "Update" "UpdateList" "updates" "update"
  [mkversion "v1alpha1" true true true
   (SObject [("apiVersion", text);
    ("kind", text);
    ("metadata", SObject []
      None [] None []
      []);
    ("spec", update_spec);
    ("status", update_status)]
    None ["spec"] None []
    [])].

(** ** updates.k3sm.io_updatepolicies.yaml *)
Definition updatePolicy_spec : schema :=
  SObject [("channel", enum ["stable"; "rc"])]
      None [] None [("channel", JStr "stable")]
      [].

Definition updatePolicyCRDYAML : manifest :=
  mkmanifest "updatepolicies.updates.k3sm.io" "updates.k3sm.io" "Cluster" "UpdatePolicy" "UpdatePolicyList" "updatepolicies" "updatepolicy"
  [mkversion "v1alpha1" true true false
   (SObject [("apiVersion", text);
    ("kind", text);
    ("metadata", SObject []
      None [] None []
      []);
    ("spec", updatePolicy_spec)]
    None [] None [("spec", JObj [])]
    [(mkrule "self.metadata.name == 'cluster'"
  (CEq (Field (Field Self "metadata") "name") (LitS "cluster")))])].

(** ** budget.k3sm.io_nodebudgets.yaml *)
Definition nodeBudget_capacity : schema :=
  SObject [("cpuCapacityMilli", count64);
        ("cpuSystemReserveMilli", count64);
        ("memCapacityBytes", count64);
        ("memSystemReserveBytes", count64);
        ("memEvictionReserveBytes", count64);
        ("memAllocatableBytes", count64);
        ("swapTotalBytes", count64);
        ("swapUsedBytes", count64);
        ("cpuPerformanceCores", count64);
        ("cpuEfficiencyCores", count64);
        ("gpuPresent", SBoolean []);
        ("gpuCount", count64)]
        None [] None []
        [].

Definition nodeBudget_signal : schema :=
  SObject [("id", enum ["memory.available"; "memory.compressor"; "memory.swap"; "swapfs.available"; "nodefs.available"; "imagefs.available"; "pid.available"]);
          ("unit", enum ["bytes"; "permille"; "count"]);
          ("value", count64);
          ("warnThreshold", count64);
          ("admitStopThreshold", count64);
          ("criticalThreshold", count64);
          ("evictSoftThreshold", count64);
          ("evictHardThreshold", count64);
          ("warnRelease", count64);
          ("admitStopRelease", count64);
          ("criticalRelease", count64);
          ("evictSoftRelease", count64);
          ("evictHardRelease", count64);
          ("graceSeconds", count64);
          ("minReclaimBytes", count64);
          ("windowSeconds", count64);
          ("etaToNextRungSeconds", count64);
          ("trend", enum ["falling"; "steady"; "rising"; "unknown"]);
          ("limitingResource", enum ["memory"; "swapfs"; "nodefs"; "imagefs"; "pid"; "cpu"; "unknown"]);
          ("sharedWith", enum ["memory.available"; "memory.compressor"; "memory.swap"; "swapfs.available"; "nodefs.available"; "imagefs.available"; "pid.available"])]
          None ["id"; "unit"] None []
          [(mkrule "self.unit == (self.id == 'memory.compressor' ? 'permille' : self.id == 'pid.available' ? 'count' : 'bytes')"
  (CEq (Field Self "unit") (Paren (CIf (CEq (Field Self "id") (LitS "memory.compressor")) (LitS "permille") (CIf (CEq (Field Self "id") (LitS "pid.available")) (LitS "count") (LitS "bytes"))))));
          (mkrule "!has(self.warnThreshold) || !has(self.admitStopThreshold) || (self.id.endsWith('.available') ? self.warnThreshold > self.admitStopThreshold : self.warnThreshold < self.admitStopThreshold)"
  (COr (CNot (Has Self "warnThreshold")) (COr (CNot (Has Self "admitStopThreshold")) (Paren (CIf (EndsWith (Field Self "id") ".available") (CGt (Field Self "warnThreshold") (Field Self "admitStopThreshold")) (CLt (Field Self "warnThreshold") (Field Self "admitStopThreshold")))))));
          (mkrule "!has(self.warnThreshold) || !has(self.criticalThreshold) || (self.id.endsWith('.available') ? self.warnThreshold > self.criticalThreshold : self.warnThreshold < self.criticalThreshold)"
  (COr (CNot (Has Self "warnThreshold")) (COr (CNot (Has Self "criticalThreshold")) (Paren (CIf (EndsWith (Field Self "id") ".available") (CGt (Field Self "warnThreshold") (Field Self "criticalThreshold")) (CLt (Field Self "warnThreshold") (Field Self "criticalThreshold")))))));
          (mkrule "!has(self.warnThreshold) || !has(self.evictSoftThreshold) || (self.id.endsWith('.available') ? self.warnThreshold > self.evictSoftThreshold : self.warnThreshold < self.evictSoftThreshold)"
  (COr (CNot (Has Self "warnThreshold")) (COr (CNot (Has Self "evictSoftThreshold")) (Paren (CIf (EndsWith (Field Self "id") ".available") (CGt (Field Self "warnThreshold") (Field Self "evictSoftThreshold")) (CLt (Field Self "warnThreshold") (Field Self "evictSoftThreshold")))))));
          (mkrule "!has(self.warnThreshold) || !has(self.evictHardThreshold) || (self.id.endsWith('.available') ? self.warnThreshold > self.evictHardThreshold : self.warnThreshold < self.evictHardThreshold)"
  (COr (CNot (Has Self "warnThreshold")) (COr (CNot (Has Self "evictHardThreshold")) (Paren (CIf (EndsWith (Field Self "id") ".available") (CGt (Field Self "warnThreshold") (Field Self "evictHardThreshold")) (CLt (Field Self "warnThreshold") (Field Self "evictHardThreshold")))))));
          (mkrule "!has(self.admitStopThreshold) || !has(self.criticalThreshold) || (self.id.endsWith('.available') ? self.admitStopThreshold > self.criticalThreshold : self.admitStopThreshold < self.criticalThreshold)"
  (COr (CNot (Has Self "admitStopThreshold")) (COr (CNot (Has Self "criticalThreshold")) (Paren (CIf (EndsWith (Field Self "id") ".available") (CGt (Field Self "admitStopThreshold") (Field Self "criticalThreshold")) (CLt (Field Self "admitStopThreshold") (Field Self "criticalThreshold")))))));
          (mkrule "!has(self.admitStopThreshold) || !has(self.evictSoftThreshold) || (self.id.endsWith('.available') ? self.admitStopThreshold > self.evictSoftThreshold : self.admitStopThreshold < self.evictSoftThreshold)"
  (COr (CNot (Has Self "admitStopThreshold")) (COr (CNot (Has Self "evictSoftThreshold")) (Paren (CIf (EndsWith (Field Self "id") ".available") (CGt (Field Self "admitStopThreshold") (Field Self "evictSoftThreshold")) (CLt (Field Self "admitStopThreshold") (Field Self "evictSoftThreshold")))))));
          (mkrule "!has(self.admitStopThreshold) || !has(self.evictHardThreshold) || (self.id.endsWith('.available') ? self.admitStopThreshold > self.evictHardThreshold : self.admitStopThreshold < self.evictHardThreshold)"
  (COr (CNot (Has Self "admitStopThreshold")) (COr (CNot (Has Self "evictHardThreshold")) (Paren (CIf (EndsWith (Field Self "id") ".available") (CGt (Field Self "admitStopThreshold") (Field Self "evictHardThreshold")) (CLt (Field Self "admitStopThreshold") (Field Self "evictHardThreshold")))))));
          (mkrule "!has(self.criticalThreshold) || !has(self.evictSoftThreshold) || (self.id.endsWith('.available') ? self.criticalThreshold > self.evictSoftThreshold : self.criticalThreshold < self.evictSoftThreshold)"
  (COr (CNot (Has Self "criticalThreshold")) (COr (CNot (Has Self "evictSoftThreshold")) (Paren (CIf (EndsWith (Field Self "id") ".available") (CGt (Field Self "criticalThreshold") (Field Self "evictSoftThreshold")) (CLt (Field Self "criticalThreshold") (Field Self "evictSoftThreshold")))))));
          (mkrule "!has(self.criticalThreshold) || !has(self.evictHardThreshold) || (self.id.endsWith('.available') ? self.criticalThreshold > self.evictHardThreshold : self.criticalThreshold < self.evictHardThreshold)"
  (COr (CNot (Has Self "criticalThreshold")) (COr (CNot (Has Self "evictHardThreshold")) (Paren (CIf (EndsWith (Field Self "id") ".available") (CGt (Field Self "criticalThreshold") (Field Self "evictHardThreshold")) (CLt (Field Self "criticalThreshold") (Field Self "evictHardThreshold")))))));
          (mkrule "!has(self.evictSoftThreshold) || !has(self.evictHardThreshold) || (self.id.endsWith('.available') ? self.evictSoftThreshold > self.evictHardThreshold : self.evictSoftThreshold < self.evictHardThreshold)"
  (COr (CNot (Has Self "evictSoftThreshold")) (COr (CNot (Has Self "evictHardThreshold")) (Paren (CIf (EndsWith (Field Self "id") ".available") (CGt (Field Self "evictSoftThreshold") (Field Self "evictHardThreshold")) (CLt (Field Self "evictSoftThreshold") (Field Self "evictHardThreshold")))))));
          (mkrule "!has(self.warnThreshold) || !has(self.warnRelease) || (self.id.endsWith('.available') ? self.warnRelease > self.warnThreshold : self.warnRelease < self.warnThreshold)"
  (COr (CNot (Has Self "warnThreshold")) (COr (CNot (Has Self "warnRelease")) (Paren (CIf (EndsWith (Field Self "id") ".available") (CGt (Field Self "warnRelease") (Field Self "warnThreshold")) (CLt (Field Self "warnRelease") (Field Self "warnThreshold")))))));
          (mkrule "!has(self.admitStopThreshold) || !has(self.admitStopRelease) || (self.id.endsWith('.available') ? self.admitStopRelease > self.admitStopThreshold : self.admitStopRelease < self.admitStopThreshold)"
  (COr (CNot (Has Self "admitStopThreshold")) (COr (CNot (Has Self "admitStopRelease")) (Paren (CIf (EndsWith (Field Self "id") ".available") (CGt (Field Self "admitStopRelease") (Field Self "admitStopThreshold")) (CLt (Field Self "admitStopRelease") (Field Self "admitStopThreshold")))))));
          (mkrule "!has(self.criticalThreshold) || !has(self.criticalRelease) || (self.id.endsWith('.available') ? self.criticalRelease > self.criticalThreshold : self.criticalRelease < self.criticalThreshold)"
  (COr (CNot (Has Self "criticalThreshold")) (COr (CNot (Has Self "criticalRelease")) (Paren (CIf (EndsWith (Field Self "id") ".available") (CGt (Field Self "criticalRelease") (Field Self "criticalThreshold")) (CLt (Field Self "criticalRelease") (Field Self "criticalThreshold")))))));
          (mkrule "!has(self.evictSoftThreshold) || !has(self.evictSoftRelease) || (self.id.endsWith('.available') ? self.evictSoftRelease > self.evictSoftThreshold : self.evictSoftRelease < self.evictSoftThreshold)"
  (COr (CNot (Has Self "evictSoftThreshold")) (COr (CNot (Has Self "evictSoftRelease")) (Paren (CIf (EndsWith (Field Self "id") ".available") (CGt (Field Self "evictSoftRelease") (Field Self "evictSoftThreshold")) (CLt (Field Self "evictSoftRelease") (Field Self "evictSoftThreshold")))))));
          (mkrule "!has(self.evictHardThreshold) || !has(self.evictHardRelease) || (self.id.endsWith('.available') ? self.evictHardRelease > self.evictHardThreshold : self.evictHardRelease < self.evictHardThreshold)"
  (COr (CNot (Has Self "evictHardThreshold")) (COr (CNot (Has Self "evictHardRelease")) (Paren (CIf (EndsWith (Field Self "id") ".available") (CGt (Field Self "evictHardRelease") (Field Self "evictHardThreshold")) (CLt (Field Self "evictHardRelease") (Field Self "evictHardThreshold")))))));
          (mkrule "self.id != 'memory.swap' || !has(self.evictSoftThreshold)"
  (COr (CNe (Field Self "id") (LitS "memory.swap")) (CNot (Has Self "evictSoftThreshold"))))].

Definition nodeBudget_recommendation : schema :=
  SObject [("safeAdditionalBytes", count64);
        ("basis", enum ["memory.available"; "memory.compressor"; "memory.swap"; "swapfs.available"; "nodefs.available"; "imagefs.available"; "pid.available"])]
        None [] None []
        [].

Definition nodeBudget_killMode : schema :=
  SObject [("mode", enum ["auto"; "on"; "off"]);
        ("armed", SBoolean []);
        ("armingEpisodes", SInteger "int32" (Some 0) None);
        ("reason", enum ["cold-start"; "observing"; "armed"; "policy-off"; "disarm-file"; "unknown"])]
        None [] None []
        [].

Definition nodeBudget_wouldKill : schema :=
  SObject [("band", enum ["critical"; "standard"; "batch"]);
        ("reason", enum ["held-pressure"; "memory-floor"; "unknown"]);
        ("at", date_time_text)]
        None ["band"; "reason"; "at"] None []
        [].

Definition nodeBudget_window : schema :=
  SObject [("window", enum ["1h"; "24h"]);
              ("reason", enum ["eviction"; "oom-kill"; "kernel-kill"; "restart"; "mem-high"; "tier1-refused"; "unknown"]);
              ("count", count64)]
              None ["window"; "reason"; "count"] None []
              [].

Definition nodeBudget_counters : schema :=
  SObject [("band", enum ["critical"; "standard"; "batch"]);
          ("evictionsTotal", count64);
          ("oomKillsTotal", count64);
          ("kernelKillsTotal", count64);
          ("restartsTotal", count64);
          ("memHighEventsTotal", count64);
          ("tier1RefusedTotal", count64);
          ("windows", SArray (nodeBudget_window) None (Some 12) (ListMap ["window"; "reason"]))]
          None ["band"; "evictionsTotal"; "oomKillsTotal"; "kernelKillsTotal"; "restartsTotal"; "memHighEventsTotal"; "tier1RefusedTotal"] None []
          [].

Definition nodeBudget_policy : schema :=
  SObject [("name", SString (mkstrings [] None (Some 253) (Some "^[a-z0-9]([-a-z0-9]*[a-z0-9])?(\.[a-z0-9]([-a-z0-9]*[a-z0-9])?)*$") "")
          []);
        ("resourceVersion", SString (mkstrings [] None (Some 64) None "")
          []);
        ("outcome", enum ["applied"; "rejected"; "clamped"]);
        ("clampedFields", SArray (enum ["tier1GraceSeconds"; "tier1HeldSeconds"; "tier1MaxDeliveriesPerHour"; "tier1CooloffSeconds"; "reserves.cpuSystemReserveMilli"; "reserves.memSystemReserveBytes"; "reserves.memEvictionReserveBytes"]) None (Some 8) ListSet)]
        None ["name"; "outcome"] None []
        [].

Definition nodeBudget_inForce : schema :=
  SObject [("name", SString (mkstrings [] None (Some 253) (Some "^[a-z0-9]([-a-z0-9]*[a-z0-9])?(\.[a-z0-9]([-a-z0-9]*[a-z0-9])?)*$") "")
          []);
        ("resourceVersion", SString (mkstrings [] None (Some 64) None "")
          [])]
        None ["name"] None []
        [].

Definition nodeBudget_writer : schema :=
  SObject [("shape", enum ["annotation-relay"; "own-node"]);
        ("nodeNameExtra", SBoolean [])]
        None ["shape"] None []
        [].

Definition nodeBudget_condition : schema :=
  SObject [("type", SString (mkstrings [] None (Some 316) None "")
            []);
          ("status", enum ["True"; "False"]);
          ("observedGeneration", count64);
          ("lastTransitionTime", date_time_text);
          ("reason", SString (mkstrings [] None (Some 1024) None "")
            []);
          ("message", SString (mkstrings [] None (Some 32768) None "")
            [])]
          None ["type"; "status"; "lastTransitionTime"; "reason"] None []
          [(mkrule "self.type != 'Reporting' || (self.status == 'True' ? self.reason in ['NodeReporting'] : self.reason in ['NodeNotReporting', 'AnnotationMalformed', 'SchemaUnsupported', 'AnnotationTooLarge'])"
  (COr (CNe (Field Self "type") (LitS "Reporting")) (Paren (CIf (CEq (Field Self "status") (LitS "True")) (CIn (Field Self "reason") ["NodeReporting"]) (CIn (Field Self "reason") ["NodeNotReporting"; "AnnotationMalformed"; "SchemaUnsupported"; "AnnotationTooLarge"])))));
          (mkrule "self.type != 'PolicyRejected' || (self.status == 'True' ? self.reason in ['PolicyInvalid', 'MergedLadderInverted'] : self.reason in ['PolicyAccepted'])"
  (COr (CNe (Field Self "type") (LitS "PolicyRejected")) (Paren (CIf (CEq (Field Self "status") (LitS "True")) (CIn (Field Self "reason") ["PolicyInvalid"; "MergedLadderInverted"]) (CIn (Field Self "reason") ["PolicyAccepted"])))));
          (mkrule "self.type != 'PolicyClamped' || (self.status == 'True' ? self.reason in ['FieldsClamped'] : self.reason in ['NoFieldsClamped'])"
  (COr (CNe (Field Self "type") (LitS "PolicyClamped")) (Paren (CIf (CEq (Field Self "status") (LitS "True")) (CIn (Field Self "reason") ["FieldsClamped"]) (CIn (Field Self "reason") ["NoFieldsClamped"])))));
          (mkrule "self.type != 'PolicyConflict' || (self.status == 'True' ? self.reason in ['MultiplePolicies'] : self.reason in ['SinglePolicy'])"
  (COr (CNe (Field Self "type") (LitS "PolicyConflict")) (Paren (CIf (CEq (Field Self "status") (LitS "True")) (CIn (Field Self "reason") ["MultiplePolicies"]) (CIn (Field Self "reason") ["SinglePolicy"])))))].

Definition nodeBudget_compressor : schema :=
  SObject [("bytesUsed", count64);
          ("bytesStored", count64);
          ("segmentLimitBytes", count64)]
          None [] None []
          [].

Definition nodeBudget_darwin : schema :=
  SObject [("vmPressureLevel", count64);
        ("memorystatusLevelPermille", SInteger "int64" (Some 0) (Some 1000));
        ("compressor", nodeBudget_compressor);
        ("swapinsTotal", count64);
        ("swapoutsTotal", count64)]
        None [] None []
        [].

Definition nodeBudget_psi_cpu : schema :=
  SObject [("some", SObject [("avg10Permille", SInteger "int64" (Some 0) (Some 1000));
              ("avg60Permille", SInteger "int64" (Some 0) (Some 1000));
              ("totalUs", count64)]
              None [] None []
              []);
            ("full", SObject [("avg10Permille", SInteger "int64" (Some 0) (Some 1000));
              ("avg60Permille", SInteger "int64" (Some 0) (Some 1000));
              ("totalUs", count64)]
              None [] None []
              [])]
            None [] None []
            [].

Definition nodeBudget_psi_memory : schema :=
  SObject [("some", SObject [("avg10Permille", SInteger "int64" (Some 0) (Some 1000));
              ("avg60Permille", SInteger "int64" (Some 0) (Some 1000));
              ("totalUs", count64)]
              None [] None []
              []);
            ("full", SObject [("avg10Permille", SInteger "int64" (Some 0) (Some 1000));
              ("avg60Permille", SInteger "int64" (Some 0) (Some 1000));
              ("totalUs", count64)]
              None [] None []
              [])]
            None [] None []
            [].

Definition nodeBudget_psi_io : schema :=
  SObject [("some", SObject [("avg10Permille", SInteger "int64" (Some 0) (Some 1000));
              ("avg60Permille", SInteger "int64" (Some 0) (Some 1000));
              ("totalUs", count64)]
              None [] None []
              []);
            ("full", SObject [("avg10Permille", SInteger "int64" (Some 0) (Some 1000));
              ("avg60Permille", SInteger "int64" (Some 0) (Some 1000));
              ("totalUs", count64)]
              None [] None []
              [])]
            None [] None []
            [].

Definition nodeBudget_psi : schema :=
  SObject [("cpu", nodeBudget_psi_cpu);
          ("memory", nodeBudget_psi_memory);
          ("io", nodeBudget_psi_io)]
          None [] None []
          [].

Definition nodeBudget_memoryEvents : schema :=
  SObject [("high", count64);
          ("max", count64);
          ("oom", count64);
          ("oomKill", count64)]
          None [] None []
          [].

Definition nodeBudget_linux : schema :=
  SObject [("psi", nodeBudget_psi);
        ("memoryEvents", nodeBudget_memoryEvents)]
        None [] None []
        [].

Definition nodeBudget_status : schema :=
  SObject [("observedAt", date_time_text);
      ("producerGeneration", count64);
      ("platform", enum ["darwin"; "linux"]);
      ("level", enum ["ok"; "warn"; "critical"; "evicting"]);
      ("admit", SBoolean []);
      ("admitReasonSignal", enum ["memory.available"; "memory.compressor"; "memory.swap"; "swapfs.available"; "nodefs.available"; "imagefs.available"; "pid.available"]);
      ("evictDeadline", date_time_text);
      ("capacity", nodeBudget_capacity);
      ("signals", SArray (nodeBudget_signal) None (Some 8) (ListMap ["id"]));
      ("recommendation", nodeBudget_recommendation);
      ("killMode", nodeBudget_killMode);
      ("wouldKill", nodeBudget_wouldKill);
      ("counters", SArray (nodeBudget_counters) None (Some 3) (ListMap ["band"]));
      ("policy", nodeBudget_policy);
      ("inForce", nodeBudget_inForce);
      ("writer", nodeBudget_writer);
      ("conditions", SArray (nodeBudget_condition) None (Some 8) (ListMap ["type"]));
      ("darwin", nodeBudget_darwin);
      ("linux", nodeBudget_linux)]
      None [] None []
      [(mkrule "!has(self.level) || (has(self.darwin) != has(self.linux))"
  (COr (CNot (Has Self "level")) (Paren (CNe (Has Self "darwin") (Has Self "linux")))));
      (mkrule "!has(self.level) || has(self.platform)"
  (COr (CNot (Has Self "level")) (Has Self "platform")));
      (mkrule "!has(self.platform) || (self.platform == 'darwin' ? !has(self.linux) : !has(self.darwin))"
  (COr (CNot (Has Self "platform")) (Paren (CIf (CEq (Field Self "platform") (LitS "darwin")) (CNot (Has Self "linux")) (CNot (Has Self "darwin"))))));
      (mkrule "!has(self.policy) || self.policy.outcome == 'rejected' || (has(self.inForce) && self.inForce.name == self.policy.name && (has(self.inForce.resourceVersion) ? has(self.policy.resourceVersion) && self.inForce.resourceVersion == self.policy.resourceVersion : !has(self.policy.resourceVersion)))"
  (COr (CNot (Has Self "policy")) (COr (CEq (Field (Field Self "policy") "outcome") (LitS "rejected")) (Paren (CAnd (Has Self "inForce") (CAnd (CEq (Field (Field Self "inForce") "name") (Field (Field Self "policy") "name")) (Paren (CIf (Has (Field Self "inForce") "resourceVersion") (CAnd (Has (Field Self "policy") "resourceVersion") (CEq (Field (Field Self "inForce") "resourceVersion") (Field (Field Self "policy") "resourceVersion"))) (CNot (Has (Field Self "policy") "resourceVersion"))))))))))].

Definition nodeBudgetCRDYAML : manifest :=
  mkmanifest "nodebudgets.budget.k3sm.io" "budget.k3sm.io" "Cluster" "NodeBudget" "NodeBudgetList" "nodebudgets" "nodebudget"
  [mkversion "v1alpha1" true true true
   (SObject [("apiVersion", text);
    ("kind", text);
    ("metadata", SObject []
      None [] None []
      []);
    ("status", nodeBudget_status)]
    None [] None []
    [])].

(** ** budget.k3sm.io_nodebudgetpolicies.yaml *)
Definition nodeBudgetPolicy_threshold : schema :=
  SObject [("signal", enum ["memory.available"; "memory.compressor"; "memory.swap"; "swapfs.available"; "nodefs.available"; "imagefs.available"; "pid.available"]);
          ("warnThreshold", count64);
          ("admitStopThreshold", count64);
          ("criticalThreshold", count64);
          ("evictSoftThreshold", count64);
          ("evictHardThreshold", count64);
          ("warnRelease", count64);
          ("admitStopRelease", count64);
          ("criticalRelease", count64);
          ("evictSoftRelease", count64);
          ("evictHardRelease", count64);
          ("graceSeconds", count64);
          ("minReclaimBytes", count64);
          ("dwellSeconds", count64);
          ("windowSeconds", count64)]
          None ["signal"] None []
          [(mkrule "!has(self.warnThreshold) || !has(self.admitStopThreshold) || (self.signal.endsWith('.available') ? self.warnThreshold > self.admitStopThreshold : self.warnThreshold < self.admitStopThreshold)"
  (COr (CNot (Has Self "warnThreshold")) (COr (CNot (Has Self "admitStopThreshold")) (Paren (CIf (EndsWith (Field Self "signal") ".available") (CGt (Field Self "warnThreshold") (Field Self "admitStopThreshold")) (CLt (Field Self "warnThreshold") (Field Self "admitStopThreshold")))))));
          (mkrule "!has(self.warnThreshold) || !has(self.criticalThreshold) || (self.signal.endsWith('.available') ? self.warnThreshold > self.criticalThreshold : self.warnThreshold < self.criticalThreshold)"
  (COr (CNot (Has Self "warnThreshold")) (COr (CNot (Has Self "criticalThreshold")) (Paren (CIf (EndsWith (Field Self "signal") ".available") (CGt (Field Self "warnThreshold") (Field Self "criticalThreshold")) (CLt (Field Self "warnThreshold") (Field Self "criticalThreshold")))))));
          (mkrule "!has(self.warnThreshold) || !has(self.evictSoftThreshold) || (self.signal.endsWith('.available') ? self.warnThreshold > self.evictSoftThreshold : self.warnThreshold < self.evictSoftThreshold)"
  (COr (CNot (Has Self "warnThreshold")) (COr (CNot (Has Self "evictSoftThreshold")) (Paren (CIf (EndsWith (Field Self "signal") ".available") (CGt (Field Self "warnThreshold") (Field Self "evictSoftThreshold")) (CLt (Field Self "warnThreshold") (Field Self "evictSoftThreshold")))))));
          (mkrule "!has(self.warnThreshold) || !has(self.evictHardThreshold) || (self.signal.endsWith('.available') ? self.warnThreshold > self.evictHardThreshold : self.warnThreshold < self.evictHardThreshold)"
  (COr (CNot (Has Self "warnThreshold")) (COr (CNot (Has Self "evictHardThreshold")) (Paren (CIf (EndsWith (Field Self "signal") ".available") (CGt (Field Self "warnThreshold") (Field Self "evictHardThreshold")) (CLt (Field Self "warnThreshold") (Field Self "evictHardThreshold")))))));
          (mkrule "!has(self.admitStopThreshold) || !has(self.criticalThreshold) || (self.signal.endsWith('.available') ? self.admitStopThreshold > self.criticalThreshold : self.admitStopThreshold < self.criticalThreshold)"
  (COr (CNot (Has Self "admitStopThreshold")) (COr (CNot (Has Self "criticalThreshold")) (Paren (CIf (EndsWith (Field Self "signal") ".available") (CGt (Field Self "admitStopThreshold") (Field Self "criticalThreshold")) (CLt (Field Self "admitStopThreshold") (Field Self "criticalThreshold")))))));
          (mkrule "!has(self.admitStopThreshold) || !has(self.evictSoftThreshold) || (self.signal.endsWith('.available') ? self.admitStopThreshold > self.evictSoftThreshold : self.admitStopThreshold < self.evictSoftThreshold)"
  (COr (CNot (Has Self "admitStopThreshold")) (COr (CNot (Has Self "evictSoftThreshold")) (Paren (CIf (EndsWith (Field Self "signal") ".available") (CGt (Field Self "admitStopThreshold") (Field Self "evictSoftThreshold")) (CLt (Field Self "admitStopThreshold") (Field Self "evictSoftThreshold")))))));
          (mkrule "!has(self.admitStopThreshold) || !has(self.evictHardThreshold) || (self.signal.endsWith('.available') ? self.admitStopThreshold > self.evictHardThreshold : self.admitStopThreshold < self.evictHardThreshold)"
  (COr (CNot (Has Self "admitStopThreshold")) (COr (CNot (Has Self "evictHardThreshold")) (Paren (CIf (EndsWith (Field Self "signal") ".available") (CGt (Field Self "admitStopThreshold") (Field Self "evictHardThreshold")) (CLt (Field Self "admitStopThreshold") (Field Self "evictHardThreshold")))))));
          (mkrule "!has(self.criticalThreshold) || !has(self.evictSoftThreshold) || (self.signal.endsWith('.available') ? self.criticalThreshold > self.evictSoftThreshold : self.criticalThreshold < self.evictSoftThreshold)"
  (COr (CNot (Has Self "criticalThreshold")) (COr (CNot (Has Self "evictSoftThreshold")) (Paren (CIf (EndsWith (Field Self "signal") ".available") (CGt (Field Self "criticalThreshold") (Field Self "evictSoftThreshold")) (CLt (Field Self "criticalThreshold") (Field Self "evictSoftThreshold")))))));
          (mkrule "!has(self.criticalThreshold) || !has(self.evictHardThreshold) || (self.signal.endsWith('.available') ? self.criticalThreshold > self.evictHardThreshold : self.criticalThreshold < self.evictHardThreshold)"
  (COr (CNot (Has Self "criticalThreshold")) (COr (CNot (Has Self "evictHardThreshold")) (Paren (CIf (EndsWith (Field Self "signal") ".available") (CGt (Field Self "criticalThreshold") (Field Self "evictHardThreshold")) (CLt (Field Self "criticalThreshold") (Field Self "evictHardThreshold")))))));
          (mkrule "!has(self.evictSoftThreshold) || !has(self.evictHardThreshold) || (self.signal.endsWith('.available') ? self.evictSoftThreshold > self.evictHardThreshold : self.evictSoftThreshold < self.evictHardThreshold)"
  (COr (CNot (Has Self "evictSoftThreshold")) (COr (CNot (Has Self "evictHardThreshold")) (Paren (CIf (EndsWith (Field Self "signal") ".available") (CGt (Field Self "evictSoftThreshold") (Field Self "evictHardThreshold")) (CLt (Field Self "evictSoftThreshold") (Field Self "evictHardThreshold")))))));
          (mkrule "!has(self.warnThreshold) || !has(self.warnRelease) || (self.signal.endsWith('.available') ? self.warnRelease > self.warnThreshold : self.warnRelease < self.warnThreshold)"
  (COr (CNot (Has Self "warnThreshold")) (COr (CNot (Has Self "warnRelease")) (Paren (CIf (EndsWith (Field Self "signal") ".available") (CGt (Field Self "warnRelease") (Field Self "warnThreshold")) (CLt (Field Self "warnRelease") (Field Self "warnThreshold")))))));
          (mkrule "!has(self.admitStopThreshold) || !has(self.admitStopRelease) || (self.signal.endsWith('.available') ? self.admitStopRelease > self.admitStopThreshold : self.admitStopRelease < self.admitStopThreshold)"
  (COr (CNot (Has Self "admitStopThreshold")) (COr (CNot (Has Self "admitStopRelease")) (Paren (CIf (EndsWith (Field Self "signal") ".available") (CGt (Field Self "admitStopRelease") (Field Self "admitStopThreshold")) (CLt (Field Self "admitStopRelease") (Field Self "admitStopThreshold")))))));
          (mkrule "!has(self.criticalThreshold) || !has(self.criticalRelease) || (self.signal.endsWith('.available') ? self.criticalRelease > self.criticalThreshold : self.criticalRelease < self.criticalThreshold)"
  (COr (CNot (Has Self "criticalThreshold")) (COr (CNot (Has Self "criticalRelease")) (Paren (CIf (EndsWith (Field Self "signal") ".available") (CGt (Field Self "criticalRelease") (Field Self "criticalThreshold")) (CLt (Field Self "criticalRelease") (Field Self "criticalThreshold")))))));
          (mkrule "!has(self.evictSoftThreshold) || !has(self.evictSoftRelease) || (self.signal.endsWith('.available') ? self.evictSoftRelease > self.evictSoftThreshold : self.evictSoftRelease < self.evictSoftThreshold)"
  (COr (CNot (Has Self "evictSoftThreshold")) (COr (CNot (Has Self "evictSoftRelease")) (Paren (CIf (EndsWith (Field Self "signal") ".available") (CGt (Field Self "evictSoftRelease") (Field Self "evictSoftThreshold")) (CLt (Field Self "evictSoftRelease") (Field Self "evictSoftThreshold")))))));
          (mkrule "!has(self.evictHardThreshold) || !has(self.evictHardRelease) || (self.signal.endsWith('.available') ? self.evictHardRelease > self.evictHardThreshold : self.evictHardRelease < self.evictHardThreshold)"
  (COr (CNot (Has Self "evictHardThreshold")) (COr (CNot (Has Self "evictHardRelease")) (Paren (CIf (EndsWith (Field Self "signal") ".available") (CGt (Field Self "evictHardRelease") (Field Self "evictHardThreshold")) (CLt (Field Self "evictHardRelease") (Field Self "evictHardThreshold")))))));
          (mkrule "self.signal != 'memory.swap' || !has(self.evictSoftThreshold)"
  (COr (CNe (Field Self "signal") (LitS "memory.swap")) (CNot (Has Self "evictSoftThreshold"))))].

Definition nodeBudgetPolicy_reserves : schema :=
  SObject [("cpuSystemReserveMilli", count64);
        ("memSystemReserveBytes", count64);
        ("memEvictionReserveBytes", count64)]
        None [] None []
        [].

Definition nodeBudgetPolicy_history : schema :=
  SObject [("memoryHalfLifeSeconds", SInteger "int64" (Some 1) None);
        ("cpuHalfLifeSeconds", SInteger "int64" (Some 1) None);
        ("marginPermille", SInteger "int32" (Some 0) (Some 1000))]
        None [] None []
        [].

Definition nodeBudgetPolicy_spec : schema :=
  SObject [("nodeSelector", SObject []
        (Some (SString (mkstrings [] None (Some 63) None "")
          [])) [] (Some 32) []
        []);
      ("priority", SInteger "int32" None None);
      ("thresholds", SArray (nodeBudgetPolicy_threshold) None (Some 8) (ListMap ["signal"]));
      ("reserves", nodeBudgetPolicy_reserves);
      ("history", nodeBudgetPolicy_history);
      ("mode", enum ["auto"; "on"; "off"]);
      ("tier1GraceSeconds", SInteger "int64" (Some 10) None);
      ("tier1HeldSeconds", SInteger "int64" (Some 10) None);
      ("tier1MaxDeliveriesPerHour", SInteger "int32" (Some 1) (Some 6));
      ("tier1CooloffSeconds", SInteger "int64" (Some 300) None);
      ("psiHeldPermille", SInteger "int32" (Some 0) (Some 1000))]
      None [] None []
      [].

Definition nodeBudgetPolicyCRDYAML : manifest :=
  mkmanifest "nodebudgetpolicies.budget.k3sm.io" "budget.k3sm.io" "Cluster" "NodeBudgetPolicy" "NodeBudgetPolicyList" "nodebudgetpolicies" "nodebudgetpolicy"
  [mkversion "v1alpha1" true true false
   (SObject [("apiVersion", text);
    ("kind", text);
    ("metadata", SObject []
      None [] None []
      []);
    ("spec", nodeBudgetPolicy_spec)]
    None ["spec"] None []
    [])].

(** ** The transcription *)
Definition manifests : list manifest :=
  [mlxModelCRDYAML; meshPeerCRDYAML; interconnectCRDYAML; helmChartCRDYAML; helmChartConfigCRDYAML; updateCRDYAML; updatePolicyCRDYAML; nodeBudgetCRDYAML; nodeBudgetPolicyCRDYAML].

Fixpoint rules_of (s : schema) : list rule :=
  match s with
  | SObject props addl _ _ _ rules =>
      rules ++ (fix go ps := match ps with [] => [] | (_, s') :: ps' => rules_of s' ++ go ps' end) props ++
      match addl with Some a => rules_of a | None => [] end
  | SArray items _ _ _ => rules_of items
  | SString _ rules | SBoolean rules => rules
  | _ => []
  end.
Fixpoint patterns_of (s : schema) : list string :=
  match s with
  | SObject props addl _ _ _ _ =>
      (fix go ps := match ps with [] => [] | (_, s') :: ps' => patterns_of s' ++ go ps' end) props ++
      match addl with Some a => patterns_of a | None => [] end
  | SArray items _ _ _ => patterns_of items
  | SString c _ => match c.(st_pattern) with Some p => [p] | None => [] end
  | SIntOrString (Some p) => [p]
  | _ => []
  end.
Definition schemas : list schema := ver_schema <$> (manifests ≫= crd_versions).
Lemma rules_transcribed : forallb (fun r => String.eqb (cel_show r.(rule_cel)) r.(rule_text)) (schemas ≫= rules_of) = true.
Proof. vm_compute. reflexivity. Qed.
Lemma patterns_known : forallb (fun p => bool_decide (is_Some (lookup_key p patterns))) (schemas ≫= patterns_of) = true.
Proof. vm_compute. reflexivity. Qed.
