(* ===== verification/ApiJSON.v ===== *)
(** * The JSON form of the API types

    [encoding/json] on the struct types of the served objects: a descriptor
    gives each field its name and tag options, a Go value is a tree, and
    [encode] is [json.Marshal]. *)
From S2P Require Import Prelude GoLib CrdSchema BudgetTypes.
Set Warnings "-register-all".

(** ** Types *)
Inductive tag := Always | OmitEmpty | OmitZero.
Inductive jty :=
| TString
| TInt32
| TInt64
| TBool
| TTime                                   (* metav1.Time: null when zero *)
| TText                                   (* Quantity and Duration: a string *)
| TIntOrString
| TMapOf (t : jty)
| TSliceOf (t : jty)
| TPtrTo (t : jty)
| TStructOf (fs : list (string * tag * jty)).
Abbreviation jfields := (list (string * tag * jty)).

(** ** Values *)
Inductive gval :=
| GStr (s : string)
| GInt (z : Z)
| GBool (b : bool)
| GTime (t : Time)
| GNil                                    (* a nil pointer, slice or map *)
| GPtr (v : gval)
| GSlice (vs : list gval)
| GMap (ms : list (string * gval))
| GStruct (vs : list gval).               (* the fields in order *)

(** A value of a type. *)
Fixpoint has (t : jty) (v : gval) : Prop :=
  match t, v with
  | TString, GStr _ | TText, GStr _ | TIntOrString, GStr _ => True
  | TInt32, GInt z | TIntOrString, GInt z => in_i32 z
  | TInt64, GInt z => in_i64 z
  | TBool, GBool _ => True
  | TTime, GTime _ => True
  | TMapOf _, GNil | TSliceOf _, GNil | TPtrTo _, GNil => True
  | TMapOf t, GMap ms => Forall (fun kv => has t kv.2) ms
  | TSliceOf t, GSlice vs => Forall (has t) vs
  | TPtrTo t, GPtr v => has t v
  | TStructOf fs, GStruct vs =>
      (fix go fs vs := match fs, vs with
         | [], [] => True
         | (_, t) :: fs', v :: vs' => has t v /\ go fs' vs'
         | _, _ => False
         end) fs vs
  | _, _ => False
  end.

(** What omitempty and omitzero leave out. *)
Definition is_empty (v : gval) : bool :=
  match v with
  | GStr s => String.eqb s ""
  | GInt z => z =? 0
  | GBool b => negb b
  | GNil | GSlice [] | GMap [] => true
  | _ => false
  end.
Fixpoint is_zero (v : gval) : bool :=
  match v with
  | GStr s => String.eqb s ""
  | GInt z => z =? 0
  | GBool b => negb b
  | GTime t => Time_IsZero t
  | GNil => true
  | GStruct vs => forallb is_zero vs
  | _ => false
  end.
Definition omitted (g : tag) (v : gval) : bool :=
  match g with Always => false | OmitEmpty => is_empty v | OmitZero => is_zero v end.

Section Encode.
(** The RFC 3339 text of a time. *)
Context (time_text : Time -> string).

Fixpoint encode (v : gval) (t : jty) : jv :=
  match v, t with
  | GStr s, _ => JStr s
  | GInt z, _ => JInt z
  | GBool b, _ => JBool b
  | GTime t, _ => if Time_IsZero t then JNull else JStr (time_text t)
  | GPtr v, TPtrTo t => encode v t
  | GSlice vs, TSliceOf t => JArr (map (fun v => encode v t) vs)
  | GMap ms, TMapOf t => JObj (map (fun kv => (kv.1, encode kv.2 t)) ms)
  | GStruct vs, TStructOf fs =>
      JObj ((fix go vs fs := match vs, fs with
               | v :: vs', (n, g, t) :: fs' => if omitted g v then go vs' fs' else (n, encode v t) :: go vs' fs'
               | _, _ => []
               end) vs fs)
  | _, _ => JNull
  end.
End Encode.

(** ** The struct tags *)
(** [metav1.Condition]. *)
Definition jf_Condition : jfields :=
  [("type", Always, TString); ("status", Always, TString); ("observedGeneration", OmitEmpty, TInt64);
   ("lastTransitionTime", Always, TTime); ("reason", Always, TString); ("message", Always, TString)].
(** net/v1 *)
Definition jf_EndpointCandidate : jfields :=
  [("address", Always, TString); ("link", Always, TString)].
Definition jf_MeshPeerSpec : jfields :=
  [("schemaVersion", Always, TInt32); ("nodeName", Always, TString); ("publicKey", Always, TString);
    ("endpoint", Always, TString); ("endpoints", OmitEmpty, TSliceOf (TStructOf jf_EndpointCandidate));
    ("podCIDR", Always, TString); ("allowedIPs", Always, TSliceOf TString); ("meshIP", OmitEmpty, TString);
    ("persistentKeepaliveSeconds", OmitEmpty, TInt32)].
Definition jf_MeshPeerStatus : jfields :=
  [("lastHandshakeTime", OmitEmpty, TPtrTo TTime); ("reachable", OmitEmpty, TBool);
    ("observedSchemaVersion", OmitEmpty, TInt32)].
(** net/v1alpha1 *)
Definition jf_InterconnectSpec : jfields :=
  [("medium", Always, TString); ("fallback", OmitEmpty, TString); ("enabled", OmitEmpty, TBool);
    ("excludedNodes", OmitEmpty, TSliceOf TString); ("allowedNamespaces", OmitEmpty, TSliceOf TString)].
Definition jf_InterconnectMember : jfields :=
  [("node", Always, TString); ("index", Always, TInt32); ("address", OmitEmpty, TString);
    ("state", Always, TString); ("speedGbps", OmitEmpty, TInt32); ("segment", OmitEmpty, TString);
    ("reachablePeers", OmitEmpty, TSliceOf TString); ("lastTransition", OmitEmpty, TPtrTo TTime)].
Definition jf_InterconnectSegment : jfields :=
  [("id", Always, TString); ("nodes", OmitEmpty, TSliceOf TString)].
Definition jf_InterconnectStatus : jfields :=
  [("members", OmitEmpty, TSliceOf (TStructOf jf_InterconnectMember));
    ("segments", OmitEmpty, TSliceOf (TStructOf jf_InterconnectSegment)); ("attachedPods", OmitEmpty, TInt32);
    ("armedBy", OmitEmpty, TString); ("armedAt", OmitEmpty, TPtrTo TTime);
    ("conditions", OmitEmpty, TSliceOf (TStructOf jf_Condition))].
(** updates/v1alpha1 *)
Definition jf_UpdateStrategy : jfields :=
  [("order", OmitEmpty, TString); ("maxUnavailable", OmitEmpty, TInt32); ("drain", OmitEmpty, TBool)].
Definition jf_UpdateVerify : jfields :=
  [("signature", OmitEmpty, TString)].
Definition jf_UpdateSpec : jfields :=
  [("version", Always, TString); ("strategy", OmitEmpty, TStructOf jf_UpdateStrategy);
    ("verify", OmitEmpty, TStructOf jf_UpdateVerify); ("allowDowngrade", OmitEmpty, TBool);
    ("cancel", OmitEmpty, TBool)].
Definition jf_UpdateNodeStatus : jfields :=
  [("name", Always, TString); ("from", OmitEmpty, TString); ("to", OmitEmpty, TString);
    ("phase", OmitEmpty, TString); ("message", OmitEmpty, TString); ("adminTokenRotated", OmitEmpty, TBool);
    ("startedAt", OmitEmpty, TPtrTo TTime); ("finishedAt", OmitEmpty, TPtrTo TTime)].
Definition jf_UpdateResolved : jfields :=
  [("version", OmitEmpty, TString); ("digest", OmitEmpty, TString)].
Definition jf_UpdateStatus : jfields :=
  [("phase", OmitEmpty, TString); ("resolved", OmitEmpty, TPtrTo (TStructOf jf_UpdateResolved));
    ("nodes", OmitEmpty, TSliceOf (TStructOf jf_UpdateNodeStatus));
    ("conditions", OmitEmpty, TSliceOf (TStructOf jf_Condition)); ("observedGeneration", OmitEmpty, TInt64)].
Definition jf_UpdatePolicySpec : jfields :=
  [("channel", OmitEmpty, TString)].
(** mlx/v1alpha1 *)
Definition jf_ArtifactRef : jfields :=
  [("reference", Always, TString); ("variant", OmitEmpty, TString)].
Definition jf_MLXRuntime : jfields :=
  [("image", OmitEmpty, TString); ("args", OmitEmpty, TSliceOf TString)].
Definition jf_MLXCache : jfields :=
  [("size", Always, TText); ("storageClassName", OmitEmpty, TString)].
Definition jf_MLXDistributed : jfields :=
  [("ranks", OmitEmpty, TInt32); ("backend", OmitEmpty, TString); ("parallelism", OmitEmpty, TString);
    ("interconnect", OmitEmpty, TString)].
Definition jf_MLXModelSpec : jfields :=
  [("model", OmitEmpty, TString); ("artifact", OmitEmpty, TPtrTo (TStructOf jf_ArtifactRef));
    ("revision", OmitEmpty, TString); ("quantization", OmitEmpty, TString); ("memory", Always, TText);
    ("replicas", OmitEmpty, TPtrTo TInt32); ("port", OmitEmpty, TInt32);
    ("runtime", OmitEmpty, TStructOf jf_MLXRuntime); ("cache", OmitEmpty, TPtrTo (TStructOf jf_MLXCache));
    ("nodeSelector", OmitEmpty, TMapOf TString); ("distributed", OmitEmpty, TPtrTo (TStructOf jf_MLXDistributed))].
Definition jf_MLXModelStatus : jfields :=
  [("conditions", OmitEmpty, TSliceOf (TStructOf jf_Condition)); ("observedGeneration", OmitEmpty, TInt64);
    ("phase", OmitEmpty, TString); ("endpoint", OmitEmpty, TString); ("resolvedRevision", OmitEmpty, TString);
    ("resolvedArtifact", OmitEmpty, TString); ("replicas", OmitEmpty, TInt32);
    ("readyReplicas", OmitEmpty, TInt32); ("updatedReplicas", OmitEmpty, TInt32)].
(** helm/v1 *)
Definition jf_HelmChartSpec : jfields :=
  [("chart", OmitEmpty, TString); ("repo", OmitEmpty, TString); ("version", OmitEmpty, TString);
    ("targetNamespace", OmitEmpty, TString); ("createNamespace", OmitEmpty, TBool);
    ("valuesContent", OmitEmpty, TString); ("set", OmitEmpty, TMapOf TIntOrString);
    ("chartContent", OmitEmpty, TString); ("timeout", OmitEmpty, TPtrTo TText); ("bootstrap", OmitEmpty, TBool);
    ("backOffLimit", OmitEmpty, TPtrTo TInt32); ("failurePolicy", OmitEmpty, TString);
    ("forceConflicts", OmitEmpty, TBool); ("takeOwnership", OmitEmpty, TBool)].
Definition jf_HelmChartCondition : jfields :=
  [("type", Always, TString); ("status", Always, TString); ("lastUpdateTime", OmitEmpty, TTime);
    ("lastTransitionTime", OmitEmpty, TTime); ("reason", OmitEmpty, TString); ("message", OmitEmpty, TString)].
Definition jf_HelmChartStatus : jfields :=
  [("jobName", OmitEmpty, TString); ("conditions", OmitEmpty, TSliceOf (TStructOf jf_HelmChartCondition))].
Definition jf_HelmChartConfigSpec : jfields :=
  [("valuesContent", OmitEmpty, TString); ("failurePolicy", OmitEmpty, TString);
    ("forceConflicts", OmitEmpty, TBool)].
(** budget/v1alpha1 *)
Definition jf_BudgetCapacity : jfields :=
  [("cpuCapacityMilli", OmitEmpty, TPtrTo TInt64); ("cpuSystemReserveMilli", OmitEmpty, TPtrTo TInt64);
    ("memCapacityBytes", OmitEmpty, TPtrTo TInt64); ("memSystemReserveBytes", OmitEmpty, TPtrTo TInt64);
    ("memEvictionReserveBytes", OmitEmpty, TPtrTo TInt64); ("memAllocatableBytes", OmitEmpty, TPtrTo TInt64);
    ("swapTotalBytes", OmitEmpty, TPtrTo TInt64); ("swapUsedBytes", OmitEmpty, TPtrTo TInt64);
    ("cpuPerformanceCores", OmitEmpty, TPtrTo TInt64); ("cpuEfficiencyCores", OmitEmpty, TPtrTo TInt64);
    ("gpuPresent", OmitEmpty, TPtrTo TBool); ("gpuCount", OmitEmpty, TPtrTo TInt64)].
Definition jf_BudgetSignal : jfields :=
  [("id", Always, TString); ("unit", Always, TString); ("value", OmitEmpty, TPtrTo TInt64);
    ("warnThreshold", OmitEmpty, TPtrTo TInt64); ("admitStopThreshold", OmitEmpty, TPtrTo TInt64);
    ("criticalThreshold", OmitEmpty, TPtrTo TInt64); ("evictSoftThreshold", OmitEmpty, TPtrTo TInt64);
    ("evictHardThreshold", OmitEmpty, TPtrTo TInt64); ("warnRelease", OmitEmpty, TPtrTo TInt64);
    ("admitStopRelease", OmitEmpty, TPtrTo TInt64); ("criticalRelease", OmitEmpty, TPtrTo TInt64);
    ("evictSoftRelease", OmitEmpty, TPtrTo TInt64); ("evictHardRelease", OmitEmpty, TPtrTo TInt64);
    ("graceSeconds", OmitEmpty, TPtrTo TInt64); ("minReclaimBytes", OmitEmpty, TPtrTo TInt64);
    ("windowSeconds", OmitEmpty, TPtrTo TInt64); ("etaToNextRungSeconds", OmitEmpty, TPtrTo TInt64);
    ("trend", OmitEmpty, TString); ("limitingResource", OmitEmpty, TString); ("sharedWith", OmitEmpty, TString)].
Definition jf_BudgetRecommendation : jfields :=
  [("safeAdditionalBytes", OmitEmpty, TPtrTo TInt64); ("basis", OmitEmpty, TString)].
Definition jf_KillMode : jfields :=
  [("mode", OmitEmpty, TString); ("armed", OmitEmpty, TBool); ("armingEpisodes", OmitEmpty, TInt32);
    ("reason", OmitEmpty, TString)].
Definition jf_WouldKill : jfields :=
  [("band", Always, TString); ("reason", Always, TString); ("at", Always, TTime)].
Definition jf_WindowCount : jfields :=
  [("window", Always, TString); ("reason", Always, TString); ("count", Always, TInt64)].
Definition jf_BandCounters : jfields :=
  [("band", Always, TString); ("evictionsTotal", Always, TInt64); ("oomKillsTotal", Always, TInt64);
    ("kernelKillsTotal", Always, TInt64); ("restartsTotal", Always, TInt64);
    ("memHighEventsTotal", Always, TInt64); ("tier1RefusedTotal", Always, TInt64);
    ("windows", OmitEmpty, TSliceOf (TStructOf jf_WindowCount))].
Definition jf_PolicyRef : jfields :=
  [("name", Always, TString); ("resourceVersion", OmitEmpty, TString)].
Definition jf_AppliedPolicy : jfields :=
  jf_PolicyRef ++
  [("outcome", Always, TString); ("clampedFields", OmitEmpty, TSliceOf TString)].
Definition jf_BudgetWriter : jfields :=
  [("shape", Always, TString); ("nodeNameExtra", OmitEmpty, TBool)].
Definition jf_DarwinCompressor : jfields :=
  [("bytesUsed", OmitEmpty, TPtrTo TInt64); ("bytesStored", OmitEmpty, TPtrTo TInt64);
    ("segmentLimitBytes", OmitEmpty, TPtrTo TInt64)].
Definition jf_DarwinSignals : jfields :=
  [("vmPressureLevel", OmitEmpty, TPtrTo TInt64); ("memorystatusLevelPermille", OmitEmpty, TPtrTo TInt64);
    ("compressor", OmitEmpty, TPtrTo (TStructOf jf_DarwinCompressor)); ("swapinsTotal", OmitEmpty, TPtrTo TInt64);
    ("swapoutsTotal", OmitEmpty, TPtrTo TInt64)].
Definition jf_PSILine : jfields :=
  [("avg10Permille", OmitEmpty, TPtrTo TInt64); ("avg60Permille", OmitEmpty, TPtrTo TInt64);
    ("totalUs", OmitEmpty, TPtrTo TInt64)].
Definition jf_PSIResource : jfields :=
  [("some", OmitEmpty, TPtrTo (TStructOf jf_PSILine)); ("full", OmitEmpty, TPtrTo (TStructOf jf_PSILine))].
Definition jf_LinuxPSI : jfields :=
  [("cpu", OmitEmpty, TPtrTo (TStructOf jf_PSIResource));
    ("memory", OmitEmpty, TPtrTo (TStructOf jf_PSIResource)); ("io", OmitEmpty, TPtrTo (TStructOf jf_PSIResource))].
Definition jf_LinuxMemoryEvents : jfields :=
  [("high", OmitEmpty, TPtrTo TInt64); ("max", OmitEmpty, TPtrTo TInt64); ("oom", OmitEmpty, TPtrTo TInt64);
    ("oomKill", OmitEmpty, TPtrTo TInt64)].
Definition jf_LinuxSignals : jfields :=
  [("psi", OmitEmpty, TPtrTo (TStructOf jf_LinuxPSI));
    ("memoryEvents", OmitEmpty, TPtrTo (TStructOf jf_LinuxMemoryEvents))].
Definition jf_NodeBudgetObservation : jfields :=
  [("observedAt", OmitZero, TTime); ("producerGeneration", OmitEmpty, TInt64); ("platform", OmitEmpty, TString);
    ("level", OmitEmpty, TString); ("admit", OmitEmpty, TBool); ("admitReasonSignal", OmitEmpty, TString);
    ("evictDeadline", OmitEmpty, TPtrTo TTime); ("capacity", OmitZero, TStructOf jf_BudgetCapacity);
    ("signals", OmitEmpty, TSliceOf (TStructOf jf_BudgetSignal));
    ("recommendation", OmitZero, TStructOf jf_BudgetRecommendation);
    ("killMode", OmitZero, TStructOf jf_KillMode); ("wouldKill", OmitEmpty, TPtrTo (TStructOf jf_WouldKill));
    ("counters", OmitEmpty, TSliceOf (TStructOf jf_BandCounters));
    ("policy", OmitEmpty, TPtrTo (TStructOf jf_AppliedPolicy));
    ("inForce", OmitEmpty, TPtrTo (TStructOf jf_PolicyRef));
    ("darwin", OmitEmpty, TPtrTo (TStructOf jf_DarwinSignals));
    ("linux", OmitEmpty, TPtrTo (TStructOf jf_LinuxSignals))].
Definition jf_NodeBudgetStatus : jfields :=
  jf_NodeBudgetObservation ++
  [("writer", OmitEmpty, TPtrTo (TStructOf jf_BudgetWriter));
    ("conditions", OmitEmpty, TSliceOf (TStructOf jf_Condition))].
Definition jf_SignalThresholds : jfields :=
  [("signal", Always, TString); ("warnThreshold", OmitEmpty, TPtrTo TInt64);
    ("admitStopThreshold", OmitEmpty, TPtrTo TInt64); ("criticalThreshold", OmitEmpty, TPtrTo TInt64);
    ("evictSoftThreshold", OmitEmpty, TPtrTo TInt64); ("evictHardThreshold", OmitEmpty, TPtrTo TInt64);
    ("warnRelease", OmitEmpty, TPtrTo TInt64); ("admitStopRelease", OmitEmpty, TPtrTo TInt64);
    ("criticalRelease", OmitEmpty, TPtrTo TInt64); ("evictSoftRelease", OmitEmpty, TPtrTo TInt64);
    ("evictHardRelease", OmitEmpty, TPtrTo TInt64); ("graceSeconds", OmitEmpty, TPtrTo TInt64);
    ("minReclaimBytes", OmitEmpty, TPtrTo TInt64); ("dwellSeconds", OmitEmpty, TPtrTo TInt64);
    ("windowSeconds", OmitEmpty, TPtrTo TInt64)].
Definition jf_BudgetReserves : jfields :=
  [("cpuSystemReserveMilli", OmitEmpty, TPtrTo TInt64); ("memSystemReserveBytes", OmitEmpty, TPtrTo TInt64);
    ("memEvictionReserveBytes", OmitEmpty, TPtrTo TInt64)].
Definition jf_BudgetHistory : jfields :=
  [("memoryHalfLifeSeconds", OmitEmpty, TPtrTo TInt64); ("cpuHalfLifeSeconds", OmitEmpty, TPtrTo TInt64);
    ("marginPermille", OmitEmpty, TPtrTo TInt32)].
Definition jf_NodeBudgetPolicySpec : jfields :=
  [("nodeSelector", OmitEmpty, TMapOf TString); ("priority", OmitEmpty, TInt32);
    ("thresholds", OmitEmpty, TSliceOf (TStructOf jf_SignalThresholds));
    ("reserves", OmitEmpty, TPtrTo (TStructOf jf_BudgetReserves));
    ("history", OmitEmpty, TPtrTo (TStructOf jf_BudgetHistory)); ("mode", OmitEmpty, TString);
    ("tier1GraceSeconds", OmitEmpty, TPtrTo TInt64); ("tier1HeldSeconds", OmitEmpty, TPtrTo TInt64);
    ("tier1MaxDeliveriesPerHour", OmitEmpty, TPtrTo TInt32); ("tier1CooloffSeconds", OmitEmpty, TPtrTo TInt64);
    ("psiHeldPermille", OmitEmpty, TPtrTo TInt32)].

(** *** The pairing messages, exchanged before a node has joined *)
Definition BeaconVersion : Z := 1.
Definition PairVersion : Z := 1.
Definition jf_Beacon : jfields :=
  [("version", Always, TInt32); ("clusterPin", Always, TString); ("nodeName", Always, TString); ("joinPort", Always, TInt32);
    ("pairingOpen", Always, TBool)].
Definition jf_PairRequest : jfields := [("version", Always, TInt32); ("nodeName", Always, TString)].
Definition jf_PairResponse : jfields :=
  [("version", Always, TInt32); ("token", Always, TString); ("serverURL", Always, TString); ("serverLinkIP", Always, TString)].

(** ** The served objects

    What an object holds besides its envelope: [apiVersion] and [kind]
    (metav1.TypeMeta) and [metadata] (metav1.ObjectMeta). *)
Definition jf_MeshPeer : jfields := [("spec", Always, TStructOf jf_MeshPeerSpec); ("status", OmitEmpty, TStructOf jf_MeshPeerStatus)].
Definition jf_Interconnect : jfields :=
  [("spec", Always, TStructOf jf_InterconnectSpec); ("status", OmitEmpty, TStructOf jf_InterconnectStatus)].
Definition jf_Update : jfields := [("spec", Always, TStructOf jf_UpdateSpec); ("status", OmitEmpty, TStructOf jf_UpdateStatus)].
Definition jf_UpdatePolicy : jfields := [("spec", Always, TStructOf jf_UpdatePolicySpec)].
Definition jf_MLXModel : jfields := [("spec", Always, TStructOf jf_MLXModelSpec); ("status", OmitEmpty, TStructOf jf_MLXModelStatus)].
Definition jf_HelmChart : jfields :=
  [("spec", OmitEmpty, TStructOf jf_HelmChartSpec); ("status", OmitEmpty, TStructOf jf_HelmChartStatus)].
Definition jf_HelmChartConfig : jfields := [("spec", OmitEmpty, TStructOf jf_HelmChartConfigSpec)].
Definition jf_NodeBudget : jfields := [("status", OmitEmpty, TStructOf jf_NodeBudgetStatus)].
Definition jf_NodeBudgetPolicy : jfields := [("spec", Always, TStructOf jf_NodeBudgetPolicySpec)].
