(* ===== verification/ApiFits.v ===== *)
(** * The manifests describe the Go types

    The struct tags of a type against the schema of its manifest: the two are
    written by hand, side by side, and a field that only one of them has is
    lost without an error.  [fits] compares them; it is proved to mean that the
    server drops nothing a Go value encodes to and that the Go type has a field
    for everything the server keeps; and it holds for every served type. *)
From S2P Require Import Prelude GoLib CrdSchema CrdManifests BudgetTypes ApiJSON.
Set Warnings "-register-all".

(** ** The comparison *)
Definition field_names (fs : jfields) : list string := (fun f => f.1.1) <$> fs.
Definition always (fs : jfields) : list string := field_names (List.filter (fun f => match f.1.2 with Always => true | _ => false end) fs).
Fixpoint fits (t : jty) (s : schema) {struct t} : bool :=
  match t, s with
  | TString, SString _ _ | TText, SString _ _ | TText, SIntOrString _ | TIntOrString, SIntOrString _ => true
  | TInt32, SInteger _ _ _ => true
  | TInt64, SInteger f _ _ => negb (String.eqb f "int32")
  | TBool, SBoolean _ => true
  | TTime, SString c _ => String.eqb c.(st_format) "date-time"
  | TMapOf t, SObject [] (Some a) [] _ _ _ => fits t a
  | TSliceOf t, SArray items _ _ _ => fits t items
  | TPtrTo t, _ => fits t s
  | TStructOf fs, SObject props None required _ _ _ =>
      bool_decide (NoDup (field_names fs)) &&
      bool_decide (props.*1 ⊆ field_names fs) && bool_decide (required ⊆ always fs) &&
      (fix go fs := match fs with
         | [] => true
         | (n, _, t) :: fs' => match lookup_key n props with Some s' => fits t s' | None => false end && go fs'
         end) fs
  | _, _ => false
  end.

(** ** What it means *)

(** A value of the schema's types with no unknown and every required field,
    null standing for an absent value. *)
Fixpoint shaped (s : schema) (v : jv) {struct s} : bool :=
  is_null v ||
  match s, v with
  | SObject props addl required _ _ _, JObj ms =>
      forallb (fun k => bool_decide (k ∈ ms.*1)) required &&
      forallb (fun kv =>
        (fix go ps := match ps with
           | [] => match addl with Some a => shaped a kv.2 | None => false end
           | (k, s') :: ps' => if String.eqb kv.1 k then shaped s' kv.2 else go ps'
           end) props) ms
  | SArray items _ _ _, JArr vs => forallb (shaped items) vs
  | SString _ _, JStr _ => true
  | SInteger format _ _, JInt z => format_range format z
  | SBoolean _, JBool _ => true
  | SIntOrString _, JInt _ | SIntOrString _, JStr _ => true
  | _, _ => false
  end.

(** A value without the null members of its objects. *)
Fixpoint strip (v : jv) : jv :=
  match v with
  | JArr vs => JArr (map strip vs)
  | JObj ms => JObj (omap (fun kv => if is_null kv.2 then None else Some (kv.1, strip kv.2)) ms)
  | _ => v
  end.

(** A value the Go type has a field for at every member. *)
Fixpoint known (t : jty) (v : jv) {struct t} : bool :=
  match t, v with
  | TPtrTo t, _ => known t v
  | TSliceOf t, JArr vs => forallb (known t) vs
  | TMapOf t, JObj ms => forallb (fun kv => known t kv.2) ms
  | TStructOf fs, JObj ms =>
      forallb (fun kv =>
        (fix go fs := match fs with
           | [] => false
           | (n, _, t) :: fs' => if String.eqb kv.1 n then known t kv.2 else go fs'
           end) fs) ms
  | _, _ => true
  end.

(** ** Induction *)
Section Induction.
Context (P : jty -> Prop).
Hypotheses (Hstr : P TString) (Hi32 : P TInt32) (Hi64 : P TInt64) (Hbool : P TBool) (Htime : P TTime) (Htext : P TText)
  (Hios : P TIntOrString) (Hmap : forall t, P t -> P (TMapOf t)) (Hslice : forall t, P t -> P (TSliceOf t))
  (Hptr : forall t, P t -> P (TPtrTo t)) (Hstruct : forall fs, Forall (fun f => P f.2) fs -> P (TStructOf fs)).
Fixpoint jty_nested_ind (t : jty) : P t :=
  match t with
  | TString => Hstr | TInt32 => Hi32 | TInt64 => Hi64 | TBool => Hbool | TTime => Htime | TText => Htext | TIntOrString => Hios
  | TMapOf t => Hmap t (jty_nested_ind t)
  | TSliceOf t => Hslice t (jty_nested_ind t)
  | TPtrTo t => Hptr t (jty_nested_ind t)
  | TStructOf fs => Hstruct fs ((fix go (fs : jfields) : Forall (fun f => P f.2) fs := match fs with
      | [] => @List.Forall_nil _ _
      | f :: fs' => @List.Forall_cons _ _ f fs' (jty_nested_ind f.2) (go fs')
      end) fs)
  end.
End Induction.
Section SchemaInduction.
Context (P : schema -> Prop).
Hypotheses
  (Hobject : forall props addl rq mp df rs, Forall (fun p => P p.2) props -> (forall a, addl = Some a -> P a) -> P (SObject props addl rq mp df rs))
  (Harray : forall items mn mx lt, P items -> P (SArray items mn mx lt)) (Hstring : forall c rs, P (SString c rs))
  (Hinteger : forall f mn mx, P (SInteger f mn mx)) (Hboolean : forall rs, P (SBoolean rs)) (Hios : forall p, P (SIntOrString p)).
Fixpoint schema_nested_ind (s : schema) : P s :=
  match s with
  | SObject props addl rq mp df rs => Hobject props addl rq mp df rs
      ((fix go (ps : list (string * schema)) : Forall (fun p => P p.2) ps := match ps with
         | [] => @List.Forall_nil _ _
         | p :: ps' => @List.Forall_cons _ _ p ps' (schema_nested_ind p.2) (go ps')
         end) props)
      (match addl return forall a, addl = Some a -> P a with
       | Some b => fun a H => eq_ind b P (schema_nested_ind b) a (f_equal (default b) H)
       | None => fun a H => False_ind _ (eq_ind None (fun o : option schema => match o with None => True | _ => False end) I _ H)
       end)
  | SArray items mn mx lt => Harray items mn mx lt (schema_nested_ind items)
  | SString c rs => Hstring c rs
  | SInteger f mn mx => Hinteger f mn mx
  | SBoolean rs => Hboolean rs
  | SIntOrString p => Hios p
  end.
End SchemaInduction.

(** ** The loops over fields and properties *)
Lemma shaped_members props addl v ms :
  (fix go ps := match ps with
     | [] => match addl with Some a => shaped a v | None => false end
     | (k, s') :: ps' => if String.eqb ms k then shaped s' v else go ps'
     end) props =
  match lookup_key ms props with Some s' => shaped s' v | None => match addl with Some a => shaped a v | None => false end end.
Proof. induction props as [|[k s'] props IH]; [done|]. cbn. by destruct (String.eqb ms k). Qed.
Lemma fits_fields props fs :
  (fix go fs := match fs with
     | [] => true
     | (n, _, t) :: fs' => match lookup_key n props with Some s' => fits t s' | None => false end && go fs'
     end) fs = true <->
  Forall (fun f : string * tag * jty => exists s', lookup_key f.1.1 props = Some s' /\ fits f.2 s' = true) fs.
Proof.
  induction fs as [|[[n g] t] fs IH]; [done|]. rewrite Forall_cons, andb_true_iff, IH. cbn.
  destruct (lookup_key n props); naive_solver.
Qed.
Definition types (fs : jfields) : list (string * jty) := (fun f => (f.1.1, f.2)) <$> fs.
Lemma known_members (fs : jfields) k v :
  (fix go fs := match fs with
     | [] => false
     | (n, _, t) :: fs' => if String.eqb k n then known t v else go fs'
     end) fs =
  match lookup_key k (types fs) with Some t => known t v | None => false end.
Proof. induction fs as [|[[n g] t] fs IH]; [done|]. cbn. by destruct (String.eqb k n). Qed.
Lemma prune_members props addl (k : string) v :
  (fix go ps := match ps with
     | [] => (fun a => (k, prune a v)) <$> addl
     | (k', s') :: ps' => if String.eqb k k' then Some (k, prune s' v) else go ps'
     end) props =
  match lookup_key k props with Some s' => Some (k, prune s' v) | None => (fun a => (k, prune a v)) <$> addl end.
Proof. induction props as [|[k' s'] props IH]; [done|]. cbn. by destruct (String.eqb k k'). Qed.

Section Sound.
Context (time_text : Time -> string).
Abbreviation enc := (encode time_text).
Definition enc_fields : list gval -> jfields -> list (string * jv) :=
  fix go vs fs := match vs, fs with
    | v :: vs', (n, g, t) :: fs' => if omitted g v then go vs' fs' else (n, enc v t) :: go vs' fs'
    | _, _ => []
    end.
Definition has_fields : jfields -> list gval -> Prop :=
  fix go fs vs := match fs, vs with
    | [], [] => True
    | (_, t) :: fs', v :: vs' => has t v /\ go fs' vs'
    | _, _ => False
    end.

Lemma enc_fields_members vs fs k j : has_fields fs vs -> (k, j) ∈ enc_fields vs fs ->
  exists g t v, (k, g, t) ∈ fs /\ has t v /\ j = enc v t.
Proof.
  revert vs. induction fs as [|[[n g] t] fs IH]; intros [|v vs]; cbn; [set_solver..|]. intros [Hv Hvs] Hin.
  assert ((k, j) = (n, enc v t) \/ (k, j) ∈ enc_fields vs fs) as [[= -> ->]|Hin'].
  { destruct (omitted g v); [by right|]. by apply elem_of_cons in Hin. }
  - exists g, t, v. split; [left|done].
  - destruct (IH vs Hvs Hin') as (g' & t' & v' & ? & ?). exists g', t', v'. split; [by right|done].
Qed.
Lemma enc_fields_always vs fs k : has_fields fs vs -> k ∈ always fs -> k ∈ (enc_fields vs fs).*1.
Proof.
  revert vs. induction fs as [|[[n g] t] fs IH]; intros [|v vs]; cbn; [set_solver..|]. intros [_ Hvs].
  unfold always, field_names in *. destruct g; cbn; [|destruct (is_empty v); cbn; set_solver|destruct (is_zero v); cbn; set_solver].
  set_solver.
Qed.

Lemma format_range_32 f z : in_i32 z -> format_range f z = true.
Proof.
  unfold in_i32, format_range. intros. destruct (String.eqb f "int32");
    (apply andb_true_iff; split; [apply Z.leb_le|apply Z.ltb_lt]); lia.
Qed.
Lemma format_range_64 f z : in_i64 z -> String.eqb f "int32" = false -> format_range f z = true.
Proof.
  unfold in_i64, format_range. intros Hz ->. apply andb_true_iff; split; [apply Z.leb_le|apply Z.ltb_lt]; lia.
Qed.

(** A value of a type that fits a schema encodes to a value of the schema. *)
Lemma fits_shaped t s v : fits t s = true -> has t v -> shaped s (enc v t) = true.
Proof.
  revert s v. induction t as [| | | | | | |t IH|t IH|t IH|fs IH] using jty_nested_ind; intros s v Hf Hv.
  1-7: destruct s; try discriminate Hf; destruct v; try (by destruct Hv); cbn; try done.
  - by apply format_range_32.
  - apply format_range_64; [done|]. by apply negb_true_iff.
  - by destruct (Time_IsZero t).
  - destruct s as [[|] [a|] [|] ? ? ?| | | | |]; try discriminate Hf. destruct v; try (by destruct Hv); cbn; try done.
    apply forallb_Forall, Forall_map. cbn in Hv. eapply Forall_impl; [done|]. cbn. auto.
  - destruct s; try discriminate Hf. destruct v; try (by destruct Hv); cbn; try done.
    apply forallb_Forall, Forall_map. cbn in Hv. eapply Forall_impl; [done|]. cbn. auto.
  - destruct v; try (by destruct Hv); cbn; [by destruct s|]. by apply IH.
  - destruct s as [props [a|] required mp df rs| | | | |]; try discriminate Hf. destruct v; try (by destruct Hv).
    cbn in Hf. apply andb_true_iff in Hf as [[[_ _]%andb_true_iff Hreq]%andb_true_iff Hfs].
    apply bool_decide_eq_true in Hreq. apply fits_fields in Hfs.
    change (has_fields fs vs) in Hv. change (shaped _ _) with (shaped (SObject props None required mp df rs) (JObj (enc_fields vs fs))).
    cbn [shaped is_null orb]. apply andb_true_iff. split; apply forallb_Forall, Forall_forall.
    + intros k Hk. apply bool_decide_eq_true. apply enc_fields_always; auto.
    + intros [k j] Hin. cbn [fst snd]. etransitivity; [apply (shaped_members props None)|].
      destruct (enc_fields_members _ _ _ _ Hv Hin) as (g & t & v & Hf & Ht & ->).
      rewrite Forall_forall in Hfs, IH. destruct (Hfs _ Hf) as (s' & Hs & Hfit). cbn in Hs. rewrite Hs.
      by apply (IH _ Hf).
Qed.
End Sound.

(** A value of a schema loses nothing but nulls to pruning. *)
Lemma shaped_prune s v : shaped s v = true -> prune s v = strip v.
Proof.
  revert v. induction s as [props addl rq mp df rs IHp IHa|items mn mx lt IH| | | |] using schema_nested_ind; intros v Hv.
  3-6: by destruct v.
  - destruct v as [| | | | |ms]; try done. cbn in *. apply andb_true_iff in Hv as [_ Hv]. apply forallb_Forall in Hv.
    f_equal. apply list_omap_ext. eapply Forall_Forall2_diag, Forall_impl; [exact Hv|]. intros [k j]. cbn.
    rewrite shaped_members, prune_members. destruct (is_null j); [done|].
    destruct (lookup_key k props) as [s'|] eqn:Hs.
    + intros Hj. apply lookup_key_elem in Hs. rewrite Forall_forall in IHp. by rewrite (IHp _ Hs).
    + destruct addl as [a|]; [|done]. intros Hj. cbn. by rewrite (IHa a).
  - destruct v; try done. cbn in *. f_equal. apply forallb_Forall in Hv. apply map_ext_in. intros j Hj.
    rewrite Forall_forall in Hv. apply IH, Hv. by apply list_elem_of_In.
Qed.

(** A value of the schema has only fields the type knows. *)
Lemma fits_known t s v : fits t s = true -> shaped s v = true -> known t v = true.
Proof.
  revert s v. induction t as [| | | | | | |t IH|t IH|t IH|fs IH] using jty_nested_ind; intros s v Hf Hv; try done.
  - destruct v; try done. destruct s as [[|] [a|] [|] ? ? ?| | | | |]; try discriminate Hf. cbn in *.
    apply forallb_Forall. apply forallb_Forall in Hv. eapply Forall_impl; [done|]. cbn. eauto.
  - destruct v; try done. destruct s; try discriminate Hf. cbn in *.
    apply forallb_Forall. apply forallb_Forall in Hv. eapply Forall_impl; [done|]. cbn. eauto.
  - cbn in *. eauto.
  - destruct v as [| | | |vs|ms]; try done. destruct s as [props [a|] required mp df rs| | | | |]; try discriminate Hf.
    cbn in Hf. apply andb_true_iff in Hf as [[[Hnd Hsub]%andb_true_iff _]%andb_true_iff Hfs].
    apply bool_decide_eq_true in Hnd, Hsub. apply fits_fields in Hfs.
    cbn in Hv |- *. apply andb_true_iff in Hv as [_ Hv]. apply forallb_Forall. apply forallb_Forall in Hv.
    eapply Forall_impl; [done|]. intros [k j] Hj. rewrite known_members. cbn [fst snd].
    pose proof (eq_trans (eq_sym (shaped_members props None j k)) Hj) as Hj'.
    destruct (lookup_key k props) as [s'|] eqn:Hs; [|done].
    assert (k ∈ field_names fs) as Hk by (apply Hsub; apply lookup_key_elem in Hs; by apply (list_elem_of_fmap_2 fst) in Hs).
    destruct (lookup_key k (types fs)) as [t|] eqn:Ht.
    + apply lookup_key_elem in Ht. unfold types in Ht. apply list_elem_of_fmap in Ht as ([[k' g] t'] & [= -> ->] & Hin).
      rewrite Forall_forall in Hfs, IH. destruct (Hfs _ Hin) as (s'' & Hs'' & Hfit). cbn in Hs''. simplify_eq.
      by apply (IH _ Hin s').
    + exfalso. apply lookup_key_None in Ht. apply Ht. unfold types. by rewrite <- list_fmap_compose.
Qed.

(** ** The manifests *)
Definition envelope : list string := ["apiVersion"; "kind"; "metadata"].
(** The schema of what is not envelope. *)
Definition body (s : schema) : schema :=
  match s with
  | SObject props addl rq mp df rs => SObject (List.filter (fun p => negb (bool_decide (p.1 ∈ envelope))) props) addl rq mp df rs
  | s => s
  end.
(** The Go type of each manifest's kind. *)
Definition served : list (manifest * jfields) :=
  [(mlxModelCRDYAML, jf_MLXModel); (meshPeerCRDYAML, jf_MeshPeer); (interconnectCRDYAML, jf_Interconnect);
   (helmChartCRDYAML, jf_HelmChart); (helmChartConfigCRDYAML, jf_HelmChartConfig); (updateCRDYAML, jf_Update);
   (updatePolicyCRDYAML, jf_UpdatePolicy); (nodeBudgetCRDYAML, jf_NodeBudget); (nodeBudgetPolicyCRDYAML, jf_NodeBudgetPolicy)].
Lemma served_all : served.*1 = manifests.
Proof. reflexivity. Qed.
Lemma served_fits : forallb (fun mf => forallb (fun v => fits (TStructOf mf.2) (body v.(ver_schema))) mf.1.(crd_versions)) served = true.
Proof. vm_compute. reflexivity. Qed.

Lemma served_fit m fs ver : (m, fs) ∈ served -> ver ∈ m.(crd_versions) -> fits (TStructOf fs) (body ver.(ver_schema)) = true.
Proof.
  intros Hm Hver. pose proof served_fits as H. rewrite forallb_Forall, Forall_forall in H. specialize (H _ Hm). cbn beta in H.
  rewrite forallb_Forall, Forall_forall in H. exact (H _ Hver).
Qed.

(** C11: Every manifest and the Go type of its kind describe the
    same objects: whatever a Go value holds encodes to a value of the schema's
    types from which the server's pruning drops nothing but nulls, and every
    value of the schema has only fields the Go type knows. *)
Theorem manifests_match_types time_text m fs ver :
  (m, fs) ∈ served -> ver ∈ m.(crd_versions) ->
  let t := TStructOf fs in
  let s := body ver.(ver_schema) in
  (forall v, has t v -> shaped s (encode time_text v t) = true /\ prune s (encode time_text v t) = strip (encode time_text v t)) /\
  (forall j, shaped s j = true -> known t j = true).
Proof.
  intros Hm Hver. cbn zeta. pose proof (served_fit m fs ver Hm Hver) as Hfit.
  split.
  - intros v Hv. pose proof (fits_shaped time_text _ _ v Hfit Hv) as Hs. split; [done|]. by apply shaped_prune.
  - intros j. by apply fits_known.
Qed.

(** A chart whose status has a condition with zero times, which encode to null. *)
Definition chart : gval := GStruct
  [GStruct [GStr "traefik"; GStr ""; GStr "1.2.3"; GStr ""; GBool true; GStr ""; GMap [("replicas", GInt 2)]; GStr ""; GNil; GBool false;
            GPtr (GInt 0); GStr ""; GBool false; GBool false];
   GStruct [GStr "job"; GSlice [GStruct [GStr "Failed"; GStr "True"; GTime zero_Time; GTime zero_Time; GStr ""; GStr "no such repo"]]]].
Definition chart_json : jv := encode (fun _ => "") chart (TStructOf jf_HelmChart).
Lemma manifests_match_types_witness :
  prune (SObject [("spec", helmChart_spec); ("status", helmChart_status)] None [] None [] []) chart_json = strip chart_json /\
  strip chart_json = JObj
    [("spec", JObj [("chart", JStr "traefik"); ("version", JStr "1.2.3"); ("createNamespace", JBool true);
       ("set", JObj [("replicas", JInt 2)]); ("backOffLimit", JInt 0)]);
     ("status", JObj [("jobName", JStr "job");
       ("conditions", JArr [JObj [("type", JStr "Failed"); ("status", JStr "True"); ("message", JStr "no such repo")]])])].
Proof.
  split; [|reflexivity].
  refine (proj2 (proj1 (manifests_match_types (fun _ => "") helmChartCRDYAML jf_HelmChart
    (mkversion "v1" true true true (SObject [("apiVersion", text); ("kind", text); ("metadata", SObject [] None [] None [] []);
       ("spec", helmChart_spec); ("status", helmChart_status)] None [] None [] [])) _ _) chart _)); [do 3 right; left|left|].
  cbn. unfold in_i32. repeat (split || constructor || lia).
Defined.
