(* ===== verification/CrdAdmit.v ===== *)
(** * What the server does with an encoded Go value

    The lemmas that connect [encode] of a struct with [admission] by a schema:
    a struct encodes to an object of the members that are [present], pruning
    and defaulting leave a value without nulls alone where the schema has no
    defaults, and validity of such an object is read off its members. *)
From S2P Require Import Prelude GoLib GoStrings GoRunes BudgetVocab BudgetTypes BudgetLadder CrdSchema CrdManifests ApiJSON ApiFits.
Set Warnings "-register-all".

(** ** Runes and bytes *)
Lemma decode_short s : (length (decode s) <= String.length s)%nat.
Proof.
  remember (String.length s) as n eqn:Hn. revert s Hn. induction (lt_wf n) as [n _ IH]. intros s ->.
  destruct s as [|b0 r0]; [done|].
  assert (Hrec : forall r, (String.length r <= String.length r0)%nat -> (length (decode r) <= String.length r)%nat).
  { intros r Hr. eapply IH; [|reflexivity]. cbn. lia. }
  pose proof (Hrec r0 ltac:(done)) as H0. cbn [decode]. destruct (_ <? 128); [cbn; lia|].
  destruct r0 as [|b1 r1]; [cbn; lia|]. pose proof (Hrec r1 ltac:(cbn; lia)) as H1.
  destruct (between 194 223 _ && cont b1); [cbn; lia|].
  destruct r1 as [|b2 r2]; [cbn in *; lia|]. pose proof (Hrec r2 ltac:(cbn; lia)) as H2.
  destruct (between 224 239 _ && second_ok _ b1 && cont b2); [cbn; lia|].
  destruct r2 as [|b3 r3]; [cbn in *; lia|]. pose proof (Hrec r3 ltac:(cbn; lia)) as H3.
  destruct (between 240 244 _ && second_ok _ b1 && cont b2 && cont b3); cbn [length String.length] in *; lia.
Qed.
Lemma RuneCount_slen s : RuneCount s <= slen s.
Proof. unfold RuneCount, runes, len, slen. rewrite length_map. pose proof (decode_short s). lia. Qed.
Lemma RuneCount_pos s : s <> "" -> 1 <= RuneCount s.
Proof.
  destruct s as [|b0 r0]; [done|]. intros _. unfold RuneCount, runes, len. rewrite length_map.
  assert (decode (String b0 r0) <> []) as H by (cbn [decode]; by repeat case_match).
  destruct (decode (String b0 r0)); [done|]. cbn. lia.
Qed.

(** ** Structs *)
Definition gopt {A} (f : A -> gval) (o : option A) : gval := match o with Some a => GPtr (f a) | None => GNil end.
Definition gslice_of {A} (f : A -> gval) (l : list A) : gval := GSlice (f <$> l).

Section Members.
Context (time_text : Time -> string).
Abbreviation enc := (encode time_text).
Definition mem (g : tag) (v : gval) (t : jty) : option jv := if omitted g v then None else Some (enc v t).

Lemma enc_struct vs fs :
  enc (GStruct vs) (TStructOf fs) = JObj (present (zip_with (fun v f => (f.1.1, mem f.1.2 v f.2)) vs fs)).
Proof.
  cbn. f_equal. revert fs. induction vs as [|v vs IH]; intros [|[[n g] t] fs]; try done. cbn. rewrite IH.
  unfold mem. by destruct (omitted g v).
Qed.
Lemma mem_always v t : mem Always v t = Some (enc v t).
Proof. done. Qed.
Lemma mem_opt {A} (f : A -> gval) o t : mem OmitEmpty (gopt f o) (TPtrTo t) = (fun a => enc (f a) t) <$> o.
Proof. by destruct o. Qed.
Definition nonempty (s : string) : option jv := if String.eqb s "" then None else Some (JStr s).
Lemma mem_string s : mem OmitEmpty (GStr s) TString = nonempty s.
Proof. done. Qed.
Definition nonzero (z : Z) : option jv := if z =? 0 then None else Some (JInt z).
Lemma mem_int z t : mem OmitEmpty (GInt z) t = nonzero z.
Proof. done. Qed.
Definition when (b : bool) : option jv := if b then Some (JBool true) else None.
Lemma mem_bool b : mem OmitEmpty (GBool b) TBool = when b.
Proof. by destruct b. Qed.
Definition elements {A} (f : A -> jv) (l : list A) : option jv := match l with [] => None | _ => Some (JArr (f <$> l)) end.
Lemma mem_slice {A} (f : A -> gval) l t : mem OmitEmpty (gslice_of f l) (TSliceOf t) = elements (fun a => enc (f a) t) l.
Proof. destruct l as [|a l]; [done|]. unfold mem, elements. cbn. do 3 f_equal. apply map_map. Qed.
End Members.

(** The integers of a field that has a value of its type. *)
Lemma has_gopt {A} (f : A -> gval) o t : has (TPtrTo t) (gopt f o) <-> (forall a, o = Some a -> has t (f a)).
Proof. destruct o; cbn; naive_solver. Qed.

Lemma has_slice {A} (f : A -> gval) l t : has (TSliceOf t) (gslice_of f l) -> forall a, a ∈ l -> has t (f a).
Proof.
  intros H a Ha. change (Forall (has t) (f <$> l)) in H. rewrite Forall_fmap, Forall_forall in H. exact (H a Ha).
Qed.

Lemma slice_has {A} (f : A -> gval) l t : (forall a, has t (f a)) -> has (TSliceOf t) (gslice_of f l).
Proof. intros H. change (Forall (has t) (f <$> l)). apply Forall_fmap, Forall_forall. intros a _. exact (H a). Qed.

(** ** Pruning and defaulting *)
Fixpoint no_defaults (s : schema) : bool :=
  match s with
  | SObject props addl _ _ df _ =>
      bool_decide (df = []) && (fix go ps := match ps with [] => true | (_, s') :: ps' => no_defaults s' && go ps' end) props &&
      match addl with Some a => no_defaults a | None => true end
  | SArray items _ _ _ => no_defaults items
  | _ => true
  end.
Lemma fill_members props addl (k : string) v :
  (fix go ps := match ps with
     | [] => (k, match addl with Some a => fill a v | None => v end)
     | (k', s') :: ps' => if String.eqb k k' then (k, fill s' v) else go ps'
     end) props =
  (k, match lookup_key k props with Some s' => fill s' v | None => match addl with Some a => fill a v | None => v end end).
Proof. induction props as [|[k' s'] props IH]; [done|]. cbn. by destruct (String.eqb k k'). Qed.
Lemma no_defaults_props props :
  (fix go ps := match ps with [] => true | (_, s') :: ps' => no_defaults s' && go ps' end) props = true ->
  Forall (fun p : string * schema => no_defaults p.2 = true) props.
Proof. induction props as [|[k s'] props IH]; [done|]. cbn. intros [? ?]%andb_true_iff. auto. Qed.
Lemma fill_id s v : no_defaults s = true -> fill s v = v.
Proof.
  revert v. induction s as [props addl rq mp df rs IHp IHa|items mn mx lt IH| | | |] using schema_nested_ind; intros v Hs.
  3-6: by destruct v.
  - cbn in Hs. apply andb_true_iff in Hs as [[Hdf Hps%no_defaults_props]%andb_true_iff Ha].
    apply bool_decide_eq_true in Hdf as ->. destruct v as [| | | | |ms]; try done. cbn. rewrite app_nil_r. f_equal.
    rewrite <- (map_id ms) at 2. apply map_ext. intros [k j]. cbn. rewrite fill_members. f_equal.
    rewrite Forall_forall in IHp, Hps. destruct (lookup_key k props) as [s'|] eqn:Hk.
    + apply lookup_key_elem in Hk. by apply (IHp _ Hk), (Hps _ Hk).
    + destruct addl; [|done]. auto.
  - destruct v; try done. cbn in *. f_equal. rewrite <- (map_id vs) at 2. apply map_ext. auto.
Qed.

(** A value whose encoding is not null and holds no null. *)
Fixpoint no_nulls (t : jty) (v : gval) {struct t} : bool :=
  match t, v with
  | TTime, GTime t => negb (Time_IsZero t)
  | TMapOf t, GMap ms => forallb (fun kv => no_nulls t kv.2) ms
  | TSliceOf t, GSlice vs => forallb (no_nulls t) vs
  | TPtrTo t, GPtr v => no_nulls t v
  | TMapOf _, GNil | TSliceOf _, GNil | TPtrTo _, GNil => false
  | TStructOf fs, GStruct vs =>
      (fix go fs vs := match fs, vs with
         | (_, g, t) :: fs', v :: vs' => (omitted g v || no_nulls t v) && go fs' vs'
         | _, _ => true
         end) fs vs
  | _, _ => true
  end.
Lemma no_nulls_struct fs vs : Forall2 (fun (f : string * tag * jty) v => omitted f.1.2 v = true \/ no_nulls f.2 v = true) fs vs ->
  no_nulls (TStructOf fs) (GStruct vs) = true.
Proof.
  induction 1 as [|[[n g] t] v fs vs H _ IH]; [done|]. cbn in *. rewrite IH, andb_true_r. apply orb_true_iff. tauto.
Qed.
Lemma no_nulls_slice {A} (f : A -> gval) l t : Forall (fun a => no_nulls t (f a) = true) l -> no_nulls (TSliceOf t) (gslice_of f l) = true.
Proof. intros H. cbn. apply forallb_Forall, Forall_fmap. exact H. Qed.

(** A type whose values, nil apart, are such. *)
Definition nilable (t : jty) : bool := match t with TMapOf _ | TSliceOf _ | TPtrTo _ => true | _ => false end.
Fixpoint solid (t : jty) : bool :=
  match t with
  | TTime => false
  | TMapOf t | TSliceOf t | TPtrTo t => solid t && negb (nilable t)
  | TStructOf fs =>
      (fix go fs := match fs with
         | [] => true
         | (_, g, t) :: fs' => (negb (nilable t) || match g with OmitEmpty => true | _ => false end) && solid t && go fs'
         end) fs
  | _ => true
  end.
Lemma solid_no_nulls t v : solid t = true -> has t v -> nilable t = true /\ v = GNil \/ no_nulls t v = true.
Proof.
  revert v. induction t as [| | | | | | |t IH|t IH|t IH|fs IH] using jty_nested_ind; intros v Hs Hv; try (by right); try done.
  - cbn in Hs. apply andb_true_iff in Hs as [Hs Hn%negb_true_iff]. destruct v; try (by destruct Hv); [by left|].
    right. cbn in *. apply forallb_Forall. eapply Forall_impl; [exact Hv|]. cbn. intros kv Hkv. destruct (IH _ Hs Hkv) as [[? _]|]; congruence.
  - cbn in Hs. apply andb_true_iff in Hs as [Hs Hn%negb_true_iff]. destruct v; try (by destruct Hv); [by left|].
    right. cbn in *. apply forallb_Forall. eapply Forall_impl; [exact Hv|]. cbn. intros x Hx. destruct (IH _ Hs Hx) as [[? _]|]; congruence.
  - cbn in Hs. apply andb_true_iff in Hs as [Hs Hn%negb_true_iff]. destruct v; try (by destruct Hv); [by left|].
    right. cbn in *. destruct (IH _ Hs Hv) as [[? _]|]; congruence.
  - right. destruct v; try (by destruct Hv). change (has_fields fs vs) in Hv. revert vs Hs Hv.
    induction IH as [|[[n g] t] fs Hf _ IH]; intros [|v vs]; cbn; try done.
    intros [[Hg Hs]%andb_true_iff Hfs]%andb_true_iff [Hv Hvs]. pose proof (IH vs Hfs Hvs) as Hrest. cbn in Hrest. rewrite Hrest, andb_true_r. apply orb_true_iff.
    destruct (Hf v Hs Hv) as [[Hn ->]|]; [|by right]. left. cbn in Hn. rewrite Hn in Hg. by destruct g.
Qed.
(** A field of such a type is omitted or holds no null. *)
Lemma solid_field g t v : solid t = true -> (negb (nilable t) || match g with OmitEmpty => true | _ => false end) = true -> has t v ->
  omitted g v = true \/ no_nulls t v = true.
Proof. intros Hs Hg Hv. destruct (solid_no_nulls t v Hs Hv) as [[Hn ->]|]; [|by right]. left. rewrite Hn in Hg. by destruct g. Qed.

Section Solid.
Context (time_text : Time -> string).
Abbreviation enc := (encode time_text).
Definition stays (t : jty) (v : gval) : Prop := is_null (enc v t) = false /\ strip (enc v t) = enc v t.
Lemma strip_members vs fs :
  Forall (fun f => forall v, no_nulls f.2 v = true -> has f.2 v -> stays f.2 v) fs ->
  no_nulls (TStructOf fs) (GStruct vs) = true -> has_fields fs vs ->
  omap (fun kv => if is_null kv.2 then None else Some (kv.1, strip kv.2)) (enc_fields time_text vs fs) = enc_fields time_text vs fs.
Proof.
  intros H. revert vs. induction H as [|[[n g] t] fs Ht _ IH]; intros [|v vs]; cbn; try done.
  intros [Hset Hsets]%andb_true_iff [Hv Hvs]. destruct (omitted g v) eqn:Ho; [auto|]. cbn in Hset, Ht |- *.
  destruct (Ht v Hset Hv) as [-> ->]. f_equal. by apply IH.
Qed.
Lemma no_nulls_stays t v : no_nulls t v = true -> has t v -> stays t v.
Proof.
  revert v. induction t as [| | | | | | |t IH|t IH|t IH|fs IH] using jty_nested_ind; intros v Hn Hv;
    destruct v; try (by destruct Hv); try discriminate Hn; unfold stays; try (by split).
  - cbn in Hn |- *. apply negb_true_iff in Hn. by rewrite Hn.
  - split; [done|]. cbn in *. apply forallb_Forall in Hn. f_equal.
    induction Hv as [|[k v] ms Hv _ IHm]; [done|]. apply Forall_cons in Hn as [Hn Hns]. cbn in *.
    destruct (IH v Hn Hv) as [-> ->]. f_equal. auto.
  - split; [done|]. cbn in *. apply forallb_Forall in Hn. f_equal. rewrite map_map. apply map_ext_in. intros v Hin%list_elem_of_In.
    rewrite Forall_forall in Hv, Hn. apply IH; auto.
  - cbn. by apply IH.
  - split; [done|]. change (JObj (omap (fun kv => if is_null kv.2 then None else Some (kv.1, strip kv.2))
      (enc_fields time_text vs fs)) = JObj (enc_fields time_text vs fs)). f_equal. by apply strip_members.
Qed.

(** Such a value reaches the schema as it is encoded, with the defaults. *)
Lemma admission_filled date_time t s old v : fits t s = true -> no_nulls t v = true -> has t v ->
  admission date_time s old (enc v t) = if valid date_time s old (fill s (enc v t)) then Some (fill s (enc v t)) else None.
Proof.
  intros Hf Hn Hv. unfold admission. rewrite (shaped_prune s) by (by apply fits_shaped). by rewrite (proj2 (no_nulls_stays t v Hn Hv)).
Qed.
Lemma admission_as_is date_time t s old v : fits t s = true -> no_defaults s = true -> no_nulls t v = true -> has t v ->
  admission date_time s old (enc v t) = if valid date_time s old (enc v t) then Some (enc v t) else None.
Proof. intros Hf Hd Hn Hv. rewrite admission_filled by done. by rewrite fill_id. Qed.
End Solid.

(** ** Validity *)
Section Valid.
Context (date_time : string -> bool).
Abbreviation valid := (valid date_time).
Lemma valid_props old ms props :
  (fix go ps := match ps with
     | [] => true
     | (k, s') :: ps' => match lookup_key k ms with Some v' => valid s' (old ≫= field_of k) v' | None => true end && go ps'
     end) props = true <->
  Forall (fun p : string * schema => forall j, lookup_key p.1 ms = Some j -> valid p.2 (old ≫= field_of p.1) j = true) props.
Proof.
  induction props as [|[k s'] props IH]; [done|]. rewrite Forall_cons, andb_true_iff, IH. cbn.
  destruct (lookup_key k ms); naive_solver.
Qed.
Lemma valid_object props rq mp df rules old ms :
  valid (SObject props None rq mp df rules) old (JObj ms) = true <->
  Forall (fun k => is_Some (lookup_key k ms)) rq /\ at_most mp (len ms) = true /\
  Forall (fun p : string * schema => forall j, lookup_key p.1 ms = Some j -> valid p.2 (old ≫= field_of p.1) j = true) props /\
  Forall (fun r => rule_holds (JObj ms) old r = true) rules.
Proof.
  cbn [CrdSchema.valid]. rewrite !andb_true_iff, valid_props, !forallb_Forall. setoid_rewrite bool_decide_eq_true. tauto.
Qed.
Lemma valid_map s mp df old ms :
  valid (SObject [] (Some s) [] mp df []) old (JObj ms) = true <->
  at_most mp (len ms) = true /\ Forall (fun kv => valid s None kv.2 = true) ms.
Proof.
  cbn [CrdSchema.valid forallb]. rewrite !andb_true_iff, forallb_Forall.
  assert (forall kv : string * jv, bool_decide (kv.1 ∈ []) || valid s None kv.2 = true <-> valid s None kv.2 = true) as H.
  { intros kv. by rewrite bool_decide_eq_false_2 by set_solver. }
  rewrite (Forall_iff _ _ _ H). tauto.
Qed.
Lemma valid_array items mn mx lt old vs :
  valid (SArray items mn mx lt) old (JArr vs) = true <->
  at_least mn (len vs) = true /\ at_most mx (len vs) = true /\ list_ok lt vs = true /\ Forall (fun v => valid items None v = true) vs.
Proof. cbn [CrdSchema.valid]. rewrite !andb_true_iff, forallb_Forall. tauto. Qed.
End Valid.

(** ** Members *)
Lemma nonempty_member s (P : jv -> Prop) : (forall j, nonempty s = Some j -> P j) <-> (s <> "" -> P (JStr s)).
Proof. unfold nonempty. destruct (String.eqb_spec s ""); naive_solver. Qed.
Lemma nonzero_member z (P : jv -> Prop) : (forall j, nonzero z = Some j -> P j) <-> (z <> 0 -> P (JInt z)).
Proof. unfold nonzero. destruct (Z.eqb_spec z 0); naive_solver. Qed.
Lemma fmap_member {A} (f : A -> jv) o (P : jv -> Prop) : (forall j, f <$> o = Some j -> P j) <-> (forall a, o = Some a -> P (f a)).
Proof. destruct o; cbn; naive_solver. Qed.
Lemma some_member (j : jv) (P : jv -> Prop) : (forall j', Some j = Some j' -> P j') <-> P j.
Proof. naive_solver. Qed.
Lemma elements_member {A} (f : A -> jv) l (P : jv -> Prop) : (forall j, elements f l = Some j -> P j) <-> (l <> [] -> P (JArr (f <$> l))).
Proof. destruct l; cbn; naive_solver. Qed.
Section MemberValid.
Context (date_time : string -> bool).
Abbreviation valid := (valid date_time).
Lemma int_member f mn mx old o :
  (forall j, JInt <$> o = Some j -> valid (SInteger f mn mx) old j = true) <->
  (forall z, o = Some z -> format_range f z = true /\ at_least mn z = true /\ at_most mx z = true).
Proof.
  destruct o as [z|]; cbn; [|naive_solver]. split.
  - intros H z' [= <-]. specialize (H _ eq_refl). cbn in H. rewrite !andb_true_iff in H. tauto.
  - intros H j [= <-]. destruct (H z eq_refl) as (-> & -> & ->). done.
Qed.
Lemma valid_enum l old s : l <> [] -> valid (enum l) old (JStr s) = true <-> s ∈ l.
Proof.
  intros Hl. cbn. unfold string_ok. cbn. rewrite bool_decide_eq_false_2 by done. rewrite !andb_true_r, orb_false_l, existsb_exists.
  setoid_rewrite String.eqb_eq. setoid_rewrite <- list_elem_of_In. naive_solver.
Qed.
Lemma valid_count old z : in_i64 z -> valid count64 old (JInt z) = true <-> 0 <= z.
Proof. intros Hz. cbn -[format_range]. rewrite (format_range_64 "int64" z Hz eq_refl), !andb_true_r. apply Z.leb_le. Qed.
End MemberValid.

(** ** Rules *)
Definition rule_true (self : jv) (old : option jv) (e : cel) : Prop := as_bool (cel_eval self old e) = Some true.
Lemma rules_now self old rules : forallb (fun r => negb (uses_old r.(rule_cel))) rules = true ->
  Forall (fun r => rule_holds self old r = true) rules <-> Forall (rule_true self old) (rule_cel <$> rules).
Proof.
  intros Hn. rewrite Forall_fmap, !Forall_forall. rewrite forallb_Forall, Forall_forall in Hn.
  split; intros H r Hr; specialize (H r Hr); specialize (Hn r Hr); unfold rule_holds, rule_true in *; cbn in *;
    apply negb_true_iff in Hn; rewrite Hn in *; cbn in *; [by apply bool_decide_eq_true in H|by apply bool_decide_eq_true_2].
Qed.

(** *** Ladders

    The shape of the ladder rules: two optional numbers, compared the way the
    signal named by [key] runs. *)
Definition order_cel (key a b x y : string) : cel :=
  COr (CNot (Has Self a)) (COr (CNot (Has Self b)) (Paren (CIf (EndsWith (Field Self key) ".available")
    (CGt (Field Self x) (Field Self y)) (CLt (Field Self x) (Field Self y))))).
Fixpoint pairs {A} (l : list A) : list (A * A) := match l with [] => [] | x :: l' => ((fun y => (x, y)) <$> l') ++ pairs l' end.
Definition ladder_cels (key : string) (names relnames : list string) : list cel :=
  ((fun p => order_cel key p.1 p.2 p.1 p.2) <$> pairs names) ++ ((fun p => order_cel key p.1 p.2 p.2 p.1) <$> zip names relnames).

Ltac order_cases sg oa ob :=
  cbn; unfold calmer, IsDescending; destruct oa as [x|], ob as [y|]; cbn; try naive_solver;
  destruct (HasSuffix sg ".available"); cbn; split; intros H;
  first [intros ? ? [= <-] [= <-]; apply Z.ltb_lt; by destruct (_ <? _)
        |specialize (H _ _ eq_refl eq_refl); apply Z.ltb_lt in H; by rewrite H].
Section Ladder.
Context (ms : list (string * jv)) (old : option jv) (key sg : string).
Hypothesis (Hkey : lookup_key key ms = Some (JStr sg)).
(** The member [n] is the optional number [o]. *)
Definition holds_int (n : string) (o : option Z) : Prop := lookup_key n ms = JInt <$> o.

Lemma order_fwd a b oa ob : holds_int a oa -> holds_int b ob ->
  rule_true (JObj ms) old (order_cel key a b a b) <-> (forall x y, oa = Some x -> ob = Some y -> calmer sg x y).
Proof. intros Ha Hb. unfold rule_true, order_cel. cbn. rewrite Hkey, Ha, Hb. order_cases sg oa ob. Qed.
Lemma order_rel a b oa ob : holds_int a oa -> holds_int b ob ->
  rule_true (JObj ms) old (order_cel key a b b a) <-> (forall x y, oa = Some x -> ob = Some y -> calmer sg y x).
Proof. intros Ha Hb. unfold rule_true, order_cel. cbn. rewrite Hkey, Ha, Hb. order_cases sg oa ob. Qed.

Definition ordered (rs : list (option Z)) : Prop :=
  forall i j a b, (i < j)%nat -> rs !! i = Some (Some a) -> rs !! j = Some (Some b) -> calmer sg a b.
Lemma ordered_cons o rs : ordered (o :: rs) <-> Forall (fun o' => forall x y, o = Some x -> o' = Some y -> calmer sg x y) rs /\ ordered rs.
Proof.
  rewrite Forall_lookup. split.
  - intros H. split.
    + intros j o' Hj x y -> ->. by apply (H 0%nat (S j)); auto with lia.
    + intros i j a b Hij. apply (H (S i) (S j)). lia.
  - intros [Ho Hrs] [|i] [|j] a b Hij Ha Hb; try lia; simplify_eq/=; [by apply (Ho j (Some b))|].
    apply (Hrs i j); auto with lia.
Qed.
Lemma order_rules names rs : Forall2 holds_int names rs ->
  Forall (rule_true (JObj ms) old) ((fun p => order_cel key p.1 p.2 p.1 p.2) <$> pairs names) <-> ordered rs.
Proof.
  induction 1 as [|n o names rs Hn Hns IH]; [split; [intros _ i j a b; by destruct i|constructor]|].
  cbn [pairs]. rewrite fmap_app, Forall_app, IH, ordered_cons, !Forall_fmap.
  assert (Forall (rule_true (JObj ms) old ∘ (fun p => order_cel key p.1 p.2 p.1 p.2) ∘ (fun y => (n, y))) names <->
          Forall (fun o' => forall x y, o = Some x -> o' = Some y -> calmer sg x y) rs) as ->; [|done].
  clear IH. induction Hns as [|n' o' names rs Hn' _ IH]; [split; constructor|]. rewrite !Forall_cons, IH. cbn.
  by rewrite (order_fwd n n' o o').
Qed.
Lemma release_rules names relnames rs rels : Forall2 holds_int names rs -> Forall2 holds_int relnames rels ->
  Forall (rule_true (JObj ms) old) ((fun p => order_cel key p.1 p.2 p.2 p.1) <$> zip names relnames) <->
  (forall i r rel, rs !! i = Some (Some r) -> rels !! i = Some (Some rel) -> calmer sg rel r).
Proof.
  intros H. revert relnames rels. induction H as [|n o names rs Hn _ IH]; intros relnames rels Hrel.
  { split; [intros _ i ? ?; by destruct i|constructor]. }
  destruct Hrel as [|n' o' relnames rels Hn' Hrel]; [split; [intros _ i r rel _; by destruct i|constructor]|].
  cbn. rewrite Forall_cons. change (fmap _ (zip_with pair names relnames)) with ((fun p => order_cel key p.1 p.2 p.2 p.1) <$> zip names relnames).
  rewrite (IH _ _ Hrel), (order_rel n n' o o') by done. split.
  - intros [Ho H] [|i] r rel Hr Hl; simplify_eq/=; eauto.
  - intros H. split; [intros x y -> ->; by apply (H 0%nat)|intros i; apply (H (S i))].
Qed.
End Ladder.

Definition ints64 (l : list (option Z)) : Prop := Forall (fun o => forall z, o = Some z -> in_i64 z) l.
Section Counts.
Context (date_time : string -> bool) (ms : list (string * jv)) (old : option jv).
Lemma count_member old' o : (forall z, o = Some z -> in_i64 z) ->
  (forall j, JInt <$> o = Some j -> valid date_time count64 old' j = true) <-> nonneg o.
Proof. intros Ho. rewrite fmap_member. unfold nonneg. split; intros H z Hz; apply (valid_count date_time old' z (Ho z Hz)), (H z Hz). Qed.
Lemma counts_valid names os : Forall2 (holds_int ms) names os -> ints64 os ->
  Forall (fun p : string * schema => forall j, lookup_key p.1 ms = Some j -> valid date_time p.2 (old ≫= field_of p.1) j = true)
    ((fun n => (n, count64)) <$> names) <-> Forall nonneg os.
Proof.
  unfold ints64. induction 1 as [|n o names os Hn _ IH]; [done|]. intros [Ho Hos]%Forall_cons. rewrite fmap_cons, !Forall_cons, IH by done.
  cbn [fst snd]. rewrite Hn, count_member by done. done.
Qed.
End Counts.

Definition swap_cel (key : string) : cel := COr (CNe (Field Self key) (LitS SignalMemorySwap)) (CNot (Has Self "evictSoftThreshold")).
Lemma swap_rule ms old key sg o : lookup_key key ms = Some (JStr sg) -> holds_int ms "evictSoftThreshold" o ->
  rule_true (JObj ms) old (swap_cel key) <-> (sg = SignalMemorySwap -> o = None).
Proof.
  intros Hkey Ho. unfold rule_true, swap_cel. cbn. rewrite Hkey, Ho. cbn.
  destruct (String.eqb_spec sg SignalMemorySwap), o; cbn; naive_solver.
Qed.

(** *** Objects of counters *)
Definition counts_type (names : list string) : jfields := (fun n => (n, OmitEmpty, TPtrTo TInt64)) <$> names.
Definition counts_schema (names : list string) : schema := SObject ((fun n => (n, count64)) <$> names) None [] None [] [].
Abbreviation gint := (gopt GInt).
Lemma has_int64 o : has (TPtrTo TInt64) (gint o) -> forall z, o = Some z -> in_i64 z.
Proof. exact (proj1 (has_gopt GInt o TInt64)). Qed.
Lemma has_int32 o : has (TPtrTo TInt32) (gint o) -> forall z, o = Some z -> in_i32 z.
Proof. exact (proj1 (has_gopt GInt o TInt32)). Qed.
Lemma has_ints fs os : has_fields fs (gint <$> os) -> Forall (fun f => f.2 = TPtrTo TInt64) fs -> ints64 os.
Proof.
  unfold ints64. revert fs. induction os as [|o os IH]; intros [|[n t] fs]; cbn; try tauto; [constructor..|].
  intros [Ho Hos] [Ht Hfs]%Forall_cons. cbn in Ht. subst t. constructor; [|by eapply IH].
  by apply has_int64.
Qed.
Lemma counts_encoded time_text names os :
  encode time_text (GStruct (gint <$> os)) (TStructOf (counts_type names)) = JObj (present (zip names ((fun o : option Z => JInt <$> o) <$> os))).
Proof.
  rewrite enc_struct. f_equal. f_equal. revert os. induction names as [|n names IH]; intros [|o os]; cbn -[mem gopt]; try done.
  rewrite mem_opt. f_equal. apply IH.
Qed.
Lemma present_ints names os : NoDup names -> length names = length os ->
  Forall2 (holds_int (present (zip names ((fun o : option Z => JInt <$> o) <$> os)))) names os.
Proof.
  intros Hnd Hl. apply Forall2_same_length_lookup_2; [done|]. intros i n o Hn Ho. unfold holds_int.
  rewrite lookup_present by (rewrite fst_zip; [done|rewrite length_fmap; lia]).
  revert i os Hl Hn Ho. induction Hnd as [|n' names Hn' Hnd IH]; intros i [|o' os] Hl Hn Ho; try done.
  destruct i as [|i]; cbn in *; simplify_eq; [by rewrite String.eqb_refl|].
  destruct (String.eqb_spec n n') as [->|_]; [apply list_elem_of_lookup_2 in Hn; done|]. eauto.
Qed.
Lemma counts_object date_time time_text names os old : NoDup names -> length names = length os ->
  has (TStructOf (counts_type names)) (GStruct (gint <$> os)) ->
  valid date_time (counts_schema names) old (encode time_text (GStruct (gint <$> os)) (TStructOf (counts_type names))) = true <->
  Forall nonneg os.
Proof.
  intros Hnd Hl Hh. rewrite counts_encoded. unfold counts_schema. rewrite valid_object, (counts_valid _ _ _ names os); [naive_solver|..].
  - by apply present_ints.
  - apply (has_ints (counts_type names)); [done|]. unfold counts_type. apply Forall_fmap. by apply Forall_forall.
Qed.

(** *** Bounded numbers, keyed lists *)
Lemma int64_member date_time mn mx old o : (forall z, o = Some z -> in_i64 z) ->
  (forall j, JInt <$> o = Some j -> valid date_time (SInteger "int64" mn mx) old j = true) <->
  (forall z, o = Some z -> at_least mn z = true /\ at_most mx z = true).
Proof.
  intros Ho. rewrite int_member. split; intros H z Hz; specialize (H z Hz); [tauto|].
  by rewrite format_range_64 by auto.
Qed.
Lemma int32_member date_time mn mx old o : (forall z, o = Some z -> in_i32 z) ->
  (forall j, JInt <$> o = Some j -> valid date_time (SInteger "int32" mn mx) old j = true) <->
  (forall z, o = Some z -> at_least mn z = true /\ at_most mx z = true).
Proof.
  intros Ho. rewrite int_member. split; intros H z Hz; specialize (H z Hz); [tauto|].
  by rewrite format_range_32 by auto.
Qed.
Lemma keyed_list {A} (f : A -> jv) key (kf : A -> string) l : (forall a, field_of key (f a) = Some (JStr (kf a))) ->
  list_ok (ListMap [key]) (f <$> l) = true <-> NoDup (kf <$> l).
Proof.
  intros Hf. cbn. rewrite bool_decide_eq_true, <- list_fmap_compose.
  assert ((fun v => [field_of key v]) ∘ f <$> l = (fun k => [Some (JStr k)]) <$> (kf <$> l)) as ->.
  { rewrite <- list_fmap_compose. apply list_fmap_ext. intros i a _. cbn. by rewrite Hf. }
  rewrite NoDup_fmap; [done|]. by intros x y [= ->].
Qed.

(** ** Structs, field by field

    The member a struct encodes a name to, and the schemas its members meet;
    the lemmas of [Fields] are the leaves a schema is checked with. *)
Section Fields.
Context (date_time : string -> bool) (time_text : Time -> string).
Abbreviation enc := (encode time_text).
Abbreviation valid := (valid date_time).
Abbreviation mem := (mem time_text).
Definition members (vs : list gval) (fs : jfields) : list (string * option jv) := zip_with (fun v f => (f.1.1, mem f.1.2 v f.2)) vs fs.
Definition member (vs : list gval) (fs : jfields) (k : string) : option jv := mjoin (lookup_key k (members vs fs)).

Lemma enc_members vs fs : enc (GStruct vs) (TStructOf fs) = JObj (present (members vs fs)).
Proof. apply enc_struct. Qed.
Lemma members_lookup vs fs k : length vs = length fs -> NoDup (field_names fs) -> lookup_key k (present (members vs fs)) = member vs fs k.
Proof.
  intros Hl Hn. apply lookup_present. unfold members. assert ((zip_with (fun v f => (f.1.1, mem f.1.2 v f.2)) vs fs).*1 = field_names fs) as ->; [|done].
  unfold field_names. clear Hn. revert fs Hl. induction vs as [|v vs IH]; intros [|f fs] Hl; try done. cbn. f_equal. apply IH. by injection Hl.
Qed.
Lemma struct_valid props rq df rules old vs fs : length vs = length fs -> bool_decide (NoDup (field_names fs)) = true ->
  Forall (fun k => is_Some (member vs fs k)) rq ->
  Forall (fun p : string * schema => forall j, member vs fs p.1 = Some j -> valid p.2 (old ≫= field_of p.1) j = true) props ->
  Forall (fun r => rule_holds (JObj (present (members vs fs))) old r = true) rules ->
  valid (SObject props None rq None df rules) old (enc (GStruct vs) (TStructOf fs)) = true.
Proof.
  intros Hl Hn%bool_decide_eq_true Hrq Hps Hrs. rewrite enc_struct. apply valid_object.
  split_and!; [| |..|exact Hrs]; [|done|]; (eapply Forall_impl; [eassumption|]); cbn; intros ?; by rewrite members_lookup.
Qed.

Lemma count_field old o : (forall z, o = Some z -> in_i64 z) -> nonneg o ->
  forall j, mem OmitEmpty (gint o) (TPtrTo TInt64) = Some j -> valid count64 old j = true.
Proof. rewrite mem_opt. intros Ho. apply (count_member date_time old o Ho). Qed.
Lemma total_field old z : in_i64 z -> 0 <= z -> forall j, mem Always (GInt z) TInt64 = Some j -> valid count64 old j = true.
Proof. intros Hz H0 j [= <-]. by apply valid_count. Qed.
Lemma generation_field old z : in_i64 z -> 0 <= z -> forall j, mem OmitEmpty (GInt z) TInt64 = Some j -> valid count64 old j = true.
Proof. intros Hz H0. rewrite mem_int, nonzero_member. intros _. by apply valid_count. Qed.
Lemma word_member old (l : list string) s : s ∈ l -> forall j, mem Always (GStr s) TString = Some j -> valid (enum l) old j = true.
Proof. intros Hs j [= <-]. apply valid_enum; [|done]. intros ->. by apply elem_of_nil in Hs. Qed.
Lemma word_opt_field old (l : list string) s : s = "" \/ s ∈ l -> forall j, mem OmitEmpty (GStr s) TString = Some j -> valid (enum l) old j = true.
Proof.
  intros Hs. rewrite mem_string, nonempty_member. intros Hne. destruct Hs as [|Hs]; [done|].
  apply valid_enum; [|done]. intros ->. by apply elem_of_nil in Hs.
Qed.
Lemma bool_field old b : forall j, mem OmitEmpty (GBool b) TBool = Some j -> valid (SBoolean []) old j = true.
Proof. rewrite mem_bool. destruct b; [|done]. by intros j [= <-]. Qed.
Lemma bool_ptr_field old o : forall j, mem OmitEmpty (gopt GBool o) (TPtrTo TBool) = Some j -> valid (SBoolean []) old j = true.
Proof. rewrite mem_opt. destruct o; [|done]. by intros j [= <-]. Qed.
Lemma ptr_field {A} (f : A -> gval) o t s old : (forall a, o = Some a -> valid s old (enc (f a) t) = true) ->
  forall j, mem OmitEmpty (gopt f o) (TPtrTo t) = Some j -> valid s old j = true.
Proof. rewrite mem_opt. intros H. by apply fmap_member. Qed.
Lemma struct_field g v t s old : valid s old (enc v t) = true -> forall j, mem g v t = Some j -> valid s old j = true.
Proof. intros H j. unfold mem. destruct (omitted g v); [done|]. by intros [= <-]. Qed.
Lemma slice_field {A} (f : A -> gval) l t items mx lt old :
  at_most mx (len l) = true -> list_ok lt ((fun a => enc (f a) t) <$> l) = true -> Forall (fun a => valid items None (enc (f a) t) = true) l ->
  forall j, mem OmitEmpty (gslice_of f l) (TSliceOf t) = Some j -> valid (SArray items None mx lt) old j = true.
Proof.
  rewrite mem_slice, elements_member. intros Hm Hk Hl _. apply valid_array. unfold len. rewrite length_fmap, Forall_fmap. by split_and!.
Qed.
Lemma short_field g old n s : RuneCount s <= n -> forall j, mem g (GStr s) TString = Some j ->
  valid (SString (mkstrings [] None (Some n) None "") []) old j = true.
Proof.
  intros Hs. apply struct_field. cbn -[RuneCount]. unfold string_ok. cbn -[RuneCount]. rewrite !andb_true_r. by apply Z.leb_le.
Qed.
Definition gslice_opt {A} (f : A -> gval) (s : gslice A) : gval := match s with Some l => gslice_of f l | None => GNil end.
Lemma has_slice_opt {A} (f : A -> gval) (s : gslice A) t : has (TSliceOf t) (gslice_opt f s) -> forall a, a ∈ elems s -> has t (f a).
Proof. destruct s as [l|]; [apply has_slice|]. intros _ a Ha. by apply elem_of_nil in Ha. Qed.
Lemma slice_opt_field {A} (f : A -> gval) (s : gslice A) t items mx lt old :
  at_most mx (len (elems s)) = true -> list_ok lt ((fun a => enc (f a) t) <$> elems s) = true ->
  Forall (fun a => valid items None (enc (f a) t) = true) (elems s) ->
  forall j, mem OmitEmpty (gslice_opt f s) (TSliceOf t) = Some j -> valid (SArray items None mx lt) old j = true.
Proof. destruct s as [l|]; [apply slice_field|done]. Qed.
(** A time that is set has a text the server takes for one. *)
Definition time_known (t : Time) : Prop := Time_IsZero t = false -> date_time (time_text t) = true.
Lemma time_valid t old : time_known t -> Time_IsZero t = false -> valid date_time_text old (enc (GTime t) TTime) = true.
Proof. intros Ht Hz. cbn. rewrite Hz. cbn. unfold string_ok. cbn. by rewrite Ht. Qed.

(** The same for a schema with defaults. *)
Definition missing (df : list (string * jv)) (ms : list (string * jv)) : list (string * jv) :=
  List.filter (fun kd => negb (bool_decide (kd.1 ∈ ms.*1))) df.
Lemma fill_flat props rq mp df rs ms : Forall (fun p : string * schema => no_defaults p.2 = true) props ->
  fill (SObject props None rq mp df rs) (JObj ms) = JObj (ms ++ missing df ms).
Proof.
  intros Hps. cbn. f_equal. rewrite <- (map_id (ms ++ missing df ms)). apply map_ext. intros [k j]. cbn.
  etransitivity; [apply (fill_members props None)|]. f_equal. destruct (lookup_key k props) as [s|] eqn:E; [|done].
  apply lookup_key_elem in E. rewrite Forall_forall in Hps. apply fill_id, (Hps _ E).
Qed.
Lemma lookup_filled k ms df : lookup_key k (ms ++ missing df ms) = match lookup_key k ms with Some v => Some v | None => lookup_key k df end.
Proof.
  assert (forall l, lookup_key k (ms ++ l) = match lookup_key k ms with Some v => Some v | None => lookup_key k l end) as ->.
  { intros l. clear. induction ms as [|[k' v] ms IH]; [done|]. cbn. by destruct (String.eqb k k'). }
  destruct (lookup_key k ms) eqn:E; [done|]. apply lookup_key_None in E. unfold missing.
  induction df as [|[k' v] df IH]; [done|]. cbn. destruct (String.eqb_spec k k') as [<-|Hne].
  - rewrite bool_decide_false by done. cbn. by rewrite String.eqb_refl.
  - case_bool_decide; cbn; [done|]. by rewrite (proj2 (String.eqb_neq k k') Hne).
Qed.
End Fields.

(** The fields of a struct of a type, and a goal per property of its schema. *)
Ltac open_has H :=
  match type of H with has (TStructOf ?fs) (GStruct ?vs) => change (has_fields fs vs) in H; cbv [has_fields] in H; cbn -[has gopt gslice_of gslice_opt] in H; destruct_and? H end.
Ltac by_fields :=
  apply struct_valid; [reflexivity|reflexivity| | |];
  [repeat (apply Forall_cons; split); try apply List.Forall_nil; by eexists
  |repeat (apply Forall_cons; split); try apply List.Forall_nil; cbn -[mem gopt gslice_of gslice_opt CrdSchema.valid enum count64 mbind]
  |try apply List.Forall_nil].
