(* ===== verification/ApiDecode.v ===== *)
(** * What is written is read back

    [json.Unmarshal] into the types of the served objects, and the round trip
    through the API server: encoding any Go value, letting the server prune it
    and decoding what it stores gives the value with what JSON cannot tell apart
    made one ([reread]): an omitted field is the zero one, a pointer to nothing
    is nil, a time has whole seconds. *)
From S2P Require Import Prelude GoLib GoNumbers BudgetTypes CrdSchema CrdManifests ApiJSON ApiFits CrdAdmit.
Set Warnings "-register-all".

(** ** Decoding *)
(** The value a field keeps when its member is missing or null; the Quantity
    of a text is "0". *)
Fixpoint zero (t : jty) : gval :=
  match t with
  | TString => GStr ""
  | TInt32 | TInt64 | TIntOrString => GInt 0
  | TBool => GBool false
  | TTime => GTime zero_Time
  | TText => GStr "0"
  | TMapOf _ | TSliceOf _ | TPtrTo _ => GNil
  | TStructOf fs => GStruct ((fix go (fs : jfields) : list gval := match fs with [] => [] | (_, t) :: fs' => zero t :: go fs' end) fs)
  end.

Section Decode.
Context (time_text : Time -> string) (time_parse : string -> option Time).
Abbreviation enc := (encode time_text).

Fixpoint decode (t : jty) (j : jv) {struct t} : option gval :=
  match t, j with
  | _, JNull => Some (zero t)
  | TString, JStr s | TText, JStr s | TIntOrString, JStr s => Some (GStr s)
  | TInt32, JInt z | TIntOrString, JInt z => if format_range "int32" z then Some (GInt z) else None
  | TInt64, JInt z => if format_range "int64" z then Some (GInt z) else None
  | TBool, JBool b => Some (GBool b)
  | TTime, JStr s => GTime <$> time_parse s
  | TMapOf t, JObj ms => GMap <$> mapM (fun kv => (fun v => (kv.1, v)) <$> decode t kv.2) ms
  | TSliceOf t, JArr js => GSlice <$> mapM (decode t) js
  | TPtrTo t, j => GPtr <$> decode t j
  | TStructOf fs, JObj ms =>
      GStruct <$> (fix go (fs : jfields) : option (list gval) := match fs with
        | [] => Some []
        | (n, _, t) :: fs' => v ← match lookup_key n ms with Some j => decode t j | None => Some (zero t) end; vs ← go fs'; Some (v :: vs)
        end) fs
  | _, _ => None
  end.

(** A time as its text carries it: whole seconds, in the reader's location. *)
Definition carried (here : option string) (t : Time) : Time :=
  if Time_IsZero t then zero_Time else mkTime (t_unix t) 0 here.
(** Every time in the value. *)
Fixpoint times (v : gval) : list Time :=
  match v with
  | GTime t => [t]
  | GPtr v => times v
  | GSlice vs | GStruct vs => concat (map times vs)
  | GMap ms => concat (map (fun kv => times kv.2) ms)
  | _ => []
  end.
(** The zero time, nil, and the pointers to them, which are written as null. *)
Fixpoint nil_value (v : gval) : bool :=
  match v with
  | GNil => true
  | GTime t => Time_IsZero t
  | GPtr v => nil_value v
  | _ => false
  end.
Context (here : option string).
(** What a reader makes of a value once the server kept it. *)
Fixpoint reread (t : jty) (v : gval) {struct t} : gval :=
  match t, v with
  | TTime, GTime x => GTime (carried here x)
  | TMapOf t, GMap ms => GMap (omap (fun kv => if nil_value kv.2 then None else Some (kv.1, reread t kv.2)) ms)
  | TSliceOf t, GSlice vs => GSlice (map (reread t) vs)
  | TPtrTo t, GPtr v => if nil_value v then GNil else GPtr (reread t v)
  | TStructOf fs, GStruct vs =>
      GStruct ((fix go (fs : jfields) vs := match fs, vs with
         | (_, g, t) :: fs', v :: vs' => (if omitted g v then zero t else reread t v) :: go fs' vs'
         | _, _ => []
         end) fs vs)
  | _, v => v
  end.
Definition reread_fields : jfields -> list gval -> list gval :=
  fix go fs vs := match fs, vs with
    | (_, g, t) :: fs', v :: vs' => (if omitted g v then zero t else reread t v) :: go fs' vs'
    | _, _ => []
    end.
(** A value JSON can tell apart from its kin: a field left out is the zero one
    (not an empty slice that is not nil), a pointer or map entry is not null,
    and a time has whole seconds in the reader's location. *)
Fixpoint canonical (t : jty) (v : gval) {struct t} : Prop :=
  match t, v with
  | TTime, GTime x => carried here x = x
  | TMapOf t, GMap ms => Forall (fun kv => canonical t kv.2 /\ nil_value kv.2 = false) ms
  | TSliceOf t, GSlice vs => Forall (canonical t) vs
  | TPtrTo t, GPtr v => canonical t v /\ nil_value v = false
  | TStructOf fs, GStruct vs =>
      (fix go (fs : jfields) vs := match fs, vs with
         | (_, g, t) :: fs', v :: vs' => (canonical t v /\ (omitted g v = true -> v = zero t)) /\ go fs' vs'
         | _, _ => True
         end) fs vs
  | _, _ => True
  end.
(** A time whose text is read as that time. *)
Definition time_kept (x : Time) : Prop := Time_IsZero x = true \/ time_parse (time_text x) = Some (carried here x).

Lemma times_in f vs : Forall f (concat (map times vs)) <-> Forall (fun v => Forall f (times v)) vs.
Proof. rewrite Forall_concat, Forall_map. done. Qed.
Lemma times_in_map f (ms : list (string * gval)) :
  Forall f (concat (map (fun kv => times kv.2) ms)) <-> Forall (fun kv => Forall f (times kv.2)) ms.
Proof. rewrite Forall_concat, Forall_map. done. Qed.

(** ** Round trip *)
Lemma enc_null t v : has t v -> is_null (enc v t) = nil_value v.
Proof.
  revert v. induction t as [| | | | | | |t IH|t IH|t IH|fs IH] using jty_nested_ind; intros v Hv; destruct v; try (by destruct Hv); try done.
  - cbn. by destruct (Time_IsZero t).
  - cbn. by apply IH.
Qed.
Lemma reread_nil t v : has t v -> nil_value v = true -> reread t v = zero t.
Proof.
  destruct t, v; cbn; try tauto; try discriminate.
  - intros _ Hz. unfold carried. by rewrite Hz.
  - by intros _ ->.
Qed.
Lemma canonical_reread t v : has t v -> canonical t v -> reread t v = v.
Proof.
  revert v. induction t as [| | | | | | |t IH|t IH|t IH|fs IH] using jty_nested_ind; intros v Hv Hc; destruct v; try (by destruct Hv); try done.
  - cbn in *. by rewrite Hc.
  - cbn in *. f_equal. induction Hc as [|[k v] ms [Hc Hn] _ IHm]; [done|]. apply Forall_cons in Hv as [Hv Hvs]. cbn in *.
    rewrite Hn. by rewrite (IH v Hv Hc), (IHm Hvs).
  - cbn in *. f_equal. induction Hc as [|v vs Hc _ IHv]; [done|]. apply Forall_cons in Hv as [Hv Hvs]. cbn. by rewrite (IH v Hv Hc), (IHv Hvs).
  - cbn in *. destruct Hc as [Hc ->]. by rewrite (IH v Hv Hc).
  - change (has_fields fs vs) in Hv. change (reread (TStructOf fs) (GStruct vs)) with (GStruct (reread_fields fs vs)). f_equal.
    revert vs Hv Hc. induction IH as [|[[n g] t] fs Ht _ IHf]; intros [|v vs] Hv Hc; try (by destruct Hv).
    destruct Hv as [Hv Hvs], Hc as [[Hc Hz] Hcs]. cbn in *. rewrite (IHf vs Hvs Hcs). f_equal.
    destruct (omitted g v); [by rewrite <- Hz|by apply Ht].
Qed.

Definition stripped (ms : list (string * jv)) : list (string * jv) :=
  omap (fun kv => if is_null kv.2 then None else Some (kv.1, strip kv.2)) ms.
Lemma stripped_keys ms k : k ∈ (stripped ms).*1 -> k ∈ ms.*1.
Proof.
  unfold stripped. induction ms as [|[k' j] ms IH]; [done|]. cbn. destruct (is_null j); cbn; [right; auto|].
  intros [->|?]%elem_of_cons; [left|right; auto].
Qed.
Lemma enc_fields_keys vs fs k : k ∈ (enc_fields time_text vs fs).*1 -> k ∈ field_names fs.
Proof.
  revert fs. induction vs as [|v vs IH]; intros [|[[n g] t] fs]; cbn; try (by intros ?%elem_of_nil).
  destruct (omitted g v); cbn; [right; auto|]. intros [->|?]%elem_of_cons; [left|right; auto].
Qed.
Definition decode_fields (ms : list (string * jv)) : jfields -> option (list gval) :=
  fix go fs := match fs with
    | [] => Some []
    | (n, _, t) :: fs' => v ← match lookup_key n ms with Some j => decode t j | None => Some (zero t) end; vs ← go fs'; Some (v :: vs)
    end.
Lemma decode_fields_weaken p ms fs : p.1 ∉ field_names fs -> decode_fields (p :: ms) fs = decode_fields ms fs.
Proof.
  destruct p as [k j]. induction fs as [|[[n g] t] fs IH]; [done|]. cbn. intros [Hn Hfs]%not_elem_of_cons.
  destruct (String.eqb_spec n k); [congruence|]. by rewrite IH.
Qed.

Lemma enc_fields_cons v vs n g t fs :
  enc_fields time_text (v :: vs) ((n, g, t) :: fs) =
  if omitted g v then enc_fields time_text vs fs else (n, enc v t) :: enc_fields time_text vs fs.
Proof. done. Qed.
Lemma stripped_cons k j ms : stripped ((k, j) :: ms) = if is_null j then stripped ms else (k, strip j) :: stripped ms.
Proof. unfold stripped. cbn. by destruct (is_null j). Qed.
Lemma decode_fields_cons ms n g t fs : decode_fields ms ((n, g, t) :: fs) =
  (v ← match lookup_key n ms with Some j => decode t j | None => Some (zero t) end; vs ← decode_fields ms fs; Some (v :: vs)).
Proof. done. Qed.

Lemma struct_roundtrip fs vs : NoDup (field_names fs) ->
  Forall (fun f => forall v, has f.2 v -> Forall time_kept (times v) -> decode f.2 (strip (enc v f.2)) = Some (reread f.2 v)) fs ->
  has_fields fs vs -> Forall (fun v => Forall time_kept (times v)) vs ->
  decode_fields (stripped (enc_fields time_text vs fs)) fs = Some (reread_fields fs vs).
Proof.
  intros Hnd HF. revert vs. induction HF as [|[[n g] t] fs Ht HF IH]; intros [|v vs]; try done.
  intros [Hv Hvs] [Hc Hcs]%Forall_cons. apply NoDup_cons in Hnd as [Hn Hnd]. cbn [snd] in Ht. change (n ∉ field_names fs) in Hn.
  assert (lookup_key n (stripped (enc_fields time_text vs fs)) = None) as Hout.
  { apply lookup_key_None. intros ?%stripped_keys%enc_fields_keys. done. }
  specialize (IH Hnd vs Hvs Hcs). rewrite enc_fields_cons, decode_fields_cons. cbn [reread_fields]. destruct (omitted g v) eqn:Ho.
  - rewrite Hout, IH. done.
  - rewrite stripped_cons, (enc_null t v Hv). destruct (nil_value v) eqn:Hnull.
    + rewrite Hout, IH. cbn. by rewrite (reread_nil t v).
    + cbn [lookup_key]. rewrite String.eqb_refl, (Ht v Hv Hc), decode_fields_weaken by done. cbn. by rewrite IH.
Qed.

(** Every struct of the type names its fields once. *)
Fixpoint named_once (t : jty) : bool :=
  match t with
  | TMapOf t | TSliceOf t | TPtrTo t => named_once t
  | TStructOf fs => bool_decide (NoDup (field_names fs)) &&
      (fix go (fs : jfields) : bool := match fs with [] => true | (_, t) :: fs' => named_once t && go fs' end) fs
  | _ => true
  end.
Lemma decode_null t : decode t JNull = Some (zero t).
Proof. by destruct t. Qed.
Lemma decode_ptr t j : is_null j = false -> decode (TPtrTo t) j = GPtr <$> decode t j.
Proof. by destruct j. Qed.
Lemma strip_null j : is_null (strip j) = is_null j.
Proof. by destruct j. Qed.
Lemma json_roundtrip t v : named_once t = true -> has t v -> Forall time_kept (times v) -> decode t (strip (enc v t)) = Some (reread t v).
Proof.
  revert v. induction t as [| | | | | | |t IH|t IH|t IH|fs IH] using jty_nested_ind; intros v Hn Hv Hc.
  1-7: destruct v; try (by destruct Hv); try done.
  - cbn -[format_range]. by rewrite (format_range_32 "int32").
  - cbn -[format_range]. by rewrite (format_range_64 "int64").
  - apply Forall_cons in Hc as [Hc _]. cbn [enc encode strip decode reread]. destruct (Time_IsZero t) eqn:Hz; cbn; [unfold carried; by rewrite Hz|].
    destruct Hc as [|Hc]; [congruence|]. by rewrite Hc.
  - cbn -[format_range]. by rewrite (format_range_32 "int32").
  - destruct v; try (by destruct Hv). cbn in Hn, Hv, Hc |- *. apply times_in_map in Hc.
    assert (mapM (fun kv => (fun v => (kv.1, v)) <$> decode t kv.2) (omap (fun kv => if is_null kv.2 then None else Some (kv.1, strip kv.2))
      (map (fun kv => (kv.1, enc kv.2 t)) ms)) = Some (omap (fun kv => if nil_value kv.2 then None else Some (kv.1, reread t kv.2)) ms)) as ->; [|done].
    induction Hv as [|[k v] ms Hv _ IHm]; [done|]. apply Forall_cons in Hc as [Hc Hcs]. cbn in *. rewrite (enc_null t v Hv).
    destruct (nil_value v); [by apply IHm|]. cbn. rewrite (IH v Hn Hv Hc). cbn. by rewrite (IHm Hcs).
  - destruct v; try (by destruct Hv). cbn in Hn, Hv, Hc |- *. rewrite map_map. apply times_in in Hc.
    assert (mapM (decode t) (map (fun v => strip (enc v t)) vs) = Some (map (reread t) vs)) as ->; [|done].
    induction Hv as [|v vs Hv _ IHv]; [done|]. apply Forall_cons in Hc as [Hc Hcs]. cbn. rewrite (IH v Hn Hv Hc). cbn. by rewrite (IHv Hcs).
  - destruct v; try (by destruct Hv). cbn in Hn, Hv, Hc. change (enc (GPtr v) (TPtrTo t)) with (enc v t). cbn [reread].
    pose proof (enc_null t v Hv) as Hnull. destruct (nil_value v); [by destruct (enc v t)|].
    rewrite decode_ptr by (by rewrite strip_null). by rewrite (IH v).
  - destruct v; try (by destruct Hv). cbn in Hn. apply andb_true_iff in Hn as [Hnd%bool_decide_eq_true Hns].
    change (GStruct <$> decode_fields (stripped (enc_fields time_text vs fs)) fs = Some (GStruct (reread_fields fs vs))).
    rewrite struct_roundtrip; [done|done| |done|by apply times_in].
    clear Hnd Hv Hc. induction IH as [|[[n g] t] fs Hf _ IHf]; [constructor|]. apply andb_true_iff in Hns as [Ht Hns].
    constructor; [|by apply IHf]. intros v Hv Hc. by apply Hf.
Qed.
End Decode.

Lemma served_named_once : forallb (fun mf => named_once (TStructOf mf.2)) served = true.
Proof. vm_compute. reflexivity. Qed.
(** A peer seen at a time with nanoseconds, whose endpoints are an empty slice
    that is not nil; the text of a time is its decimal seconds. *)
Definition peer (endpoints : gval) (seen : Time) : gval := GStruct
  [GStruct [GInt 1; GStr "node"; GStr "key"; GStr "10.0.0.1:51820"; endpoints; GStr "10.42.0.0/24"; GSlice [GStr "10.42.0.0/24"]; GStr ""; GInt 25];
   GStruct [GPtr (GTime seen); GBool true; GInt 0]].
Definition seconds_text (t : Time) : string := pretty (t_unix t).
Definition seconds_parse (s : string) : option Time := (fun z => mkTime z 0 (Some "Local")) <$> ParseInt s.

(** ** The pairing messages *)
Definition scalar (t : jty) : bool := match t with TString | TInt32 | TInt64 | TBool | TText | TIntOrString => true | _ => false end.
Definition plain (fs : jfields) : bool :=
  bool_decide (NoDup (field_names fs)) && forallb (fun f => scalar f.2 && match f.1.2 with Always => true | _ => false end) fs.
Lemma plain_canonical here fs vs :
  forallb (fun f : string * tag * jty => scalar f.2 && match f.1.2 with Always => true | _ => false end) fs = true ->
  canonical here (TStructOf fs) (GStruct vs).
Proof.
  revert vs. induction fs as [|[[n g] t] fs IH]; intros [|v vs]; try done. cbn. intros [[Ht Hg]%andb_true_iff Hfs]%andb_true_iff.
  split; [|by apply IH]. split; [by destruct t|]. by destruct g.
Qed.
Lemma plain_times fs vs :
  forallb (fun f : string * tag * jty => scalar f.2 && match f.1.2 with Always => true | _ => false end) fs = true ->
  has_fields fs vs -> times (GStruct vs) = [].
Proof.
  revert vs. induction fs as [|[[n g] t] fs IH]; intros [|v vs]; try done. cbn. intros [[Ht Hg]%andb_true_iff Hfs]%andb_true_iff [Hv Hvs].
  specialize (IH vs Hfs Hvs). cbn in IH. rewrite IH, app_nil_r. by destruct t, v.
Qed.
(** A pairing message, whatever it holds, is read as it was sent. *)
Lemma pairing_roundtrip time_text time_parse fs v : fs ∈ [jf_Beacon; jf_PairRequest; jf_PairResponse] -> has (TStructOf fs) v ->
  decode time_parse (TStructOf fs) (encode time_text v (TStructOf fs)) = Some v.
Proof.
  intros Hfs Hv. assert (plain fs = true /\ solid (TStructOf fs) = true /\ named_once (TStructOf fs) = true) as (Hp & Hs & Hn).
  { rewrite !elem_of_cons in Hfs. repeat destruct Hfs as [->|Hfs]; [done..|]. by apply elem_of_nil in Hfs. }
  assert (strip (encode time_text v (TStructOf fs)) = encode time_text v (TStructOf fs)) as <-.
  { apply no_nulls_stays; [|done]. by destruct (solid_no_nulls _ v Hs Hv) as [[? _]|]. }
  destruct v; try (by destruct Hv). apply andb_true_iff in Hp as [_ Hp].
  rewrite (json_roundtrip time_text time_parse None) by (done || by rewrite (plain_times fs)).
  by rewrite (canonical_reread None) by (done || by apply plain_canonical).
Qed.
