(* ===== verification/CrdPolicy.v ===== *)
(** * The policy manifest and the policy code agree
    (src/config/crd/budget.k3sm.io_nodebudgetpolicies.yaml,
    src/budget/v1alpha1/nodebudgetpolicy.go)

    A NodeBudgetPolicy is checked twice: by the API server against the schema
    and CEL rules of its manifest, and by the producer with [Validate] and
    [ApplyFloors].  The two are proved to accept the same specs. *)
From S2P Require Import Prelude GoLib BudgetVocab BudgetTypes BudgetLadder BudgetPolicy CrdSchema CrdManifests ApiJSON ApiFits CrdAdmit.
Set Warnings "-register-all".

(** ** The Go values *)
Definition SignalThresholds_value (t : SignalThresholds) : gval :=
  GStruct (GStr (thr_Signal t) :: map gint (rungs t ++ releases t ++
    [thr_GraceSeconds t; thr_MinReclaimBytes t; thr_DwellSeconds t; thr_WindowSeconds t])).
Definition BudgetReserves_value (r : BudgetReserves) : gval :=
  GStruct (map gint [rsv_CPUSystemReserveMilli r; rsv_MemSystemReserveBytes r; rsv_MemEvictionReserveBytes r]).
Definition BudgetHistory_value (h : BudgetHistory) : gval :=
  GStruct (map gint [hist_MemoryHalfLifeSeconds h; hist_CPUHalfLifeSeconds h; hist_MarginPermille h]).
(** A map is encoded in the order of its keys. *)
Definition sorted_entries (m : gmap string string) : list (string * string) :=
  SliceStable (fun p q => String.ltb p.1 q.1) (map_to_list m).
Definition NodeBudgetPolicySpec_value (s : NodeBudgetPolicySpec) : gval :=
  GStruct [GMap (prod_map id GStr <$> sorted_entries (ps_NodeSelector s)); GInt (ps_Priority s);
    gslice_of SignalThresholds_value (ps_Thresholds s); gopt BudgetReserves_value (ps_Reserves s); gopt BudgetHistory_value (ps_History s);
    GStr (ps_Mode s); gint (ps_Tier1GraceSeconds s); gint (ps_Tier1HeldSeconds s); gint (ps_Tier1MaxDeliveriesPerHour s);
    gint (ps_Tier1CooloffSeconds s); gint (ps_PSIHeldPermille s)].

Section Policy.
Context (date_time : string -> bool) (time_text : Time -> string).
Abbreviation enc := (encode time_text).
Abbreviation valid := (valid date_time).

(** ** Their members *)
Definition threshold_members (t : SignalThresholds) : list (string * option jv) :=
  [("signal", Some (JStr (thr_Signal t)));
   ("warnThreshold", JInt <$> thr_WarnThreshold t); ("admitStopThreshold", JInt <$> thr_AdmitStopThreshold t);
   ("criticalThreshold", JInt <$> thr_CriticalThreshold t); ("evictSoftThreshold", JInt <$> thr_EvictSoftThreshold t);
   ("evictHardThreshold", JInt <$> thr_EvictHardThreshold t);
   ("warnRelease", JInt <$> thr_WarnRelease t); ("admitStopRelease", JInt <$> thr_AdmitStopRelease t);
   ("criticalRelease", JInt <$> thr_CriticalRelease t); ("evictSoftRelease", JInt <$> thr_EvictSoftRelease t);
   ("evictHardRelease", JInt <$> thr_EvictHardRelease t);
   ("graceSeconds", JInt <$> thr_GraceSeconds t); ("minReclaimBytes", JInt <$> thr_MinReclaimBytes t);
   ("dwellSeconds", JInt <$> thr_DwellSeconds t); ("windowSeconds", JInt <$> thr_WindowSeconds t)].
Lemma threshold_encoded t :
  enc (SignalThresholds_value t) (TStructOf jf_SignalThresholds) = JObj (present (threshold_members t)).
Proof. unfold SignalThresholds_value. rewrite enc_struct. cbn -[mem present gopt]. by rewrite !mem_opt. Qed.

Lemma threshold_lookup t k : lookup_key k (present (threshold_members t)) = mjoin (lookup_key k (threshold_members t)).
Proof. apply lookup_present. by apply (bool_decide_unpack _). Qed.

(** ** A threshold entry *)
Lemma threshold_ints t : Forall2 (holds_int (present (threshold_members t)))
  (rungNames ++ releaseNames ++ ["graceSeconds"; "minReclaimBytes"; "dwellSeconds"; "windowSeconds"])
  (rungs t ++ releases t ++ [thr_GraceSeconds t; thr_MinReclaimBytes t; thr_DwellSeconds t; thr_WindowSeconds t]).
Proof. repeat constructor; unfold holds_int; by rewrite threshold_lookup. Qed.
Lemma threshold_shape : exists rules,
  nodeBudgetPolicy_threshold =
    SObject (("signal", enum Signals) :: ((fun n => (n, count64)) <$> rungNames ++ releaseNames ++
      ["graceSeconds"; "minReclaimBytes"; "dwellSeconds"; "windowSeconds"])) None ["signal"] None [] rules /\
  rule_cel <$> rules = ladder_cels "signal" rungNames releaseNames ++ [swap_cel "signal"] /\
  forallb (fun r => negb (uses_old r.(rule_cel))) rules = true.
Proof. eexists. split; [reflexivity|]. split; reflexivity. Qed.

Lemma threshold_valid old t :
  has (TStructOf jf_SignalThresholds) (SignalThresholds_value t) ->
  valid nodeBudgetPolicy_threshold old (enc (SignalThresholds_value t) (TStructOf jf_SignalThresholds)) = true <-> threshold_ok t.
Proof.
  intros Hh0. assert (ints64 (rungs t ++ releases t ++ [thr_GraceSeconds t; thr_MinReclaimBytes t; thr_DwellSeconds t; thr_WindowSeconds t])) as Hh.
  { apply (has_ints (tail jf_SignalThresholds)); [exact (proj2 Hh0)|by repeat constructor]. }
  rewrite threshold_encoded.
  destruct threshold_shape as (rules & -> & Hrules & Hnow). rewrite valid_object, rules_now, Hrules by done.
  pose proof (threshold_ints t) as Hi. set (ms := present (threshold_members t)) in *.
  assert (lookup_key "signal" ms = Some (JStr (thr_Signal t))) as Hkey by (unfold ms; by rewrite threshold_lookup).
  assert (Forall2 (holds_int ms) rungNames (rungs t)) as Hr by (by apply (Forall2_take _ _ _ 5) in Hi).
  assert (Forall2 (holds_int ms) releaseNames (releases t)) as Hl by (by apply (Forall2_drop _ _ _ 5), (Forall2_take _ _ _ 5) in Hi).
  assert (holds_int ms "evictSoftThreshold" (thr_EvictSoftThreshold t)) as Hs by (apply (Forall2_lookup_lr _ _ _ 3%nat _ _ Hr); reflexivity).
  unfold ladder_cels. rewrite !Forall_app, !Forall_singleton.
  rewrite (order_rules ms old "signal" (thr_Signal t) Hkey _ _ Hr), (release_rules ms old "signal" (thr_Signal t) Hkey _ _ _ _ Hr Hl),
    (swap_rule ms old "signal" _ _ Hkey Hs).
  rewrite Forall_cons, (counts_valid _ _ _ _ _ Hi Hh). cbn [fst snd]. rewrite Hkey, some_member, valid_enum by done.
  rewrite <- signal_cases, !Forall_app.
  split.
  - intros (_ & _ & (Hv & Hn1 & Hn2 & Hn3) & (Ho & Hrel) & Hsw). split; [done|split; try done; intros; cbn; f_equal; auto|].
    rewrite !Forall_cons in *. tauto.
  - intros [Hv [? ? ? ? Hsw] Ht]. split; [by eexists|]. split; [done|]. split; [|split; [done|]].
    + rewrite !Forall_cons in *. tauto.
    + intros E. specialize (Hsw E ltac:(done)). by injection Hsw.
Qed.

(** ** The spec *)
Definition selector_member (m : gmap string string) : option jv :=
  match sorted_entries m with [] => None | l => Some (JObj (prod_map id JStr <$> l)) end.
Abbreviation enc_thr := (fun t => enc (SignalThresholds_value t) (TStructOf jf_SignalThresholds)).
Abbreviation enc_rsv := (fun r => enc (BudgetReserves_value r) (TStructOf jf_BudgetReserves)).
Abbreviation enc_hist := (fun h => enc (BudgetHistory_value h) (TStructOf jf_BudgetHistory)).
Definition policy_members (s : NodeBudgetPolicySpec) : list (string * option jv) :=
  [("nodeSelector", selector_member (ps_NodeSelector s)); ("priority", nonzero (ps_Priority s));
   ("thresholds", elements enc_thr (ps_Thresholds s)); ("reserves", enc_rsv <$> ps_Reserves s); ("history", enc_hist <$> ps_History s);
   ("mode", nonempty (ps_Mode s)); ("tier1GraceSeconds", JInt <$> ps_Tier1GraceSeconds s); ("tier1HeldSeconds", JInt <$> ps_Tier1HeldSeconds s);
   ("tier1MaxDeliveriesPerHour", JInt <$> ps_Tier1MaxDeliveriesPerHour s); ("tier1CooloffSeconds", JInt <$> ps_Tier1CooloffSeconds s);
   ("psiHeldPermille", JInt <$> ps_PSIHeldPermille s)].
Lemma selector_encoded m :
  mem time_text OmitEmpty (GMap (prod_map id GStr <$> sorted_entries m)) (TMapOf TString) = selector_member m.
Proof.
  unfold mem, selector_member. destruct (sorted_entries m) as [|p l]; [done|]. cbn. do 3 f_equal. rewrite map_map.
  apply map_ext. by intros [].
Qed.
Lemma policy_encoded s :
  enc (NodeBudgetPolicySpec_value s) (TStructOf jf_NodeBudgetPolicySpec) = JObj (present (policy_members s)).
Proof.
  unfold NodeBudgetPolicySpec_value. rewrite enc_struct. cbn -[mem present gopt gslice_of jf_SignalThresholds jf_BudgetReserves jf_BudgetHistory].
  by rewrite !mem_opt, mem_slice, selector_encoded.
Qed.
Lemma policy_lookup s k : lookup_key k (present (policy_members s)) = mjoin (lookup_key k (policy_members s)).
Proof. apply lookup_present. by apply (bool_decide_unpack _). Qed.

Definition labels_short (s : NodeBudgetPolicySpec) : Prop := forall k v, ps_NodeSelector s !! k = Some v -> RuneCount v <= 63.
Lemma selector_valid old m :
  (forall j, selector_member m = Some j -> valid (SObject [] (Some (SString (mkstrings [] None (Some 63) None "") [])) [] (Some 32) [] []) old j = true) <->
  Z.of_nat (size m) <= 32 /\ (forall k v, m !! k = Some v -> RuneCount v <= 63).
Proof.
  assert (sorted_entries m ≡ₚ map_to_list m) as Hp by apply SliceStable_perm.
  assert (size m = length (sorted_entries m)) as -> by (rewrite Hp; symmetry; apply length_map_to_list).
  assert ((forall k v, m !! k = Some v -> RuneCount v <= 63) <-> Forall (fun kv => RuneCount kv.2 <= 63) (sorted_entries m)) as ->.
  { rewrite Hp, Forall_forall. split; [intros H [k v] Hin; apply (H k v); by apply elem_of_map_to_list|].
    intros H k v Hk. apply (H (k, v)). by apply elem_of_map_to_list. }
  unfold selector_member. destruct (sorted_entries m) as [|p l] eqn:E; [cbn; split; [intros _; split; [lia|constructor]|done]|].
  rewrite <- E. rewrite some_member, valid_map, Forall_fmap. unfold len. rewrite length_fmap. cbn.
  rewrite Z.leb_le. apply and_iff_compat_l. apply Forall_iff. intros [k v]. cbn. unfold string_ok. cbn -[RuneCount].
  rewrite !andb_true_r. apply Z.leb_le.
Qed.
Lemma reserves_valid old r : has (TStructOf jf_BudgetReserves) (BudgetReserves_value r) ->
  valid nodeBudgetPolicy_reserves old (enc_rsv r) = true <->
  Forall nonneg [rsv_CPUSystemReserveMilli r; rsv_MemSystemReserveBytes r; rsv_MemEvictionReserveBytes r].
Proof.
  apply (counts_object date_time time_text ["cpuSystemReserveMilli"; "memSystemReserveBytes"; "memEvictionReserveBytes"]); [|done].
  by apply (bool_decide_unpack _).
Qed.
Lemma bounds_min o n : (forall z, o = Some z -> at_least (Some n) z = true /\ at_most None z = true) <-> BudgetPolicy.at_least n o.
Proof. unfold BudgetPolicy.at_least. cbn. setoid_rewrite Z.leb_le. naive_solver. Qed.
Lemma bounds_both o n m :
  (forall z, o = Some z -> at_least (Some n) z = true /\ at_most (Some m) z = true) <-> BudgetPolicy.at_least n o /\ BudgetPolicy.at_most m o.
Proof. unfold BudgetPolicy.at_least, BudgetPolicy.at_most. cbn. setoid_rewrite Z.leb_le. naive_solver. Qed.
Lemma permille_bounds o : BudgetPolicy.at_least 0 o /\ BudgetPolicy.at_most 1000 o <-> in_permille o.
Proof. unfold BudgetPolicy.at_least, BudgetPolicy.at_most, in_permille. naive_solver. Qed.

Definition history_members (h : BudgetHistory) : list (string * option jv) :=
  [("memoryHalfLifeSeconds", JInt <$> hist_MemoryHalfLifeSeconds h); ("cpuHalfLifeSeconds", JInt <$> hist_CPUHalfLifeSeconds h);
   ("marginPermille", JInt <$> hist_MarginPermille h)].
Lemma history_encoded h : enc_hist h = JObj (present (history_members h)).
Proof. unfold BudgetHistory_value. rewrite enc_struct. cbn -[mem present gopt]. by rewrite !mem_opt. Qed.
Lemma history_lookup h k : lookup_key k (present (history_members h)) = mjoin (lookup_key k (history_members h)).
Proof. apply lookup_present. by apply (bool_decide_unpack _). Qed.
Lemma history_valid old h : has (TStructOf jf_BudgetHistory) (BudgetHistory_value h) ->
  valid nodeBudgetPolicy_history old (enc_hist h) = true <->
  BudgetPolicy.at_least 1 (hist_MemoryHalfLifeSeconds h) /\ BudgetPolicy.at_least 1 (hist_CPUHalfLifeSeconds h) /\ in_permille (hist_MarginPermille h).
Proof.
  intros (Hm & Hc & Hp & _). pose proof (has_int64 _ Hm). pose proof (has_int64 _ Hc). pose proof (has_int32 _ Hp). rewrite history_encoded. unfold nodeBudgetPolicy_history.
  rewrite valid_object. setoid_rewrite history_lookup.
  rewrite !Forall_cons. cbn [fst snd lookup_key history_members mjoin option_join String.eqb Ascii.eqb Bool.eqb].
  rewrite !int64_member, int32_member, !bounds_min, bounds_both, permille_bounds by done. cbn. naive_solver.
Qed.

Lemma clamped_nil name (o o' : option Z) : clamped_name name o o' = [] <-> o' = o.
Proof. unfold clamped_name. case_bool_decide; naive_solver. Qed.
Lemma max_same n o : Z.max n <$> o = o <-> BudgetPolicy.at_least n o.
Proof.
  unfold BudgetPolicy.at_least. destruct o as [z|]; cbn; [|naive_solver]. split.
  - intros [= H] z' [= <-]. lia.
  - intros H. f_equal. specialize (H z eq_refl). lia.
Qed.
Lemma min_same n o : Z.min n <$> o = o <-> BudgetPolicy.at_most n o.
Proof.
  unfold BudgetPolicy.at_most. destruct o as [z|]; cbn; [|naive_solver]. split.
  - intros [= H] z' [= <-]. lia.
  - intros H. f_equal. specialize (H z eq_refl). lia.
Qed.
Lemma no_clamps s : (ApplyFloors s).2 = [] <->
  BudgetPolicy.at_least 10 (ps_Tier1GraceSeconds s) /\ BudgetPolicy.at_least 10 (ps_Tier1HeldSeconds s) /\
  BudgetPolicy.at_most 6 (ps_Tier1MaxDeliveriesPerHour s) /\ BudgetPolicy.at_least 300 (ps_Tier1CooloffSeconds s).
Proof.
  rewrite ApplyFloors_eq. cbn [snd]. rewrite !app_nil, !clamped_nil, !max_same, min_same. done.
Qed.
Lemma thresholds_valid old l : Forall (fun t => has (TStructOf jf_SignalThresholds) (SignalThresholds_value t)) l ->
  (forall j, elements enc_thr l = Some j -> valid (SArray nodeBudgetPolicy_threshold None (Some 8) (ListMap ["signal"])) old j = true) <->
  len l <= 8 /\ Forall threshold_ok l /\ NoDup (thr_Signal <$> l).
Proof.
  intros Hl. rewrite elements_member, valid_array, (keyed_list _ "signal" thr_Signal), Forall_fmap.
  2: { intros t. rewrite threshold_encoded. cbn [field_of]. by rewrite threshold_lookup. }
  assert (Forall ((fun v => valid nodeBudgetPolicy_threshold None v = true) ∘ enc_thr) l <-> Forall threshold_ok l) as ->.
  { rewrite !Forall_forall. rewrite Forall_forall in Hl. split; intros H t Ht; apply (threshold_valid None t (Hl t Ht)), (H t Ht). }
  unfold len. rewrite length_fmap. cbn. rewrite Z.leb_le.
  destruct l; [|naive_solver]. split; [|done]. intros _. split; [cbn; lia|]. split; constructor.
Qed.

Lemma if_member {A} (f : A -> jv) o (P : A -> Prop) sch old : (forall a, o = Some a -> valid sch old (f a) = true <-> P a) ->
  (forall j, f <$> o = Some j -> valid sch old j = true) <-> (forall a, o = Some a -> P a).
Proof. intros H. rewrite fmap_member. split; intros Ha a Ho; apply (H a Ho), (Ha a Ho). Qed.
Lemma mode_valid old m : (forall j, nonempty m = Some j -> valid (enum ["auto"; "on"; "off"]) old j = true) <-> m = "" \/ KillModeName_Valid m = true.
Proof.
  rewrite nonempty_member. unfold KillModeName_Valid, oneOf. rewrite bool_decide_eq_true, valid_enum by done.
  destruct (decide (m = "")); naive_solver.
Qed.

Lemma policy_valid old s :
  has (TStructOf jf_NodeBudgetPolicySpec) (NodeBudgetPolicySpec_value s) ->
  valid nodeBudgetPolicy_spec old (enc (NodeBudgetPolicySpec_value s) (TStructOf jf_NodeBudgetPolicySpec)) = true <->
  policy_ok s /\ (ApplyFloors s).2 = [] /\ labels_short s.
Proof.
  intros (_ & Hprio & Hthr & Hrsv & Hhist & _ & Hg & Hh & Hd & Hc & Hp & _).
  pose proof (has_int64 _ Hg). pose proof (has_int64 _ Hh). pose proof (has_int32 _ Hd). pose proof (has_int64 _ Hc). pose proof (has_int32 _ Hp).
  change (Forall (has (TStructOf jf_SignalThresholds)) (SignalThresholds_value <$> ps_Thresholds s)) in Hthr. rewrite Forall_fmap in Hthr.
  pose proof (fun r Hr old => reserves_valid old r (proj1 (has_gopt _ _ _) Hrsv r Hr)) as Hrsv'.
  pose proof (fun h Hh old => history_valid old h (proj1 (has_gopt _ _ _) Hhist h Hh)) as Hhist'.
  rewrite policy_encoded. unfold nodeBudgetPolicy_spec. rewrite valid_object.
  setoid_rewrite policy_lookup. rewrite !Forall_cons.
  cbn [fst snd lookup_key policy_members mjoin option_join String.eqb Ascii.eqb Bool.eqb].
  rewrite selector_valid, (thresholds_valid _ _ Hthr), mode_valid, !int64_member, !int32_member, !bounds_min, !bounds_both, permille_bounds by done.
  rewrite (if_member _ _ _ _ _ (fun r Hr => Hrsv' r Hr _)), (if_member _ _ _ _ _ (fun h Hh => Hhist' h Hh _)), no_clamps.
  assert (forall j, nonzero (ps_Priority s) = Some j -> valid (SInteger "int32" None None) (old ≫= field_of "priority") j = true) as Hpr.
  { rewrite nonzero_member. cbn -[format_range]. by rewrite format_range_32. }
  split.
  - intros (_ & _ & ((? & ?) & _ & (? & ? & ?) & ? & ? & ? & ? & ? & (? & ?) & ? & ? & _) & _). split; [by split|]. done.
  - intros ([] & (? & ? & ? & ?) & ?). split_and!; try done; by constructor.
Qed.
Lemma policy_decided old s : has (TStructOf jf_NodeBudgetPolicySpec) (NodeBudgetPolicySpec_value s) ->
  let j := enc (NodeBudgetPolicySpec_value s) (TStructOf jf_NodeBudgetPolicySpec) in
  admission date_time nodeBudgetPolicy_spec old j = if valid nodeBudgetPolicy_spec old j then Some j else None.
Proof.
  intros Hs. cbn zeta. apply (admission_as_is time_text date_time); [done..| |done].
  by destruct (solid_no_nulls (TStructOf jf_NodeBudgetPolicySpec) _ eq_refl Hs) as [[? _]|].
Qed.
End Policy.
Lemma unclamped s : (ApplyFloors s).2 = [] -> ApplyFloors s = (s, []).
Proof.
  intros H. rewrite (surjective_pairing (ApplyFloors s)), H. f_equal. apply (no_clamps (fun _ => true)) in H as (H1 & H2 & H3 & H4).
  apply max_same in H1, H2, H4. apply min_same in H3. rewrite ApplyFloors_eq. destruct s. cbn in *.
  unfold MinTier1GraceSeconds, MinTier1HeldSeconds, MaxTier1DeliveriesPerHour, MinTier1CooloffSeconds. by rewrite H1, H2, H3, H4.
Qed.

(** C8: The API server and the producer agree on policies: a spec is
    admitted, and stored as it is, exactly when [Validate] accepts it,
    [ApplyFloors] has nothing to clamp in it and its label values are label
    values (63 characters); any other spec is refused. *)
Theorem policy_admission_iff date_time time_text old s :
  has (TStructOf jf_NodeBudgetPolicySpec) (NodeBudgetPolicySpec_value s) ->
  let j := encode time_text (NodeBudgetPolicySpec_value s) (TStructOf jf_NodeBudgetPolicySpec) in
  let ok := NodeBudgetPolicySpec_Validate s = None /\ (ApplyFloors s).2 = [] /\ labels_short s in
  (ok <-> admission date_time nodeBudgetPolicy_spec old j = Some j) /\ (~ ok <-> admission date_time nodeBudgetPolicy_spec old j = None).
Proof.
  intros Hs. cbn zeta. rewrite policy_decided, policy_validate_iff by done.
  rewrite <- (policy_valid date_time time_text old s Hs). destruct (valid _ _ _ _); split; split; congruence.
Qed.

Definition linux_policy : NodeBudgetPolicySpec :=
  mkPolicySpec {["kubernetes.io/os" := "linux"]} 10
    [mkThresholds SignalMemoryAvailable (Some 400) (Some 300) None None (Some 100) (Some 500) None None None None (Some 30) None None None]
    None (Some (mkHistory (Some 3600) None (Some 150))) KillModeOn (Some 60) None (Some 3) None None.
Lemma policy_admission_iff_witness :
  let j := encode (fun _ => "") (NodeBudgetPolicySpec_value linux_policy) (TStructOf jf_NodeBudgetPolicySpec) in
  admission (fun _ => true) nodeBudgetPolicy_spec None j = Some j.
Proof.
  apply (policy_admission_iff (fun _ => true) (fun _ => "") None linux_policy).
  - cbn. unfold in_i32, in_i64. repeat (split || constructor || lia).
  - split; [reflexivity|]. split; [reflexivity|]. intros k v. cbn [linux_policy ps_NodeSelector]. intros [<- <-]%lookup_singleton_Some. by apply (bool_decide_unpack _).
Defined.
