(* ===== verification/CrdNodeBudget.v ===== *)
(** * A valid node budget is admitted
    (src/config/crd/budget.k3sm.io_nodebudgets.yaml,
    src/budget/v1alpha1/nodebudget.go)

    The writer of a NodeBudget status runs [NodeBudgetStatus.Validate] and then
    writes the status to the API server, which checks it against the schema
    and rules of the manifest.  Whatever passes the first check passes the
    second and is stored as it was written. *)
From S2P Require Import Prelude GoLib GoStrings GoRunes BudgetVocab BudgetTypes BudgetLadder BudgetPolicy BudgetObservation CrdSchema CrdManifests ApiJSON ApiFits CrdAdmit.
Set Warnings "-register-all".

(** ** The Go values *)
Definition BudgetCapacity_value (c : BudgetCapacity) : gval :=
  GStruct (map gint [cap_CPUCapacityMilli c; cap_CPUSystemReserveMilli c; cap_MemCapacityBytes c; cap_MemSystemReserveBytes c;
    cap_MemEvictionReserveBytes c; cap_MemAllocatableBytes c; cap_SwapTotalBytes c; cap_SwapUsedBytes c;
    cap_CPUPerformanceCores c; cap_CPUEfficiencyCores c] ++ [gopt GBool (cap_GPUPresent c); gint (cap_GPUCount c)]).
Definition BudgetSignal_value (s : BudgetSignal) : gval :=
  GStruct ([GStr (sig_ID s); GStr (sig_Unit s)] ++ map gint (sig_Value s :: rungs s ++ releases s ++
      [sig_GraceSeconds s; sig_MinReclaimBytes s; sig_WindowSeconds s; sig_EtaToNextRungSeconds s]) ++
    [GStr (sig_Trend s); GStr (sig_LimitingResource s); GStr (sig_SharedWith s)]).
Definition BudgetRecommendation_value (r : BudgetRecommendation) : gval := GStruct [gint (rec_SafeAdditionalBytes r); GStr (rec_Basis r)].
Definition KillMode_value (k : KillMode) : gval := GStruct [GStr (km_Mode k); GBool (km_Armed k); GInt (km_ArmingEpisodes k); GStr (km_Reason k)].
Definition WouldKill_value (w : WouldKill) : gval := GStruct [GStr (wk_Band w); GStr (wk_Reason w); GTime (wk_At w)].
Definition WindowCount_value (w : WindowCount) : gval := GStruct [GStr (wc_Window w); GStr (wc_Reason w); GInt (wc_Count w)].
Definition BandCounters_value (c : BandCounters) : gval :=
  GStruct ([GStr (bc_Band c)] ++ map (fun f => GInt f.2) (BandCounters_totals c) ++ [gslice_of WindowCount_value (bc_Windows c)]).
Definition PolicyRef_value (r : PolicyRef) : gval := GStruct [GStr (ref_Name r); GStr (ref_ResourceVersion r)].
Definition AppliedPolicy_value (p : AppliedPolicy) : gval :=
  GStruct [GStr (ref_Name (ap_Ref p)); GStr (ref_ResourceVersion (ap_Ref p)); GStr (ap_Outcome p); gslice_of GStr (ap_ClampedFields p)].
Definition BudgetWriter_value (w : BudgetWriter) : gval := GStruct [GStr (bw_Shape w); GBool (bw_NodeNameExtra w)].
Definition DarwinCompressor_value (c : DarwinCompressor) : gval := GStruct (map gint [dc_BytesUsed c; dc_BytesStored c; dc_SegmentLimitBytes c]).
Definition DarwinSignals_value (d : DarwinSignals) : gval :=
  GStruct [gint (ds_VMPressureLevel d); gint (ds_MemorystatusLevelPermille d); gopt DarwinCompressor_value (ds_Compressor d);
    gint (ds_SwapinsTotal d); gint (ds_SwapoutsTotal d)].
Definition PSILine_value (l : PSILine) : gval := GStruct (map gint [psi_Avg10Permille l; psi_Avg60Permille l; psi_TotalUs l]).
Definition PSIResource_value (r : PSIResource) : gval := GStruct (map (gopt PSILine_value) [psi_Some r; psi_Full r]).
Definition LinuxPSI_value (p : LinuxPSI) : gval := GStruct (map (gopt PSIResource_value) [psi_CPU p; psi_Memory p; psi_IO p]).
Definition LinuxMemoryEvents_value (e : LinuxMemoryEvents) : gval := GStruct (map gint [ev_High e; ev_Max e; ev_OOM e; ev_OOMKill e]).
Definition LinuxSignals_value (l : LinuxSignals) : gval := GStruct [gopt LinuxPSI_value (ls_PSI l); gopt LinuxMemoryEvents_value (ls_MemoryEvents l)].
Definition NodeBudgetObservation_fields (o : NodeBudgetObservation) : list gval :=
  [GTime (obs_ObservedAt o); GInt (obs_ProducerGeneration o); GStr (obs_Platform o); GStr (obs_Level o); GBool (obs_Admit o);
   GStr (obs_AdmitReasonSignal o); gopt GTime (obs_EvictDeadline o); BudgetCapacity_value (obs_Capacity o);
   gslice_opt BudgetSignal_value (obs_Signals o); BudgetRecommendation_value (obs_Recommendation o); KillMode_value (obs_KillMode o);
   gopt WouldKill_value (obs_WouldKill o); gslice_opt BandCounters_value (obs_Counters o); gopt AppliedPolicy_value (obs_Policy o);
   gopt PolicyRef_value (obs_InForce o); gopt DarwinSignals_value (obs_Darwin o); gopt LinuxSignals_value (obs_Linux o)].
Section Admit.
Context (date_time : string -> bool) (time_text : Time -> string).
Abbreviation enc := (encode time_text).
Abbreviation valid := (valid date_time).

(** ** Its parts *)
Lemma count_ok old o : has (TPtrTo TInt64) (gint o) -> nonneg o ->
  forall j, mem time_text OmitEmpty (gint o) (TPtrTo TInt64) = Some j -> valid count64 old j = true.
Proof. intros H. apply count_field. by apply has_int64. Qed.
Lemma permille_ok old o : has (TPtrTo TInt64) (gint o) -> in_permille o ->
  forall j, mem time_text OmitEmpty (gint o) (TPtrTo TInt64) = Some j -> valid (SInteger "int64" (Some 0) (Some 1000)) old j = true.
Proof.
  intros H Ho. rewrite mem_opt. apply (int64_member date_time (Some 0) (Some 1000) old o); [by apply has_int64|].
  intros z Hz. destruct (Ho z Hz). cbn. rewrite !Z.leb_le. lia.
Qed.
Lemma word_ok (V : string -> bool) l old s : (forall x, V x = oneOf x l) -> unset_or V s ->
  forall j, mem time_text OmitEmpty (GStr s) TString = Some j -> valid (enum l) old j = true.
Proof. intros HV [->|H]; [done|]. apply word_opt_field. right. rewrite HV in H. by apply bool_decide_eq_true in H. Qed.
Lemma signal_ok_word old s : unset_or SignalID_Valid s ->
  forall j, mem time_text OmitEmpty (GStr s) TString = Some j -> valid (enum Signals) old j = true.
Proof. intros [->|H]; [done|]. apply word_opt_field. right. by apply signal_cases. Qed.
Lemma chosen_ok (V : string -> bool) l old s : (forall x, V x = oneOf x l) -> V s = true ->
  forall j, mem time_text Always (GStr s) TString = Some j -> valid (enum l) old j = true.
Proof. intros HV H. apply word_member. rewrite HV in H. by apply bool_decide_eq_true in H. Qed.

Lemma capacity_valid old c : capacity_ok c -> has (TStructOf jf_BudgetCapacity) (BudgetCapacity_value c) ->
  valid nodeBudget_capacity old (enc (BudgetCapacity_value c) (TStructOf jf_BudgetCapacity)) = true.
Proof.
  intros [Hn _] Hh. unfold BudgetCapacity_value in *. open_has Hh. rewrite !Forall_cons in Hn. destruct_and? Hn.
  by_fields; try (by apply count_ok). apply bool_ptr_field.
Qed.
Lemma recommendation_valid old r : nonneg (rec_SafeAdditionalBytes r) -> unset_or SignalID_Valid (rec_Basis r) ->
  has (TStructOf jf_BudgetRecommendation) (BudgetRecommendation_value r) ->
  valid nodeBudget_recommendation old (enc (BudgetRecommendation_value r) (TStructOf jf_BudgetRecommendation)) = true.
Proof. intros Hs Hb Hh. unfold BudgetRecommendation_value in *. open_has Hh. by_fields; [by apply count_ok|by apply signal_ok_word]. Qed.
Lemma killmode_valid old k : k = zero_KillMode \/ killmode_ok k -> has (TStructOf jf_KillMode) (KillMode_value k) ->
  valid nodeBudget_killMode old (enc (KillMode_value k) (TStructOf jf_KillMode)) = true.
Proof.
  intros [->|[Hm He Hr]] Hh; [reflexivity|]. unfold KillMode_value in *. open_has Hh. by_fields.
  - apply (word_ok KillModeName_Valid); [done|by right].
  - apply bool_field.
  - rewrite mem_int, nonzero_member. intros _. cbn -[format_range]. rewrite format_range_32 by done. cbn. rewrite andb_true_r. by apply Z.leb_le.
  - by apply (word_ok KillModeReason_Valid).
Qed.
Lemma would_kill_valid old w : would_kill_ok w -> time_known date_time time_text (wk_At w) ->
  valid nodeBudget_wouldKill old (enc (WouldKill_value w) (TStructOf jf_WouldKill)) = true.
Proof.
  intros (Hb & Hr & Ha) Ht. unfold WouldKill_value. by_fields.
  - by apply (chosen_ok Band_Valid).
  - by apply (chosen_ok WouldKillReason_Valid).
  - apply struct_field. by apply time_valid.
Qed.
Lemma window_valid w : window_ok w -> has (TStructOf jf_WindowCount) (WindowCount_value w) ->
  valid nodeBudget_window None (enc (WindowCount_value w) (TStructOf jf_WindowCount)) = true.
Proof.
  intros [Hw Hr Hc] Hh. unfold WindowCount_value in *. open_has Hh. by_fields.
  - by apply (chosen_ok CounterWindow_Valid).
  - by apply (chosen_ok CounterReason_Valid).
  - by apply total_field.
Qed.
Lemma windows_keyed l : NoDup (window_key <$> l) ->
  list_ok (ListMap ["window"; "reason"]) ((fun w => enc (WindowCount_value w) (TStructOf jf_WindowCount)) <$> l) = true.
Proof.
  intros Hn. cbn. apply bool_decide_eq_true. rewrite <- list_fmap_compose. cbn.
  change (NoDup ((fun w => [Some (JStr (wc_Window w)); Some (JStr (wc_Reason w))]) <$> l)).
  rewrite (list_fmap_ext _ ((fun k : string * string => [Some (JStr k.1); Some (JStr k.2)]) ∘ window_key)) by done.
  rewrite list_fmap_compose. apply NoDup_fmap_2; [|done]. by intros [] [] [= -> ->].
Qed.
Lemma counters_valid c : counters_ok c -> has (TStructOf jf_BandCounters) (BandCounters_value c) ->
  valid nodeBudget_counters None (enc (BandCounters_value c) (TStructOf jf_BandCounters)) = true.
Proof.
  intros [Hb Ht Hs Hw Ho] Hh. unfold BandCounters_value, BandCounters_totals in *. open_has Hh. rewrite !Forall_cons in Ht. destruct_and? Ht.
  by_fields; try (by apply total_field); [by apply (chosen_ok Band_Valid)|].
  apply slice_field; [by apply Z.leb_le|by apply windows_keyed|].
  rewrite Forall_forall in Hw |- *. intros w Hin. apply window_valid; [auto|]. by eapply has_slice.
Qed.
Lemma name_field g old s : isObjectName s = true -> forall j, mem time_text g (GStr s) TString = Some j ->
  valid (SString (mkstrings [] None (Some 253) (Some "^[a-z0-9]([-a-z0-9]*[a-z0-9])?(\.[a-z0-9]([-a-z0-9]*[a-z0-9])?)*$") "") []) old j = true.
Proof.
  intros [Hl%Z.leb_le Hm]%andb_true_iff. apply struct_field. cbn -[RuneCount matches]. unfold string_ok. cbn -[RuneCount matches].
  pose proof (RuneCount_slen s). change (matches _ s) with (Regexp.MatchString dns1123SubdomainRE s).
  rewrite Hm, !andb_true_r. apply Z.leb_le. lia.
Qed.
Lemma version_field g old s : resource_version_ok s -> forall j, mem time_text g (GStr s) TString = Some j ->
  valid (SString (mkstrings [] None (Some 64) None "") []) old j = true.
Proof.
  intros Hs. apply struct_field. cbn -[RuneCount]. unfold string_ok. cbn -[RuneCount]. rewrite !andb_true_r. apply Z.leb_le.
  pose proof (RuneCount_slen s). destruct Hs as [->|Hs]; [by vm_compute|]. unfold isPrintableASCII, MaxPolicyResourceVersionBytes in Hs.
  destruct (String.eqb s ""), (Z.ltb_spec 64 (slen s)); try discriminate Hs. lia.
Qed.
Lemma in_force_valid old r : ref_ok r -> valid nodeBudget_inForce old (enc (PolicyRef_value r) (TStructOf jf_PolicyRef)) = true.
Proof. intros [Hn Hv]. unfold PolicyRef_value. by_fields; [by apply name_field|by apply version_field]. Qed.
Lemma applied_valid old p : applied_ok p -> valid nodeBudget_policy old (enc (AppliedPolicy_value p) (TStructOf jf_AppliedPolicy)) = true.
Proof.
  intros [[Hn Hv] Ho Hs Hf Hd]. unfold AppliedPolicy_value. by_fields; [by apply name_field|by apply version_field|by apply (chosen_ok PolicyOutcome_Valid)|].
  apply slice_field; [by apply Z.leb_le| |].
  - cbn. apply bool_decide_eq_true. apply NoDup_fmap_2; [|done]. by intros ? ? [= ->].
  - eapply Forall_impl; [exact Hf|]. cbn. intros f Hf'. unfold PolicyField_Valid, oneOf in Hf'. apply bool_decide_eq_true in Hf'.
    by apply (valid_enum date_time PolicyFields None f).
Qed.
Lemma writer_valid old w : WriterShape_Valid (bw_Shape w) = true ->
  valid nodeBudget_writer old (enc (BudgetWriter_value w) (TStructOf jf_BudgetWriter)) = true.
Proof. intros Hs. unfold BudgetWriter_value. by_fields; [by apply (chosen_ok WriterShape_Valid)|apply bool_field]. Qed.
Lemma compressor_valid old c : compressor_ok c -> has (TStructOf jf_DarwinCompressor) (DarwinCompressor_value c) ->
  valid nodeBudget_compressor old (enc (DarwinCompressor_value c) (TStructOf jf_DarwinCompressor)) = true.
Proof.
  intros Hc Hh. unfold compressor_ok in Hc. rewrite !Forall_cons in Hc. destruct_and? Hc. unfold DarwinCompressor_value in *. open_has Hh.
  by_fields; by apply count_ok.
Qed.
Lemma darwin_valid old d : darwin_ok d -> has (TStructOf jf_DarwinSignals) (DarwinSignals_value d) ->
  valid nodeBudget_darwin old (enc (DarwinSignals_value d) (TStructOf jf_DarwinSignals)) = true.
Proof.
  intros (Hd & Hp & Hc) Hh. rewrite !Forall_cons in Hd. destruct_and? Hd. unfold DarwinSignals_value in *. open_has Hh.
  by_fields; try (by apply count_ok); [by apply permille_ok|].
  apply ptr_field. intros c Hc'. apply compressor_valid; [auto|]. by eapply has_gopt.
Qed.
Lemma events_valid old e : events_ok e -> has (TStructOf jf_LinuxMemoryEvents) (LinuxMemoryEvents_value e) ->
  valid nodeBudget_memoryEvents old (enc (LinuxMemoryEvents_value e) (TStructOf jf_LinuxMemoryEvents)) = true.
Proof.
  intros He Hh. unfold events_ok in He. rewrite !Forall_cons in He. destruct_and? He. unfold LinuxMemoryEvents_value in *. open_has Hh.
  by_fields; by apply count_ok.
Qed.
Definition psi_line_schema : schema :=
  SObject [("avg10Permille", SInteger "int64" (Some 0) (Some 1000)); ("avg60Permille", SInteger "int64" (Some 0) (Some 1000)); ("totalUs", count64)]
    None [] None [] [].
Definition psi_resource_schema : schema := SObject [("some", psi_line_schema); ("full", psi_line_schema)] None [] None [] [].
Lemma psi_line_valid old l : psi_line_ok l -> has (TStructOf jf_PSILine) (PSILine_value l) ->
  valid psi_line_schema old (enc (PSILine_value l) (TStructOf jf_PSILine)) = true.
Proof.
  intros (Ha & Hb & Hc) Hh. unfold PSILine_value in *. open_has Hh. by_fields; [by apply permille_ok..|by apply count_ok].
Qed.
Lemma psi_resource_valid old r : psi_resource_ok r -> has (TStructOf jf_PSIResource) (PSIResource_value r) ->
  valid psi_resource_schema old (enc (PSIResource_value r) (TStructOf jf_PSIResource)) = true.
Proof.
  intros (Ha & Hb) Hh. unfold PSIResource_value in *. open_has Hh.
  by_fields; apply ptr_field; intros l Hl; (apply psi_line_valid; [auto|by eapply has_gopt; [|exact Hl]]).
Qed.
Lemma linux_valid old l : linux_ok l -> has (TStructOf jf_LinuxSignals) (LinuxSignals_value l) ->
  valid nodeBudget_linux old (enc (LinuxSignals_value l) (TStructOf jf_LinuxSignals)) = true.
Proof.
  intros (Hp & He) Hh. unfold LinuxSignals_value in *. open_has Hh. by_fields; apply ptr_field; intros a Ha.
  - destruct (Hp a Ha) as (Hc & Hm & Hi). match goal with H : has _ (gopt LinuxPSI_value _) |- _ => pose proof (proj1 (has_gopt _ _ _) H a Ha) as Hh end.
    unfold LinuxPSI_value in *. open_has Hh.
    by_fields; apply ptr_field; intros r Hr; (apply psi_resource_valid; [auto|by eapply has_gopt; [|exact Hr]]).
  - apply events_valid; [auto|by eapply has_gopt].
Qed.

(** ** Signals *)
Definition unit_cel : cel :=
  CEq (Field Self "unit") (Paren (CIf (CEq (Field Self "id") (LitS SignalMemoryCompressor)) (LitS UnitPermille)
    (CIf (CEq (Field Self "id") (LitS SignalPIDAvailable)) (LitS UnitCount) (LitS UnitBytes)))).
Lemma unit_rule ms old id : lookup_key "id" ms = Some (JStr id) -> lookup_key "unit" ms = Some (JStr (SignalID_Unit id)) ->
  SignalID_Valid id = true -> rule_true (JObj ms) old unit_cel.
Proof.
  intros Hi Hu Hv%signal_cases. unfold rule_true, unit_cel. cbn. rewrite Hi, Hu. cbn.
  unfold Signals, signalCodes in Hv. rewrite !elem_of_cons in Hv. repeat destruct Hv as [->|Hv]; [reflexivity..|]. by apply elem_of_nil in Hv.
Qed.
Lemma signal_shape : exists props rules,
  nodeBudget_signal = SObject props None ["id"; "unit"] None [] rules /\
  props = [("id", enum Signals); ("unit", enum [UnitBytes; UnitPermille; UnitCount])] ++
    ((fun n => (n, count64)) <$> "value" :: rungNames ++ releaseNames ++ ["graceSeconds"; "minReclaimBytes"; "windowSeconds"; "etaToNextRungSeconds"]) ++
    [("trend", enum [TrendFalling; TrendSteady; TrendRising; TrendUnknown]);
     ("limitingResource", enum [ResourceMemory; ResourceSwapfs; ResourceNodefs; ResourceImagefs; ResourcePID; ResourceCPU; ResourceUnknown]);
     ("sharedWith", enum Signals)] /\
  rule_cel <$> rules = unit_cel :: ladder_cels "id" rungNames releaseNames ++ [swap_cel "id"] /\
  forallb (fun r => negb (uses_old r.(rule_cel))) rules = true.
Proof. do 2 eexists. split; [reflexivity|]. split_and!; reflexivity. Qed.

Lemma ladder_rules_hold ms old key sg rs rels soft : lookup_key key ms = Some (JStr sg) ->
  Forall2 (holds_int ms) rungNames rs -> Forall2 (holds_int ms) releaseNames rels -> rs !! 3%nat = Some soft -> ladder_ok sg rs rels ->
  Forall (rule_true (JObj ms) old) (ladder_cels key rungNames releaseNames ++ [swap_cel key]).
Proof.
  intros Hkey Hr Hl H3 [_ _ Ho Hrel Hsw]. unfold ladder_cels. rewrite !Forall_app, Forall_singleton. split_and!.
  - by apply (order_rules ms old key sg Hkey _ _ Hr).
  - by apply (release_rules ms old key sg Hkey _ _ _ _ Hr Hl).
  - assert (holds_int ms "evictSoftThreshold" soft) as Hs by (by apply (Forall2_lookup_lr _ _ _ 3%nat _ _ Hr)).
    apply (swap_rule ms old key sg soft Hkey Hs). intros E. rewrite H3 in Hsw. by injection (Hsw E ltac:(done)).
Qed.

Abbreviation signal_fields s := ([GStr (sig_ID s); GStr (sig_Unit s)] ++ map gint (sig_Value s :: rungs s ++ releases s ++
    [sig_GraceSeconds s; sig_MinReclaimBytes s; sig_WindowSeconds s; sig_EtaToNextRungSeconds s]) ++
  [GStr (sig_Trend s); GStr (sig_LimitingResource s); GStr (sig_SharedWith s)]).
Lemma signal_lookup s k : lookup_key k (present (members time_text (signal_fields s) jf_BudgetSignal)) = member time_text (signal_fields s) jf_BudgetSignal k.
Proof. apply members_lookup; [reflexivity|]. by apply (bool_decide_unpack _). Qed.
Lemma signal_rules s : signal_ok s ->
  Forall (rule_true (JObj (present (members time_text (signal_fields s) jf_BudgetSignal))) None)
    (unit_cel :: ladder_cels "id" rungNames releaseNames ++ [swap_cel "id"]).
Proof.
  intros [Hid Hu _ Hlad _ _ _]. set (ms := present _).
  assert (lookup_key "id" ms = Some (JStr (sig_ID s))) as Hkey by (unfold ms; by rewrite signal_lookup).
  apply Forall_cons. split.
  - apply (unit_rule ms None (sig_ID s)); [done| |done]. unfold ms. rewrite signal_lookup, <- Hu. done.
  - apply (ladder_rules_hold ms None "id" (sig_ID s) (rungs s) (releases s) (sig_EvictSoftThreshold s)); try done;
      repeat constructor; unfold holds_int, ms; rewrite signal_lookup; apply mem_opt.
Qed.
Lemma unit_known id : SignalID_Valid id = true -> SignalID_Unit id ∈ [UnitBytes; UnitPermille; UnitCount].
Proof.
  intros Hv%signal_cases. unfold Signals, signalCodes in Hv. rewrite !elem_of_cons in Hv.
  repeat destruct Hv as [->|Hv]; [by apply (bool_decide_unpack _)..|]. by apply elem_of_nil in Hv.
Qed.
Lemma signal_valid s : signal_ok s -> has (TStructOf jf_BudgetSignal) (BudgetSignal_value s) ->
  valid nodeBudget_signal None (enc (BudgetSignal_value s) (TStructOf jf_BudgetSignal)) = true.
Proof.
  intros Hok Hh. pose proof (signal_rules s Hok) as Hrs. destruct Hok as [Hid Hu Hn Hlad Ht Hr Hs].
  pose proof (lad_rungs_nonneg _ _ _ Hlad) as Hn1. pose proof (lad_releases_nonneg _ _ _ Hlad) as Hn2. cbn in Hn1, Hn2.
  unfold BudgetSignal_rungs, BudgetSignal_releases in Hn1, Hn2.
  rewrite !Forall_cons in Hn, Hn1, Hn2. destruct_and? Hn. destruct_and? Hn1. destruct_and? Hn2.
  unfold BudgetSignal_value in *. open_has Hh.
  destruct signal_shape as (props & rules & -> & -> & Hrules & Hnow). by_fields; try (by apply count_ok).
  - apply word_member. by apply signal_cases.
  - apply word_member. rewrite Hu. by apply unit_known.
  - by apply (word_ok Trend_Valid).
  - by apply (word_ok LimitingResource_Valid).
  - apply signal_ok_word. destruct Hs as [?|[? _]]; [by left|by right].
  - apply rules_now; [done|]. by rewrite Hrules.
Qed.

(** ** Conditions *)
(** The rest of a [metav1.Condition]: its generation, time and message. *)
Record rest := mkrest { rest_generation : Z; rest_time : Time; rest_message : string }.
Definition Condition_value (cr : Condition * rest) : gval :=
  GStruct [GStr (cond_Type cr.1); GStr (cond_Status cr.1); GInt (rest_generation cr.2); GTime (rest_time cr.2);
    GStr (cond_Reason cr.1); GStr (rest_message cr.2)].
(** What apimachinery promises of a condition it set, and the status values the budget uses. *)
Record condition_fits (cr : Condition * rest) : Prop := {
  cf_type : RuneCount (cond_Type cr.1) <= 316;
  cf_status : cond_Status cr.1 = "True" \/ cond_Status cr.1 = "False";
  cf_generation : 0 <= rest_generation cr.2;
  cf_time : Time_IsZero (rest_time cr.2) = false;
  cf_known : time_known date_time time_text (rest_time cr.2);
  cf_reason : RuneCount (cond_Reason cr.1) <= 1024;
  cf_message : RuneCount (rest_message cr.2) <= 32768;
}.
Definition reason_cel (ty : string) (yes no : list string) : cel :=
  COr (CNe (Field Self "type") (LitS ty)) (Paren (CIf (CEq (Field Self "status") (LitS "True")) (CIn (Field Self "reason") yes) (CIn (Field Self "reason") no))).
Lemma existsb_elem r l : r ∈ l -> existsb (String.eqb r) l = true.
Proof. intros H. apply existsb_exists. exists r. rewrite <- list_elem_of_In. split; [done|apply String.eqb_refl]. Qed.
Lemma reason_rule ms old t st r ty yes no :
  lookup_key "type" ms = Some (JStr t) -> lookup_key "status" ms = Some (JStr st) -> lookup_key "reason" ms = Some (JStr r) ->
  (t = ty -> r ∈ if String.eqb st "True" then yes else no) -> rule_true (JObj ms) old (reason_cel ty yes no).
Proof.
  intros Ht Hs Hr H. unfold rule_true, reason_cel. cbn. rewrite Ht, Hs, Hr. cbn.
  destruct (String.eqb_spec t ty) as [E|]; [|done]. cbn. specialize (H E). destruct (String.eqb st "True"); cbn; by rewrite existsb_elem.
Qed.
(** The rule of a type is its closed reason set. *)
Definition reasons_of (ty : string) : cel :=
  reason_cel ty (default [] (ConditionReasons ty "True")) (default [] (ConditionReasons ty "False")).
Lemma reasons_hold ms old c ty : condition_ok c -> cond_Status c = "True" \/ cond_Status c = "False" -> known_condition ty ->
  lookup_key "type" ms = Some (JStr (cond_Type c)) -> lookup_key "status" ms = Some (JStr (cond_Status c)) ->
  lookup_key "reason" ms = Some (JStr (cond_Reason c)) -> rule_true (JObj ms) old (reasons_of ty).
Proof.
  intros Hc Hst Hty Ht Hs Hr. eapply reason_rule; [done..|]. intros E. destruct (Hc ltac:(by rewrite E)) as (rs & Hrs & Hin).
  destruct Hst as [Hst|Hst]; rewrite Hst in Hrs |- *; cbn [String.eqb Ascii.eqb Bool.eqb]; rewrite <- E, Hrs; done.
Qed.
Definition condition_types : list string := [ConditionReporting; ConditionPolicyRejected; ConditionPolicyClamped; ConditionPolicyConflict].
Lemma condition_shape : exists rules,
  nodeBudget_condition = SObject
    [("type", SString (mkstrings [] None (Some 316) None "") []); ("status", enum ["True"; "False"]); ("observedGeneration", count64);
     ("lastTransitionTime", date_time_text); ("reason", SString (mkstrings [] None (Some 1024) None "") []);
     ("message", SString (mkstrings [] None (Some 32768) None "") [])] None ["type"; "status"; "lastTransitionTime"; "reason"] None [] rules /\
  rule_cel <$> rules = reasons_of <$> condition_types /\ forallb (fun r => negb (uses_old r.(rule_cel))) rules = true.
Proof. eexists. split; [reflexivity|]. split; reflexivity. Qed.
Abbreviation condition_fields cr := [GStr (cond_Type (fst cr)); GStr (cond_Status (fst cr)); GInt (rest_generation (snd cr)); GTime (rest_time (snd cr));
  GStr (cond_Reason (fst cr)); GStr (rest_message (snd cr))].
Lemma condition_lookup cr k : lookup_key k (present (members time_text (condition_fields cr) jf_Condition)) = member time_text (condition_fields cr) jf_Condition k.
Proof. apply members_lookup; [reflexivity|]. by apply (bool_decide_unpack _). Qed.
Lemma condition_valid cr : condition_ok cr.1 -> condition_fits cr -> has (TStructOf jf_Condition) (Condition_value cr) ->
  valid nodeBudget_condition None (enc (Condition_value cr) (TStructOf jf_Condition)) = true.
Proof.
  intros Hok Hf Hh. unfold Condition_value in *. open_has Hh. destruct condition_shape as (rules & -> & Hrules & Hnow). by_fields.
  - apply short_field, Hf.
  - apply word_member. destruct (cf_status _ Hf) as [-> | ->]; [left|right; left].
  - apply generation_field; [done|]. apply Hf.
  - apply struct_field, time_valid; apply Hf.
  - apply short_field, Hf.
  - apply short_field, Hf.
  - apply rules_now; [done|]. rewrite Hrules. apply Forall_fmap, Forall_forall. intros ty Hty. unfold compose.
    apply (reasons_hold _ _ (fst cr)); [done|apply Hf|done|..]; exact (condition_lookup cr _).
Qed.

(** ** The status *)
Definition status_fields (o : NodeBudgetObservation) (w : option BudgetWriter) (crs : list (Condition * rest)) : list gval :=
  NodeBudgetObservation_fields o ++ [gopt BudgetWriter_value w; gslice_of Condition_value crs].
(** The status a writer publishes; [rs] is the rest of its conditions. *)
Definition NodeBudgetStatus_value (s : NodeBudgetStatus) (rs : list rest) : gval :=
  GStruct (status_fields (st_Observation s) (st_Writer s) (zip (st_Conditions s) rs)).
Lemma status_lookup o w crs k :
  lookup_key k (present (members time_text (status_fields o w crs) jf_NodeBudgetStatus)) = member time_text (status_fields o w crs) jf_NodeBudgetStatus k.
Proof. apply members_lookup; [reflexivity|]. by apply (bool_decide_unpack _). Qed.

Definition zero_Observation : NodeBudgetObservation :=
  mkObservation zero_Time 0 "" "" false "" None zero_Capacity None zero_Recommendation zero_KillMode None None None None None None.
Lemma IsZero_zero o : Observation_IsZero o = true -> o = zero_Observation.
Proof.
  destruct o as [at' g p l a r d c s rc k w cs po i dw lx]. unfold Observation_IsZero. cbn. rewrite !andb_true_iff, !bool_decide_eq_true.
  intros H. destruct_and? H. destruct s, w, cs, po, i, dw, lx, a; try discriminate.
  repeat match goal with H : String.eqb _ _ = true |- _ => apply String.eqb_eq in H | H : (_ =? _) = true |- _ => apply Z.eqb_eq in H end.
  by subst.
Qed.

Abbreviation has_ f := (Has Self f).
Definition block_cels : list cel :=
  [COr (CNot (has_ "level")) (Paren (CNe (has_ "darwin") (has_ "linux"))); COr (CNot (has_ "level")) (has_ "platform");
   COr (CNot (has_ "platform")) (Paren (CIf (CEq (Field Self "platform") (LitS PlatformDarwin)) (CNot (has_ "linux")) (CNot (has_ "darwin"))))].
Lemma block_rules ms old (p : string) (l : option jv) (d x : option jv) :
  lookup_key "level" ms = l -> lookup_key "platform" ms = nonempty p -> lookup_key "darwin" ms = d -> lookup_key "linux" ms = x ->
  (p = PlatformDarwin /\ is_Some d /\ x = None \/ p = PlatformLinux /\ is_Some x /\ d = None \/ l = None /\ p = "" /\ d = None /\ x = None) ->
  Forall (rule_true (JObj ms) old) block_cels.
Proof.
  intros Hl Hp Hd Hx H. unfold block_cels, rule_true. repeat (apply Forall_cons; split); [..|apply List.Forall_nil]; cbn; rewrite ?Hl, ?Hp, ?Hd, ?Hx;
    destruct l; (destruct H as [(-> & [? ->] & ->)|[(-> & [? ->] & ->)|(? & -> & -> & ->)]]); done.
Qed.
Definition agree_cel : cel :=
  let inForce := Field Self "inForce" in let policy := Field Self "policy" in
  COr (CNot (has_ "policy")) (COr (CEq (Field policy "outcome") (LitS PolicyRejected))
    (Paren (CAnd (has_ "inForce") (CAnd (CEq (Field inForce "name") (Field policy "name"))
      (Paren (CIf (Has inForce "resourceVersion")
        (CAnd (Has policy "resourceVersion") (CEq (Field inForce "resourceVersion") (Field policy "resourceVersion")))
        (CNot (Has policy "resourceVersion")))))))).
Lemma agree_rule ms old (po : option AppliedPolicy) (r : option PolicyRef) :
  lookup_key "policy" ms = (fun p => enc (AppliedPolicy_value p) (TStructOf jf_AppliedPolicy)) <$> po ->
  lookup_key "inForce" ms = (fun r => enc (PolicyRef_value r) (TStructOf jf_PolicyRef)) <$> r ->
  (forall p, po = Some p -> ap_Outcome p <> PolicyRejected -> r = Some (ap_Ref p)) -> rule_true (JObj ms) old agree_cel.
Proof.
  intros Hp Hr H. unfold rule_true, agree_cel. destruct po as [[[n v] out fs]|]; cbn -[encode] in *; rewrite Hp; [|done].
  destruct (decide (out = PolicyRejected)) as [->|Hne]; [by destruct v, fs|]. specialize (H _ eq_refl Hne). cbn in H. subst r.
  rewrite Hr. apply String.eqb_neq in Hne.
  destruct v, fs; cbn; rewrite Hne; cbn; rewrite !String.eqb_refl; cbn; rewrite ?Ascii.eqb_refl, ?String.eqb_refl; done.
Qed.
Lemma status_rules o w crs old : observation_ok o \/ o = zero_Observation ->
  Forall (rule_true (JObj (present (members time_text (status_fields o w crs) jf_NodeBudgetStatus))) old) (block_cels ++ [agree_cel]).
Proof.
  intros Hok. apply Forall_app. split; [|apply Forall_singleton].
  - eapply (block_rules _ _ (obs_Platform o)); rewrite ?status_lookup; [reflexivity..|]. cbn -[mem]. rewrite !mem_opt.
    destruct Hok as [Hok| ->]; [|by do 2 right]. destruct (ook_platform o Hok) as [(-> & [d ->] & ->)|(-> & [l ->] & ->)]; [left|right; left]; naive_solver.
  - apply (agree_rule _ _ (obs_Policy o) (obs_InForce o)); rewrite ?status_lookup; [apply mem_opt..|].
    destruct Hok as [Hok| ->]; [|done]. apply (ook_agree o Hok).
Qed.
Definition times_known (o : NodeBudgetObservation) : Prop :=
  time_known date_time time_text (obs_ObservedAt o) /\ (forall t, obs_EvictDeadline o = Some t -> time_known date_time time_text t) /\
  (forall k, obs_WouldKill o = Some k -> time_known date_time time_text (wk_At k)).
Lemma keyed_signals l :
  NoDup (sig_ID <$> l) -> list_ok (ListMap ["id"]) ((fun s => enc (BudgetSignal_value s) (TStructOf jf_BudgetSignal)) <$> l) = true.
Proof. by apply keyed_list. Qed.
Lemma keyed_counters l :
  NoDup (bc_Band <$> l) -> list_ok (ListMap ["band"]) ((fun c => enc (BandCounters_value c) (TStructOf jf_BandCounters)) <$> l) = true.
Proof. by apply keyed_list. Qed.
Lemma keyed_conditions l :
  NoDup ((fun cr => cond_Type cr.1) <$> l) -> list_ok (ListMap ["type"]) ((fun cr => enc (Condition_value cr) (TStructOf jf_Condition)) <$> l) = true.
Proof. by apply keyed_list. Qed.

(** What the status carries beside the observation. *)
Record extras_ok (w : option BudgetWriter) (crs : list (Condition * rest)) : Prop := {
  ex_writer x : w = Some x -> WriterShape_Valid (bw_Shape x) = true;
  ex_count : len crs <= MaxBudgetConditions;
  ex_once : NoDup ((fun cr => cond_Type cr.1) <$> crs);
  ex_conditions : Forall (fun cr => condition_ok cr.1 /\ condition_fits cr) crs;
}.
Lemma writer_member w crs old : extras_ok w crs ->
  forall j, mem time_text OmitEmpty (gopt BudgetWriter_value w) (TPtrTo (TStructOf jf_BudgetWriter)) = Some j -> valid nodeBudget_writer old j = true.
Proof. intros [Hw _ _ _]. apply ptr_field. intros x Hx. by apply writer_valid, Hw. Qed.
Lemma conditions_member w crs old : extras_ok w crs -> has (TSliceOf (TStructOf jf_Condition)) (gslice_of Condition_value crs) ->
  forall j, mem time_text OmitEmpty (gslice_of Condition_value crs) (TSliceOf (TStructOf jf_Condition)) = Some j ->
    valid (SArray nodeBudget_condition None (Some 8) (ListMap ["type"])) old j = true.
Proof.
  intros [_ Hl Hn Hc] Hh. apply slice_field; [by apply Z.leb_le|by apply keyed_conditions|].
  rewrite Forall_forall in Hc |- *. intros cr Hcr. destruct (Hc cr Hcr). apply condition_valid; [done..|]. by eapply has_slice.
Qed.
Lemma observed_valid o w crs old : observation_ok o -> times_known o -> extras_ok w crs ->
  has (TStructOf jf_NodeBudgetStatus) (GStruct (status_fields o w crs)) ->
  valid nodeBudget_status old (enc (GStruct (status_fields o w crs)) (TStructOf jf_NodeBudgetStatus)) = true.
Proof.
  intros Hok (Ht1 & Ht2 & Ht3) Hx Hh. pose proof (status_rules o w crs old (or_introl Hok)) as Hrs.
  unfold status_fields in *. open_has Hh. destruct Hok. by_fields.
  - apply struct_field. by apply time_valid.
  - by apply generation_field.
  - apply (word_ok Platform_Valid); [done|]. right. apply Platform_Valid_iff. destruct ook_platform as [(? & _)|(? & _)]; tauto.
  - apply (word_ok Level_Valid); [done|by right].
  - apply bool_field.
  - apply signal_ok_word. destruct ook_admit as [?|[? _]]; [by left|by right].
  - apply ptr_field. intros t Ht. apply time_valid; auto.
  - apply struct_field. by apply capacity_valid.
  - apply slice_opt_field; [by apply Z.leb_le|by apply keyed_signals|]. rewrite Forall_forall in ook_signals |- *.
    intros s Hs. apply signal_valid; [auto|]. by eapply has_slice_opt.
  - apply struct_field. by apply recommendation_valid.
  - apply struct_field. by apply killmode_valid.
  - apply ptr_field. intros k Hk. apply would_kill_valid; auto.
  - apply slice_opt_field; [by apply Z.leb_le|by apply keyed_counters|]. rewrite Forall_forall in ook_counters |- *.
    intros c Hc. apply counters_valid; [auto|]. by eapply has_slice_opt.
  - apply ptr_field. intros p Hp. apply applied_valid; auto.
  - apply ptr_field. intros r Hr. apply in_force_valid; auto.
  - by eapply writer_member.
  - by eapply conditions_member.
  - apply ptr_field. intros d Hd. apply darwin_valid; [auto|]. by eapply has_gopt.
  - apply ptr_field. intros l Hl. apply linux_valid; [auto|]. by eapply has_gopt.
  - by apply rules_now.
Qed.
Lemma unobserved_valid w crs old : extras_ok w crs ->
  has (TStructOf jf_NodeBudgetStatus) (GStruct (status_fields zero_Observation w crs)) ->
  valid nodeBudget_status old (enc (GStruct (status_fields zero_Observation w crs)) (TStructOf jf_NodeBudgetStatus)) = true.
Proof.
  intros Hx Hh. pose proof (status_rules zero_Observation w crs old (or_intror eq_refl)) as Hrs.
  unfold status_fields in *. open_has Hh. by_fields; try (by intros j [=]).
  - by eapply writer_member.
  - by eapply conditions_member.
  - by apply rules_now.
Qed.

(** Its encoding holds no null. *)
Lemma conditions_no_nulls crs : Forall condition_fits crs -> no_nulls (TSliceOf (TStructOf jf_Condition)) (gslice_of Condition_value crs) = true.
Proof.
  intros H. apply no_nulls_slice. eapply Forall_impl; [exact H|]. intros cr Hcr. apply no_nulls_struct.
  repeat (apply Forall2_cons; split); [try (by right)..|by constructor]. right. cbn. by rewrite (cf_time _ Hcr).
Qed.
Lemma status_no_nulls o w crs : observation_ok o \/ o = zero_Observation -> Forall condition_fits crs ->
  has (TStructOf jf_NodeBudgetStatus) (GStruct (status_fields o w crs)) ->
  no_nulls (TStructOf jf_NodeBudgetStatus) (GStruct (status_fields o w crs)) = true.
Proof.
  intros Hok Hc Hh. apply no_nulls_struct. unfold status_fields, NodeBudgetObservation_fields, jf_NodeBudgetStatus, jf_NodeBudgetObservation in *.
  open_has Hh. repeat (apply Forall2_cons; split); [..|by constructor]; cbn [fst snd]; try (by apply solid_field).
  - destruct Hok as [Hok| ->]; [right; cbn; by rewrite (ook_at o Hok)|by left].
  - destruct Hok as [Hok| ->]; [|by left]. destruct (obs_EvictDeadline o) as [t|] eqn:E; [right|by left]. cbn. by rewrite (ook_deadline o Hok t E).
  - destruct Hok as [Hok| ->]; [|by left]. destruct (obs_WouldKill o) as [k|] eqn:E; [right|by left].
    destruct (ook_wouldkill o Hok k E) as (_ & _ & Hz). cbn. by rewrite Hz.
  - right. by apply conditions_no_nulls.
Qed.
End Admit.

(** C9: Every status [NodeBudgetStatus.Validate] accepts, observed
    or not, is admitted by the API server and stored as it was written, given
    that its conditions are as apimachinery sets them (one per type) and that a
    set time prints as a date-time. *)
Theorem valid_status_admitted date_time time_text old s rs :
  NodeBudgetStatus_Validate s = None ->
  times_known date_time time_text (st_Observation s) ->
  length rs = length (st_Conditions s) -> NoDup (cond_Type <$> st_Conditions s) ->
  Forall (condition_fits date_time time_text) (zip (st_Conditions s) rs) ->
  has (TStructOf jf_NodeBudgetStatus) (NodeBudgetStatus_value s rs) ->
  let j := encode time_text (NodeBudgetStatus_value s rs) (TStructOf jf_NodeBudgetStatus) in
  admission date_time nodeBudget_status old j = Some j.
Proof.
  intros Hv Ht Hl Hn Hc Hh. apply status_Validate_spec in Hv as (Hw & Hlen & Hcond & Hobs).
  assert (observation_ok (st_Observation s) \/ st_Observation s = zero_Observation) as Hok.
  { destruct Hobs as [Hz|Hok]; [right; by apply IsZero_zero|by left]. }
  assert (extras_ok date_time time_text (st_Writer s) (zip (st_Conditions s) rs)) as Hx.
  { split; [done| | |].
    - unfold len in *. rewrite length_zip_with. lia.
    - change (NoDup (cond_Type ∘ fst <$> zip (st_Conditions s) rs)). rewrite list_fmap_compose, fst_zip by lia. done.
    - apply Forall_and. split; [|done]. apply (Forall_fmap fst condition_ok). by rewrite fst_zip by lia. }
  cbn zeta. unfold NodeBudgetStatus_value in *.
  rewrite (admission_as_is time_text date_time _ _ old _); [|reflexivity..|by apply (status_no_nulls date_time time_text)|done].
  destruct Hok as [Hok|E]; [by rewrite observed_valid|]. rewrite E in *. by rewrite unobserved_valid.
Qed.

Definition sample_status : NodeBudgetStatus :=
  mkStatus sample_observation (Some (mkBudgetWriter WriterOwnNode true)) [mkCondition ConditionReporting "True" ReasonNodeReporting].
Definition sample_rest : list rest := [mkrest 1 (unixTime 1700000001) "the node reports"].
Lemma valid_status_admitted_witness :
  let date_time s := slen s =? 20 in
  let time_text t := if t_unix t =? 1700000000 then "2023-11-14T22:13:20Z" else "2023-11-14T22:13:21Z" in
  let j := encode time_text (NodeBudgetStatus_value sample_status sample_rest) (TStructOf jf_NodeBudgetStatus) in
  NodeBudgetStatus_Validate sample_status = None /\ admission date_time nodeBudget_status None j = Some j.
Proof.
  split; [by vm_compute|]. apply (valid_status_admitted _ _ None sample_status sample_rest).
  - by vm_compute.
  - split_and!; [by intros _|by intros t [=]|by intros k [=]].
  - reflexivity.
  - by apply (bool_decide_unpack _).
  - apply Forall_singleton. split; try (by vm_compute). by left.
  - cbn. unfold in_i32, in_i64. repeat ((cbn; lia) || split || constructor).
Defined.
