(* ===== verification/CrdNet.v ===== *)
(** * Interconnects and mesh peers at the API server
    (src/config/crd/net.k3sm.io_*.yaml, src/net/v1alpha1/interconnect.go,
    src/net/v1/mesh.go)

    A spec the Go code accepts is admitted; the stored interconnect carries
    the fallback the code computes with [EffectiveFallback] when the field was
    left out. *)
From S2P Require Import Prelude GoLib GoStrings GoRunes NetIP Interconnect NetMesh BudgetTypes CrdSchema CrdManifests ApiJSON ApiFits CrdAdmit.
Set Warnings "-register-all".

Definition InterconnectSpec_value (s : InterconnectSpec) : gval :=
  GStruct [GStr (Medium s); GStr (Fallback s); GBool (Enabled s); gslice_of GStr (ExcludedNodes s); gslice_of GStr (AllowedNamespaces s)].
Definition EndpointCandidate_value (c : EndpointCandidate) : gval := GStruct [GStr (ec_Address c); GStr (ec_Link c)].
Definition MeshPeerSpec_value (s : MeshPeerSpec) : gval :=
  GStruct [GInt (mp_SchemaVersion s); GStr (mp_NodeName s); GStr (mp_PublicKey s); GStr (mp_Endpoint s);
    gslice_opt EndpointCandidate_value (mp_Endpoints s); GStr (mp_PodCIDR s); gslice_opt GStr (mp_AllowedIPs s); GStr (mp_MeshIP s);
    GInt (mp_PersistentKeepaliveSeconds s)].

Section Net.
Context (date_time : string -> bool) (time_text : Time -> string).
Abbreviation enc := (encode time_text).
Abbreviation valid := (valid date_time).

(** ** Names *)
Lemma sized_valid mx p old s : s <> "" -> slen s <= mx -> matches p s = true ->
  valid (SString (mkstrings [] (Some 1) (Some mx) p "") []) old (JStr s) = true.
Proof.
  intros Hne Hl Hm. cbn -[RuneCount]. unfold string_ok. cbn -[RuneCount matches]. rewrite Hm, !andb_true_r.
  pose proof (RuneCount_slen s). pose proof (RuneCount_pos s Hne). rewrite andb_true_iff, !Z.leb_le. lia.
Qed.
Lemma node_name_valid old s : isNodeName s = true -> valid (SString (mkstrings [] (Some 1) (Some 253) None "") []) old (JStr s) = true.
Proof. intros [Hl%Z.leb_le Hm%dns_subdomain_nonempty]%andb_true_iff. by apply sized_valid. Qed.
Lemma namespace_valid old s : isNamespaceName s = true ->
  valid (SString (mkstrings [] (Some 1) (Some 63) (Some "^[a-z0-9]([-a-z0-9]*[a-z0-9])?$") "") []) old (JStr s) = true.
Proof. intros [Hl%Z.leb_le Hm]%andb_true_iff. apply sized_valid; [by apply dns_label_nonempty|done|exact Hm]. Qed.
Lemma names_set l : NoDup l -> list_ok ListSet ((fun s => enc (GStr s) TString) <$> l) = true.
Proof. intros Hl. cbn. apply bool_decide_eq_true. apply NoDup_fmap_2; [|done]. by intros ? ? [= ->]. Qed.
Lemma text_field g old s : forall j, mem time_text g (GStr s) TString = Some j -> valid text old j = true.
Proof. apply struct_field. reflexivity. Qed.

(** ** MeshPeer *)
Lemma mesh_peer_valid old s : mesh_peer_ok s -> 1 <= mp_SchemaVersion s -> has (TStructOf jf_MeshPeerSpec) (MeshPeerSpec_value s) ->
  valid meshPeer_spec old (enc (MeshPeerSpec_value s) (TStructOf jf_MeshPeerSpec)) = true.
Proof.
  intros [_ _ _ _ _ [_ Ha]] Hv Hh. unfold MeshPeerSpec_value in *. open_has Hh. by_fields; try apply text_field.
  - intros j [= <-]. cbn -[format_range]. rewrite format_range_32 by done. cbn. rewrite andb_true_r. by apply Z.leb_le.
  - apply slice_opt_field; [done..|]. apply Forall_forall. intros c _. unfold EndpointCandidate_value. by_fields; apply text_field.
  - apply struct_field. destruct (mp_AllowedIPs s) as [l|]; [|done]. change (valid (SArray text (Some 1) None ListAtomic) (old ≫= field_of "allowedIPs")
      (enc (gslice_of GStr l) (TSliceOf TString)) = true). cbn. rewrite map_map, !andb_true_r. apply andb_true_iff. split.
    + unfold len. rewrite length_map. apply Z.leb_le. cbn in Ha. destruct l; [done|]. cbn. lia.
    + apply forallb_Forall, Forall_map, Forall_forall. reflexivity.
  - apply struct_field. cbn -[format_range]. by rewrite format_range_32.
Qed.
Lemma mesh_peer_no_nulls s : mesh_peer_ok s -> has (TStructOf jf_MeshPeerSpec) (MeshPeerSpec_value s) ->
  no_nulls (TStructOf jf_MeshPeerSpec) (MeshPeerSpec_value s) = true.
Proof.
  intros [_ _ _ _ _ [_ Ha]] Hh. unfold MeshPeerSpec_value in *. open_has Hh. apply no_nulls_struct.
  repeat (apply Forall2_cons; split); [..|by constructor]; cbn [fst snd]; try (by apply solid_field).
  right. destruct (mp_AllowedIPs s) as [l|]; [|done]. apply no_nulls_slice. by apply Forall_forall.
Qed.

(** ** Interconnect *)
Definition interconnect_fields (s : InterconnectSpec) : list gval :=
  [GStr (Medium s); GStr (Fallback s); GBool (Enabled s); gslice_of GStr (ExcludedNodes s); gslice_of GStr (AllowedNamespaces s)].
Definition interconnect_defaults : list (string * jv) := [("fallback", JStr InterconnectFallbackNetwork); ("enabled", JBool false)].
Abbreviation interconnect_ms s := (present (members time_text (interconnect_fields s) jf_InterconnectSpec)).
(** The spec as it is stored. *)
Definition stored (s : InterconnectSpec) : jv := JObj (interconnect_ms s ++ missing interconnect_defaults (interconnect_ms s)).
Lemma interconnect_filled s : fill interconnect_spec (enc (InterconnectSpec_value s) (TStructOf jf_InterconnectSpec)) = stored s.
Proof. unfold InterconnectSpec_value. rewrite enc_struct. apply fill_flat. by repeat constructor. Qed.
Lemma stored_member s k : field_of k (stored s) =
  match member time_text (interconnect_fields s) jf_InterconnectSpec k with Some v => Some v | None => lookup_key k interconnect_defaults end.
Proof.
  unfold stored. cbn [field_of]. rewrite lookup_filled, members_lookup; [done|reflexivity|]. by apply (bool_decide_unpack _).
Qed.
Lemma stored_fallback s : field_of "fallback" (stored s) = Some (JStr (InterconnectSpec_EffectiveFallback s)).
Proof. rewrite stored_member. cbn. unfold mem, InterconnectSpec_EffectiveFallback. cbn. by destruct (String.eqb (Fallback s) ""). Qed.
Lemma stored_enabled s : field_of "enabled" (stored s) = Some (JBool (Enabled s)).
Proof. rewrite stored_member. cbn. by destruct (Enabled s). Qed.

Lemma interconnect_valid old s : spec_ok s -> valid interconnect_spec old (stored s) = true.
Proof.
  intros [Hm Hf (Hel & Hed & Hen) (Hal & Had & Han)]. apply valid_object. change (lookup_key ?k ?ms) with (field_of k (JObj ms)).
  change (JObj (interconnect_ms s ++ missing interconnect_defaults (interconnect_ms s))) with (stored s).
  split_and!; [| done | |by constructor].
  - apply Forall_singleton. rewrite stored_member. by eexists.
  - repeat (apply Forall_cons; split); [..|apply List.Forall_nil]; cbn [fst snd].
    + rewrite stored_member. cbn -[CrdSchema.valid enum]. rewrite Hm. intros j [= <-]. apply valid_enum; [done|left].
    + rewrite stored_fallback, some_member, valid_enum by done. unfold InterconnectSpec_EffectiveFallback.
      destruct (String.eqb_spec (Fallback s) ""); set_solver.
    + rewrite stored_enabled, some_member. done.
    + rewrite stored_member. cbn -[CrdSchema.valid mem gslice_of]. intros j.
      destruct (mem _ _ _ _) eqn:E; [intros [= ->]|done]. revert E. apply slice_field; [by apply Z.leb_le|by apply names_set|].
      eapply Forall_impl; [exact Hen|]. intros n. apply node_name_valid.
    + rewrite stored_member. cbn -[CrdSchema.valid mem gslice_of]. intros j.
      destruct (mem _ _ _ _) eqn:E; [intros [= ->]|done]. revert E. apply slice_field; [by apply Z.leb_le|by apply names_set|].
      eapply Forall_impl; [exact Han|]. intros n. apply namespace_valid.
Qed.
End Net.

(** C34: A spec [InterconnectSpec.Validate] accepts is admitted; what
    is stored carries the fallback [EffectiveFallback] computes and the enabled
    flag, explicit, and every other field as it was written. *)
Theorem interconnect_admitted date_time time_text old s :
  InterconnectSpec_Validate s = None ->
  let j := encode time_text (InterconnectSpec_value s) (TStructOf jf_InterconnectSpec) in
  exists j', admission date_time interconnect_spec old j = Some j' /\
    field_of "fallback" j' = Some (JStr (InterconnectSpec_EffectiveFallback s)) /\
    field_of "enabled" j' = Some (JBool (Enabled s)) /\
    (forall k, k <> "fallback" -> k <> "enabled" -> field_of k j' = field_of k j).
Proof.
  intros Hs%InterconnectSpec_Validate_None. cbn zeta. exists (stored time_text s).
  assert (has (TStructOf jf_InterconnectSpec) (InterconnectSpec_value s)) as Hh.
  { repeat split; by apply (slice_has GStr). }
  split_and!; [|apply stored_fallback|apply stored_enabled|].
  - rewrite (admission_filled time_text date_time (TStructOf jf_InterconnectSpec)); [|reflexivity| |done].
    + by rewrite interconnect_filled, interconnect_valid.
    + by destruct (solid_no_nulls (TStructOf jf_InterconnectSpec) _ eq_refl Hh) as [[? _]|].
  - intros k Hf He. rewrite stored_member. unfold InterconnectSpec_value. rewrite enc_members. cbn [field_of].
    rewrite (members_lookup time_text (interconnect_fields s)); [|reflexivity|by apply (bool_decide_unpack _)].
    destruct (member _ _ _ _); [done|]. cbn. by rewrite !(proj2 (String.eqb_neq _ _)).
Qed.
Definition sample_interconnect : InterconnectSpec := mkInterconnectSpec "thunderbolt" "" true ["mac-1"] ["ml"; "default"].
Lemma interconnect_admitted_witness :
  exists j', admission (fun _ => true) interconnect_spec None
    (encode (fun _ => "") (InterconnectSpec_value sample_interconnect) (TStructOf jf_InterconnectSpec)) = Some j' /\
  field_of "fallback" j' = Some (JStr "network").
Proof.
  destruct (interconnect_admitted (fun _ => true) (fun _ => "") None sample_interconnect) as (j' & Hj & Hf & _); [by vm_compute|].
  exists j'. split; [exact Hj|exact Hf].
Defined.

(** C35: A mesh peer [MeshPeerSpec.Validate] accepts is admitted and
    stored as it is written, for the schema versions a release writes (1 and
    up). *)
Theorem mesh_peer_admitted date_time time_text old s :
  MeshPeerSpec_Validate s = None -> 1 <= mp_SchemaVersion s -> has (TStructOf jf_MeshPeerSpec) (MeshPeerSpec_value s) ->
  let j := encode time_text (MeshPeerSpec_value s) (TStructOf jf_MeshPeerSpec) in
  admission date_time meshPeer_spec old j = Some j.
Proof.
  intros Hs%MeshPeerSpec_Validate_None Hv Hh. cbn zeta.
  rewrite admission_as_is; [|reflexivity|reflexivity|by apply mesh_peer_no_nulls|done]. by rewrite mesh_peer_valid.
Qed.
Definition sample_peer : MeshPeerSpec :=
  mkMeshPeerSpec 1 "mac-1" "k" "10.0.0.4:51820" (Some [mkEndpointCandidate "10.0.0.4:51820" EndpointLinkUnderlay]) "100.64.1.0/24" (Some ["100.64.1.0/24"]) "" 25.
Lemma mesh_peer_admitted_witness :
  let j := encode (fun _ => "") (MeshPeerSpec_value sample_peer) (TStructOf jf_MeshPeerSpec) in
  MeshPeerSpec_Validate sample_peer = None /\ admission (fun _ => true) meshPeer_spec None j = Some j.
Proof.
  split; [by vm_compute|]. apply (mesh_peer_admitted _ _ None sample_peer); [by vm_compute|cbn; lia|].
  cbn. unfold in_i32. repeat ((cbn; lia) || split || constructor).
Defined.
