(* ===== verification/CrdUpdate.v ===== *)
(** * Updates at the API server
    (src/config/crd/updates.k3sm.io_updates.yaml, src/updates/v1alpha1/update.go)

    An Update carries two transition rules: its version is immutable and a
    cancel is one-way.  The API server is the only thing that enforces them, so
    they are proved of every sequence of writes to an object: each write is
    pruned, defaulted and validated against what is stored. *)
From S2P Require Import Prelude GoLib GoStrings GoRunes CrdSchema CrdManifests ApiFits CrdAdmit.
Set Warnings "-register-all".

(** ** What is stored of a defaulted object *)
Lemma lookup_map_snd {A B} (f : string -> A -> B) k ms :
  lookup_key k (map (fun kv => (kv.1, f kv.1 kv.2)) ms) = f k <$> lookup_key k ms.
Proof. induction ms as [|[k' v] ms IH]; [done|]. cbn. by destruct (String.eqb_spec k k') as [->|]. Qed.
Lemma fill_lookup props rq mp df rs ms k :
  field_of k (fill (SObject props None rq mp df rs) (JObj ms)) =
  (fun v => match lookup_key k props with Some s => fill s v | None => v end) <$>
    match lookup_key k ms with Some v => Some v | None => lookup_key k df end.
Proof.
  cbn [fill field_of]. rewrite <- lookup_filled, <- (lookup_map_snd (fun k v => match lookup_key k props with Some s => fill s v | None => v end)).
  f_equal. apply map_ext. intros [k' v]. cbn. apply (fill_members props None).
Qed.

Section Stored.
Context (date_time : string -> bool) (props : list (string * schema)) (rq : list string) (mp : option Z) (df : list (string * jv)) (rs : list rule).
Abbreviation S := (SObject props None rq mp df rs).
Lemma valid_object_inv old v : valid date_time S old (fill S v) = true -> exists ms, v = JObj ms.
Proof. destruct v; try discriminate. by eexists. Qed.
(** A property that is required or has a default is there, and is valid. *)
Lemma stored_property old v k s : valid date_time S old (fill S v) = true ->
  lookup_key k props = Some s -> k ∈ rq \/ k ∈ df.*1 ->
  exists x, field_of k (fill S v) = Some (fill s x) /\ valid date_time s (old ≫= field_of k) (fill s x) = true.
Proof.
  intros Hv Hk Hin. destruct (valid_object_inv _ _ Hv) as [ms ->].
  pose proof (fill_lookup props rq mp df rs ms k) as Hf. rewrite Hk in Hf.
  change (fill S (JObj ms)) with (JObj match fill S (JObj ms) with JObj l => l | _ => [] end) in Hv.
  apply valid_object in Hv as (Hrq & _ & Hps & _). rewrite Forall_forall in Hrq. rewrite (Forall_forall _ props) in Hps.
  assert (is_Some (field_of k (fill S (JObj ms)))) as [y Hy].
  { destruct Hin as [Hin|Hin]; [exact (Hrq k Hin)|]. rewrite Hf. apply fmap_is_Some.
    destruct (lookup_key k ms); [by eexists|]. destruct (lookup_key k df) eqn:E; [by eexists|]. by apply lookup_key_None in E. }
  rewrite Hf in Hy. destruct (match lookup_key k ms with Some v => Some v | None => lookup_key k df end) as [x|] eqn:E; [|discriminate].
  exists x. split; [by rewrite Hf|]. apply (Hps (k, s)); [by apply lookup_key_elem|]. change (field_of k (fill S (JObj ms)) = Some (fill s x)). by rewrite Hf.
Qed.
End Stored.

(** ** The object and its writes *)
Definition update_object : schema := SObject [("spec", update_spec); ("status", update_status)] None ["spec"] None [] [].
Lemma update_object_body : (fun v => body v.(ver_schema)) <$> crd_versions updateCRDYAML = [update_object].
Proof. reflexivity. Qed.
Definition spec_field (k : string) (j : jv) : option jv := field_of "spec" j ≫= field_of k.

Section Writes.
Context (date_time : string -> bool).
(** A write is admitted and replaces the object, or is refused. *)
Definition write (stored : option jv) (v : jv) : option jv :=
  match admission date_time update_object stored v with Some j => Some j | None => stored end.
Definition writes (stored : option jv) (vs : list jv) : option jv := foldl write stored vs.

Abbreviation version_schema := (SString (mkstrings [] (Some 1) (Some 128) (Some "^v[0-9]+\.[0-9]+\.[0-9]+(-[0-9A-Za-z.-]+)?$") "") [mkrule "self == oldSelf" (CEq Self OldSelf)]).
Lemma version_valid old x : valid date_time version_schema old x = true ->
  exists v, x = JStr v /\ Regexp.MatchString version_re v = true /\ (forall u, old = Some (JStr u) -> u = v).
Proof.
  destruct x; try discriminate. cbn -[RuneCount matches rule_holds]. intros [Hs [Hr _]%andb_true_iff]%andb_true_iff. exists s. split; [done|]. split.
  - unfold string_ok in Hs. rewrite !andb_true_iff in Hs. destruct Hs as [[[[_ _] _] Hm] _]. exact Hm.
  - intros u ->. unfold rule_holds in Hr. cbn in Hr. destruct (String.eqb_spec s u); [done|discriminate].
Qed.
Lemma cancel_valid old x : valid date_time (SBoolean [mkrule "!oldSelf || self" (COr (CNot OldSelf) Self)]) old x = true ->
  exists b, x = JBool b /\ (old = Some (JBool true) -> b = true).
Proof.
  destruct x; try discriminate. cbn -[rule_holds]. intros [Hr _]%andb_true_iff. exists b. split; [done|]. intros ->. by destruct b.
Qed.

(** What every stored Update is. *)
Record update_stored (j : jv) : Prop := {
  us_version : exists v, spec_field "version" j = Some (JStr v) /\ Regexp.MatchString version_re v = true;
  us_cancel : exists b, spec_field "cancel" j = Some (JBool b);
  us_order : spec_field "strategy" j ≫= field_of "order" = Some (JStr "workers-then-server");
  us_max : exists n, spec_field "strategy" j ≫= field_of "maxUnavailable" = Some (JInt n) /\ 1 <= n;
  us_signature : exists s, spec_field "verify" j ≫= field_of "signature" = Some (JStr s) /\ s ∈ ["if-signed"; "required"];
}.
(** The later object keeps the version, and the cancel once it is set. *)
Definition update_follows (j j' : jv) : Prop :=
  spec_field "version" j' = spec_field "version" j /\
  (spec_field "cancel" j = Some (JBool true) -> spec_field "cancel" j' = Some (JBool true)).

Lemma admitted_valid s old v j : admission date_time s old v = Some j -> j = fill s (prune s v) /\ valid date_time s old j = true.
Proof. unfold admission. destruct (valid date_time s old (fill s (prune s v))) eqn:E; [|done]. by intros [= <-]. Qed.
Lemma admitted_spec old v j : admission date_time update_object old v = Some j ->
  exists x, field_of "spec" j = Some (fill update_spec x) /\ valid date_time update_spec (old ≫= field_of "spec") (fill update_spec x) = true.
Proof.
  intros [-> Hv]%admitted_valid. apply (stored_property date_time _ _ _ _ _ old _ "spec" update_spec Hv); [reflexivity|left; left].
Qed.
Lemma strategy_stored old x : valid date_time update_spec old (fill update_spec x) = true ->
  field_of "strategy" (fill update_spec x) ≫= field_of "order" = Some (JStr "workers-then-server") /\
  (exists n, field_of "strategy" (fill update_spec x) ≫= field_of "maxUnavailable" = Some (JInt n) /\ 1 <= n).
Proof.
  intros Hv. destruct (stored_property date_time _ _ _ _ _ old x "strategy" _ Hv eq_refl ltac:(right; left)) as (y & Hy & Hyv).
  destruct (stored_property date_time _ _ _ _ _ _ y "order" _ Hyv eq_refl ltac:(right; left)) as (o & Ho & Hov).
  destruct (stored_property date_time _ _ _ _ _ _ y "maxUnavailable" _ Hyv eq_refl ltac:(right; right; left)) as (n & Hn & Hnv).
  fold update_spec in Hy. rewrite Hy. cbn [mbind option_bind]. rewrite Ho, Hn. split.
  - destruct o; try discriminate Hov. apply (valid_enum date_time ["workers-then-server"]) in Hov; [|done]. by apply list_elem_of_singleton in Hov as ->.
  - destruct n; try discriminate Hnv. exists z. split; [done|]. cbn -[format_range] in Hnv. rewrite !andb_true_iff, Z.leb_le in Hnv. tauto.
Qed.
Lemma signature_stored old x : valid date_time update_spec old (fill update_spec x) = true ->
  exists s, field_of "verify" (fill update_spec x) ≫= field_of "signature" = Some (JStr s) /\ s ∈ ["if-signed"; "required"].
Proof.
  intros Hv. destruct (stored_property date_time _ _ _ _ _ old x "verify" _ Hv eq_refl ltac:(right; right; left)) as (y & Hy & Hyv).
  destruct (stored_property date_time _ _ _ _ _ _ y "signature" _ Hyv eq_refl ltac:(right; left)) as (o & Ho & Hov).
  fold update_spec in Hy. rewrite Hy. cbn [mbind option_bind]. rewrite Ho. destruct o; try discriminate Hov.
  apply (valid_enum date_time ["if-signed"; "required"]) in Hov; [|done]. eauto.
Qed.
Lemma admitted_stored old v j : admission date_time update_object old v = Some j ->
  update_stored j /\ (forall j0, old = Some j0 -> update_stored j0 -> update_follows j0 j).
Proof.
  intros Hj. destruct (admitted_spec _ _ _ Hj) as (x & Hx & Hv).
  destruct (stored_property date_time _ _ _ _ _ _ x "version" _ Hv eq_refl ltac:(left; left)) as (y & Hy & Hyv).
  destruct (stored_property date_time _ _ _ _ _ _ x "cancel" _ Hv eq_refl ltac:(right; right; right; right; left)) as (c & Hc & Hcv).
  apply version_valid in Hyv as (u & Hyu & Hm & Hsame). apply cancel_valid in Hcv as (b & Hcb & Hone).
  fold update_spec in Hy, Hc. rewrite Hyu in Hy. rewrite Hcb in Hc. destruct (strategy_stored _ _ Hv) as [Ho Hn]. pose proof (signature_stored _ _ Hv) as Hsig.
  assert (forall k, spec_field k j = field_of k (fill update_spec x)) as Hk by (intros k; unfold spec_field; by rewrite Hx).
  split.
  - split; rewrite Hk; eauto.
  - intros j0 -> [(u0 & Hu0 & _) _ _ _ _]. unfold update_follows. rewrite !Hk, Hy, Hc, Hu0. split.
    + do 2 f_equal. symmetry. by apply Hsame.
    + intros Hc0. do 2 f_equal. by apply Hone.
Qed.

(** *** Sequences of writes *)
Lemma follows_refl j : update_follows j j.
Proof. by split. Qed.
Lemma follows_trans j1 j2 j3 : update_follows j1 j2 -> update_follows j2 j3 -> update_follows j1 j3.
Proof. intros [H1 H2] [H3 H4]. split; [congruence|auto]. Qed.
Lemma write_stored st v j : (forall j0, st = Some j0 -> update_stored j0) -> write st v = Some j ->
  update_stored j /\ (forall j0, st = Some j0 -> update_follows j0 j).
Proof.
  unfold write. intros Hst. destruct (admission date_time update_object st v) as [j'|] eqn:E.
  - intros [= <-]. destruct (admitted_stored _ _ _ E) as [H1 H2]. split; [done|]. intros j0 ->. auto.
  - intros ->. split; [auto|]. intros j0 [= <-]. apply follows_refl.
Qed.
Lemma writes_stored st vs j : (forall j0, st = Some j0 -> update_stored j0) -> writes st vs = Some j ->
  update_stored j /\ (forall j0, st = Some j0 -> update_follows j0 j).
Proof.
  unfold writes. revert st. induction vs as [|v vs IH]; intros st Hst; cbn.
  - intros ->. split; [auto|]. intros j0 [= <-]. apply follows_refl.
  - intros Hj. destruct (IH (write st v)) as [H1 H2]; [|done|].
    + intros j0 H0. by apply (write_stored st v).
    + split; [done|]. intros j0 ->. destruct (write (Some j0) v) as [j1|] eqn:E.
      * destruct (write_stored _ _ _ Hst E) as [_ H3]. eapply follows_trans; [by apply H3|by apply H2].
      * unfold write in E. by destruct (admission _ _ _ _).
Qed.
End Writes.

(** C10: Whatever is written to an Update, in any order: an object
    that exists has a well-formed release tag as its version, which never
    changes afterwards; a cancel that was set stays set; and the stored spec is
    complete (order, concurrency, signature policy), though an empty request is
    enough. *)
Theorem update_transitions date_time vs vs' j j' :
  writes date_time None vs = Some j -> writes date_time (Some j) vs' = Some j' ->
  update_stored j /\ update_stored j' /\ update_follows j j'.
Proof.
  intros H1 H2. destruct (writes_stored date_time None vs j) as [Hj _]; [done..|].
  destruct (writes_stored date_time (Some j) vs' j') as [Hj' Hf]; [by intros ? [= <-]|done|]. auto.
Qed.
Definition update_json (version : string) (rest : list (string * jv)) : jv := JObj [("spec", JObj (("version", JStr version) :: rest))].
Lemma update_transitions_witness :
  let d (s : string) := true in
  exists j j', writes d None [update_json "latest" []; update_json "v0.2.0" []] = Some j /\
    writes d (Some j) [update_json "v0.2.0" [("cancel", JBool true)]; update_json "v0.3.0" [("cancel", JBool true)]; update_json "v0.2.0" []] = Some j' /\
    spec_field "version" j' = spec_field "version" j /\ spec_field "cancel" j' = Some (JBool true).
Proof.
  do 2 eexists. split; [vm_compute; reflexivity|]. split; [vm_compute; reflexivity|].
  split; [|reflexivity].
  refine (proj1 (proj2 (proj2 (update_transitions (fun _ => true) [update_json "latest" []; update_json "v0.2.0" []]
    [update_json "v0.2.0" [("cancel", JBool true)]; update_json "v0.3.0" [("cancel", JBool true)]; update_json "v0.2.0" []] _ _ _ _)))); vm_compute; reflexivity.
Defined.
