(* ===== verification/ApiNames.v ===== *)
(** * Published names: groups, keys and enumerations

    The byte strings every consumer has to agree on (src/*/*/labels.go,
    annotations.go, the const blocks of the API types): what they are, that the
    keys are well-formed and distinct, and that every enumeration and limit the
    Go code publishes is the one its manifest enforces. *)
From S2P Require Import Prelude GoLib GoStrings GoRunes BudgetVocab BudgetTypes BudgetPolicy BudgetObservation BudgetAnnotation Interconnect CrdSchema CrdManifests.
Set Warnings "-register-all".

(** ** Groups *)
Definition mlxv1alpha1_GroupName : string := "mlx.k3sm.io".
Definition netv1_GroupName : string := "net.k3sm.io".
Definition netv1alpha1_GroupName : string := "net.k3sm.io".
Definition helmv1_GroupName : string := "helm.k3sm.io".
Definition updatesv1alpha1_GroupName : string := "updates.k3sm.io".
Definition budgetv1alpha1_GroupName : string := "budget.k3sm.io".

(** ** CRD names *)
Definition MLXModelCRDName : string := "mlxmodels.mlx.k3sm.io".
Definition MeshPeerCRDName : string := "meshpeers.net.k3sm.io".
Definition InterconnectCRDName : string := "interconnects.net.k3sm.io".
Definition HelmChartCRDName : string := "helmcharts.helm.k3sm.io".
Definition HelmChartConfigCRDName : string := "helmchartconfigs.helm.k3sm.io".
Definition UpdateCRDName : string := "updates.updates.k3sm.io".
Definition UpdatePolicyCRDName : string := "updatepolicies.updates.k3sm.io".
Definition NodeBudgetCRDName : string := "nodebudgets.budget.k3sm.io".
Definition NodeBudgetPolicyCRDName : string := "nodebudgetpolicies.budget.k3sm.io".

(** ** Labels, resources and annotations *)
Definition LabelRosetta : string := "k3sm.io/rosetta".
Definition LabelRosettaLinux : string := "k3sm.io/rosetta-linux".
Definition AnnotationImagePlatform : string := "k3sm.io/image-platform".
Definition AnnotationInternetEgress : string := "k3sm.io/internet-egress".
Definition AnnotationXcodeToolchain : string := "k3sm.io/xcode-toolchain".
Definition runtimev1_ResourceGPU : string := "k3sm.io/gpu".
Definition runtimev1_LabelGPUPresent : string := "k3sm.io/gpu.present".
Definition LabelGPUMemoryGB : string := "k3sm.io/gpu-memory-gb".
Definition runtimev1_LabelChip : string := "k3sm.io/chip".
Definition runtimev1_LabelChipFamily : string := "k3sm.io/chip-family".
Definition runtimev1_LabelMemoryGB : string := "k3sm.io/memory-gb".
Definition LabelWasm : string := "k3sm.io/wasm".
Definition AnnotationWasmSignature : string := "k3sm.io/wasm-signature".
Definition AnnotationWasmSignatureKey : string := "k3sm.io/wasm-signature-key".
Definition mlxv1alpha1_ResourceGPU : string := "mlx.k3sm.io/gpu".
Definition mlxv1alpha1_LabelGPUPresent : string := "mlx.k3sm.io/gpu.present".
Definition mlxv1alpha1_LabelChip : string := "mlx.k3sm.io/chip".
Definition mlxv1alpha1_LabelChipFamily : string := "mlx.k3sm.io/chip-family".
Definition mlxv1alpha1_LabelMemoryGB : string := "mlx.k3sm.io/memory-gb".
Definition LabelRDMA : string := "k3sm.io/rdma".
Definition AnnotationInterconnectReport : string := "k3sm.io/interconnect-report".
Definition AnnotationInterconnectDesired : string := "k3sm.io/interconnect-desired".
Definition AnnotationInterconnects : string := "k3sm.io/interconnects".
Definition ConditionInterconnectAttached : string := "k3sm.io/InterconnectAttached".
Definition AnnotationUpdateVersion : string := "k3sm.io/update-version".
Definition AnnotationUpdatePayload : string := "k3sm.io/update-payload".
Definition AnnotationUpdatePhase : string := "k3sm.io/update-phase".
Definition AnnotationReleaseChannel : string := "k3sm.io/release-channel".
Definition AnnotationArtifactPaths : string := "k3sm.io/artifact-paths".

(** ** Enumerations of net *)
Definition InterconnectMemberUp : string := "up".
Definition InterconnectMemberDown : string := "down".
Definition InterconnectMemberLoop : string := "loop".

(** ** Enumerations of mlx *)
Definition MLXInterconnectAuto : string := "auto".
Definition MLXInterconnectThunderbolt : string := "thunderbolt".
Definition MLXInterconnectNetwork : string := "network".
Definition MLXDistributedBackendAuto : string := "auto".
Definition MLXDistributedBackendRing : string := "ring".
Definition MLXDistributedBackendJACCL : string := "jaccl".
Definition MLXParallelismTensor : string := "tensor".
Definition MLXParallelismPipeline : string := "pipeline".
Definition MLXModelPhasePending : string := "Pending".
Definition MLXModelPhaseDownloading : string := "Downloading".
Definition MLXModelPhaseLoading : string := "Loading".
Definition MLXModelPhaseReady : string := "Ready".
Definition MLXModelPhaseFailed : string := "Failed".

(** ** Limits of mlx *)
Definition MaxArtifactReferenceLength : Z := 512.
Definition MaxArtifactVariantLength : Z := 128.

(** ** Enumerations of helm *)
Definition FailurePolicyAbort : string := "abort".
Definition FailurePolicyReinstall : string := "reinstall".

(** ** Enumerations of updates *)
Definition UpdateOrderWorkersThenServer : string := "workers-then-server".
Definition UpdateSignatureIfSigned : string := "if-signed".
Definition UpdateSignatureRequired : string := "required".
Definition UpdatePhasePending : string := "Pending".
Definition UpdatePhaseRolling : string := "Rolling".
Definition UpdatePhaseSucceeded : string := "Succeeded".
Definition UpdatePhaseFailed : string := "Failed".
Definition UpdatePhaseCancelled : string := "Cancelled".
Definition UpdateNodePhasePending : string := "Pending".
Definition UpdateNodePhaseSkipped : string := "Skipped".
Definition UpdateNodePhaseCordoning : string := "Cordoning".
Definition UpdateNodePhaseDraining : string := "Draining".
Definition UpdateNodePhaseDownloading : string := "Downloading".
Definition UpdateNodePhaseVerifying : string := "Verifying".
Definition UpdateNodePhaseInstalling : string := "Installing".
Definition UpdateNodePhaseRestarting : string := "Restarting".
Definition UpdateNodePhaseDone : string := "Done".
Definition UpdateNodePhaseFailed : string := "Failed".
Definition UpdateNodePhaseCancelled : string := "Cancelled".
Definition UpdateChannelStable : string := "stable".
Definition UpdateChannelRC : string := "rc".

(** ** Singletons and their conditions *)
Definition UpdateName : string := "current".
Definition UpdatePolicyName : string := "cluster".

(** ** Keys *)
Definition published_keys : list string :=
  [LabelRosetta; LabelRosettaLinux; AnnotationImagePlatform; AnnotationInternetEgress; AnnotationXcodeToolchain; runtimev1_ResourceGPU;
   runtimev1_LabelGPUPresent; LabelGPUMemoryGB; runtimev1_LabelChip; runtimev1_LabelChipFamily; runtimev1_LabelMemoryGB; LabelWasm;
   AnnotationWasmSignature; AnnotationWasmSignatureKey; mlxv1alpha1_ResourceGPU; mlxv1alpha1_LabelGPUPresent; mlxv1alpha1_LabelChip;
   mlxv1alpha1_LabelChipFamily; mlxv1alpha1_LabelMemoryGB; LabelRDMA; AnnotationInterconnectReport; AnnotationInterconnectDesired;
   AnnotationInterconnects; ConditionInterconnectAttached; AnnotationUpdateVersion; AnnotationUpdatePayload; AnnotationUpdatePhase;
   AnnotationReleaseChannel; AnnotationArtifactPaths; AnnotationStatus; AnnotationPolicy; AnnotationBand; AnnotationPage; TaintAdmitStop].

(** A qualified name of the Kubernetes API: a DNS subdomain, a slash and a
    name of at most 63 letters, digits, '-', '_' or '.' that begins and ends
    with a letter or digit. *)
Definition name_part : Regexp.re :=
  Regexp.Seq (Regexp.Opt (Regexp.Seq (Regexp.Class alnum_any) (Regexp.Star (Regexp.Class (fun c => alnum_any c || one_of "-_." c)))))
    (Regexp.Class alnum_any).
Definition qualified (k : string) : bool :=
  match Split k "/" with
  | [prefix; name] => (slen prefix <=? 253) && Regexp.MatchString Regexp.dns_subdomain prefix &&
                      (slen name <=? 63) && Regexp.MatchString name_part name
  | _ => false
  end.
Definition key_prefix (k : string) : string := default "" (head (Split k "/")).

(** ** Enumerations and limits in the manifests *)
Fixpoint at_path (s : schema) (p : list string) : option schema :=
  match p with
  | [] => Some s
  | k :: p' => match s with
               | SObject props _ _ _ _ _ => lookup_key k props ≫= (fun s' => at_path s' p')
               | SArray items _ _ _ => if String.eqb k "[]" then at_path items p' else None
               | _ => None
               end
  end.
Definition enum_of (s : schema) : option (list string) := match s with SString c _ => Some c.(st_enum) | _ => None end.
Inductive bound := MaxItems | MaxProps | MaxLength | Minimum | Maximum.
Definition bound_of (b : bound) (s : schema) : option Z :=
  match b, s with
  | MaxItems, SArray _ _ m _ => m
  | MaxProps, SObject _ _ _ m _ _ => m
  | MaxLength, SString c _ => c.(st_maxLength)
  | Minimum, SInteger _ m _ | Maximum, SInteger _ _ m => m
  | _, _ => None
  end.

(** The constants of each Go string type, at the field of that type. *)
Definition enumerations : list (schema * list string * list string) := [
  (interconnect_spec, ["medium"], [MediumThunderbolt]);
  (interconnect_spec, ["fallback"], [InterconnectFallbackNetwork; InterconnectFallbackNone]);
  (interconnect_status, ["members"; "[]"; "state"], [InterconnectMemberUp; InterconnectMemberDown; InterconnectMemberLoop]);
  (mlxModel_spec, ["distributed"; "interconnect"], [MLXInterconnectAuto; MLXInterconnectThunderbolt; MLXInterconnectNetwork]);
  (mlxModel_spec, ["distributed"; "backend"], [MLXDistributedBackendAuto; MLXDistributedBackendRing; MLXDistributedBackendJACCL]);
  (mlxModel_spec, ["distributed"; "parallelism"], [MLXParallelismTensor; MLXParallelismPipeline]);
  (mlxModel_status, ["phase"], [MLXModelPhasePending; MLXModelPhaseDownloading; MLXModelPhaseLoading; MLXModelPhaseReady; MLXModelPhaseFailed]);
  (helmChart_spec, ["failurePolicy"], [FailurePolicyAbort; FailurePolicyReinstall]);
  (helmChartConfig_spec, ["failurePolicy"], [FailurePolicyAbort; FailurePolicyReinstall]);
  (update_spec, ["strategy"; "order"], [UpdateOrderWorkersThenServer]);
  (update_spec, ["verify"; "signature"], [UpdateSignatureIfSigned; UpdateSignatureRequired]);
  (updatePolicy_spec, ["channel"], [UpdateChannelStable; UpdateChannelRC])].
(** The budget types have a [Valid] method instead. *)
Definition validated : list (schema * list string * (string -> bool)) := [
  (nodeBudget_status, ["platform"], Platform_Valid); (nodeBudget_status, ["level"], Level_Valid);
  (nodeBudget_status, ["admitReasonSignal"], SignalID_Valid); (nodeBudget_status, ["signals"; "[]"; "id"], SignalID_Valid);
  (nodeBudget_status, ["signals"; "[]"; "unit"], SignalUnit_Valid); (nodeBudget_status, ["signals"; "[]"; "trend"], Trend_Valid);
  (nodeBudget_status, ["signals"; "[]"; "limitingResource"], LimitingResource_Valid);
  (nodeBudget_status, ["signals"; "[]"; "sharedWith"], SignalID_Valid); (nodeBudget_status, ["recommendation"; "basis"], SignalID_Valid);
  (nodeBudget_status, ["killMode"; "mode"], KillModeName_Valid); (nodeBudget_status, ["killMode"; "reason"], KillModeReason_Valid);
  (nodeBudget_status, ["wouldKill"; "band"], Band_Valid); (nodeBudget_status, ["wouldKill"; "reason"], WouldKillReason_Valid);
  (nodeBudget_status, ["counters"; "[]"; "band"], Band_Valid);
  (nodeBudget_status, ["counters"; "[]"; "windows"; "[]"; "window"], CounterWindow_Valid);
  (nodeBudget_status, ["counters"; "[]"; "windows"; "[]"; "reason"], CounterReason_Valid);
  (nodeBudget_status, ["policy"; "outcome"], PolicyOutcome_Valid); (nodeBudget_status, ["policy"; "clampedFields"; "[]"], PolicyField_Valid);
  (nodeBudget_status, ["writer"; "shape"], WriterShape_Valid);
  (nodeBudgetPolicy_spec, ["thresholds"; "[]"; "signal"], SignalID_Valid); (nodeBudgetPolicy_spec, ["mode"], KillModeName_Valid)].
Definition limits : list (schema * list string * bound * Z) := [
  (nodeBudgetPolicy_spec, ["thresholds"], MaxItems, MaxPolicyThresholds);
  (nodeBudgetPolicy_spec, ["nodeSelector"], MaxProps, MaxPolicyNodeSelectorLabels);
  (nodeBudgetPolicy_spec, ["tier1GraceSeconds"], Minimum, MinTier1GraceSeconds);
  (nodeBudgetPolicy_spec, ["tier1HeldSeconds"], Minimum, MinTier1HeldSeconds);
  (nodeBudgetPolicy_spec, ["tier1MaxDeliveriesPerHour"], Minimum, MinTier1DeliveriesPerHour);
  (nodeBudgetPolicy_spec, ["tier1MaxDeliveriesPerHour"], Maximum, MaxTier1DeliveriesPerHour);
  (nodeBudgetPolicy_spec, ["tier1CooloffSeconds"], Minimum, MinTier1CooloffSeconds);
  (nodeBudget_status, ["signals"], MaxItems, MaxBudgetSignals); (nodeBudget_status, ["conditions"], MaxItems, MaxBudgetConditions);
  (nodeBudget_status, ["counters"; "[]"; "windows"], MaxItems, MaxWindowCounts);
  (nodeBudget_status, ["policy"; "clampedFields"], MaxItems, MaxClampedFields);
  (nodeBudget_status, ["inForce"; "resourceVersion"], MaxLength, MaxPolicyResourceVersionBytes);
  (interconnect_spec, ["excludedNodes"], MaxItems, MaxInterconnectListItems);
  (interconnect_spec, ["allowedNamespaces"], MaxItems, MaxInterconnectListItems);
  (mlxModel_spec, ["artifact"; "reference"], MaxLength, MaxArtifactReferenceLength);
  (mlxModel_spec, ["artifact"; "variant"], MaxLength, MaxArtifactVariantLength)].
Definition update_phases : list string :=
  [UpdatePhasePending; UpdatePhaseRolling; UpdatePhaseSucceeded; UpdatePhaseFailed; UpdatePhaseCancelled].
Definition node_phases : list string :=
  [UpdateNodePhasePending; UpdateNodePhaseSkipped; UpdateNodePhaseCordoning; UpdateNodePhaseDraining; UpdateNodePhaseDownloading;
   UpdateNodePhaseVerifying; UpdateNodePhaseInstalling; UpdateNodePhaseRestarting; UpdateNodePhaseDone; UpdateNodePhaseFailed; UpdateNodePhaseCancelled].

Definition top_rules (m : manifest) : list cel :=
  crd_versions m ≫= (fun v => match v.(ver_schema) with SObject _ _ _ _ _ rules => rule_cel <$> rules | _ => [] end).

(** ** Theorems *)
(** Every published key is a qualified name under the project's domain or one
    of its groups, and no two of them, of whatever packages, are the same. *)
Theorem keys_well_formed :
  NoDup published_keys /\ Forall (fun k => qualified k = true) published_keys /\
  Forall (fun k => key_prefix k ∈ ["k3sm.io"; mlxv1alpha1_GroupName; budgetv1alpha1_GroupName]) published_keys.
Proof.
  split; [by apply (bool_decide_unpack _)|]. split; apply Forall_forall; intros k Hk.
  - assert (forallb qualified published_keys = true) as H by (vm_compute; reflexivity).
    rewrite forallb_Forall, Forall_forall in H. auto.
  - assert (forallb (fun k => bool_decide (key_prefix k ∈ ["k3sm.io"; mlxv1alpha1_GroupName; budgetv1alpha1_GroupName])) published_keys = true) as H
      by (vm_compute; reflexivity).
    rewrite forallb_Forall, Forall_forall in H. by apply (bool_decide_eq_true _), H.
Qed.

(** The manifests and the code speak one vocabulary: each enum of
    a schema is exactly the constants of the Go type of that field, or the
    words its [Valid] method accepts; each limit of a schema is the published
    Go constant; the phases of updates, which the schema leaves open, fit its
    length; and the one name an UpdatePolicy may have is [UpdatePolicyName]. *)
Theorem manifest_vocabulary :
  Forall (fun e => at_path e.1.1 e.1.2 ≫= enum_of = Some e.2) enumerations /\
  Forall (fun e => exists l, at_path e.1.1 e.1.2 ≫= enum_of = Some l /\ forall w, e.2 w = true <-> w ∈ l) validated /\
  Forall (fun e => at_path e.1.1.1 e.1.1.2 ≫= bound_of e.1.2 = Some e.2) limits /\
  (exists n, at_path update_status ["phase"] ≫= bound_of MaxLength = Some n /\ Forall (fun p => RuneCount p <= n) update_phases) /\
  (exists n, at_path update_status ["nodes"; "[]"; "phase"] ≫= bound_of MaxLength = Some n /\ Forall (fun p => RuneCount p <= n) node_phases) /\
  top_rules updatePolicyCRDYAML = [CEq (Field (Field Self "metadata") "name") (LitS UpdatePolicyName)].
Proof.
  split_and!.
  - repeat (apply Forall_cons; split); try apply List.Forall_nil; reflexivity.
  - repeat (apply Forall_cons; split); try apply List.Forall_nil; (eexists; split; [reflexivity|]); intros w; cbn [snd].
    all: first [apply signal_cases|apply bool_decide_eq_true].
  - repeat (apply Forall_cons; split); try apply List.Forall_nil; reflexivity.
  - eexists. split; [reflexivity|]. by repeat constructor.
  - eexists. split; [reflexivity|]. by repeat constructor.
  - reflexivity.
Qed.
