(* ===== verification/ApiScheme.v ===== *)
(** * Scheme registration and the embedded manifests
    (src/*/*/register.go and its like, src/config/crd/embed.go)

    Each API package registers its types in a [runtime.Scheme] and names its
    group's resources; package crd embeds the manifests and hands out copies.
    The scheme is apimachinery's: [Scheme] states what the packages rely on.
    The registrations of the packages, in whatever order a client composes
    them, are proved not to collide and to cover exactly the manifests. *)
From S2P Require Import Prelude GoLib CrdSchema CrdManifests ApiNames.
Set Warnings "-register-all".

(** ** Groups, versions, kinds *)
Record GroupVersion := mkGV { gv_Group : string; gv_Version : string }.
Record GroupResource := mkGR { gr_Group : string; gr_Resource : string }.
#[global] Instance GroupVersion_eq_dec : EqDecision GroupVersion.
Proof. solve_decision. Defined.
Definition GroupResource_String (r : GroupResource) : string := gr_Resource r +:+ "." +:+ gr_Group r.
(** A Go type: the package that declares it and its name. *)
Record gotype := mkgotype { go_package : string; go_name : string }.
#[global] Instance gotype_eq_dec : EqDecision gotype.
Proof. solve_decision. Defined.

(** ** The scheme

    A scheme keeps the Go type of each kind of a group version, and the type of
    each kind that is the same in every version.  It is observed at these slots,
    and a registration is a list of slots with their types. *)
Inductive slot := At (gv : GroupVersion) (kind : string) | Unversioned (kind : string).
#[global] Instance slot_eq_dec : EqDecision slot.
Proof. solve_decision. Defined.
Abbreviation entry := (slot * gotype)%type.
(** Slots registered twice get the same type. *)
Definition functional (es : list entry) : Prop := forall k t t', (k, t) ∈ es -> (k, t') ∈ es -> t = t'.

(** What [AddKnownTypes] registers: each type under the group version and the
    name of the type. *)
Definition type_entries (gv : GroupVersion) (ts : list gotype) : list entry := (fun t => (At gv (go_name t), t)) <$> ts.
(** What [metav1.AddToGroupVersion] registers: the watch event of the group
    version and of the group's internal version, the request options, and the
    types without a version under the core group's v1. *)
Definition meta (name : string) : gotype := mkgotype "metav1" name.
Definition unversioned_types : list gotype := meta <$> ["Status"; "APIVersions"; "APIGroupList"; "APIGroup"; "APIResourceList"].
Definition meta_entries (gv : GroupVersion) : list entry :=
  (At gv "WatchEvent", meta "WatchEvent") :: (At (mkGV (gv_Group gv) "__internal") "WatchEvent", meta "InternalEvent") ::
  type_entries gv (meta <$> ["ListOptions"; "GetOptions"; "DeleteOptions"; "CreateOptions"; "UpdateOptions"; "PatchOptions"]) ++
  type_entries (mkGV "" "v1") unversioned_types ++ ((fun t => (Unversioned (go_name t), t)) <$> unversioned_types).

Section Observed.
Context {scheme : Type} (registered : scheme -> slot -> option gotype).
(** No slot of the entries holds another type. *)
Definition open_to (es : list entry) (s : scheme) : Prop := forall k t, (k, t) ∈ es -> registered s k = None \/ registered s k = Some t.
(** [s'] is [s] with the entries registered and nothing else changed. *)
Definition adds (es : list entry) (s s' : scheme) : Prop :=
  (forall k t, (k, t) ∈ es -> registered s' k = Some t) /\ (forall k, k ∉ es.*1 -> registered s' k = registered s k).

Lemma adds_nil s : adds [] s s.
Proof. split; [|done]. by intros k t ?%elem_of_nil. Qed.
Lemma adds_cases es s s' k : adds es s s' -> registered s' k = registered s k \/ exists t, (k, t) ∈ es /\ registered s' k = Some t.
Proof.
  intros [Hin Hout]. destruct (decide (k ∈ es.*1)) as [([k' t] & -> & Hk)%list_elem_of_fmap|Hk]; [|left; by apply Hout].
  right. exists t. split; [done|]. by apply Hin.
Qed.
Lemma adds_open es es' s s' : functional (es ++ es') -> open_to (es ++ es') s -> adds es s s' -> open_to es' s'.
Proof.
  intros Hf Ho Ha k t Hk. destruct (adds_cases es s s' k Ha) as [->|(t' & Hk' & ->)].
  - apply Ho, elem_of_app. by right.
  - right. f_equal. apply (Hf k); apply elem_of_app; auto.
Qed.
Lemma adds_app es es' s s1 s2 : functional (es ++ es') -> adds es s s1 -> adds es' s1 s2 -> adds (es ++ es') s s2.
Proof.
  intros Hf Ha Ha'. split.
  - intros k t [Hk|Hk]%elem_of_app; [|by apply Ha'].
    destruct (adds_cases es' s1 s2 k Ha') as [->|(t' & Hk' & ->)]; [by apply Ha|]. f_equal. apply (Hf k); apply elem_of_app; auto.
  - intros k. rewrite fmap_app, not_elem_of_app. intros [Hk Hk']. by rewrite (proj2 Ha'), (proj2 Ha).
Qed.
End Observed.

(** apimachinery's scheme.  A registration panics ([None]) where another type is
    already registered, so it succeeds where its slots are open to it.  A
    group version needs a version; the internal one has another watch event. *)
Class Scheme := {
  scheme : Type;
  registered : scheme -> slot -> option gotype;
  AddKnownTypes : GroupVersion -> list gotype -> scheme -> option scheme;
  AddToGroupVersion : GroupVersion -> scheme -> option scheme;
  add_ok s gv ts : gv_Version gv <> "" -> functional (type_entries gv ts) -> open_to registered (type_entries gv ts) s ->
    exists s', AddKnownTypes gv ts s = Some s' /\ adds registered (type_entries gv ts) s s';
  meta_ok s gv : gv_Version gv <> "" -> gv_Version gv <> "__internal" -> open_to registered (meta_entries gv) s ->
    exists s', AddToGroupVersion gv s = Some s' /\ adds registered (meta_entries gv) s s';
}.

(** ** The packages *)
Record package := mkpackage { pk_name : string; pk_gv : GroupVersion; pk_types : list string }.
Definition budgetv1alpha1 : package :=
  mkpackage "budgetv1alpha1" (mkGV budgetv1alpha1_GroupName "v1alpha1") ["NodeBudget"; "NodeBudgetList"; "NodeBudgetPolicy"; "NodeBudgetPolicyList"].
Definition netv1 : package := mkpackage "netv1" (mkGV netv1_GroupName "v1") ["MeshPeer"; "MeshPeerList"].
Definition netv1alpha1 : package := mkpackage "netv1alpha1" (mkGV netv1alpha1_GroupName "v1alpha1") ["Interconnect"; "InterconnectList"].
Definition mlxv1alpha1 : package := mkpackage "mlxv1alpha1" (mkGV mlxv1alpha1_GroupName "v1alpha1") ["MLXModel"; "MLXModelList"].
Definition helmv1 : package :=
  mkpackage "helmv1" (mkGV helmv1_GroupName "v1") ["HelmChart"; "HelmChartList"; "HelmChartConfig"; "HelmChartConfigList"].
Definition updatesv1alpha1 : package :=
  mkpackage "updatesv1alpha1" (mkGV updatesv1alpha1_GroupName "v1alpha1") ["Update"; "UpdateList"; "UpdatePolicy"; "UpdatePolicyList"].
Definition packages : list package := [budgetv1alpha1; netv1; netv1alpha1; mlxv1alpha1; helmv1; updatesv1alpha1].

Definition Resource (p : package) (resource : string) : GroupResource := mkGR (gv_Group (pk_gv p)) resource.
Definition pk_gotypes (p : package) : list gotype := mkgotype (pk_name p) <$> pk_types p.

(** What a package registers. *)
Definition entries (p : package) : list entry := type_entries (pk_gv p) (pk_gotypes p) ++ meta_entries (pk_gv p).

Lemma functional_app_l es es' : functional (es ++ es') -> functional es.
Proof. intros Hf k t t' Ht Ht'. apply (Hf k); apply elem_of_app; auto. Qed.
Lemma functional_app_r es es' : functional (es ++ es') -> functional es'.
Proof. intros Hf k t t' Ht Ht'. apply (Hf k); apply elem_of_app; auto. Qed.

Section Registration.
Context `{Scheme}.
Abbreviation open_to := (open_to registered).
Abbreviation adds := (adds registered).
Definition addKnownTypes (p : package) (s : scheme) : option scheme :=
  s' ← AddKnownTypes (pk_gv p) (pk_gotypes p) s; AddToGroupVersion (pk_gv p) s'.
(** A client applies the packages' [AddToScheme] one after the other. *)
Fixpoint AddToScheme (ps : list package) (s : scheme) : option scheme :=
  match ps with [] => Some s | p :: ps' => s' ← addKnownTypes p s; AddToScheme ps' s' end.

(** A package's version is one of its own. *)
Definition versioned (p : package) : Prop := gv_Version (pk_gv p) <> "" /\ gv_Version (pk_gv p) <> "__internal".
Lemma addKnownTypes_ok p s : versioned p -> functional (entries p) -> open_to (entries p) s ->
  exists s', addKnownTypes p s = Some s' /\ adds (entries p) s s'.
Proof.
  intros [Hv Hi] Hf Ho. destruct (add_ok s (pk_gv p) (pk_gotypes p) Hv) as (s1 & Hs1 & Ha1).
  - by apply functional_app_l in Hf.
  - intros k t Hk. apply Ho, elem_of_app. by left.
  - destruct (meta_ok s1 (pk_gv p) Hv Hi) as (s2 & Hs2 & Ha2); [by apply (adds_open _ _ _ _ _ Hf Ho)|].
    exists s2. unfold addKnownTypes. rewrite Hs1. split; [done|]. by apply (adds_app _ _ _ _ s1).
Qed.
Lemma AddToScheme_ok ps s : Forall versioned ps -> functional (ps ≫= entries) -> open_to (ps ≫= entries) s ->
  exists s', AddToScheme ps s = Some s' /\ adds (ps ≫= entries) s s'.
Proof.
  revert s. induction ps as [|p ps IH]; intros s Hv Hf Ho; [exists s; split; [done|apply adds_nil]|].
  apply Forall_cons in Hv as [Hp Hps]. rewrite bind_cons in *. pose proof Hf as Hf'.
  destruct (addKnownTypes_ok p s Hp) as (s1 & Hs1 & Ha1); [by apply functional_app_l in Hf|intros k t Hk; apply Ho, elem_of_app; by left|].
  destruct (IH s1 Hps) as (s' & Hs' & Ha'); [by apply functional_app_r in Hf|by apply (adds_open _ _ _ _ _ Hf Ho)|].
  exists s'. cbn. rewrite Hs1. split; [done|]. by apply (adds_app _ _ _ _ s1).
Qed.
End Registration.

(** ** The embedded manifests

    A manifest's file, the constant that names it and the package that
    declares its kind. *)
Record embedded := mkembedded { em_file : string; em_manifest : manifest; em_name : string; em_package : package }.
Definition embeds : list embedded := [
  mkembedded "mlx.k3sm.io_mlxmodels.yaml" mlxModelCRDYAML MLXModelCRDName mlxv1alpha1;
  mkembedded "net.k3sm.io_meshpeers.yaml" meshPeerCRDYAML MeshPeerCRDName netv1;
  mkembedded "net.k3sm.io_interconnects.yaml" interconnectCRDYAML InterconnectCRDName netv1alpha1;
  mkembedded "helm.k3sm.io_helmcharts.yaml" helmChartCRDYAML HelmChartCRDName helmv1;
  mkembedded "helm.k3sm.io_helmchartconfigs.yaml" helmChartConfigCRDYAML HelmChartConfigCRDName helmv1;
  mkembedded "updates.k3sm.io_updates.yaml" updateCRDYAML UpdateCRDName updatesv1alpha1;
  mkembedded "updates.k3sm.io_updatepolicies.yaml" updatePolicyCRDYAML UpdatePolicyCRDName updatesv1alpha1;
  mkembedded "budget.k3sm.io_nodebudgets.yaml" nodeBudgetCRDYAML NodeBudgetCRDName budgetv1alpha1;
  mkembedded "budget.k3sm.io_nodebudgetpolicies.yaml" nodeBudgetPolicyCRDYAML NodeBudgetPolicyCRDName budgetv1alpha1].

(** What package crd promises of a manifest. *)
Record embed_ok (e : embedded) : Prop := {
  eo_file : em_file e = crd_group (em_manifest e) +:+ "_" +:+ crd_plural (em_manifest e) +:+ ".yaml";
  eo_name : em_name e = crd_name (em_manifest e);
  eo_resource : em_name e = GroupResource_String (Resource (em_package e) (crd_plural (em_manifest e)));
  eo_group : crd_group (em_manifest e) = gv_Group (pk_gv (em_package e));
  eo_version : exists v, crd_versions (em_manifest e) = [v] /\ ver_name v = gv_Version (pk_gv (em_package e)) /\
    ver_served v = true /\ ver_storage v = true;
  eo_kind : crd_kind (em_manifest e) ∈ pk_types (em_package e);
  eo_list : crd_listKind (em_manifest e) = crd_kind (em_manifest e) +:+ "List" /\ crd_listKind (em_manifest e) ∈ pk_types (em_package e);
}.
Lemma embeds_ok e : e ∈ embeds -> embed_ok e.
Proof.
  unfold embeds. rewrite !elem_of_cons. intros He. repeat destruct He as [->|He]; [..|by apply elem_of_nil in He].
  all: split; try reflexivity; try (by apply (bool_decide_unpack _)).
  all: try (split; [reflexivity|by apply (bool_decide_unpack _)]).
  all: eexists; split; [reflexivity|]; split_and!; reflexivity.
Qed.
(** No two packages register a slot with different types. *)
Lemma packages_versioned : Forall versioned packages.
Proof. repeat constructor; discriminate. Qed.
Definition agree (es : list entry) : bool := forallb (fun e => forallb (fun e' => negb (bool_decide (e.1 = e'.1)) || bool_decide (e.2 = e'.2)) es) es.
Lemma agree_functional es : agree es = true -> functional es.
Proof.
  unfold agree. rewrite forallb_Forall, Forall_forall. intros H k t t' Ht Ht'. specialize (H _ Ht). cbn beta in H.
  rewrite forallb_Forall, Forall_forall in H. specialize (H _ Ht'). cbn in H. rewrite bool_decide_true in H by done. by apply bool_decide_eq_true in H.
Qed.
Lemma packages_functional : functional (packages ≫= entries).
Proof. apply agree_functional. vm_compute. reflexivity. Qed.
Lemma bind_entries ps k : k ∈ (ps ≫= entries) <-> exists p, p ∈ ps /\ k ∈ entries p.
Proof. rewrite list_elem_of_bind. naive_solver. Qed.

#[global] Instance package_eq_dec : EqDecision package.
Proof. solve_decision. Defined.
Definition declares (p : package) (k : string) (e : embedded) : bool :=
  bool_decide (em_package e = p) && (String.eqb k (crd_kind (em_manifest e)) || String.eqb k (crd_listKind (em_manifest e))).
Lemma kinds_embedded : forallb (fun p => forallb (fun k => existsb (declares p k) embeds) (pk_types p)) packages = true.
Proof. vm_compute. reflexivity. Qed.
Lemma kind_embedded p k : p ∈ packages -> k ∈ pk_types p ->
  exists e, e ∈ embeds /\ em_package e = p /\ (k = crd_kind (em_manifest e) \/ k = crd_listKind (em_manifest e)).
Proof.
  intros Hp Hk. pose proof kinds_embedded as H. rewrite forallb_Forall, Forall_forall in H. specialize (H p Hp). cbn beta in H.
  rewrite forallb_Forall, Forall_forall in H. specialize (H k Hk). cbn beta in H.
  apply existsb_exists in H as (e & He & [Hpk Hkk]%andb_true_iff). apply bool_decide_eq_true in Hpk.
  rewrite orb_true_iff, !String.eqb_eq in Hkk. exists e. rewrite list_elem_of_In. auto.
Qed.

Lemma embed_package e : e ∈ embeds -> em_package e ∈ packages.
Proof.
  unfold embeds, packages. rewrite !elem_of_cons. intros He.
  repeat destruct He as [->|He]; [..|by apply elem_of_nil in He]; cbn; tauto.
Qed.
Lemma package_kind p k : k ∈ pk_types p -> (At (pk_gv p) k, mkgotype (pk_name p) k) ∈ entries p.
Proof.
  intros Hk. apply elem_of_app. left. apply list_elem_of_fmap. exists (mkgotype (pk_name p) k). split; [done|]. by apply list_elem_of_fmap_2.
Qed.
Lemma entries_slots p x : x ∈ (entries p).*1 -> (exists k, k ∈ pk_types p /\ x = At (pk_gv p) k) \/ x ∈ (meta_entries (pk_gv p)).*1.
Proof.
  unfold entries. rewrite fmap_app, elem_of_app. intros [H|H]; [left|by right].
  apply list_elem_of_fmap in H as (e & -> & He). apply list_elem_of_fmap in He as (t & -> & Ht). apply list_elem_of_fmap in Ht as (k & -> & Hk).
  by exists k.
Qed.

(** C37: Registering the API packages, in any order, in a scheme that holds no
    other type where they and metav1 register, never panics; afterwards every
    embedded manifest is served: its kind and list kind are the Go types of the
    package of its group and single version, and its name is the resource's;
    the packages' group versions have metav1's own kinds; and every other slot
    of the scheme is as it was. *)
Theorem scheme_serves_manifests `{Scheme} (s : scheme) (ps : list package) :
  ps ≡ₚ packages -> (forall p, p ∈ packages -> open_to registered (entries p) s) ->
  exists s', AddToScheme ps s = Some s' /\
    (forall e, e ∈ embeds -> embed_ok e /\
       let gv := pk_gv (em_package e) in let m := em_manifest e in
       registered s' (At gv (crd_kind m)) = Some (mkgotype (pk_name (em_package e)) (crd_kind m)) /\
       registered s' (At gv (crd_listKind m)) = Some (mkgotype (pk_name (em_package e)) (crd_listKind m))) /\
    (forall p x t, p ∈ packages -> (x, t) ∈ meta_entries (pk_gv p) -> registered s' x = Some t) /\
    (forall x, (forall e, e ∈ embeds -> let gv := pk_gv (em_package e) in
         x <> At gv (crd_kind (em_manifest e)) /\ x <> At gv (crd_listKind (em_manifest e))) ->
       (forall p, p ∈ packages -> x ∉ (meta_entries (pk_gv p)).*1) -> registered s' x = registered s x).
Proof.
  intros Hps Hopen. assert (forall x, x ∈ (ps ≫= entries) <-> x ∈ (packages ≫= entries)) as Hsame.
  { intros x. rewrite !bind_entries. setoid_rewrite (elem_of_Permutation_proper _ _ _ Hps). done. }
  destruct (AddToScheme_ok ps s) as (s' & Hs' & Hin & Hout).
  - rewrite Hps. apply packages_versioned.
  - intros k t t'. rewrite !Hsame. apply packages_functional.
  - intros k t. rewrite Hsame, bind_entries. intros (p & Hp & Hk). by apply (Hopen p Hp).
  - assert (forall p x t, p ∈ packages -> (x, t) ∈ entries p -> registered s' x = Some t) as Hreg.
    { intros p x t Hp Hx. apply Hin, Hsame, bind_entries. eauto. }
    exists s'. split; [done|]. split_and!.
    + intros e He. pose proof (embeds_ok e He) as Hok. pose proof (embed_package e He) as Hp. split; [done|].
      split; (apply (Hreg (em_package e)); [done|]); apply package_kind, Hok.
    + intros p x t Hp Hx. apply (Hreg p); [done|]. apply elem_of_app. by right.
    + intros x Hkinds Hmeta. apply Hout. intros (e & -> & (p & Hp & He)%Hsame%bind_entries)%list_elem_of_fmap.
      apply (list_elem_of_fmap_2 fst), entries_slots in He as [(k & Hk & E)|He]; [|by apply (Hmeta p Hp)].
      destruct (kind_embedded p k Hp Hk) as (em & Hem & <- & Hor). destruct (Hkinds em Hem) as [H1 H2]. rewrite E in H1, H2.
      destruct Hor as [->| ->]; [by apply H1|by apply H2].
Qed.

(** A scheme as a table, registering entry by entry and panicking at the first
    slot another type holds. *)
Definition table := slot -> option gotype.
Fixpoint puts (es : list entry) (s : table) : option table :=
  match es with
  | [] => Some s
  | (k, t) :: es' =>
      if bool_decide (s k = None \/ s k = Some t) then puts es' (fun k' => if decide (k' = k) then Some t else s k') else None
  end.
Lemma puts_ok es s : functional es -> open_to (fun s : table => s) es s ->
  exists s', puts es s = Some s' /\ adds (fun s : table => s) es s s'.
Proof.
  revert s. induction es as [|[k t] es IH]; intros s Hf Ho; [exists s; split; [done|apply adds_nil]|].
  set (s1 := fun k' => if decide (k' = k) then Some t else s k').
  assert (adds (fun s : table => s) [(k, t)] s s1) as Ha.
  { unfold s1. split; intros k'; [intros t' [[= -> ->]|[]%elem_of_nil]%elem_of_cons; by rewrite decide_True|].
    intros Hk. rewrite decide_False; [done|]. intros ->. apply Hk. left. }
  destruct (IH s1) as (s' & Hs' & Ha'); [by apply (functional_app_r [(k, t)])|by apply (adds_open _ [(k, t)] es s)|].
  exists s'. cbn [puts]. rewrite bool_decide_true by (apply Ho; left). split; [done|]. by apply (adds_app _ [(k, t)] es s s1).
Qed.
Definition versions (gv : GroupVersion) (s : option table) : option table := if String.eqb (gv_Version gv) "" then None else s.
Lemma meta_functional gv : gv_Version gv <> "__internal" -> functional (meta_entries gv).
Proof.
  intros Hi k t t'. unfold meta_entries, type_entries, unversioned_types. cbn [fmap list_fmap app go_name meta].
  intros H H'. destruct gv as [g v]. cbn in Hi. repeat apply elem_of_cons in H as [[= -> ->]|H]; try (by apply elem_of_nil in H).
  all: repeat apply elem_of_cons in H' as [H'|H']; try (by apply elem_of_nil in H'); congruence.
Qed.
#[refine, export] Instance table_scheme : Scheme :=
  { scheme := table; registered s := s; AddKnownTypes gv ts s := versions gv (puts (type_entries gv ts) s);
    AddToGroupVersion gv s := versions gv (puts (meta_entries gv) s) }.
Proof.
  - intros s gv ts Hv Hf Ho. unfold versions. rewrite (proj2 (String.eqb_neq _ _) Hv). by apply puts_ok.
  - intros s gv Hv Hi Ho. unfold versions. rewrite (proj2 (String.eqb_neq _ _) Hv). apply puts_ok; [by apply meta_functional|done].
Defined.
Lemma scheme_serves_manifests_witness :
  exists s', AddToScheme (H := table_scheme) (rev packages) (fun _ => None) = Some s' /\
    s' (At (mkGV "net.k3sm.io" "v1alpha1") "Interconnect") = Some (mkgotype "netv1alpha1" "Interconnect") /\
    s' (At (mkGV "" "v1") "Status") = Some (meta "Status") /\ s' (At (mkGV "" "v1") "Pod") = None.
Proof.
  destruct (scheme_serves_manifests (H := table_scheme) (fun _ => None) (rev packages)) as (s' & Hs' & Hall & Hmeta & Hrest).
  - symmetry. apply Permutation_rev.
  - intros p _ k t _. by left.
  - exists s'. split; [exact Hs'|]. split; [|split].
    + apply (Hall (mkembedded "net.k3sm.io_interconnects.yaml" interconnectCRDYAML InterconnectCRDName netv1alpha1)).
      unfold embeds. right. right. left.
    + apply (Hmeta netv1); [unfold packages; right; left|]. by apply (bool_decide_unpack _).
    + apply Hrest.
      * apply Forall_forall. unfold embeds. repeat constructor; discriminate.
      * apply Forall_forall. unfold packages. repeat constructor; by apply (bool_decide_unpack _).
Defined.

(** ** Accessors

    [[]byte(x)] allocates: each call hands out bytes nobody else holds. *)
Abbreviation heap := (gmap nat (list ascii)).
Definition bytes_copy (text : string) (h : heap) : heap * nat := let a := fresh (dom h) in (<[a := bytes_of text]> h, a).
Section Accessors.
(** The text of an embedded file. *)
Context (file_text : string -> string).
Definition accessor (file : string) : heap -> heap * nat := bytes_copy (file_text file).
Definition MLXModelCRD := accessor "mlx.k3sm.io_mlxmodels.yaml".
Definition MeshPeerCRD := accessor "net.k3sm.io_meshpeers.yaml".
Definition InterconnectCRD := accessor "net.k3sm.io_interconnects.yaml".
Definition HelmChartCRD := accessor "helm.k3sm.io_helmcharts.yaml".
Definition HelmChartConfigCRD := accessor "helm.k3sm.io_helmchartconfigs.yaml".
Definition UpdateCRD := accessor "updates.k3sm.io_updates.yaml".
Definition UpdatePolicyCRD := accessor "updates.k3sm.io_updatepolicies.yaml".
Definition NodeBudgetCRD := accessor "budget.k3sm.io_nodebudgets.yaml".
Definition NodeBudgetPolicyCRD := accessor "budget.k3sm.io_nodebudgetpolicies.yaml".
Definition accessors : list (heap -> heap * nat) :=
  [MLXModelCRD; MeshPeerCRD; InterconnectCRD; HelmChartCRD; HelmChartConfigCRD; UpdateCRD; UpdatePolicyCRD; NodeBudgetCRD; NodeBudgetPolicyCRD].
Lemma accessors_files : accessors = accessor ∘ em_file <$> embeds.
Proof. reflexivity. Qed.
End Accessors.

(** The bytes an accessor returns are a fresh copy of its manifest:
    no slice held before is touched, and whatever a caller writes into its copy,
    the next call of the accessor returns the manifest again, elsewhere. *)
Theorem accessors_return_copies file_text (e : embedded) h :
  let '(h1, a) := accessor file_text (em_file e) h in
  h !! a = None /\ h1 !! a = Some (bytes_of (file_text (em_file e))) /\ (forall b, b <> a -> h1 !! b = h !! b) /\
  forall scribble, let '(h2, a') := accessor file_text (em_file e) (<[a := scribble]> h1) in
    a' <> a /\ h2 !! a' = Some (bytes_of (file_text (em_file e))) /\ h2 !! a = Some scribble.
Proof.
  unfold accessor, bytes_copy. set (a := fresh (dom h)).
  assert (h !! a = None) as Ha by (apply not_elem_of_dom, is_fresh). split; [done|]. split; [apply lookup_insert_eq|].
  split; [intros b Hb; by apply lookup_insert_ne|]. intros scribble. set (h1 := <[a := scribble]> _). set (a' := fresh (dom h1)).
  assert (a' <> a) as Hne.
  { intros E. pose proof (is_fresh (dom h1)) as Hf. fold a' in Hf. apply Hf. rewrite E. apply elem_of_dom. eexists. apply lookup_insert_eq. }
  split; [done|]. split; [apply lookup_insert_eq|]. etransitivity; [by apply lookup_insert_ne|apply lookup_insert_eq].
Qed.
