(* ===== verification/WireJSON.v ===== *)
(** * JSON text trees and the Go values they carry

    An annotation is JSON text; what [encoding/json] makes of the tree of that
    text depends on the Go type it is read into.  [json_of] is the tree of an
    encoded value, with numbers as their text, and [assign] the assignment of a
    tree to a value of a type: keys match a field exactly or else by folding
    their case, the last member of a field wins, and an unknown key is refused
    ([DisallowUnknownFields]).  A repeated member replaces the earlier one here;
    the strict decoder refuses such a text whatever its value.  The lemmas say
    what becomes of an encoded value: it is read back as its normal form, with
    empty slices and maps as nil and times at whole seconds in the reader's
    location. *)
From S2P Require Import Prelude GoLib GoNumbers BudgetTypes BudgetAnnotation CrdSchema ApiJSON ApiFits ApiDecode.
Set Warnings "-register-all".
Module BA := BudgetAnnotation.

(** ** Trees *)
Fixpoint json_of (j : jv) : BA.json :=
  match j with
  | JNull => BA.JNull
  | JBool b => BA.JBool b
  | JInt z => BA.JNum (pretty z)
  | JStr s => BA.JStr s
  | JArr js => BA.JArr (map json_of js)
  | JObj ms => BA.JObj (map (fun kv => (kv.1, json_of kv.2)) ms)
  end.
(** The type as the exact-key walk sees it. *)
Fixpoint gotype_of (t : jty) : BA.gotype :=
  match t with
  | TTime => BA.GTime
  | TSliceOf t => BA.GSlice (gotype_of t)
  | TPtrTo t => BA.GPtr (gotype_of t)
  | TStructOf fs => BA.GStruct (map (fun f => (f.1.1, false, gotype_of f.2)) fs)
  | _ => BA.GOther
  end.

Section Assign.
(** [strict] is [DisallowUnknownFields]. *)
Context `{EJ : BA.EncodingJSON} (strict : bool) (time_parse : string -> option Time).

(** The field a key names. *)
Definition resolve (names : list string) (k : string) : option string :=
  if bool_decide (k ∈ names) then Some k else List.find (fun n => String.eqb (BA.ej_fold n) (BA.ej_fold k)) names.
Definition field_member (names : list string) (ms : list (string * BA.json)) (n : string) : option BA.json :=
  snd <$> List.find (fun m => bool_decide (resolve names m.1 = Some n)) (reverse ms).

Fixpoint assign (t : jty) (v : BA.json) {struct t} : option gval :=
  match t, v with
  | _, BA.JNull => Some (zero t)
  | TString, BA.JStr s | TText, BA.JStr s | TIntOrString, BA.JStr s => Some (GStr s)
  | TInt32, BA.JNum r | TIntOrString, BA.JNum r => z ← ParseInt r; if format_range "int32" z then Some (GInt z) else None
  | TInt64, BA.JNum r => z ← ParseInt r; if format_range "int64" z then Some (GInt z) else None
  | TBool, BA.JBool b => Some (GBool b)
  | TTime, BA.JStr s => GTime <$> time_parse s
  | TMapOf t, BA.JObj ms => GMap <$> mapM (fun kv => (fun v => (kv.1, v)) <$> assign t kv.2) ms
  | TSliceOf t, BA.JArr vs => GSlice <$> mapM (assign t) vs
  | TPtrTo t, v => GPtr <$> assign t v
  | TStructOf fs, BA.JObj ms =>
      if negb strict || forallb (fun m => bool_decide (is_Some (resolve (field_names fs) m.1))) ms then
        GStruct <$> (fix go (fs' : jfields) : option (list gval) := match fs' with
          | [] => Some []
          | (n, _, t) :: fs'' =>
              v ← match field_member (field_names fs) ms n with Some v => assign t v | None => Some (zero t) end; vs ← go fs''; Some (v :: vs)
          end) fs
      else None
  | _, _ => None
  end.
Definition assign_fields (look : string -> option BA.json) : jfields -> option (list gval) :=
  fix go (fs' : jfields) : option (list gval) := match fs' with
    | [] => Some []
    | (n, _, t) :: fs'' => v ← match look n with Some v => assign t v | None => Some (zero t) end; vs ← go fs''; Some (v :: vs)
    end.
End Assign.

(** ** What is read back *)
Fixpoint norm (here : option string) (v : gval) : gval :=
  match v with
  | GTime t => GTime (carried here t)
  | GPtr v => GPtr (norm here v)
  | GSlice [] | GMap [] => GNil
  | GSlice vs => GSlice (map (norm here) vs)
  | GMap ms => GMap (map (fun kv => (kv.1, norm here kv.2)) ms)
  | GStruct vs => GStruct (map (norm here) vs)
  | _ => v
  end.
(** No map of the value has a key twice. *)
Fixpoint maps_once (v : gval) : Prop :=
  match v with
  | GPtr v => maps_once v
  | GSlice vs | GStruct vs => foldr (fun v P => maps_once v /\ P) True vs
  | GMap ms => NoDup (fst <$> ms) /\ foldr (fun kv P => maps_once kv.2 /\ P) True ms
  | _ => True
  end.
Definition collection (t : jty) : bool := match t with TMapOf _ | TSliceOf _ => true | _ => false end.
(** A type whose slices and maps are fields left out when empty, and which has
    no pointer to a pointer. *)
Fixpoint lean (t : jty) : bool :=
  match t with
  | TText | TIntOrString => false
  | TMapOf t | TSliceOf t => negb (collection t) && negb (match t with TPtrTo _ => true | _ => false end) && lean t
  | TPtrTo t => negb (collection t) && negb (match t with TPtrTo _ => true | _ => false end) && lean t
  | TStructOf fs => (fix go (fs : jfields) : bool := match fs with
      | [] => true
      | (_, g, t) :: fs' => lean t && (negb (collection t) || match g with OmitEmpty => true | _ => false end) && go fs'
      end) fs
  | _ => true
  end.

Lemma maps_once_list vs : foldr (fun v P => maps_once v /\ P) True vs <-> Forall maps_once vs.
Proof. induction vs as [|v vs IH]; cbn; [split; constructor|]. by rewrite Forall_cons, IH. Qed.
Lemma maps_once_map ms : foldr (fun (kv : string * gval) P => maps_once kv.2 /\ P) True ms <-> Forall (fun kv => maps_once kv.2) ms.
Proof. induction ms as [|v ms IH]; cbn; [split; constructor|]. by rewrite Forall_cons, IH. Qed.
Lemma lean_fields fs : lean (TStructOf fs) = true <->
  Forall (fun f : string * tag * jty => lean f.2 = true /\ (collection f.2 = false \/ f.1.2 = OmitEmpty)) fs.
Proof.
  induction fs as [|[[n g] t] fs IH]; [split; [constructor|done]|]. rewrite Forall_cons, <- IH. cbn [fst snd].
  change (lean (TStructOf ((n, g, t) :: fs))) with (lean t && (negb (collection t) || match g with OmitEmpty => true | _ => false end) && lean (TStructOf fs)).
  rewrite !andb_true_iff, orb_true_iff, negb_true_iff. destruct g; intuition discriminate.
Qed.
Lemma has_fields_forall2 fs vs : has_fields fs vs <-> Forall2 (fun f v => has f.2 v) fs vs.
Proof.
  revert vs. induction fs as [|[[n g] t] fs IH]; intros [|v vs]; cbn; try (split; [done|by inversion 1]).
  by rewrite Forall2_cons, IH.
Qed.

(** ** Encoded trees *)
Section Encoded.
Context (time_text : Time -> string).
Abbreviation enc := (encode time_text).
Abbreviation enc_fields := (enc_fields time_text).

Lemma enc_fields_names vs fs : (enc_fields vs fs).*1 `sublist_of` field_names fs.
Proof.
  revert fs. induction vs as [|v vs IH]; intros [|[[n g] t] fs]; try apply sublist_nil_l.
  rewrite enc_fields_cons. destruct (omitted g v); cbn; [by apply sublist_cons|by apply sublist_skip].
Qed.
Lemma enc_fields_lookup vs fs i n g t v : NoDup (field_names fs) -> fs !! i = Some (n, g, t) -> vs !! i = Some v ->
  lookup_key n (enc_fields vs fs) = if omitted g v then None else Some (enc v t).
Proof.
  revert fs i. induction vs as [|w vs IH]; intros [|[[m h] u] fs] i Hnd Hf Hv; try done.
  cbn in Hnd. apply NoDup_cons in Hnd as [Hm Hnd]. rewrite enc_fields_cons. destruct i as [|i]; cbn in Hf, Hv.
  - injection Hf as <- <- <-. injection Hv as <-. destruct (omitted h w); [|cbn; by rewrite String.eqb_refl].
    apply lookup_key_None. intros Hin. apply Hm. eapply elem_of_sublist; [exact Hin|]. apply enc_fields_names.
  - assert (n <> m) as Hnm.
    { intros ->. apply Hm. apply list_elem_of_fmap. exists (m, g, t). split; [done|]. by eapply list_elem_of_lookup_2. }
    specialize (IH fs i Hnd Hf Hv). destruct (omitted h w); [done|]. cbn. destruct (String.eqb_spec n m); [done|]. exact IH.
Qed.

(** No object of an encoded value names a key twice. *)
Lemma encoded_once t v : named_once t = true -> has t v -> maps_once v -> BA.keys_once (json_of (enc v t)).
Proof.
  revert v. induction t as [| | | | | | |t IH|t IH|t IH|fs IH] using jty_nested_ind; intros v Hn Hv Hm.
  1-7: destruct v; try (by destruct Hv); cbn; try case_match; constructor.
  - destruct v as [| | | | | | |ms|]; try (by destruct Hv); [constructor|]. cbn in *. destruct Hm as [Hnd Hm%maps_once_map]. constructor.
    + rewrite map_map. change (fst <$> ?l) with (map fst l). rewrite map_map. exact Hnd.
    + rewrite map_map. change (snd <$> ?l) with (map snd l). rewrite map_map, Forall_map. cbn. rewrite Forall_forall in *. auto.
  - destruct v; try (by destruct Hv); [constructor|]. cbn in *. apply maps_once_list in Hm. constructor.
    rewrite map_map, Forall_map. rewrite Forall_forall in *. auto.
  - destruct v; try (by destruct Hv); [constructor|]. by apply IH.
  - destruct v; try (by destruct Hv). cbn in Hn, Hm. apply andb_true_iff in Hn as [Hnd%bool_decide_eq_true Hns].
    apply maps_once_list in Hm. change (has_fields fs vs) in Hv. change (enc (GStruct vs) (TStructOf fs)) with (JObj (enc_fields vs fs)). cbn. constructor.
    + change (fst <$> ?l) with (map fst l). rewrite map_map. cbn. eapply sublist_NoDup; [exact Hnd|]. apply enc_fields_names.
    + change (snd <$> ?l) with (map snd l). rewrite map_map, Forall_map. cbn. clear Hnd.
      revert vs Hm Hv. induction IH as [|[[n g] t] fs Ht _ IHf]; intros [|v vs] Hm Hv; try (by destruct Hv).
      apply andb_true_iff in Hns as [Hnt Hns]. destruct Hv as [Hv Hvs]. apply Forall_cons in Hm as [Hmv Hm]. rewrite enc_fields_cons.
      destruct (omitted g v); [by apply IHf|]. constructor; [by apply Ht|by apply IHf].
Qed.

(** Every key of an encoded value is its field's name. *)
Lemma gotype_deref t : BA.deref (gotype_of t) = match t with TPtrTo t' => BA.deref (gotype_of t') | _ => gotype_of t end.
Proof. by destruct t. Qed.
Lemma field_type_of fs n g t : NoDup (field_names fs) -> "-" ∉ field_names fs -> (n, g, t) ∈ fs ->
  BA.field_type n (BA.collectJSONFields (gotype_of (TStructOf fs))) = Some (gotype_of t).
Proof.
  intros Hnd Hdash Hin. assert (BA.collectJSONFields (gotype_of (TStructOf fs)) = (fun f => (f.1.1, gotype_of f.2)) <$> fs) as ->.
  { clear Hnd Hin. cbn. rewrite map_map. induction fs as [|[[m h] u] fs IH]; [done|]. cbn in *.
    apply not_elem_of_cons in Hdash as [Hm Hdash]. destruct (String.eqb_spec m "-"); [congruence|]. cbn. f_equal. by apply IH. }
  unfold BA.field_type. destruct (List.find _ _) as [[m u]|] eqn:E.
  - apply find_some in E as [Hm Hk%String.eqb_eq]. cbn in *. subst m. f_equal. cbn.
    apply list_elem_of_In in Hm. rewrite elem_of_reverse in Hm. apply list_elem_of_fmap in Hm as ([[m h] w] & [= -> ->] & Hw). f_equal.
    apply list_elem_of_lookup in Hin as [i Hi]. apply list_elem_of_lookup in Hw as [j Hj].
    assert (i = j) as ->; [|congruence]. apply (NoDup_lookup _ _ _ m Hnd); unfold field_names; rewrite list_lookup_fmap; [by rewrite Hi|by rewrite Hj].
  - eapply find_none in E; [|apply list_elem_of_In; rewrite elem_of_reverse; exact (list_elem_of_fmap_2 _ _ _ Hin)].
    cbn in E. by rewrite String.eqb_refl in E.
Qed.
(** No struct of the type has a field named "-". *)
Fixpoint no_dash (t : jty) : bool :=
  match t with
  | TMapOf t | TSliceOf t | TPtrTo t => no_dash t
  | TStructOf fs => (fix go (fs : jfields) : bool := match fs with [] => true | (n, _, t) :: fs' => negb (String.eqb n "-") && no_dash t && go fs' end) fs
  | _ => true
  end.
Lemma no_dash_fields fs : no_dash (TStructOf fs) = true -> ("-" ∉ field_names fs) /\ Forall (fun f => no_dash f.2 = true) fs.
Proof.
  induction fs as [|[[n g] t] fs IH]; [split; [apply not_elem_of_nil|constructor]|].
  change (no_dash (TStructOf ((n, g, t) :: fs))) with (negb (String.eqb n "-") && no_dash t && no_dash (TStructOf fs)).
  rewrite !andb_true_iff, negb_true_iff, String.eqb_neq. intros [[Hn Ht] [Hfs HF]%IH]. split; [|by constructor].
  cbn. apply not_elem_of_cons. split; [congruence|done].
Qed.
Lemma exact_ptr v t : BA.exact_keys v (gotype_of t) -> BA.exact_keys v (gotype_of (TPtrTo t)).
Proof. rewrite <- !(BA.checkExactKeys_iff _ _ ""). by destruct v. Qed.
Lemma encoded_exact t v : named_once t = true -> no_dash t = true -> has t v -> BA.exact_keys (json_of (enc v t)) (gotype_of t).
Proof.
  revert v. induction t as [| | | | | | |t IH|t IH|t IH|fs IH] using jty_nested_ind; intros v Hn Hd Hv.
  1-8: destruct v; try (by destruct Hv); cbn; try case_match; apply BA.exact_leaf; by intros.
  - destruct v; try (by destruct Hv); [apply BA.exact_leaf; by intros|]. cbn in Hn, Hd, Hv. eapply BA.exact_arr; [reflexivity|].
    rewrite map_map, Forall_map. eapply Forall_impl; [exact Hv|]. intros v Hvv. by apply IH.
  - destruct v; try (by destruct Hv); [apply BA.exact_leaf; by intros|]. apply exact_ptr. by apply IH.
  - destruct v; try (by destruct Hv). cbn in Hn. apply andb_true_iff in Hn as [Hnd%bool_decide_eq_true Hns].
    apply no_dash_fields in Hd as [Hdash Hds]. change (has_fields fs vs) in Hv.
    change (enc (GStruct vs) (TStructOf fs)) with (JObj (enc_fields vs fs)). cbn [json_of]. eapply BA.exact_obj; [reflexivity|].
    assert (Forall (fun f : string * tag * jty => named_once f.2 = true) fs) as Hnf.
    { clear -Hns. induction fs as [|[[n g] t] fs IHf]; [constructor|]. apply andb_true_iff in Hns as [? ?]. constructor; auto. }
    rewrite Forall_map. apply Forall_forall. intros [k j] Hin. cbn [fst snd].
    destruct (enc_fields_members time_text _ _ _ _ Hv Hin) as (g & t & w & Hf & Hw & ->).
    exists (gotype_of t). split; [by eapply field_type_of|]. rewrite Forall_forall in IH, Hnf, Hds.
    apply (IH _ Hf); [by apply (Hnf _ Hf)|by apply (Hds _ Hf)|done].
Qed.
End Encoded.

(** ** Reading back *)
Section ReadBack.
Context `{EJ : BA.EncodingJSON} (strict : bool) (time_text : Time -> string) (time_parse : string -> option Time) (here : option string).
Abbreviation enc := (encode time_text).
Abbreviation assign := (assign strict time_parse).
Abbreviation assign_fields := (assign_fields strict time_parse).
Abbreviation norm := (norm here).
(** A time past the zero second whose text is read as that time. *)
Definition time_survives (t : Time) : Prop := t_unix t <> zero_unix /\ time_parse (time_text t) = Some (carried here t).
Lemma survives_set t : time_survives t -> Time_IsZero t = false /\ Time_IsZero (carried here t) = false.
Proof.
  intros [Hz _]. unfold carried, Time_IsZero. assert ((t_unix t =? zero_unix) = false) as E by (by apply Z.eqb_neq).
  rewrite !E. cbn. by rewrite E.
Qed.
(** A value that is no empty slice or map. *)
Definition shown (v : gval) : bool := match v with GSlice [] | GMap [] => false | _ => true end.

Lemma field_member_lookup names ms n : NoDup (ms.*1) -> (forall k, k ∈ ms.*1 -> k ∈ names) ->
  field_member names ms n = lookup_key n ms.
Proof.
  intros Hnd Hsub. assert (forall m, m ∈ ms -> resolve names m.1 = Some m.1) as Hres.
  { intros m Hm. unfold resolve. rewrite bool_decide_true; [done|]. apply Hsub. by apply list_elem_of_fmap_2. }
  unfold field_member. destruct (lookup_key n ms) as [j|] eqn:El.
  - apply lookup_key_elem in El as Hin. destruct (List.find _ _) as [[k j']|] eqn:E.
    + apply find_some in E as [Hm Hk%bool_decide_eq_true]. apply list_elem_of_In in Hm. rewrite elem_of_reverse in Hm.
      rewrite (Hres _ Hm) in Hk. injection Hk as ->. cbn. f_equal. cbn in *.
      apply list_elem_of_lookup in Hm as [i Hi]. apply list_elem_of_lookup in Hin as [i' Hi'].
      assert (i = i') as ->; [|congruence]. apply (NoDup_lookup _ _ _ n Hnd); rewrite list_lookup_fmap; [by rewrite Hi|by rewrite Hi'].
    + eapply find_none in E; [|apply list_elem_of_In; rewrite elem_of_reverse; exact Hin]. apply bool_decide_eq_false in E.
      by rewrite (Hres _ Hin) in E.
  - apply lookup_key_None in El. destruct (List.find _ _) as [[k j']|] eqn:E; [|done]. exfalso.
    apply find_some in E as [Hm Hk%bool_decide_eq_true]. apply list_elem_of_In in Hm. rewrite elem_of_reverse in Hm.
    rewrite (Hres _ Hm) in Hk. injection Hk as ->. apply El. apply (list_elem_of_fmap_2 fst _ _ Hm).
Qed.

Lemma zero_norm t v : lean t = true -> has t v -> is_zero v = true -> norm v = zero t.
Proof.
  revert v. induction t as [| | | | | | |t IH|t IH|t IH|fs IH] using jty_nested_ind; intros v Hl Hv Hz; try discriminate Hl.
  1-8: destruct v; try (by destruct Hv); try discriminate Hz; cbn in Hz |- *; try done.
  - by apply String.eqb_eq in Hz as ->.
  - by apply Z.eqb_eq in Hz as ->.
  - by apply Z.eqb_eq in Hz as ->.
  - by apply negb_true_iff in Hz as ->.
  - unfold carried. by rewrite Hz.
  - destruct v; try (by destruct Hv). change (has_fields fs vs) in Hv. apply lean_fields in Hl. cbn in Hz |- *. f_equal.
    revert vs Hv Hz. induction IH as [|[[n g] t] fs Ht _ IHf]; intros [|v vs] Hv Hz; try (by destruct Hv).
    destruct Hv as [Hv Hvs]. cbn in Hz. apply andb_true_iff in Hz as [Hz Hzs]. apply Forall_cons in Hl as [[Hlt _] Hl].
    cbn. f_equal; [by apply Ht|by apply IHf].
Qed.
Lemma omitted_norm g t v : lean t = true -> has t v -> omitted g v = true -> norm v = zero t.
Proof.
  intros Hl Hv. destruct g; [done| |by apply zero_norm]. intros He.
  destruct v as [| | | | | |[|]|[|]|]; try discriminate He; try (by apply zero_norm); by destruct t.
Qed.

Lemma assign_fields_ok fs vs look : Forall2 (fun f v => has f.2 v) fs vs -> lean (TStructOf fs) = true ->
  (forall i n g t v, fs !! i = Some (n, g, t) -> vs !! i = Some v -> look n = if omitted g v then None else Some (json_of (enc v t))) ->
  Forall2 (fun f v => shown v = true -> assign f.2 (json_of (enc v f.2)) = Some (norm v)) fs vs ->
  assign_fields look fs = Some (norm <$> vs).
Proof.
  intros Hv Hl%lean_fields. induction Hv as [|[[n g] t] v fs vs Hv Hvs IH]; intros Hlook HF; [done|].
  apply Forall_cons in Hl as [[Hlt Htag] Hl]. apply Forall2_cons in HF as [Hone HF]. cbn [fst snd] in *.
  change (assign_fields look ((n, g, t) :: fs)) with
    (v ← match look n with Some v => assign t v | None => Some (zero t) end; vs ← assign_fields look fs; Some (v :: vs)).
  rewrite (IH Hl) by (done || (intros i; apply (Hlook (S i)))). rewrite (Hlook 0%nat n g t v eq_refl eq_refl).
  destruct (omitted g v) eqn:Ho.
  - rewrite <- (omitted_norm g t v) by done. done.
  - rewrite Hone; [done|]. destruct Htag as [Hc| ->].
    + destruct v as [| | | | | | [|]|[|]|]; try done; by destruct t.
    + by destruct v as [| | | | | | [|]|[|]|].
Qed.

Lemma assign_ptr t v : v <> BA.JNull -> assign (TPtrTo t) v = GPtr <$> assign t v.
Proof. by destruct v. Qed.
Lemma not_null t v : has t v -> (match t with TMapOf _ | TSliceOf _ | TPtrTo _ => false | _ => true end) = true ->
  Forall time_survives (times v) -> json_of (enc v t) <> BA.JNull.
Proof.
  destruct t, v; cbn; try done. intros _ _ [[Hz _]%survives_set _]%Forall_cons. by rewrite Hz.
Qed.
Lemma assign_known fs ms : forallb (fun m => bool_decide (is_Some (resolve (field_names fs) m.1))) ms = true ->
  assign (TStructOf fs) (BA.JObj ms) = GStruct <$> assign_fields (field_member (field_names fs) ms) fs.
Proof. intros H. cbn [WireJSON.assign]. by rewrite H, orb_true_r. Qed.
(** A struct is read back when its fields are. *)
Lemma assign_struct fs vs : NoDup (field_names fs) -> lean (TStructOf fs) = true -> has_fields fs vs ->
  Forall2 (fun f v => shown v = true -> assign f.2 (json_of (enc v f.2)) = Some (norm v)) fs vs ->
  assign (TStructOf fs) (json_of (enc (GStruct vs) (TStructOf fs))) = Some (norm (GStruct vs)).
Proof.
  intros Hnd Hl Hv HF. change (enc (GStruct vs) (TStructOf fs)) with (JObj (enc_fields time_text vs fs)). cbn [json_of].
  set (ms := map (fun kv : string * jv => (kv.1, json_of kv.2)) (enc_fields time_text vs fs)).
  assert (ms.*1 = (enc_fields time_text vs fs).*1) as Hkeys by (unfold ms; change (fst <$> ?l) with (map fst l); by rewrite map_map).
  assert (forall k, k ∈ ms.*1 -> k ∈ field_names fs) as Hsub.
  { rewrite Hkeys. intros k Hk. eapply elem_of_sublist; [exact Hk|]. apply enc_fields_names. }
  rewrite assign_known.
  - rewrite (assign_fields_ok fs vs); [done|by apply has_fields_forall2|done| |done].
    intros i n g t v Hf Hvi. rewrite field_member_lookup; [|rewrite Hkeys; eapply sublist_NoDup; [exact Hnd|apply enc_fields_names]|done].
    etransitivity; [exact (lookup_key_fmap json_of n (enc_fields time_text vs fs))|].
    rewrite (enc_fields_lookup time_text vs fs i n g t v) by done. by destruct (omitted g v).
  - apply forallb_Forall, Forall_forall. intros m Hmm. apply bool_decide_eq_true.
    unfold resolve. rewrite bool_decide_true by (apply Hsub; by apply list_elem_of_fmap_2). by eexists.
Qed.
(** An encoded value is read back as its normal form. *)
Lemma assign_encoded t v : named_once t = true -> lean t = true -> has t v -> maps_once v -> Forall time_survives (times v) -> shown v = true ->
  assign t (json_of (enc v t)) = Some (norm v).
Proof.
  revert v. induction t as [| | | | | | |t IH|t IH|t IH|fs IH] using jty_nested_ind; intros v Hn Hl Hv Hm Ht Hs; try discriminate Hl.
  1-5: destruct v; try (by destruct Hv); try done.
  - cbn -[format_range ParseInt]. rewrite ParseInt_pretty. cbn -[format_range]. by rewrite format_range_32.
  - cbn -[format_range ParseInt]. rewrite ParseInt_pretty. cbn -[format_range]. by rewrite format_range_64.
  - cbn in Ht |- *. apply Forall_cons in Ht as [Hts _]. destruct (survives_set _ Hts) as [-> _]. cbn. by rewrite (proj2 Hts).
  - destruct v as [| | | | | | |ms|]; try (by destruct Hv). cbn in Hn, Hl, Hv, Hm, Ht. destruct Hm as [_ Hm%maps_once_map].
    apply andb_true_iff in Hl as [[Hc _]%andb_true_iff Hl]. apply negb_true_iff in Hc. rewrite Forall_concat, Forall_map in Ht.
    assert (mapM (fun kv => (fun v => (kv.1, v)) <$> assign t kv.2) (map (fun kv => (kv.1, json_of kv.2)) (map (fun kv => (kv.1, enc kv.2 t)) ms)) =
      Some (map (fun kv => (kv.1, norm kv.2)) ms)) as E.
    { clear Hs. induction ms as [|[k v] ms IHm]; [done|]. apply Forall_cons in Hv as [Hv Hvs]. apply Forall_cons in Hm as [Hmv Hm].
      apply Forall_cons in Ht as [Htv Ht]. cbn in *. rewrite IH by (done || (destruct v as [| | | | | | [|]|[|]|]; try done; by destruct t)).
      cbn. by rewrite IHm. }
    cbn. rewrite E. by destruct ms.
  - destruct v as [| | | | | |vs| |]; try (by destruct Hv). cbn in Hn, Hl, Hv, Hm, Ht. apply maps_once_list in Hm.
    apply andb_true_iff in Hl as [[Hc _]%andb_true_iff Hl]. apply negb_true_iff in Hc. apply times_in in Ht.
    assert (mapM (assign t) (map json_of (map (fun v => enc v t) vs)) = Some (map norm vs)) as E.
    { clear Hs. induction vs as [|v vs IHm]; [done|]. apply Forall_cons in Hv as [Hv Hvs]. apply Forall_cons in Hm as [Hmv Hm].
      apply Forall_cons in Ht as [Htv Ht]. cbn in *. rewrite IH by (done || (destruct v as [| | | | | | [|]|[|]|]; try done; by destruct t)).
      cbn. by rewrite IHm. }
    cbn. rewrite E. by destruct vs.
  - destruct v; try (by destruct Hv). cbn in Hn, Hl, Hv, Hm, Ht.
    apply andb_true_iff in Hl as [[Hc Hp]%andb_true_iff Hl]. apply negb_true_iff in Hc, Hp.
    change (enc (GPtr v) (TPtrTo t)) with (enc v t). rewrite assign_ptr by (apply not_null; [done|by destruct t|done]).
    rewrite IH by (done || (destruct v as [| | | | | | [|]|[|]|]; try done; by destruct t)). done.
  - destruct v; try (by destruct Hv). cbn in Hn, Hm, Ht. apply andb_true_iff in Hn as [Hnd%bool_decide_eq_true Hns].
    apply maps_once_list in Hm. apply times_in in Ht. change (has_fields fs vs) in Hv. apply assign_struct; [done..|].
    clear Hnd. apply lean_fields in Hl. revert vs Hv Hm Ht Hs. induction IH as [|[[n g] t] fs Hone _ IHf]; intros [|v vs] Hv Hm Ht Hs;
      try (by destruct Hv). apply andb_true_iff in Hns as [Hnt Hns]. destruct Hv as [Hv Hvs]. apply Forall_cons in Hm as [Hmv Hm].
    apply Forall_cons in Ht as [Htv Ht]. apply Forall_cons in Hl as [[Hlt _] Hl]. constructor; [|by apply IHf].
    intros Hsh. by apply Hone.
Qed.
End ReadBack.
