(* ===== verification/JSONText.v ===== *)
(** * JSON text (encoding/json)

    The text [json.Marshal] writes for a tree and the tree the package reads
    from a text.  A string is written rune by rune: the ASCII controls, the
    quote, the backslash, the HTML characters and U+2028 and U+2029 escaped, a
    byte that is not UTF-8 as U+FFFD.  The reader takes the grammar of RFC 8259
    as the package's scanner does: white space between tokens, escapes with
    their surrogate pairs, U+FFFD for what is not UTF-8, nesting to at most
    10000 levels.  Its recursion is bounded by the length of the text, which is
    proved to be enough; what is written is read back. *)
From S2P Require Import Prelude GoLib GoStrings GoRunes GoNumbers BudgetAnnotation CrdSchema WireJSON.
Set Warnings "-register-all".
Abbreviation runeb := (Z * string)%type.

(** ** Strings *)
Definition replacement : string := encode_rune RuneError.
(** The byte of a rune of one byte; a longer rune has none. *)
Definition code (c : runeb) : Z := match c.2 with String b "" => Z_of_byte b | _ => 256 end.
(** A byte that is not UTF-8. *)
Definition bad (c : runeb) : bool := (c.1 =? RuneError) && (String.length c.2 =? 1)%nat.
Definition valid_text (s : string) : bool := forallb (fun c => negb (bad c)) (decode s).
(** The string the package keeps of a Go string. *)
Definition clean_rune (c : runeb) : string := if bad c then replacement else c.2.
Definition ToValidUTF8 (s : string) : string := foldr (fun c t => clean_rune c +:+ t) "" (decode s).

Definition hex_digit (x : Z) : ascii := byte_of_Z (if x <? 10 then 48 + x else 87 + x).
Definition hex_value (r : Z) : option Z :=
  if between 48 57 r then Some (r - 48) else if between 97 102 r then Some (r - 87) else if between 65 70 r then Some (r - 55) else None.
Definition backslash (t : string) : string := String (byte_of_Z 92) t.
Definition quote_mark : string := String (byte_of_Z 34) "".
Definition escaped_byte (x : Z) (b : string) : string :=
  if existsb (Z.eqb x) [34; 92] then backslash b
  else if x =? 8 then backslash "b" else if x =? 12 then backslash "f" else if x =? 10 then backslash "n"
  else if x =? 13 then backslash "r" else if x =? 9 then backslash "t"
  else backslash ("u00" +:+ String (hex_digit (x / 16)) (String (hex_digit (x mod 16)) "")).
Definition escape (c : runeb) : string :=
  if code c <? 128 then if (32 <=? code c) && negb (existsb (Z.eqb (code c)) [34; 92; 60; 62; 38]) then c.2 else escaped_byte (code c) c.2
  else if bad c then backslash "ufffd"
  else if String.eqb c.2 (encode_rune 8232) then backslash "u2028"
  else if String.eqb c.2 (encode_rune 8233) then backslash "u2029"
  else c.2.
Definition quote (s : string) : string := quote_mark +:+ foldr (fun c t => escape c +:+ t) "" (decode s) +:+ quote_mark.

(** The four digits of an escape. *)
Definition hex4 (a b c d : Z) : option Z :=
  a ← hex_value a; b ← hex_value b; c ← hex_value c; d ← hex_value d; Some (((a * 16 + b) * 16 + c) * 16 + d).
Definition simple_escape (e : Z) : option string :=
  if existsb (Z.eqb e) [34; 92; 47] then Some (String (byte_of_Z e) "")
  else if e =? 98 then Some (String (byte_of_Z 8) "") else if e =? 102 then Some (String (byte_of_Z 12) "")
  else if e =? 110 then Some (String (byte_of_Z 10) "") else if e =? 114 then Some (String (byte_of_Z 13) "")
  else if e =? 116 then Some (String (byte_of_Z 9) "") else None.
Definition high_surrogate (u : Z) : bool := between 55296 56319 u.
Definition low_surrogate (u : Z) : bool := between 56320 57343 u.
Definition prepend (t : string) (r : option (string * list runeb)) : option (string * list runeb) := prod_map (String.append t) id <$> r.
(** What is read from after the opening quote to the closing one. *)
Fixpoint read_string (l : list runeb) : option (string * list runeb) :=
  match l with
  | [] => None
  | c :: l1 =>
      if code c =? 34 then Some ("", l1)
      else if code c =? 92 then
        match l1 with
        | [] => None
        | e :: l2 =>
            if code e =? 117 then
              match l2 with
              | h1 :: h2 :: h3 :: h4 :: l3 =>
                  match hex4 (code h1) (code h2) (code h3) (code h4) with
                  | None => None
                  | Some u =>
                      match l3 with
                      | b :: v :: k1 :: k2 :: k3 :: k4 :: l4 =>
                          match (if high_surrogate u && (code b =? 92) && (code v =? 117) then hex4 (code k1) (code k2) (code k3) (code k4) else None) with
                          | Some u' => if low_surrogate u' then prepend (encode_rune ((u - 55296) * 1024 + (u' - 56320) + 65536)) (read_string l4)
                                       else prepend (encode_rune u) (read_string l3)
                          | None => prepend (encode_rune u) (read_string l3)
                          end
                      | _ => prepend (encode_rune u) (read_string l3)
                      end
                  end
              | _ => None
              end
            else match simple_escape (code e) with Some t => prepend t (read_string l2) | None => None end
        end
      else if code c <? 32 then None
      else prepend (clean_rune c) (read_string l1)
  end.


(** ** UTF-8

    The first rune of a string: a byte that is not UTF-8, or a rune that is
    read the same whatever follows it. *)
Lemma bad_first b0 r0 : 128 <= Z_of_byte b0 -> exists c rest, (RuneError, String b0 "") :: decode r0 = c :: decode rest /\ String b0 r0 = c.2 +:+ rest /\
  (bad c = true /\ 128 <= code c < 256 \/ bad c = false /\ (code c < 128 \/ code c = 256) /\ forall t, decode (c.2 +:+ t) = c :: decode t).
Proof. intros Hb. pose proof (Z_of_byte_range b0). exists (RuneError, String b0 ""), r0. split; [done|]. split; [done|]. left. split; [done|]. cbn. lia. Qed.
Lemma decode_first b0 r0 : exists c rest, decode (String b0 r0) = c :: decode rest /\ String b0 r0 = c.2 +:+ rest /\
  (bad c = true /\ 128 <= code c < 256 \/ bad c = false /\ (code c < 128 \/ code c = 256) /\ forall t, decode (c.2 +:+ t) = c :: decode t).
Proof.
  pose proof (Z_of_byte_range b0) as Hb. cbn [decode]. destruct (Z.ltb_spec (Z_of_byte b0) 128) as [Hl|Hl].
  { exists (Z_of_byte b0, String b0 ""), r0. split; [done|]. split; [done|]. right. split; [|split; [by left|]].
    - unfold bad. cbn. destruct (Z.eqb_spec (Z_of_byte b0) RuneError) as [E|]; [unfold RuneError in E; lia|done].
    - intros t. change (decode (String b0 t) = (Z_of_byte b0, String b0 "") :: decode t). cbn [decode]. by rewrite (proj2 (Z.ltb_lt _ _) Hl). }
  apply Z.ltb_ge in Hl as Hl'. destruct r0 as [|b1 r1]; [by apply bad_first|].
  destruct (between 194 223 (Z_of_byte b0) && cont b1) eqn:E1.
  { eexists (_, _), r1. split; [reflexivity|]. split; [done|]. right. split; [apply andb_false_r|]. split; [by right|].
    intros t. change (decode (String b0 (String b1 t)) = (Z.lor (Z.shiftl (Z.land (Z_of_byte b0) 31) 6) (low6 b1), String b0 (String b1 "")) :: decode t).
    cbn [decode]. by rewrite Hl', E1. }
  destruct r1 as [|b2 r2]; [by apply bad_first|].
  destruct (between 224 239 (Z_of_byte b0) && second_ok (Z_of_byte b0) b1 && cont b2) eqn:E2.
  { eexists (_, _), r2. split; [reflexivity|]. split; [done|]. right. split; [apply andb_false_r|]. split; [by right|].
    intros t. cbn [snd]. change (String b0 (String b1 (String b2 "")) +:+ t) with (String b0 (String b1 (String b2 t))). cbn [decode]. by rewrite Hl', E1, E2. }
  destruct r2 as [|b3 r3]; [by apply bad_first|].
  destruct (between 240 244 (Z_of_byte b0) && second_ok (Z_of_byte b0) b1 && cont b2 && cont b3) eqn:E3; [|by apply bad_first].
  eexists (_, _), r3. split; [reflexivity|]. split; [done|]. right. split; [apply andb_false_r|]. split; [by right|].
  intros t. cbn [snd]. change (String b0 (String b1 (String b2 (String b3 ""))) +:+ t) with (String b0 (String b1 (String b2 (String b3 t)))).
  cbn [decode]. by rewrite Hl', E1, E2, E3.
Qed.
Lemma decode_ind (P : string -> Prop) : P "" ->
  (forall c s rest, s = c.2 +:+ rest -> decode s = c :: decode rest ->
     bad c = true /\ 128 <= code c < 256 \/ bad c = false /\ (code c < 128 \/ code c = 256) /\ (forall t, decode (c.2 +:+ t) = c :: decode t) ->
     P rest -> P s) -> forall s, P s.
Proof.
  intros H0 Hs s. remember (String.length s) as n eqn:Hn. revert s Hn. induction (lt_wf n) as [n _ IH]. intros s ->.
  destruct s as [|b0 r0]; [done|]. destruct (decode_first b0 r0) as (c & rest & Hd & E & Hc). apply (Hs c _ rest E Hd Hc).
  eapply IH; [|reflexivity]. rewrite E, slength_app. destruct c as [r [|b t]]; [|cbn; lia].
  destruct Hc as [[Hb _]|(_ & _ & Ht)]; [by apply andb_true_iff in Hb as [_ ?]|]. cbn [snd] in E, Ht. specialize (Ht "").
  change (decode "" = (r, "") :: decode "") in Ht. discriminate.
Qed.
Lemma decode_app a b : valid_text a = true -> decode (a +:+ b) = decode a ++ decode b.
Proof.
  unfold valid_text. induction a as [|c s rest E Hd Hc IH] using decode_ind; [done|]. rewrite Hd. cbn [forallb]. intros [Hb Hr]%andb_true_iff.
  destruct Hc as [[Hbad _]|(_ & _ & Ht)]; [by rewrite Hbad in Hb|]. subst s. rewrite sapp_assoc, Ht, IH by done. done.
Qed.
Lemma valid_app a b : valid_text a = true -> valid_text (a +:+ b) = valid_text b.
Proof. intros Ha. unfold valid_text. rewrite decode_app by done. rewrite forallb_app. change (valid_text a && valid_text b = valid_text b). by rewrite Ha. Qed.
Lemma decode_byte b s : Z_of_byte b < 128 -> decode (String b s) = (Z_of_byte b, String b "") :: decode s.
Proof. intros H. cbn [decode]. by rewrite (proj2 (Z.ltb_lt _ _) H). Qed.

(** ** What is quoted is read back *)
Lemma read_hex a b h1 h2 h3 h4 u l : code a = 92 -> code b = 117 -> hex4 (code h1) (code h2) (code h3) (code h4) = Some u -> high_surrogate u = false ->
  read_string (a :: b :: h1 :: h2 :: h3 :: h4 :: l) = prepend (encode_rune u) (read_string l).
Proof. intros Ha Hb Hu Hs. cbn [read_string]. rewrite Ha, Hb, Hu. cbn. rewrite Hs. cbn. by destruct l as [|? [|? [|? [|? [|? []]]]]]. Qed.
Lemma read_raw c l : bad c = false -> 32 <= code c -> code c <> 34 -> code c <> 92 -> read_string (c :: l) = prepend c.2 (read_string l).
Proof.
  intros Hb Hlo H34 H92. cbn [read_string]. rewrite (proj2 (Z.eqb_neq _ _) H34), (proj2 (Z.eqb_neq _ _) H92), (proj2 (Z.ltb_ge _ _) Hlo).
  unfold clean_rune. by rewrite Hb.
Qed.
Definition reads_as (t : string) (u : string) : Prop :=
  valid_text t = true /\ forall l, read_string (decode t ++ l) = prepend u (read_string l).
Lemma byte_reads r b : Z_of_byte b < 128 -> reads_as (escape (r, String b "")) (String b "").
Proof.
  intros Hb. unfold escape. change (code (r, String b "")) with (Z_of_byte b). rewrite (proj2 (Z.ltb_lt _ _) Hb).
  destruct (_ && _) eqn:E; cbn [snd].
  - apply andb_true_iff in E as [Hlo%Z.leb_le He]. cbn in He. rewrite !orb_false_r, !negb_orb, !andb_true_iff, !negb_true_iff, !Z.eqb_neq in He.
    assert (bad (Z_of_byte b, String b "") = false) as Hbad.
    { unfold bad. cbn. destruct (Z.eqb_spec (Z_of_byte b) RuneError) as [Eb|]; [unfold RuneError in Eb; lia|done]. }
    unfold reads_as, valid_text. rewrite decode_byte by done. cbn [decode forallb app]. rewrite Hbad. split; [done|]. intros l. apply (read_raw (_, String b "")); [exact Hbad|done|tauto|tauto].
  - destruct b as [[] [] [] [] [] [] [] []]; try (exfalso; cbn in Hb; lia); try (vm_compute in E; discriminate E); split; try reflexivity; intros l;
      match goal with |- read_string (?d ++ _) = _ => let d' := eval vm_compute in d in change d with d' end; cbn [app];
      reflexivity || (etransitivity; [apply read_hex; reflexivity|reflexivity]).
Qed.
Lemma rune_reads c : bad c = true /\ 128 <= code c < 256 \/ bad c = false /\ (code c < 128 \/ code c = 256) /\ (forall t, decode (c.2 +:+ t) = c :: decode t) ->
  reads_as (escape c) (clean_rune c).
Proof.
  intros [[Hb Hc]|(Hb & Hc & Ht)].
  - unfold escape, clean_rune. rewrite (proj2 (Z.ltb_ge _ _)) by lia. rewrite Hb. split; [done|]. intros l. etransitivity; [by apply read_hex|done].
  - unfold clean_rune. rewrite Hb. destruct Hc as [Hc|Hc].
    { unfold code in Hc. destruct c as [r [|b [|]]]; try (cbn in Hc; lia). by apply byte_reads. }
    unfold escape. rewrite Hc, Hb. cbn [Z.ltb Z.compare Pos.compare Pos.compare_cont].
    destruct (String.eqb_spec c.2 (encode_rune 8232)) as [->|]; [split; [done|]; intros l; etransitivity; [by apply read_hex|done]|].
    destruct (String.eqb_spec c.2 (encode_rune 8233)) as [->|]; [split; [done|]; intros l; etransitivity; [by apply read_hex|done]|].
    specialize (Ht ""). rewrite sapp_nil_r in Ht. unfold reads_as, valid_text. rewrite Ht. cbn [forallb decode]. rewrite Hb. split; [done|].
    intros l. apply read_raw; [done|lia..].
Qed.
Lemma reads_app t t' u u' : reads_as t u -> reads_as t' u' -> reads_as (t +:+ t') (u +:+ u').
Proof.
  intros [Hv Hr] [Hv' Hr']. split; [by rewrite valid_app|]. intros l. rewrite decode_app, <- app_assoc, Hr, Hr' by done.
  destruct (read_string l) as [[x m]|]; [|done]. unfold prepend. cbn. by rewrite sapp_assoc.
Qed.
Lemma body_reads s : reads_as (foldr (fun c t => escape c +:+ t) "" (decode s)) (ToValidUTF8 s).
Proof.
  unfold ToValidUTF8. induction s as [|c s rest E Hd Hc IH] using decode_ind.
  - split; [done|]. intros l. change (read_string l = prepend "" (read_string l)). by destruct (read_string l) as [[]|].
  - rewrite Hd. cbn [foldr]. apply reads_app; [by apply rune_reads|exact IH].
Qed.
Lemma read_quote s l : exists q, decode (quote s) = q :: tail (decode (quote s)) /\ code q = 34 /\
  valid_text (quote s) = true /\ read_string (tail (decode (quote s)) ++ l) = Some (ToValidUTF8 s, l).
Proof.
  destruct (body_reads s) as [Hv Hr]. unfold quote. set (body := foldr _ _ _) in *.
  change (quote_mark +:+ body +:+ quote_mark) with (String (byte_of_Z 34) (body +:+ quote_mark)).
  rewrite decode_byte by (by vm_compute). cbn [tail]. eexists. split; [reflexivity|]. split; [reflexivity|]. split.
  - change (valid_text (quote_mark +:+ (body +:+ quote_mark)) = true). rewrite valid_app by reflexivity. by rewrite valid_app.
  - rewrite decode_app, <- app_assoc, Hr by done. change (prepend (ToValidUTF8 s) (Some ("", l)) = Some (ToValidUTF8 s, l)).
    unfold prepend. cbn. by rewrite sapp_nil_r.
Qed.
Lemma valid_kept s : valid_text s = true -> ToValidUTF8 s = s.
Proof.
  unfold valid_text, ToValidUTF8. induction s as [|c s rest E Hd Hc IH] using decode_ind; [done|]. rewrite Hd. cbn [forallb foldr].
  intros [Hb Hr]%andb_true_iff. rewrite (IH Hr). unfold clean_rune. apply negb_true_iff in Hb. rewrite Hb. done.
Qed.

(** ** Values *)
Definition is_white (c : runeb) : bool := existsb (Z.eqb (code c)) [32; 9; 13; 10].
Fixpoint skip_ws (l : list runeb) : list runeb := match l with c :: l' => if is_white c then skip_ws l' else l | [] => [] end.
Definition is_digit (c : runeb) : bool := between 48 57 (code c).
Fixpoint take_digits (l : list runeb) : string * list runeb :=
  match l with
  | c :: l' => if is_digit c then let '(t, r) := take_digits l' in (c.2 +:+ t, r) else ("", l)
  | [] => ("", [])
  end.
(** One digit or more. *)
Definition some_digits (l : list runeb) : option (string * list runeb) :=
  match l with c :: _ => if is_digit c then Some (take_digits l) else None | [] => None end.
Definition optional (p : Z -> bool) (l : list runeb) : string * list runeb :=
  match l with c :: l' => if p (code c) then (c.2, l') else ("", l) | [] => ("", []) end.
Definition integer_part (l : list runeb) : option (string * list runeb) :=
  match l with c :: l' => if code c =? 48 then Some (c.2, l') else some_digits l | [] => None end.
Definition fraction_part (l : list runeb) : option (string * list runeb) :=
  match optional (Z.eqb 46) l with ("", l') => Some ("", l') | (dot, l') => prepend dot (some_digits l') end.
Definition exponent_part (l : list runeb) : option (string * list runeb) :=
  match optional (fun x => existsb (Z.eqb x) [101; 69]) l with
  | ("", l') => Some ("", l')
  | (e, l') => let '(sign, l'') := optional (fun x => existsb (Z.eqb x) [43; 45]) l' in prepend (e +:+ sign) (some_digits l'')
  end.
Definition read_number (l : list runeb) : option (string * list runeb) :=
  let '(sign, l) := optional (Z.eqb 45) l in
  '(i, l) ← integer_part l; '(f, l) ← fraction_part l; '(e, l) ← exponent_part l; Some (sign +:+ i +:+ f +:+ e, l).
Fixpoint expect (w : string) (l : list runeb) : option (list runeb) :=
  match w, l with
  | "", _ => Some l
  | String b w', c :: l' => if code c =? Z_of_byte b then expect w' l' else None
  | _, [] => None
  end.
Definition maxNestingDepth : Z := 10000.

(** [depth] is the number of arrays and objects around the value. *)
Fixpoint read_value (fuel : nat) (depth : Z) (l : list runeb) : option (BA.json * list runeb) :=
  match fuel with
  | O => None
  | S n =>
      match skip_ws l with
      | [] => None
      | c :: l1 =>
          if code c =? 123 then
            if maxNestingDepth <=? depth then None else
            match skip_ws l1 with
            | c' :: l2 => if code c' =? 125 then Some (BA.JObj [], l2) else '(ms, l3) ← read_members n (depth + 1) l1; Some (BA.JObj ms, l3)
            | [] => None
            end
          else if code c =? 91 then
            if maxNestingDepth <=? depth then None else
            match skip_ws l1 with
            | c' :: l2 => if code c' =? 93 then Some (BA.JArr [], l2) else '(vs, l3) ← read_elements n (depth + 1) l1; Some (BA.JArr vs, l3)
            | [] => None
            end
          else if code c =? 34 then '(s, l2) ← read_string l1; Some (BA.JStr s, l2)
          else if code c =? 116 then l2 ← expect "rue" l1; Some (BA.JBool true, l2)
          else if code c =? 102 then l2 ← expect "alse" l1; Some (BA.JBool false, l2)
          else if code c =? 110 then l2 ← expect "ull" l1; Some (BA.JNull, l2)
          else '(raw, l2) ← read_number (c :: l1); Some (BA.JNum raw, l2)
      end
  end
with read_elements (fuel : nat) (depth : Z) (l : list runeb) : option (list BA.json * list runeb) :=
  match fuel with
  | O => None
  | S n =>
      '(v, l1) ← read_value n depth l;
      match skip_ws l1 with
      | c :: l2 => if code c =? 44 then '(vs, l3) ← read_elements n depth l2; Some (v :: vs, l3)
                   else if code c =? 93 then Some ([v], l2) else None
      | [] => None
      end
  end
with read_members (fuel : nat) (depth : Z) (l : list runeb) : option (list (string * BA.json) * list runeb) :=
  match fuel with
  | O => None
  | S n =>
      match skip_ws l with
      | c :: l1 =>
          if code c =? 34 then
            '(k, l2) ← read_string l1;
            match skip_ws l2 with
            | c2 :: l3 =>
                if code c2 =? 58 then
                  '(v, l4) ← read_value n depth l3;
                  match skip_ws l4 with
                  | c4 :: l5 => if code c4 =? 44 then '(ms, l6) ← read_members n depth l5; Some ((k, v) :: ms, l6)
                                else if code c4 =? 125 then Some ([(k, v)], l5) else None
                  | [] => None
                  end
                else None
            | [] => None
            end
          else None
      | [] => None
      end
  end.
(** The first value of a text and what follows it and its white space. *)
Definition read_json (s : string) : res (BA.json * string) :=
  match read_value (S (2 * length (decode s))) 0 (decode s) with
  | Some (v, l) => Ok (v, undecode (skip_ws l))
  | None => Err (Errorf "invalid character or unexpected end of JSON input" [])
  end.

Fixpoint print (j : jv) : string :=
  match j with
  | JNull => "null"
  | JBool b => if b then "true" else "false"
  | JInt z => pretty z
  | JStr s => quote s
  | JArr vs => "[" +:+ (fix go vs := match vs with [] => "]" | [v] => print v +:+ "]" | v :: vs' => print v +:+ ("," +:+ go vs') end) vs
  | JObj ms => "{" +:+ (fix go ms := match ms with
                          | [] => "}"
                          | [(k, v)] => quote k +:+ (":" +:+ (print v +:+ "}"))
                          | (k, v) :: ms' => quote k +:+ (":" +:+ (print v +:+ ("," +:+ go ms')))
                          end) ms
  end.
Definition sample_tree : jv := JObj [("a<b", JArr [JInt (-12); JNull; JBool true]); ("é", JStr (String (byte_of_Z 7) "x")); ("", JObj []); ("0", JArr [])].
Example sample_text_reads : read_json (print sample_tree +:+ "  x") = Ok (json_of sample_tree, "x").
Proof. vm_compute. reflexivity. Qed.

(** ** What is written is read back *)
Abbreviation entry b := (Z_of_byte b, String b "").
Definition number_end (l : list runeb) : bool :=
  match l with c :: _ => negb (is_digit c) && negb (existsb (Z.eqb (code c)) [46; 101; 69]) | [] => true end.
Lemma digit_range b : digit_byte b = true -> 48 <= Z_of_byte b <= 57.
Proof.
  intros [d Hd]%bool_decide_eq_true. unfold digit in Hd. destruct (_ && _) eqn:E; [|done]. rewrite andb_true_iff, !Z.leb_le in E. lia.
Qed.
Lemma digit_entry b : digit_byte b = true -> is_digit (entry b) = true.
Proof. intros H%digit_range. unfold is_digit, between. cbn. rewrite andb_true_iff, !Z.leb_le. lia. Qed.
Lemma digits_taken t l : sforall digit_byte t = true -> number_end l = true -> take_digits (decode t ++ l) = (t, l).
Proof.
  induction t as [|b t IH]; intros Ht Hl.
  - change (take_digits l = ("", l)). destruct l as [|c l]; [done|]. cbn [number_end] in Hl. apply andb_true_iff in Hl as [Hc%negb_true_iff _].
    cbn [take_digits]. by rewrite Hc.
  - cbn [sforall] in Ht. apply andb_true_iff in Ht as [Hb Ht]. pose proof (digit_range b Hb). rewrite decode_byte by lia. cbn [app take_digits].
    rewrite digit_entry, IH by done. done.
Qed.
Lemma number_stops l : number_end l = true -> fraction_part l = Some ("", l) /\ exponent_part l = Some ("", l).
Proof.
  destruct l as [|c l]; [done|]. cbn [number_end]. intros [_ H]%andb_true_iff. cbn in H. rewrite orb_false_r, !negb_orb, !andb_true_iff, !negb_true_iff in H.
  destruct H as (H1 & H2 & H3). unfold fraction_part, exponent_part, optional. rewrite (Z.eqb_sym 46), H1. cbn [existsb]. by rewrite H2, H3.
Qed.
Lemma integer_read c t l : digit_byte c = true -> c <> "0"%char -> sforall digit_byte t = true -> number_end l = true ->
  integer_part (decode (String c t) ++ l) = Some (String c t, l).
Proof.
  intros Hc H0 Ht Hl. pose proof (digit_range c Hc). pose proof (digits_taken (String c t) l) as Hd.
  assert (sforall digit_byte (String c t) = true) as Hall by (cbn; by rewrite Hc, Ht). specialize (Hd Hall Hl).
  rewrite decode_byte in * by lia. cbn [app] in *. unfold integer_part. change (code (entry c)) with (Z_of_byte c).
  rewrite (proj2 (Z.eqb_neq _ _)). { unfold some_digits. by rewrite digit_entry, Hd. }
  intros E. apply H0. rewrite <- (byte_of_Z_of_byte c), E. done.
Qed.
Lemma read_int (z : Z) l : number_end l = true -> read_number (decode (pretty z) ++ l) = Some (pretty z, l).
Proof.
  intros Hl. destruct (number_stops l Hl) as [Hf He]. unfold read_number. destruct z as [|p|p].
  - change (decode (pretty 0) ++ l) with (entry "0"%char :: l). cbn [optional]. change (45 =? code (entry "0"%char)) with false. cbn [integer_part].
    change (code (entry "0"%char) =? 48) with true. cbn [mbind option_bind]. rewrite Hf. cbn [mbind option_bind]. rewrite He. done.
  - destruct (pretty_pos_shape p) as (c & t & -> & Hc & H0 & Ht). pose proof (digit_range c Hc).
    assert (optional (Z.eqb 45) (decode (String c t) ++ l) = ("", decode (String c t) ++ l)) as ->.
    { rewrite decode_byte by lia. cbn [app optional]. change (code (entry c)) with (Z_of_byte c). by rewrite (proj2 (Z.eqb_neq _ _)) by lia. }
    rewrite integer_read by done. cbn [mbind option_bind]. rewrite Hf. cbn [mbind option_bind]. rewrite He. cbn. by rewrite !sapp_nil_r.
  - change (pretty (Z.neg p)) with (String "-" (pretty (Z.pos p))). destruct (pretty_pos_shape p) as (c & t & -> & Hc & H0 & Ht).
    rewrite decode_byte by (by vm_compute). cbn [app optional]. change (45 =? code (entry "-"%char)) with true. cbn [snd].
    rewrite integer_read by done. cbn [mbind option_bind]. rewrite Hf. cbn [mbind option_bind]. rewrite He. cbn. by rewrite !sapp_nil_r.
Qed.

Section jv_nested_ind.
Context (P : jv -> Prop) (Hnull : P JNull) (Hbool : forall b, P (JBool b)) (Hint : forall z, P (JInt z)) (Hstr : forall s, P (JStr s))
  (Harr : forall vs, Forall P vs -> P (JArr vs)) (Hobj : forall ms, Forall (fun m => P m.2) ms -> P (JObj ms)).
Fixpoint jv_nested_ind (j : jv) : P j :=
  match j with
  | JNull => Hnull
  | JBool b => Hbool b
  | JInt z => Hint z
  | JStr s => Hstr s
  | JArr vs => Harr vs ((fix go vs := match vs return Forall P vs with
      | [] => List.Forall_nil _ | v :: vs' => @List.Forall_cons _ _ v vs' (jv_nested_ind v) (go vs') end) vs)
  | JObj ms => Hobj ms ((fix go ms := match ms return Forall (fun m => P m.2) ms with
      | [] => List.Forall_nil _ | m :: ms' => @List.Forall_cons _ _ m ms' (jv_nested_ind m.2) (go ms') end) ms)
  end.
End jv_nested_ind.

(** The tree with the strings the package keeps. *)
Fixpoint kept (j : jv) : jv :=
  match j with
  | JStr s => JStr (ToValidUTF8 s)
  | JArr vs => JArr (map kept vs)
  | JObj ms => JObj (map (fun m => (ToValidUTF8 m.1, kept m.2)) ms)
  | j => j
  end.
(** The levels of arrays and objects. *)
Fixpoint levels (j : jv) : Z :=
  match j with
  | JArr vs => 1 + (fix go vs := match vs with [] => 0 | v :: vs' => Z.max (levels v) (go vs') end) vs
  | JObj ms => 1 + (fix go ms := match ms with [] => 0 | (_, v) :: ms' => Z.max (levels v) (go ms') end) ms
  | _ => 0
  end.
Definition elements_text : list jv -> string :=
  fix go vs := match vs with [] => "]" | [v] => print v +:+ "]" | v :: vs' => print v +:+ ("," +:+ go vs') end.
Definition members_text : list (string * jv) -> string :=
  fix go ms := match ms with
    | [] => "}"
    | [(k, v)] => quote k +:+ (":" +:+ (print v +:+ "}"))
    | (k, v) :: ms' => quote k +:+ (":" +:+ (print v +:+ ("," +:+ go ms')))
    end.
Definition levels_in (vs : list jv) : Z := foldr (fun v n => Z.max (levels v) n) 0 vs.
Lemma levels_arr vs : levels (JArr vs) = 1 + levels_in vs.
Proof. cbn. f_equal. Qed.
Lemma levels_obj ms : levels (JObj ms) = 1 + levels_in ms.*2.
Proof. cbn. f_equal. induction ms as [|[k v] ms IH]; [done|]. cbn. by rewrite IH. Qed.

(** A written value starts with the first rune of a value. *)
Definition starts (c : runeb) : bool := negb (is_white c) && negb (code c =? 93) && negb (code c =? 125).
Definition written (j : jv) : Prop := valid_text (print j) = true /\ exists c r, decode (print j) = c :: r /\ starts c = true.
Lemma decode_cons b t : Z_of_byte b < 128 -> decode (String b "" +:+ t) = entry b :: decode t.
Proof. intros H. change (String b "" +:+ t) with (String b t). by apply decode_byte. Qed.
Lemma digit_starts b : digit_byte b = true -> starts (entry b) = true.
Proof.
  intros H%digit_range. unfold starts, is_white. cbn. rewrite orb_false_r, !negb_orb, !andb_true_iff, !negb_true_iff, !Z.eqb_neq. lia.
Qed.
Lemma ascii_valid t : sforall (fun b => Z_of_byte b <? 128) t = true -> valid_text t = true.
Proof.
  induction t as [|b t IH]; [done|]. cbn [sforall]. intros [Hb%Z.ltb_lt Ht]%andb_true_iff. unfold valid_text. rewrite decode_byte by done.
  change (negb (bad (entry b)) && valid_text t = true). rewrite IH by done. unfold bad. cbn. destruct (Z.eqb_spec (Z_of_byte b) RuneError) as [E|]; [unfold RuneError in E; lia|done].
Qed.
Lemma pretty_written (z : Z) : written (JInt z).
Proof.
  split.
  - apply ascii_valid. eapply sforall_impl; [|apply pretty_bytes]. intros b. unfold decimal_byte. rewrite orb_true_iff.
    intros [->%Ascii.eqb_eq|H%(digit_range b)]; [done|]. apply Z.ltb_lt. lia.
  - cbn [print]. destruct z as [|p|p]; [by eexists _, _| |].
    + destruct (pretty_pos_shape p) as (c & t & -> & Hc & _). pose proof (digit_range c Hc). rewrite decode_byte by lia. eexists _, _. split; [done|]. by apply digit_starts.
    + change (pretty (Z.neg p)) with (String "-" (pretty (Z.pos p))). by eexists _, _.
Qed.
Lemma valid_cons b t : Z_of_byte b < 128 -> valid_text (String b "" +:+ t) = valid_text t.
Proof. intros H. apply valid_app, ascii_valid. cbn. by rewrite (proj2 (Z.ltb_lt _ _) H). Qed.
Lemma quote_valid s : valid_text (quote s) = true.
Proof. by destruct (read_quote s []) as (_ & _ & _ & ? & _). Qed.
Lemma elements_valid vs : Forall written vs -> valid_text (elements_text vs) = true.
Proof.
  induction 1 as [|v vs [Hv _] Hvs IH]; [done|]. destruct vs as [|w vs].
  - change (valid_text (print v +:+ "]") = true). by rewrite valid_app.
  - change (valid_text (print v +:+ ("," +:+ elements_text (w :: vs))) = true). by rewrite valid_app, valid_cons.
Qed.
Lemma members_valid ms : Forall (fun m => written m.2) ms -> valid_text (members_text ms) = true.
Proof.
  induction 1 as [|[k v] ms [Hv _] Hms IH]; [done|]. destruct ms as [|m ms].
  - change (valid_text (quote k +:+ (":" +:+ (print v +:+ "}"))) = true). by rewrite valid_app, valid_cons, valid_app by (apply quote_valid || done).
  - change (valid_text (quote k +:+ (":" +:+ (print v +:+ ("," +:+ members_text (m :: ms))))) = true).
    by rewrite valid_app, valid_cons, valid_app, valid_cons by (apply quote_valid || done).
Qed.
Lemma all_written j : written j.
Proof.
  induction j as [|b|z|s|vs IH|ms IH] using jv_nested_ind.
  - split; [done|]. by eexists _, _.
  - destruct b; (split; [done|]; by eexists _, _).
  - apply pretty_written.
  - split; [apply quote_valid|]. destruct (read_quote s []) as (q & E & Hq & _). eexists q, _. split; [exact E|]. unfold starts, is_white. by rewrite Hq.
  - change (written (JArr vs)). split.
    + change (valid_text ("[" +:+ elements_text vs) = true). rewrite valid_cons by done. by apply elements_valid.
    + change (exists c r, decode ("[" +:+ elements_text vs) = c :: r /\ starts c = true). rewrite decode_cons by done. by eexists _, _.
  - split.
    + change (valid_text ("{" +:+ members_text ms) = true). rewrite valid_cons by done. by apply members_valid.
    + change (exists c r, decode ("{" +:+ members_text ms) = c :: r /\ starts c = true). rewrite decode_cons by done. by eexists _, _.
Qed.

(** A value that is read back wherever it stands. *)
Definition reads (j : jv) : Prop := forall n d l, d + levels j <= maxNestingDepth -> number_end l = true -> (2 * (length (decode (print j)) + length l) < n)%nat ->
  read_value n d (decode (print j) ++ l) = Some (json_of (kept j), l).
Lemma skip_start c l : starts c = true -> skip_ws (c :: l) = c :: l.
Proof. unfold starts. intros [[H _]%andb_true_iff _]%andb_true_iff. cbn [skip_ws]. apply negb_true_iff in H. by rewrite H. Qed.
Ltac fuel_lia := unfold levels_in in *; do 4 (rewrite ?length_app in *; cbn [length foldr fmap list_fmap snd] in *); lia.
Lemma elements_read vs d : Forall reads vs -> vs <> [] -> d + levels_in vs <= maxNestingDepth -> forall n l,
  (2 * (length (decode (elements_text vs)) + length l) + 1 < n)%nat ->
  read_elements n d (decode (elements_text vs) ++ l) = Some (json_of <$> (kept <$> vs), l).
Proof.
  induction 1 as [|v vs Hv Hvs IH]; [done|]. intros _ Hd n l Hn. destruct (all_written v) as [Hval _].
  destruct n as [|n]; [lia|]. destruct vs as [|w vs].
  - change (elements_text [v]) with (print v +:+ "]") in *. rewrite decode_app in * by done. rewrite <- app_assoc.
    change (decode "]") with [entry "]"%char] in *. cbn [read_elements]. rewrite Hv by (done || fuel_lia). reflexivity.
  - change (elements_text (v :: w :: vs)) with (print v +:+ ("," +:+ elements_text (w :: vs))) in *.
    rewrite decode_app, decode_cons in * by done. rewrite <- app_assoc. cbn [app] in *.
    cbn [read_elements]. rewrite Hv by (done || fuel_lia).
    cbn [mbind option_bind]. rewrite skip_start by done. change (code (entry ","%char) =? 44) with true. cbn iota.
    rewrite IH by (done || fuel_lia). reflexivity.
Qed.
Lemma members_read ms d : Forall (fun m => reads m.2) ms -> ms <> [] -> d + levels_in ms.*2 <= maxNestingDepth -> forall n l,
  (2 * (length (decode (members_text ms)) + length l) + 1 < n)%nat ->
  read_members n d (decode (members_text ms) ++ l) = Some ((fun m => (ToValidUTF8 m.1, json_of (kept m.2))) <$> ms, l).
Proof.
  induction 1 as [|[k v] ms Hv Hms IH]; [done|]. intros _ Hd n l Hn. destruct (all_written v) as [Hval _]. pose proof (quote_valid k) as Hk.
  destruct n as [|n]; [lia|]. cbn [snd] in Hv. destruct ms as [|m ms].
  - change (members_text [(k, v)]) with (quote k +:+ (":" +:+ (print v +:+ "}"))) in *.
    rewrite decode_app, decode_cons, decode_app in * by done. change (decode "}") with [entry "}"%char] in *.
    destruct (read_quote k (entry ":"%char :: decode (print v) ++ entry "}"%char :: l)) as (q & E & Hq & _ & Hr).
    rewrite E, <- app_assoc in *. cbn [app tail] in *. rewrite <- app_assoc in *. cbn [app] in *. cbn [read_members].
    rewrite skip_start by (unfold starts, is_white; by rewrite Hq). rewrite Hq. cbn [Z.eqb Pos.eqb]. rewrite Hr. cbn [mbind option_bind].
    rewrite skip_start by done. change (code (entry ":"%char) =? 58) with true. cbn iota. rewrite Hv by (done || fuel_lia). reflexivity.
  - change (members_text ((k, v) :: m :: ms)) with (quote k +:+ (":" +:+ (print v +:+ ("," +:+ members_text (m :: ms))))) in *.
    rewrite decode_app, decode_cons, decode_app, decode_cons in * by done.
    destruct (read_quote k (entry ":"%char :: decode (print v) ++ entry ","%char :: decode (members_text (m :: ms)) ++ l)) as (q & E & Hq & _ & Hr).
    rewrite E, <- app_assoc in *. cbn [app tail] in *. rewrite <- app_assoc in *. cbn [app] in *. cbn [read_members].
    rewrite skip_start by (unfold starts, is_white; by rewrite Hq). rewrite Hq. cbn [Z.eqb Pos.eqb]. rewrite Hr. cbn [mbind option_bind].
    rewrite skip_start by done. change (code (entry ":"%char) =? 58) with true. cbn iota. rewrite Hv by (done || fuel_lia).
    cbn [mbind option_bind]. rewrite skip_start by done. change (code (entry ","%char) =? 44) with true. cbn iota.
    rewrite IH by (done || fuel_lia). reflexivity.
Qed.
Lemma pretty_code (z : Z) c r : decode (pretty z) = c :: r -> 45 <= code c <= 57.
Proof.
  pose proof (pretty_bytes z) as H. destruct (pretty z) as [|b t]; [done|]. cbn [sforall] in H. apply andb_true_iff in H as [Hb _].
  assert (45 <= Z_of_byte b <= 57) as Hr.
  { unfold decimal_byte in Hb. apply orb_true_iff in Hb as [->%Ascii.eqb_eq|H%(digit_range b)]; [by vm_compute|lia]. }
  rewrite decode_byte by lia. intros [= <- _]. exact Hr.
Qed.
Lemma levels_in_nonneg vs : 0 <= levels_in vs.
Proof. unfold levels_in. induction vs; cbn; lia. Qed.
Lemma elements_head v vs : exists c r, decode (elements_text (v :: vs)) = c :: r /\ starts c = true.
Proof.
  destruct (all_written v) as (Hv & c & r & E & Hc). exists c. destruct vs as [|w vs].
  - change (elements_text [v]) with (print v +:+ "]"). rewrite decode_app, E by done. by eexists.
  - change (elements_text (v :: w :: vs)) with (print v +:+ ("," +:+ elements_text (w :: vs))). rewrite decode_app, E by done. by eexists.
Qed.
Lemma members_head m ms : exists c r, decode (members_text (m :: ms)) = c :: r /\ starts c = true.
Proof.
  destruct m as [k v]. destruct (read_quote k []) as (q & E & Hq & Hv & _). exists q.
  assert (exists t, members_text ((k, v) :: ms) = quote k +:+ t) as [t ->] by (destruct ms; by eexists).
  rewrite decode_app, E by done. eexists. split; [reflexivity|]. unfold starts, is_white. by rewrite Hq.
Qed.
Lemma starts_code c : starts c = true -> (code c =? 93) = false /\ (code c =? 125) = false.
Proof. unfold starts. rewrite !andb_true_iff, !negb_true_iff. tauto. Qed.
Lemma all_read j : reads j.
Proof.
  induction j as [|b|z|s|vs IH|ms IH] using jv_nested_ind; intros n d l Hd Hl Hn; (destruct n as [|n]; [lia|]).
  - reflexivity.
  - by destruct b.
  - pose proof (read_int z l Hl) as Hr. destruct (all_written (JInt z)) as (_ & c & r & E & Hs). pose proof (pretty_code z c r E) as Hc.
    cbn [print] in *. rewrite E in *. cbn [app] in *. cbn [read_value]. rewrite skip_start by done.
    do 6 (rewrite (proj2 (Z.eqb_neq (code c) _)) by lia). by rewrite Hr.
  - destruct (read_quote s l) as (q & E & Hq & _ & Hr). cbn [print] in *. rewrite E. cbn [app read_value].
    rewrite skip_start by (unfold starts, is_white; by rewrite Hq). rewrite Hq. cbn [Z.eqb Pos.eqb]. by rewrite Hr.
  - change (print (JArr vs)) with ("[" +:+ elements_text vs) in *. rewrite decode_cons in * by done. rewrite levels_arr in Hd. cbn [app read_value].
    pose proof (levels_in_nonneg vs) as Hpos. rewrite skip_start by done.
    change (code (entry "["%char) =? 123) with false. change (code (entry "["%char) =? 91) with true. cbn iota. rewrite (proj2 (Z.leb_gt _ _)) by lia.
    destruct vs as [|v vs]; [reflexivity|]. pose proof (elements_read (v :: vs) (d + 1) IH ltac:(done) ltac:(lia) n l ltac:(fuel_lia)) as Hr.
    destruct (elements_head v vs) as (c & r & E & Hs). rewrite E in *. cbn [app] in *. rewrite skip_start, (proj1 (starts_code c Hs)), Hr by done.
    reflexivity.
  - change (print (JObj ms)) with ("{" +:+ members_text ms) in *. rewrite decode_cons in * by done. rewrite levels_obj in Hd. cbn [app read_value].
    pose proof (levels_in_nonneg ms.*2) as Hpos. rewrite skip_start by done.
    change (code (entry "{"%char) =? 123) with true. cbn iota. rewrite (proj2 (Z.leb_gt _ _)) by lia.
    destruct ms as [|m ms]; [reflexivity|]. pose proof (members_read (m :: ms) (d + 1) IH ltac:(done) ltac:(lia) n l ltac:(fuel_lia)) as Hr.
    destruct (members_head m ms) as (c & r & E & Hs). rewrite E in *. cbn [app] in *. rewrite skip_start, (proj2 (starts_code c Hs)), Hr by done.
    cbn. by rewrite map_map.
Qed.

(** What [json.Marshal] writes is read back: the text of any tree of at
    most 10000 levels, whatever text follows that cannot continue a number, is
    read as that tree, with every string as the package keeps it (bytes that are
    not UTF-8 become U+FFFD), and what follows is left. *)
Theorem json_text_roundtrip (j : jv) (rest : string) :
  levels j <= maxNestingDepth -> number_end (decode rest) = true ->
  read_json (print j +:+ rest) = Ok (json_of (kept j), undecode (skip_ws (decode rest))).
Proof.
  intros Hd Hr. unfold read_json. destruct (all_written j) as [Hv _]. rewrite decode_app by done.
  rewrite all_read; [done|lia|done|]. rewrite length_app. lia.
Qed.

(** ** The bound on the recursion is enough *)
Lemma skip_length l : (length (skip_ws l) <= length l)%nat.
Proof. induction l as [|c l IH]; [done|]. cbn [skip_ws]. destruct (is_white c); cbn [length]; lia. Qed.
Lemma prepend_Some t r x l : prepend t r = Some (x, l) -> exists y, r = Some (y, l).
Proof. unfold prepend. destruct r as [[y m]|]; [|done]. cbn. intros [= _ <-]. by exists y. Qed.
Lemma string_shorter l : forall s r, read_string l = Some (s, r) -> (length r < length l)%nat.
Proof.
  induction l as [l IH] using (well_founded_induction (well_founded_ltof _ (@length runeb))). unfold ltof in IH.
  destruct l as [|c l1]; [done|]. intros s r. cbn [read_string].
  assert (forall t m x, (length m < length (c :: l1))%nat -> prepend t (read_string m) = Some (x, r) -> (length r < length (c :: l1))%nat) as Hp.
  { intros t m x Hm (y & Hy)%prepend_Some. exact (Nat.lt_trans _ _ _ (IH m Hm y r Hy) Hm). }
  repeat case_match; try done; subst; try (intros [= <- <-]; cbn; lia); apply Hp; cbn; lia.
Qed.
Lemma digits_shorter l : (length (take_digits l).2 <= length l)%nat.
Proof. induction l as [|c l IH]; [done|]. cbn [take_digits]. destruct (is_digit c); [|done]. destruct (take_digits l). cbn in *. lia. Qed.
Lemma some_digits_shorter l s r : some_digits l = Some (s, r) -> (length r < length l)%nat.
Proof.
  destruct l as [|c l]; [done|]. unfold some_digits. destruct (is_digit c) eqn:Hc; [|done]. intros [= E]. cbn [take_digits] in E. rewrite Hc in E.
  pose proof (digits_shorter l) as H. destruct (take_digits l). injection E as _ <-. cbn in *. lia.
Qed.
Lemma optional_length p l : (length (optional p l).2 <= length l)%nat.
Proof. destruct l as [|c l]; [done|]. cbn. destruct (p _); cbn; lia. Qed.
Lemma integer_shorter l s r : integer_part l = Some (s, r) -> (length r < length l)%nat.
Proof. destruct l as [|c l]; [done|]. unfold integer_part. destruct (code c =? 48); [intros [= _ <-]; cbn; lia|apply some_digits_shorter]. Qed.
Lemma fraction_shorter l s r : fraction_part l = Some (s, r) -> (length r <= length l)%nat.
Proof.
  unfold fraction_part. pose proof (optional_length (Z.eqb 46) l) as Ho. destruct (optional _ l) as [[|b t] m]; cbn in Ho; [by intros [= _ <-]|].
  intros (y & Hy%some_digits_shorter)%prepend_Some. lia.
Qed.
Lemma exponent_shorter l s r : exponent_part l = Some (s, r) -> (length r <= length l)%nat.
Proof.
  unfold exponent_part. pose proof (optional_length (fun x => existsb (Z.eqb x) [101; 69]) l) as Ho.
  destruct (optional _ l) as [[|b t] m]; cbn [snd] in Ho; [by intros [= _ <-]|].
  pose proof (optional_length (fun x => existsb (Z.eqb x) [43; 45]) m) as Ho'. destruct (optional _ m) as [sg m']. cbn [snd] in Ho'.
  intros (y & Hy%some_digits_shorter)%prepend_Some. lia.
Qed.
Lemma number_shorter l s r : read_number l = Some (s, r) -> (length r < length l)%nat.
Proof.
  unfold read_number. pose proof (optional_length (Z.eqb 45) l) as Ho. destruct (optional _ l) as [sg m]. cbn [snd] in Ho.
  intros ([i m1] & Hi%integer_shorter & H)%bind_Some. apply bind_Some in H as ([f m2] & Hf%fraction_shorter & H).
  apply bind_Some in H as ([e m3] & He%exponent_shorter & [= _ <-]). lia.
Qed.
Lemma expect_length w l r : expect w l = Some r -> (length r <= length l)%nat.
Proof.
  revert l. induction w as [|b w IH]; intros l; [by intros [= <-]|]. destruct l as [|c l]; [done|]. cbn. destruct (_ =? _); [|done]. intros H%IH. lia.
Qed.
(** Every value takes at least one rune. *)
Definition takes_some {A} (read : list runeb -> option (A * list runeb)) : Prop := forall l x r, read l = Some (x, r) -> (length r < length l)%nat.
Lemma bind_shorter {A B} (read : list runeb -> option (A * list runeb)) (f : A -> B) l x r : takes_some read ->
  ('(a, l') ← read l; Some (f a, l')) = Some (x, r) -> (length r < length l)%nat.
Proof. intros H ([a m] & Ha%H & [= _ <-])%bind_Some. done. Qed.
Lemma expect_shorter {B} w (b : B) l x r : (l' ← expect w l; Some (b, l')) = Some (x, r) -> (length r <= length l)%nat.
Proof. intros (m & Ha%expect_length & [= _ <-])%bind_Some. done. Qed.
Lemma read_shorter n : (forall d, takes_some (read_value n d)) /\ (forall d, takes_some (read_elements n d)) /\ (forall d, takes_some (read_members n d)).
Proof.
  induction n as [|n (IHv & IHe & IHm)]; [done|]. split_and!; intros d l x r.
  - cbn [read_value]. pose proof (skip_length l) as Hs. destruct (skip_ws l) as [|c l1]; [done|]. cbn [length] in Hs. pose proof (skip_length l1) as Hs1.
    repeat (case_match; [|]); try done; try (intros [= _ <-]; cbn [length] in *; lia).
    + intros H'%(bind_shorter _ _ _ _ _ (IHm _)). lia.
    + intros H'%(bind_shorter _ _ _ _ _ (IHe _)). lia.
    + intros H'%(bind_shorter _ _ _ _ _ string_shorter). lia.
    + intros H'%expect_shorter. lia.
    + intros H'%expect_shorter. lia.
    + intros H'%expect_shorter. lia.
    + intros H'%(bind_shorter _ _ _ _ _ number_shorter). cbn [length] in H'. lia.
  - cbn [read_elements]. intros ([v l1] & Hv%IHv & H)%bind_Some. pose proof (skip_length l1) as Hs. destruct (skip_ws l1) as [|c l2]; [done|]. cbn [length] in Hs.
    destruct (code c =? 44); [apply (bind_shorter _ _ _ _ _ (IHe _)) in H; lia|]. destruct (code c =? 93); [injection H as _ <-; lia|done].
  - cbn [read_members]. pose proof (skip_length l) as Hs. destruct (skip_ws l) as [|c l1]; [done|]. cbn [length] in Hs. destruct (code c =? 34); [|done].
    intros ([k l2] & Hk%string_shorter & H)%bind_Some. pose proof (skip_length l2) as Hs2. destruct (skip_ws l2) as [|c2 l3]; [done|]. cbn [length] in Hs2.
    destruct (code c2 =? 58); [|done]. apply bind_Some in H as ([v l4] & Hv%IHv & H). pose proof (skip_length l4) as Hs4.
    destruct (skip_ws l4) as [|c4 l5]; [done|]. cbn [length] in Hs4.
    destruct (code c4 =? 44); [apply (bind_shorter _ _ _ _ _ (IHm _)) in H; lia|]. destruct (code c4 =? 125); [injection H as _ <-; lia|done].
Qed.
(** So twice the length of the text bounds the recursion: more fuel reads the
    same. *)
Definition same_from {A} (k : nat) (read : nat -> list runeb -> option (A * list runeb)) (n : nat) : Prop :=
  forall m l, (2 * length l + k < n)%nat -> (n <= m)%nat -> read m l = read n l.
Lemma fuel_enough n : (forall d, same_from 0 (fun n => read_value n d) n) /\ (forall d, same_from 1 (fun n => read_elements n d) n) /\
  (forall d, same_from 1 (fun n => read_members n d) n).
Proof.
  induction n as [|n (IHv & IHe & IHm)]; [split_and!; intros d m l; lia|]. split_and!; intros d m l Hl Hm; (destruct m as [|m]; [lia|]).
  - cbn [read_value]. pose proof (skip_length l) as Hs. destruct (skip_ws l) as [|c l1]; [done|]. cbn [length] in Hs.
    rewrite (IHm (d + 1) m l1), (IHe (d + 1) m l1) by lia. done.
  - cbn [read_elements]. rewrite (IHv d m l) by lia. destruct (read_value n d l) as [[v l1]|] eqn:E; [|done]. apply (proj1 (read_shorter n)) in E. cbn [mbind option_bind].
    pose proof (skip_length l1) as Hs. destruct (skip_ws l1) as [|c l2]; [done|]. cbn [length] in Hs. by rewrite (IHe d m l2) by lia.
  - cbn [read_members]. pose proof (skip_length l) as Hs. destruct (skip_ws l) as [|c l1]; [done|]. cbn [length] in Hs. destruct (code c =? 34); [|done].
    destruct (read_string l1) as [[k l2]|] eqn:Ek; [|done]. apply string_shorter in Ek. cbn [mbind option_bind].
    pose proof (skip_length l2) as Hs2. destruct (skip_ws l2) as [|c2 l3]; [done|]. cbn [length] in Hs2. destruct (code c2 =? 58); [|done].
    rewrite (IHv d m l3) by lia. destruct (read_value n d l3) as [[v l4]|] eqn:E; [|done]. apply (proj1 (read_shorter n)) in E. cbn [mbind option_bind].
    pose proof (skip_length l4) as Hs4. destruct (skip_ws l4) as [|c4 l5]; [done|]. cbn [length] in Hs4. by rewrite (IHm d m l5) by lia.
Qed.
