(* ===== verification/BudgetWire.v ===== *)
(** * Budget annotations from writer to reader
    (src/budget/v1alpha1/annotationpayload.go, nodebudget.go,
    nodebudgetpolicy.go, vocab.go)

    The payload types as [encoding/json] writes and reads them: the fields by
    their tags, the producer-vocabulary enums by their [UnmarshalJSON].  With
    these the encoder and the strict decoder are proved inverse over any text
    syntax that reads back what it writes; BudgetText applies this to the text
    of encoding/json, and follows a policy from the API server to a node. *)
From S2P Require Import Prelude GoLib GoNumbers BudgetVocab BudgetTypes BudgetLadder BudgetPolicy BudgetObservation BudgetAnnotation CrdSchema CrdManifests ApiJSON ApiFits CrdAdmit ApiDecode CrdPolicy CrdNodeBudget WireJSON.
Set Warnings "-register-all".

(** ** The payload types *)
Definition jf_NodeBudgetReport : jfields := ("schema", Always, TInt64) :: jf_NodeBudgetObservation.
Definition jf_NodeBudgetDesiredPolicy : jfields :=
  [("schema", Always, TInt64); ("name", Always, TString); ("resourceVersion", Always, TString);
   ("spec", Always, TStructOf jf_NodeBudgetPolicySpec)].
Definition NodeBudgetReport_value (r : NodeBudgetReport) : gval :=
  GStruct (GInt (rep_Schema r) :: NodeBudgetObservation_fields (rep_Observation r)).
Definition NodeBudgetDesiredPolicy_value (d : NodeBudgetDesiredPolicy) : gval :=
  GStruct [GInt (dp_Schema d); GStr (dp_Name d); GStr (dp_ResourceVersion d); NodeBudgetPolicySpec_value (dp_Spec d)].
(** The observation is embedded in the report. *)
Definition report_type : BA.gotype :=
  BA.GStruct [("schema", false, BA.GOther); ("", true, gotype_of (TStructOf jf_NodeBudgetObservation))].
Definition desired_type : BA.gotype := gotype_of (TStructOf jf_NodeBudgetDesiredPolicy).

(** ** From a Go value to a record *)
Definition int_of (v : gval) : option Z := match v with GInt z => Some z | _ => None end.
Definition bool_of (v : gval) : option bool := match v with GBool b => Some b | _ => None end.
Definition str_of (v : gval) : option string := match v with GStr s => Some s | _ => None end.
Definition time_of (v : gval) : option Time := match v with GTime t => Some t | _ => None end.
Definition ptr_of {A} (f : gval -> option A) (v : gval) : option (option A) :=
  match v with GNil => Some None | GPtr v => Some <$> f v | _ => None end.
Definition slice_of {A} (f : gval -> option A) (v : gval) : option (gslice A) :=
  match v with GNil => Some None | GSlice vs => Some <$> mapM f vs | _ => None end.
Definition list_of {A} (f : gval -> option A) (v : gval) : option (list A) := elems <$> slice_of f v.
(** A map of strings, the last entry of a key winning. *)
Definition labels_of (v : gval) : option (gmap string string) :=
  match v with GNil => Some ∅ | GMap ms => list_to_map ∘ reverse <$> mapM (fun kv => (fun s => (kv.1, s)) <$> str_of kv.2) ms | _ => None end.
Definition ints_of : list gval -> option (list (option Z)) := mapM (ptr_of int_of).
(** A field whose type has an open-enum [UnmarshalJSON]. *)
Definition open_of (E : OpenEnum) (v : gval) : option string := s ← str_of v; Some (ok_or s (decodeOpenEnum E (Ok s))).

Definition BudgetCapacity_of (v : gval) : option BudgetCapacity :=
  match v with
  | GStruct vs =>
      zs ← ints_of (take 10 vs);
      match zs, drop 10 vs with
      | [a; b; c; d; e; f; g; h; i; j], [k; l] => k ← ptr_of bool_of k; l ← ptr_of int_of l; Some (mkCapacity a b c d e f g h i j k l)
      | _, _ => None
      end
  | _ => None
  end.
Definition BudgetSignal_of (v : gval) : option BudgetSignal :=
  match v with
  | GStruct (GStr id :: GStr u :: vs) =>
      zs ← ints_of (take 15 vs);
      match zs, drop 15 vs with
      | [val; w; a; c; s; h; rw; ra; rc; rs; rh; gr; mr; ws; eta], [tr; lr; GStr sh] =>
          tr ← open_of Trend_UnmarshalJSON tr; lr ← open_of LimitingResource_UnmarshalJSON lr;
          Some (mkSignal id u val w a c s h rw ra rc rs rh gr mr ws eta tr lr sh)
      | _, _ => None
      end
  | _ => None
  end.
Definition BudgetRecommendation_of (v : gval) : option BudgetRecommendation :=
  match v with GStruct [z; GStr b] => z ← ptr_of int_of z; Some (mkRecommendation z b) | _ => None end.
Definition KillMode_of (v : gval) : option KillMode :=
  match v with
  | GStruct [GStr m; GBool a; GInt n; r] => r ← open_of KillModeReason_UnmarshalJSON r; Some (mkKillMode m a n r)
  | _ => None
  end.
Definition WouldKill_of (v : gval) : option WouldKill :=
  match v with
  | GStruct [GStr b; r; GTime t] => r ← open_of WouldKillReason_UnmarshalJSON r; Some (mkWouldKill b r t)
  | _ => None
  end.
Definition WindowCount_of (v : gval) : option WindowCount :=
  match v with
  | GStruct [GStr w; r; GInt n] => r ← open_of CounterReason_UnmarshalJSON r; Some (mkWindowCount w r n)
  | _ => None
  end.
Definition BandCounters_of (v : gval) : option BandCounters :=
  match v with
  | GStruct [GStr b; GInt e; GInt o; GInt k; GInt r; GInt m; GInt t; ws] =>
      ws ← list_of WindowCount_of ws; Some (mkBandCounters b e o k r m t ws)
  | _ => None
  end.
Definition PolicyRef_of (v : gval) : option PolicyRef :=
  match v with GStruct [GStr n; GStr r] => Some (mkPolicyRef n r) | _ => None end.
Definition AppliedPolicy_of (v : gval) : option AppliedPolicy :=
  match v with
  | GStruct [GStr n; GStr r; GStr o; fs] => fs ← list_of str_of fs; Some (mkAppliedPolicy (mkPolicyRef n r) o fs)
  | _ => None
  end.
Definition DarwinCompressor_of (v : gval) : option DarwinCompressor :=
  match v with GStruct vs => match ints_of vs with Some [a; b; c] => Some (mkCompressor a b c) | _ => None end | _ => None end.
Definition DarwinSignals_of (v : gval) : option DarwinSignals :=
  match v with
  | GStruct [a; b; c; d; e] =>
      a ← ptr_of int_of a; b ← ptr_of int_of b; c ← ptr_of DarwinCompressor_of c; d ← ptr_of int_of d; e ← ptr_of int_of e;
      Some (mkDarwin a b c d e)
  | _ => None
  end.
Definition PSILine_of (v : gval) : option PSILine :=
  match v with GStruct vs => match ints_of vs with Some [a; b; c] => Some (mkPSILine a b c) | _ => None end | _ => None end.
Definition PSIResource_of (v : gval) : option PSIResource :=
  match v with GStruct [s; f] => s ← ptr_of PSILine_of s; f ← ptr_of PSILine_of f; Some (mkPSIResource s f) | _ => None end.
Definition LinuxPSI_of (v : gval) : option LinuxPSI :=
  match v with
  | GStruct [c; m; i] => c ← ptr_of PSIResource_of c; m ← ptr_of PSIResource_of m; i ← ptr_of PSIResource_of i; Some (mkLinuxPSI c m i)
  | _ => None
  end.
Definition LinuxMemoryEvents_of (v : gval) : option LinuxMemoryEvents :=
  match v with GStruct vs => match ints_of vs with Some [a; b; c; d] => Some (mkMemoryEvents a b c d) | _ => None end | _ => None end.
Definition LinuxSignals_of (v : gval) : option LinuxSignals :=
  match v with GStruct [p; e] => p ← ptr_of LinuxPSI_of p; e ← ptr_of LinuxMemoryEvents_of e; Some (mkLinux p e) | _ => None end.
Definition NodeBudgetReport_of (v : gval) : option NodeBudgetReport :=
  match v with
  | GStruct [GInt schema; GTime at_; GInt gen; GStr pf; GStr lv; GBool ad; GStr ars; dl; cap; sigs; rec_; km; wk; cs; pol; inf; dw; lx] =>
      dl ← ptr_of time_of dl; cap ← BudgetCapacity_of cap; sigs ← slice_of BudgetSignal_of sigs; rec_ ← BudgetRecommendation_of rec_;
      km ← KillMode_of km; wk ← ptr_of WouldKill_of wk; cs ← slice_of BandCounters_of cs; pol ← ptr_of AppliedPolicy_of pol;
      inf ← ptr_of PolicyRef_of inf; dw ← ptr_of DarwinSignals_of dw; lx ← ptr_of LinuxSignals_of lx;
      Some (mkReport schema (mkObservation at_ gen pf lv ad ars dl cap sigs rec_ km wk cs pol inf dw lx))
  | _ => None
  end.
Definition SignalThresholds_of (v : gval) : option SignalThresholds :=
  match v with
  | GStruct (GStr id :: vs) =>
      match ints_of vs with
      | Some [w; a; c; s; h; rw; ra; rc; rs; rh; gr; mr; dw; ws] => Some (mkThresholds id w a c s h rw ra rc rs rh gr mr dw ws)
      | _ => None
      end
  | _ => None
  end.
Definition BudgetReserves_of (v : gval) : option BudgetReserves :=
  match v with GStruct vs => match ints_of vs with Some [a; b; c] => Some (mkReserves a b c) | _ => None end | _ => None end.
Definition BudgetHistory_of (v : gval) : option BudgetHistory :=
  match v with GStruct vs => match ints_of vs with Some [a; b; c] => Some (mkHistory a b c) | _ => None end | _ => None end.
Definition NodeBudgetPolicySpec_of (v : gval) : option NodeBudgetPolicySpec :=
  match v with
  | GStruct (sel :: GInt p :: ts :: rs :: h :: GStr m :: vs) =>
      sel ← labels_of sel; ts ← list_of SignalThresholds_of ts; rs ← ptr_of BudgetReserves_of rs; h ← ptr_of BudgetHistory_of h;
      match ints_of vs with Some [a; b; c; d; e] => Some (mkPolicySpec sel p ts rs h m a b c d e) | _ => None end
  | _ => None
  end.
Definition NodeBudgetDesiredPolicy_of (v : gval) : option NodeBudgetDesiredPolicy :=
  match v with
  | GStruct [GInt schema; GStr n; GStr rv; s] => s ← NodeBudgetPolicySpec_of s; Some (mkDesired schema n rv s)
  | _ => None
  end.

(** ** What a reader gets *)
(** A nil slice for an empty one. *)
Definition nil_if_empty {A} (s : gslice A) : gslice A := match s with Some [] => None | _ => s end.
(** The observation with its times as their text carries them. *)
Definition carried_observation (here : option string) (o : NodeBudgetObservation) : NodeBudgetObservation :=
  mkObservation (carried here (obs_ObservedAt o)) (obs_ProducerGeneration o) (obs_Platform o) (obs_Level o) (obs_Admit o)
    (obs_AdmitReasonSignal o) (carried here <$> obs_EvictDeadline o) (obs_Capacity o) (nil_if_empty (obs_Signals o)) (obs_Recommendation o)
    (obs_KillMode o) ((fun w => mkWouldKill (wk_Band w) (wk_Reason w) (carried here (wk_At w))) <$> obs_WouldKill o)
    (nil_if_empty (obs_Counters o)) (obs_Policy o) (obs_InForce o) (obs_Darwin o) (obs_Linux o).
Definition carried_report (here : option string) (r : NodeBudgetReport) : NodeBudgetReport :=
  mkReport (rep_Schema r) (carried_observation here (rep_Observation r)).
Lemma elems_nil_if_empty {A} (s : gslice A) : elems (nil_if_empty s) = elems s.
Proof. by destruct s as [[|]|]. Qed.

Section Records.
Context (here : option string).
Abbreviation norm := (norm here).

Lemma ptr_of_norm {A} (V : A -> gval) (O : gval -> option A) (f : A -> A) o :
  (forall a, o = Some a -> O (norm (V a)) = Some (f a)) -> ptr_of O (norm (gopt V o)) = Some (f <$> o).
Proof. destruct o as [a|]; [|done]. cbn. intros H. by rewrite (H a). Qed.
Lemma ptr_of_same {A} (V : A -> gval) (O : gval -> option A) o :
  (forall a, o = Some a -> O (norm (V a)) = Some a) -> ptr_of O (norm (gopt V o)) = Some o.
Proof. intros H. rewrite (ptr_of_norm V O id) by done. by destruct o. Qed.
Lemma mapM_norm {A} (V : A -> gval) (O : gval -> option A) l :
  Forall (fun a => O (norm (V a)) = Some a) l -> mapM O (map norm (V <$> l)) = Some l.
Proof.
  induction 1 as [|a l Ha _ IH]; [done|].
  change (mapM O (map norm (V <$> a :: l))) with (x ← O (norm (V a)); xs ← mapM O (map norm (V <$> l)); Some (x :: xs)). by rewrite Ha, IH.
Qed.
Lemma slice_of_norm {A} (V : A -> gval) (O : gval -> option A) (s : gslice A) :
  Forall (fun a => O (norm (V a)) = Some a) (elems s) -> slice_of O (norm (gslice_opt V s)) = Some (nil_if_empty s).
Proof.
  destruct s as [[|a l]|]; try done. intros H.
  change (Some <$> mapM O (map norm (V <$> a :: l)) = Some (Some (a :: l))). by rewrite mapM_norm.
Qed.
Lemma list_of_norm {A} (V : A -> gval) (O : gval -> option A) l :
  Forall (fun a => O (norm (V a)) = Some a) l -> list_of O (norm (gslice_of V l)) = Some l.
Proof.
  destruct l as [|a l]; [done|]. intros H. unfold list_of.
  change (elems <$> (Some <$> mapM O (map norm (V <$> a :: l))) = Some (a :: l)). by rewrite mapM_norm.
Qed.
Lemma int_of_norm o : ptr_of int_of (norm (gint o)) = Some o.
Proof. by destruct o. Qed.
Lemma ints_of_norm os : ints_of (map norm (map gint os)) = Some os.
Proof. apply (mapM_norm gint (ptr_of int_of)). apply Forall_forall. intros o _. apply int_of_norm. Qed.
Lemma open_of_known E s : s = "" \/ oe_valid (OpenEnum := E) s = true -> open_of E (GStr s) = Some s.
Proof. unfold open_of. cbn. intros [-> | ->]; [done|]. by rewrite andb_false_r. Qed.

Lemma norm_struct vs : norm (GStruct vs) = GStruct (map norm vs).
Proof. reflexivity. Qed.

Lemma BudgetCapacity_read c : BudgetCapacity_of (norm (BudgetCapacity_value c)) = Some c.
Proof.
  destruct c as [a b c d e f g h i j k l]. unfold BudgetCapacity_value. rewrite norm_struct. cbn -[ints_of WireJSON.norm gopt ptr_of].
  change ([norm (gint a); _; _; _; _; _; _; _; _; _]) with (map norm (map gint [a; b; c; d; e; f; g; h; i; j])).
  rewrite ints_of_norm. cbn -[WireJSON.norm gopt ptr_of]. rewrite int_of_norm, (ptr_of_same GBool bool_of) by done. done.
Qed.
Lemma BudgetSignal_read s : signal_ok s -> BudgetSignal_of (norm (BudgetSignal_value s)) = Some s.
Proof.
  intros [_ _ _ _ Ht Hr _]. destruct s as [id u v0 v1 v2 v3 v4 v5 v6 v7 v8 v9 v10 v11 v12 v13 v14 tr lr sh].
  unfold BudgetSignal_value. rewrite norm_struct. cbn -[ints_of WireJSON.norm gopt open_of] in *.
  change ([norm (gint v0); _; _; _; _; _; _; _; _; _; _; _; _; _; _]) with (map norm (map gint [v0; v1; v2; v3; v4; v5; v6; v7; v8; v9; v10; v11; v12; v13; v14])).
  rewrite ints_of_norm. cbn -[open_of]. by rewrite !open_of_known.
Qed.
Lemma BudgetRecommendation_read r : BudgetRecommendation_of (norm (BudgetRecommendation_value r)) = Some r.
Proof. by destruct r as [[]]. Qed.
Lemma KillMode_read k : k = zero_KillMode \/ killmode_ok k -> KillMode_of (norm (KillMode_value k)) = Some k.
Proof.
  intros H. assert (unset_or KillModeReason_Valid (km_Reason k)) as Hr by (destruct H as [->|[]]; [by left|done]).
  destruct k as [m a n r]. cbn -[open_of] in *. by rewrite open_of_known.
Qed.
Lemma WouldKill_read w : WouldKillReason_Valid (wk_Reason w) = true ->
  WouldKill_of (norm (WouldKill_value w)) = Some (mkWouldKill (wk_Band w) (wk_Reason w) (carried here (wk_At w))).
Proof. destruct w as [b r t]. cbn -[open_of]. intros Hr. rewrite open_of_known by (by right). done. Qed.
Lemma WindowCount_read w : window_ok w -> WindowCount_of (norm (WindowCount_value w)) = Some w.
Proof. destruct w as [x r n]. intros [_ Hr _]. cbn -[open_of] in *. rewrite open_of_known by (by right). done. Qed.
Lemma BandCounters_read c : counters_ok c -> BandCounters_of (norm (BandCounters_value c)) = Some c.
Proof.
  intros [_ _ _ Hw _]. destruct c as [b e o k r m t ws]. unfold BandCounters_value. rewrite norm_struct. cbn -[list_of WireJSON.norm gslice_of] in *.
  rewrite (list_of_norm WindowCount_value WindowCount_of); [done|]. eapply Forall_impl; [exact Hw|]. apply WindowCount_read.
Qed.
Lemma PolicyRef_read r : PolicyRef_of (norm (PolicyRef_value r)) = Some r.
Proof. by destruct r. Qed.
Lemma AppliedPolicy_read p : AppliedPolicy_of (norm (AppliedPolicy_value p)) = Some p.
Proof.
  destruct p as [[n r] o fs]. unfold AppliedPolicy_value. rewrite norm_struct. cbn -[list_of WireJSON.norm gslice_of].
  rewrite (list_of_norm GStr str_of); [done|]. by apply Forall_forall.
Qed.
Lemma DarwinCompressor_read c : DarwinCompressor_of (norm (DarwinCompressor_value c)) = Some c.
Proof. destruct c as [a b c]. unfold DarwinCompressor_value. rewrite norm_struct. unfold DarwinCompressor_of. by rewrite ints_of_norm. Qed.
Lemma DarwinSignals_read d : DarwinSignals_of (norm (DarwinSignals_value d)) = Some d.
Proof.
  destruct d as [a b c d e]. unfold DarwinSignals_value. rewrite norm_struct. cbn -[ptr_of WireJSON.norm gopt].
  rewrite !int_of_norm. by rewrite (ptr_of_same DarwinCompressor_value) by (intros; apply DarwinCompressor_read).
Qed.
Lemma PSILine_read l : PSILine_of (norm (PSILine_value l)) = Some l.
Proof. destruct l as [a b c]. unfold PSILine_value. rewrite norm_struct. unfold PSILine_of. by rewrite ints_of_norm. Qed.
Lemma PSIResource_read r : PSIResource_of (norm (PSIResource_value r)) = Some r.
Proof.
  destruct r as [s f]. unfold PSIResource_value. rewrite norm_struct. cbn -[ptr_of WireJSON.norm gopt].
  by rewrite !(ptr_of_same PSILine_value) by (intros; apply PSILine_read).
Qed.
Lemma LinuxPSI_read p : LinuxPSI_of (norm (LinuxPSI_value p)) = Some p.
Proof.
  destruct p as [c m i]. unfold LinuxPSI_value. rewrite norm_struct. cbn -[ptr_of WireJSON.norm gopt].
  by rewrite !(ptr_of_same PSIResource_value) by (intros; apply PSIResource_read).
Qed.
Lemma LinuxMemoryEvents_read e : LinuxMemoryEvents_of (norm (LinuxMemoryEvents_value e)) = Some e.
Proof. destruct e as [a b c d]. unfold LinuxMemoryEvents_value. rewrite norm_struct. unfold LinuxMemoryEvents_of. by rewrite ints_of_norm. Qed.
Lemma LinuxSignals_read l : LinuxSignals_of (norm (LinuxSignals_value l)) = Some l.
Proof.
  destruct l as [p e]. unfold LinuxSignals_value. rewrite norm_struct. cbn -[ptr_of WireJSON.norm gopt].
  rewrite (ptr_of_same LinuxPSI_value) by (intros; apply LinuxPSI_read). cbn -[ptr_of WireJSON.norm gopt].
  by rewrite (ptr_of_same LinuxMemoryEvents_value) by (intros; apply LinuxMemoryEvents_read).
Qed.
Lemma NodeBudgetReport_read r : observation_ok (rep_Observation r) ->
  NodeBudgetReport_of (norm (NodeBudgetReport_value r)) = Some (carried_report here r).
Proof.
  destruct r as [sc [at_ gen pf lv ad ars dl cap sigs rec_ km wk cs pol inf dw lx]]. intros [].
  unfold NodeBudgetReport_value, NodeBudgetObservation_fields, NodeBudgetReport_of. rewrite norm_struct.
  cbn [map rep_Schema rep_Observation obs_ObservedAt obs_ProducerGeneration obs_Platform obs_Level obs_Admit obs_AdmitReasonSignal obs_EvictDeadline obs_Capacity
    obs_Signals obs_Recommendation obs_KillMode obs_WouldKill obs_Counters obs_Policy obs_InForce obs_Darwin obs_Linux WireJSON.norm] in *.
  rewrite (ptr_of_norm GTime time_of (carried here)) by done. rewrite BudgetCapacity_read.
  rewrite (slice_of_norm BudgetSignal_value) by (eapply Forall_impl; [exact ook_signals|]; apply BudgetSignal_read).
  rewrite BudgetRecommendation_read, KillMode_read by done.
  rewrite (ptr_of_norm WouldKill_value WouldKill_of (fun w => mkWouldKill (wk_Band w) (wk_Reason w) (carried here (wk_At w))))
    by (intros w Hw; apply WouldKill_read; by destruct (ook_wouldkill w Hw) as (_ & ? & _)).
  rewrite (slice_of_norm BandCounters_value) by (eapply Forall_impl; [exact ook_counters|]; apply BandCounters_read).
  rewrite (ptr_of_same AppliedPolicy_value) by (intros; apply AppliedPolicy_read). rewrite (ptr_of_same PolicyRef_value) by (intros; apply PolicyRef_read).
  rewrite (ptr_of_same DarwinSignals_value) by (intros; apply DarwinSignals_read). by rewrite (ptr_of_same LinuxSignals_value) by (intros; apply LinuxSignals_read).
Qed.

Lemma sorted_entries_perm m : sorted_entries m ≡ₚ map_to_list m.
Proof. apply SliceStable_perm. Qed.
Lemma sorted_entries_keys m : NoDup (sorted_entries m).*1.
Proof. rewrite sorted_entries_perm. apply NoDup_fst_map_to_list. Qed.
Lemma labels_read m : labels_of (norm (GMap (prod_map id GStr <$> sorted_entries m))) = Some m.
Proof.
  assert (forall l : list (string * string), mapM (fun kv => (fun s => (kv.1, s)) <$> str_of kv.2) (map (fun kv => (kv.1, norm kv.2)) (prod_map id GStr <$> l)) = Some l) as E.
  { induction l as [|[k v] l IH]; [done|]. cbn in IH |- *. by rewrite IH. }
  specialize (E (sorted_entries m)). destruct (sorted_entries m) as [|kv l] eqn:El.
  - cbn. f_equal. symmetry. apply map_to_list_empty_iff, Permutation_nil. by rewrite <- El, sorted_entries_perm.
  - change (labels_of (norm (GMap (prod_map id GStr <$> kv :: l)))) with
      (list_to_map ∘ reverse <$> mapM (fun kv => (fun s => (kv.1, s)) <$> str_of kv.2) (map (fun kv => (kv.1, norm kv.2)) (prod_map id GStr <$> kv :: l)) : option (gmap string string)).
    rewrite E, <- El. cbn. f_equal. etransitivity; [|apply (list_to_map_to_list m)]. apply list_to_map_proper.
    + rewrite reverse_Permutation. apply sorted_entries_keys.
    + rewrite reverse_Permutation. apply sorted_entries_perm.
Qed.
Lemma SignalThresholds_read t : SignalThresholds_of (norm (SignalThresholds_value t)) = Some t.
Proof.
  destruct t as [id v1 v2 v3 v4 v5 v6 v7 v8 v9 v10 v11 v12 v13 v14]. unfold SignalThresholds_value. rewrite norm_struct.
  unfold SignalThresholds_of. cbn [map rungs releases]. change (map norm (_ :: ?l)) with (GStr id :: map norm l). cbn [WireJSON.norm thr_Signal].
  by rewrite ints_of_norm.
Qed.
Lemma BudgetReserves_read r : BudgetReserves_of (norm (BudgetReserves_value r)) = Some r.
Proof. destruct r as [a b c]. unfold BudgetReserves_value. rewrite norm_struct. unfold BudgetReserves_of. by rewrite ints_of_norm. Qed.
Lemma BudgetHistory_read h : BudgetHistory_of (norm (BudgetHistory_value h)) = Some h.
Proof. destruct h as [a b c]. unfold BudgetHistory_value. rewrite norm_struct. unfold BudgetHistory_of. by rewrite ints_of_norm. Qed.
Lemma NodeBudgetPolicySpec_read s : NodeBudgetPolicySpec_of (norm (NodeBudgetPolicySpec_value s)) = Some s.
Proof.
  destruct s as [sel p ts rs h m a b c d e]. unfold NodeBudgetPolicySpec_value, NodeBudgetPolicySpec_of. rewrite norm_struct.
  change (map norm (?x :: _ :: ?y :: ?z :: ?w :: _ :: ?l)) with (norm x :: GInt p :: norm y :: norm z :: norm w :: GStr m :: map norm l).
  cbn [ps_NodeSelector ps_Priority ps_Thresholds ps_Reserves ps_History ps_Mode ps_Tier1GraceSeconds ps_Tier1HeldSeconds
    ps_Tier1MaxDeliveriesPerHour ps_Tier1CooloffSeconds ps_PSIHeldPermille]. rewrite labels_read. rewrite (list_of_norm SignalThresholds_value) by (apply Forall_forall; intros; apply SignalThresholds_read).
  rewrite (ptr_of_same BudgetReserves_value) by (intros; apply BudgetReserves_read).
  rewrite (ptr_of_same BudgetHistory_value) by (intros; apply BudgetHistory_read).
  change ([gint a; _; _; _; _]) with (map gint [a; b; c; d; e]). by rewrite ints_of_norm.
Qed.
Lemma NodeBudgetDesiredPolicy_read d : NodeBudgetDesiredPolicy_of (norm (NodeBudgetDesiredPolicy_value d)) = Some d.
Proof.
  destruct d as [sc n rv s]. unfold NodeBudgetDesiredPolicy_value. rewrite norm_struct. unfold NodeBudgetDesiredPolicy_of.
  cbn -[NodeBudgetPolicySpec_of WireJSON.norm NodeBudgetPolicySpec_value]. cbn [WireJSON.norm]. by rewrite NodeBudgetPolicySpec_read.
Qed.
End Records.

(** ** The codec *)
Section Codec.
Context `{EJ : EncodingJSON} (time_text : Time -> string) (time_parse : string -> option Time) (here : option string)
  (print : jv -> string).
Abbreviation enc := (encode time_text).

(** A payload type: what the walk sees, the fields, and the conversions. *)
Definition json_payload {T} (g : BA.gotype) (fs : jfields) (value : T -> gval) (conv : gval -> option T) : Payload T :=
  {| pl_type := g;
     pl_decode v := match assign true time_parse (TStructOf fs) v ≫= conv with Some x => Ok x | None => Err (Errorf "json: cannot unmarshal" []) end;
     pl_marshal x := Ok (print (enc (value x) (TStructOf fs))) |}.
#[export] Instance report_payload : Payload NodeBudgetReport :=
  json_payload report_type jf_NodeBudgetReport NodeBudgetReport_value NodeBudgetReport_of.
#[export] Instance desired_payload : Payload NodeBudgetDesiredPolicy :=
  json_payload desired_type jf_NodeBudgetDesiredPolicy NodeBudgetDesiredPolicy_value NodeBudgetDesiredPolicy_of.

(** ASCII names fold as their lower case, which tells "schema" from every
    other field. *)
Definition ascii_only (s : string) : bool := forallb (fun c => Z_of_byte c <? 128) (bytes_of s).
Definition folds_ascii : Prop := forall a b, ascii_only a = true -> ascii_only b = true -> ej_fold a = ej_fold b -> ToLower a = ToLower b.
Hypothesis fold_ascii : folds_ascii.
Definition only_schema (n : string) : bool := ascii_only n && (negb (String.eqb (ToLower n) "schema") || String.eqb n "schema").

Lemma probe_encoded ms : NoDup (ms.*1) -> Forall (fun k => only_schema k = true) (ms.*1) ->
  ("schema", BA.JNum "1") ∈ ms -> probe_schema (BA.JObj ms) = Ok (Some (BA.JNum "1")).
Proof.
  intros Hnd Hns Hin. cbn. do 2 f_equal. destruct (List.find _ _) as [[k v]|] eqn:E.
  - apply find_some in E as [Hm Hk%String.eqb_eq]. apply list_elem_of_In in Hm. rewrite elem_of_reverse in Hm. cbn in Hk |- *.
    assert (k = "schema") as ->.
    { rewrite Forall_forall in Hns. specialize (Hns k (list_elem_of_fmap_2 fst _ _ Hm)). unfold only_schema in Hns.
      rewrite andb_true_iff, orb_true_iff, negb_true_iff, String.eqb_neq, String.eqb_eq in Hns. destruct Hns as [Ha [Hl|?]]; [|done].
      apply fold_ascii in Hk; [by destruct Hl|done|done]. }
    f_equal. apply list_elem_of_lookup in Hm as [i Hi]. apply list_elem_of_lookup in Hin as [j Hj].
    assert (i = j) as ->; [|congruence]. apply (NoDup_lookup _ _ _ "schema" Hnd); rewrite list_lookup_fmap; [by rewrite Hi|by rewrite Hj].
  - eapply find_none in E; [|apply list_elem_of_In; rewrite elem_of_reverse; exact Hin]. cbn in E. by rewrite String.eqb_refl in E.
Qed.

Section Payload.
Context {T : Type} (g : BA.gotype) (fs : jfields) (value : T -> list gval) (conv : gval -> option T).
Hypotheses
  (Hnamed : named_once (TStructOf fs) = true) (Hlean : lean (TStructOf fs) = true) (Hdash : no_dash (TStructOf fs) = true)
  (Hschema : forallb only_schema (field_names fs) = true)
  (Hg : exists gs, g = BA.GStruct gs /\ BA.collectJSONFields g = BA.collectJSONFields (gotype_of (TStructOf fs)))
  (Hfirst : exists fs', fs = ("schema", Always, TInt64) :: fs').
#[local] Existing Instance json_payload.
Abbreviation PL := (json_payload g fs (fun x => GStruct (value x)) conv).

(** A value whose tree its text reads as. *)
Record writable (x : T) : Prop := {
  wr_has : has (TStructOf fs) (GStruct (value x));
  wr_maps : maps_once (GStruct (value x));
  wr_times : Forall (time_survives time_text time_parse here) (times (GStruct (value x)));
  wr_schema : exists vs, value x = GInt 1 :: vs;
  wr_text : let j := enc (GStruct (value x)) (TStructOf fs) in ej_read (print j) = Ok (json_of j, "");
}.

Lemma decode_written x y s : writable x -> conv (norm here (GStruct (value x))) = Some y ->
  pl_marshal (Payload := PL) x = Ok s -> slen s <= MaxBudgetAnnotationBytes -> decodeBudgetAnnotation (PL := PL) s = Ok y.
Proof.
  intros [Hh Hm Ht [vs Hvs] Htext] Hof. intros Hs Hlen. cbn zeta in Htext.
  assert (s = print (enc (GStruct (value x)) (TStructOf fs))) as -> by (injection Hs as Hs; by rewrite <- Hs). set (j := enc (GStruct (value x)) (TStructOf fs)) in *.
  assert (assign true time_parse (TStructOf fs) (json_of j) = Some (norm here (GStruct (value x)))) as Hassign.
  { by apply assign_encoded. }
  assert (json_Unmarshal (print j) = Ok (json_of j)) as Hu by (apply json_Unmarshal_Ok, Htext).
  assert (checkDuplicateKeys (tokens (json_of j)) = None) as Hdup.
  { rewrite walk_top. apply dup_keys_once. by apply encoded_once. }
  destruct Hg as (gs & -> & Hcol). destruct Hfirst as [fs' Hfs].
  assert (checkExactKeys (json_of j) (BA.GStruct gs) "" = None) as Hexact.
  { apply checkExactKeys_iff. pose proof (encoded_exact time_text _ _ Hnamed Hdash Hh) as He. fold j in He.
    change j with (JObj (enc_fields time_text (value x) fs)) in *. cbn [json_of] in *. eapply exact_obj; [reflexivity|].
    rewrite Hcol. by eapply exact_obj_inv. }
  assert (probe_schema (json_of j) = Ok (Some (BA.JNum "1"))) as Hprobe.
  { change (json_of j) with (BA.JObj (map (fun kv => (kv.1, json_of kv.2)) (enc_fields time_text (value x) fs))).
    assert ((map (fun kv : string * jv => (kv.1, json_of kv.2)) (enc_fields time_text (value x) fs)).*1 `sublist_of` field_names fs) as Hsub.
    { change (fst <$> ?l) with (map fst l). rewrite map_map. apply enc_fields_names. }
    cbn in Hnamed. apply andb_true_iff in Hnamed as [Hnd%bool_decide_eq_true _]. apply probe_encoded.
    - eapply sublist_NoDup; [exact Hnd|exact Hsub].
    - apply forallb_Forall in Hschema. rewrite Forall_forall in *. intros k Hk. apply Hschema. by eapply elem_of_sublist.
    - rewrite Hvs, Hfs. cbn. left. }
  clearbody j. unfold decodeBudgetAnnotation. rewrite (proj2 (Z.ltb_ge _ _)) by done. cbn [failif checked]. rewrite Hu. cbn [res_bind]. rewrite Hprobe. cbn -[decode_strict].
  unfold decode_strict. rewrite Htext. cbn -[json_Unmarshal checkDuplicateKeys checkExactKeys assign]. rewrite Hassign. cbn -[json_Unmarshal checkDuplicateKeys checkExactKeys norm].
  rewrite Hof. cbn -[json_Unmarshal checkDuplicateKeys checkExactKeys]. rewrite Hdup. cbn -[json_Unmarshal checkExactKeys]. rewrite Hu. cbn -[checkExactKeys]. by rewrite Hexact.
Qed.
End Payload.
End Codec.

(** ** Merging leaves a valid observation as it is *)
Lemma merge_same ws out at_ : NoDup (window_key <$> ws) -> (forall w, w ∈ ws -> is_unknown w -> at_ !! (wc_Window w : string) = None) ->
  merge_windows out at_ ws = out ++ ws.
Proof.
  revert out at_. induction ws as [|w ws IH]; intros out at_ Hnd Hat; cbn [merge_windows]; [by rewrite app_nil_r|].
  apply NoDup_cons in Hnd as [Hw Hnd]. change (out ++ w :: ws) with (out ++ [w] ++ ws). rewrite app_assoc.
  destruct (String.eqb_spec (wc_Reason w) CounterUnknown) as [Hu|Hu]; cbn [negb].
  - rewrite Hat by (done || left). apply IH; [done|]. intros w' Hw' Hu'. rewrite lookup_insert_ne; [apply Hat; [by right|done]|].
    intros E. apply Hw. apply list_elem_of_fmap. exists w'. split; [|done]. unfold window_key. by rewrite E, Hu, Hu'.
  - apply IH; [done|]. intros w' Hw'. apply Hat. by right.
Qed.
Lemma merge_counters_same o : observation_ok o -> merge_counters o = o.
Proof.
  intros [].
  assert (forall cs, Forall counters_ok cs -> (fun c => mkBandCounters (bc_Band c) (bc_EvictionsTotal c) (bc_OOMKillsTotal c) (bc_KernelKillsTotal c)
    (bc_RestartsTotal c) (bc_MemHighEventsTotal c) (bc_Tier1RefusedTotal c) (mergeUnknownWindows (bc_Windows c))) <$> cs = cs) as E.
  { induction 1 as [|c cs Hc _ IH]; [done|]. rewrite fmap_cons, IH. f_equal. unfold mergeUnknownWindows.
    rewrite merge_same; [by destruct c|by apply Hc|]. intros. apply lookup_empty. }
  unfold merge_counters. destruct o as [? ? ? ? ? ? ? ? ? ? ? ? cs ? ? ? ?]. cbn in *. destruct cs as [cs|]; [|done]. f_equal. f_equal. by apply E.
Qed.

Lemma times_field t v vs : v ∈ vs -> t ∈ times v -> t ∈ times (GStruct vs).
Proof.
  rewrite !list_elem_of_In. intros Hv Ht. cbn. apply in_concat. exists (times v). split; [by apply in_map|done].
Qed.
(** Nor does the text make a valid observation invalid. *)
Lemma carried_ok time_text time_parse here r : observation_ok (rep_Observation r) ->
  Forall (time_survives time_text time_parse here) (times (NodeBudgetReport_value r)) ->
  observation_ok (rep_Observation (carried_report here r)).
Proof.
  destruct r as [sc [at_ gen pf lv ad ars dl cap sigs rec_ km wk cs pol inf dw lx]]. intros Hok Ht.
  assert (forall t, t ∈ times (NodeBudgetReport_value (mkReport sc (mkObservation at_ gen pf lv ad ars dl cap sigs rec_ km wk cs pol inf dw lx))) ->
    Time_IsZero (carried here t) = false) as Hs.
  { intros t Hin. rewrite Forall_forall in Ht. by apply (survives_set time_text time_parse here), Ht. }
  destruct Hok. cbn [rep_Observation carried_report carried_observation obs_ObservedAt obs_ProducerGeneration obs_Platform obs_Level obs_Admit
    obs_AdmitReasonSignal obs_EvictDeadline obs_Capacity obs_Signals obs_Recommendation obs_KillMode obs_WouldKill obs_Counters obs_Policy
    obs_InForce obs_Darwin obs_Linux] in *.
  constructor; cbn -[elems]; rewrite ?elems_nil_if_empty; try done.
  - apply Hs. left.
  - intros t (t' & -> & ->)%fmap_Some. apply Hs. right. left.
  - intros w (w' & -> & ->)%fmap_Some. destruct (ook_wouldkill w' eq_refl) as (Hb & Hr & _). split; [done|]. split; [done|]. cbn.
    apply Hs. apply (times_field _ (GPtr (WouldKill_value w'))); [do 12 right; left|left].
Qed.

(** ** Values without maps *)
Fixpoint no_maps (t : jty) : bool :=
  match t with
  | TMapOf _ => false
  | TSliceOf t | TPtrTo t => no_maps t
  | TStructOf fs => (fix go (fs : jfields) : bool := match fs with [] => true | (_, t) :: fs' => no_maps t && go fs' end) fs
  | _ => true
  end.
Lemma no_maps_once t v : no_maps t = true -> has t v -> maps_once v.
Proof.
  revert v. induction t as [| | | | | | |t IH|t IH|t IH|fs IH] using jty_nested_ind; intros v Hn Hv; try discriminate Hn.
  1-7: destruct v; try (by destruct Hv); done.
  - destruct v; try (by destruct Hv). cbn in *. apply maps_once_list. eapply Forall_impl; [exact Hv|]. auto.
  - destruct v; try (by destruct Hv). cbn in *. auto.
  - destruct v; try (by destruct Hv). apply maps_once_list. change (has_fields fs vs) in Hv. revert vs Hv.
    induction IH as [|[[n g] t] fs Ht _ IHf]; intros [|v vs] Hv; try (by destruct Hv).
    apply andb_true_iff in Hn as [Hnt Hn]. destruct Hv as [Hv Hvs]. constructor; [by apply Ht|by apply IHf].
Qed.
(** Values without times. *)
Fixpoint no_times (t : jty) : bool :=
  match t with
  | TTime => false
  | TMapOf t | TSliceOf t | TPtrTo t => no_times t
  | TStructOf fs => (fix go (fs : jfields) : bool := match fs with [] => true | (_, t) :: fs' => no_times t && go fs' end) fs
  | _ => true
  end.
Lemma concat_nils {A B} (f : A -> list B) l : Forall (fun x => f x = []) l -> concat (map f l) = [].
Proof. induction 1 as [|x l Hx _ IH]; [done|]. cbn. by rewrite Hx. Qed.
Lemma no_times_none t v : no_times t = true -> has t v -> times v = [].
Proof.
  revert v. induction t as [| | | | | | |t IH|t IH|t IH|fs IH] using jty_nested_ind; intros v Hn Hv; try discriminate Hn.
  1-6: destruct v; try (by destruct Hv); done.
  - destruct v; try (by destruct Hv). cbn in *. apply (concat_nils (fun kv : string * gval => times kv.2)). eapply Forall_impl; [exact Hv|]. auto.
  - destruct v; try (by destruct Hv). cbn in *. apply concat_nils. eapply Forall_impl; [exact Hv|]. auto.
  - destruct v; try (by destruct Hv). cbn in *. auto.
  - destruct v; try (by destruct Hv). apply concat_nils. change (has_fields fs vs) in Hv. revert vs Hv.
    induction IH as [|[[n g] t] fs Ht _ IHf]; intros [|v vs] Hv; try (by destruct Hv).
    apply andb_true_iff in Hn as [Hnt Hn]. destruct Hv as [Hv Hvs]. constructor; [by apply Ht|by apply IHf].
Qed.

(** ** Round trips *)
Section RoundTrip.
Context `{EJ : EncodingJSON} (time_text : Time -> string) (time_parse : string -> option Time) (here : option string)
  (print : jv -> string) (fold_ascii : folds_ascii).
Abbreviation enc := (encode time_text).
Abbreviation PR := (report_payload time_text time_parse print).
Abbreviation PD := (desired_payload time_text time_parse print).
Abbreviation survives := (time_survives time_text time_parse here).
(** The text of a tree is read as that tree. *)
Definition reads_back (j : jv) : Prop := ej_read (print j) = Ok (json_of j, "").

Lemma too_large {T} `{Payload T} (x : T) s : pl_marshal x = Ok s -> MaxBudgetAnnotationBytes < slen s ->
  exists e, encodeBudgetAnnotation x = Err e /\ errors_is e ErrBudgetAnnotationTooLarge = true.
Proof.
  intros Hs Hl. unfold encodeBudgetAnnotation. rewrite Hs. cbn -[MaxBudgetAnnotationBytes]. rewrite (proj2 (Z.ltb_lt _ _)) by done.
  eexists. split; [reflexivity|]. reflexivity.
Qed.
Lemma within_bound {T} `{Payload T} (x : T) s : pl_marshal x = Ok s -> slen s <= MaxBudgetAnnotationBytes -> encodeBudgetAnnotation x = Ok s.
Proof. intros Hs Hl. unfold encodeBudgetAnnotation. rewrite Hs. cbn -[MaxBudgetAnnotationBytes]. by rewrite (proj2 (Z.ltb_ge _ _)). Qed.

Lemma report_parses r : NodeBudgetReport_Validate r = None -> has (TStructOf jf_NodeBudgetReport) (NodeBudgetReport_value r) ->
  Forall survives (times (NodeBudgetReport_value r)) ->
  let s := print (enc (NodeBudgetReport_value r) (TStructOf jf_NodeBudgetReport)) in
  reads_back (enc (NodeBudgetReport_value r) (TStructOf jf_NodeBudgetReport)) -> slen s <= MaxBudgetAnnotationBytes ->
  ParseNodeBudgetReport (PR := PR) s = Ok (carried_report here r).
Proof.
  intros Hv Hh Ht s Hr Hl. unfold NodeBudgetReport_Validate in Hv. rewrite andthen_None, failif_None, negb_false_iff, wrapc_None in Hv.
  destruct Hv as [Hs%Z.eqb_eq Hok%observation_validate_iff]. pose proof (carried_ok _ _ _ _ Hok Ht) as Hc.
  unfold ParseNodeBudgetReport.
  assert (decodeBudgetAnnotation (PL := PR) s = Ok (carried_report here r)) as ->.
  { apply (decode_written time_text time_parse here print fold_ascii report_type jf_NodeBudgetReport
      (fun r => GInt (rep_Schema r) :: NodeBudgetObservation_fields (rep_Observation r)) NodeBudgetReport_of eq_refl eq_refl eq_refl eq_refl
      (ex_intro _ _ (conj eq_refl eq_refl)) (ex_intro _ _ eq_refl) r (carried_report here r) s); [|by apply NodeBudgetReport_read|done|done].
    split; [done|by apply (no_maps_once (TStructOf jf_NodeBudgetReport) _ eq_refl Hh)|done|rewrite Hs; by eexists|exact Hr]. }
  cbn [res_bind]. rewrite merge_counters_same by done. change (mkReport (rep_Schema ?x) (rep_Observation ?x)) with x.
  destruct (carried_report here r) as [sc o] eqn:E. cbn [rep_Schema rep_Observation] in *.
  unfold NodeBudgetReport_Validate. cbn [rep_Schema rep_Observation]. apply observation_validate_iff in Hc. rewrite Hc.
  assert (sc = BudgetAnnotationSchema) as -> by (rewrite <- Hs; by injection E). reflexivity.
Qed.

(** A desired policy has no times and one map, whose keys differ. *)
Lemma policy_plain d : has (TStructOf jf_NodeBudgetDesiredPolicy) (NodeBudgetDesiredPolicy_value d) ->
  maps_once (NodeBudgetDesiredPolicy_value d) /\ times (NodeBudgetDesiredPolicy_value d) = [].
Proof.
  intros Hh. split; [|by apply (no_times_none (TStructOf jf_NodeBudgetDesiredPolicy))].
  destruct Hh as (_ & _ & _ & Hs & _). destruct Hs as [_ Hs]. cbn [NodeBudgetDesiredPolicy_value maps_once foldr].
  split; [done|]. split; [done|]. split; [done|]. split; [|done]. split.
  - split; [|apply maps_once_map, Forall_fmap, Forall_forall; by intros]. rewrite <- list_fmap_compose. apply sorted_entries_keys.
  - apply (no_maps_once (TStructOf (tail jf_NodeBudgetPolicySpec))
      (match NodeBudgetPolicySpec_value (dp_Spec d) with GStruct vs => GStruct (tail vs) | v => v end) eq_refl Hs).
Qed.
Lemma desired_parses d : NodeBudgetDesiredPolicy_Validate d = None -> has (TStructOf jf_NodeBudgetDesiredPolicy) (NodeBudgetDesiredPolicy_value d) ->
  let s := print (enc (NodeBudgetDesiredPolicy_value d) (TStructOf jf_NodeBudgetDesiredPolicy)) in
  reads_back (enc (NodeBudgetDesiredPolicy_value d) (TStructOf jf_NodeBudgetDesiredPolicy)) -> slen s <= MaxBudgetAnnotationBytes ->
  ParseNodeBudgetDesiredPolicy (PD := PD) s = Ok d.
Proof.
  intros Hv Hh s Hr Hl. assert (dp_Schema d = 1) as Hs.
  { unfold NodeBudgetDesiredPolicy_Validate in Hv. rewrite andthen_None, failif_None, negb_false_iff in Hv. by apply Z.eqb_eq, Hv. }
  unfold ParseNodeBudgetDesiredPolicy. assert (decodeBudgetAnnotation (PL := PD) s = Ok d) as ->; [|cbn [res_bind]; by rewrite Hv].
  apply (decode_written time_text time_parse here print fold_ascii desired_type jf_NodeBudgetDesiredPolicy
    (fun d => [GInt (dp_Schema d); GStr (dp_Name d); GStr (dp_ResourceVersion d); NodeBudgetPolicySpec_value (dp_Spec d)])
    NodeBudgetDesiredPolicy_of eq_refl eq_refl eq_refl eq_refl
    (ex_intro _ _ (conj eq_refl eq_refl)) (ex_intro _ _ eq_refl) d d s); [|by apply NodeBudgetDesiredPolicy_read|done|done].
  split; [done|by apply (policy_plain d)|by rewrite (proj2 (policy_plain d Hh) : times (GStruct _) = [])|rewrite Hs; by eexists|exact Hr].
Qed.
End RoundTrip.

(** [Parse] inverts [Encode]: a report that passes [Validate], whose
    times have a text, is written unless its text exceeds the size bound, and
    is then read as the same report, its times at whole seconds in the reader's
    location and an empty list as nil; a report beyond the bound is refused as
    too large. *)
Lemma report_codec `{EJ : EncodingJSON} time_text time_parse here print (r : NodeBudgetReport)
    (Hfold : folds_ascii) (Hv : NodeBudgetReport_Validate r = None)
    (Hh : has (TStructOf jf_NodeBudgetReport) (NodeBudgetReport_value r))
    (Ht : Forall (time_survives time_text time_parse here) (times (NodeBudgetReport_value r)))
    (Hr : reads_back print (encode time_text (NodeBudgetReport_value r) (TStructOf jf_NodeBudgetReport))) :
  let PR := report_payload time_text time_parse print in
  let s := print (encode time_text (NodeBudgetReport_value r) (TStructOf jf_NodeBudgetReport)) in
  (slen s <= MaxBudgetAnnotationBytes -> NodeBudgetReport_Encode r = Ok s /\ ParseNodeBudgetReport s = Ok (carried_report here r)) /\
  (MaxBudgetAnnotationBytes < slen s -> exists e, NodeBudgetReport_Encode r = Err e /\ errors_is e ErrBudgetAnnotationTooLarge = true).
Proof.
  cbn zeta. set (PR := report_payload time_text time_parse print). set (s := print _). unfold NodeBudgetReport_Encode. rewrite Hv. cbn [checked]. split; intros Hl.
  - assert (ParseNodeBudgetReport s = Ok (carried_report here r)) as Hp by (by apply report_parses).
    rewrite (within_bound r s) by done. cbn [res_bind]. by rewrite Hp.
  - destruct (too_large r s) as (e & He & ?); [done..|]. exists e. by rewrite He.
Qed.

Lemma desired_codec `{EJ : EncodingJSON} time_text time_parse print (d : NodeBudgetDesiredPolicy)
    (Hfold : folds_ascii) (Hv : NodeBudgetDesiredPolicy_Validate d = None)
    (Hh : has (TStructOf jf_NodeBudgetDesiredPolicy) (NodeBudgetDesiredPolicy_value d))
    (Hr : reads_back print (encode time_text (NodeBudgetDesiredPolicy_value d) (TStructOf jf_NodeBudgetDesiredPolicy))) :
  let PD := desired_payload time_text time_parse print in
  let s := print (encode time_text (NodeBudgetDesiredPolicy_value d) (TStructOf jf_NodeBudgetDesiredPolicy)) in
  (slen s <= MaxBudgetAnnotationBytes -> NodeBudgetDesiredPolicy_Encode d = Ok s /\ ParseNodeBudgetDesiredPolicy s = Ok d) /\
  (MaxBudgetAnnotationBytes < slen s -> exists e, NodeBudgetDesiredPolicy_Encode d = Err e /\ errors_is e ErrBudgetAnnotationTooLarge = true).
Proof.
  cbn zeta. set (PD := desired_payload time_text time_parse print). set (s := print _). unfold NodeBudgetDesiredPolicy_Encode. rewrite Hv. cbn [checked]. split; intros Hl.
  - assert (ParseNodeBudgetDesiredPolicy s = Ok d) as Hp by (by apply (desired_parses time_text time_parse None print Hfold d)).
    rewrite (within_bound d s) by done. cbn [res_bind]. by rewrite Hp.
  - destruct (too_large d s) as (e & He & ?); [done..|]. exists e. by rewrite He.
Qed.

(** The selected policy is one of the policies, and selects the node. *)
Lemma selected_from ps labels w losers : SelectPolicy ps labels = (Some w, losers) -> w ∈ ps /\ ps_NodeSelector (pol_Spec w) ⊆ labels.
Proof.
  unfold SelectPolicy. pose proof (SliceStable_perm policy_less (selecting ps labels)) as Hp.
  destruct (SliceStable _ _) as [|w' l]; [discriminate|]. intros [= -> _].
  assert (w ∈ selecting ps labels) as Hin by (rewrite <- Hp; left). apply elem_of_selecting in Hin. by rewrite Selects_iff in Hin.
Qed.
(** What the API server admits may be sent, and nothing of it is clamped. *)
Lemma admitted_sendable date_time time_text spec name rv j : has (TStructOf jf_NodeBudgetPolicySpec) (NodeBudgetPolicySpec_value spec) ->
  admission date_time nodeBudgetPolicy_spec None (encode time_text (NodeBudgetPolicySpec_value spec) (TStructOf jf_NodeBudgetPolicySpec)) = Some j ->
  isObjectName name = true -> isPrintableASCII rv MaxPolicyResourceVersionBytes = true ->
  let d := mkDesired BudgetAnnotationSchema name rv spec in
  NodeBudgetDesiredPolicy_Validate d = None /\ has (TStructOf jf_NodeBudgetDesiredPolicy) (NodeBudgetDesiredPolicy_value d) /\ ApplyFloors spec = (spec, []).
Proof.
  intros Hh Hj Hname Hrv. cbn zeta. rewrite policy_decided in Hj by done.
  destruct (CrdSchema.valid date_time nodeBudgetPolicy_spec None _) eqn:Hval; [|discriminate]. apply policy_valid in Hval as (Hok & Hcl & _); [|done].
  split_and!; [| |by apply unclamped].
  - apply policy_validate_iff in Hok. unfold NodeBudgetDesiredPolicy_Validate. cbn [dp_Schema dp_Name dp_ResourceVersion dp_Spec].
    rewrite Hname, Hrv, Hok. reflexivity.
  - split; [by unfold in_i64|]. split; [done|]. split; [done|]. split; [exact Hh|done].
Qed.
