(* ===== verification/BudgetText.v ===== *)
(** * Budget annotations as text
    (src/budget/v1alpha1/annotationpayload.go with encoding/json)

    The annotation codec over the JSON text of package encoding/json: the
    strict decoder reads the very bytes the encoder writes.  A report's strings
    are words of the vocabulary and names, so nothing of a valid report is lost
    to the UTF-8 of the text, and its nesting is bounded by its type. *)
From S2P Require Import Prelude GoLib GoStrings GoRunes GoNumbers BudgetVocab BudgetTypes BudgetLadder BudgetPolicy BudgetObservation BudgetAnnotation Storage CrdSchema CrdManifests ApiJSON ApiFits CrdAdmit ApiDecode CrdPolicy CrdNodeBudget WireJSON JSONText BudgetWire.
Set Warnings "-register-all".

(** ** The package *)
(** Keys match names by their folded runes; a rune outside ASCII that does not
    fold into ASCII is kept, which no name of a payload is compared with. *)
Definition foldName (s : string) : string := encode_runes (map fold (runes s)).
Definition go_json : EncodingJSON := {| ej_read := read_json; ej_fold := foldName |}.

Lemma fold_byte b : Z_of_byte b < 128 -> encode_rune (fold (Z_of_byte b)) = String (lower_byte b) "".
Proof. intros H. destruct b as [[] [] [] [] [] [] [] []]; try (vm_compute in H; discriminate H); reflexivity. Qed.
Lemma foldName_ascii s : BudgetWire.ascii_only s = true -> foldName s = ToLower s.
Proof.
  intros H. unfold foldName. rewrite runes_ascii.
  - unfold BudgetWire.ascii_only, bytes_of in *. induction s as [|b s IH]; [done|]. cbn in H. apply andb_true_iff in H as [Hb%Z.ltb_lt Hs].
    change (encode_rune (fold (Z_of_byte b)) +:+ encode_runes (map fold (map Z_of_byte (list_ascii_of_string s))) = String (lower_byte b) (ToLower s)).
    by rewrite fold_byte, IH.
  - unfold BudgetWire.ascii_only, ascii_only, bytes_of in *. induction s as [|b s IH]; [done|]. cbn in *. apply andb_true_iff in H as [-> Hs]. by apply IH.
Qed.
Lemma go_folds : folds_ascii (EJ := go_json).
Proof. intros a b Ha Hb H. cbn in H. by rewrite !foldName_ascii in H. Qed.

(** ** Trees that survive their text *)
(** Every string of a value. *)
Fixpoint texts (v : gval) : list string :=
  match v with
  | GStr s => [s]
  | GPtr v => texts v
  | GSlice vs | GStruct vs => concat (map texts vs)
  | GMap ms => concat (map (fun kv => kv.1 :: texts kv.2) ms)
  | _ => []
  end.
Definition utf8 (s : string) : Prop := valid_text s = true.
Fixpoint utf8_names (t : jty) : bool :=
  match t with
  | TMapOf t | TSliceOf t | TPtrTo t => utf8_names t
  | TStructOf fs => (fix go (fs : jfields) : bool := match fs with [] => true | (n, _, t) :: fs' => valid_text n && utf8_names t && go fs' end) fs
  | _ => true
  end.
Fixpoint type_levels (t : jty) : Z :=
  match t with
  | TMapOf t | TSliceOf t => 1 + type_levels t
  | TPtrTo t => type_levels t
  | TStructOf fs => 1 + (fix go (fs : jfields) : Z := match fs with [] => 0 | (_, _, t) :: fs' => Z.max (type_levels t) (go fs') end) fs
  | _ => 0
  end.
Section Survives.
Context (time_text : Time -> string).
Abbreviation enc := (encode time_text).
Lemma Forall_concat_map {A B} (P : B -> Prop) (f : A -> list B) l : Forall P (concat (map f l)) <-> Forall (fun x => Forall P (f x)) l.
Proof. rewrite Forall_concat, Forall_map. done. Qed.
Lemma kept_encoded t v : has t v -> utf8_names t = true -> Forall utf8 (texts v) -> Forall (fun t => utf8 (time_text t)) (times v) -> kept (enc v t) = enc v t.
Proof.
  revert v. induction t as [| | | | | | |t IH|t IH|t IH|fs IH] using jty_nested_ind; intros v Hv Hn Hs Ht; destruct v; try (by destruct Hv); try done.
  1,3,4: apply Forall_cons in Hs as [Hs _]; cbn; by rewrite valid_kept.
  - cbn. destruct (Time_IsZero t); [done|]. apply Forall_cons in Ht as [Ht _]. cbn. by rewrite valid_kept.
  - cbn [encode kept has utf8_names texts times] in *. f_equal. rewrite map_map. apply Forall_concat_map in Hs. apply (Forall_concat_map _ (fun kv : string * gval => times kv.2)) in Ht.
    apply map_ext_in. intros [k v] Hin%list_elem_of_In. rewrite Forall_forall in Hv, Hs, Ht. specialize (Hs _ Hin). apply Forall_cons in Hs as [Hk Hs].
    cbn [fst snd] in *. rewrite valid_kept by done. f_equal. apply IH; [apply (Hv _ Hin)|done|done|apply (Ht _ Hin)].
  - cbn [encode kept has utf8_names texts times] in *. f_equal. rewrite map_map. apply Forall_concat_map in Hs. apply Forall_concat_map in Ht. apply map_ext_in. intros v Hin%list_elem_of_In. rewrite Forall_forall in Hv, Hs, Ht. auto.
  - cbn in *. auto.
  - change (has_fields fs vs) in Hv. cbn [texts times] in Hs, Ht. apply Forall_concat_map in Hs. apply Forall_concat_map in Ht.
    change (JObj (map (fun m => (ToValidUTF8 m.1, kept m.2)) (enc_fields time_text vs fs)) = JObj (enc_fields time_text vs fs)). f_equal.
    revert vs Hv Hs Ht. induction IH as [|[[n g] t] fs Hf _ IHf]; intros [|v vs] Hv Hs Ht; try (by destruct Hv).
    cbn [utf8_names] in Hn. apply andb_true_iff in Hn as [[Hname Hnt]%andb_true_iff Hn]. destruct Hv as [Hv Hvs].
    apply Forall_cons in Hs as [Hs Hss], Ht as [Ht Hts]. cbn [enc_fields]. destruct (omitted g v); [by apply IHf|].
    pose proof (Hf v Hv Hnt Hs Ht) as Hk. cbn [map fst snd] in *. rewrite valid_kept, Hk by done. f_equal. by apply IHf.
Qed.
Lemma struct_levels fs : type_levels (TStructOf fs) = 1 + foldr (fun f n => Z.max (type_levels f.2) n) 0 fs.
Proof. cbn [type_levels]. f_equal. induction fs as [|[[n g] t] fs IH]; [done|]. cbn. by rewrite IH. Qed.
Lemma levels_in_le js n : 0 <= n -> Forall (fun j => levels j <= n) js -> levels_in js <= n.
Proof. intros Hn. unfold levels_in. induction 1; cbn; lia. Qed.
Lemma type_levels_nonneg t : 0 <= type_levels t.
Proof.
  induction t as [| | | | | | |t IH|t IH|t IH|fs IH] using jty_nested_ind; try (cbn; lia).
  rewrite struct_levels. induction IH; cbn; lia.
Qed.
Lemma levels_encoded t v : has t v -> levels (enc v t) <= type_levels t.
Proof.
  revert v. induction t as [| | | | | | |t IH|t IH|t IH|fs IH] using jty_nested_ind; intros v Hv; destruct v; try (by destruct Hv); try done;
    try (pose proof (type_levels_nonneg t); cbn; lia).
  - cbn. by destruct (Time_IsZero t).
  - change (levels (JObj (map (fun kv => (kv.1, enc kv.2 t)) ms)) <= 1 + type_levels t). rewrite levels_obj. apply Zplus_le_compat_l, levels_in_le;
      [apply type_levels_nonneg|]. rewrite Forall_fmap, Forall_map. eapply Forall_impl; [exact Hv|]. intros [k v] Hkv. by apply IH.
  - change (levels (JArr (map (fun v => enc v t) vs)) <= 1 + type_levels t). rewrite levels_arr. apply Zplus_le_compat_l, levels_in_le;
      [apply type_levels_nonneg|]. rewrite Forall_map. eapply Forall_impl; [exact Hv|]. apply IH.
  - by apply IH.
  - change (has_fields fs vs) in Hv. change (levels (JObj (enc_fields time_text vs fs)) <= type_levels (TStructOf fs)). rewrite levels_obj, struct_levels.
    apply Zplus_le_compat_l. revert vs Hv. induction IH as [|[[n g] t] fs Hf _ IHf]; intros [|v vs] Hv; try (by destruct Hv).
    destruct Hv as [Hv Hvs]. specialize (Hf v Hv). specialize (IHf vs Hvs). cbn [snd] in Hf. cbn [foldr snd enc_fields]. destruct (omitted g v); [lia|].
    unfold levels_in in *. cbn [fmap list_fmap foldr snd]. lia.
Qed.
Lemma reads_encoded t v : has t v -> utf8_names t = true -> type_levels t <= maxNestingDepth ->
  Forall utf8 (texts v) -> Forall (fun t => utf8 (time_text t)) (times v) -> reads_back (EJ := go_json) print (enc v t).
Proof.
  intros Hv Hn Hl Hs Ht. unfold reads_back. cbn [ej_read go_json]. rewrite <- (kept_encoded t v Hv Hn Hs Ht) at 2.
  rewrite <- (sapp_nil_r (print _)). pose proof (levels_encoded t v Hv). rewrite json_text_roundtrip; [done|lia|done].
Qed.
End Survives.

(** ** The strings of a valid report are ASCII *)
Lemma ascii_utf8 (p : ascii -> bool) s : (forall c, p c = true -> Z_of_byte c < 128) -> sforall p s = true -> utf8 s.
Proof. intros Hp Hs. apply ascii_valid. eapply sforall_impl; [|exact Hs]. intros c Hc. by apply Z.ltb_lt, Hp. Qed.
Lemma oneOf_utf8 s l : oneOf s l = true -> forallb valid_text l = true -> utf8 s.
Proof. intros Hs%bool_decide_eq_true Hl%forallb_Forall. rewrite Forall_forall in Hl. by apply Hl. Qed.
Lemma unset_utf8 (valid : string -> bool) s : (valid s = true -> utf8 s) -> s = "" \/ valid s = true -> utf8 s.
Proof. intros Hv [->|H]; [done|auto]. Qed.
Lemma signal_utf8 s : SignalID_Valid s = true -> utf8 s.
Proof. intros Hs%signal_cases. apply (oneOf_utf8 s Signals); [by apply bool_decide_eq_true|reflexivity]. Qed.
Lemma unit_utf8 s : utf8 (SignalID_Unit s).
Proof. unfold SignalID_Unit. by repeat case_match. Qed.
Lemma ascii_name_utf8 re s : re_within Storage.name_byte re -> Regexp.MatchString re s = true -> utf8 s.
Proof.
  intros Hr H. apply (ascii_utf8 Storage.name_byte); [|exact (MatchString_within _ _ _ Hr H)].
  intros c. destruct c as [[] [] [] [] [] [] [] []]; intros Hc; vm_compute in Hc; try discriminate Hc; by vm_compute.
Qed.
Lemma name_utf8 s : isObjectName s = true -> utf8 s.
Proof. intros [_ H]%andb_true_iff. exact (ascii_name_utf8 _ _ dns_subdomain_within H). Qed.
Lemma printable_utf8 s n : isPrintableASCII s n = true -> utf8 s.
Proof.
  unfold isPrintableASCII. destruct (_ || _); [done|]. apply ascii_utf8. intros c. unfold printable_byte. rewrite negb_true_iff, orb_false_iff, Z.ltb_ge, Z.ltb_ge. lia.
Qed.
Lemma ref_utf8 r : ref_ok r -> utf8 (ref_Name r) /\ utf8 (ref_ResourceVersion r).
Proof. intros [Hn Hv]. split; [by apply name_utf8|]. destruct Hv as [->|Hv]; [done|]. by apply (printable_utf8 _ _ Hv). Qed.
Fixpoint no_strings (t : jty) : bool :=
  match t with
  | TString | TText | TIntOrString | TMapOf _ => false
  | TSliceOf t | TPtrTo t => no_strings t
  | TStructOf fs => (fix go (fs : jfields) : bool := match fs with [] => true | (_, t) :: fs' => no_strings t && go fs' end) fs
  | _ => true
  end.
Lemma no_strings_none t v : no_strings t = true -> has t v -> texts v = [].
Proof.
  revert v. induction t as [| | | | | | |t IH|t IH|t IH|fs IH] using jty_nested_ind; intros v Hn Hv; try discriminate Hn.
  1-4: destruct v; try (by destruct Hv); done.
  - destruct v; try (by destruct Hv). cbn in *. apply concat_nils. eapply Forall_impl; [exact Hv|]. auto.
  - destruct v; try (by destruct Hv). cbn in *. auto.
  - destruct v; try (by destruct Hv). apply concat_nils. change (has_fields fs vs) in Hv. revert vs Hv.
    induction IH as [|[[n g] t] fs Ht _ IHf]; intros [|v vs] Hv; try (by destruct Hv).
    apply andb_true_iff in Hn as [Hnt Hn]. destruct Hv as [Hv Hvs]. constructor; [by apply Ht|by apply IHf].
Qed.
Definition all_utf8 (v : gval) : Prop := Forall utf8 (texts v).
Lemma struct_utf8 vs : all_utf8 (GStruct vs) <-> Forall all_utf8 vs.
Proof. unfold all_utf8. cbn [texts]. apply Forall_concat_map. Qed.
Lemma str_utf8 s : all_utf8 (GStr s) <-> utf8 s.
Proof. unfold all_utf8. cbn. by rewrite Forall_singleton. Qed.
Lemma opt_utf8 {A} (f : A -> gval) o : (forall a, o = Some a -> all_utf8 (f a)) -> all_utf8 (gopt f o).
Proof. intros H. destruct o as [a|]; [by apply H|constructor]. Qed.
Lemma ints_utf8 os : Forall all_utf8 (map gint os).
Proof. apply Forall_map, Forall_forall. intros [z|] _; constructor. Qed.
Lemma slice_utf8 {A} (f : A -> gval) (l : list A) : Forall (fun a => all_utf8 (f a)) l -> all_utf8 (GSlice (f <$> l)).
Proof. intros H. unfold all_utf8. cbn [texts]. apply Forall_concat_map. by rewrite Forall_fmap. Qed.
Lemma slice_opt_utf8 {A} (f : A -> gval) (s : gslice A) : Forall (fun a => all_utf8 (f a)) (elems s) -> all_utf8 (gslice_opt f s).
Proof. destruct s as [l|]; [apply slice_utf8|constructor]. Qed.
Lemma plain_utf8 t v : no_strings t = true -> has t v -> all_utf8 v.
Proof. intros Hn Hv. unfold all_utf8. rewrite (no_strings_none t v Hn Hv). constructor. Qed.
(** The fields of a struct: a word of a vocabulary, unset or set, or no
    string at all. *)
Ltac words :=
  repeat match goal with |- Forall all_utf8 [] => apply List.Forall_nil | |- Forall all_utf8 (_ :: _) => apply List.Forall_cons end;
  try first [by constructor | apply str_utf8; first [done | apply unit_utf8 | by apply signal_utf8 | by eapply oneOf_utf8 |
    eapply unset_utf8; [|eassumption]; intros ?; first [by apply signal_utf8 | by eapply oneOf_utf8]]].
Lemma signal_value_utf8 s : signal_ok s -> all_utf8 (BudgetSignal_value s).
Proof.
  intros [Hid Hu _ _ Ht Hr Hs]. assert (sig_SharedWith s = "" \/ SignalID_Valid (sig_SharedWith s) = true) as Hsh by tauto.
  apply struct_utf8, Forall_app. split; [rewrite Hu; words|]. apply Forall_app. split; [apply ints_utf8|words].
Qed.
Lemma counters_value_utf8 c : counters_ok c -> all_utf8 (BandCounters_value c).
Proof.
  intros [Hb _ _ Hw _]. apply struct_utf8, Forall_app. split; [words|]. apply Forall_app. split; [apply Forall_map, Forall_forall; constructor|].
  apply Forall_singleton, slice_utf8. eapply Forall_impl; [exact Hw|]. intros w [Hwin Hre _]. apply struct_utf8. words.
Qed.
Lemma applied_value_utf8 p : applied_ok p -> all_utf8 (AppliedPolicy_value p).
Proof.
  intros [Hr Ho _ Hf _]. destruct (ref_utf8 _ Hr). apply struct_utf8. words. apply slice_utf8. eapply Forall_impl; [exact Hf|].
  intros f Hfv. apply str_utf8. exact (oneOf_utf8 f PolicyFields Hfv eq_refl).
Qed.
Lemma report_utf8 r : observation_ok (rep_Observation r) -> has (TStructOf jf_NodeBudgetReport) (NodeBudgetReport_value r) -> all_utf8 (NodeBudgetReport_value r).
Proof.
  destruct r as [sc o]. intros [] Hh. cbn [rep_Observation rep_Schema] in *. unfold NodeBudgetReport_value, NodeBudgetObservation_fields, jf_NodeBudgetReport, jf_NodeBudgetObservation in *.
  cbn [rep_Observation rep_Schema] in *. open_has Hh. apply struct_utf8. words.
  - apply str_utf8. destruct ook_platform as [(-> & _)|(-> & _)]; done.
  - apply str_utf8, (unset_utf8 SignalID_Valid); [apply signal_utf8|tauto].
  - apply opt_utf8. constructor.
  - by apply (plain_utf8 (TStructOf jf_BudgetCapacity)).
  - apply slice_opt_utf8. eapply Forall_impl; [exact ook_signals|]. apply signal_value_utf8.
  - apply struct_utf8. words. apply opt_utf8. constructor.
  - apply struct_utf8. destruct ook_killmode as [-> |[]]; words.
  - apply opt_utf8. intros w Hw. destruct (ook_wouldkill w Hw) as (? & ? & _). apply struct_utf8. words.
  - apply slice_opt_utf8. eapply Forall_impl; [exact ook_counters|]. apply counters_value_utf8.
  - apply opt_utf8. intros p Hp. by apply applied_value_utf8, ook_policy.
  - apply opt_utf8. intros p Hp. destruct (ref_utf8 _ (ook_inforce p Hp)). apply struct_utf8. words.
  - by apply (plain_utf8 (TPtrTo (TStructOf jf_DarwinSignals))).
  - by apply (plain_utf8 (TPtrTo (TStructOf jf_LinuxSignals))).
Qed.
Lemma entries_utf8 m : map_Forall (fun k v => utf8 k /\ utf8 v) m -> all_utf8 (GMap (prod_map id GStr <$> sorted_entries m)).
Proof.
  intros Hm. unfold all_utf8. cbn [texts]. apply (Forall_concat_map utf8 (fun kv : string * gval => kv.1 :: texts kv.2)), Forall_fmap, Forall_forall.
  intros [k v] Hin. unfold sorted_entries in Hin. rewrite (SliceStable_perm (fun p q => String.ltb p.1 q.1)) in Hin. apply elem_of_map_to_list in Hin. destruct (Hm k v Hin).
  cbn. by repeat constructor.
Qed.
Lemma policy_utf8 d : NodeBudgetDesiredPolicy_Validate d = None -> map_Forall (fun k v => utf8 k /\ utf8 v) (ps_NodeSelector (dp_Spec d)) ->
  has (TStructOf jf_NodeBudgetDesiredPolicy) (NodeBudgetDesiredPolicy_value d) -> all_utf8 (NodeBudgetDesiredPolicy_value d).
Proof.
  intros Hv Hsel Hh. unfold NodeBudgetDesiredPolicy_Validate in Hv. rewrite !andthen_None, !failif_None, !negb_false_iff, wrapc_None in Hv.
  destruct Hv as (_ & Hn%name_utf8 & Hr%printable_utf8 & [_ _ Ht _ _ _ Hm _ _]%policy_validate_iff).
  destruct Hh as (_ & _ & _ & Hh & _). unfold NodeBudgetPolicySpec_value, jf_NodeBudgetPolicySpec in Hh. open_has Hh.
  apply struct_utf8. words. apply struct_utf8. words; try (by apply opt_utf8; constructor).
  - by apply entries_utf8.
  - apply slice_utf8. eapply Forall_impl; [exact Ht|]. intros t [Hk]. apply struct_utf8, List.Forall_cons; [words|apply ints_utf8].
  - by apply (plain_utf8 (TPtrTo (TStructOf jf_BudgetReserves))).
  - by apply (plain_utf8 (TPtrTo (TStructOf jf_BudgetHistory))).
Qed.

(** ** Theorems *)

(** C6: [Parse] inverts [Encode] on the text itself: a report that passes
    [Validate], whose times have a text, is written as its JSON text unless
    that exceeds the size bound, and the strict decoder then reads the same
    report from it, its times at whole seconds in the reader's location and an
    empty list as nil; a report beyond the bound is refused as too large. *)
Theorem report_roundtrip time_text time_parse here (r : NodeBudgetReport)
    (Hv : NodeBudgetReport_Validate r = None)
    (Hh : has (TStructOf jf_NodeBudgetReport) (NodeBudgetReport_value r))
    (Ht : Forall (fun t => time_survives time_text time_parse here t /\ utf8 (time_text t)) (times (NodeBudgetReport_value r))) :
  let EJ := go_json in let PR := report_payload time_text time_parse print in
  let s := print (encode time_text (NodeBudgetReport_value r) (TStructOf jf_NodeBudgetReport)) in
  (slen s <= MaxBudgetAnnotationBytes -> NodeBudgetReport_Encode r = Ok s /\ ParseNodeBudgetReport s = Ok (carried_report here r)) /\
  (MaxBudgetAnnotationBytes < slen s -> exists e, NodeBudgetReport_Encode r = Err e /\ errors_is e ErrBudgetAnnotationTooLarge = true).
Proof.
  cbn zeta. apply Forall_and in Ht as [Ht Hu]. apply (report_codec (EJ := go_json) time_text time_parse here print r go_folds Hv Hh Ht).
  apply reads_encoded; [done|reflexivity|by apply Z.leb_le|apply report_utf8; [|done]|done].
  unfold NodeBudgetReport_Validate in Hv. rewrite andthen_None, wrapc_None in Hv. by apply observation_validate_iff, Hv.
Qed.

(** C7: A policy reaches a node unchanged or not at all: the policy
    [SelectPolicy] picks for a node, among policies the API server admitted,
    selects the node, and [ApplyFloors] clamps nothing in it.  When its JSON
    text is within the size bound, it is written as that text and the node's
    [Parse] returns it from there, every field as it was; when the text exceeds
    the bound, which a policy of long labels can, it is refused as too large. *)
Theorem policy_delivery date_time time_text time_parse (ps : list NodeBudgetPolicy) labels w losers rv
    (Hadm : forall p, p ∈ ps -> has (TStructOf jf_NodeBudgetPolicySpec) (NodeBudgetPolicySpec_value (pol_Spec p)) /\
       exists j, admission date_time nodeBudgetPolicy_spec None (encode time_text (NodeBudgetPolicySpec_value (pol_Spec p)) (TStructOf jf_NodeBudgetPolicySpec)) = Some j)
    (Hlabels : map_Forall (fun k v => utf8 k /\ utf8 v) labels)
    (Hsel : SelectPolicy ps labels = (Some w, losers))
    (Hname : isObjectName (pol_Name w) = true) (Hrv : isPrintableASCII rv MaxPolicyResourceVersionBytes = true) :
  let EJ := go_json in let PD := desired_payload time_text time_parse print in
  let d := mkDesired BudgetAnnotationSchema (pol_Name w) rv (pol_Spec w) in
  let s := print (encode time_text (NodeBudgetDesiredPolicy_value d) (TStructOf jf_NodeBudgetDesiredPolicy)) in
  w ∈ ps /\ ps_NodeSelector (pol_Spec w) ⊆ labels /\ ApplyFloors (dp_Spec d) = (pol_Spec w, []) /\
  (slen s <= MaxBudgetAnnotationBytes -> NodeBudgetDesiredPolicy_Encode d = Ok s /\ ParseNodeBudgetDesiredPolicy s = Ok d) /\
  (MaxBudgetAnnotationBytes < slen s -> exists e, NodeBudgetDesiredPolicy_Encode d = Err e /\ errors_is e ErrBudgetAnnotationTooLarge = true).
Proof.
  destruct (selected_from _ _ _ _ Hsel) as [Hw Hlab]. destruct (Hadm w Hw) as (Hh & j & Hj).
  destruct (admitted_sendable _ _ _ _ _ _ Hh Hj Hname Hrv) as (Hv & Hd & Hf). cbn zeta.
  destruct (desired_codec (EJ := go_json) time_text time_parse print _ go_folds Hv Hd) as [He Hx].
  - apply reads_encoded; [done|reflexivity|by apply Z.leb_le| |by rewrite (proj2 (policy_plain _ Hd))].
    apply policy_utf8; [done| |done]. intros k v Hkv. apply Hlabels. by apply (lookup_weaken _ _ _ _ Hkv).
  - done.
Qed.

Lemma seconds_survive t : t_unix t <> zero_unix -> time_survives seconds_text seconds_parse (Some "Local") t /\ utf8 (seconds_text t).
Proof.
  intros Hz. split; [|apply (ascii_utf8 decimal_byte); [|apply pretty_bytes]].
  - split; [done|]. unfold seconds_parse, seconds_text, carried, Time_IsZero. rewrite ParseInt_pretty. by rewrite (proj2 (Z.eqb_neq _ _) Hz).
  - intros c. unfold decimal_byte. rewrite orb_true_iff. intros [->%Ascii.eqb_eq|Hc%(digit_range c)]; [by vm_compute|lia].
Qed.
Lemma report_roundtrip_witness :
  let EJ := go_json in let PR := report_payload seconds_text seconds_parse print in
  exists s, NodeBudgetReport_Encode sample_report = Ok s /\ ParseNodeBudgetReport s = Ok (carried_report (Some "Local") sample_report).
Proof.
  cbn zeta. eexists. apply (report_roundtrip seconds_text seconds_parse (Some "Local") sample_report).
  - vm_compute. reflexivity.
  - cbn. unfold in_i32, in_i64. repeat (split || constructor || lia || (cbn; lia)).
  - apply List.Forall_cons; [by apply seconds_survive|apply List.Forall_nil].
  - apply Z.leb_le. vm_compute. reflexivity.
Defined.
Lemma policy_delivery_witness :
  let d := mkDesired 1 "linux" "7" linux_policy in
  let EJ := go_json in let PD := desired_payload seconds_text seconds_parse print in
  ParseNodeBudgetDesiredPolicy (print (encode seconds_text (NodeBudgetDesiredPolicy_value d) (TStructOf jf_NodeBudgetDesiredPolicy))) = Ok d.
Proof.
  cbn zeta.
  refine (proj2 (proj1 (proj2 (proj2 (proj2 (policy_delivery (fun _ => true) seconds_text seconds_parse
    [mkPolicy "linux" linux_policy] {["kubernetes.io/os" := "linux"]} (mkPolicy "linux" linux_policy) [] "7" _ _ _ _ _)))) _)).
  - intros p ->%list_elem_of_singleton. split; [cbn; unfold in_i32, in_i64; repeat (split || constructor || lia)|].
    eexists. vm_compute. reflexivity.
  - apply map_Forall_singleton. by split; vm_compute.
  - vm_compute. reflexivity.
  - vm_compute. reflexivity.
  - vm_compute. reflexivity.
  - apply Z.leb_le. vm_compute. reflexivity.
Defined.
