(* ===== verification/InterconnectText.v ===== *)
(** * Interconnect annotations and ledger as text
    (src/net/v1alpha1/interconnectannotation.go, interconnectledger.go with
    encoding/json)

    The payloads of the interconnect annotations and the ledger file over the
    JSON text of package encoding/json: [json.Unmarshal] reads a whole text into
    a value of the type and ignores keys that name no field.  A repeated key
    replaces the earlier one here; the theorems are about texts whose known keys
    are those of an encoded value, each once, with any unknown ones between
    them. *)
From S2P Require Import Prelude GoLib GoStrings GoRunes GoNumbers BudgetTypes BudgetAnnotation Storage CrdSchema ApiJSON ApiFits CrdAdmit ApiDecode WireJSON JSONText BudgetWire BudgetText Sentinels NetIP Interconnect InterconnectAnnotation.
Set Warnings "-register-all".

(** ** The payload types *)
Definition jf_InterconnectReport : jfields :=
  [("schema", Always, TInt64); ("localDomainUUIDs", OmitEmpty, TSliceOf TString); ("peerDomainUUIDs", OmitEmpty, TSliceOf TString);
   ("carrier", Always, TBool); ("speedGbps", OmitEmpty, TInt32); ("reachablePeers", OmitEmpty, TSliceOf TString)].
Definition jf_InterconnectModelRef : jfields := [("namespace", Always, TString); ("name", Always, TString); ("uid", Always, TString)].
Definition jf_InterconnectDesired : jfields :=
  [("schema", Always, TInt64); ("interconnect", Always, TString); ("fallback", Always, TString);
   ("allowedNamespaces", OmitEmpty, TSliceOf TString); ("mlxModels", OmitEmpty, TSliceOf (TStructOf jf_InterconnectModelRef))].
Definition jf_probe : jfields := [("schema", Always, TPtrTo TInt64)].
Definition jf_InterconnectLedgerEntry : jfields := [("slot", Always, TInt64); ("address", Always, TString)].
Definition jf_InterconnectLedger : jfields := [("aliases", Always, TSliceOf (TStructOf jf_InterconnectLedgerEntry))].

Definition InterconnectReport_fields (r : InterconnectReport) : list gval :=
  [GInt (ir_Schema r); gslice_of GStr (LocalDomainUUIDs r); gslice_of GStr (PeerDomainUUIDs r); GBool (Carrier r);
   GInt (SpeedGbps r); gslice_of GStr (ReachablePeers r)].
Definition InterconnectModelRef_value (m : InterconnectModelRef) : gval := GStruct [GStr (mr_Namespace m); GStr (mr_Name m); GStr (mr_UID m)].
Definition InterconnectDesired_fields (d : InterconnectDesired) : list gval :=
  [GInt (id_Schema d); GStr (id_Interconnect d); GStr (id_Fallback d); gslice_of GStr (id_AllowedNamespaces d);
   gslice_of InterconnectModelRef_value (MLXModels d)].
Definition InterconnectLedgerEntry_value (e : InterconnectLedgerEntry) : gval := GStruct [GInt (Slot e); GStr (Address e)].
Definition InterconnectLedger_fields (l : InterconnectLedger) : list gval :=
  [match Aliases l with Some es => gslice_of InterconnectLedgerEntry_value es | None => GNil end].

Definition InterconnectReport_of (v : gval) : option InterconnectReport :=
  match v with
  | GStruct [GInt schema; near; far; GBool c; GInt speed; peers] =>
      near ← list_of str_of near; far ← list_of str_of far; peers ← list_of str_of peers; Some (mkReport schema near far c speed peers)
  | _ => None
  end.
Definition InterconnectModelRef_of (v : gval) : option InterconnectModelRef :=
  match v with GStruct [GStr ns; GStr n; GStr u] => Some (mkModelRef ns n u) | _ => None end.
Definition InterconnectDesired_of (v : gval) : option InterconnectDesired :=
  match v with
  | GStruct [GInt schema; GStr ic; GStr fb; ns; ms] =>
      ns ← list_of str_of ns; ms ← list_of InterconnectModelRef_of ms; Some (mkDesired schema ic fb ns ms)
  | _ => None
  end.
Definition InterconnectLedgerEntry_of (v : gval) : option InterconnectLedgerEntry :=
  match v with GStruct [GInt s; GStr a] => Some (mkLedgerEntry s a) | _ => None end.
Definition InterconnectLedger_of (v : gval) : option InterconnectLedger :=
  match v with GStruct [es] => mkLedger <$> slice_of InterconnectLedgerEntry_of es | _ => None end.

(** ** json.Marshal and json.Unmarshal *)
(** None of these types has a time. *)
Definition no_time (t : Time) : string := "".
Abbreviation enc := (encode no_time).
Definition mismatch : error := Errorf "json: cannot unmarshal" [].
Definition of_json (v : json) (t : jty) : option gval := assign (EJ := go_json) false (fun _ => None) t v.
Definition Unmarshal (t : jty) (s : string) : res gval :=
  let? vr := read_json s in
  if String.eqb vr.2 "" then match of_json vr.1 t with Some g => Ok g | None => Err mismatch end
  else Err (Errorf "invalid character after top-level value" []).
Definition into {T} (back : gval -> option T) (g : gval) : res T := match back g with Some v => Ok v | None => Err mismatch end.
Definition probe_of (v : gval) : option (option Z) := match v with GStruct [s] => ptr_of int_of s | _ => None end.
Definition annotation_json {T} (fs : jfields) (fields : T -> list gval) (back : gval -> option T) : AnnotationJSON T :=
  {| json_Marshal := fun v => Ok (print (enc (GStruct (fields v)) (TStructOf fs)));
     json_Unmarshal := fun s => let? g := Unmarshal (TStructOf fs) s in into back g;
     json_Probe := fun s => let? g := Unmarshal (TStructOf jf_probe) s in into probe_of g |}.
Definition report_json : AnnotationJSON InterconnectReport := annotation_json jf_InterconnectReport InterconnectReport_fields InterconnectReport_of.
Definition desired_json : AnnotationJSON InterconnectDesired := annotation_json jf_InterconnectDesired InterconnectDesired_fields InterconnectDesired_of.
Definition ledger_json : LedgerJSON :=
  {| ledger_Marshal := fun l => Ok (print (enc (GStruct (InterconnectLedger_fields l)) (TStructOf jf_InterconnectLedger)));
     ledger_Unmarshal := fun s => let? g := Unmarshal (TStructOf jf_InterconnectLedger) s in into InterconnectLedger_of g |}.
#[export] Existing Instances report_json desired_json ledger_json.

(** ** Texts with unknown keys *)
Definition known {A} (fs : jfields) (m : string * A) : bool := bool_decide (is_Some (resolve (EJ := go_json) (field_names fs) m.1)).
(** The members of an object whose known ones are those of an encoded value, in
    that order. *)
Definition carries (fs : jfields) (sent ms : list (string * jv)) : Prop :=
  Forall (fun m => utf8 m.1) ms /\ List.filter (known fs) ms = sent.

(** A text is longer than it is deep. *)
Lemma levels_text j : levels j <= slen (print j).
Proof.
  assert (forall a b, slen (a +:+ b) = slen a + slen b) as Ha by (intros; unfold slen; rewrite slength_app; lia).
  assert (forall s, 0 <= slen s) as Hp by (intros; unfold slen; lia).
  induction j as [|b|z|s|vs IH|ms IH] using jv_nested_ind; try apply Hp.
  - rewrite levels_arr. change (print (JArr vs)) with ("[" +:+ elements_text vs). rewrite Ha. change (slen "[") with 1.
    assert (levels_in vs <= slen (elements_text vs)); [|lia]. induction IH as [|v vs Hv _ IH]; [apply Hp|].
    change (levels_in (v :: vs)) with (Z.max (levels v) (levels_in vs)). pose proof (Hp (elements_text vs)). pose proof (Hp (print v)). destruct vs as [|w vs].
    + change (elements_text [v]) with (print v +:+ "]"). rewrite Ha. change (slen "]") with 1. change (levels_in []) with 0. lia.
    + change (elements_text (v :: w :: vs)) with (print v +:+ ("," +:+ elements_text (w :: vs))). rewrite !Ha. change (slen ",") with 1. lia.
  - rewrite levels_obj. change (print (JObj ms)) with ("{" +:+ members_text ms). rewrite Ha. change (slen "{") with 1.
    assert (levels_in ms.*2 <= slen (members_text ms)); [|lia]. induction IH as [|[k v] ms Hv _ IH]; [apply Hp|]. cbn [snd] in Hv.
    change (levels_in ((k, v) :: ms).*2) with (Z.max (levels v) (levels_in ms.*2)). pose proof (Hp (members_text ms)). pose proof (Hp (quote k)). pose proof (Hp (print v)). destruct ms as [|w ms].
    + change (members_text [(k, v)]) with (quote k +:+ (":" +:+ (print v +:+ "}"))). rewrite !Ha. change (slen "}") with 1. change (slen ":") with 1. change (levels_in [].*2) with 0. lia.
    + change (members_text ((k, v) :: w :: ms)) with (quote k +:+ (":" +:+ (print v +:+ ("," +:+ members_text (w :: ms))))). rewrite !Ha. change (slen ",") with 1. change (slen ":") with 1. lia.
Qed.

#[local] Existing Instance go_json.
Lemma find_filter {A} (p q : A -> bool) l : (forall x, p x = true -> q x = true) -> List.find p (List.filter q l) = List.find p l.
Proof.
  intros Hpq. induction l as [|x l IH]; [done|]. cbn [List.filter List.find]. specialize (Hpq x).
  destruct (q x) eqn:Eq; cbn [List.find]; [by rewrite IH|]. destruct (p x); [by discriminate Hpq|done].
Qed.
Lemma filter_none {A} (q : A -> bool) l : (forall x, x ∈ l -> q x = false) -> List.filter q l = [].
Proof. induction l as [|x l IH]; [done|]. intros H. cbn [List.filter]. rewrite (H x) by left. apply IH. intros y Hy. apply H. by right. Qed.
Lemma member_known fs (ms : list (string * json)) n :
  field_member (field_names fs) (List.filter (known fs) ms) n = field_member (field_names fs) ms n.
Proof.
  unfold field_member. f_equal. unfold reverse. rewrite <- !rev_alt, <- filter_rev. apply find_filter. intros m Hm%bool_decide_eq_true.
  apply bool_decide_eq_true. rewrite Hm. by eexists.
Qed.
Lemma assign_fields_ext look look' fs : (forall n, look n = look' n) ->
  assign_fields (EJ := go_json) false (fun _ => None) look fs = assign_fields (EJ := go_json) false (fun _ => None) look' fs.
Proof. intros H. induction fs as [|[[n g] t] fs IH]; [done|]. cbn. rewrite H. by rewrite <- IH. Qed.
(** Unknown keys change nothing. *)
Lemma of_json_known fs (ms : list (string * json)) :
  of_json (BudgetAnnotation.JObj ms) (TStructOf fs) = of_json (BudgetAnnotation.JObj (List.filter (known fs) ms)) (TStructOf fs).
Proof.
  change (of_json (BudgetAnnotation.JObj ms) (TStructOf fs)) with (GStruct <$> assign_fields false (fun _ => None) (field_member (field_names fs) ms) fs).
  change (of_json (BudgetAnnotation.JObj (List.filter (known fs) ms)) (TStructOf fs)) with
    (GStruct <$> assign_fields false (fun _ => None) (field_member (field_names fs) (List.filter (known fs) ms)) fs).
  f_equal. apply assign_fields_ext. intros n. by rewrite member_known.
Qed.
(** What a text of these members is read as. *)
Definition tree_members (ms : list (string * jv)) : list (string * json) := map (fun m => (m.1, json_of (kept m.2))) ms.
Lemma Unmarshal_members t ms rest g : Forall (fun m => utf8 m.1) ms -> levels (JObj ms) <= maxNestingDepth ->
  number_end (GoRunes.decode rest) = true -> skip_ws (GoRunes.decode rest) = [] ->
  of_json (BudgetAnnotation.JObj (tree_members ms)) t = Some g -> Unmarshal t (print (JObj ms) +:+ rest) = Ok g.
Proof.
  intros Hu Hl Hn Hw Hg. unfold Unmarshal. rewrite json_text_roundtrip by done. rewrite Hw.
  cbn [res_bind fst snd]. change (json_of (kept (JObj ms))) with
    (BudgetAnnotation.JObj (map (fun kv : string * jv => (kv.1, json_of kv.2)) (map (fun m : string * jv => (ToValidUTF8 m.1, kept m.2)) ms))).
  rewrite map_map. replace (map _ ms) with (tree_members ms); [by rewrite Hg|].
  apply map_ext_in. intros m Hm%list_elem_of_In. rewrite Forall_forall in Hu. cbn. by rewrite (valid_kept _ (Hu m Hm)).
Qed.
Lemma known_tree_members fs sent ms : carries fs sent ms -> List.filter (known fs) (tree_members ms) = tree_members sent.
Proof.
  intros [_ <-]. unfold tree_members. induction ms as [|m ms IH]; [done|]. cbn [map List.filter].
  change (known fs (m.1, json_of (kept m.2))) with (known fs m). destruct (known fs m); cbn [map]; by rewrite IH.
Qed.

(** ** A payload and its probe *)
(** Any schema at all, read on its own. *)
Definition schema_member (o : option Z) : list (string * jv) := match o with Some n => [("schema", JInt n)] | None => [] end.
Lemma probe_text o ms : carries jf_probe (schema_member o) ms -> (forall n, o = Some n -> in_i64 n) -> slen (print (JObj ms)) <= maxNestingDepth ->
  Unmarshal (TStructOf jf_probe) (print (JObj ms)) = Ok (GStruct [match o with Some n => GPtr (GInt n) | None => GNil end]).
Proof.
  intros Hc Hi Hl. rewrite <- (sapp_nil_r (print _)). apply Unmarshal_members; try done; [apply Hc|pose proof (levels_text (JObj ms)); lia|].
  rewrite of_json_known, (known_tree_members _ _ _ Hc). destruct o as [n|]; [|done].
  change (of_json (BudgetAnnotation.JObj (tree_members (schema_member (Some n)))) (TStructOf jf_probe)) with
    (GStruct <$> (v ← (GPtr <$> (z ← ParseInt (pretty n); if format_range "int64" z then Some (GInt z) else None)); Some [v])).
  rewrite ParseInt_pretty. cbn -[format_range]. by rewrite (format_range_64 _ _ (Hi n eq_refl)).
Qed.
(** What the exchange of a payload [v] over text promises. *)
Record exchanged {T} (fs : jfields) (fields : T -> list gval) (Encode : T -> res string) (Parse : string -> res T) (v : T) : Prop := {
  (** within the bound the text is written and read back *)
  ex_written : let s := print (JObj (enc_fields no_time (fields v) fs)) in
    slen s <= MaxInterconnectReportBytes -> Encode v = Ok s /\ Parse s = Ok v;
  (** beyond it the writer refuses *)
  ex_refused : MaxInterconnectReportBytes < slen (print (JObj (enc_fields no_time (fields v) fs))) ->
    exists e, Encode v = Err e /\ errors_is e "ErrInvalidInterconnectAnnotation" = true;
  (** members with unknown keys are ignored, wherever they stand *)
  ex_unknown : forall ms, carries fs (enc_fields no_time (fields v) fs) ms ->
    slen (print (JObj ms)) <= MaxInterconnectReportBytes -> Parse (print (JObj ms)) = Ok v;
  (** an object of another schema or none is told apart, whatever its fields *)
  ex_schema : forall o ms, carries jf_probe (schema_member o) ms -> (forall n, o = Some n -> in_i64 n) -> o <> Some InterconnectAnnotationSchema ->
    slen (print (JObj ms)) <= MaxInterconnectReportBytes ->
    exists e, Parse (print (JObj ms)) = Err e /\ errors_is e "ErrUnknownInterconnectSchema" = true }.

Lemma other_schema {T} fs fields (back : gval -> option T) (Validate : T -> check) o ms :
  carries jf_probe (schema_member o) ms -> (forall n, o = Some n -> in_i64 n) -> o <> Some InterconnectAnnotationSchema ->
  slen (print (JObj ms)) <= MaxInterconnectReportBytes ->
  exists e, parse_payload (AJ := annotation_json fs fields back) Validate (print (JObj ms)) = Err e /\ errors_is e "ErrUnknownInterconnectSchema" = true.
Proof.
  intros Hc Hi Ho Hl. apply (parse_payload_schema (AJ := annotation_json fs fields back) Validate _ o); [done| |done].
  cbn [json_Probe annotation_json]. rewrite (probe_text o) by (done || (unfold MaxInterconnectReportBytes, maxNestingDepth in *; lia)).
  by destruct o.
Qed.
Section Payload.
Context {T : Type} (rest : jfields) (fields : T -> list gval) (back : gval -> option T) (Validate : T -> check).
Abbreviation fs := (("schema", Always, TInt64) :: rest).
Context (Hnames : named_once (TStructOf fs) = true) (Hlean : lean (TStructOf fs) = true) (Hutf8 : utf8_names (TStructOf fs) = true)
  (Hother : forallb (fun n => negb (known jf_probe (n, tt))) (field_names rest) = true).
(** A value whose fields are [GInt schema] and [vs]. *)
Context (v : T) (vs : list gval) (Hfields : fields v = GInt InterconnectAnnotationSchema :: vs) (Hhas : has_fields fs (fields v))
  (Htexts : Forall utf8 (texts (GStruct (fields v)))) (Htimes : times (GStruct (fields v)) = []) (Hmaps : maps_once (GStruct (fields v)))
  (Hback : back (norm None (GStruct (fields v))) = Some v).
Abbreviation sent := (enc_fields no_time (fields v) fs).
#[local] Instance payload_json : AnnotationJSON T := annotation_json fs fields back.

Lemma sent_kept : BudgetAnnotation.JObj (tree_members sent) = json_of (enc (GStruct (fields v)) (TStructOf fs)).
Proof.
  assert (kept (enc (GStruct (fields v)) (TStructOf fs)) = enc (GStruct (fields v)) (TStructOf fs)) as Hk by (apply kept_encoded; [done..|by rewrite Htimes]).
  rewrite <- Hk. change (kept (enc (GStruct (fields v)) (TStructOf fs))) with (JObj (map (fun m => (ToValidUTF8 m.1, kept m.2)) sent)).
  cbn [json_of]. f_equal. rewrite map_map. apply map_ext_in. intros m Hm%list_elem_of_In. cbn [fst snd]. f_equal.
  change (enc (GStruct (fields v)) (TStructOf fs)) with (JObj sent) in Hk. injection Hk as Hk.
  apply list_elem_of_lookup in Hm as [i Hi]. pose proof (f_equal (.!! i) Hk) as Hki. cbn beta in Hki. rewrite list_lookup_fmap, Hi in Hki. cbn in Hki.
  injection Hki as Hki. by rewrite <- Hki at 1.
Qed.
Lemma Unmarshal_payload ms : carries fs sent ms -> slen (print (JObj ms)) <= maxNestingDepth ->
  Unmarshal (TStructOf fs) (print (JObj ms)) = Ok (norm None (GStruct (fields v))).
Proof.
  intros Hc Hl. rewrite <- (sapp_nil_r (print _)). apply Unmarshal_members; try done; [apply Hc|pose proof (levels_text (JObj ms)); lia|].
  rewrite of_json_known, (known_tree_members _ _ _ Hc), sent_kept. apply (assign_encoded false no_time (fun _ => None) None); try done.
  by rewrite Htimes.
Qed.
Lemma probe_known {A} (m : string * A) : known jf_probe m = true -> known fs m = true.
Proof.
  unfold known. rewrite !bool_decide_eq_true. unfold resolve. change (field_names jf_probe) with ["schema"].
  change (field_names fs) with ("schema" :: field_names rest). intros H.
  destruct (bool_decide (m.1 ∈ "schema" :: field_names rest)) eqn:E; [by eexists|]. apply bool_decide_eq_false in E.
  rewrite bool_decide_false in H by set_solver. cbn [List.find] in *. by destruct (String.eqb _ _); [eexists|destruct H].
Qed.
Lemma probe_payload ms : carries fs sent ms -> slen (print (JObj ms)) <= maxNestingDepth ->
  Unmarshal (TStructOf jf_probe) (print (JObj ms)) = Ok (GStruct [GPtr (GInt InterconnectAnnotationSchema)]).
Proof.
  intros Hc Hl. rewrite <- (sapp_nil_r (print _)). apply Unmarshal_members; try done; [apply Hc|pose proof (levels_text (JObj ms)); lia|].
  rewrite of_json_known. assert (List.filter (known jf_probe) (tree_members ms) = [("schema", BudgetAnnotation.JNum "1")]) as ->; [|done].
  assert (List.filter (known jf_probe) (tree_members ms) = List.filter (known jf_probe) (List.filter (known fs) (tree_members ms))) as ->.
  { generalize (tree_members ms) as l. induction l as [|m l IH]; [done|]. cbn [List.filter]. pose proof (probe_known m).
    destruct (known fs m) eqn:E; cbn [List.filter]; [by rewrite IH|]. destruct (known jf_probe m); [naive_solver|done]. }
  rewrite (known_tree_members _ _ _ Hc), Hfields. change (enc_fields no_time (GInt InterconnectAnnotationSchema :: vs) fs) with
    (("schema", JInt 1) :: enc_fields no_time vs rest). cbn [tree_members map List.filter fst snd kept json_of].
  change (known jf_probe ("schema", BudgetAnnotation.JNum (pretty 1))) with true. cbn iota. f_equal. apply filter_none. intros m Hm.
  unfold tree_members in Hm. apply list_elem_of_In, in_map_iff in Hm as (m' & <- & Hm%list_elem_of_In). apply (list_elem_of_fmap_2 fst) in Hm.
  eapply elem_of_sublist in Hm; [|apply enc_fields_names]. rewrite forallb_Forall, Forall_forall in Hother. by apply negb_true_iff, (Hother _ Hm).
Qed.
Lemma payload_parses ms : Validate v = None -> carries fs sent ms -> slen (print (JObj ms)) <= MaxInterconnectReportBytes ->
  parse_payload Validate (print (JObj ms)) = Ok v.
Proof.
  intros Hv Hc Hl. assert (slen (print (JObj ms)) <= maxNestingDepth) as Hd by (unfold MaxInterconnectReportBytes, maxNestingDepth in *; lia).
  apply parse_payload_Ok. cbn [json_Probe json_Unmarshal payload_json annotation_json]. rewrite probe_payload, Unmarshal_payload by done.
  cbn [res_bind]. unfold into. rewrite Hback. done.
Qed.
Lemma sent_carries : carries fs sent sent.
Proof.
  assert (forall m, m ∈ sent -> m.1 ∈ field_names fs) as Hin.
  { intros m Hm%(list_elem_of_fmap_2 fst). eapply elem_of_sublist; [exact Hm|apply enc_fields_names]. }
  split.
  - apply Forall_forall. intros m Hm%Hin. clear Hin. revert Hm. pose proof Hutf8 as Hu. revert Hu. generalize fs as l.
    induction l as [|[[n g] t] l IH]; [set_solver|]. cbn. intros [[Hn _]%andb_true_iff Hl]%andb_true_iff [->|Hm]%elem_of_cons; [done|by apply IH].
  - apply forallb_filter_id, forallb_Forall, Forall_forall. intros m Hm%Hin. apply bool_decide_eq_true. unfold resolve. rewrite bool_decide_true by done. by eexists.
Qed.
Lemma payload_codec : Validate v = None ->
  let s := print (JObj sent) in
  (slen s <= MaxInterconnectReportBytes -> encode_payload Validate v = Ok s /\ parse_payload Validate s = Ok v) /\
  (MaxInterconnectReportBytes < slen s -> exists e, encode_payload Validate v = Err e /\ errors_is e "ErrInvalidInterconnectAnnotation" = true).
Proof.
  intros Hv s. split; intros Hl.
  - split; [apply encode_payload_Ok; done|]. apply payload_parses; [done|apply sent_carries|done].
  - unfold s in Hl. unfold encode_payload, encodeInterconnectAnnotation. rewrite Hv. cbn [checked json_Marshal payload_json annotation_json].
    change (enc (GStruct (fields v)) (TStructOf fs)) with (JObj sent). rewrite Z.gtb_ltb, (proj2 (Z.ltb_lt _ _) Hl). by eexists.
Qed.
Lemma payload_exchanged : Validate v = None -> exchanged fs fields (encode_payload Validate) (parse_payload Validate) v.
Proof.
  intros Hv. destruct (payload_codec Hv) as [Hw Hx]. split; [exact Hw|exact Hx|by intros; apply payload_parses|].
  intros o ms. apply other_schema.
Qed.
End Payload.

(** ** The payloads *)
Lemma node_name_utf8 s : isNodeName s = true -> utf8 s.
Proof. intros [_ H]%andb_true_iff. exact (ascii_name_utf8 _ _ dns_subdomain_within H). Qed.
Lemma namespace_utf8 s : isNamespaceName s = true -> utf8 s.
Proof. intros [_ H]%andb_true_iff. refine (ascii_name_utf8 _ _ (dns_label_within _ _) H). intros c Hc. unfold Storage.name_byte. by rewrite Hc. Qed.
Lemma ascii_printable_utf8 s n : isPrintableASCII s n = true -> utf8 s.
Proof.
  unfold isPrintableASCII. destruct (_ || _); [done|]. apply ascii_utf8. intros c. rewrite negb_true_iff, orb_false_iff, Z.gtb_ltb, !Z.ltb_ge. lia.
Qed.
Lemma strings_utf8 (ok : string -> Prop) l : (forall s, ok s -> utf8 s) -> Forall ok l -> all_utf8 (gslice_of GStr l).
Proof. intros H Hl. apply slice_utf8. eapply Forall_impl; [exact Hl|]. intros s Hs. by apply str_utf8, H. Qed.
Lemma strings_read l : list_of str_of (norm None (gslice_of GStr l)) = Some l.
Proof. apply (list_of_norm None GStr str_of). by apply Forall_forall. Qed.
Lemma report_has r : report_ok r -> in_i32 (SpeedGbps r) -> has_fields jf_InterconnectReport (InterconnectReport_fields r).
Proof.
  intros [Hs _ _ _ _] Hi. cbn. rewrite Hs. split_and!; try done; try (by apply Forall_fmap, Forall_forall).
Qed.
Lemma report_read r : InterconnectReport_of (norm None (GStruct (InterconnectReport_fields r))) = Some r.
Proof.
  destruct r as [sc near far c sp peers]. unfold InterconnectReport_fields. rewrite norm_struct. cbn -[list_of norm gslice_of].
  by rewrite !strings_read.
Qed.
Lemma report_texts r : report_ok r -> all_utf8 (GStruct (InterconnectReport_fields r)).
Proof.
  intros [_ (_ & _ & Hp) [_ Hf] [_ Hn] _]. apply struct_utf8. repeat constructor.
  all: try (eapply strings_utf8; [|eassumption]); intros s; first [apply ascii_printable_utf8|apply node_name_utf8].
Qed.
Lemma desired_has d : desired_ok d -> has_fields jf_InterconnectDesired (InterconnectDesired_fields d).
Proof.
  intros [Hs _ _ _ _ _ _]. cbn. rewrite Hs. split_and!; try done; apply Forall_fmap, Forall_forall; done.
Qed.
Lemma desired_read d : InterconnectDesired_of (norm None (GStruct (InterconnectDesired_fields d))) = Some d.
Proof.
  destruct d as [sc ic fb ns ms]. unfold InterconnectDesired_fields. rewrite norm_struct. cbn -[list_of norm gslice_of].
  rewrite strings_read. rewrite (list_of_norm None InterconnectModelRef_value InterconnectModelRef_of); [done|]. by apply Forall_forall; intros [].
Qed.
Lemma desired_texts d : desired_ok d -> all_utf8 (GStruct (InterconnectDesired_fields d)).
Proof.
  intros [_ Hi Hf (_ & _ & Hn) [_ Hm] _ _]. apply struct_utf8. unfold InterconnectDesired_fields. words.
  - by apply str_utf8, node_name_utf8.
  - apply str_utf8. apply elem_of_cons in Hf as [E|E%list_elem_of_singleton]; by rewrite E.
  - eapply strings_utf8; [|exact Hn]. intros s. apply namespace_utf8.
  - apply slice_utf8. eapply Forall_impl; [exact Hm|]. intros m [H1%namespace_utf8 H2%node_name_utf8 H3%ascii_printable_utf8]. apply struct_utf8. by words; apply str_utf8.
Qed.
(** Types without times and maps. *)
Lemma strings_plain l : times (gslice_of GStr l) = [] /\ maps_once (gslice_of GStr l).
Proof. cbn. split; [by induction l|]. apply maps_once_list, Forall_fmap, Forall_forall. done. Qed.
Lemma report_plain r : times (GStruct (InterconnectReport_fields r)) = [] /\ maps_once (GStruct (InterconnectReport_fields r)).
Proof.
  destruct (strings_plain (LocalDomainUUIDs r)) as [T1 M1], (strings_plain (PeerDomainUUIDs r)) as [T2 M2], (strings_plain (ReachablePeers r)) as [T3 M3].
  cbn -[gslice_of] in *. by rewrite T1, T2, T3.
Qed.
Lemma desired_plain d : times (GStruct (InterconnectDesired_fields d)) = [] /\ maps_once (GStruct (InterconnectDesired_fields d)).
Proof.
  destruct (strings_plain (id_AllowedNamespaces d)) as [T1 M1]. cbn -[gslice_of] in *. rewrite T1.
  assert (times (gslice_of InterconnectModelRef_value (MLXModels d)) = []) as -> by (cbn; by induction (MLXModels d)). split; [done|].
  split_and!; try done. cbn. apply maps_once_list, Forall_fmap, Forall_forall. done.
Qed.
(** ** Theorems *)
(** C36: The interconnect annotations are exchanged over their JSON text: a
    report (with a 32-bit speed) or desired payload that passes [Validate] is
    written unless it exceeds 4096 bytes, which is refused, and [Parse] returns
    the very value from the text, also with unknown members anywhere among its
    own; an object whose schema is missing or another one is reported as
    ErrUnknownInterconnectSchema whatever its other fields are. *)
Theorem interconnect_text_roundtrip (r : InterconnectReport) (d : InterconnectDesired)
    (Hr : InterconnectReport_Validate r = None) (Hspeed : in_i32 (SpeedGbps r)) (Hd : InterconnectDesired_Validate d = None) :
  exchanged jf_InterconnectReport InterconnectReport_fields InterconnectReport_Encode ParseInterconnectReport r /\
  exchanged jf_InterconnectDesired InterconnectDesired_fields InterconnectDesired_Encode ParseInterconnectDesired d.
Proof.
  pose proof Hr as Hro. pose proof Hd as Hdo. apply report_Validate_None in Hro. apply desired_Validate_None in Hdo.
  destruct (report_plain r) as [Tr Mr], (desired_plain d) as [Td Md]. split.
  - apply (payload_exchanged (tail jf_InterconnectReport) InterconnectReport_fields InterconnectReport_of InterconnectReport_Validate
      eq_refl eq_refl eq_refl eq_refl r (tail (InterconnectReport_fields r))); [|by apply report_has|by apply report_texts|done|done|apply report_read|done].
    unfold InterconnectReport_fields. by rewrite (report_schema _ Hro).
  - apply (payload_exchanged (tail jf_InterconnectDesired) InterconnectDesired_fields InterconnectDesired_of InterconnectDesired_Validate
      eq_refl eq_refl eq_refl eq_refl d (tail (InterconnectDesired_fields d))); [|by apply desired_has|by apply desired_texts|done|done|apply desired_read|done].
    unfold InterconnectDesired_fields. by rewrite (desired_schema _ Hdo).
Qed.
Definition cabled_report : InterconnectReport := mkReport 1 ["a"] ["b"] true 40 ["node-2"].
(** A desired payload with a member a later version might add. *)
Definition sample_desired : InterconnectDesired := mkDesired 1 "thunderbolt" "network" ["prod"] [mkModelRef "prod" "llama" "u-1"].
Definition later_members : list (string * jv) :=
  ("mtu", JInt 9000) :: enc_fields no_time (InterconnectDesired_fields sample_desired) jf_InterconnectDesired ++ [("note", JArr [JStr "é"])].
Lemma interconnect_text_roundtrip_witness :
  ParseInterconnectDesired (print (JObj later_members)) = Ok sample_desired.
Proof.
  assert (in_i32 (SpeedGbps cabled_report)) as Hs by (unfold in_i32; cbn; lia).
  apply (ex_unknown _ _ _ _ _ (proj2 (interconnect_text_roundtrip cabled_report sample_desired eq_refl Hs eq_refl))).
  - split; [repeat constructor|]; vm_compute; reflexivity.
  - apply Z.leb_le. vm_compute. reflexivity.
Defined.

(** ** The ledger file *)
Definition entry_ok (e : InterconnectLedgerEntry) : Prop := in_i64 (Slot e) /\ utf8 (Address e).
Abbreviation entries_type := (TSliceOf (TStructOf jf_InterconnectLedgerEntry)).
Lemma entries_has es : Forall entry_ok es -> has entries_type (gslice_of InterconnectLedgerEntry_value es).
Proof. intros H. cbn. apply Forall_fmap. eapply Forall_impl; [exact H|]. by intros e [Hs _]. Qed.
Lemma entries_times es : times (gslice_of InterconnectLedgerEntry_value es) = [].
Proof. cbn. by induction es. Qed.
(** An empty array is read as an empty slice, not as nil. *)
Lemma entries_read es : Forall entry_ok es -> exists g,
  of_json (json_of (enc (gslice_of InterconnectLedgerEntry_value es) entries_type)) entries_type = Some g /\
  slice_of InterconnectLedgerEntry_of g = Some (Some es).
Proof.
  intros H. destruct es as [|e es]; [by exists (GSlice [])|].
  exists (norm None (gslice_of InterconnectLedgerEntry_value (e :: es))). split.
  - apply (assign_encoded false no_time (fun _ => None) None); try done; [by apply entries_has| |by rewrite entries_times].
    cbn [maps_once gslice_of]. apply maps_once_list, Forall_fmap, Forall_forall. done.
  - apply (slice_of_norm None InterconnectLedgerEntry_value _ (Some (e :: es))). apply Forall_forall. by intros [].
Qed.
Lemma entries_kept es : Forall entry_ok es ->
  kept (enc (gslice_of InterconnectLedgerEntry_value es) entries_type) = enc (gslice_of InterconnectLedgerEntry_value es) entries_type.
Proof.
  intros H. apply kept_encoded; [by apply entries_has|reflexivity| |by rewrite entries_times].
  apply slice_utf8. eapply Forall_impl; [exact H|]. intros e [_ Ha]. apply struct_utf8. words.
Qed.
(** The file [Marshal] writes, a newline at its end, is read by
    [ParseInterconnectLedger] as the same aliases ordered by slot, those of one
    slot in their order; a nil list is read as an empty one. *)
Theorem ledger_file_roundtrip (l : InterconnectLedger) (Hl : Forall entry_ok (default [] (Aliases l))) :
  exists s as', InterconnectLedger_Marshal l = Ok s /\ ParseInterconnectLedger s = Ok (mkLedger (Some as')) /\
    as' ≡ₚ default [] (Aliases l) /\ StronglySorted (fun a b => a.(Slot) <= b.(Slot)) as' /\
    (forall k, filter (fun a => a.(Slot) = k) as' = filter (fun a => a.(Slot) = k) (default [] (Aliases l))).
Proof.
  set (es := SliceStable slot_less (default [] (Aliases l))).
  assert (Forall entry_ok es) as He by (unfold es; by rewrite SliceStable_perm).
  exists (print (JObj [("aliases", enc (gslice_of InterconnectLedgerEntry_value es) entries_type)]) +:+ String "010" ""), es.
  split; [reflexivity|]. destruct (ledger_sorted l) as (Hp & Hs & Hk). split; [|done].
  unfold ParseInterconnectLedger. cbn [ledger_Unmarshal ledger_json]. destruct (entries_read es He) as (g & Hg & Hof).
  rewrite (Unmarshal_members (TStructOf jf_InterconnectLedger) _ (String "010" "") (GStruct [g])); try done.
  - cbn [res_bind]. unfold into. cbn [InterconnectLedger_of]. by rewrite Hof.
  - by repeat constructor.
  - rewrite levels_obj. pose proof (levels_encoded no_time entries_type _ (entries_has es He)) as Hd. cbn [fmap list_fmap snd].
    unfold levels_in, maxNestingDepth. cbn [foldr]. change (type_levels entries_type) with 2 in Hd. lia.
  - unfold tree_members. cbn [map fst snd]. rewrite entries_kept by done.
    change (of_json (BudgetAnnotation.JObj [("aliases", ?j)]) (TStructOf jf_InterconnectLedger)) with (GStruct <$> (v ← of_json j entries_type; Some [v])).
    by rewrite Hg.
Qed.
Lemma ledger_file_roundtrip_witness :
  exists s as', InterconnectLedger_Marshal (mkLedger (Some [mkLedgerEntry 3 "192.168.5.1"; mkLedgerEntry 1 "x"])) = Ok s /\
    ParseInterconnectLedger s = Ok (mkLedger (Some as')).
Proof.
  destruct (ledger_file_roundtrip (mkLedger (Some [mkLedgerEntry 3 "192.168.5.1"; mkLedgerEntry 1 "x"]))) as (s & as' & Hm & Hp & _).
  - cbn. unfold entry_ok, in_i64. repeat constructor; cbn; lia || done.
  - exists s, as'. split; [exact Hm|exact Hp].
Defined.
