(* ===== verification/CrdMLX.v ===== *)
(** * Models at the API server
    (src/config/crd/mlx.k3sm.io_mlxmodels.yaml, src/mlx/v1alpha1/mlxmodel.go,
    artifactref.go)

    The Go package has no validation of an MLXModel: the manifest is the only
    check there is.  What it admits is stated on the Go values: exactly one of
    model and artifact, no revision beside an artifact, at least two ranks, and
    the bounds and vocabularies of the fields; what is stored is the object as
    it was written, with the default interconnect of a sharded model. *)
From S2P Require Import Prelude GoLib GoStrings GoRunes BudgetTypes CrdSchema CrdManifests ApiJSON ApiFits CrdAdmit CrdPolicy.
Set Warnings "-register-all".

(** ** The Go types

    A [resource.Quantity] is its text. *)
Record ArtifactRef := mkArtifactRef { ar_Reference : string; ar_Variant : string }.
Record MLXRuntime := mkMLXRuntime { rt_Image : string; rt_Args : list string }.
Record MLXCache := mkMLXCache { mc_Size : string; mc_StorageClassName : string }.
Record MLXDistributed := mkMLXDistributed { md_Ranks : Z; md_Backend : string; md_Parallelism : string; md_Interconnect : string }.
Record MLXModelSpec := mkMLXModelSpec {
  ms_Model : string;
  ms_Artifact : option ArtifactRef;
  ms_Revision : string;
  ms_Quantization : string;
  ms_Memory : string;
  ms_Replicas : option Z;
  ms_Port : Z;
  ms_Runtime : MLXRuntime;
  ms_Cache : option MLXCache;
  ms_NodeSelector : gmap string string;
  ms_Distributed : option MLXDistributed;
}.
Definition ArtifactRef_value (a : ArtifactRef) : gval := GStruct [GStr (ar_Reference a); GStr (ar_Variant a)].
Definition MLXRuntime_value (r : MLXRuntime) : gval := GStruct [GStr (rt_Image r); gslice_of GStr (rt_Args r)].
Definition MLXCache_value (c : MLXCache) : gval := GStruct [GStr (mc_Size c); GStr (mc_StorageClassName c)].
Definition MLXDistributed_value (d : MLXDistributed) : gval :=
  GStruct [GInt (md_Ranks d); GStr (md_Backend d); GStr (md_Parallelism d); GStr (md_Interconnect d)].
Definition MLXModelSpec_fields (s : MLXModelSpec) : list gval :=
  [GStr (ms_Model s); gopt ArtifactRef_value (ms_Artifact s); GStr (ms_Revision s); GStr (ms_Quantization s); GStr (ms_Memory s);
   gint (ms_Replicas s); GInt (ms_Port s); MLXRuntime_value (ms_Runtime s); gopt MLXCache_value (ms_Cache s);
   GMap (prod_map id GStr <$> sorted_entries (ms_NodeSelector s)); gopt MLXDistributed_value (ms_Distributed s)].
Definition MLXModelSpec_value (s : MLXModelSpec) : gval := GStruct (MLXModelSpec_fields s).

(** ** What is admitted *)
Definition quantity_pattern : string := "^(\+|-)?(([0-9]+(\.[0-9]*)?)|(\.[0-9]+))(([KMGTPE]i)|[numkMGTPE]|([eE](\+|-)?(([0-9]+(\.[0-9]*)?)|(\.[0-9]+))))?$".
Definition is_quantity (q : string) : Prop := matches (Some quantity_pattern) q = true.
Definition artifact_ok (a : ArtifactRef) : Prop := 1 <= RuneCount (ar_Reference a) <= 512 /\ RuneCount (ar_Variant a) <= 128.
Record distributed_ok (d : MLXDistributed) : Prop := {
  dok_ranks : 2 <= md_Ranks d;
  dok_backend : md_Backend d ∈ [""; "auto"; "ring"; "jaccl"];
  dok_parallelism : md_Parallelism d ∈ [""; "tensor"; "pipeline"];
  dok_interconnect : md_Interconnect d ∈ [""; "auto"; "thunderbolt"; "network"];
}.
Record mlx_ok (s : MLXModelSpec) : Prop := {
  mok_source : ms_Model s <> "" <-> ms_Artifact s = None;
  mok_artifact a : ms_Artifact s = Some a -> artifact_ok a /\ ms_Revision s = "";
  mok_quantization : ms_Quantization s <> "" -> RuneCount (ms_Quantization s) <= 128 /\ matches (Some "^[A-Za-z0-9._-]+$") (ms_Quantization s) = true;
  mok_replicas n : ms_Replicas s = Some n -> 0 <= n;
  mok_port : 0 <= ms_Port s <= 65535;
  mok_distributed d : ms_Distributed s = Some d -> distributed_ok d;
}.
(** The interconnect of a sharded model that names none. *)
Definition default_interconnect (d : MLXDistributed) : MLXDistributed :=
  mkMLXDistributed (md_Ranks d) (md_Backend d) (md_Parallelism d) (if String.eqb (md_Interconnect d) "" then "auto" else md_Interconnect d).
Definition defaulted (s : MLXModelSpec) : MLXModelSpec :=
  mkMLXModelSpec (ms_Model s) (ms_Artifact s) (ms_Revision s) (ms_Quantization s) (ms_Memory s) (ms_Replicas s) (ms_Port s) (ms_Runtime s)
    (ms_Cache s) (ms_NodeSelector s) (default_interconnect <$> ms_Distributed s).
Lemma defaulted_ok s : mlx_ok (defaulted s) <-> mlx_ok s.
Proof.
  assert (forall d, distributed_ok (default_interconnect d) <-> distributed_ok d) as Hd.
  { intros d. unfold default_interconnect. destruct (String.eqb_spec (md_Interconnect d) "") as [E|E].
    - split; intros []; split; cbn in *; try done; [rewrite E|]; set_solver.
    - split; intros []; by split. }
  split; intros [? ? ? ? ? Hdist]; split; try done; cbn in Hdist |- *.
  - intros d Hs. rewrite Hs in Hdist. apply Hd, Hdist. done.
  - intros d' (d & E & ->)%fmap_Some. apply Hd, Hdist, E.
Qed.

Section Models.
Context (date_time : string -> bool) (time_text : Time -> string).
Abbreviation enc := (encode time_text).
Abbreviation valid := (valid date_time).

Lemma struct_valid_iff props rq df rules old vs fs : length vs = length fs -> bool_decide (NoDup (field_names fs)) = true ->
  valid (SObject props None rq None df rules) old (enc (GStruct vs) (TStructOf fs)) = true <->
  Forall (fun k => is_Some (member time_text vs fs k)) rq /\
  Forall (fun p : string * schema => forall j, member time_text vs fs p.1 = Some j -> valid p.2 (old ≫= field_of p.1) j = true) props /\
  Forall (fun r => rule_holds (JObj (present (members time_text vs fs))) old r = true) rules.
Proof.
  intros Hl Hn%bool_decide_eq_true. rewrite enc_members, valid_object. cbn [at_most]. setoid_rewrite members_lookup; [|done..]. tauto.
Qed.
Lemma sized_iff mn mx p old s : valid (SString (mkstrings [] mn mx p "") []) old (JStr s) = true <->
  at_least mn (RuneCount s) = true /\ at_most mx (RuneCount s) = true /\ matches p s = true.
Proof. cbn -[RuneCount matches]. unfold string_ok. cbn -[RuneCount matches]. rewrite !andb_true_iff. tauto. Qed.
Lemma word_iff old l s : l <> [] -> (forall j, mem time_text OmitEmpty (GStr s) TString = Some j -> valid (enum l) old j = true) <-> s ∈ "" :: l.
Proof.
  intros Hl. rewrite mem_string, nonempty_member, valid_enum, elem_of_cons by done. destruct (decide (s = "")); naive_solver.
Qed.
Lemma text_iff g old s : (forall j, mem time_text g (GStr s) TString = Some j -> valid text old j = true) <-> True.
Proof. split; [done|]. intros _. by apply struct_field. Qed.

Lemma sized_field mn mx p old s t : (forall j, mem time_text Always (GStr s) t = Some j -> valid (SString (mkstrings [] mn mx p "") []) old j = true) <->
  at_least mn (RuneCount s) = true /\ at_most mx (RuneCount s) = true /\ matches p s = true.
Proof. rewrite mem_always, some_member. apply sized_iff. Qed.
Lemma sized_opt_field mn mx p old s : (forall j, mem time_text OmitEmpty (GStr s) TString = Some j -> valid (SString (mkstrings [] mn mx p "") []) old j = true) <->
  (s <> "" -> at_least mn (RuneCount s) = true /\ at_most mx (RuneCount s) = true /\ matches p s = true).
Proof. rewrite mem_string, nonempty_member. by rewrite sized_iff. Qed.
Lemma opt_struct {A} (f : A -> gval) o t s old (P : A -> Prop) : (forall a, o = Some a -> valid s old (enc (f a) t) = true <-> P a) ->
  (forall j, mem time_text OmitEmpty (gopt f o) (TPtrTo t) = Some j -> valid s old j = true) <-> (forall a, o = Some a -> P a).
Proof. intros H. rewrite mem_opt, fmap_member. split; intros Ho a Ha; apply (H a Ha), Ho, Ha. Qed.

Lemma artifact_valid old a : valid (SObject [("reference", SString (mkstrings [] (Some 1) (Some 512) None "") []);
    ("variant", SString (mkstrings [] None (Some 128) None "") [])] None ["reference"] None [] []) old (enc (ArtifactRef_value a) (TStructOf jf_ArtifactRef)) = true <->
  artifact_ok a.
Proof.
  unfold ArtifactRef_value. rewrite struct_valid_iff by done. rewrite !Forall_cons. cbn -[mem CrdSchema.valid RuneCount].
  rewrite sized_field, sized_opt_field. cbn [at_least at_most matches]. rewrite !Z.leb_le. unfold artifact_ok. split.
  - intros (_ & ((? & ? & _) & Hv & _) & _). split; [lia|]. destruct (decide (ar_Variant a = "")) as [->|Hne]; [done|]. by apply Hv.
  - intros [[? ?] ?]. split_and!; try done; by constructor || by eexists.
Qed.
Abbreviation distributed_schema := (SObject [("ranks", SInteger "int32" None None); ("backend", enum ["auto"; "ring"; "jaccl"]);
    ("parallelism", enum ["tensor"; "pipeline"]); ("interconnect", enum ["auto"; "thunderbolt"; "network"])]
    None [] None [("interconnect", JStr "auto")]
    [mkrule "has(self.ranks) && self.ranks >= 2" (CAnd (Has Self "ranks") (CGe (Field Self "ranks") (LitZ 2)))]).
Lemma distributed_valid old d : in_i32 (md_Ranks d) ->
  valid distributed_schema old (enc (MLXDistributed_value d) (TStructOf jf_MLXDistributed)) = true <-> distributed_ok d.
Proof.
  intros Hr. unfold MLXDistributed_value. rewrite struct_valid_iff by done. rewrite !Forall_cons.
  assert (rule_holds (JObj (present (members time_text [GInt (md_Ranks d); GStr (md_Backend d); GStr (md_Parallelism d); GStr (md_Interconnect d)] jf_MLXDistributed))) old
    (mkrule "has(self.ranks) && self.ranks >= 2" (CAnd (Has Self "ranks") (CGe (Field Self "ranks") (LitZ 2)))) = true <-> 2 <= md_Ranks d) as ->.
  { unfold rule_holds. cbn -[members lookup_key]. rewrite bool_decide_eq_true, members_lookup by (done || by apply (bool_decide_unpack _)).
    cbn -[mem]. rewrite mem_int. unfold nonzero. destruct (Z.eqb_spec (md_Ranks d) 0) as [->|Hz]; cbn; [split; [done|lia]|].
    destruct (Z.leb_spec 2 (md_Ranks d)); cbn; split; (done || lia). }
  cbn -[mem CrdSchema.valid enum rule_holds]. rewrite !word_iff by done. rewrite mem_int, nonzero_member.
  split.
  - intros (_ & (_ & ? & ? & ? & _) & ? & _). by split.
  - intros []. split_and!; try done; try apply List.Forall_nil. intros _. cbn -[format_range]. by rewrite format_range_32.
Qed.
Lemma cache_valid old c : is_quantity (mc_Size c) ->
  valid (SObject [("size", SIntOrString (Some quantity_pattern)); ("storageClassName", text)] None ["size"] None [] [])
    old (enc (MLXCache_value c) (TStructOf jf_MLXCache)) = true.
Proof.
  intros Hq. unfold MLXCache_value. rewrite struct_valid_iff by done. rewrite !Forall_cons. cbn -[mem CrdSchema.valid].
  rewrite text_iff. split_and!; try done; try apply List.Forall_nil. by intros j [= <-].
Qed.
Lemma runtime_valid old r :
  valid (SObject [("image", text); ("args", SArray text None None ListAtomic)] None [] None [] []) old (enc (MLXRuntime_value r) (TStructOf jf_MLXRuntime)) = true.
Proof.
  unfold MLXRuntime_value. rewrite struct_valid_iff by done. rewrite !Forall_cons. cbn -[mem CrdSchema.valid gslice_of].
  rewrite text_iff. split_and!; try done; try apply List.Forall_nil. apply slice_field; [done|done|]. by apply Forall_forall.
Qed.
Lemma labels_valid old m : forall j, mem time_text OmitEmpty (GMap (prod_map id GStr <$> sorted_entries m)) (TMapOf TString) = Some j ->
  valid (SObject [] (Some text) [] None [] []) old j = true.
Proof.
  apply struct_field. cbn -[CrdSchema.valid]. rewrite valid_map. split; [done|]. rewrite map_map, Forall_map. by apply Forall_forall.
Qed.
Lemma source_rules old s : let self := JObj (present (members time_text (MLXModelSpec_fields s) jf_MLXModelSpec)) in
  (rule_holds self old (mkrule "has(self.model) != has(self.artifact)" (CNe (Has Self "model") (Has Self "artifact"))) = true <->
     (ms_Model s <> "" <-> ms_Artifact s = None)) /\
  (rule_holds self old (mkrule "!has(self.artifact) || !has(self.revision)" (COr (CNot (Has Self "artifact")) (CNot (Has Self "revision")))) = true <->
     (ms_Artifact s = None \/ ms_Revision s = "")).
Proof.
  cbn zeta. unfold rule_holds. cbn -[members lookup_key]. rewrite !bool_decide_eq_true. rewrite !members_lookup by (done || by apply (bool_decide_unpack _)).
  cbn -[mem]. rewrite !mem_string, mem_opt. unfold nonempty.
  destruct (String.eqb_spec (ms_Model s) ""), (String.eqb_spec (ms_Revision s) ""), (ms_Artifact s); cbn; split; split; naive_solver.
Qed.
Lemma int32_field mn mx old o : (forall z, o = Some z -> in_i32 z) ->
  (forall j, mem time_text OmitEmpty (gint o) (TPtrTo TInt32) = Some j -> valid (SInteger "int32" mn mx) old j = true) <->
  (forall z, o = Some z -> at_least mn z = true /\ at_most mx z = true).
Proof. intros Ho. rewrite <- (int32_member date_time mn mx old) by done. by destruct o. Qed.
Record quantities (s : MLXModelSpec) : Prop := {
  qs_memory : is_quantity (ms_Memory s);
  qs_cache c : ms_Cache s = Some c -> is_quantity (mc_Size c);
}.
Lemma port_field old z : in_i32 z ->
  (forall j, mem time_text OmitEmpty (GInt z) TInt32 = Some j -> valid (SInteger "int32" (Some 0) (Some 65535)) old j = true) <-> 0 <= z <= 65535.
Proof.
  intros Hz. rewrite mem_int, nonzero_member. cbn -[format_range]. rewrite format_range_32, !andb_true_iff, !Z.leb_le by done.
  destruct (decide (z = 0)); [subst; split; [lia|done]|]. tauto.
Qed.
Lemma mlx_valid old s : has (TStructOf jf_MLXModelSpec) (MLXModelSpec_value s) -> quantities s ->
  valid mlxModel_spec old (enc (MLXModelSpec_value s) (TStructOf jf_MLXModelSpec)) = true <-> mlx_ok s.
Proof.
  intros (_ & _ & _ & _ & _ & Hrep & Hport & _ & _ & _ & Hdist & _) [Hm Hc]. unfold MLXModelSpec_value, mlxModel_spec.
  pose proof (fun d Hd => proj1 (proj1 (has_gopt _ _ _) Hdist d Hd)) as Hranks. pose proof (has_int32 _ Hrep) as Hreps.
  fold quantity_pattern. rewrite struct_valid_iff by done. destruct (source_rules old s) as [Hsource Hrevision]. split.
  - intros (_ & Hf & Hr). rewrite !Forall_cons in Hr. destruct Hr as (Hs%Hsource & Hv%Hrevision & _).
    rewrite !Forall_cons in Hf. cbn -[mem CrdSchema.valid enum gopt gslice_of sorted_entries text RuneCount matches quantity_pattern MLXRuntime_value rule_holds] in Hf. destruct Hf as (_ & Ha & _ & Hq & _ & Hn & Hp & _ & _ & _ & Hd & _).
    pose proof (proj1 (opt_struct _ _ _ _ _ artifact_ok (fun a _ => artifact_valid _ a)) Ha) as Ha'.
    pose proof (proj1 (opt_struct _ _ _ _ _ distributed_ok (fun d Hd => distributed_valid _ d (Hranks d Hd))) Hd) as Hd'.
    pose proof (proj1 (int32_field _ _ _ _ Hreps) Hn) as Hn'. pose proof (proj1 (port_field _ _ Hport) Hp) as Hp'.
    pose proof (proj1 (sized_opt_field _ _ _ _ _) Hq) as Hq'. split; try done.
    + intros a Hsa. split; [by apply Ha'|]. destruct Hv as [Hnone|]; [congruence|done].
    + intros Hne. by destruct (Hq' Hne) as (_ & ?%Z.leb_le & ?).
    + intros n Hsn. destruct (Hn' n Hsn) as [?%Z.leb_le _]. done.
  - intros []. split_and!; [|rewrite !Forall_cons|rewrite !Forall_cons].
    + repeat constructor. by eexists.
    + cbn -[mem CrdSchema.valid enum gopt gslice_of sorted_entries text RuneCount matches quantity_pattern MLXRuntime_value].
      split_and!; try apply List.Forall_nil; try apply labels_valid; try (by apply text_iff); try (apply struct_field, runtime_valid).
      * apply sized_opt_field. intros ?%RuneCount_pos. cbn [at_least at_most]. by rewrite Z.leb_le.
      * apply (opt_struct _ _ _ _ _ artifact_ok (fun a _ => artifact_valid _ a)). intros a Ha. by apply mok_artifact0.
      * apply sized_opt_field. intros Hq. destruct (mok_quantization0 Hq). cbn [at_least at_most]. by rewrite Z.leb_le.
      * by intros j [= <-].
      * apply (int32_field _ _ _ _ Hreps). intros z Hz. cbn [at_least at_most]. rewrite Z.leb_le. auto.
      * by apply port_field.
      * apply (opt_struct _ _ _ _ _ (fun _ => True)); [|done]. intros c Hcc. split; [done|]. intros _. by apply cache_valid, Hc.
      * by apply (opt_struct _ _ _ _ _ distributed_ok (fun d Hd => distributed_valid _ d (Hranks d Hd))).
    + rewrite Hsource, Hrevision. split_and!; [done| |by constructor].
      destruct (ms_Artifact s) as [a|]; [right; by apply (mok_artifact0 a)|by left].
Qed.
(** ** What is stored *)
Definition filled_at (props : list (string * schema)) (k : string) (v : jv) : jv :=
  match lookup_key k props with Some s => fill s v | None => v end.
Lemma fill_present props rq mp rs (l : list (string * option jv)) :
  fill (SObject props None rq mp [] rs) (JObj (present l)) = JObj (present (map (fun kv => (kv.1, option_map (filled_at props kv.1) kv.2)) l)).
Proof.
  cbn. rewrite app_nil_r. f_equal. induction l as [|[k [v|]] l IH]; cbn; [done| |exact IH].
  f_equal; [|exact IH]. apply (fill_members props None).
Qed.
Lemma distributed_filled d : fill distributed_schema (enc (MLXDistributed_value d) (TStructOf jf_MLXDistributed)) =
  enc (MLXDistributed_value (default_interconnect d)) (TStructOf jf_MLXDistributed).
Proof.
  unfold MLXDistributed_value, default_interconnect. rewrite !enc_members, fill_flat by (by repeat constructor).
  f_equal. cbn -[mem missing]. rewrite !mem_int, !mem_string. unfold nonzero, nonempty.
  destruct (String.eqb_spec (md_Interconnect d) "") as [E|E]; destruct (md_Ranks d =? 0), (String.eqb (md_Backend d) ""), (String.eqb (md_Parallelism d) "");
    cbn -[String.eqb]; try done; rewrite ?(proj2 (String.eqb_neq _ _) E); done.
Qed.
Lemma mlx_filled s : fill mlxModel_spec (enc (MLXModelSpec_value s) (TStructOf jf_MLXModelSpec)) =
  enc (MLXModelSpec_value (defaulted s)) (TStructOf jf_MLXModelSpec).
Proof.
  unfold MLXModelSpec_value. rewrite !enc_members. etransitivity; [apply fill_present|]. do 2 f_equal.
  unfold members, MLXModelSpec_fields, jf_MLXModelSpec, filled_at. cbn [zip_with map fst snd lookup_key String.eqb Ascii.eqb Bool.eqb].
  assert (forall (k : string) s' (o : option jv), no_defaults s' = true -> (k, option_map (fill s') o) = (k, o)) as Hid.
  { intros k s' [v|] Hs; [|done]. cbn. by rewrite fill_id. }
  do 10 (apply (f_equal2 cons); [by apply Hid|]). do 2 f_equal. cbn [defaulted ms_Distributed]. rewrite !mem_opt.
  destruct (ms_Distributed s) as [d|]; [|done]. cbn [fmap option_fmap option_map]. f_equal. apply distributed_filled.
Qed.
End Models.
Lemma defaulted_has s : has (TStructOf jf_MLXModelSpec) (MLXModelSpec_value s) -> has (TStructOf jf_MLXModelSpec) (MLXModelSpec_value (defaulted s)).
Proof.
  unfold MLXModelSpec_value, jf_MLXModelSpec. intros Hh. cbn in Hh |- *. destruct (ms_Distributed s); [|done]. cbn in Hh |- *. tauto.
Qed.

(** C21: A model is admitted exactly when one of model and artifact is set,
    no revision stands beside an artifact, the ranks of a sharded model are at
    least two and every field is in its bounds and vocabulary; what is stored
    is the object as it was written, with the interconnect of a sharded model
    that names none set to "auto".  Any other model is refused. *)
Theorem mlx_admission_iff date_time time_text old s :
  has (TStructOf jf_MLXModelSpec) (MLXModelSpec_value s) -> quantities s ->
  let j := encode time_text (MLXModelSpec_value s) (TStructOf jf_MLXModelSpec) in
  let j' := encode time_text (MLXModelSpec_value (defaulted s)) (TStructOf jf_MLXModelSpec) in
  (mlx_ok s <-> admission date_time mlxModel_spec old j = Some j') /\ (~ mlx_ok s <-> admission date_time mlxModel_spec old j = None).
Proof.
  intros Hh Hq. cbn zeta. rewrite (admission_filled time_text date_time (TStructOf jf_MLXModelSpec)); [|reflexivity| |done].
  2: by destruct (solid_no_nulls (TStructOf jf_MLXModelSpec) _ eq_refl Hh) as [[? _]|].
  rewrite mlx_filled, <- defaulted_ok, <- (mlx_valid date_time time_text old (defaulted s)).
  - destruct (valid _ _ _ _); split; split; congruence.
  - by apply defaulted_has.
  - by destruct Hq.
Qed.
Definition sharded_model : MLXModelSpec :=
  mkMLXModelSpec "" (Some (mkArtifactRef "registry.k3sm.io/llama:70b" "4bit")) "" "" "48Gi" (Some 0) 8080 (mkMLXRuntime "" ["--trust"])
    None {["mlx.k3sm.io/chip" := "m4-max"]} (Some (mkMLXDistributed 2 "ring" "" "")).
Lemma mlx_admission_iff_witness :
  admission (fun _ => true) mlxModel_spec None (encode (fun _ => "") (MLXModelSpec_value sharded_model) (TStructOf jf_MLXModelSpec)) =
  Some (encode (fun _ => "") (MLXModelSpec_value (defaulted sharded_model)) (TStructOf jf_MLXModelSpec)) /\
  ms_Distributed (defaulted sharded_model) = Some (mkMLXDistributed 2 "ring" "" "auto").
Proof.
  split; [|reflexivity]. apply (mlx_admission_iff (fun _ => true) (fun _ => "") None sharded_model).
  - cbn. unfold in_i32. repeat (split || constructor || lia).
  - by split; [vm_compute|].
  - split; cbn; try done; try lia.
    + intros a [= <-]. split; [|done]. split; vm_compute; by split || done.
    + by intros n [= <-].
    + intros d [= <-]. split; cbn; [lia|set_solver..].
Defined.

(** The manifest bounds the reference by characters: one of two-byte
    characters is admitted at twice the documented number of bytes. *)
Definition accents (n : nat) : string := Nat.iter n (fun s => String (Ascii.ascii_of_nat 195) (String (Ascii.ascii_of_nat 169) s)) "".
Lemma long_reference_admitted : slen (accents 512) = 1024 /\ artifact_ok (mkArtifactRef (accents 512) "").
Proof. split; [by vm_compute|]. split; vm_compute; by split || done. Qed.
(** The manifest does not require a spec, so an object without one, and so
    without the required memory, is admitted. *)
Lemma model_without_spec date_time old :
  let j := JObj [("apiVersion", JStr "mlx.k3sm.io/v1alpha1"); ("kind", JStr "MLXModel"); ("metadata", JObj [])] in
  Forall (fun v => admission date_time (ver_schema v) old j = Some j) (crd_versions mlxModelCRDYAML).
Proof. cbn zeta. constructor; [|by constructor]. by destruct old as [[]|]. Qed.
